(* ===== verification/_CoqProject ===== *)
-Q . S2P
Prelude.v
Comp.v
Ram.v
Machine.v
KSpace.v
Utils.v
Pmm.v
FrameRuns.v
Vmm.v
VmmMap.v
VmmWalk.v
Space.v
User.v
UserRuns.v
HeapSpec.v
Heap.v
HeapRealloc.v
HeapProps.v
HeapRuns.v
Idt.v
Isr.v
ElfConst.v
ElfFormat.v
ElfArch.v
ElfNotes.v
ElfRelocs.v
Elf.v
Loader.v
ElfWrite.v
SharedPages.v
Kernel.v
FirstStage.v
Gdt.v
Stubs.v
PagingInit.v
UserRoot.v
Boot.v
Interrupts.v
Bootloader.v
Demo.v
Witness.v
