(* ===== verification/Prelude.v ===== *)
(** * Verification of the TerraOS kernel

    TerraOS (src/terra-kernel) is a small x86-64 kernel in C with its bootloader.  The
    bootloader reads the kernel from the disk and the memory map from the BIOS, builds
    page tables and enters [kernel_main] (kernel.c), which sets up interrupts, SSE, its
    own page tables, the page allocator and the heap, makes a second address space, and
    loads an embedded ELF program into it.  This library models every C function of the
    kernel, the assembly stubs and the bootloader, and proves what each component
    promises to the next, up to [power_on_shuts_down] (Bootloader.v): from the first
    instruction of the boot sector the machine gets through the bootloader, the kernel's
    initialisation and the loading of the program, whose pages and bytes are all in
    place; but as the code is built the last step of the loader faults, and the processor
    shuts down instead of entering the program.

    ** The model

    Code is a shallow embedding in an error-state monad ([comp], Comp.v): a function
    of C type [A f(B)] is [f : B -> M A] over the state [machine] (Machine.v), and
    ends in [Ret] or in [Stop] with a reason: a page fault, [hlt] for good, [sysret],
    undefined behaviour, or no fuel.  [wp c Q E m] says that [c], run in [m], ends, in
    [Q] if it returns and in [E] if it stops; the theorems use [nostop] for [E] where
    the code always returns, so they state termination and the absence of faults
    together with the result.

    The state is physical memory, a byte map (Ram.v); the TLB and [cr3]; the other
    registers and devices the inline assembly touches; and the global variables.
    Every dereference of a pointer is a [vload] or [vstore] through [translate]: the
    TLB answers first, else the 4-level tables at [cr3] are walked and the result is
    cached.  A page-table entry changed without [invlpg] is therefore not seen.
    Integers are [Z]; each wrap-around of the C types is written out ([u8] .. [u64]).

    ** How the components meet

    Each file proves a rule [wp_f] per function, and its callers use only the rule.
    The kernel's own tables are an interface, [kspace] (KSpace.v) over a record
    [ktables] of where they lie; paging_init establishes it, create_user_table
    replaces the root and establishes it again ([user_tables]).  The page allocator is
    the class [FrameAllocator]: a set of free frames [frees], and what pmm_alloc and
    pmm_free do to it; vmm.c and the loader are proved against the class.  The frame
    relation [wstep W] says that only bytes in [W] changed and that the TLB gained only
    translations the tables give; class [Quiet] names the virtual pages outside the
    kernel's window of which the code must leave no translation behind (the lower half
    of a program, or, while the kernel is still alone, every such page).

    The assumptions of the model: accesses are supervisor accesses with CR0.WP clear,
    so the RW and US bits of an entry are stored and returned but refuse nothing; the
    global variables of the C files ([next_free], [pml4t], [heap], [idt], ...) are
    kept in a record and not in the byte map, since no code takes their address
    (but for [&idt], a parameter), and the machine code and the locals of C functions are
    not in the byte map either (no theorem lets a program segment into the kernel's half,
    where they would be); C code runs with no interrupt between two statements, and what
    an interrupt would do to it there is shown of its own (Interrupts.v).  An operand of an
    assembly statement has its C value, with one exception, in load_elf: there [rbp] is
    replaced and the next statement reads [entry] through it, as the compiler does without
    optimisation, [entry_slot] bytes below (0x68 with GCC 13); its [sysret] is the 32-bit
    form, as the assembler reads the bare mnemonic.  Link-time addresses, [entry_slot], the
    value the compiler gives an over-wide shift, the calling convention and the registers a
    C function leaves, and the answers of the BIOS are parameters ([symbols],
    [kernel_symbols], [abi], [int10], [int13], [int15]).

    An interrupt (Stubs.v) is delivered by reading the entry of the interrupt table at the
    address in [idtr] and the descriptor of its code segment at the address in [gdtr],
    both through the page tables and the TLB, and [iretq] reads the descriptors of the
    segments it restores; a page fault while a page fault is delivered is a double fault,
    and one more shuts the processor down.  The entries of the interrupt table themselves
    are those of the variable [idt], if [idtr] has its address.

    ** Files and the code they model (paths under src/terra-kernel/kernel)

    - Prelude.v   fixed-width integers, constants of headers/utils.h, bit and mask lemmas
    - Comp.v      the monad, [wp] and its rules, the loops [for_range], [for_find],
                  [for_fold], [while_fuel] with their invariant rules; [runs] of a client
    - Ram.v       byte memory, little-endian loads and stores, [agree] off a region
    - Machine.v   the machine, translation, [vload]/[vstore], [wstep W] (the frame
                  relation: memory changed only inside [W], the TLB only grew by walks)
    - KSpace.v    [kspace]: the kernel's first 2 MiB are mapped one to one at
                  KERNEL_BASE, by tables that are themselves in that window
    - Utils.v     utils.c: bootstrap pool, memcpy, memset, panic, MSRs; drawn text
    - Pmm.v       pmm.c; class [FrameAllocator], which the memory manager is proved
                  against and pmm.c implements
    - FrameRuns.v a client of the page allocator: frames are conserved over any run
    - Vmm.v, VmmMap.v, VmmWalk.v   vmm.c: the functions and temp_map; one table level
                  and the whole path; map, get and unmap against the hardware walk
    - Space.v     the lower half of an address space as a tree of page tables
                  ([space]: which frame holds the table of which path) and map_page on it
    - User.v      the memory of a program, [uas]: a map from virtual pages to frames of
                  their own; pmm_alloc with map_page as insertion, memcpy through it
    - UserRuns.v  unmap_page as deletion from that map; a client that maps and unmaps
                  pages as a step relation, the invariant of its reachable states
    - HeapSpec.v  what the heap promises: operations on an address-ordered list of chunks
    - Heap.v, HeapRealloc.v, HeapProps.v   kheap.c: code and representation, kalloc and
                  kfree; krealloc; the refinement theorems and invariants
    - HeapRuns.v  a client of the heap: runs of calls as a step relation, the invariant
                  of its reachable states
    - Idt.v       idt/idt.c, with the two 8259 controllers as devices
    - Isr.v       idt/isr.c
    - ElfConst.v, ElfFormat.v   headers/elf.h: constants, structure layouts, a reader
                  of file images, and what makes an image an executable for this kernel
    - ElfArch.v   headers/elf.h: what each processor adds to the format, and the ranges
                  it keeps to
    - ElfNotes.v  headers/elf.h: versions, auxiliary vector, notes, moves; all layouts
    - ElfRelocs.v headers/elf.h: the relocation types of every processor
    - Elf.v       elf_parser/elf_parser.c: the code, and the rejected files
    - Loader.v    load_elf of a file that is accepted, up to the fault it ends in
    - ElfWrite.v  a writer of executables by the tables of the ABI, and that headers/elf.h
                  reads back what it writes
    - SharedPages.v  load_elf of segments that share a page; accesses through a stale
                  translation ([reaches])
    - Kernel.v    kernel.c: [kernel_main] and its parts, the embedded program
    - FirstStage.v   ../bootloader in real mode: bootloader.asm, tochs.asm, get_mmap.asm;
                  the memory below 1 MiB as the state, the layout of a FAT volume
    - Gdt.v       ../bootloader: the descriptor tables, real_mode/elevate.asm
    - Stubs.v     idt/isr_stubs.asm, syscall/syscallstub.asm: the stubs as programs of a
                  small instruction set, the delivery of an interrupt and [iretq]
    - PagingInit.v   paging_init, against the hardware walk
    - UserRoot.v  create_user_table: from the kernel's tables to the root of a program
    - Boot.v      kernel_main as a whole: [booted] after paging_init, [ready] from there
                  on, [running] at its end
    - Interrupts.v   interrupts and exceptions of the kernel, before and after paging_init
                  unmaps the descriptor table
    - Bootloader.v   ../bootloader: init_pt.asm, protected_mode/elevate.asm, entry64, and
                  the machine from power-on to its shutdown
    - Demo.v, Witness.v   a concrete machine with tables, bitmap, heap and screen, and
                  the theorems applied to it

    ** What is proved

    - Page frames (Pmm.v): pmm_init frees exactly the pages of usable memory above
      2 MiB; pmm_alloc is first fit; pmm_free marks one page; round trip and
      distinctness.  All for any memory map that fits the pool.  FrameRuns.v: over any
      sequence of calls frames are neither lost nor handed out twice.
    - Paging (VmmWalk.v, PagingInit.v): map_page makes the hardware walk end in the
      frame and keeps other translations, get_physical_address reads it back,
      unmap_page undoes it and gives back the frame and empty tables, temp_map leaves
      no stale TLB entry; paging_init maps the first 2 MiB and nothing else.
      Shown as defects: the directory entry of a released table stays present, a cached
      translation outlives unmap_page and a second map_page, and without memory
      page 0 is mapped.
    - Heap (HeapProps.v): heap_init, kalloc, kfree and krealloc refine the list
      operations of HeapSpec.v; blocks are aligned, disjoint and keep their bytes; the
      chunks tile the heap and free neighbours are merged.  HeapRuns.v lifts this to any
      sequence of calls: blocks stay apart and keep their contents, every call but a
      growth of the last chunk returns, and when all is freed the heap is one chunk again.  Shown as defects: the size
      rounding wraps, growth in place loses 32 bytes, growing the last chunk faults.
    - Interrupts (Idt.v, Isr.v, Stubs.v, Interrupts.v): gates, vectors, controllers; from the
      [sti] of idt_init to paging_init the kernel can take interrupts
      ([boot_start_interruptible], Bootloader.v), and then an interrupt returns with every
      register and all memory off its stack frame as they were, and an exception is
      reported by name and number, through the stub that fits its error code.  Shown as
      defects: paging_init unmaps the descriptor table, and from then on every interrupt and
      exception shuts the processor down; the system-call stub never returns.
    - Address spaces (Space.v, User.v): map_page keeps the lower half a tree of tables
      and changes one translation; with pmm_alloc it is insertion into the page map of
      the program; memcpy through that map changes exactly the bytes of its range.  UserRuns.v:
      unmap_page is deletion, mapping a page again replaces it, and over any sequence of
      calls that do not empty a page table the walk finds exactly the pages the client
      holds, with their bytes.
      Shown as a defect: the new page keeps the old bytes of its frame.
    - Loading (Elf.v, Loader.v): rejection codes, pages of a segment; load_elf of a sound
      file maps exactly its pages, with its bytes in them, and one stack page.  Shown as
      defects: it then faults reading [entry] below that page, so that no program is
      entered; SharedPages.v: of two segments on one page the second is mapped to a new
      frame but copied to the old one, so that the tables name the bytes of neither.
    - The kernel as a whole (UserRoot.v, Boot.v, Kernel.v, Interrupts.v): create_user_table
      makes an empty lower half under the kernel's upper half; kernel_main, from the state
      the bootloader leaves, puts the program of the image in place and ends in the fault
      of the loader; the embedded program is an executable the loader accepts, and with it
      the fault cannot be delivered.
    - The bootloader (FirstStage.v, Gdt.v, Bootloader.v): the layout of the volume, block
      addresses, the memory map, the reads that bring the kernel into memory; the
      descriptor of every selector; page tables that map the kernel's window in whatever
      memory they are built; and all of it composed with the kernel.  Whatever reads of the
      disk fail, the boot sector halts with its message rather than go on.  Shown as defects:
      the tables of the trampoline keep what memory held, and the selector meant for
      [sysret] has no descriptor.
    - File format (ElfWrite.v, ElfNotes.v, ElfRelocs.v, ElfArch.v): the structures of elf.h
      read back what a writer following the ABI has written, and the loader accepts it;
      every structure has the size of the specification; the accessor macros invert the
      packing ones for every relocation type; the constants of the processors keep to the
      ranges reserved for them, and the masks but for the twelve that are named.
    - Processor set-up (Kernel.v): SSE, system calls (and what STAR does not get).

    ** Fuel

    Loops with a fixed bound use [for_range], [for_find] or [for_fold] and need none.
    The heap's list walks take [avail / 32 + 2] steps ([heap_fuel]): every header
    occupies 32 bytes of the heap, and the refinement theorems show it is enough.  The
    program-header loop takes 2^16 + 1, more than a 16-bit [e_phnum] allows.  The loop
    over the pages of a memory-map entry takes one step per page and one to leave.  A
    stub jumps once, to its common block, which is what [run] is given.  The loop of
    get_mmap takes one step per entry and one for an answer with the carry; its theorems
    give it that many.

    ** Not modelled

    Of the bootloader: the return addresses its near calls push just below 0x9000, in the
    last entry of the trampoline's page table, one of those [init_pt_correct] leaves open;
    the segment registers, which appear as the bases of the addresses.  Of interrupts:
    their arrival in the middle of a C function, whose code the compiler chooses (the
    theorems on kernel_main say what it does when none arrives); the exceptions of
    selectors and descriptors that are not fit, and of vectors without a gate
    ([Undefined]); debug exceptions.  Of programs: their execution, since none is entered,
    and files with segments in the kernel's half.  Linker scripts and the Makefile are
    read for addresses and flags only; test.c is modelled as its compiled form,
    [user_program_elf]. *)

From Stdlib Require Export ZArith Lia.
From stdpp Require Export base gmap list fin_maps.

#[global] Open Scope Z_scope.

(** ** Machine integers

    A w-bit unsigned C value is a [Z]; the wrap-around of the C types is written
    out where the source computes with them. *)

(** [uint8_t], [uint16_t], [uint32_t], [uint64_t] conversions. *)
Definition u8 (x : Z) : Z := x mod 2 ^ 8.
Definition u16 (x : Z) : Z := x mod 2 ^ 16.
Definition u32 (x : Z) : Z := x mod 2 ^ 32.
Definition u64 (x : Z) : Z := x mod 2 ^ 64.

(** ** Constants of utils.h and vmm.h *)
Definition KERNEL_BASE : Z := 0xFFFFFFFF80000000.
Definition POOL_START : Z := 0xFFFFFFFF80020000.
Definition POOL_END : Z := 0xFFFFFFFF801FF000.
Definition KERNEL_END : Z := 0xFFFFFFFF80200000.
Definition PAGE_SIZE : Z := 0x1000.
Definition PAGE_MASK : Z := 0x000FFFFFFFFFF000.
Definition TEMP_PAGE : Z := 0xFFFFFFFF801FF000.
Definition NULL : Z := 0.

Ltac zconst :=
  unfold KERNEL_BASE, POOL_START, POOL_END, KERNEL_END, PAGE_SIZE, TEMP_PAGE, NULL in *.

(** ** Generic automation *)

(** linear arithmetic after the division equations, with the widths unfolded *)
Ltac dlia := Z.div_mod_to_equations; lia.
Ltac ulia := unfold u8, u16, u32, u64 in *; dlia.

Create HintDb kern.
Create Rewrite HintDb kern.

(** ** Widths *)

Lemma u64_range x : 0 <= u64 x < 2 ^ 64.
Proof. unfold u64. apply Z.mod_pos_bound. lia. Qed.

Lemma u64_small x : 0 <= x < 2 ^ 64 -> u64 x = x.
Proof. intros. apply Z.mod_small. lia. Qed.

Lemma u8_small x : 0 <= x < 2 ^ 8 -> u8 x = x.
Proof. intros. apply Z.mod_small. lia. Qed.

Lemma u8_range x : 0 <= u8 x < 2 ^ 8.
Proof. unfold u8. apply Z.mod_pos_bound. lia. Qed.

#[export] Hint Resolve u64_range u8_range : kern.
#[export] Hint Rewrite u64_small u8_small using (zconst; lia) : kern.

(** ** Bit masks as arithmetic *)

Lemma land_ones_mod x n : 0 <= n -> Z.land x (Z.ones n) = x mod 2 ^ n.
Proof. apply Z.land_ones. Qed.

Lemma land_1ff x : Z.land x 0x1FF = x mod 512.
Proof. change 0x1FF with (Z.ones 9). by rewrite Z.land_ones by lia. Qed.

Lemma land_fff x : Z.land x 0xFFF = x mod 4096.
Proof. change 0xFFF with (Z.ones 12). by rewrite Z.land_ones by lia. Qed.

Lemma land_1 x : Z.land x 1 = x mod 2.
Proof. change 1 with (Z.ones 1) at 1. by rewrite Z.land_ones by lia. Qed.

Lemma land_1_testbit x : (Z.land x 1 =? 0) = negb (Z.testbit x 0).
Proof. rewrite land_1, Z.bit0_odd, Zmod_odd. by destruct (Z.odd x). Qed.

(** masking a field of [w] bits at position [k] *)
Lemma land_field x k w :
  0 <= k -> 0 <= w ->
  Z.land x (Z.shiftl (Z.ones w) k) = (x / 2 ^ k) mod 2 ^ w * 2 ^ k.
Proof.
  intros Hk Hw.
  rewrite <- Z.land_ones, <- Z.shiftr_div_pow2, <- Z.shiftl_mul_pow2 by lia.
  apply Z.bits_inj'. intros n Hn.
  rewrite Z.land_spec, !Z.shiftl_spec by lia.
  destruct (Z.ltb_spec n k).
  - rewrite !(Z.testbit_neg_r _ (n - k)) by lia. by rewrite andb_false_r.
  - rewrite Z.land_spec, Z.shiftr_spec by lia. by replace (n - k + k) with n by lia.
Qed.

Lemma land_page_mask x : Z.land x PAGE_MASK = (x / 4096) mod 2 ^ 40 * 4096.
Proof. change PAGE_MASK with (Z.shiftl (Z.ones 40) 12). by rewrite land_field by lia. Qed.

(** [x & ~0xFFF] on a 64-bit operand: the [int] mask is sign-extended *)
Lemma land_not_fff x : 0 <= x < 2 ^ 64 -> Z.land x (u64 (Z.lnot 0xFFF)) = x / 4096 * 4096.
Proof.
  intros. change (u64 (Z.lnot 0xFFF)) with (Z.shiftl (Z.ones 52) 12).
  rewrite land_field by lia. change (2 ^ 12) with 4096.
  rewrite Z.mod_small; [done|]. dlia.
Qed.

(** [x & ~15] on a 64-bit operand *)
Lemma land_not_15 x : 0 <= x < 2 ^ 64 -> Z.land x (u64 (Z.lnot 15)) = x / 16 * 16.
Proof.
  intros. change (u64 (Z.lnot 15)) with (Z.shiftl (Z.ones 60) 4).
  rewrite land_field by lia. change (2 ^ 4) with 16.
  rewrite Z.mod_small; [done|]. dlia.
Qed.

(** or-ing flags below a page-aligned address is an addition *)
Lemma lor_low x f n :
  0 <= n -> x mod 2 ^ n = 0 -> 0 <= f < 2 ^ n -> Z.lor x f = x + f.
Proof.
  intros Hn Hx Hf.
  assert (Hd : Z.land x f = 0).
  { apply Z.bits_inj'. intros k Hk. rewrite Z.land_spec, Z.bits_0.
    destruct (Z.ltb_spec k n).
    - replace (Z.testbit x k) with false; [done|].
      rewrite <- (Z.mod_pow2_bits_low x n k) by lia. rewrite Hx. by rewrite Z.bits_0.
    - rewrite <- (Z.mod_small f (2 ^ n)) by lia.
      rewrite Z.mod_pow2_bits_high by lia. by rewrite andb_false_r. }
  pose proof (Z.add_nocarry_lxor x f Hd). rewrite <- Z.lxor_lor by done. lia.
Qed.

Lemma lor_flags_range a b : 0 <= a < 4096 -> 0 <= b < 4096 -> 0 <= Z.lor a b < 4096.
Proof.
  intros Ha Hb.
  assert (0 <= Z.lor a b) by (apply Z.lor_nonneg; lia).
  assert (Z.lor a b mod 2 ^ 12 = Z.lor a b).
  { rewrite <- Z.land_ones by lia. rewrite Z.land_lor_distr_l, !Z.land_ones by lia.
    by rewrite !Z.mod_small by lia. }
  pose proof (Z.mod_pos_bound (Z.lor a b) (2 ^ 12)). lia.
Qed.

Lemma lor_page p f : p mod 4096 = 0 -> 0 <= f < 4096 -> Z.lor p f = p + f.
Proof. intros Hp Hf. apply (lor_low p f 12); [lia|exact Hp|exact Hf]. Qed.

Lemma lor_u64 a b : 0 <= a < 2 ^ 64 -> 0 <= b < 2 ^ 64 -> 0 <= Z.lor a b < 2 ^ 64.
Proof.
  intros Ha Hb. assert (H0 : 0 <= Z.lor a b) by (apply Z.lor_nonneg; lia). split; [done|].
  rewrite <- (Z.mod_small a (2 ^ 64)), <- (Z.mod_small b (2 ^ 64)), <- !Z.land_ones, <- Z.land_lor_distr_l by lia.
  rewrite Z.land_ones by lia. by apply Z.mod_pos_bound.
Qed.

Lemma gset_diff_sub (X Y : gset Z) : X ∖ Y ⊆ X.
Proof. intros x Hx. by apply elem_of_difference in Hx as [Hx _]. Qed.

Lemma gset_not_in_diff (X : gset Z) (j : Z) : j ∉ X ∖ {[j]}.
Proof. intros Hx. apply elem_of_difference in Hx as [_ Hn]. by apply Hn, elem_of_singleton. Qed.

(** the size of a set with one element removed *)
Lemma size_remove (X : gset Z) (j : Z) :
  j ∈ X -> exists n, size X = S n /\ size (X ∖ {[j]}) = n.
Proof.
  intros Hj. exists (size (X ∖ {[j]})). split; [|done].
  rewrite (union_difference_singleton_L j X) at 1 by done.
  rewrite size_union; [by rewrite size_singleton|].
  intros x Hx Hd. apply elem_of_singleton in Hx. subst x. by apply (gset_not_in_diff X j).
Qed.
