(* ===== verification/Comp.v ===== *)
(** Computations of the kernel: a state monad whose runs either return or stop
    (page fault, halted CPU, undefined behaviour, return to user mode), its total
    correctness predicate [wp] with a postcondition for each way of ending, and
    the loop combinators of the C control structures. *)

From S2P Require Import Prelude.

Declare Scope kernel_scope.
Delimit Scope kernel_scope with kernel.
#[global] Open Scope kernel_scope.

(** The ways a computation ends without returning to its C caller. *)
Inductive stop : Type :=
  | PageFault (va : Z)               (* an access the page tables do not map *)
  | Halted                           (* the [while (1) hlt] loops *)
  | Undefined                        (* undefined behaviour, or an exception that is not modelled *)
  | Sysret (eip rsp r11 : Z)         (* [sysret], in its 32-bit form, entered user mode *)
  | Shutdown                         (* a fault while a double fault was delivered *)
  | OutOfFuel.                       (* a loop did not end within its fuel *)

Inductive outcome (S A : Type) : Type :=
  | Ret (a : A) (s : S)
  | Stop (e : stop) (s : S).
Arguments Ret {S A}.
Arguments Stop {S A}.

Definition comp (S A : Type) : Type := S -> outcome S A.

Section Monad.
Context {S : Type}.

Definition ret {A} (a : A) : comp S A := fun s => Ret a s.
Definition bind {A B} (c : comp S A) (k : A -> comp S B) : comp S B :=
  fun s => match c s with
           | Ret a s' => k a s'
           | Stop e s' => Stop e s'
           end.
Definition halt {A} (e : stop) : comp S A := fun s => Stop e s.
Definition gets {A} (f : S -> A) : comp S A := fun s => Ret (f s) s.
Definition modify (f : S -> S) : comp S unit := fun s => Ret tt (f s).
End Monad.

Notation "x <- c ;; k" := (bind c (fun x => k))
  (at level 100, c at next level, right associativity) : kernel_scope.
Notation "c ;;; k" := (bind c (fun _ => k))
  (at level 100, right associativity) : kernel_scope.

(** [wp c Q E s]: running [c] from [s] ends, either returning with [Q] or
    stopping with [E]. *)
Definition wp {S A} (c : comp S A) (Q : A -> S -> Prop) (E : stop -> S -> Prop) (s : S) : Prop :=
  match c s with
  | Ret a s' => Q a s'
  | Stop e s' => E e s'
  end.

(** the exceptional postcondition of a computation that must return *)
Definition nostop {S} : stop -> S -> Prop := fun _ _ => False.

Section Wp.
Context {S : Type}.
Implicit Types s : S.

Lemma wp_ret {A} (a : A) Q E s : Q a s -> wp (ret a) Q E s.
Proof. done. Qed.

Lemma wp_bind {A B} (c : comp S A) (k : A -> comp S B) Q E s :
  wp c (fun a s' => wp (k a) Q E s') E s -> wp (bind c k) Q E s.
Proof. unfold wp, bind. by destruct (c s). Qed.

Lemma wp_bind_assoc {A B C} (c : comp S A) (k : A -> comp S B) (k' : B -> comp S C) Q E s :
  wp (bind (bind c k) k') Q E s -> wp (bind c (fun a => bind (k a) k')) Q E s.
Proof. unfold wp, bind. by destruct (c s). Qed.

Lemma wp_halt {A} e (Q : A -> S -> Prop) (E : stop -> S -> Prop) s :
  E e s -> wp (halt e) Q E s.
Proof. done. Qed.

Lemma wp_gets {A} (f : S -> A) Q E s : Q (f s) s -> wp (gets f) Q E s.
Proof. done. Qed.

Lemma wp_modify (f : S -> S) Q E s : Q tt (f s) -> wp (modify f) Q E s.
Proof. done. Qed.

Lemma wp_mono {A} (c : comp S A) (Q Q' : A -> S -> Prop) (E E' : stop -> S -> Prop) s :
  wp c Q E s -> (forall a s', Q a s' -> Q' a s') -> (forall e s', E e s' -> E' e s') ->
  wp c Q' E' s.
Proof. unfold wp. destruct (c s); naive_solver. Qed.

(** a run that must return, as an equation *)
Lemma wp_nostop_ret {A} (c : comp S A) Q s :
  wp c Q nostop s -> exists a s', c s = Ret a s' /\ Q a s'.
Proof. unfold wp, nostop. destruct (c s); naive_solver. Qed.

(** computations are deterministic: two results of one run hold together *)
Lemma wp_and {A} (c : comp S A) (Q Q' : A -> S -> Prop) (E E' : stop -> S -> Prop) s :
  wp c Q E s -> wp c Q' E' s ->
  wp c (fun a s' => Q a s' /\ Q' a s') (fun e s' => E e s' /\ E' e s') s.
Proof. unfold wp. by destruct (c s). Qed.

Lemma wp_weaken {A} (c : comp S A) (Q Q' : A -> S -> Prop) E s :
  wp c Q nostop s -> (forall a s', Q a s' -> Q' a s') -> wp c Q' E s.
Proof. intros H HQ. eapply wp_mono; [exact H|done|]. by intros ??[]. Qed.
End Wp.

(** ** Loops *)
Section Loops.
Context {S : Type}.

(** [for (i = lo; i < lo + n; i++) body(i)] with a bound that the body does not change *)
Fixpoint for_range (n : nat) (i : Z) (body : Z -> comp S unit) : comp S unit :=
  match n with
  | O => ret tt
  | Datatypes.S n' => body i ;;; for_range n' (i + 1) body
  end.

(** the same with an early [return]/[break]: [Some r] leaves the loop with [r] *)
Fixpoint for_find {R} (n : nat) (i : Z) (body : Z -> comp S (option R)) : comp S (option R) :=
  match n with
  | O => ret None
  | Datatypes.S n' =>
      r <- body i ;;
      match r with
      | Some v => ret (Some v)
      | None => for_find n' (i + 1) body
      end
  end.

(** a counting loop that updates local variables [x] *)
Fixpoint for_fold {X} (n : nat) (i : Z) (x : X) (body : Z -> X -> comp S X) : comp S X :=
  match n with
  | O => ret x
  | Datatypes.S n' => y <- body i x ;; for_fold n' (i + 1) y body
  end.

(** [while (cond(x)) x = body(x)], with fuel *)
Fixpoint while_fuel {X} (fuel : nat) (cond : X -> comp S bool) (body : X -> comp S X) (x : X) : comp S X :=
  match fuel with
  | O => halt OutOfFuel
  | Datatypes.S f =>
      b <- cond x ;;
      if b : bool then y <- body x ;; while_fuel f cond body y else ret x
  end.

(** invariant rule of [for_range] *)
Lemma wp_for_range (I : Z -> S -> Prop) n i body E s :
  I i s ->
  (forall j s', i <= j < i + Z.of_nat n -> I j s' -> wp (body j) (fun _ s'' => I (j + 1) s'') E s') ->
  wp (for_range n i body) (fun _ s' => I (i + Z.of_nat n) s') E s.
Proof.
  revert i s. induction n as [|n IH]; intros i s Hi Hstep.
  - unfold wp; cbn. by rewrite Z.add_0_r.
  - cbn [for_range]. apply wp_bind.
    eapply wp_mono; [apply Hstep; [lia|done]| |done].
    intros [] s' Hs'. replace (i + Z.of_nat (Datatypes.S n)) with (i + 1 + Z.of_nat n) by lia.
    apply IH; [done|]. intros; apply Hstep; [lia|done].
Qed.

Lemma wp_for_fold {X} (I : Z -> X -> S -> Prop) n i x body E s :
  I i x s ->
  (forall j y s', i <= j < i + Z.of_nat n -> I j y s' -> wp (body j y) (I (j + 1)) E s') ->
  wp (for_fold n i x body) (I (i + Z.of_nat n)) E s.
Proof.
  revert i x s. induction n as [|n IH]; intros i x s Hi Hstep.
  - unfold wp; cbn. by rewrite Z.add_0_r.
  - cbn [for_fold]. apply wp_bind.
    eapply wp_mono; [apply Hstep; [lia|done]| |done].
    intros y s' Hs'. replace (i + Z.of_nat (Datatypes.S n)) with (i + 1 + Z.of_nat n) by lia.
    apply IH; [done|]. intros; apply Hstep; [lia|done].
Qed.

(** invariant rule of [for_find]: either no index answers, or the first that does *)
Lemma wp_for_find {R} (I : Z -> S -> Prop) (Q : option R -> S -> Prop) n i body E s :
  I i s ->
  (forall j s', i <= j < i + Z.of_nat n -> I j s' ->
     wp (body j) (fun r s'' => match r with Some v => Q (Some v) s'' | None => I (j + 1) s'' end) E s') ->
  (forall s', I (i + Z.of_nat n) s' -> Q None s') ->
  wp (for_find n i body) Q E s.
Proof.
  revert i s. induction n as [|n IH]; intros i s Hi Hstep Hend.
  - unfold wp; cbn. apply Hend. by rewrite Z.add_0_r.
  - cbn [for_find]. apply wp_bind.
    eapply wp_mono; [apply Hstep; [lia|done]| |done].
    intros [v|] s' Hs'; [by apply wp_ret|].
    apply IH; [done| |].
    + intros; apply Hstep; [lia|done].
    + intros s'' H. apply Hend.
      by replace (i + Z.of_nat (Datatypes.S n)) with (i + 1 + Z.of_nat n) by lia.
Qed.

(** [while_fuel] with a variant: an invariant indexed by the iterations left,
    so that enough fuel always ends *)
Lemma wp_while_var {X} (I : nat -> X -> S -> Prop) n fuel cond body x (Q : X -> S -> Prop) E s :
  I n x s -> (n < fuel)%nat ->
  (forall k y s', I k y s' ->
     wp (cond y) (fun b s'' =>
       if b : bool
       then wp (body y) (fun y' s3 => exists k', (k' < k)%nat /\ I k' y' s3) E s''
       else Q y s'') E s') ->
  wp (while_fuel fuel cond body x) Q E s.
Proof.
  revert n x s. induction fuel as [|f IH]; intros n x s HI Hf Hstep; [lia|].
  cbn [while_fuel]. apply wp_bind.
  eapply wp_mono; [apply Hstep; exact HI| |done].
  intros [] s' Hs'; [|by apply wp_ret].
  apply wp_bind. eapply wp_mono; [apply Hs'| |done].
  intros y s3 (k' & Hk & HI3). apply (IH k'); [done|lia|done].
Qed.

(** the same with the variant computed from the state *)
Lemma wp_while {X} (I : X -> S -> Prop) (mu : X -> S -> nat) fuel cond body x (Q : X -> S -> Prop) E s :
  I x s -> (mu x s < fuel)%nat ->
  (forall y s', I y s' ->
     wp (cond y) (fun b s'' =>
       if b : bool
       then wp (body y) (fun y' s3 => I y' s3 /\ (mu y' s3 < mu y s')%nat) E s''
       else Q y s'') E s') ->
  wp (while_fuel fuel cond body x) Q E s.
Proof.
  intros HI Hf Hstep. apply (wp_while_var (fun n x s => I x s /\ mu x s = n) (mu x s)); [done|done|].
  intros k y s' [HI' <-]. eapply wp_mono; [by apply Hstep| |done].
  intros [] s'' H; [|done]. eapply wp_mono; [exact H| |done]. intros y' s3 [? ?]. eauto.
Qed.
End Loops.

(** stepping through the monad's own constructs, up to the next real operation *)
Ltac wp_atomic :=
  lazymatch goal with
  | |- wp (ret _) _ _ _ => apply wp_ret
  | |- wp (gets _) _ _ _ => apply wp_gets
  | |- wp (modify _) _ _ _ => apply wp_modify
  | |- wp (halt _) _ _ _ => apply wp_halt
  end.
Ltac wp_step := first [wp_atomic | apply wp_bind; wp_atomic]; cbn beta iota.
Ltac wp_steps := repeat wp_step.

(** ** Sequences of calls

    A client of a component as a labelled transition system: the state is the machine
    together with what the client holds. *)
Inductive runs {C T : Type} (step : C -> T -> T -> Prop) : list C -> T -> T -> Prop :=
  | runs_nil s : runs step [] s s
  | runs_cons c cs s s' s'' : step c s s' -> runs step cs s' s'' -> runs step (c :: cs) s s''.

(** an invariant of the admitted steps is one of the runs made of them *)
Lemma runs_invariant {C T} (step : C -> T -> T -> Prop) (allow : C -> bool) (I : T -> Prop) :
  (forall c s s', allow c = true -> step c s s' -> I s -> I s') ->
  forall cs s s', forallb allow cs = true -> runs step cs s s' -> I s -> I s'.
Proof.
  intros Hstep cs s s' Ha Hr. revert Ha. induction Hr as [|c cs s s1 s2 Hs _ IH]; [done|]. cbn [forallb].
  intros [Hc Hcs]%andb_prop HI. by eapply IH, Hstep.
Qed.

Lemma allow_all {C} (cs : list C) : forallb (fun _ => true) cs = true.
Proof. by induction cs. Qed.

(** the result of a computation that has one *)
Lemma ran {S A} (c : comp S A) (Q : A -> S -> Prop) E s r s' : wp c Q E s -> c s = Ret r s' -> Q r s'.
Proof. unfold wp. intros H Hr. by rewrite Hr in H. Qed.
