(* ===== verification/Ram.v ===== *)
(** Physical memory: bytes addressed by [Z], and the little-endian loads and
    stores of 1, 2, 4 and 8 bytes the x86-64 compiler uses for [u8] .. [u64]
    objects.  Cells never written read as 0; every read is a byte. *)

From S2P Require Import Prelude.

Abbreviation ram_t := (gmap Z Z).

Definition rd (r : ram_t) (a : Z) : Z := u8 (default 0 (r !! a)).
Definition wr (a v : Z) (r : ram_t) : ram_t := <[a := u8 v]> r.

Fixpoint load (n : nat) (r : ram_t) (a : Z) : Z :=
  match n with
  | O => 0
  | S k => rd r a + 256 * load k r (a + 1)
  end.

Fixpoint store (n : nat) (a v : Z) (r : ram_t) : ram_t :=
  match n with
  | O => r
  | S k => wr a v (store k (a + 1) (v / 256) r)
  end.

(** two memories agree on a set of addresses *)
Definition agree (P : Z -> Prop) (r r' : ram_t) : Prop := forall a, P a -> rd r' a = rd r a.

(** the byte interval [[a, a + n)] *)
Definition span (a n : Z) : Z -> Prop := fun b => a <= b < a + n.

#[global] Instance span_dec a n b : Decision (span a n b).
Proof. unfold span. apply _. Defined.

Lemma rd_range r a : 0 <= rd r a < 256.
Proof. apply (u8_range (default 0 (r !! a))). Qed.

Lemma rd_wr_eq r a v : rd (wr a v r) a = u8 v.
Proof. unfold rd, wr. rewrite lookup_insert_eq. cbn. apply u8_small, u8_range. Qed.

Lemma rd_wr_ne r a b v : a <> b -> rd (wr a v r) b = rd r b.
Proof. intros. unfold rd, wr. by rewrite lookup_insert_ne. Qed.

Lemma rd_wr r a b v : rd (wr a v r) b = if decide (a = b) then u8 v else rd r b.
Proof. case_decide; subst; [apply rd_wr_eq|by apply rd_wr_ne]. Qed.

Lemma load_range n r a : 0 <= load n r a < 2 ^ (8 * Z.of_nat n).
Proof.
  revert a. induction n as [|n IH]; intros a; cbn [load]; [cbn; lia|].
  pose proof (rd_range r a). specialize (IH (a + 1)).
  replace (8 * Z.of_nat (S n)) with (8 + 8 * Z.of_nat n) by lia.
  rewrite Z.pow_add_r by lia. change (2 ^ 8) with 256. lia.
Qed.

Lemma load8_range r a : 0 <= load 8 r a < 2 ^ 64.
Proof. apply (load_range 8). Qed.

Lemma load1 r a : load 1 r a = rd r a.
Proof. cbn [load]. lia. Qed.

Lemma rd_store_out n a v r b : ~ span a (Z.of_nat n) b -> rd (store n a v r) b = rd r b.
Proof.
  unfold span. revert a v. induction n as [|n IH]; intros a v H; cbn [store]; [done|].
  rewrite rd_wr_ne by lia. apply IH. lia.
Qed.

(** loads depend only on the bytes they read *)
Lemma load_agree n r r' a : agree (span a (Z.of_nat n)) r r' -> load n r' a = load n r a.
Proof.
  unfold agree, span. revert a. induction n as [|n IH]; intros a H; cbn [load]; [done|].
  rewrite IH by (intros; apply H; lia). by rewrite H by lia.
Qed.

Lemma load_store_ne n k r a b v :
  a + Z.of_nat n <= b \/ b + Z.of_nat k <= a ->
  load n (store k b v r) a = load n r a.
Proof.
  intros. apply load_agree. intros c Hc. apply rd_store_out. unfold span in *. lia.
Qed.

Lemma load_store_eq n r a v : load n (store n a v r) a = v mod 2 ^ (8 * Z.of_nat n).
Proof.
  revert a v r. induction n as [|n IH]; intros a v r; cbn [load store].
  - change (8 * Z.of_nat 0) with 0. by rewrite Z.mod_1_r.
  - rewrite rd_wr_eq. rewrite (load_agree n (store n (a + 1) (v / 256) r)).
    2: { intros b Hb. apply rd_wr_ne. unfold span in Hb. lia. }
    rewrite IH. replace (8 * Z.of_nat (S n)) with (8 + 8 * Z.of_nat n) by lia.
    rewrite Z.pow_add_r by lia. change (2 ^ 8) with 256. unfold u8. change (2 ^ 8) with 256.
    rewrite Z.rem_mul_r; lia.
Qed.

Lemma load8_store8 r a v : 0 <= v < 2 ^ 64 -> load 8 (store 8 a v r) a = v.
Proof. intros. rewrite load_store_eq. by apply Z.mod_small. Qed.

Lemma rd_store1 r a v : rd (store 1 a v r) a = u8 v.
Proof. cbn [store]. apply rd_wr_eq. Qed.

(** ** Agreement is an equivalence and is kept by stores outside the set *)
#[export] Instance agree_equiv P : Equivalence (agree P).
Proof. split; unfold agree; [done|intros ???? ?; symmetry; auto|intros r1 r2 r3 H1 H2 a Ha; by rewrite H2, H1]. Qed.

Lemma agree_weaken (P Q : Z -> Prop) r r' : agree P r r' -> (forall a, Q a -> P a) -> agree Q r r'.
Proof. unfold agree. auto. Qed.

Lemma agree_store P n a v r :
  (forall b, span a (Z.of_nat n) b -> ~ P b) -> agree P r (store n a v r).
Proof. intros H b Hb. apply rd_store_out. intros Hs. by apply (H b). Qed.

#[export] Instance load_proper n a : Proper (agree (span a (Z.of_nat n)) ==> eq) (fun r => load n r a).
Proof. intros r r' H. symmetry. by apply load_agree. Qed.

(** evaluating a load from a memory built by stores *)
Ltac ram_load :=
  repeat lazymatch goal with
  | |- load ?n (store ?k ?b ?v ?r) ?a = _ =>
      first [rewrite (load_store_ne n k r a b v) by (cbn; lia) | rewrite (load8_store8 r b v) by lia |
             rewrite (load_store_eq n r a v)]
  end.

(** ** Filling and copying, as the pointwise meaning of memset and memcpy *)
Definition filled (a n v : Z) (r r' : ram_t) : Prop :=
  forall b, rd r' b = if decide (span a n b) then v else rd r b.

Lemma filled_load8_zero a n r r' b :
  filled a n 0 r r' -> a <= b -> b + 8 <= a + n -> load 8 r' b = 0.
Proof.
  intros H H1 H2.
  assert (forall k c, b <= c -> c + Z.of_nat k <= b + 8 -> load k r' c = 0) as Hk.
  { induction k as [|k IH]; intros c ??; cbn [load]; [done|].
    rewrite (H c), IH by lia. rewrite decide_True by (unfold span; lia). done. }
  apply (Hk 8%nat); lia.
Qed.

(** ** Bytes from a device *)
Fixpoint poke_bytes (a : Z) (l : list Z) (r : ram_t) : ram_t :=
  match l with [] => r | v :: l' => poke_bytes (a + 1) l' (wr a v r) end.

Lemma agree_poke P a l r :
  (forall b, span a (Z.of_nat (length l)) b -> ~ P b) -> agree P r (poke_bytes a l r).
Proof.
  unfold span. revert a r. induction l as [|v l IH]; intros a r H b Hb; cbn [poke_bytes length] in *; [done|].
  rewrite (IH (a + 1) (wr a v r)); [|intros c Hc; apply H; lia|done].
  apply rd_wr_ne. intros ->. apply (H b); [lia|done].
Qed.

Lemma rd_poke a l r i v : l !! i = Some v -> rd (poke_bytes a l r) (a + Z.of_nat i) = u8 v.
Proof.
  revert a r i. induction l as [|w l IH]; intros a r [|i] H; cbn [poke_bytes lookup list_lookup] in *; try done.
  - injection H as ->. rewrite (agree_poke (fun b => b = a)); [|unfold span; lia|lia]. rewrite Z.add_0_r. apply rd_wr_eq.
  - rewrite <- (IH (a + 1) (wr a w r) i H). f_equal. lia.
Qed.
