(* ===== verification/Machine.v ===== *)
(** The machine the kernel runs on and the C state it keeps: physical memory,
    the x86-64 4-level address translation with a TLB, the control and
    model-specific registers, the I/O ports, and the kernel's global variables.

    Every pointer dereference of the C code is a [vload]/[vstore] through
    [translate]: the TLB answers first (so a page-table entry changed without
    [invlpg] stays invisible), then the page tables at [cr3] are walked and the
    result is cached.  Accesses are supervisor accesses with CR0.WP clear, as the
    boot leaves it: the present bit decides, the RW and US bits do not. *)

From S2P Require Import Prelude Comp Ram.

(** ** Data of the C program kept outside addressable memory *)

(** [struct idt_entry] (idt.h) *)
Record idt_entry : Type := mk_idt_entry {
  offset_low : Z;
  selector : Z;
  ist : Z;
  type_attr : Z;
  offset_mid : Z;
  offset_high : Z;
  zero : Z
}.

(** [struct idt_ptr] (idt.h) *)
Record idt_ptr : Type := mk_idt_ptr { limit : Z; base : Z }.

(** [struct heapinfo_t] (kheap.c) *)
Record heapinfo_t : Type := mk_heapinfo { heap_first : Z; avail : Z }.

(** the global variables of kernel.c, kheap.c and idt.c *)
Record globals : Type := mk_globals {
  next_free : Z;
  pml4t : Z;
  mem_bitmap : Z;
  mem_bitmap_size : Z;
  mem_bitmap_bit_size : Z;
  heap_start : Z;
  heap_end : Z;
  heap : heapinfo_t;
  idt : list idt_entry;
  idtp : idt_ptr
}.

(** port traffic, most recent first *)
Inductive io_event : Type :=
  | OutB (port val : Z)
  | InB (port val : Z).

(** the registers and devices the inline assembly touches *)
Record cpu : Type := mk_cpu {
  cr0 : Z;
  cr4 : Z;
  cpuid1_edx : Z;              (* EDX of CPUID leaf 1 *)
  msrs : gmap Z Z;
  idtr : option (Z * Z);       (* limit and base loaded by lidt *)
  iflag : bool;
  ports : list io_event;
  kbd : list Z                 (* bytes the keyboard port will deliver *)
}.

Record machine : Type := mk_machine {
  ram : ram_t;
  tlb : gmap Z Z;              (* virtual page number to page frame address *)
  cr3 : Z;
  hw : cpu;
  glb : globals
}.

Definition set_ram (r : ram_t) (m : machine) : machine :=
  mk_machine r (tlb m) (cr3 m) (hw m) (glb m).
Definition set_tlb (t : gmap Z Z) (m : machine) : machine :=
  mk_machine (ram m) t (cr3 m) (hw m) (glb m).
Definition set_hw (h : cpu) (m : machine) : machine :=
  mk_machine (ram m) (tlb m) (cr3 m) h (glb m).
Definition set_glb (g : globals) (m : machine) : machine :=
  mk_machine (ram m) (tlb m) (cr3 m) (hw m) g.

Definition set_next_free (v : Z) (g : globals) : globals :=
  mk_globals v (pml4t g) (mem_bitmap g) (mem_bitmap_size g) (mem_bitmap_bit_size g)
    (heap_start g) (heap_end g) (heap g) (idt g) (idtp g).
Definition set_pml4t (v : Z) (g : globals) : globals :=
  mk_globals (next_free g) v (mem_bitmap g) (mem_bitmap_size g) (mem_bitmap_bit_size g)
    (heap_start g) (heap_end g) (heap g) (idt g) (idtp g).
Definition set_mem_bitmap (v : Z) (g : globals) : globals :=
  mk_globals (next_free g) (pml4t g) v (mem_bitmap_size g) (mem_bitmap_bit_size g)
    (heap_start g) (heap_end g) (heap g) (idt g) (idtp g).
Definition set_mem_bitmap_sizes (bytes bits : Z) (g : globals) : globals :=
  mk_globals (next_free g) (pml4t g) (mem_bitmap g) bytes bits
    (heap_start g) (heap_end g) (heap g) (idt g) (idtp g).
Definition set_heap_start (v : Z) (g : globals) : globals :=
  mk_globals (next_free g) (pml4t g) (mem_bitmap g) (mem_bitmap_size g) (mem_bitmap_bit_size g)
    v (heap_end g) (heap g) (idt g) (idtp g).
Definition set_heap_end (v : Z) (g : globals) : globals :=
  mk_globals (next_free g) (pml4t g) (mem_bitmap g) (mem_bitmap_size g) (mem_bitmap_bit_size g)
    (heap_start g) v (heap g) (idt g) (idtp g).
Definition set_heap (h : heapinfo_t) (g : globals) : globals :=
  mk_globals (next_free g) (pml4t g) (mem_bitmap g) (mem_bitmap_size g) (mem_bitmap_bit_size g)
    (heap_start g) (heap_end g) h (idt g) (idtp g).
Definition set_idt (t : list idt_entry) (g : globals) : globals :=
  mk_globals (next_free g) (pml4t g) (mem_bitmap g) (mem_bitmap_size g) (mem_bitmap_bit_size g)
    (heap_start g) (heap_end g) (heap g) t (idtp g).
Definition set_idtp (p : idt_ptr) (g : globals) : globals :=
  mk_globals (next_free g) (pml4t g) (mem_bitmap g) (mem_bitmap_size g) (mem_bitmap_bit_size g)
    (heap_start g) (heap_end g) (heap g) (idt g) p.

Abbreviation M := (comp machine).

(** reading and assigning a global variable *)
Definition getg {A} (f : globals -> A) : M A := gets (fun m => f (glb m)).
Definition setg (f : globals -> globals) : M unit := modify (fun m => set_glb (f (glb m)) m).
Definition gethw {A} (f : cpu -> A) : M A := gets (fun m => f (hw m)).
Definition sethw (f : cpu -> cpu) : M unit := modify (fun m => set_hw (f (hw m)) m).

Lemma wp_getg {A} (f : globals -> A) Q E m : Q (f (glb m)) m -> wp (getg f) Q E m.
Proof. done. Qed.
Lemma wp_setg f (Q : unit -> machine -> Prop) E m : Q tt (set_glb (f (glb m)) m) -> wp (setg f) Q E m.
Proof. done. Qed.
Lemma wp_gethw {A} (f : cpu -> A) Q E m : Q (f (hw m)) m -> wp (gethw f) Q E m.
Proof. done. Qed.
Lemma wp_sethw f (Q : unit -> machine -> Prop) E m : Q tt (set_hw (f (hw m)) m) -> wp (sethw f) Q E m.
Proof. done. Qed.

(** [wp_steps] also steps through the accesses to globals and registers *)
Ltac wp_atomic ::=
  lazymatch goal with
  | |- wp (ret _) _ _ _ => apply wp_ret
  | |- wp (gets _) _ _ _ => apply wp_gets
  | |- wp (modify _) _ _ _ => apply wp_modify
  | |- wp (halt _) _ _ _ => apply wp_halt
  | |- wp (getg _) _ _ _ => apply wp_getg
  | |- wp (setg _) _ _ _ => apply wp_setg
  | |- wp (gethw _) _ _ _ => apply wp_gethw
  | |- wp (sethw _) _ _ _ => apply wp_sethw
  end.

(** ** Address translation *)

Definition present (e : Z) : bool := Z.testbit e 0.
Definition huge (e : Z) : bool := Z.testbit e 7.
Definition pte_addr (e : Z) : Z := Z.land e PAGE_MASK.

(** the 4-level walk for virtual page number [vpn]: the frame address, if mapped *)
Definition walk (r : ram_t) (root vpn : Z) : option Z :=
  let e4 := load 8 r (pte_addr root + 8 * ((vpn / 2 ^ 27) mod 512)) in
  if negb (present e4) then None else
  let e3 := load 8 r (pte_addr e4 + 8 * ((vpn / 2 ^ 18) mod 512)) in
  if negb (present e3) then None else
  if huge e3 then Some (Z.land e3 0x000FFFFFC0000000 + 4096 * (vpn mod 2 ^ 18)) else
  let e2 := load 8 r (pte_addr e3 + 8 * ((vpn / 2 ^ 9) mod 512)) in
  if negb (present e2) then None else
  if huge e2 then Some (Z.land e2 0x000FFFFFFFE00000 + 4096 * (vpn mod 2 ^ 9)) else
  let e1 := load 8 r (pte_addr e2 + 8 * (vpn mod 512)) in
  if negb (present e1) then None else Some (pte_addr e1).

Definition lower (va : Z) : bool := (0 <=? va) && (va <? 2 ^ 47).
Definition upper (va : Z) : bool := (2 ^ 64 - 2 ^ 47 <=? va) && (va <? 2 ^ 64).
Definition canonical (va : Z) : bool := lower va || upper va.

Definition translate (va : Z) : M Z := fun m =>
  if canonical va then
    match tlb m !! (va / 4096) with
    | Some f => Ret (f + va mod 4096) m
    | None =>
        match walk (ram m) (cr3 m) (va / 4096) with
        | Some f => Ret (f + va mod 4096) (set_tlb (<[va / 4096 := f]> (tlb m)) m)
        | None => Stop (PageFault va) m
        end
    end
  else Stop (PageFault va) m.

Fixpoint translate_range (n : nat) (va : Z) : M (list Z) :=
  match n with
  | O => ret []
  | S k => pa <- translate va ;; pas <- translate_range k (u64 (va + 1)) ;; ret (pa :: pas)
  end.

Fixpoint load_at (pas : list Z) (r : ram_t) : Z :=
  match pas with
  | [] => 0
  | pa :: pas' => rd r pa + 256 * load_at pas' r
  end.

Fixpoint store_at (pas : list Z) (v : Z) (r : ram_t) : ram_t :=
  match pas with
  | [] => r
  | pa :: pas' => wr pa v (store_at pas' (v / 256) r)
  end.

(** [n]-byte accesses at a virtual address *)
Definition vload (n : nat) (va : Z) : M Z :=
  pas <- translate_range n va ;; gets (fun m => load_at pas (ram m)).
Definition vstore (n : nat) (va v : Z) : M unit :=
  pas <- translate_range n va ;; modify (fun m => set_ram (store_at pas v (ram m)) m).

(** [invlpg] and [mov cr3] *)
Definition invlpg (va : Z) : M unit :=
  modify (fun m => set_tlb (delete (va / 4096) (tlb m)) m).
Definition write_cr3 (v : Z) : M unit :=
  modify (fun m => mk_machine (ram m) ∅ v (hw m) (glb m)).

(** [outb], [inb] *)
Definition outb (val port : Z) : M unit :=
  sethw (fun h => mk_cpu (cr0 h) (cr4 h) (cpuid1_edx h) (msrs h) (idtr h) (iflag h)
                    (OutB port (u8 val) :: ports h) (kbd h)).
Definition inb (port : Z) : M Z :=
  v <- gethw (fun h => u8 (hd 0 (kbd h))) ;;
  sethw (fun h => mk_cpu (cr0 h) (cr4 h) (cpuid1_edx h) (msrs h) (idtr h) (iflag h)
                    (InB port v :: ports h) (tl (kbd h))) ;;;
  ret v.

(** ** Reasoning about translation *)

(** virtual page number of [KERNEL_BASE] *)
Definition KVPN : Z := 0xFFFFFFFF80000.

(** Pages that the code at hand leaves alone, none of them in the 2 MiB kernel
    window: the lemmas on translation hold for any choice of these, and say that no
    translation of a quiet page is cached.  By default they are the lower half of the
    address space, the half of user programs. *)
Class Quiet : Type := mk_quiet {
  quiet : Z -> Prop;
  quiet_window p : KVPN <= p < KVPN + 512 -> ~ quiet p
}.

Definition low (p : Z) : Prop := p < 2 ^ 35.

#[export] Instance user_half : Quiet | 100.
Proof. refine (mk_quiet low _). unfold low, KVPN. lia. Defined.

Section Translation.
Context {QT : Quiet}.

(** [m'] is [m] after some translations of kernel addresses: only the TLB grew, by
    results of walks, and not in quiet pages *)
Record warm (m m' : machine) : Prop := mk_warm {
  warm_ram : ram m' = ram m;
  warm_cr3 : cr3 m' = cr3 m;
  warm_hw : hw m' = hw m;
  warm_glb : glb m' = glb m;
  warm_sub : forall p f, tlb m !! p = Some f -> tlb m' !! p = Some f;
  warm_new : forall p f, tlb m' !! p = Some f ->
               tlb m !! p = Some f \/ walk (ram m) (cr3 m) p = Some f;
  warm_low : forall p f, quiet p -> tlb m' !! p = Some f -> tlb m !! p = Some f
}.

#[global] Instance warm_preorder : PreOrder warm.
Proof.
  split.
  - intros m. by split; auto.
  - intros m1 m2 m3 [] []. split; try congruence; [auto| |auto].
    intros p f Hp. destruct (warm_new1 p f Hp) as [|Hw]; [auto|].
    right. congruence.
Qed.

(** page [p] is mapped to frame [f]: by the tables, and no TLB entry disagrees *)
Definition maps (m : machine) (p f : Z) : Prop :=
  walk (ram m) (cr3 m) p = Some f /\ (forall f', tlb m !! p = Some f' -> f' = f).

(** an address on a page that is not quiet: by default, one of the upper half *)
Definition kaddr (va : Z) : Prop := canonical va = true /\ ~ quiet (va / 4096).

(** the [n] bytes at kernel address [va] are the [n] bytes at physical address [pa] *)
Definition vmap (m : machine) (va pa n : Z) : Prop :=
  forall i, 0 <= i < n ->
    kaddr (va + i) /\
    exists f, maps m ((va + i) / 4096) f /\ f + (va + i) mod 4096 = pa + i.

Lemma maps_warm m m' p f : warm m m' -> maps m p f -> maps m' p f.
Proof.
  intros [] [Hw Ht]. split; [congruence|]. intros f' Hf'.
  destruct (warm_new0 _ _ Hf') as [|]; [auto|congruence].
Qed.

Lemma vmap_warm m m' va pa n : warm m m' -> vmap m va pa n -> vmap m' va pa n.
Proof.
  intros Hw H i Hi. destruct (H i Hi) as (Hc & f & Hf & He). split; [done|].
  exists f. split; [by eapply maps_warm|done].
Qed.

Lemma vmap_sub m va pa n k j : vmap m va pa n -> 0 <= k -> k + j <= n -> vmap m (va + k) (pa + k) j.
Proof.
  intros H Hk Hj i Hi. destruct (H (k + i) ltac:(lia)) as (Hc & f & Hf & He).
  rewrite Z.add_assoc in Hc. split; [done|]. exists f. rewrite <- !Z.add_assoc. auto.
Qed.

Lemma upper_range va : upper va = true <-> 2 ^ 64 - 2 ^ 47 <= va < 2 ^ 64.
Proof. unfold upper. by rewrite andb_true_iff, Z.leb_le, Z.ltb_lt. Qed.

Lemma upper_canonical va : upper va = true -> canonical va = true.
Proof. intros H. unfold canonical. rewrite H. apply orb_true_r. Qed.

Lemma lower_canonical va : 0 <= va < 2 ^ 47 -> canonical va = true.
Proof. intros H. unfold canonical, lower. by rewrite (proj2 (Z.leb_le _ _)), (proj2 (Z.ltb_lt _ _)) by apply H. Qed.

Lemma canonical_range va : canonical va = true -> 0 <= va < 2 ^ 64.
Proof.
  unfold canonical, lower, upper. rewrite orb_true_iff, !andb_true_iff, !Z.leb_le, !Z.ltb_lt.
  change (2 ^ 47) with 140737488355328. change (2 ^ 64) with 18446744073709551616. lia.
Qed.

Lemma wp_translate m va f Q E :
  kaddr va -> maps m (va / 4096) f ->
  (forall m', warm m m' -> Q (f + va mod 4096) m') ->
  wp (translate va) Q E m.
Proof.
  intros [Hc Hq] [Hw Ht] HQ. unfold wp, translate. rewrite Hc.
  destruct (tlb m !! (va / 4096)) as [f'|] eqn:Hl.
  - rewrite (Ht f') by done. by apply HQ.
  - rewrite Hw. apply HQ. split; try done.
    + intros p g Hp. cbn. rewrite lookup_insert_ne; [done|congruence].
    + intros p g. cbn. rewrite lookup_insert. case_decide; [|by left].
      intros [= <-]. subst. by right.
    + intros p g Hp. cbn. rewrite lookup_insert_ne; [done|by intros <-].
Qed.

Fixpoint addrs (n : nat) (pa : Z) : list Z :=
  match n with O => [] | S k => pa :: addrs k (pa + 1) end.

Lemma load_at_addrs n r pa : load_at (addrs n pa) r = load n r pa.
Proof. revert pa. induction n as [|n IH]; intros; cbn; [done|]. by rewrite IH. Qed.

Lemma store_at_addrs n r pa v : store_at (addrs n pa) v r = store n pa v r.
Proof. revert pa v. induction n as [|n IH]; intros; cbn; [done|]. by rewrite IH. Qed.

Lemma wp_translate_range n m va pa Q E :
  vmap m va pa (Z.of_nat n) ->
  (forall m', warm m m' -> Q (addrs n pa) m') ->
  wp (translate_range n va) Q E m.
Proof.
  revert m va pa Q. induction n as [|n IH]; intros m va pa Q Hv HQ; cbn [translate_range].
  - by apply HQ.
  - destruct (Hv 0 ltac:(lia)) as (Hc & f & Hf & He). rewrite !Z.add_0_r in *.
    apply wp_bind. eapply wp_translate; [done|done|]. intros m1 Hm1. rewrite He.
    assert (Hn : vmap m1 (va + 1) (pa + 1) (Z.of_nat n)).
    { eapply vmap_sub; [by eapply vmap_warm|lia|lia]. }
    assert (n = O \/ u64 (va + 1) = va + 1) as [-> | ->].
    { destruct n; [by left|right]. destruct (Hn 0 ltac:(lia)) as ((Hc1 & _) & _).
      rewrite Z.add_0_r in Hc1. by apply u64_small, canonical_range. }
    + cbn. by apply HQ.
    + apply wp_bind. eapply IH; [done|]. intros m2 Hm2. apply wp_ret, HQ. by etrans.
Qed.

Lemma wp_vload n m va pa Q E :
  vmap m va pa (Z.of_nat n) ->
  (forall m', warm m m' -> Q (load n (ram m) pa) m') ->
  wp (vload n va) Q E m.
Proof.
  intros Hv HQ. unfold vload. apply wp_bind. eapply wp_translate_range; [done|].
  intros m' Hw. apply wp_gets. rewrite load_at_addrs, (warm_ram _ _ Hw). by apply HQ.
Qed.

Lemma wp_vstore n m va pa v Q E :
  vmap m va pa (Z.of_nat n) ->
  (forall m', warm m m' -> Q tt (set_ram (store n pa v (ram m)) m')) ->
  wp (vstore n va v) Q E m.
Proof.
  intros Hv HQ. unfold vstore. apply wp_bind. eapply wp_translate_range; [done|].
  intros m' Hw. apply wp_modify. rewrite store_at_addrs, (warm_ram _ _ Hw). by apply HQ.
Qed.

(** ** What a walk reads *)

(** the physical bytes the walk of page [vpn] reads *)
Definition walk_bytes (r : ram_t) (root vpn : Z) : Z -> Prop := fun a =>
  let s4 := pte_addr root + 8 * ((vpn / 2 ^ 27) mod 512) in
  let e4 := load 8 r s4 in
  let s3 := pte_addr e4 + 8 * ((vpn / 2 ^ 18) mod 512) in
  let e3 := load 8 r s3 in
  let s2 := pte_addr e3 + 8 * ((vpn / 2 ^ 9) mod 512) in
  let e2 := load 8 r s2 in
  let s1 := pte_addr e2 + 8 * (vpn mod 512) in
  span s4 8 a \/
  (present e4 = true /\ (span s3 8 a \/
    (present e3 = true /\ huge e3 = false /\ (span s2 8 a \/
      (present e2 = true /\ huge e2 = false /\ span s1 8 a))))).

Lemma walk_agree r r' root vpn :
  agree (walk_bytes r root vpn) r r' ->
  walk r' root vpn = walk r root vpn /\
  (forall a, walk_bytes r' root vpn a <-> walk_bytes r root vpn a).
Proof.
  intros H. unfold walk, walk_bytes in *.
  rewrite (load_agree 8 r r' (pte_addr root + _)) by (intros a Ha; apply H; by left).
  set (e4 := load 8 r (pte_addr root + _)) in *.
  destruct (present e4) eqn:P4; cbn [negb]; [|split; [done|intros; intuition congruence]].
  rewrite (load_agree 8 r r' (pte_addr e4 + _)) by (intros a Ha; apply H; tauto).
  set (e3 := load 8 r (pte_addr e4 + _)) in *.
  destruct (present e3) eqn:P3; cbn [negb]; [|split; [done|intros; intuition congruence]].
  destruct (huge e3) eqn:H3; [split; [done|intros; intuition congruence]|].
  rewrite (load_agree 8 r r' (pte_addr e3 + _)) by (intros a Ha; apply H; tauto).
  set (e2 := load 8 r (pte_addr e3 + _)) in *.
  destruct (present e2) eqn:P2; cbn [negb]; [|split; [done|intros; intuition congruence]].
  destruct (huge e2) eqn:H2; [split; [done|intros; intuition congruence]|].
  by rewrite (load_agree 8 r r' (pte_addr e2 + _)) by (intros a Ha; apply H; tauto).
Qed.

Definition mwalk (m : machine) (p : Z) : option Z := walk (ram m) (cr3 m) p.
Definition mbytes (m : machine) (p : Z) : Z -> Prop := walk_bytes (ram m) (cr3 m) p.

(** [m'] is reached from [m] by writing bytes of [W] only and by translations:
    pages whose walk reads nothing in [W] keep their walk, and their TLB entries
    are old ones or results of that walk *)
Record mstep (W : Z -> Prop) (m m' : machine) : Prop := mk_mstep {
  ms_cr3 : cr3 m' = cr3 m;
  ms_hw : hw m' = hw m;
  ms_glb : glb m' = glb m;
  ms_ram : agree (fun a => ~ W a) (ram m) (ram m');
  ms_tlb : forall p, (forall a, mbytes m p a -> ~ W a) ->
             forall f, tlb m' !! p = Some f -> tlb m !! p = Some f \/ mwalk m p = Some f
}.

(** the same, where every translation is of a kernel address, and the window
    [TEMP_PAGE] is the only page whose translation is ever dropped *)
Record wstep (W : Z -> Prop) (m m' : machine) : Prop := mk_wstep {
  ws_cr3 : cr3 m' = cr3 m;
  ws_hw : hw m' = hw m;
  ws_glb : glb m' = glb m;
  ws_ram : agree (fun a => ~ W a) (ram m) (ram m');
  ws_tlb : forall p, (forall a, mbytes m p a -> ~ W a) ->
             forall f, tlb m' !! p = Some f -> tlb m !! p = Some f \/ mwalk m p = Some f;
  ws_low : forall p f, quiet p -> tlb m' !! p = Some f -> tlb m !! p = Some f;
  ws_keep : forall p f, p <> TEMP_PAGE / 4096 -> tlb m !! p = Some f -> tlb m' !! p = Some f
}.

Definition nowhere : Z -> Prop := fun _ => False.

Lemma wstep_mstep W m m' : wstep W m m' -> mstep W m m'.
Proof. by intros []. Qed.

Lemma mstep_walk W m m' p :
  mstep W m m' -> (forall a, mbytes m p a -> ~ W a) ->
  mwalk m' p = mwalk m p /\ (forall a, mbytes m' p a <-> mbytes m p a).
Proof.
  intros Hs H. unfold mwalk, mbytes in *. rewrite (ms_cr3 _ _ _ Hs).
  apply walk_agree. eapply agree_weaken; [apply Hs|]. exact H.
Qed.

Lemma wstep_walk W m m' p :
  wstep W m m' -> (forall a, mbytes m p a -> ~ W a) ->
  mwalk m' p = mwalk m p /\ (forall a, mbytes m' p a <-> mbytes m p a).
Proof. intros Hs. by apply mstep_walk, wstep_mstep. Qed.

#[global] Instance mstep_preorder W : PreOrder (mstep W).
Proof.
  split.
  - intros m. split; try done. auto.
  - intros m1 m2 m3 H12 H23. split.
    + by rewrite (ms_cr3 _ _ _ H23), (ms_cr3 _ _ _ H12).
    + by rewrite (ms_hw _ _ _ H23), (ms_hw _ _ _ H12).
    + by rewrite (ms_glb _ _ _ H23), (ms_glb _ _ _ H12).
    + etrans; [apply H12|apply H23].
    + intros p Hp f Hf. destruct (mstep_walk W m1 m2 p H12 Hp) as [Hw Hb].
      destruct (ms_tlb _ _ _ H23 p) with f as [Hf2|Hf2]; [|done| |].
      * intros a Ha. by apply Hp, Hb.
      * by apply (ms_tlb _ _ _ H12 p Hp).
      * right. congruence.
Qed.

#[global] Instance wstep_preorder W : PreOrder (wstep W).
Proof.
  split.
  - intros m. split; try done. auto.
  - intros m1 m2 m3 H12 H23. destruct (transitivity (wstep_mstep _ _ _ H12) (wstep_mstep _ _ _ H23)).
    split; [done..| |]; intros p f Hp Hf.
    + by apply (ws_low _ _ _ H12 p f Hp), (ws_low _ _ _ H23).
    + by apply (ws_keep _ _ _ H23 p f Hp), (ws_keep _ _ _ H12).
Qed.

Lemma mstep_weaken (W W' : Z -> Prop) m m' :
  mstep W m m' -> (forall a, W a -> W' a) -> mstep W' m m'.
Proof.
  intros Hs H. split; [apply Hs..| |].
  - eapply agree_weaken; [apply Hs|]. intros a Ha HW. by apply Ha, H.
  - intros p Hp f Hf. eapply (ms_tlb _ _ _ Hs); [|done]. intros a Ha HW. by apply (Hp a Ha), H.
Qed.

Lemma wstep_weaken (W W' : Z -> Prop) m m' :
  wstep W m m' -> (forall a, W a -> W' a) -> wstep W' m m'.
Proof.
  intros Hs H. destruct (mstep_weaken _ _ _ _ (wstep_mstep _ _ _ Hs) H). split; [done..|apply Hs|apply Hs].
Qed.

Lemma warm_wstep W m m' : warm m m' -> wstep W m m'.
Proof.
  intros Hw. split; [apply Hw..| | |apply Hw|].
  - intros a _. by rewrite (warm_ram _ _ Hw).
  - intros p _ f Hf. by apply (warm_new _ _ Hw).
  - intros p f _. apply (warm_sub _ _ Hw).
Qed.

Lemma wstep_set_ram W m r : agree (fun a => ~ W a) (ram m) r -> wstep W m (set_ram r m).
Proof. intros H. split; try done. intros p _ f Hf. by left. Qed.

Lemma wstep_store (W : Z -> Prop) m n pa v :
  (forall a, span pa (Z.of_nat n) a -> W a) ->
  wstep W m (set_ram (store n pa v (ram m)) m).
Proof. intros H. apply wstep_set_ram, agree_store. intros b Hb Hn. by apply Hn, H. Qed.

Lemma mstep_maps W m m' p f :
  mstep W m m' -> (forall a, mbytes m p a -> ~ W a) -> maps m p f -> maps m' p f.
Proof.
  intros Hs Hp [Hw Ht]. destruct (mstep_walk W m m' p Hs Hp) as [Hw' _].
  split; [change (mwalk m' p = Some f); by rewrite Hw'|].
  intros f' Hf'. destruct (ms_tlb W m m' Hs p Hp f' Hf') as [H|H]; [auto|].
  unfold mwalk in H. congruence.
Qed.

Lemma wstep_maps W m m' p f :
  wstep W m m' -> (forall a, mbytes m p a -> ~ W a) -> maps m p f -> maps m' p f.
Proof. intros Hs. by apply (mstep_maps W), wstep_mstep. Qed.

(** ** Component invariants and the memory they own *)

(** an invariant over the globals that reads only the bytes of its footprint is
    kept by every step of another component outside that footprint *)
Class Footprint (I : machine -> Prop) (fp : machine -> Z -> Prop) : Prop :=
  footprint : forall m m', I m -> glb m' = glb m -> agree (fp m) (ram m) (ram m') -> I m'.

Lemma footprint_wstep (I : machine -> Prop) fp `{!Footprint I fp} W m m' :
  I m -> wstep W m m' -> (forall a, fp m a -> ~ W a) -> I m'.
Proof.
  intros HI Hs Hd. eapply footprint; [exact HI|apply Hs|]. eapply agree_weaken; [apply Hs|exact Hd].
Qed.

(** a mapped region whose translation does not read the bytes [W] *)
Definition vstable (m : machine) (W : Z -> Prop) (va pa n : Z) : Prop :=
  vmap m va pa n /\
  forall i, 0 <= i < n -> forall a, mbytes m ((va + i) / 4096) a -> ~ W a.

Lemma vstable_mstep W m m' va pa n : mstep W m m' -> vstable m W va pa n -> vstable m' W va pa n.
Proof.
  intros Hs [Hv Hd]. split.
  - intros i Hi. destruct (Hv i Hi) as (Hc & f & Hf & He). split; [done|].
    exists f. split; [|done]. eapply mstep_maps; eauto.
  - intros i Hi a Ha. apply (Hd i Hi). by apply (mstep_walk W m m' _ Hs (Hd i Hi)).
Qed.

Lemma vstable_wstep W m m' va pa n : wstep W m m' -> vstable m W va pa n -> vstable m' W va pa n.
Proof. intros Hs. by apply vstable_mstep, wstep_mstep. Qed.

Lemma vstable_weaken m (W W' : Z -> Prop) va pa n :
  vstable m W va pa n -> (forall a, W' a -> W a) -> vstable m W' va pa n.
Proof. intros [Hv Hd] H. split; [done|]. intros i Hi a Ha HW. by apply (Hd i Hi a Ha), H. Qed.

Lemma vstable_sub m W va pa n k j :
  vstable m W va pa n -> 0 <= k -> k + j <= n -> vstable m W (va + k) (pa + k) j.
Proof.
  intros [Hv Hd] Hk Hj. split; [by eapply vmap_sub|].
  intros i Hi. rewrite <- Z.add_assoc. apply Hd. lia.
Qed.

(** a load or a store through a stable region, as a [wstep] *)
Lemma wp_vload_st n m W va pa Q E :
  vstable m W va pa (Z.of_nat n) ->
  (forall m', wstep W m m' -> ram m' = ram m -> Q (load n (ram m) pa) m') ->
  wp (vload n va) Q E m.
Proof.
  intros [Hv _] HQ. eapply wp_vload; [done|]. intros m' Hw.
  apply HQ; [by apply warm_wstep|apply Hw].
Qed.

Lemma wp_vstore_st n m (W : Z -> Prop) va pa v (Q : unit -> machine -> Prop) E :
  vmap m va pa (Z.of_nat n) -> (forall a, span pa (Z.of_nat n) a -> W a) ->
  (forall m', wstep W m m' -> ram m' = store n pa v (ram m) -> Q tt m') ->
  wp (vstore n va v) Q E m.
Proof.
  intros Hv HW HQ. eapply wp_vstore; [done|]. intros m' Hw. apply HQ; [|done].
  etrans; [by apply warm_wstep|]. rewrite <- (warm_ram _ _ Hw). by apply wstep_store.
Qed.
End Translation.
