(* ===== verification/KSpace.v ===== *)
(** The kernel's half of the address space: the first 2 MiB of physical memory,
    less its last page, appear at [KERNEL_BASE]; the last page of that range is
    the temporary window [TEMP_PAGE].  [kspace K m] says that the tables reached
    from [cr3] have this shape, which is what init_pt.asm and [paging_init]
    build and what every C access of the kernel relies on. *)

From S2P Require Import Prelude Comp Ram Machine.

(** physical addresses of the four tables on the kernel's path *)
Record ktables : Type := mk_ktables { kt4 : Z; kt3 : Z; kt2 : Z; kt1 : Z }.

(** the bytes mapped one to one at [KERNEL_BASE] *)
Definition KWIN : Z := 0x1FF000.

Record kspace (K : ktables) (m : machine) : Prop := mk_kspace {
  ks_root : pte_addr (cr3 m) = kt4 K;
  ks_p4 : present (load 8 (ram m) (kt4 K + 4088)) = true;
  ks_a4 : pte_addr (load 8 (ram m) (kt4 K + 4088)) = kt3 K;
  ks_p3 : present (load 8 (ram m) (kt3 K + 4080)) = true;
  ks_h3 : huge (load 8 (ram m) (kt3 K + 4080)) = false;
  ks_a3 : pte_addr (load 8 (ram m) (kt3 K + 4080)) = kt2 K;
  ks_p2 : present (load 8 (ram m) (kt2 K)) = true;
  ks_h2 : huge (load 8 (ram m) (kt2 K)) = false;
  ks_a2 : pte_addr (load 8 (ram m) (kt2 K)) = kt1 K;
  ks_p1 : forall i, 0 <= i < 511 -> present (load 8 (ram m) (kt1 K + 8 * i)) = true;
  ks_a1 : forall i, 0 <= i < 511 -> pte_addr (load 8 (ram m) (kt1 K + 8 * i)) = 4096 * i;
  ks_tlb : forall i f, 0 <= i < 511 -> tlb m !! (KVPN + i) = Some f -> f = 4096 * i
}.

(** the table bytes [kspace] depends on *)
Definition ktab (K : ktables) : Z -> Prop := fun a =>
  span (kt4 K + 4088) 8 a \/ span (kt3 K + 4080) 8 a \/ span (kt2 K) 8 a \/ span (kt1 K) 4088 a.

Section KernelSpace.
Context {QT : Quiet} (K : ktables).
Implicit Types m : machine.

(** the walk of a kernel page [KVPN + i], [i < 512] *)
Lemma kspace_indices i :
  0 <= i < 512 ->
  ((KVPN + i) / 2 ^ 27) mod 512 = 511 /\ ((KVPN + i) / 2 ^ 18) mod 512 = 510 /\
  ((KVPN + i) / 2 ^ 9) mod 512 = 0 /\ (KVPN + i) mod 512 = i.
Proof.
  unfold KVPN. intros. change (2 ^ 27) with 134217728. change (2 ^ 18) with 262144.
  change (2 ^ 9) with 512. repeat split; dlia.
Qed.

Lemma kspace_walk m i :
  kspace K m -> 0 <= i < 512 ->
  mwalk m (KVPN + i) =
    if present (load 8 (ram m) (kt1 K + 8 * i))
    then Some (pte_addr (load 8 (ram m) (kt1 K + 8 * i))) else None.
Proof.
  intros Hk Hi. destruct (kspace_indices i Hi) as (I4 & I3 & I2 & I1).
  unfold mwalk, walk. rewrite I4, I3, I2, I1, (ks_root _ _ Hk).
  change (8 * 511) with 4088. change (8 * 510) with 4080. rewrite Z.mul_0_r.
  rewrite (ks_p4 _ _ Hk), (ks_a4 _ _ Hk). cbn [negb].
  rewrite (ks_p3 _ _ Hk), (ks_h3 _ _ Hk), (ks_a3 _ _ Hk), Z.add_0_r. cbn [negb].
  rewrite (ks_p2 _ _ Hk), (ks_h2 _ _ Hk), (ks_a2 _ _ Hk). cbn [negb].
  by destruct (present _).
Qed.

Lemma kspace_bytes m i a :
  kspace K m -> 0 <= i < 512 -> mbytes m (KVPN + i) a ->
  span (kt4 K + 4088) 8 a \/ span (kt3 K + 4080) 8 a \/ span (kt2 K) 8 a \/ span (kt1 K + 8 * i) 8 a.
Proof.
  intros Hk Hi. destruct (kspace_indices i Hi) as (I4 & I3 & I2 & I1).
  unfold mbytes, walk_bytes. rewrite I4, I3, I2, I1, (ks_root _ _ Hk).
  change (8 * 511) with 4088. change (8 * 510) with 4080. rewrite Z.mul_0_r.
  rewrite (ks_a4 _ _ Hk), (ks_a3 _ _ Hk), Z.add_0_r, (ks_a2 _ _ Hk). tauto.
Qed.

Lemma kspace_maps m i : kspace K m -> 0 <= i < 511 -> maps m (KVPN + i) (4096 * i).
Proof.
  intros Hk Hi. split.
  - change (mwalk m (KVPN + i) = Some (4096 * i)). rewrite kspace_walk by (done || lia).
    by rewrite (ks_p1 _ _ Hk), (ks_a1 _ _ Hk).
  - intros f. by apply (ks_tlb _ _ Hk).
Qed.

(** the one-to-one window *)
Lemma kspace_vmap m p n :
  kspace K m -> 0 <= p -> p + n <= KWIN -> vmap m (KERNEL_BASE + p) p n.
Proof.
  unfold KWIN. intros Hk Hp Hn i Hi. split.
  - split; [apply upper_canonical, upper_range; unfold KERNEL_BASE; lia|]. apply quiet_window. unfold KERNEL_BASE, KVPN. dlia.
  - exists (4096 * ((p + i) / 4096)).
    replace ((KERNEL_BASE + p + i) / 4096) with (KVPN + (p + i) / 4096)
      by (unfold KERNEL_BASE, KVPN; dlia).
    split; [apply kspace_maps; [done|dlia]|]. unfold KERNEL_BASE. dlia.
Qed.

Lemma kspace_vstable m (W : Z -> Prop) p n :
  kspace K m -> 0 <= p -> p + n <= KWIN -> (forall a, ktab K a -> ~ W a) ->
  vstable m W (KERNEL_BASE + p) p n.
Proof.
  intros Hk Hp Hn Hd. split; [by apply kspace_vmap|]. intros i Hi a Ha. apply Hd.
  replace ((KERNEL_BASE + p + i) / 4096) with (KVPN + (p + i) / 4096) in Ha
    by (unfold KERNEL_BASE, KVPN; dlia).
  assert (0 <= (p + i) / 4096 < 511) by (unfold KWIN in *; dlia).
  apply (kspace_bytes m) in Ha; [|done|lia]. unfold ktab, span in *. lia.
Qed.

Lemma kspace_frame m m' :
  kspace K m -> cr3 m' = cr3 m -> agree (ktab K) (ram m) (ram m') ->
  (forall i f, 0 <= i < 511 -> tlb m' !! (KVPN + i) = Some f -> f = 4096 * i) ->
  kspace K m'.
Proof.
  intros [] Hc Ha Ht. unfold ktab, agree, span in Ha.
  assert (L4 : load 8 (ram m') (kt4 K + 4088) = load 8 (ram m) (kt4 K + 4088)).
  { apply load_agree. intros b Hb. apply Ha. unfold span in Hb. lia. }
  assert (L3 : load 8 (ram m') (kt3 K + 4080) = load 8 (ram m) (kt3 K + 4080)).
  { apply load_agree. intros b Hb. apply Ha. unfold span in Hb. lia. }
  assert (L2 : load 8 (ram m') (kt2 K) = load 8 (ram m) (kt2 K)).
  { apply load_agree. intros b Hb. apply Ha. unfold span in Hb. lia. }
  assert (L1 : forall i, 0 <= i < 511 -> load 8 (ram m') (kt1 K + 8 * i) = load 8 (ram m) (kt1 K + 8 * i)).
  { intros i Hi. apply load_agree. intros b Hb. apply Ha. unfold span in Hb. lia. }
  split; rewrite ?L4, ?L3, ?L2, ?Hc; auto; intros i Hi; rewrite L1; auto.
Qed.

Lemma kspace_mstep W m m' :
  kspace K m -> mstep W m m' -> (forall a, ktab K a -> ~ W a) -> kspace K m'.
Proof.
  intros Hk Hs Hd. eapply kspace_frame; [done|apply Hs| |].
  - eapply agree_weaken; [apply Hs|exact Hd].
  - intros i f Hi Hf.
    destruct (ms_tlb _ _ _ Hs (KVPN + i)) with f as [H|H]; [|done|by apply (ks_tlb _ _ Hk)|].
    + intros a Ha. apply Hd. apply (kspace_bytes m) in Ha; [|done|lia].
      unfold ktab, span in *. lia.
    + change (mwalk m (KVPN + i) = Some f) in H.
      destruct (kspace_maps m i Hk Hi) as [Hw _]. unfold mwalk in H. congruence.
Qed.

Lemma kspace_wstep W m m' :
  kspace K m -> wstep W m m' -> (forall a, ktab K a -> ~ W a) -> kspace K m'.
Proof. intros Hk Hs. by apply (kspace_mstep W m), wstep_mstep. Qed.

Lemma kspace_warm m m' : kspace K m -> warm m m' -> kspace K m'.
Proof.
  intros Hk Hw. eapply kspace_wstep; [done|by apply (warm_wstep nowhere)|]. by intros a _ [].
Qed.

Lemma kspace_set_glb m g : kspace K m -> kspace K (set_glb g m).
Proof. by intros []. Qed.

Lemma kspace_set_hw m h : kspace K m -> kspace K (set_hw h m).
Proof. by intros []. Qed.

Lemma kspace_set_tlb m t : kspace K m ->
  (forall i f, 0 <= i < 511 -> t !! (KVPN + i) = Some f -> f = 4096 * i) -> kspace K (set_tlb t m).
Proof. by intros []. Qed.

(** ** Accesses through the window *)

Lemma wp_kload n m p Q E :
  kspace K m -> 0 <= p -> p + Z.of_nat n <= KWIN ->
  (forall m', warm m m' -> kspace K m' -> Q (load n (ram m) p) m') ->
  wp (vload n (KERNEL_BASE + p)) Q E m.
Proof.
  intros Hk Hp Hn HQ. eapply wp_vload; [by apply kspace_vmap|].
  intros m' Hw. apply HQ; [done|]. by eapply kspace_warm.
Qed.

Lemma wp_kstore n m p v (Q : unit -> machine -> Prop) E :
  kspace K m -> 0 <= p -> p + Z.of_nat n <= KWIN ->
  (forall a, span p (Z.of_nat n) a -> ~ ktab K a) ->
  (forall m', wstep (span p (Z.of_nat n)) m m' -> kspace K m' ->
     ram m' = store n p v (ram m) -> Q tt m') ->
  wp (vstore n (KERNEL_BASE + p) v) Q E m.
Proof.
  intros Hk Hp Hn Hd HQ. eapply wp_vstore; [by apply kspace_vmap|].
  intros m' Hw.
  assert (Hs : wstep (span p (Z.of_nat n)) m (set_ram (store n p v (ram m)) m')).
  { etrans; [by apply warm_wstep|]. rewrite <- (warm_ram _ _ Hw). by apply wstep_store. }
  apply HQ; [done| |done]. eapply kspace_wstep; [done|done|]. intros a Hk' Ha. by apply (Hd a).
Qed.
(** a run of accesses inside [W]: the memory it has produced so far *)
Record at_ram (W : Z -> Prop) (m : machine) (r : ram_t) (m' : machine) : Prop := mk_at_ram {
  ar_k : kspace K m';
  ar_step : wstep W m m';
  ar_ram : ram m' = r
}.

Lemma at_ram_refl W m : kspace K m -> at_ram W m (ram m) m.
Proof. by split. Qed.

Lemma wp_ld W m0 r n m p Q E :
  at_ram W m0 r m -> 0 <= p -> p + Z.of_nat n <= KWIN ->
  (forall m', at_ram W m0 r m' -> Q (load n r p) m') ->
  wp (vload n (KERNEL_BASE + p)) Q E m.
Proof.
  intros [Hk Hs <-] Hp Hn HQ. apply wp_kload; [done..|]. intros m' Hw Hk'. apply HQ.
  split; [done| |apply Hw]. etrans; [exact Hs|by apply warm_wstep].
Qed.

Lemma wp_st (W : Z -> Prop) m0 r n m p v (Q : unit -> machine -> Prop) E :
  at_ram W m0 r m -> 0 <= p -> p + Z.of_nat n <= KWIN ->
  (forall a, span p (Z.of_nat n) a -> W a /\ ~ ktab K a) ->
  (forall m', at_ram W m0 (store n p v r) m' -> Q tt m') ->
  wp (vstore n (KERNEL_BASE + p) v) Q E m.
Proof.
  intros [Hk Hs <-] Hp Hn HW HQ. apply wp_kstore; [done..| |].
  { intros a Ha. by apply HW. }
  intros m' Hs' Hk' Hr. apply HQ. split; [done| |done]. etrans; [exact Hs|].
  eapply wstep_weaken; [exact Hs'|]. intros a Ha. by apply HW.
Qed.
End KernelSpace.

(** the state of the kernel on a fixed path, as used by clients *)
#[export] Hint Resolve kspace_warm kspace_set_glb kspace_set_hw : kern.
