(* ===== verification/Utils.v ===== *)
(** utils.c: the bootstrap page pool, the byte loops memcpy and memset, panic and
    the model-specific register accessors. *)

From Stdlib Require Import String Ascii.
From S2P Require Import Prelude Comp Ram Machine KSpace.

(** ** Operations *)

Definition alloc_page : M Z :=
  nf <- getg next_free ;;
  if POOL_END <=? u64 (nf + PAGE_SIZE)
  then ret NULL
  else setg (fun g => set_next_free (u64 (next_free g + PAGE_SIZE)) g) ;;; ret nf.

(** the counter is an [int]: past [INT_MAX] its increment is undefined *)
Definition memcpy (dest src count : Z) : M Z :=
  for_range (Z.to_nat (Z.min count (2 ^ 31))) 0 (fun i =>
    c <- vload 1 (u64 (src + i)) ;; vstore 1 (u64 (dest + i)) c) ;;;
  if 2 ^ 31 <=? count then halt Undefined else ret dest.

Definition memset (dest c count : Z) : M Z :=
  let byte_val := u8 c in
  for_range (Z.to_nat count) 0 (fun i => vstore 1 (u64 (dest + i)) byte_val) ;;;
  ret dest.

(** a [char] of a string literal, as the signed value C reads *)
Definition char_val (c : ascii) : Z :=
  let v := Z.of_N (N_of_ascii c) in if v <? 128 then v else v - 256.

Definition VGA_MEMORY : Z := KERNEL_BASE + 0xB8000.

(** the loop of [panic], [print_at] and [syscall_handler]: the characters of a
    NUL-terminated string to consecutive cells, from cell [n], with attribute [attr] *)
Fixpoint put_text (attr n : Z) (message : string) : M unit :=
  match message with
  | EmptyString => ret tt
  | String c rest =>
      if char_val c =? 0 then ret tt else
      vstore 2 (u64 (VGA_MEMORY + 2 * n)) (u16 (Z.lor attr (char_val c))) ;;;
      put_text attr (n + 1) rest
  end.

Definition panic {A} (message : string) : M A := put_text 0x0F00 (12 * 80) message ;;; halt Halted.

Definition read_msr (msr : Z) : M Z :=
  v <- gethw (fun h => u64 (default 0 (msrs h !! msr))) ;;
  let low := u32 v in
  let high := u32 (Z.shiftr v 32) in
  ret (Z.lor (u64 (Z.shiftl high 32)) low).

Definition write_msr (msr val : Z) : M unit :=
  let low := u32 (Z.land val 0xFFFFFFFF) in
  let high := u32 (Z.shiftr val 32) in
  sethw (fun h => mk_cpu (cr0 h) (cr4 h) (cpuid1_edx h)
                    (<[msr := Z.lor (Z.shiftl high 32) low]> (msrs h))
                    (idtr h) (iflag h) (ports h) (kbd h)).

(** ** Byte loops *)

(** [r'] is [r] with the [n] bytes at [s] copied to [d] *)
Definition copied (d s n : Z) (r r' : ram_t) : Prop :=
  forall b, rd r' b = if decide (span d n b) then rd r (s + (b - d)) else rd r b.

Section ByteLoops.
Context {QT : Quiet}.
Implicit Types m : machine.

Lemma vmap_u64 m va pa n i : vmap m va pa n -> 0 <= i < n -> u64 (va + i) = va + i.
Proof. intros Hv Hi. destruct (Hv i Hi) as [[Hc _] _]. by apply u64_small, canonical_range. Qed.

Lemma wp_memset m dest pd c count (Q : Z -> machine -> Prop) E :
  0 <= count -> vstable m (span pd count) dest pd count ->
  (forall m', wstep (span pd count) m m' -> filled pd count (u8 c) (ram m) (ram m') -> Q dest m') ->
  wp (memset dest c count) Q E m.
Proof.
  intros Hc Hst HQ. unfold memset. apply wp_bind.
  eapply wp_mono;
    [eapply (wp_for_range (fun i m' => wstep (span pd count) m m' /\
                                       filled pd i (u8 c) (ram m) (ram m')))| |by intros].
  - split; [done|]. intros b. rewrite decide_False; [done|]. unfold span; lia.
  - intros i m1 Hi [Hs Hf]. rewrite Z2Nat.id in Hi by lia.
    pose proof (vstable_wstep _ _ _ _ _ _ Hs Hst) as Hst1.
    rewrite (vmap_u64 _ _ _ _ _ (proj1 Hst1)) by lia.
    eapply (wp_vstore_st 1 _ (span pd count)); [eapply (vmap_sub _ _ _ _ _ 1); [apply Hst1|lia|lia]| |].
    + unfold span. lia.
    + intros m2 Hs2 Hr. split; [by etrans|]. intros b.
      rewrite Hr. cbn [store]. rewrite rd_wr. case_decide as Hb; subst.
      * rewrite decide_True by (unfold span; lia). apply u8_small, u8_range.
      * rewrite Hf. unfold span. repeat case_decide; done || lia.
  - intros [] m1 [Hs Hf]. rewrite Z2Nat.id in Hf by lia. by apply wp_ret, HQ.
Qed.

Lemma wp_memcpy m dest src pd ps count (Q : Z -> machine -> Prop) E :
  0 <= count < 2 ^ 31 -> ps + count <= pd \/ pd + count <= ps ->
  vstable m (span pd count) dest pd count -> vstable m (span pd count) src ps count ->
  (forall m', wstep (span pd count) m m' -> copied pd ps count (ram m) (ram m') -> Q dest m') ->
  wp (memcpy dest src count) Q E m.
Proof.
  intros Hc Hdis Hd Hsrc HQ. unfold memcpy. rewrite Z.min_l by lia. apply wp_bind.
  eapply wp_mono;
    [eapply (wp_for_range (fun i m' => wstep (span pd count) m m' /\
                                       copied pd ps i (ram m) (ram m')))| |by intros].
  - split; [done|]. intros b. rewrite decide_False; [done|]. unfold span; lia.
  - intros i m1 Hi [Hs Hf]. rewrite Z2Nat.id in Hi by lia.
    pose proof (vstable_wstep _ _ _ _ _ _ Hs Hd) as Hd1.
    pose proof (vstable_wstep _ _ _ _ _ _ Hs Hsrc) as Hsrc1.
    rewrite (vmap_u64 _ _ _ _ _ (proj1 Hd1)), (vmap_u64 _ _ _ _ _ (proj1 Hsrc1)) by lia.
    apply wp_bind. eapply (wp_vload_st 1); [eapply (vstable_sub _ _ _ _ _ _ 1); [apply Hsrc1|lia|lia]|].
    intros m2 Hs2 Hr2. rewrite load1.
    pose proof (vstable_wstep _ _ _ _ _ _ Hs2 Hd1) as Hd2.
    eapply (wp_vstore_st 1 _ (span pd count)); [eapply (vmap_sub _ _ _ _ _ 1); [apply Hd2|lia|lia]| |].
    + unfold span. lia.
    + intros m3 Hs3 Hr3. split; [by repeat (etrans; [eassumption|])|]. intros b.
      rewrite Hr3, Hr2. cbn [store]. rewrite rd_wr. case_decide as Hb; subst.
      * rewrite decide_True by (unfold span; lia). rewrite u8_small by apply rd_range.
        rewrite Hf. rewrite decide_False by (unfold span; lia). f_equal. lia.
      * rewrite Hf. unfold span. repeat case_decide; done || lia.
  - intros [] m1 [Hs Hf]. rewrite Z2Nat.id in Hf by lia.
    rewrite (proj2 (Z.leb_gt _ _)) by lia. by apply wp_ret, HQ.
Qed.
End ByteLoops.

(** ** The bootstrap pool *)

(** [alloc_page] hands out the page at [next_free], or NULL without moving it *)
Lemma wp_alloc_page m (Q : Z -> machine -> Prop) E :
  POOL_START <= next_free (glb m) < POOL_END ->
  (next_free (glb m) + PAGE_SIZE < POOL_END ->
     Q (next_free (glb m)) (set_glb (set_next_free (next_free (glb m) + PAGE_SIZE) (glb m)) m)) ->
  (POOL_END <= next_free (glb m) + PAGE_SIZE -> Q NULL m) ->
  wp alloc_page Q E m.
Proof.
  intros Hn H1 H2. unfold alloc_page. wp_steps.
  assert (u64 (next_free (glb m) + PAGE_SIZE) = next_free (glb m) + PAGE_SIZE) as Hu.
  { apply u64_small. unfold POOL_START, POOL_END, PAGE_SIZE in *. lia. }
  rewrite Hu. destruct (Z.leb_spec POOL_END (next_free (glb m) + PAGE_SIZE)); wp_steps; [by apply H2|].
  rewrite Hu. by apply H1.
Qed.

(** ** Text on the VGA screen *)

(** the 80 x 25 screen, in physical memory *)
Definition VGA_PHYS : Z := 0xB8000.
Definition vga_bytes : Z -> Prop := span VGA_PHYS (80 * 25 * 2).

(** 16-bit cells at consecutive addresses *)
Definition drawn (r : ram_t) (p : Z) (cells : list Z) : Prop :=
  forall (i : nat) v, cells !! i = Some v -> load 2 r (p + 2 * Z.of_nat i) = v.

Fixpoint text_cells (attr : Z) (s : string) : list Z :=
  match s with
  | EmptyString => []
  | String c rest => u16 (Z.lor attr (char_val c)) :: text_cells attr rest
  end.

Fixpoint no_nul (s : string) : bool :=
  match s with
  | EmptyString => true
  | String c rest => negb (char_val c =? 0) && no_nul rest
  end.

Lemma text_cells_length attr s : length (text_cells attr s) = String.length s.
Proof. induction s as [|c s IH]; cbn; [done|by rewrite IH]. Qed.

Lemma drawn_cons r p v cells : drawn r p (v :: cells) <-> load 2 r p = v /\ drawn r (p + 2) cells.
Proof.
  unfold drawn. split.
  - intros H. split; [rewrite <- (H 0%nat v) by done; f_equal; lia|].
    intros i w Hi. rewrite <- (H (S i) w) by done. f_equal. lia.
  - intros [H0 H] [|i] w Hi; cbn in Hi.
    + injection Hi as <-. rewrite <- H0. f_equal. lia.
    + rewrite <- (H i w) by done. f_equal. lia.
Qed.

Lemma drawn_agree r r' p cells :
  agree (span p (2 * Z.of_nat (length cells))) r r' -> drawn r p cells -> drawn r' p cells.
Proof.
  intros Ha Hd i v Hi. rewrite <- (Hd i v Hi). apply lookup_lt_Some in Hi.
  apply load_agree. eapply agree_weaken; [done|]. unfold span. lia.
Qed.

Section Screen.
Context {QT : Quiet} (K : ktables) (Hvga : forall a, vga_bytes a -> ~ ktab K a).
Implicit Types m : machine.

(** storing one cell; [VGA_MEMORY[n]] is physical [VGA_PHYS + 2 n] *)
Lemma wp_cell m n v (Q : unit -> machine -> Prop) E :
  kspace K m -> 0 <= n < 80 * 25 -> 0 <= v < 2 ^ 16 ->
  (forall m', wstep (span (VGA_PHYS + 2 * n) 2) m m' -> kspace K m' ->
     load 2 (ram m') (VGA_PHYS + 2 * n) = v -> Q tt m') ->
  wp (vstore 2 (u64 (VGA_MEMORY + 2 * n)) v) Q E m.
Proof.
  intros Hk Hn Hv HQ.
  assert (Hu : u64 (VGA_MEMORY + 2 * n) = KERNEL_BASE + (VGA_PHYS + 2 * n)).
  { unfold VGA_MEMORY, VGA_PHYS. zconst. rewrite u64_small; lia. }
  rewrite Hu. apply (wp_kstore K 2); [done|unfold VGA_PHYS; lia|unfold VGA_PHYS, KWIN; lia| |].
  - intros a Ha. apply Hvga. unfold vga_bytes, span in *. lia.
  - intros m' Hs Hk' Hr. apply HQ; [done|done|]. rewrite Hr, load_store_eq. by apply Z.mod_small.
Qed.

Lemma u16_range x : 0 <= u16 x < 2 ^ 16.
Proof. unfold u16. apply Z.mod_pos_bound. lia. Qed.

Lemma wp_put_text attr s : forall m n (Q : unit -> machine -> Prop) E,
  kspace K m -> no_nul s = true -> 0 <= n -> n + Z.of_nat (String.length s) <= 2000 ->
  (forall m', wstep (span (VGA_PHYS + 2 * n) (2 * Z.of_nat (String.length s))) m m' ->
     kspace K m' -> drawn (ram m') (VGA_PHYS + 2 * n) (text_cells attr s) -> Q tt m') ->
  wp (put_text attr n s) Q E m.
Proof.
  induction s as [|c s IH]; intros m n Q E Hk Hz Hn Hlen HQ; cbn [put_text].
  - wp_steps. apply HQ; [reflexivity|done|]. by intros j v Hj.
  - cbn [no_nul] in Hz. apply andb_prop in Hz as [Hc Hz]. apply negb_true_iff in Hc. rewrite Hc.
    cbn [String.length] in *. apply wp_bind.
    apply wp_cell; [done|lia|apply u16_range|].
    intros m1 Hs1 Hk1 Hl1. apply IH; [done|done|lia|lia|].
    intros m2 Hs2 Hk2 Hd2. apply HQ; [|done|].
    + etrans; eapply wstep_weaken; [exact Hs1| |exact Hs2|]; unfold span; lia.
    + cbn [text_cells]. apply drawn_cons. split.
      * rewrite <- Hl1. apply load_agree. eapply agree_weaken; [apply Hs2|].
        unfold span. intros a Ha Hb. lia.
      * replace (VGA_PHYS + 2 * n + 2) with (VGA_PHYS + 2 * (n + 1)) by lia. done.
Qed.

(** [panic] draws its message on row 12 and never returns *)
Lemma wp_panic {A} s m (Q : A -> machine -> Prop) (E : stop -> machine -> Prop) :
  kspace K m -> no_nul s = true -> Z.of_nat (String.length s) <= 1040 ->
  (forall m', wstep (span (VGA_PHYS + 1920) (2 * Z.of_nat (String.length s))) m m' -> kspace K m' ->
     drawn (ram m') (VGA_PHYS + 1920) (text_cells 0x0F00 s) -> E Halted m') ->
  wp (panic s) Q E m.
Proof.
  intros Hk Hz Hl HE. unfold panic. apply wp_bind. apply wp_put_text; [done|done|lia|lia|].
  intros m' Hs Hk' Hd. wp_steps. by apply HE.
Qed.
End Screen.

(** ** Model-specific registers *)

Lemma u32_range x : 0 <= u32 x < 2 ^ 32.
Proof. apply Z.mod_pos_bound. lia. Qed.

Lemma join_halves a b : 0 <= a < 2 ^ 32 -> 0 <= b < 2 ^ 32 -> Z.lor (Z.shiftl a 32) b = a * 2 ^ 32 + b.
Proof.
  intros Ha Hb. rewrite Z.shiftl_mul_pow2 by lia. apply (lor_low _ _ 32); [done|by apply Z_mod_mult|done].
Qed.

Lemma high_half v : 0 <= v < 2 ^ 64 -> u32 (Z.shiftr v 32) = v / 2 ^ 32 /\ 0 <= v / 2 ^ 32 < 2 ^ 32.
Proof.
  intros Hv. assert (0 <= v / 2 ^ 32 < 2 ^ 32) by (split; [apply Z.div_pos|apply Z.div_lt_upper_bound]; lia).
  split; [|done]. rewrite Z.shiftr_div_pow2 by lia. by apply Z.mod_small.
Qed.

Lemma halves_sum v : v / 2 ^ 32 * 2 ^ 32 + v mod 2 ^ 32 = v.
Proof. pose proof (Z.div_mod v (2 ^ 32)). lia. Qed.

Definition with_msr (msr v : Z) (h : cpu) : cpu :=
  mk_cpu (cr0 h) (cr4 h) (cpuid1_edx h) (<[msr := v]> (msrs h)) (idtr h) (iflag h) (ports h) (kbd h).

Lemma wp_write_msr msr v m (Q : unit -> machine -> Prop) E :
  0 <= v < 2 ^ 64 -> Q tt (set_hw (with_msr msr v (hw m)) m) -> wp (write_msr msr v) Q E m.
Proof.
  intros Hv HQ. unfold write_msr. apply wp_sethw. destruct (high_half v Hv) as [-> Hr].
  change 0xFFFFFFFF with (Z.ones 32). rewrite Z.land_ones by lia. unfold u32. rewrite Z.mod_mod by lia.
  rewrite join_halves, halves_sum by (done || apply Z.mod_pos_bound; lia). exact HQ.
Qed.

Lemma wp_read_msr msr v m (Q : Z -> machine -> Prop) E :
  msrs (hw m) !! msr = Some v -> 0 <= v < 2 ^ 64 -> Q v m -> wp (read_msr msr) Q E m.
Proof.
  intros Hl Hv HQ. unfold read_msr. apply wp_bind, wp_gethw, wp_ret. rewrite Hl. cbn [default from_option id].
  rewrite (u64_small v) by done. destruct (high_half v Hv) as [-> Hr].
  rewrite (u64_small (Z.shiftl _ _)) by (rewrite Z.shiftl_mul_pow2 by lia; lia).
  unfold u32. rewrite join_halves, halves_sum by (done || apply Z.mod_pos_bound; lia). exact HQ.
Qed.

(** ** Properties *)

(** [memcpy] of two mapped, non-overlapping ranges copies the bytes, writes
    nothing else and returns the destination, for counts that fit an [int]. *)
Theorem memcpy_correct m dest src pd ps count :
  0 <= count < 2 ^ 31 -> ps + count <= pd \/ pd + count <= ps ->
  vstable m (span pd count) dest pd count -> vstable m (span pd count) src ps count ->
  wp (memcpy dest src count)
    (fun r m' => r = dest /\ wstep (span pd count) m m' /\ copied pd ps count (ram m) (ram m')) nostop m.
Proof. intros. apply (wp_memcpy m _ _ pd ps); [done..|]. intros m' Hs Hc. by split_and!. Qed.

(** [memset] fills exactly the given range with the low byte of the value. *)
Theorem memset_correct m dest pd c count :
  0 <= count -> vstable m (span pd count) dest pd count ->
  wp (memset dest c count)
    (fun r m' => r = dest /\ wstep (span pd count) m m' /\ filled pd count (u8 c) (ram m) (ram m')) nostop m.
Proof. intros. apply (wp_memset m _ pd); [done..|]. intros m' Hs Hc. by split_and!. Qed.

(** [alloc_page] hands out the page at [next_free], inside the pool, and moves on
    by one page; at the end of the pool it answers NULL and changes nothing. *)
Theorem alloc_page_correct m :
  POOL_START <= next_free (glb m) < POOL_END ->
  wp alloc_page
    (fun r m' =>
       (r = next_free (glb m) /\ r + PAGE_SIZE < POOL_END /\
          m' = set_glb (set_next_free (r + PAGE_SIZE) (glb m)) m) \/
       (r = NULL /\ POOL_END <= next_free (glb m) + PAGE_SIZE /\ m' = m)) nostop m.
Proof. intros Hn. apply wp_alloc_page; [done| |]; intros H; [by left|by right]. Qed.

(** [panic] shows its message on row 12 and halts the machine for good. *)
Theorem panic_reports K s m :
  (forall a, vga_bytes a -> ~ ktab K a) -> kspace K m -> no_nul s = true -> Z.of_nat (String.length s) <= 1040 ->
  wp (panic s : M unit) (fun _ _ => False)
    (fun e m' => e = Halted /\ drawn (ram m') (VGA_PHYS + 1920) (text_cells 0x0F00 s) /\
       wstep (span (VGA_PHYS + 1920) (2 * Z.of_nat (String.length s))) m m') m.
Proof. intros Hvga Hk Hz Hl. apply (wp_panic K Hvga); [done..|]. intros m' Hs _ Hd. by split_and!. Qed.

(** A model-specific register reads back what was written, all 64 bits. *)
Theorem msr_roundtrip msr v m :
  0 <= v < 2 ^ 64 -> wp (write_msr msr v ;;; read_msr msr) (fun r _ => r = v) nostop m.
Proof.
  intros Hv. apply wp_bind, wp_write_msr; [done|]. apply (wp_read_msr msr v); [|done|done].
  cbn [hw set_hw msrs with_msr]. apply lookup_insert_eq.
Qed.
