(* ===== verification/Pmm.v ===== *)
(** pmm.c: the physical page allocator, one bit per 4 KiB page in a bitmap that
    lives in the bootstrap pool (bit set: used). *)

From S2P Require Import Prelude Comp Ram Machine KSpace Utils.

(** ** Operations *)

(** [bios_mmap_entry] (utils.h): 24 bytes, read through a pointer *)
Record bios_mmap_entry : Type := mk_mmap_entry {
  base_addr : Z; length_ : Z; type_ : Z; acpi_ext : Z
}.

Definition sizeof_mmap_entry : Z := 24.
Definition entry_base (entry : Z) : M Z := vload 8 entry.
Definition entry_length (entry : Z) : M Z := vload 8 (u64 (entry + 8)).
Definition entry_type (entry : Z) : M Z := vload 4 (u64 (entry + 16)).

(** [mem_bitmap[i / 8] |= 1 << (i % 8)] and [mem_bitmap[i / 8] &= ~(1 << (i % 8))] *)
Definition bitmap_set (i : Z) : M unit :=
  bm <- getg mem_bitmap ;;
  let array_index := i / 8 in
  let bit_offset := u8 (i mod 8) in
  b <- vload 1 (u64 (bm + array_index)) ;;
  vstore 1 (u64 (bm + array_index)) (u8 (Z.lor b (Z.shiftl 1 bit_offset))).

Definition bitmap_clear (i : Z) : M unit :=
  bm <- getg mem_bitmap ;;
  let array_index := i / 8 in
  let bit_offset := u8 (i mod 8) in
  b <- vload 1 (u64 (bm + array_index)) ;;
  vstore 1 (u64 (bm + array_index)) (u8 (Z.land b (Z.lnot (Z.shiftl 1 bit_offset)))).

(** first loop of pmm_init: the end of the last usable entry, and the usable bytes *)
Definition scan_usable (mmap mmap_count : Z) : M (Z * Z) :=
  for_fold (Z.to_nat mmap_count) 0 (0, 0) (fun i '(last_usable_end, usable_ram) =>
    let entry := u64 (mmap + sizeof_mmap_entry * i) in
    t <- entry_type entry ;;
    if t =? 1 then
      b <- entry_base entry ;;
      l <- entry_length entry ;;
      let end_ := u64 (b + l) in
      ret (if last_usable_end <? end_ then end_ else last_usable_end, u64 (usable_ram + l))
    else ret (last_usable_end, usable_ram)).

(** [(entry->base_addr + entry->length + PAGE_SIZE - 1) / PAGE_SIZE], read from the entry *)
Definition entry_last_page (entry : Z) : M Z :=
  b <- entry_base entry ;;
  l <- entry_length entry ;;
  ret (u64 (u64 (u64 (b + l) + PAGE_SIZE) - 1) / PAGE_SIZE).

(** inner loop: clear the bits of one entry; the bound is read again for every page *)
Definition free_entry (entry : Z) : M unit :=
  b <- entry_base entry ;;
  let lo := u64 (u64 (b + PAGE_SIZE) - 1) / PAGE_SIZE in
  hi <- entry_last_page entry ;;
  while_fuel (S (Z.to_nat (hi - lo)))
    (fun i => hi' <- entry_last_page entry ;; ret (i <? hi'))
    (fun i => bitmap_clear i ;;; ret (u64 (i + 1))) lo ;;;
  ret tt.

(** second loop: clear the bits of the usable entries *)
Definition free_usable (mmap mmap_count last_usable_end : Z) : M unit :=
  for_range (Z.to_nat mmap_count) 0 (fun i =>
    let entry := u64 (mmap + sizeof_mmap_entry * i) in
    t <- entry_type entry ;;
    if negb (t =? 1) then ret tt else
    b <- entry_base entry ;;
    if last_usable_end <? b then ret tt else free_entry entry).

Definition pmm_init (mmap mmap_count : Z) : M unit :=
  r <- scan_usable mmap mmap_count ;;
  let last_usable_end := r.1 in
  let num_pages := u64 (u64 (last_usable_end + PAGE_SIZE) - 1) / PAGE_SIZE in
  let bitmap_bytes := u64 (num_pages + 7) / 8 in
  setg (set_mem_bitmap_sizes bitmap_bytes num_pages) ;;;
  let page_count := u64 (u64 (bitmap_bytes + PAGE_SIZE) - 1) / PAGE_SIZE in
  bm <- alloc_page ;;
  setg (set_mem_bitmap bm) ;;;
  for_range (Z.to_nat (u64 (page_count - 1))) 0 (fun _ => alloc_page ;;; ret tt) ;;;
  memset bm 0xFF bitmap_bytes ;;;
  free_usable mmap mmap_count last_usable_end ;;;
  for_range (Z.to_nat (u64 (u64 (KERNEL_END - KERNEL_BASE + PAGE_SIZE) - 1) / PAGE_SIZE)) 0 bitmap_set.

Definition pmm_alloc : M Z :=
  bits <- getg mem_bitmap_bit_size ;;
  r <- for_find (Z.to_nat bits) 0 (fun i =>
         bm <- getg mem_bitmap ;;
         let array_index := i / 8 in
         let bit_offset := u8 (i mod 8) in
         b <- vload 1 (u64 (bm + array_index)) ;;
         if Z.land b (Z.shiftl 1 bit_offset) =? 0 then
           b' <- vload 1 (u64 (bm + array_index)) ;;
           vstore 1 (u64 (bm + array_index)) (u8 (Z.lor b' (Z.shiftl 1 bit_offset))) ;;;
           ret (Some (u64 (i * PAGE_SIZE)))
         else ret None) ;;
  match r with
  | Some p => ret p
  | None => ret NULL
  end.

Definition pmm_free (block : Z) : M unit :=
  let page_index := block / PAGE_SIZE in
  bits <- getg mem_bitmap_bit_size ;;
  if bits <=? page_index then ret tt else bitmap_clear page_index.

(** ** The bitmap as a set of free pages *)

Definition bmp (g : globals) : Z := mem_bitmap g - KERNEL_BASE.

(** bit [i] of the bitmap at physical address [p] *)
Definition bit (r : ram_t) (p i : Z) : bool := Z.testbit (rd r (p + i / 8)) (i mod 8).

(** page [i] is managed by the allocator and free *)
Definition free_page (m : machine) (i : Z) : Prop :=
  0 <= i < mem_bitmap_bit_size (glb m) /\ bit (ram m) (bmp (glb m)) i = false.

#[export] Instance free_page_dec m i : Decision (free_page m i).
Proof. unfold free_page. apply _. Defined.

(** the bitmap lies in the one-to-one window, clear of the kernel's page tables *)
Record bitmap_ok (K : ktables) (g : globals) : Prop := mk_bitmap_ok {
  bo_lo : 0 <= bmp g;
  bo_hi : bmp g + mem_bitmap_size g <= KWIN;
  bo_bits : 0 <= mem_bitmap_bit_size g <= 8 * mem_bitmap_size g;
  bo_tab : forall a, span (bmp g) (mem_bitmap_size g) a -> ~ ktab K a
}.

Definition bitmap_bytes (g : globals) : Z -> Prop := span (bmp g) (mem_bitmap_size g).

#[export] Instance free_page_footprint i :
  Footprint (fun m => 0 <= mem_bitmap_bit_size (glb m) <= 8 * mem_bitmap_size (glb m) /\ free_page m i)
            (fun m => bitmap_bytes (glb m)).
Proof.
  intros m m' [Hb [Hi Hf]] Hg Ha. rewrite Hg. split; [done|]. split; [by rewrite Hg|].
  unfold bit in *. rewrite Hg, (Ha _); [done|]. unfold bitmap_bytes, span. dlia.
Qed.

(** setting and clearing one bit of a byte *)
Lemma testbit_set b k j :
  0 <= b < 256 -> 0 <= k < 8 -> 0 <= j < 8 ->
  Z.testbit (u8 (Z.lor b (Z.shiftl 1 k))) j = (j =? k) || Z.testbit b j.
Proof.
  intros Hb Hk Hj. unfold u8. rewrite Z.mod_pow2_bits_low by lia.
  change (Z.lor b (Z.shiftl 1 k)) with (Z.setbit b k).
  destruct (Z.eqb_spec j k) as [->|Hne]; [by rewrite Z.setbit_eq by lia|].
  by rewrite Z.setbit_neq by lia.
Qed.

Lemma testbit_clear b k j :
  0 <= b < 256 -> 0 <= k < 8 -> 0 <= j < 8 ->
  Z.testbit (u8 (Z.land b (Z.lnot (Z.shiftl 1 k)))) j = negb (j =? k) && Z.testbit b j.
Proof.
  intros Hb Hk Hj. unfold u8. rewrite Z.mod_pow2_bits_low by lia.
  rewrite <- Z.ldiff_land. change (Z.ldiff b (Z.shiftl 1 k)) with (Z.clearbit b k).
  destruct (Z.eqb_spec j k) as [->|Hne]; [by rewrite Z.clearbit_eq by lia|].
  by rewrite Z.clearbit_neq by lia.
Qed.

Lemma land_bit b k : 0 <= k -> (Z.land b (Z.shiftl 1 k) =? 0) = negb (Z.testbit b k).
Proof.
  intros Hk. rewrite Z.shiftl_1_l. destruct (Z.testbit b k) eqn:E; cbn [negb].
  - apply Z.eqb_neq. intros H. apply (f_equal (fun x => Z.testbit x k)) in H.
    rewrite Z.land_spec, Z.pow2_bits_true, Z.bits_0, E in H by lia. done.
  - apply Z.eqb_eq. apply Z.bits_inj'. intros n Hn. rewrite Z.land_spec, Z.bits_0.
    destruct (Z.eq_dec k n) as [->|Hne]; [by rewrite E|].
    rewrite Z.pow2_bits_false by lia. by rewrite andb_false_r.
Qed.

(** effect of writing back a byte on the bits of the bitmap *)
Lemma bit_update r p i j (v : Z) (f : bool -> bool) :
  0 <= i -> 0 <= j ->
  (forall k, 0 <= k < 8 -> Z.testbit (u8 v) k =
     if decide (k = i mod 8) then f (Z.testbit (rd r (p + i / 8)) k) else Z.testbit (rd r (p + i / 8)) k) ->
  bit (store 1 (p + i / 8) v r) p j = if decide (j = i) then f (bit r p j) else bit r p j.
Proof.
  intros Hi Hj Hv. unfold bit. cbn [store]. rewrite rd_wr.
  case_decide as Ha.
  - assert (j / 8 = i / 8) as Hji by lia.
    rewrite Hv by dlia. rewrite Hji. repeat case_decide; subst; done || dlia.
  - rewrite decide_False; [done|]. intros ->. lia.
Qed.

Section Bitmap.
Context {QT : Quiet} (K : ktables).
Implicit Types m : machine.

(** one byte of the bitmap is accessible, and not a page-table byte *)
Lemma bitmap_addr g i :
  bitmap_ok K g -> 0 <= i < 8 * mem_bitmap_size g ->
  u64 (mem_bitmap g + i / 8) = KERNEL_BASE + (bmp g + i / 8) /\
  0 <= bmp g + i / 8 /\ bmp g + i / 8 + 1 <= KWIN /\
  (forall a, span (bmp g + i / 8) 1 a -> bitmap_bytes g a).
Proof.
  intros Hok Hi. pose proof (bo_lo _ _ Hok). pose proof (bo_hi _ _ Hok).
  assert (0 <= i / 8 < mem_bitmap_size g) by dlia.
  unfold bitmap_bytes, KWIN, bmp, span in *.
  split; [rewrite u64_small; unfold KERNEL_BASE in *; lia|].
  split_and!; [lia|lia|intros; lia].
Qed.

(** the state after changing bit [i] with [f] *)
Definition bit_changed (i : Z) (f : bool -> bool) m m' : Prop :=
  wstep (span (bmp (glb m) + i / 8) 1) m m' /\ kspace K m' /\
  forall j, 0 <= j -> bit (ram m') (bmp (glb m)) j =
    if decide (j = i) then f (bit (ram m) (bmp (glb m)) j) else bit (ram m) (bmp (glb m)) j.

Lemma wp_bitmap_update m i (upd : Z -> Z) (f : bool -> bool) (Q : unit -> machine -> Prop) E :
  kspace K m -> bitmap_ok K (glb m) -> 0 <= i < 8 * mem_bitmap_size (glb m) ->
  (forall b k, 0 <= b < 256 -> 0 <= k < 8 ->
     Z.testbit (u8 (upd b)) k = if decide (k = i mod 8) then f (Z.testbit b k) else Z.testbit b k) ->
  (forall m', bit_changed i f m m' -> Q tt m') ->
  wp (b <- vload 1 (u64 (mem_bitmap (glb m) + i / 8)) ;;
      vstore 1 (u64 (mem_bitmap (glb m) + i / 8)) (u8 (upd b))) Q E m.
Proof.
  intros Hk Hok Hi Hupd HQ.
  destruct (bitmap_addr _ _ Hok Hi) as (-> & Hlo & Hhi & Hin).
  apply wp_bind. eapply (wp_kload K 1); [done|lia|lia|]. intros m1 Hw1 Hk1.
  eapply (wp_kstore K 1); [done|lia|lia| |].
  { intros a Ha. by apply (bo_tab _ _ Hok), Hin. }
  intros m2 Hs2 Hk2 Hr2. apply HQ. split; [|split; [done|]].
  - etrans; [by apply warm_wstep|done].
  - intros j Hj. rewrite Hr2, (warm_ram _ _ Hw1), load1.
    apply bit_update; [lia|lia|]. intros k Hbk.
    rewrite (u8_small (u8 _)) by apply u8_range. apply Hupd; [apply rd_range|done].
Qed.

Lemma wp_bitmap_set m i (Q : unit -> machine -> Prop) E :
  kspace K m -> bitmap_ok K (glb m) -> 0 <= i < 8 * mem_bitmap_size (glb m) ->
  (forall m', bit_changed i (fun _ => true) m m' -> Q tt m') ->
  wp (bitmap_set i) Q E m.
Proof.
  intros Hk Hok Hi HQ. unfold bitmap_set. wp_steps.
  eapply (wp_bitmap_update m i (fun b => Z.lor b _)); [done..| |done].
  intros b k Hb Hk8. rewrite (u8_small (i mod 8)) by dlia. rewrite testbit_set by dlia.
  destruct (Z.eqb_spec k (i mod 8)); case_decide; done.
Qed.

Lemma wp_bitmap_clear m i (Q : unit -> machine -> Prop) E :
  kspace K m -> bitmap_ok K (glb m) -> 0 <= i < 8 * mem_bitmap_size (glb m) ->
  (forall m', bit_changed i (fun _ => false) m m' -> Q tt m') ->
  wp (bitmap_clear i) Q E m.
Proof.
  intros Hk Hok Hi HQ. unfold bitmap_clear. wp_steps.
  eapply (wp_bitmap_update m i (fun b => Z.land b _)); [done..| |done].
  intros b k Hb Hk8. rewrite (u8_small (i mod 8)) by dlia. rewrite testbit_clear by dlia.
  destruct (Z.eqb_spec k (i mod 8)); case_decide; done.
Qed.
End Bitmap.

(** ** The allocator's contract *)

(** the free pages, as a finite set of page numbers *)
Definition free_set (m : machine) : gset Z :=
  list_to_set (filter (free_page m) (seqZ 0 (mem_bitmap_bit_size (glb m)))).

Lemma elem_of_free_set m i : i ∈ free_set m <-> free_page m i.
Proof.
  unfold free_set. rewrite elem_of_list_to_set, list_elem_of_filter, elem_of_seqZ.
  unfold free_page. split; [tauto|]. intros [? ?]. split; [done|lia].
Qed.

(** What a page-frame allocator promises to its clients (the virtual memory
    manager, the ELF loader, kernel_main): its state is a set [frees] of page
    numbers kept in memory it owns inside the kernel window; [alloc] takes a page
    out of it or answers NULL when it is empty; [free] puts a managed page back. *)
Class FrameAllocator (alloc : M Z) (free : Z -> M unit) : Type := {
  ok : ktables -> globals -> Prop;          (* the allocator's globals are sound *)
  frees : machine -> gset Z;                (* the free page numbers *)
  managed : globals -> Z -> Prop;           (* the page numbers it looks after *)
  own : globals -> Z -> Prop;               (* the bytes it keeps its state in *)
  fa_own K g a : ok K g -> own g a -> 0 <= a < KWIN /\ ~ ktab K a;
  fa_range K m i : ok K (glb m) -> i ∈ frees m -> 0 <= i < 2 ^ 40;
  fa_managed K m i : ok K (glb m) -> i ∈ frees m -> managed (glb m) i;
  fa_frees K m m' : ok K (glb m) -> glb m' = glb m -> agree (own (glb m)) (ram m) (ram m') ->
    frees m' = frees m;
  fa_alloc {QT : Quiet} K m (Q : Z -> machine -> Prop) E : kspace K m -> ok K (glb m) ->
    (forall i m', i ∈ frees m -> wstep (own (glb m)) m m' -> kspace K m' ->
       frees m' = frees m ∖ {[i]} -> Q (i * PAGE_SIZE) m') ->
    (frees m = ∅ -> forall m', wstep nowhere m m' -> kspace K m' -> frees m' = ∅ -> Q NULL m') ->
    wp alloc Q E m;
  fa_free {QT : Quiet} K m p (Q : unit -> machine -> Prop) E : kspace K m -> ok K (glb m) ->
    (managed (glb m) (p / PAGE_SIZE) -> forall m', wstep (own (glb m)) m m' -> kspace K m' ->
       frees m' = {[p / PAGE_SIZE]} ∪ frees m -> Q tt m') ->
    (~ managed (glb m) (p / PAGE_SIZE) -> forall m', wstep nowhere m m' -> kspace K m' ->
       frees m' = frees m -> Q tt m') ->
    0 <= p -> wp (free p) Q E m
}.

Section Allocator.
Context {QT : Quiet} (K : ktables).
Implicit Types m : machine.

Lemma bits_bound g : bitmap_ok K g -> 0 <= mem_bitmap_bit_size g < 2 ^ 40.
Proof. intros []. unfold KWIN in *. lia. Qed.

Lemma bit_changed_warm i f m m1 m2 : warm m m1 -> bit_changed K i f m1 m2 -> bit_changed K i f m m2.
Proof.
  intros Hw (Hs & Hk & Hb). unfold bit_changed.
  rewrite (warm_glb _ _ Hw) in *. rewrite (warm_ram _ _ Hw) in *.
  split_and!; [|done|done]. etrans; [by apply warm_wstep|done].
Qed.

(** first fit: the lowest free page, or nothing when there is none *)
Lemma wp_pmm_alloc m (Q : Z -> machine -> Prop) E :
  kspace K m -> bitmap_ok K (glb m) ->
  (forall i m', free_page m i -> (forall j, 0 <= j < i -> ~ free_page m j) ->
     bit_changed K i (fun _ => true) m m' -> Q (i * PAGE_SIZE) m') ->
  ((forall i, ~ free_page m i) -> forall m', warm m m' -> kspace K m' -> Q NULL m') ->
  wp pmm_alloc Q E m.
Proof.
  intros Hk Hok Hsome Hnone. unfold pmm_alloc. wp_steps.
  pose proof (bits_bound _ Hok) as Hb. pose proof (bo_bits _ _ Hok) as Hbits.
  apply wp_bind.
  eapply (wp_for_find (fun i m' => warm m m' /\ kspace K m' /\ forall j, 0 <= j < i -> ~ free_page m j)).
  - split_and!; [done|done|lia].
  - intros i m1 Hi (Hw & Hk1 & Hnf). rewrite Z2Nat.id in Hi by lia. wp_steps.
    rewrite (warm_glb _ _ Hw).
    destruct (bitmap_addr K (glb m) i Hok ltac:(lia)) as (Ha & Hlo & Hhi & Hin).
    apply wp_bind. rewrite Ha. eapply (wp_kload K 1); [done|lia|lia|]. intros m2 Hw2 Hk2.
    rewrite load1, u8_small, land_bit by dlia.
    fold (bit (ram m1) (bmp (glb m)) i). rewrite (warm_ram _ _ Hw).
    destruct (bit (ram m) (bmp (glb m)) i) eqn:Hbit; cbn [negb].
    + wp_steps. split_and!; [by etrans|done|]. intros j Hj.
      destruct (Z.eq_dec j i) as [->|]; [|apply Hnf; lia]. intros [_ Hf]. congruence.
    + assert (Hw3 : warm m m2) by by etrans.
      rewrite <- Ha, <- (warm_glb _ _ Hw3).
      apply wp_bind_assoc, wp_bind.
      eapply (wp_bitmap_update K m2 i (fun b => Z.lor b _) (fun _ => true)); [done|..].
      * by rewrite (warm_glb _ _ Hw3).
      * rewrite (warm_glb _ _ Hw3). lia.
      * intros b k Hb8 Hk8. rewrite testbit_set by dlia.
        destruct (Z.eqb_spec k (i mod 8)); case_decide; done.
      * intros m4 Hm4. wp_steps. rewrite u64_small by (unfold PAGE_SIZE; lia).
        eapply Hsome; [split; [lia|done]|done|]. by eapply bit_changed_warm.
  - intros m1 (Hw & Hk1 & Hnf). wp_steps. rewrite Z2Nat.id in Hnf by lia.
    apply Hnone; [|done|done]. intros i Hi. apply (Hnf i); [|done]. apply Hi.
Qed.

Lemma wp_pmm_free m p (Q : unit -> machine -> Prop) E :
  kspace K m -> bitmap_ok K (glb m) -> 0 <= p ->
  (p / PAGE_SIZE < mem_bitmap_bit_size (glb m) ->
     forall m', bit_changed K (p / PAGE_SIZE) (fun _ => false) m m' -> Q tt m') ->
  (mem_bitmap_bit_size (glb m) <= p / PAGE_SIZE -> Q tt m) ->
  wp (pmm_free p) Q E m.
Proof.
  intros Hk Hok Hp Hin Hout. unfold pmm_free. wp_steps.
  pose proof (bo_bits _ _ Hok) as Hbits.
  assert (0 <= p / PAGE_SIZE) by (unfold PAGE_SIZE; dlia).
  destruct (Z.leb_spec (mem_bitmap_bit_size (glb m)) (p / PAGE_SIZE)).
  - wp_steps. by apply Hout.
  - apply (wp_bitmap_clear K); [done|done|lia|by apply Hin].
Qed.

Lemma bit_changed_own i f m m' :
  bitmap_ok K (glb m) -> 0 <= i < mem_bitmap_bit_size (glb m) ->
  bit_changed K i f m m' -> wstep (bitmap_bytes (glb m)) m m'.
Proof.
  intros Hok Hi (Hs & _). pose proof (bo_bits _ _ Hok).
  eapply wstep_weaken; [done|]. by apply (bitmap_addr K _ i Hok ltac:(lia)).
Qed.

Lemma free_page_changed i f m m' j :
  bit_changed K i f m m' ->
  free_page m' j <->
    0 <= j < mem_bitmap_bit_size (glb m) /\
    (if decide (j = i) then f (bit (ram m) (bmp (glb m)) j) else bit (ram m) (bmp (glb m)) j) = false.
Proof.
  intros (Hs & _ & Hb). unfold free_page. rewrite (ws_glb _ _ _ Hs).
  split; intros [H1 H2]; (split; [done|]); rewrite Hb in * by lia; done.
Qed.

(** allocating removes exactly the page, freeing adds exactly the page *)
Lemma free_set_used i m m' :
  bit_changed K i (fun _ => true) m m' -> free_set m' = free_set m ∖ {[i]}.
Proof.
  intros H. apply set_eq. intros j. rewrite elem_of_difference, !elem_of_free_set, elem_of_singleton.
  rewrite (free_page_changed _ _ _ _ _ H). unfold free_page. case_decide; intuition congruence.
Qed.

Lemma free_set_freed i m m' :
  0 <= i < mem_bitmap_bit_size (glb m) ->
  bit_changed K i (fun _ => false) m m' -> free_set m' = {[i]} ∪ free_set m.
Proof.
  intros Hi H. apply set_eq. intros j. rewrite elem_of_union, !elem_of_free_set, elem_of_singleton.
  rewrite (free_page_changed _ _ _ _ _ H). unfold free_page. case_decide; subst; intuition congruence.
Qed.
End Allocator.

Definition pmm_managed (g : globals) (i : Z) : Prop := i < mem_bitmap_bit_size g.

Lemma free_set_agree K m m' :
  bitmap_ok K (glb m) -> glb m' = glb m -> agree (bitmap_bytes (glb m)) (ram m) (ram m') ->
  free_set m' = free_set m.
Proof.
  intros Hok Hg Ha. pose proof (bo_bits _ _ Hok) as Hb.
  apply set_eq. intros i. rewrite !elem_of_free_set.
  split; intros Hi.
  - apply (footprint (Footprint := free_page_footprint i) m' m); rewrite ?Hg; [done|done|by symmetry].
  - apply (footprint (Footprint := free_page_footprint i) m m'); done.
Qed.

(** the bitmap allocator keeps the promise *)
#[export] Instance pmm_frame_allocator : FrameAllocator pmm_alloc pmm_free.
Proof.
  refine {| ok := bitmap_ok; frees := free_set; managed := pmm_managed; own := bitmap_bytes |}.
  - intros K g a Hok Ha. pose proof (bo_lo _ _ Hok). pose proof (bo_hi _ _ Hok).
    split; [unfold bitmap_bytes, span, KWIN in *; lia|by apply (bo_tab _ _ Hok)].
  - intros K m i Hok Hi. apply elem_of_free_set in Hi as [Hi _].
    pose proof (bits_bound _ _ Hok). lia.
  - intros K m i _ Hi. apply elem_of_free_set in Hi as [Hi _]. unfold pmm_managed. lia.
  - apply free_set_agree.
  - intros QT K m Q E Hk Hok Hsome Hnone. apply (wp_pmm_alloc K); [done|done| |].
    + intros i m' Hi _ Hc. apply (Hsome i).
      * by apply elem_of_free_set.
      * eapply bit_changed_own; [done|apply Hi|done].
      * by apply Hc.
      * by eapply free_set_used.
    + intros Hno m' Hw Hk'.
      assert (free_set m = ∅) as He.
      { apply set_eq. intros i. rewrite elem_of_free_set. set_solver. }
      apply Hnone; [done|by apply warm_wstep|done|]. rewrite <- He.
      eapply free_set_agree; [done|apply Hw|]. intros a _. by rewrite (warm_ram _ _ Hw).
  - intros QT K m p Q E Hk Hok Hin Hout Hp. unfold pmm_managed in *.
    assert (0 <= p / PAGE_SIZE) by (unfold PAGE_SIZE; dlia).
    apply (wp_pmm_free K); [done|done|done| |].
    + intros Hlt m' Hc. apply Hin; [done|by eapply bit_changed_own|by apply Hc|].
      by eapply free_set_freed.
    + intros Hge. apply Hout; [lia|done|done|done].
Defined.

(** ** Initialisation from the BIOS memory map *)

(** the end of the last usable entry *)
Definition usable (e : bios_mmap_entry) : bool := type_ e =? 1.
Definition entry_end (e : bios_mmap_entry) : Z := base_addr e + length_ e.
Definition usable_end (es : list bios_mmap_entry) : Z :=
  foldr (fun e acc => if usable e then Z.max (entry_end e) acc else acc) 0 es.

(** pages of an entry: both bounds are rounded up *)
Definition pages_up (a : Z) : Z := (a + PAGE_SIZE - 1) / PAGE_SIZE.
Definition entry_page (i : Z) (e : bios_mmap_entry) : bool :=
  usable e && (pages_up (base_addr e) <=? i) && (i <? pages_up (entry_end e)).

(** a memory map whose sums do not wrap *)
Definition entry_ok (e : bios_mmap_entry) : Prop :=
  0 <= base_addr e /\ 0 <= length_ e /\ entry_end e < 2 ^ 63.

(** [es] is stored at physical address [p] *)
Definition mmap_at (r : ram_t) (p : Z) (es : list bios_mmap_entry) : Prop :=
  forall (i : nat) e, es !! i = Some e ->
    load 8 r (p + 24 * Z.of_nat i) = base_addr e /\
    load 8 r (p + 24 * Z.of_nat i + 8) = length_ e /\
    load 4 r (p + 24 * Z.of_nat i + 16) = type_ e.

Lemma mmap_at_agree r r' p es :
  agree (span p (24 * Z.of_nat (length es))) r r' -> mmap_at r p es -> mmap_at r' p es.
Proof.
  intros Ha Hm i e Hi. destruct (Hm i e Hi) as (<- & <- & <-). apply lookup_lt_Some in Hi.
  split_and!; apply load_agree; (eapply agree_weaken; [done|]); unfold span; lia.
Qed.

Lemma usable_end_cons e es :
  usable_end (e :: es) = if usable e then Z.max (entry_end e) (usable_end es) else usable_end es.
Proof. done. Qed.

Lemma usable_end_nonneg es : 0 <= usable_end es.
Proof. induction es as [|e es IH]; [done|]. rewrite usable_end_cons. destruct (usable e); lia. Qed.

Lemma usable_end_ge es e : e ∈ es -> usable e = true -> entry_end e <= usable_end es.
Proof.
  induction es as [|e' es IH]; [set_solver|]. intros [->|H]%elem_of_cons Hu; rewrite usable_end_cons.
  - rewrite Hu. lia.
  - specialize (IH H Hu). destruct (usable e'); lia.
Qed.

Lemma usable_end_lt es : Forall entry_ok es -> usable_end es < 2 ^ 63.
Proof.
  induction 1 as [|e es [? []] _ IH]; [done|]. rewrite usable_end_cons. destruct (usable e); lia.
Qed.

Lemma usable_end_take_S es (i : nat) e :
  es !! i = Some e ->
  usable_end (take (S i) es) =
    if usable e then Z.max (usable_end (take i es)) (entry_end e) else usable_end (take i es).
Proof.
  intros Hi. rewrite (take_S_r es i e) by done. induction (take i es) as [|e' l IH]; cbn [app].
  - rewrite usable_end_cons. destruct (usable e); cbn; lia.
  - rewrite !usable_end_cons, IH. destruct (usable e'), (usable e); lia.
Qed.

Lemma u64_pages a : 0 <= a < 2 ^ 64 - PAGE_SIZE -> u64 (u64 (a + PAGE_SIZE) - 1) / PAGE_SIZE = pages_up a.
Proof.
  unfold PAGE_SIZE. intros. rewrite (u64_small (a + 4096)) by lia. by rewrite u64_small by lia.
Qed.

Section Init.
Context {QT : Quiet} (K : ktables) (es : list bios_mmap_entry) (mp : Z).
Context (Hes : Forall entry_ok es) (Hlo : 0 <= mp) (Hhi : mp + 24 * Z.of_nat (length es) <= KWIN).
Implicit Types m : machine.

Definition eptr (i : Z) : Z := u64 (KERNEL_BASE + mp + sizeof_mmap_entry * i).

Lemma eptr_eq i : 0 <= i < Z.of_nat (length es) -> eptr i = KERNEL_BASE + (mp + 24 * i).
Proof.
  intros Hi. unfold eptr, sizeof_mmap_entry.
  rewrite u64_small; unfold KERNEL_BASE, KWIN in *; lia.
Qed.

(** reading a field of entry [i] *)
Lemma eptr_field m i e :
  mmap_at (ram m) mp es -> 0 <= i -> es !! Z.to_nat i = Some e ->
  eptr i = KERNEL_BASE + (mp + 24 * i) /\
  u64 (eptr i + 8) = KERNEL_BASE + (mp + 24 * i + 8) /\
  u64 (eptr i + 16) = KERNEL_BASE + (mp + 24 * i + 16) /\ mp + 24 * i + 24 <= KWIN /\
  load 8 (ram m) (mp + 24 * i) = base_addr e /\
  load 8 (ram m) (mp + 24 * i + 8) = length_ e /\
  load 4 (ram m) (mp + 24 * i + 16) = type_ e.
Proof.
  intros Hm Hi He. destruct (Hm _ _ He) as (Hb & Hl & Ht). rewrite Z2Nat.id in * by lia.
  pose proof (lookup_lt_Some _ _ _ He) as Hlen.
  rewrite eptr_eq by lia.
  rewrite !u64_small by (unfold KERNEL_BASE, KWIN in *; lia).
  split_and!; [done|lia..|done|done|done].
Qed.

Lemma wp_entry_base m i e (Q : Z -> machine -> Prop) E :
  kspace K m -> mmap_at (ram m) mp es -> 0 <= i -> es !! Z.to_nat i = Some e ->
  (forall m', warm m m' -> kspace K m' -> Q (base_addr e) m') -> wp (entry_base (eptr i)) Q E m.
Proof.
  intros Hk Hm Hi He HQ. destruct (eptr_field m i e Hm Hi He) as (Ha & _ & _ & Hw & Hv & _).
  unfold entry_base. rewrite Ha. apply (wp_kload K); [done|lia|lia|]. by rewrite Hv.
Qed.

Lemma wp_entry_length m i e (Q : Z -> machine -> Prop) E :
  kspace K m -> mmap_at (ram m) mp es -> 0 <= i -> es !! Z.to_nat i = Some e ->
  (forall m', warm m m' -> kspace K m' -> Q (length_ e) m') -> wp (entry_length (eptr i)) Q E m.
Proof.
  intros Hk Hm Hi He HQ. destruct (eptr_field m i e Hm Hi He) as (_ & Ha & _ & Hw & _ & Hv & _).
  unfold entry_length. rewrite Ha. apply (wp_kload K); [done|lia|lia|]. by rewrite Hv.
Qed.

Lemma wp_entry_type m i e (Q : Z -> machine -> Prop) E :
  kspace K m -> mmap_at (ram m) mp es -> 0 <= i -> es !! Z.to_nat i = Some e ->
  (forall m', warm m m' -> kspace K m' -> Q (type_ e) m') -> wp (entry_type (eptr i)) Q E m.
Proof.
  intros Hk Hm Hi He HQ. destruct (eptr_field m i e Hm Hi He) as (_ & _ & Ha & Hw & _ & _ & Hv).
  unfold entry_type. rewrite Ha. apply (wp_kload K); [done|lia|lia|]. by rewrite Hv.
Qed.

Lemma mmap_warm m m' : warm m m' -> mmap_at (ram m) mp es -> mmap_at (ram m') mp es.
Proof. intros Hw. by rewrite (warm_ram _ _ Hw). Qed.

Lemma wp_scan m (Q : Z * Z -> machine -> Prop) E :
  kspace K m -> mmap_at (ram m) mp es ->
  (forall ram_bytes m', warm m m' -> kspace K m' -> Q (usable_end es, ram_bytes) m') ->
  wp (scan_usable (KERNEL_BASE + mp) (Z.of_nat (length es))) Q E m.
Proof.
  intros Hk Hm HQ. unfold scan_usable. rewrite Nat2Z.id.
  eapply wp_mono; [eapply (wp_for_fold (fun i x m' =>
      x.1 = usable_end (take (Z.to_nat i) es) /\ warm m m' /\ kspace K m'))| |by intros].
  - done.
  - intros j [ue ub] m1 Hj (Hue & Hw & Hk1). cbn [fst] in Hue. subst ue.
    destruct (lookup_lt_is_Some_2 es (Z.to_nat j)) as [e He]; [lia|].
    fold (eptr j).
    pose proof (mmap_warm _ _ Hw Hm) as Hm1.
    apply wp_bind. apply (wp_entry_type m1 j e); [done|done|lia|done|]. intros m2 Hw2 Hk2.
    pose proof (mmap_warm _ _ Hw2 Hm1) as Hm2.
    replace (Z.to_nat (j + 1)) with (S (Z.to_nat j)) by lia.
    rewrite (usable_end_take_S _ _ _ He). unfold usable.
    destruct (type_ e =? 1); [|wp_steps; split_and!; [done|by etrans|done]].
    apply wp_bind. apply (wp_entry_base m2 j e); [done|done|lia|done|]. intros m3 Hw3 Hk3.
    pose proof (mmap_warm _ _ Hw3 Hm2) as Hm3.
    apply wp_bind. apply (wp_entry_length m3 j e); [done|done|lia|done|]. intros m4 Hw4 Hk4.
    rewrite Forall_lookup in Hes. destruct (Hes _ _ He) as (? & ? & ?).
    rewrite u64_small by (unfold entry_end in *; lia). fold (entry_end e).
    wp_steps. cbn [fst]. split_and!; [|by repeat (etrans; [eassumption|])|done].
    destruct (Z.ltb_spec (usable_end (take (Z.to_nat j) es)) (entry_end e)); lia.
  - intros [ue ub] m1 (Hue & Hw & Hk1). cbn [fst] in Hue. subst ue.
    rewrite Z.add_0_l, Nat2Z.id, take_ge by lia. by apply HQ.
Qed.

(** ** Clearing the bits of the usable entries *)
Context (g : globals) (Hok : bitmap_ok K g).
Context (Hdis : forall a, span mp (24 * Z.of_nat (length es)) a -> ~ bitmap_bytes g a).

(** a state reached by bitmap writes only *)
Definition bm_step m m' : Prop := wstep (bitmap_bytes g) m m' /\ kspace K m' /\ glb m' = g.

Lemma mmap_bm_step m m' : bm_step m m' -> mmap_at (ram m) mp es -> mmap_at (ram m') mp es.
Proof.
  intros (Hs & _ & _). apply mmap_at_agree. eapply agree_weaken; [apply Hs|]. exact Hdis.
Qed.

Lemma bm_step_refl m : kspace K m -> glb m = g -> bm_step m m.
Proof. intros. split_and!; [reflexivity|done|done]. Qed.

Lemma bm_step_trans m1 m2 m3 : bm_step m1 m2 -> bm_step m2 m3 -> bm_step m1 m3.
Proof. intros (? & ? & ?) (? & ? & ?). split_and!; [by etrans|done|done]. Qed.

Lemma bm_step_warm m m' : glb m = g -> warm m m' -> kspace K m' -> bm_step m m'.
Proof. intros Hg Hw Hk. split_and!; [by apply warm_wstep|done|]. by rewrite (warm_glb _ _ Hw). Qed.

Lemma bm_step_changed i f m m' :
  glb m = g -> 0 <= i < 8 * mem_bitmap_size g -> bit_changed K i f m m' -> bm_step m m'.
Proof.
  intros Hg Hi (Hs & Hk & _). rewrite Hg in Hs. split_and!; [|done|by rewrite (ws_glb _ _ _ Hs)].
  eapply wstep_weaken; [done|]. by apply (bitmap_addr K g i Hok Hi).
Qed.

Lemma pages_up_mono a b : a <= b -> pages_up a <= pages_up b.
Proof. unfold pages_up, PAGE_SIZE. intros. dlia. Qed.

Lemma wp_entry_last_page m i e (Q : Z -> machine -> Prop) E :
  kspace K m -> mmap_at (ram m) mp es -> 0 <= i -> es !! Z.to_nat i = Some e ->
  (forall m', warm m m' -> kspace K m' -> Q (pages_up (entry_end e)) m') ->
  wp (entry_last_page (eptr i)) Q E m.
Proof.
  intros Hk Hm Hi He HQ. unfold entry_last_page.
  apply wp_bind. apply (wp_entry_base m i e); [done|done|lia|done|]. intros m1 Hw1 Hk1.
  pose proof (mmap_warm _ _ Hw1 Hm) as Hm1.
  apply wp_bind. apply (wp_entry_length m1 i e); [done|done|lia|done|]. intros m2 Hw2 Hk2.
  rewrite Forall_lookup in Hes. destruct (Hes _ _ He) as (? & ? & ?). unfold entry_end in *.
  wp_steps. rewrite (u64_small (_ + length_ e)), u64_pages by (unfold PAGE_SIZE; lia).
  apply HQ; [by etrans|done].
Qed.

(** one entry: exactly its pages become free *)
Lemma wp_free_entry m i e (Q : unit -> machine -> Prop) E :
  kspace K m -> glb m = g -> mmap_at (ram m) mp es -> 0 <= i -> es !! Z.to_nat i = Some e ->
  pages_up (entry_end e) <= 8 * mem_bitmap_size g ->
  (forall m', bm_step m m' ->
     (forall j, 0 <= j -> bit (ram m') (bmp g) j =
        if decide (pages_up (base_addr e) <= j < pages_up (entry_end e)) then false
        else bit (ram m) (bmp g) j) -> Q tt m') ->
  wp (free_entry (eptr i)) Q E m.
Proof.
  intros Hk Hg Hm Hi He Hmax HQ. unfold free_entry.
  pose proof Hes as Hes'. rewrite Forall_lookup in Hes'. destruct (Hes' _ _ He) as (Hb0 & Hl0 & Hend).
  assert (Hpos : 0 <= pages_up (base_addr e) <= pages_up (entry_end e)).
  { unfold entry_end in *. split; [unfold pages_up, PAGE_SIZE; dlia|apply pages_up_mono; lia]. }
  apply wp_bind. apply (wp_entry_base m i e); [done|done|lia|done|]. intros m1 Hw1 Hk1.
  pose proof (mmap_warm _ _ Hw1 Hm) as Hm1.
  rewrite u64_pages by (unfold entry_end, PAGE_SIZE in *; lia).
  apply wp_bind. apply (wp_entry_last_page m1 i e); [done|done|lia|done|]. intros m2 Hw2 Hk2.
  assert (Hw02 : warm m m2) by by etrans.
  apply wp_bind.
  eapply (wp_while (fun x m' => bm_step m m' /\
            pages_up (base_addr e) <= x <= pages_up (entry_end e) /\
            forall j, 0 <= j -> bit (ram m') (bmp g) j =
              if decide (pages_up (base_addr e) <= j < x) then false else bit (ram m) (bmp g) j)
            (fun x _ => Z.to_nat (pages_up (entry_end e) - x))).
  - split_and!; [by apply bm_step_warm|lia..|]. intros j Hj.
    rewrite decide_False by lia. by rewrite (warm_ram _ _ Hw02).
  - lia.
  - intros x m3 (Hs3 & Hx & Hbits).
    pose proof (mmap_bm_step _ _ Hs3 Hm) as Hm3. destruct Hs3 as (Hs3 & Hk3 & Hg3).
    apply wp_bind. apply (wp_entry_last_page m3 i e); [done|done|lia|done|]. intros m4 Hw4 Hk4.
    wp_steps. destruct (Z.ltb_spec x (pages_up (entry_end e))) as [Hlt|Hge].
    + assert (Hg4 : glb m4 = g) by by rewrite (warm_glb _ _ Hw4).
      apply wp_bind. apply (wp_bitmap_clear K); rewrite ?Hg4; [done|done|lia|].
      intros m5 Hc5. wp_steps.
      assert (Hx1 : u64 (x + 1) = x + 1) by (apply u64_small; unfold pages_up, PAGE_SIZE in *; dlia).
      rewrite Hx1. split; [|lia]. split_and!; [|lia|lia|].
      * eapply bm_step_trans; [split_and!; [exact Hs3|done|done]|].
        eapply bm_step_trans; [by apply bm_step_warm|]. eapply bm_step_changed; [done| |done]. lia.
      * intros j Hj. destruct Hc5 as (_ & _ & Hc5). rewrite Hg4 in Hc5. rewrite Hc5 by done.
        rewrite (warm_ram _ _ Hw4), Hbits by done. repeat case_decide; done || lia.
    + wp_steps. apply HQ.
      * eapply bm_step_trans; [split_and!; [exact Hs3|done|done]|by apply bm_step_warm].
      * intros j Hj. rewrite (warm_ram _ _ Hw4), Hbits by done. repeat case_decide; done || lia.
Qed.

(** the whole memory map: the pages of the usable entries become free *)
Lemma wp_free_usable m (Q : unit -> machine -> Prop) E :
  kspace K m -> glb m = g -> mmap_at (ram m) mp es ->
  pages_up (usable_end es) <= 8 * mem_bitmap_size g ->
  (forall m', bm_step m m' ->
     (forall j, 0 <= j -> bit (ram m') (bmp g) j =
        bit (ram m) (bmp g) j && negb (existsb (entry_page j) es)) -> Q tt m') ->
  wp (free_usable (KERNEL_BASE + mp) (Z.of_nat (length es)) (usable_end es)) Q E m.
Proof.
  intros Hk Hg Hm Hmax HQ. unfold free_usable. rewrite Nat2Z.id.
  eapply wp_mono; [eapply (wp_for_range (fun i m' => bm_step m m' /\
      forall j, 0 <= j -> bit (ram m') (bmp g) j =
        bit (ram m) (bmp g) j && negb (existsb (entry_page j) (take (Z.to_nat i) es))))| |by intros].
  - split; [by apply bm_step_refl|]. intros j _. cbn. by rewrite andb_true_r.
  - intros i m1 Hi (Hs1 & Hbits1). fold (eptr i).
    pose proof (mmap_bm_step _ _ Hs1 Hm) as Hm1. pose proof Hs1 as (_ & Hk1 & Hg1).
    destruct (lookup_lt_is_Some_2 es (Z.to_nat i)) as [e He]; [lia|].
    replace (Z.to_nat (i + 1)) with (S (Z.to_nat i)) by lia.
    assert (Hex : forall j, existsb (entry_page j) (take (S (Z.to_nat i)) es) =
              existsb (entry_page j) (take (Z.to_nat i) es) || entry_page j e).
    { intros j. rewrite (take_S_r es _ e), existsb_app by done. cbn. by rewrite orb_false_r. }
    apply wp_bind. apply (wp_entry_type m1 i e); [done|done|lia|done|]. intros m2 Hw2 Hk2.
    pose proof (mmap_warm _ _ Hw2 Hm1) as Hm2.
    assert (Hs2 : bm_step m m2) by (eapply bm_step_trans; [done|by apply bm_step_warm]).
    destruct (type_ e =? 1) eqn:Hu; cbn [negb].
    2: { wp_steps. split; [done|]. intros j Hj. rewrite Hex, (warm_ram _ _ Hw2), Hbits1 by done.
         unfold entry_page at 3. unfold usable. rewrite Hu. cbn. by rewrite orb_false_r. }
    apply wp_bind. apply (wp_entry_base m2 i e); [done|done|lia|done|]. intros m3 Hw3 Hk3.
    pose proof (mmap_warm _ _ Hw3 Hm2) as Hm3.
    assert (Hg2 : glb m2 = g) by by rewrite (warm_glb _ _ Hw2).
    assert (Hs3 : bm_step m m3) by (eapply bm_step_trans; [done|by apply bm_step_warm]).
    pose proof Hes as Hes'. rewrite Forall_lookup in Hes'. destruct (Hes' _ _ He) as (Hb0 & Hl0 & Hend).
    pose proof (usable_end_ge es e (list_elem_of_lookup_2 _ _ _ He) Hu) as Hue.
    rewrite (proj2 (Z.ltb_ge _ _)) by (unfold entry_end in *; lia).
    apply (wp_free_entry m3 i e); [done|by rewrite (warm_glb _ _ Hw3)|done|lia|done| |].
    { pose proof (pages_up_mono _ _ Hue). lia. }
    intros m4 Hs4 Hbits4. split; [by eapply bm_step_trans|]. intros j Hj.
    rewrite Hex, Hbits4, (warm_ram _ _ Hw3), (warm_ram _ _ Hw2), Hbits1 by done.
    unfold entry_page at 3. unfold usable. rewrite Hu. cbn [andb].
    destruct (bit (ram m) (bmp g) j), (existsb (entry_page j) (take (Z.to_nat i) es));
      cbn; case_decide; try done;
      destruct (Z.leb_spec (pages_up (base_addr e)) j), (Z.ltb_spec j (pages_up (entry_end e)));
      cbn; done || lia.
  - intros [] m1 (Hs1 & Hbits1). rewrite Z.add_0_l, Nat2Z.id, take_ge in Hbits1 by lia. by apply HQ.
Qed.

(** last loop of [pmm_init]: the pages under the kernel are taken *)
Lemma wp_reserve m (n : nat) (Q : unit -> machine -> Prop) E :
  kspace K m -> glb m = g -> Z.of_nat n <= 8 * mem_bitmap_size g ->
  (forall m', bm_step m m' ->
     (forall j, 0 <= j -> bit (ram m') (bmp g) j =
        if decide (j < Z.of_nat n) then true else bit (ram m) (bmp g) j) -> Q tt m') ->
  wp (for_range n 0 bitmap_set) Q E m.
Proof.
  intros Hk Hg Hn HQ.
  eapply wp_mono; [eapply (wp_for_range (fun i m' => bm_step m m' /\
      forall j, 0 <= j -> bit (ram m') (bmp g) j =
        if decide (j < i) then true else bit (ram m) (bmp g) j))| |by intros].
  - split; [by apply bm_step_refl|]. intros j Hj. by rewrite decide_False by lia.
  - intros i m1 Hi (Hs1 & Hbits1). pose proof Hs1 as (_ & Hk1 & Hg1).
    apply (wp_bitmap_set K); rewrite ?Hg1; [done|done|lia|]. intros m2 Hc2.
    split; [eapply bm_step_trans; [done|eapply bm_step_changed; [done| |done]; lia]|].
    intros j Hj. destruct Hc2 as (_ & _ & Hc2). rewrite Hg1 in Hc2. rewrite Hc2, Hbits1 by done.
    repeat case_decide; done || lia.
  - intros [] m1 (Hs1 & Hbits1). by apply HQ.
Qed.
End Init.

(** number of pages managed, bytes of bitmap and pages of bitmap for a memory map *)
Definition num_pages (es : list bios_mmap_entry) : Z := pages_up (usable_end es).
Definition bitmap_len (es : list bios_mmap_entry) : Z := (num_pages es + 7) / 8.
Definition bitmap_pages (es : list bios_mmap_entry) : Z := pages_up (bitmap_len es).

(** the globals after [pmm_init]: the bitmap is the next pages of the pool *)
Definition pmm_globals (es : list bios_mmap_entry) (g : globals) : globals :=
  set_next_free (next_free g + bitmap_pages es * PAGE_SIZE)
    (set_mem_bitmap (next_free g) (set_mem_bitmap_sizes (bitmap_len es) (num_pages es) g)).

(** what [pmm_init] needs: at least 2 MiB of memory, a memory map in the kernel
    window, and room in the pool for the bitmap, away from tables and map *)
Record pmm_init_pre (K : ktables) (es : list bios_mmap_entry) (mp : Z) (m : machine) : Prop := mk_pip {
  pip_k : kspace K m;
  pip_es : Forall entry_ok es;
  pip_map : mmap_at (ram m) mp es;
  pip_lo : 0 <= mp;
  pip_hi : mp + 24 * Z.of_nat (length es) <= KWIN;
  pip_ram : 0x200000 <= usable_end es;
  pip_pool : POOL_START <= next_free (glb m);
  pip_room : next_free (glb m) + bitmap_pages es * PAGE_SIZE < POOL_END;
  pip_tab : forall a, span (next_free (glb m) - KERNEL_BASE) (bitmap_len es) a -> ~ ktab K a;
  pip_dis : forall a, span (next_free (glb m) - KERNEL_BASE) (bitmap_len es) a ->
              ~ span mp (24 * Z.of_nat (length es)) a
}.

Section InitMain.
Context {QT : Quiet} (K : ktables) (es : list bios_mmap_entry) (mp : Z).
Implicit Types m : machine.

(** the pages of the bitmap after the first are consecutive pool pages *)
Lemma wp_more_pages m n (Q : unit -> machine -> Prop) E :
  POOL_START <= next_free (glb m) ->
  next_free (glb m) + Z.of_nat n * PAGE_SIZE < POOL_END ->
  Q tt (set_glb (set_next_free (next_free (glb m) + Z.of_nat n * PAGE_SIZE) (glb m)) m) ->
  wp (for_range n 0 (fun _ => alloc_page ;;; ret tt)) Q E m.
Proof.
  intros Hlo Hhi HQ.
  eapply wp_mono; [eapply (wp_for_range (fun i m' =>
    m' = set_glb (set_next_free (next_free (glb m) + i * PAGE_SIZE) (glb m)) m))| |by intros].
  - unfold set_glb, set_next_free. destruct m as [r t c h []]; cbn. by rewrite Z.add_0_r.
  - intros i m1 Hi ->. apply wp_bind. unfold PAGE_SIZE in *.
    apply wp_alloc_page; cbn [glb set_glb set_next_free next_free]; unfold PAGE_SIZE in *; [lia| |lia].
    intros _. wp_steps. unfold set_glb, set_next_free. cbn. do 2 f_equal. lia.
  - intros [] m1 ->. done.
Qed.

Lemma pmm_sizes m :
  pmm_init_pre K es mp m ->
  512 <= num_pages es <= 8 * bitmap_len es /\ 64 <= bitmap_len es /\ 1 <= bitmap_pages es /\
  next_free (glb m) - KERNEL_BASE + bitmap_len es <= KWIN /\ usable_end es < 2 ^ 40 /\ num_pages es < 2 ^ 30.
Proof.
  intros []. unfold bitmap_pages, bitmap_len, num_pages, pages_up, KWIN in *.
  zconst. repeat split; dlia.
Qed.

Lemma pmm_bitmap_ok m : pmm_init_pre K es mp m -> bitmap_ok K (pmm_globals es (glb m)).
Proof.
  intros Hpre. destruct (pmm_sizes m Hpre) as (Hn & Hl & Hp & Hw & _). destruct Hpre.
  unfold pmm_globals. split; unfold bmp; cbn; [|done|lia|done]. zconst. lia.
Qed.

Lemma wp_pmm_init m (Q : unit -> machine -> Prop) E :
  pmm_init_pre K es mp m ->
  (forall m', wstep (bitmap_bytes (glb m')) (set_glb (pmm_globals es (glb m)) m) m' ->
     kspace K m' -> bitmap_ok K (glb m') ->
     (forall i, free_page m' i <-> 512 <= i < num_pages es /\ existsb (entry_page i) es = true) ->
     Q tt m') ->
  wp (pmm_init (KERNEL_BASE + mp) (Z.of_nat (length es))) Q E m.
Proof.
  intros Hpre HQ. pose proof (pmm_bitmap_ok m Hpre) as Hok.
  destruct (pmm_sizes m Hpre) as (Hn & Hl & Hp & Hw & Hu & Hnp).
  pose proof Hpre as []. unfold pmm_init.
  apply wp_bind. apply (wp_scan K es mp); [done..|]. intros rb m1 Hw1 Hk1. cbn [fst].
  pose proof (usable_end_nonneg es) as Hue.
  rewrite u64_pages by (unfold PAGE_SIZE; lia). fold (num_pages es).
  rewrite (u64_small (num_pages es + 7)) by lia. fold (bitmap_len es).
  assert (bitmap_len es < 2 ^ 30) by (unfold bitmap_len; dlia).
  rewrite u64_pages by (unfold PAGE_SIZE; lia). fold (bitmap_pages es).
  assert (Hbp : bitmap_pages es < 2 ^ 30) by (unfold bitmap_pages, pages_up, PAGE_SIZE; dlia).
  wp_steps. apply wp_bind. rewrite (warm_glb _ _ Hw1).
  apply wp_alloc_page; cbn [glb set_glb next_free set_mem_bitmap_sizes]; unfold PAGE_SIZE in *; [zconst; lia| |lia].
  intros _. wp_steps. rewrite (u64_small (bitmap_pages es - 1)) by lia.
  apply wp_bind, wp_more_pages; cbn; unfold PAGE_SIZE; [zconst; lia|lia|].
  rewrite Z2Nat.id by lia.
  match goal with |- wp _ _ _ ?s => replace s with (set_glb (pmm_globals es (glb m)) m1) end.
  2: { unfold pmm_globals, set_glb, set_next_free, PAGE_SIZE; cbn. do 2 f_equal. lia. }
  set (g := pmm_globals es (glb m)) in *. set (m2 := set_glb g m1).
  assert (Hk2 : kspace K m2) by by apply kspace_set_glb.
  assert (Hbase : next_free (glb m) = KERNEL_BASE + bmp g) by (unfold bmp; cbn; lia).
  pose proof (bo_lo _ _ Hok) as Hblo. pose proof (bo_hi _ _ Hok) as Hbhi. cbn in Hbhi.
  fold g in Hbhi. rewrite Hbase.
  apply wp_bind. apply (wp_memset _ _ (bmp g)); [lia| |].
  { apply (kspace_vstable K); [done|lia|lia|]. intros a Ha Hs. by apply (bo_tab _ _ Hok a). }
  intros m3 Hs3 Hf3.
  assert (Hk3 : kspace K m3).
  { eapply kspace_wstep; [done|done|]. intros a Ha Hs. by apply (bo_tab _ _ Hok a). }
  assert (Hg3 : glb m3 = g) by by rewrite (ws_glb _ _ _ Hs3).
  assert (Hdis : forall a, span mp (24 * Z.of_nat (length es)) a -> ~ bitmap_bytes g a).
  { intros a Ha Hb. apply (pip_dis0 a); [|done]. unfold bitmap_bytes, bmp in Hb. by cbn in Hb. }
  assert (Hm3 : mmap_at (ram m3) mp es).
  { eapply mmap_at_agree; [|exact pip_map0]. rewrite <- (warm_ram _ _ Hw1).
    eapply agree_weaken; [apply (ws_ram _ _ _ Hs3)|]. exact Hdis. }
  assert (Hones : forall j, 0 <= j < 8 * bitmap_len es -> bit (ram m3) (bmp g) j = true).
  { intros j Hj. unfold bit. rewrite (Hf3 _), decide_True by (unfold span; dlia).
    change (u8 255) with (Z.ones 8). apply Z.ones_spec_low. dlia. }
  apply wp_bind. apply (wp_free_usable K es mp pip_es0 pip_lo0 pip_hi0 g Hok Hdis);
    [done|done|done|change (num_pages es <= 8 * bitmap_len es); lia|].
  intros m4 Hs4 Hb4. pose proof Hs4 as (Hs4' & Hk4 & Hg4).
  change (Z.to_nat _) with 512%nat.
  apply (wp_reserve K es g Hok); [done|done|change (512 <= 8 * bitmap_len es); lia|].
  intros m5 Hs5 Hb5. pose proof Hs5 as (Hs5' & Hk5 & Hg5).
  apply HQ; rewrite ?Hg5; [|done|done|].
  - etrans; [|etrans; [exact Hs3|etrans; [exact Hs4'|exact Hs5']]].
    split; cbn; [apply Hw1|apply Hw1|done| | |apply Hw1|intros p f _; apply Hw1].
    + intros a _. by rewrite (warm_ram _ _ Hw1).
    + intros p _ f Hf. by apply (warm_new _ _ Hw1).
  - intros i. unfold free_page. rewrite Hg5. cbn [mem_bitmap_bit_size g].
    change (mem_bitmap_bit_size g) with (num_pages es). split.
    + intros [Hi Hb]. rewrite Hb5, Hb4, Hones in Hb by lia.
      case_decide; [done|]. split; [lia|]. by destruct (existsb _ _).
    + intros [Hi Hb]. split; [lia|]. rewrite Hb5, Hb4, Hones, decide_False, Hb by lia. done.
Qed.
End InitMain.

(** ** Properties *)

(** C8: [pmm_init] builds the bitmap from the memory map: it takes its pages from
    the bootstrap pool, writes nothing else, and afterwards exactly the pages from
    page 512 on that some usable entry covers (bounds rounded up) are free. *)
Theorem pmm_init_correct K es mp m :
  pmm_init_pre K es mp m ->
  wp (pmm_init (KERNEL_BASE + mp) (Z.of_nat (length es)))
    (fun _ m' =>
       wstep (bitmap_bytes (glb m')) (set_glb (pmm_globals es (glb m)) m) m' /\
       kspace K m' /\ bitmap_ok K (glb m') /\
       forall i, free_page m' i <-> 512 <= i < num_pages es /\ existsb (entry_page i) es = true)
    nostop m.
Proof. intros H. apply (wp_pmm_init K); [done|]. intros m' Hs Hk Hok Hf. by split_and!. Qed.

(** C20: [pmm_alloc] is first fit: it returns the lowest free page and marks exactly
    that one used, or returns NULL, and leaves the bitmap alone, when none is free. *)
Theorem pmm_alloc_first_fit K m :
  kspace K m -> bitmap_ok K (glb m) ->
  wp pmm_alloc
    (fun r m' =>
       (exists i, r = i * PAGE_SIZE /\ free_page m i /\ (forall j, 0 <= j < i -> ~ free_page m j) /\
          bit_changed K i (fun _ => true) m m') \/
       (r = NULL /\ (forall i, ~ free_page m i) /\ warm m m'))
    nostop m.
Proof.
  intros Hk Hok. apply (wp_pmm_alloc K); [done|done| |].
  - intros i m' Hi Hlow Hc. left. by exists i.
  - intros Hno m' Hw _. by right.
Qed.

(** [pmm_free] of any address marks its page free if the allocator manages it,
    changes no other page, and ignores pages beyond the bitmap. *)
Theorem pmm_free_marks K m p :
  kspace K m -> bitmap_ok K (glb m) -> 0 <= p ->
  wp (pmm_free p)
    (fun _ m' =>
       if p / PAGE_SIZE <? mem_bitmap_bit_size (glb m)
       then bit_changed K (p / PAGE_SIZE) (fun _ => false) m m'
       else m' = m)
    nostop m.
Proof.
  intros Hk Hok Hp. apply (wp_pmm_free K); [done|done|done| |].
  - intros Hlt m' Hc. by rewrite (proj2 (Z.ltb_lt _ _) Hlt).
  - intros Hge. by rewrite (proj2 (Z.ltb_ge _ _) Hge).
Qed.

(** freeing the page just allocated restores the set of free pages. *)
Theorem pmm_alloc_free K m :
  kspace K m -> bitmap_ok K (glb m) -> (exists i, free_page m i) ->
  wp (p <- pmm_alloc ;; pmm_free p) (fun _ m' => forall i, free_page m' i <-> free_page m i) nostop m.
Proof.
  intros Hk Hok [i0 Hi0]. apply wp_bind, (wp_pmm_alloc K); [done|done| |].
  2: { intros Hno. by destruct (Hno i0). }
  intros i m1 Hi _ Hc1. pose proof Hc1 as (Hs1 & Hk1 & Hb1). assert (Hg1 : glb m1 = glb m) by apply Hs1.
  assert (Hpi : i * PAGE_SIZE / PAGE_SIZE = i) by (unfold PAGE_SIZE; apply Z.div_mul; lia).
  destruct Hi as [Hir Hib].
  apply (wp_pmm_free K); [done|by rewrite Hg1|unfold PAGE_SIZE; lia| |]; rewrite Hpi, Hg1; [|lia].
  intros _ m2 (Hs2 & _ & Hb2). assert (Hg2 : glb m2 = glb m) by (rewrite (ws_glb _ _ _ Hs2); done).
  intros j. unfold free_page. rewrite Hg2, Hg1 in *. split; intros [Hj Hbj]; (split; [done|]).
  - rewrite Hb2, Hb1 in Hbj by lia. by destruct (decide (j = i)) as [->|].
  - rewrite Hb2, Hb1 by lia. by destruct (decide (j = i)) as [->|].
Qed.

(** two allocations in a row never hand out the same page. *)
Theorem pmm_alloc_distinct K m :
  kspace K m -> bitmap_ok K (glb m) ->
  wp (p <- pmm_alloc ;; q <- pmm_alloc ;; ret (p, q))
    (fun pq _ => pq.1 = NULL \/ pq.2 = NULL \/ pq.1 <> pq.2) nostop m.
Proof.
  intros Hk Hok. apply wp_bind, (wp_pmm_alloc K); [done|done| |].
  2: { intros _ m1 Hw1 Hk1. apply wp_bind, (wp_pmm_alloc K); [done|by rewrite (warm_glb _ _ Hw1)| |]; intros; apply wp_ret; by left. }
  intros i m1 Hi _ (Hs1 & Hk1 & Hb1). assert (Hg1 : glb m1 = glb m) by apply Hs1.
  apply wp_bind, (wp_pmm_alloc K); [done|by rewrite Hg1| |].
  - intros j m2 [Hj Hbj] _ _. apply wp_ret. right; right. cbn. intros Heq.
    assert (i = j) by (unfold PAGE_SIZE in *; lia). subst j.
    rewrite Hg1, Hb1, decide_True in Hbj by (done || lia). done.
  - intros _ m2 _ _. apply wp_ret. by right; left.
Qed.
