(* ===== verification/FrameRuns.v ===== *)
(** A client of the page allocator: any sequence of frames taken and given back.  Proved
    against the interface [FrameAllocator], then read off for pmm.c. *)

From S2P Require Import Prelude Comp Ram Machine KSpace Utils Pmm.

(** what a client does: take a frame, give back a frame it holds *)
Inductive frame_call : Type :=
  | Take
  | Give (i : Z).

(** the state: the machine, and the page numbers the client holds *)
Inductive frame_step (alloc : M Z) (free : Z -> M unit) : frame_call -> machine * gset Z -> machine * gset Z -> Prop :=
  | step_take m h p m' :
      alloc m = Ret p m' ->
      frame_step alloc free Take (m, h) (m', if decide (p = NULL) then h else {[p / PAGE_SIZE]} ∪ h)
  | step_give i m h m' :
      i ∈ h -> free (i * PAGE_SIZE) m = Ret tt m' -> frame_step alloc free (Give i) (m, h) (m', h ∖ {[i]}).

(** one element moved between two disjoint sets *)
Lemma move_one (F h : gset Z) i : F ## h -> i ∈ F ->
  F ∖ {[i]} ## {[i]} ∪ h /\ F ∖ {[i]} ∪ ({[i]} ∪ h) = F ∪ h.
Proof.
  rewrite elem_of_disjoint. intros Hd Hi. rewrite elem_of_disjoint. split.
  - intros j. specialize (Hd j). rewrite elem_of_difference, elem_of_union, elem_of_singleton. tauto.
  - apply set_eq. intros j. rewrite !elem_of_union, elem_of_difference, elem_of_singleton.
    destruct (decide (j = i)) as [->|]; tauto.
Qed.

Section Frames.
Context {alloc : M Z} {free : Z -> M unit} `{FA : !FrameAllocator alloc free}.
Context {QT : Quiet} (K : ktables) (m0 : machine).
Implicit Types m : machine.

(** every frame is free or held, never both, and none appears or gets lost *)
Record conserved m (h : gset Z) : Prop := mk_conserved {
  cv_k : kspace K m;
  cv_glb : glb m = glb m0;
  cv_apart : frees m ## h;
  cv_all : frees m ∪ h = frees m0
}.

Context (Hok : ok K (glb m0)) (H0 : 0 ∉ frees m0).

Lemma conserved_range m h i : conserved m h -> i ∈ frees m \/ i ∈ h -> 0 < i < 2 ^ 40 /\ managed (glb m) i.
Proof.
  intros [_ Hg _ Ha] Hi. assert (Hi0 : i ∈ frees m0) by (rewrite <- Ha; by apply elem_of_union).
  pose proof (fa_range K m0 i Hok Hi0). split; [|rewrite Hg; by apply (fa_managed K)].
  assert (i <> 0) by (by intros ->). lia.
Qed.

Lemma wp_take m h : conserved m h ->
  wp alloc (fun p m' => (p = NULL /\ frees m = ∅ \/ p <> NULL /\ p / PAGE_SIZE ∉ h) /\
              conserved m' (if decide (p = NULL) then h else {[p / PAGE_SIZE]} ∪ h)) nostop m.
Proof.
  intros Hc. pose proof Hc as [Hk Hg Hd Ha]. apply (fa_alloc K); [done|by rewrite Hg| |].
  - intros i m' Hi Hs Hk' Hf. destruct (conserved_range m h i Hc (or_introl Hi)) as [Hr _].
    unfold PAGE_SIZE, NULL. rewrite Z.div_mul by lia. rewrite decide_False by lia. split; [right; split; [lia|intros Hh; by apply (Hd i)]|].
    destruct (move_one _ _ i Hd Hi). split; [done|by rewrite (ws_glb _ _ _ Hs)|by rewrite Hf|by rewrite Hf, <- Ha].
  - intros He m' Hs Hk' Hf. split; [by left|]. rewrite decide_True by done.
    split; [done|by rewrite (ws_glb _ _ _ Hs)|by rewrite Hf, <- He|by rewrite Hf, <- He].
Qed.

Lemma wp_give m h i : conserved m h -> i ∈ h -> wp (free (i * PAGE_SIZE)) (fun _ m' => conserved m' (h ∖ {[i]})) nostop m.
Proof.
  intros Hc Hi. pose proof Hc as [Hk Hg Hd Ha]. destruct (conserved_range m h i Hc (or_intror Hi)) as [Hr Hm].
  assert (Hdiv : i * PAGE_SIZE / PAGE_SIZE = i) by (unfold PAGE_SIZE; apply Z.div_mul; lia).
  apply (fa_free K); rewrite ?Hdiv; [done|by rewrite Hg| |done|unfold PAGE_SIZE; lia].
  intros _ m' Hs Hk' Hf. destruct (move_one _ _ i (symmetry Hd) Hi) as [H1 H2].
  split; [done|by rewrite (ws_glb _ _ _ Hs)|by rewrite Hf|]. by rewrite Hf, <- Ha, union_comm_L, H2, union_comm_L.
Qed.

Lemma frames_invariant calls m h :
  kspace K m0 -> runs (frame_step alloc free) calls (m0, ∅) (m, h) -> conserved m h.
Proof.
  intros Hk Hrun. apply (runs_invariant _ (fun _ => true) (fun s => conserved s.1 s.2)) in Hrun; [done| |apply allow_all|].
  - intros c s s' _ Hst Hc. destruct Hst as [m1 h1 p m2 Hm|i m1 h1 m2 Hi Hm]; cbn [fst snd] in *.
    + by apply (ran _ _ _ _ _ _ (wp_take m1 h1 Hc) Hm).
    + by apply (ran _ _ _ _ _ _ (wp_give m1 h1 i Hc Hi) Hm).
  - cbn [fst snd]. split; [done|done|apply disjoint_empty_r|by rewrite union_empty_r_L].
Qed.

(** such a run exists whenever a frame is free *)
Lemma take_give_run : kspace K m0 -> frees m0 <> ∅ ->
  exists i m, runs (frame_step alloc free) [Take; Give i] (m0, ∅) (m, ∅).
Proof.
  intros Hk Hne. pose proof (frames_invariant [] m0 ∅ Hk (runs_nil _ _)) as Hc.
  destruct (wp_nostop_ret _ _ _ (wp_take m0 ∅ Hc)) as (p & m1 & H1 & [[_ ?]|[Hp _]] & Hc1); [done|].
  pose proof (step_take alloc free m0 ∅ p m1 H1) as S1. rewrite decide_False in S1, Hc1 by done.
  assert (Hi : p / PAGE_SIZE ∈ {[p / PAGE_SIZE]} ∪ (∅ : gset Z)) by (apply elem_of_union; left; by apply elem_of_singleton).
  destruct (wp_nostop_ret _ _ _ (wp_give m1 _ _ Hc1 Hi)) as ([] & m2 & H2 & _).
  exists (p / PAGE_SIZE), m2. eapply runs_cons; [exact S1|]. eapply runs_cons; [|apply runs_nil].
  pose proof (step_give alloc free _ _ _ _ Hi H2) as S2. rewrite union_empty_r_L in S2 at 2. by rewrite difference_diag_L in S2.
Qed.
End Frames.

(** ** Properties *)

(** C21: however a client interleaves [pmm_alloc] with [pmm_free] of frames it holds, the
    free frames and the frames it holds partition the frames that were free at the
    start; every further call returns, and [pmm_alloc] never hands out a frame that is
    still held. *)
Theorem pmm_frames_conserved K calls m0 m h :
  kspace K m0 -> bitmap_ok K (glb m0) -> ~ free_page m0 0 ->
  runs (frame_step pmm_alloc pmm_free) calls (m0, ∅) (m, h) ->
  (forall i, free_page m0 i <-> free_page m i \/ i ∈ h) /\ (forall i, free_page m i -> i ∉ h) /\
  wp pmm_alloc (fun p _ => p = NULL \/ p / PAGE_SIZE ∉ h) nostop m /\
  (forall i, i ∈ h -> wp (pmm_free (i * PAGE_SIZE)) (fun _ _ => True) nostop m).
Proof.
  intros Hk Hok H0 Hrun. assert (H0' : 0 ∉ frees m0) by by rewrite (elem_of_free_set m0).
  pose proof (frames_invariant K m0 Hok H0' calls m h Hk Hrun) as Hc. pose proof Hc as [_ _ Hd Ha]. split_and!.
  - intros i. rewrite <- !elem_of_free_set. change free_set with frees. rewrite <- Ha. apply elem_of_union.
  - intros i Hi%elem_of_free_set Hh. by apply (Hd i).
  - eapply wp_mono; [by apply (wp_take (FA := pmm_frame_allocator) K m0 Hok H0' m h)|intros p m' [[[? _]|[_ ?]] _]; [by left|by right]|done].
  - intros i Hi. eapply wp_mono; [by apply (wp_give (FA := pmm_frame_allocator) K m0 Hok H0' m h)|done|done].
Qed.
