(* ===== verification/Vmm.v ===== *)
(** vmm.c: 4-level page tables edited through the temporary window [TEMP_PAGE].

    The first half translates the C functions.  The second proves them against
    the [FrameAllocator] interface: [temp_map] redirects the window, [map_page]
    edits exactly one slot of the existing tables and makes the walk of the page
    end in the new entry. *)

From Stdlib Require Import String.
From S2P Require Import Prelude Comp Ram Machine KSpace Utils Pmm.

(** ** Operations *)

Definition tlb_invalidate (addr : Z) : M unit := invlpg addr.

(** [(virtual_address >> s) & 0x1FF] *)
Definition pml4t_index (va : Z) : Z := Z.land (Z.shiftr va 39) 0x1FF.
Definition pdpt_index (va : Z) : Z := Z.land (Z.shiftr va 30) 0x1FF.
Definition pd_index (va : Z) : Z := Z.land (Z.shiftr va 21) 0x1FF.
Definition pt_index (va : Z) : Z := Z.land (Z.shiftr va 12) 0x1FF.

(** the address of [table[index]], a [u64] array *)
Definition slot (table index : Z) : Z := u64 (table + 8 * index).

Definition temp_map (physical_address : Z) : M unit :=
  p4 <- getg pml4t ;;
  e4 <- vload 8 (slot p4 (pml4t_index TEMP_PAGE)) ;;
  let pdpt := u64 (Z.land e4 PAGE_MASK + KERNEL_BASE) in
  e3 <- vload 8 (slot pdpt (pdpt_index TEMP_PAGE)) ;;
  let pd := u64 (Z.land e3 PAGE_MASK + KERNEL_BASE) in
  e2 <- vload 8 (slot pd (pd_index TEMP_PAGE)) ;;
  let pt := u64 (Z.land e2 PAGE_MASK + KERNEL_BASE) in
  vstore 8 (slot pt (pt_index TEMP_PAGE)) (Z.lor physical_address 0x13) ;;;
  tlb_invalidate TEMP_PAGE.

(** [page_table_t] (vmm.h) *)
Record page_table_t : Type := mk_page_table_t { ctx_pml4t : Z; is_kernel : bool }.

(** one of the three "check the present bit" blocks of [map_page]: follow
    [table[index]], or allocate, link and clear the next table, and leave the
    next table in the temporary window *)
Definition map_level (table index flags : Z) : M unit :=
  entry <- vload 8 (slot table index) ;;
  if Z.land entry 0x1 =? 0 then
    check <- pmm_alloc ;;
    (if check =? NULL then panic "Out of physical memory for page table!" else ret tt) ;;;
    vstore 8 (slot table index) (Z.lor (Z.lor check flags) 0x1) ;;;
    temp_map check ;;;
    memset TEMP_PAGE 0 0x1000 ;;;
    ret tt
  else temp_map (Z.land entry PAGE_MASK).

Definition map_page (ctx : page_table_t) (virtual_address physical_address flags : Z) : M unit :=
  map_level (ctx_pml4t ctx) (pml4t_index virtual_address) flags ;;;
  map_level TEMP_PAGE (pdpt_index virtual_address) flags ;;;
  map_level TEMP_PAGE (pd_index virtual_address) flags ;;;
  vstore 8 (slot TEMP_PAGE (pt_index virtual_address)) (Z.lor physical_address flags).

(** the [empty] loop of [unmap_page] over the table in the window *)
Definition table_empty (table : Z) : M bool :=
  r <- for_find 512 0 (fun i =>
         e <- vload 8 (slot table i) ;;
         ret (if negb (Z.land e 0x1 =? 0) then Some false else None)) ;;
  ret (default true r).

(** one of the three blocks that end [unmap_page]: look at a table through the
    window and give its frame back if no entry is present *)
Definition release_if_empty (table_phys : Z) : M unit :=
  temp_map table_phys ;;;
  empty <- table_empty TEMP_PAGE ;;
  if empty : bool then pmm_free table_phys else ret tt.

Definition unmap_page (ctx : page_table_t) (virtual_address : Z) : M unit :=
  e4 <- vload 8 (slot (ctx_pml4t ctx) (pml4t_index virtual_address)) ;;
  let pdpt_phys := Z.land e4 PAGE_MASK in
  temp_map pdpt_phys ;;;
  e3 <- vload 8 (slot TEMP_PAGE (pdpt_index virtual_address)) ;;
  let pd_phys := Z.land e3 PAGE_MASK in
  temp_map pd_phys ;;;
  e2 <- vload 8 (slot TEMP_PAGE (pd_index virtual_address)) ;;
  let pt_phys := Z.land e2 PAGE_MASK in
  temp_map pt_phys ;;;
  e1 <- vload 8 (slot TEMP_PAGE (pt_index virtual_address)) ;;
  let pte := Z.land e1 PAGE_MASK in
  vstore 8 (slot TEMP_PAGE (pt_index virtual_address)) 0 ;;;
  pmm_free pte ;;;
  release_if_empty pt_phys ;;;
  release_if_empty pd_phys ;;;
  release_if_empty pdpt_phys.

Definition get_physical_address (ctx : page_table_t) (virtual_address : Z) : M Z :=
  e4 <- vload 8 (slot (ctx_pml4t ctx) (pml4t_index virtual_address)) ;;
  let pdpt_phys := Z.land e4 PAGE_MASK in
  temp_map pdpt_phys ;;;
  e3 <- vload 8 (slot TEMP_PAGE (pdpt_index virtual_address)) ;;
  let pd_phys := Z.land e3 PAGE_MASK in
  temp_map pd_phys ;;;
  e2 <- vload 8 (slot TEMP_PAGE (pd_index virtual_address)) ;;
  let pt_phys := Z.land e2 PAGE_MASK in
  temp_map pt_phys ;;;
  e1 <- vload 8 (slot TEMP_PAGE (pt_index virtual_address)) ;;
  ret (u64 (Z.land e1 PAGE_MASK + Z.land virtual_address 0xFFF)).

(** ** Page-table entries *)

Lemma pte_addr_range e : 0 <= pte_addr e < 2 ^ 52 /\ pte_addr e mod 4096 = 0.
Proof.
  unfold pte_addr. rewrite land_page_mask. split; [|apply Z_mod_mult].
  assert (H : 0 <= (e / 4096) mod 2 ^ 40 < 2 ^ 40) by (apply Z.mod_pos_bound; lia).
  revert H. generalize ((e / 4096) mod 2 ^ 40). intros x H.
  change (2 ^ 40) with 1099511627776 in H. change (2 ^ 52) with 4503599627370496. lia.
Qed.

(** [frame | f] with page-aligned [frame] and [f] below 4096 *)
Lemma pte_addr_lor p f :
  0 <= p < 2 ^ 52 -> p mod 4096 = 0 -> 0 <= f < 4096 -> pte_addr (Z.lor p f) = p.
Proof.
  intros Hp Ha Hf. unfold pte_addr. rewrite land_page_mask, lor_page by done.
  replace ((p + f) / 4096) with (p / 4096) by dlia. rewrite Z.mod_small by dlia. dlia.
Qed.

Lemma testbit_low p k : p mod 4096 = 0 -> 0 <= k < 12 -> Z.testbit p k = false.
Proof.
  intros Hp Hk. rewrite <- (Z.mod_pow2_bits_low p 12 k) by lia.
  change (2 ^ 12) with 4096. by rewrite Hp, Z.bits_0.
Qed.

Lemma present_lor p f : p mod 4096 = 0 -> present (Z.lor p f) = present f.
Proof. intros Hp. unfold present. rewrite Z.lor_spec, testbit_low by (done || lia). done. Qed.

Lemma huge_lor p f : p mod 4096 = 0 -> huge (Z.lor p f) = huge f.
Proof. intros Hp. unfold huge. rewrite Z.lor_spec, testbit_low by (done || lia). done. Qed.

Lemma lor_range p f : 0 <= p < 2 ^ 52 -> p mod 4096 = 0 -> 0 <= f < 4096 -> 0 <= Z.lor p f < 2 ^ 64.
Proof. intros. rewrite lor_page by done. lia. Qed.

(** indices of the code are the indices of the walk *)
Lemma index_range va :
  0 <= pml4t_index va < 512 /\ 0 <= pdpt_index va < 512 /\ 0 <= pd_index va < 512 /\ 0 <= pt_index va < 512.
Proof.
  unfold pml4t_index, pdpt_index, pd_index, pt_index. rewrite !land_1ff.
  repeat split; apply Z.mod_pos_bound; lia.
Qed.

Lemma index_walk va :
  pml4t_index va = (va / 4096 / 2 ^ 27) mod 512 /\ pdpt_index va = (va / 4096 / 2 ^ 18) mod 512 /\
  pd_index va = (va / 4096 / 2 ^ 9) mod 512 /\ pt_index va = (va / 4096) mod 512.
Proof.
  unfold pml4t_index, pdpt_index, pd_index, pt_index. rewrite !land_1ff, !Z.shiftr_div_pow2 by lia.
  rewrite !Z.div_div by lia. done.
Qed.

(** ** The invariant of the temporary window *)

(** virtual page number of [TEMP_PAGE], and the page-table slot that maps it *)
Definition TVPN : Z := KVPN + 511.
Definition tslot (K : ktables) : Z -> Prop := span (kt1 K + 4088) 8.

Section Vmm.
Context `{FA : !FrameAllocator pmm_alloc pmm_free}.
Context {QT : Quiet} (K : ktables) (q : Z).     (* physical address of the kernel's own PML4 *)
Implicit Types m : machine.

(** table bytes the kernel's view depends on: those of [kspace], and the entry
    of the kernel's PML4 that [temp_map] reads *)
Definition vtab : Z -> Prop := fun a => ktab K a \/ span (q + 4088) 8 a.

Record vmm_ok m : Prop := mk_vmm_ok {
  vo_k : kspace K m;
  vo_a : ok K (glb m);
  vo_q : pml4t (glb m) = KERNEL_BASE + q;
  vo_ql : 0 <= q; vo_qh : q + 4096 <= KWIN; vo_qm : q mod 4096 = 0;
  vo_qp : present (load 8 (ram m) (q + 4088)) = true;
  vo_qa : pte_addr (load 8 (ram m) (q + 4088)) = kt3 K;
  vo_3 : kt3 K + 4096 <= KWIN; vo_2 : kt2 K + 4096 <= KWIN; vo_1 : kt1 K + 4096 <= KWIN;
  vo_d : kt1 K <> kt2 K /\ kt1 K <> kt3 K /\ kt1 K <> kt4 K /\ kt1 K <> q;
  vo_own : forall a, own (glb m) a -> ~ vtab a /\ ~ tslot K a;
  vo_free : forall i, i ∈ frees m -> 512 <= i /\ i * 4096 <> kt4 K;
  vo_vga : forall a, vga_bytes a -> ~ vtab a
}.

(** the kernel's tables are page aligned *)
Lemma kt_aligned m :
  kspace K m ->
  (0 <= kt4 K < 2 ^ 52 /\ kt4 K mod 4096 = 0) /\ (0 <= kt3 K < 2 ^ 52 /\ kt3 K mod 4096 = 0) /\
  (0 <= kt2 K < 2 ^ 52 /\ kt2 K mod 4096 = 0) /\ (0 <= kt1 K < 2 ^ 52 /\ kt1 K mod 4096 = 0).
Proof.
  intros Hk. rewrite <- (ks_root _ _ Hk), <- (ks_a4 _ _ Hk), <- (ks_a3 _ _ Hk), <- (ks_a2 _ _ Hk).
  split_and!; apply pte_addr_range.
Qed.

Ltac vo H := pose proof (vo_ql _ H); pose proof (vo_qh _ H); pose proof (vo_qm _ H);
  pose proof (vo_1 _ H); pose proof (vo_2 _ H); pose proof (vo_3 _ H); pose proof (vo_d _ H) as (?&?&?&?);
  pose proof (kt_aligned _ (vo_k _ H)) as ((?&?)&(?&?)&(?&?)&(?&?)).

(** every byte of [vtab] belongs to an aligned, present entry *)
Lemma vtab_slot m a :
  vmm_ok m -> vtab a -> exists s, s mod 8 = 0 /\ span s 8 a /\ present (load 8 (ram m) s) = true.
Proof.
  intros Hv Ha. vo Hv. pose proof (vo_k _ Hv) as Hk. unfold vtab, ktab, span in Ha.
  destruct Ha as [[Ha|[Ha|[Ha|Ha]]]|Ha].
  - exists (kt4 K + 4088). split_and!; [dlia|done..|apply (ks_p4 _ _ Hk)].
  - exists (kt3 K + 4080). split_and!; [dlia|done..|apply (ks_p3 _ _ Hk)].
  - exists (kt2 K). split_and!; [dlia|done..|apply (ks_p2 _ _ Hk)].
  - exists (kt1 K + 8 * ((a - kt1 K) / 8)). split_and!; [dlia|unfold span; dlia|].
    apply (ks_p1 _ _ Hk). dlia.
  - exists (q + 4088). split_and!; [dlia|done..|apply (vo_qp _ Hv)].
Qed.

(** so an absent aligned entry is never one of them *)
Lemma absent_vtab m s a :
  vmm_ok m -> s mod 8 = 0 -> present (load 8 (ram m) s) = false -> span s 8 a -> ~ vtab a.
Proof.
  intros Hv Hs Hp Ha Ht. destruct (vtab_slot m a Hv Ht) as (s' & Hs' & Ha' & Hp').
  assert (s = s') by (unfold span in *; dlia). congruence.
Qed.

Lemma tslot_vtab m a : vmm_ok m -> tslot K a -> ~ vtab a.
Proof.
  intros Hv. vo Hv. unfold tslot, vtab, ktab, span. intros Ha Ht. dlia.
Qed.

Lemma vmm_ok_mstep (W : Z -> Prop) m m' :
  vmm_ok m -> mstep W m m' -> (forall a, vtab a -> ~ W a) -> frees m' ⊆ frees m -> vmm_ok m'.
Proof.
  intros Hv Hs Hd Hf. pose proof Hv as [].
  assert (Hq : load 8 (ram m') (q + 4088) = load 8 (ram m) (q + 4088)).
  { apply load_agree. eapply agree_weaken; [apply Hs|]. intros a Ha. apply Hd. by right. }
  assert (Hg : glb m' = glb m) by apply Hs.
  split; rewrite ?Hq, ?Hg; try done.
  - eapply kspace_mstep; [done|done|]. intros a Ha. apply Hd. by left.
  - intros i Hi. by apply vo_free0, Hf.
Qed.

Lemma vmm_ok_wstep (W : Z -> Prop) m m' :
  vmm_ok m -> wstep W m m' -> (forall a, vtab a -> ~ W a) -> frees m' ⊆ frees m -> vmm_ok m'.
Proof. intros Hv Hs. by apply (vmm_ok_mstep W m), wstep_mstep. Qed.

(** the page of the window *)
Lemma tv_bytes m a : vmm_ok m -> mbytes m TVPN a -> vtab a \/ tslot K a.
Proof.
  intros Hv Ha. apply (kspace_bytes K) in Ha; [|apply Hv|lia].
  unfold vtab, ktab, tslot, span in *. lia.
Qed.

Lemma temp_vmap m f : maps m TVPN f -> vmap m TEMP_PAGE f 4096.
Proof.
  intros Hm i Hi. split.
  - split; [apply upper_canonical, upper_range; unfold TEMP_PAGE; lia|]. apply quiet_window. unfold TEMP_PAGE, KVPN. dlia.
  - exists f. replace ((TEMP_PAGE + i) / 4096) with TVPN by (unfold TEMP_PAGE, TVPN, KVPN; dlia).
    split; [done|]. unfold TEMP_PAGE. dlia.
Qed.

Lemma temp_vstable m (W : Z -> Prop) f n :
  vmm_ok m -> maps m TVPN f -> n <= 4096 -> (forall a, vtab a \/ tslot K a -> ~ W a) ->
  vstable m W TEMP_PAGE f n.
Proof.
  intros Hv Hm Hn Hd. split.
  - pose proof (vmap_sub _ _ _ _ 0 n (temp_vmap m f Hm)) as H. rewrite !Z.add_0_r in H. apply H; lia.
  - intros i Hi a Ha. apply Hd. apply (tv_bytes m); [done|].
    by replace TVPN with ((TEMP_PAGE + i) / 4096) by (unfold TEMP_PAGE, TVPN, KVPN; dlia).
Qed.

Lemma wstep_invlpg W m : wstep W m (set_tlb (delete (TEMP_PAGE / 4096) (tlb m)) m).
Proof.
  split; try done.
  - intros p _ f. cbn. rewrite lookup_delete. case_decide; [done|]. by left.
  - intros p f _. cbn. rewrite lookup_delete. by case_decide.
  - intros p f Hp Hf. cbn. by rewrite lookup_delete_ne.
Qed.

Lemma frees_wstep (W : Z -> Prop) m m' :
  ok K (glb m) -> wstep W m m' -> (forall a, own (glb m) a -> ~ W a) -> frees m' = frees m.
Proof.
  intros Hok Hs Hd. apply (fa_frees K); [done|apply Hs|]. eapply agree_weaken; [apply Hs|exact Hd].
Qed.

(** [temp_map] redirects the window to the frame [pa] and touches nothing else *)
Lemma wp_temp_map m pa (Q : unit -> machine -> Prop) E :
  vmm_ok m -> 0 <= pa < 2 ^ 52 -> pa mod 4096 = 0 ->
  (forall m', wstep (tslot K) m m' -> vmm_ok m' -> frees m' = frees m -> maps m' TVPN pa -> Q tt m') ->
  wp (temp_map pa) Q E m.
Proof.
  intros Hv Hpa Hpm HQ. vo Hv. unfold temp_map.
  change (pml4t_index TEMP_PAGE) with 511. change (pdpt_index TEMP_PAGE) with 510.
  change (pd_index TEMP_PAGE) with 0. change (pt_index TEMP_PAGE) with 511.
  wp_steps. rewrite (vo_q _ Hv).
  assert (Hs : forall t i, 0 <= t -> t + 4096 <= KWIN -> 0 <= i < 512 ->
    slot (u64 (t + KERNEL_BASE)) i = KERNEL_BASE + (t + 8 * i)).
  { intros t i ???. unfold slot, KWIN in *. zconst. rewrite (u64_small (t + _)), u64_small; lia. }
  replace (KERNEL_BASE + q) with (u64 (q + KERNEL_BASE)) by (unfold KWIN in *; zconst; rewrite u64_small; lia).
  rewrite Hs by lia.
  apply wp_bind. apply (wp_kload K 8); [apply Hv|lia|lia|]. intros m1 Hw1 Hk1.
  change (8 * 511) with 4088. fold (pte_addr (load 8 (ram m) (q + 4088))). rewrite (vo_qa _ Hv), Hs by lia.
  apply wp_bind. apply (wp_kload K 8); [done|lia|lia|]. intros m2 Hw2 Hk2.
  change (8 * 510) with 4080. fold (pte_addr (load 8 (ram m1) (kt3 K + 4080))).
  pose proof (ks_a3 _ _ Hk1) as ->. rewrite Hs by lia. rewrite Z.mul_0_r, Z.add_0_r.
  apply wp_bind. apply (wp_kload K 8); [done|lia|lia|]. intros m3 Hw3 Hk3.
  fold (pte_addr (load 8 (ram m2) (kt2 K))). pose proof (ks_a2 _ _ Hk2) as ->. rewrite Hs by lia.
  change (8 * 511) with 4088.
  apply wp_bind. apply (wp_kstore K 8); [done|lia|lia| |].
  { intros a Ha Hk. eapply (tslot_vtab m); [done|exact Ha|by left]. }
  intros m4 Hs4 Hk4 Hr4. unfold tlb_invalidate, invlpg. wp_steps.
  assert (Hw : warm m m3) by by repeat (etrans; [eassumption|]).
  set (m5 := set_tlb _ _).
  assert (Hs5 : wstep (tslot K) m m5).
  { etrans; [by apply warm_wstep|]. etrans; [exact Hs4|]. apply wstep_invlpg. }
  assert (Hf : frees m5 = frees m).
  { eapply frees_wstep; [apply Hv|done|]. intros a Ha. by apply (vo_own _ Hv). }
  assert (Hv5 : vmm_ok m5).
  { eapply vmm_ok_wstep; [done|done| |by rewrite Hf]. intros a Ha Ht. by apply (tslot_vtab m a). }
  apply HQ; [done|done|done|]. split.
  - change (mwalk m5 (KVPN + 511) = Some pa). rewrite (kspace_walk K) by (apply Hv5 || lia).
    replace (load 8 (ram m5) (kt1 K + 8 * 511)) with (Z.lor pa 0x13).
    + rewrite present_lor, pte_addr_lor by (done || lia). done.
    + cbn [ram m5 set_tlb]. rewrite Hr4. change (8 * 511) with 4088.
      rewrite load8_store8; [done|]. apply lor_range; lia.
  - intros f. cbn [tlb m5 set_tlb]. change (TEMP_PAGE / 4096) with TVPN. by rewrite lookup_delete_eq.
Qed.

(** ** Following and extending a path *)

(** a table the code may edit: page aligned, not a free page, clear of the
    bitmap and of the slot of the window *)
Record table_ok m (P : Z) : Prop := mk_table_ok {
  to_range : 0 <= P < 2 ^ 52;
  to_align : P mod 4096 = 0;
  to_used : P / 4096 ∉ frees m;
  to_own : forall a, span P 4096 a -> ~ own (glb m) a;
  to_temp : P <> kt1 K
}.

(** the slot of the last table of a path whose upper entries are all present *)
Fixpoint leaf_slot (r : ram_t) (P : Z) (ix : list Z) : option Z :=
  match ix with
  | [] => None
  | [i] => Some (P + 8 * i)
  | i :: rest =>
      let e := load 8 r (P + 8 * i) in
      if present e then leaf_slot r (pte_addr e) rest else None
  end.

(** the path below [P] along the indices [ix] can be edited: its tables are
    [table_ok], its entries are not huge pages, and its leaf slot is neither
    one of its upper slots nor a slot of the kernel's own view *)
Fixpoint path_ok m (P : Z) (ix : list Z) : Prop :=
  table_ok m P /\
  match ix with
  | [] => True
  | [i] => 0 <= i < 512 /\ forall a, span (P + 8 * i) 8 a -> ~ vtab a
  | i :: rest =>
      0 <= i < 512 /\
      let e := load 8 (ram m) (P + 8 * i) in
      (present e = true ->
         huge e = false /\ path_ok m (pte_addr e) rest /\
         leaf_slot (ram m) (pte_addr e) rest <> Some (P + 8 * i))
  end.

(** the one existing slot that mapping along the path writes: the first absent
    entry, or the leaf *)
Fixpoint edit_slot (r : ram_t) (P : Z) (ix : list Z) : Z :=
  match ix with
  | [] => P
  | [i] => P + 8 * i
  | i :: rest =>
      let e := load 8 r (P + 8 * i) in
      if present e then edit_slot r (pte_addr e) rest else P + 8 * i
  end.

(** how many tables have to be allocated *)
Fixpoint missing (r : ram_t) (P : Z) (ix : list Z) : nat :=
  match ix with
  | [] | [_] => 0
  | i :: rest =>
      let e := load 8 r (P + 8 * i) in
      if present e then missing r (pte_addr e) rest else length rest
  end.

(** the path leads, through present entries of editable tables, to leaf entry [e] *)
Fixpoint resolves m (P : Z) (ix : list Z) (e : Z) : Prop :=
  match ix with
  | [] => False
  | [i] => table_ok m P /\ load 8 (ram m) (P + 8 * i) = e
  | i :: rest =>
      let e' := load 8 (ram m) (P + 8 * i) in
      table_ok m P /\ present e' = true /\ huge e' = false /\ resolves m (pte_addr e') rest e
  end.

(** the entries alone: present, not huge, ending in [e] *)
Fixpoint chain (r : ram_t) (P : Z) (ix : list Z) (e : Z) : Prop :=
  match ix with
  | [] => False
  | [i] => load 8 r (P + 8 * i) = e
  | i :: rest =>
      let e' := load 8 r (P + 8 * i) in
      present e' = true /\ huge e' = false /\ chain r (pte_addr e') rest e
  end.

(** the tables of a path *)
Fixpoint path_tables (r : ram_t) (P : Z) (ix : list Z) : list Z :=
  match ix with
  | [] => []
  | [_] => [P]
  | i :: rest => P :: path_tables r (pte_addr (load 8 r (P + 8 * i))) rest
  end.

(** the equations of a path of at least two levels *)
Lemma path_cons r P i i' rest :
  let e := load 8 r (P + 8 * i) in
  leaf_slot r P (i :: i' :: rest) = (if present e then leaf_slot r (pte_addr e) (i' :: rest) else None) /\
  edit_slot r P (i :: i' :: rest) = (if present e then edit_slot r (pte_addr e) (i' :: rest) else P + 8 * i) /\
  missing r P (i :: i' :: rest) = (if present e then missing r (pte_addr e) (i' :: rest) else S (length rest)).
Proof. done. Qed.

(** what mapping along a path may write *)
Definition free_pages (F : gset Z) : Z -> Prop := fun a => exists i, i ∈ F /\ span (i * 4096) 4096 a.
Definition writes m (s : Z) : Z -> Prop := fun a =>
  own (glb m) a \/ tslot K a \/ free_pages (frees m) a \/ span s 8 a.

End Vmm.
