(* ===== verification/VmmMap.v ===== *)
(** map_page, proved against the [FrameAllocator] interface: along any editable
    path it allocates exactly the missing tables, writes one slot of the existing
    tables, and makes the path end in the new entry; when the allocator runs dry
    it panics. *)

From S2P Require Import Prelude Comp Ram Machine KSpace Utils Pmm Vmm.

Section VmmMap.
Context `{FA : !FrameAllocator pmm_alloc pmm_free}.
Context {QT : Quiet} (K : ktables) (q : Z).
Implicit Types m : machine.
Local Abbreviation vtab := (Vmm.vtab K q).
Local Abbreviation vmm_ok := (Vmm.vmm_ok K q).
Local Abbreviation table_ok := (Vmm.table_ok K).
Local Abbreviation path_ok := (Vmm.path_ok K q).
Local Abbreviation writes := (Vmm.writes K).
Local Abbreviation resolves := (Vmm.resolves K).

Ltac vo H := pose proof (vo_ql _ _ _ H); pose proof (vo_qh _ _ _ H); pose proof (vo_qm _ _ _ H);
  pose proof (vo_1 _ _ _ H); pose proof (vo_2 _ _ _ H); pose proof (vo_3 _ _ _ H); pose proof (vo_d _ _ _ H) as (?&?&?&?);
  pose proof (kt_aligned _ _ (vo_k _ _ _ H)) as ((?&?)&(?&?)&(?&?)&(?&?)).

(** [map_page] along a list of indices *)
Fixpoint map_path (table : Z) (ix : list Z) (flags leaf : Z) : M unit :=
  match ix with
  | [] => ret tt
  | [i] => vstore 8 (slot table i) leaf
  | i :: rest => map_level table i flags ;;; map_path TEMP_PAGE rest flags leaf
  end.

Lemma map_page_path ctx va pa flags :
  map_page ctx va pa flags =
  map_path (ctx_pml4t ctx) [pml4t_index va; pdpt_index va; pd_index va; pt_index va] flags (Z.lor pa flags).
Proof. done. Qed.

Lemma slot_load_agree (W : Z -> Prop) m m' s :
  wstep W m m' -> (forall a, span s 8 a -> ~ W a) -> load 8 (ram m') s = load 8 (ram m) s.
Proof. intros Hs Hd. apply load_agree. eapply agree_weaken; [apply Hs|exact Hd]. Qed.

Lemma slot_in_page P i a : 0 <= i < 512 -> span (P + 8 * i) 8 a -> span P 4096 a.
Proof. unfold span. lia. Qed.

(** a table page is disjoint from what a step of the window and of the
    allocator write *)
Lemma table_slot_safe m P i a :
  vmm_ok m -> table_ok m P -> 0 <= i < 512 -> span (P + 8 * i) 8 a ->
  ~ own (glb m) a /\ ~ tslot K a /\ ~ free_pages (frees m) a.
Proof.
  intros Hv [Hr Ha Hu Ho Ht] Hi Hs. vo Hv. apply slot_in_page in Hs; [|done]. split_and!.
  - by apply Ho.
  - unfold tslot, span in *. intros ?. apply Ht. dlia.
  - intros (j & Hj & Hja). apply Hu. replace (P / 4096) with j; [done|]. unfold span in *. dlia.
Qed.

(** a free page is clear of everything the kernel's view depends on *)
Lemma fresh_safe m j a :
  vmm_ok m -> j ∈ frees m -> span (j * 4096) 4096 a ->
  ~ vtab a /\ ~ tslot K a /\ ~ own (glb m) a.
Proof.
  intros Hv Hj Ha. vo Hv. destruct (vo_free _ _ _ Hv j Hj) as [Hj1 Hj2]. unfold span, KWIN in *. split_and!.
  - unfold vtab, ktab, span. intros Ht. dlia.
  - unfold tslot, span. lia.
  - intros Ho. apply (fa_own K) in Ho as [Ho _]; [|apply Hv]. unfold KWIN in Ho. lia.
Qed.

Context (flags : Z) (Hfl : 0 <= flags < 4096) (Hhuge : huge flags = false).

Lemma new_entry j : 0 <= j < 2 ^ 40 ->
  let e := Z.lor (Z.lor (j * 4096) flags) 1 in
  0 <= e < 2 ^ 64 /\ present e = true /\ huge e = false /\ pte_addr e = j * 4096.
Proof.
  intros Hj e. assert (Hm : (j * 4096) mod 4096 = 0) by apply Z_mod_mult.
  assert (Hr : 0 <= j * 4096 < 2 ^ 52) by lia.
  pose proof (lor_flags_range flags 1 Hfl ltac:(lia)) as Hf1.
  unfold e. rewrite <- Z.lor_assoc. split_and!.
  - by apply lor_range.
  - by apply lor_range.
  - rewrite present_lor by done. unfold present. rewrite Z.lor_spec.
    change (Z.testbit 1 0) with true. apply orb_true_r.
  - rewrite huge_lor by done. unfold huge in *.
    by rewrite Z.lor_spec, Hhuge.
  - by apply pte_addr_lor.
Qed.

(** linking the new table [j] into slot [i] of [P], and clearing it *)
Lemma wp_link_table m tbl P i j (Q : unit -> machine -> Prop) E :
  let ent := Z.lor (Z.lor (j * 4096) flags) 1 in
  vmm_ok m -> vstable m (own (glb m)) tbl P 4096 -> 0 <= i < 512 -> P mod 4096 = 0 ->
  present (load 8 (ram m) (P + 8 * i)) = false -> 0 <= j < 2 ^ 40 -> P <> j * 4096 ->
  (forall a, span (P + 8 * i) 8 a -> ~ own (glb m) a /\ ~ tslot K a) ->
  (forall a, span (j * 4096) 4096 a -> ~ vtab a /\ ~ tslot K a /\ ~ own (glb m) a) ->
  (forall m', wstep (fun a => tslot K a \/ span (j * 4096) 4096 a \/ span (P + 8 * i) 8 a) m m' ->
     vmm_ok m' -> frees m' = frees m -> maps m' TVPN (j * 4096) ->
     load 8 (ram m') (P + 8 * i) = ent ->
     (forall b, j * 4096 <= b -> b + 8 <= j * 4096 + 4096 -> load 8 (ram m') b = 0) -> Q tt m') ->
  wp (vstore 8 (tbl + 8 * i) ent ;;; temp_map (j * 4096) ;;;
      memset TEMP_PAGE 0 0x1000 ;;; ret tt) Q E m.
Proof.
  intros ent Hv Hst Hi HP Hab Hj HPj Hsafe Hfresh HQ.
  destruct (new_entry j Hj) as (Hn1 & _). fold ent in Hn1.
  assert (Hvt : forall a, span (P + 8 * i) 8 a -> ~ vtab a).
  { intros a. apply (absent_vtab K q m); [done|dlia|done]. }
  apply wp_bind.
  eapply (wp_vstore_st 8 _ (span (P + 8 * i) 8));
    [eapply (vmap_sub _ _ _ _ _ 8); [apply Hst|lia|lia]|done|].
  intros m3 Hs3 Hr3.
  assert (Hf3 : frees m3 = frees m).
  { eapply frees_wstep; [apply Hv|done|]. intros a Ho Ha. by destruct (Hsafe a Ha). }
  assert (Hv3 : vmm_ok m3).
  { eapply vmm_ok_wstep; [exact Hv|done| |by rewrite Hf3]. intros a Ha Ho. by apply (Hvt a). }
  apply wp_bind. apply (wp_temp_map K q); [done|lia|apply Z_mod_mult|].
  intros m4 Hs4 Hv4 Hf4 Hm4.
  apply wp_bind. apply (wp_memset _ _ (j * 4096)); [lia| |].
  { apply (temp_vstable K q); [done|done|lia|]. intros a [Ha|Ha] Hs; by apply Hfresh in Hs as (?&?&?). }
  intros m5 Hs5 Hz5. wp_steps.
  assert (Hg4 : glb m4 = glb m) by (rewrite (ws_glb _ _ _ Hs4); apply Hs3).
  assert (Hf5 : frees m5 = frees m4).
  { eapply frees_wstep; [apply Hv4|done|]. rewrite Hg4. intros a Ho Ha.
    by destruct (Hfresh a Ha) as (?&?&?). }
  apply HQ; [| |congruence| | |].
  - etrans; [|etrans]; eapply wstep_weaken; [exact Hs3|tauto|exact Hs4|tauto|exact Hs5|tauto].
  - eapply vmm_ok_wstep; [exact Hv4|done| |by rewrite Hf5].
    intros a Ha Hs. by destruct (Hfresh a Hs) as (?&?&?).
  - eapply wstep_maps; [exact Hs5| |exact Hm4]. intros a Ha Hs.
    apply (tv_bytes K q m4) in Ha; [|done]. apply Hfresh in Hs as (?&?&?). tauto.
  - rewrite (slot_load_agree _ _ _ _ Hs5), (slot_load_agree _ _ _ _ Hs4), Hr3.
    + by apply load8_store8.
    + intros a Ha. by apply Hsafe.
    + intros a Ha Hb. unfold span in *. dlia.
  - intros b Hb1 Hb2. by eapply filled_load8_zero.
Qed.

Lemma wp_map_level m tbl P i (Q : unit -> machine -> Prop) E :
  vmm_ok m -> table_ok m P -> 0 <= i < 512 -> vstable m (own (glb m)) tbl P 4096 ->
  let e := load 8 (ram m) (P + 8 * i) in
  (present e = true -> forall m', wstep (tslot K) m m' -> vmm_ok m' -> frees m' = frees m ->
     maps m' TVPN (pte_addr e) -> Q tt m') ->
  (present e = false -> forall j m', j ∈ frees m -> wstep (writes m (P + 8 * i)) m m' -> vmm_ok m' ->
     frees m' = frees m ∖ {[j]} -> maps m' TVPN (j * 4096) ->
     load 8 (ram m') (P + 8 * i) = Z.lor (Z.lor (j * 4096) flags) 1 ->
     (forall b, j * 4096 <= b -> b + 8 <= j * 4096 + 4096 -> load 8 (ram m') b = 0) -> Q tt m') ->
  (present e = false -> frees m = ∅ -> forall m', E Halted m') ->
  wp (map_level tbl i flags) Q E m.
Proof.
  intros Hv Ht Hi Hst e Hpres Habs Hoom. unfold map_level, slot.
  rewrite (vmap_u64 _ _ _ _ _ (proj1 Hst)) by lia.
  apply wp_bind. eapply (wp_vload 8); [eapply (vmap_sub _ _ _ _ _ 8); [apply Hst|lia|lia]|].
  intros m1 Hw1. fold e. change 0x1 with 1. rewrite land_1_testbit. fold (present e).
  pose proof (vstable_wstep _ _ _ _ _ _ (warm_wstep _ _ _ Hw1) Hst) as Hst1.
  assert (Hf1 : frees m1 = frees m)
    by (apply (fa_frees K); [apply Hv|apply Hw1|by rewrite (warm_ram _ _ Hw1)]).
  assert (Hv1 : vmm_ok m1).
  { eapply (vmm_ok_wstep K q nowhere); [done|by apply warm_wstep|by intros a _ []|by rewrite Hf1]. }
  assert (Hg1 : glb m1 = glb m) by apply Hw1.
  destruct (pte_addr_range e) as [He1 He2].
  destruct (present e) eqn:Hpe; cbn [negb].
  { apply (wp_temp_map K q); [done|done|done|]. intros m2 Hs2 Hv2 Hf2 Hm2.
    apply Hpres; [done| |done|congruence|done]. etrans; [by apply warm_wstep|done]. }
  apply wp_bind. apply (fa_alloc K); [apply Hv1|apply Hv1| |].
  2: { intros Hemp m2 Hs2 Hk2 Hf2. change (NULL =? NULL) with true. apply wp_bind.
       apply (wp_panic K); [|done|done|done|].
       - intros a Ha Hk. by apply (vo_vga _ _ _ Hv1 a Ha); left.
       - intros m3 _ _ _. apply Hoom; congruence. }
  rewrite Hg1. intros j m2 Hj Hs2 Hk2 Hf2. rewrite Hf1 in Hj, Hf2.
  pose proof (fa_range K m j (vo_a _ _ _ Hv) Hj) as Hj40.
  replace (j * PAGE_SIZE =? NULL) with false.
  2: { destruct (vo_free _ _ _ Hv j Hj). symmetry. apply Z.eqb_neq. unfold PAGE_SIZE, NULL. lia. }
  wp_steps. unfold PAGE_SIZE. change 0x1000 with 4096.
  assert (Hg2 : glb m2 = glb m) by (rewrite (ws_glb _ _ _ Hs2); done).
  assert (Hsafe : forall a, span (P + 8 * i) 8 a ->
            ~ own (glb m) a /\ ~ tslot K a /\ ~ free_pages (frees m) a).
  { intros a. by apply table_slot_safe. }
  apply (wp_link_table m2 tbl P i j); rewrite ?Hg2.
  - eapply vmm_ok_wstep; [exact Hv1|done| |rewrite Hf2, Hf1; apply gset_diff_sub].
    intros a Ha Ho. by destruct (vo_own _ _ _ Hv a Ho).
  - by eapply vstable_wstep.
  - done.
  - apply Ht.
  - rewrite (slot_load_agree _ _ _ _ Hs2), (warm_ram _ _ Hw1); [done|].
    intros a Ha. by destruct (Hsafe a Ha).
  - done.
  - intros ->. apply (to_used _ _ _ Ht). by rewrite Z.div_mul by lia.
  - intros a Ha. by destruct (Hsafe a Ha) as (?&?&?).
  - intros a. by apply (fresh_safe m).
  - intros m5 Hs5 Hv5 Hf5 Hm5 Hl5 Hz5. apply (Habs eq_refl j); [done| |done|congruence|done|done|done].
    etrans; [by apply warm_wstep|]. etrans; eapply wstep_weaken; [exact Hs2| |exact Hs5|].
    + unfold Vmm.writes. tauto.
    + unfold Vmm.writes, free_pages. intros a [?|[?|?]]; [tauto| |tauto]. right; right; left. by exists j.
Qed.

(** ** The path after steps that do not edit it *)

Lemma table_ok_step m m' P :
  glb m' = glb m -> frees m' ⊆ frees m -> table_ok m P -> table_ok m' P.
Proof. intros Hg Hf []. split; rewrite ?Hg; auto. Qed.

Lemma path_slots_step m m' P ix :
  vmm_ok m -> path_ok m P ix -> wstep (tslot K) m m' ->
  leaf_slot (ram m') P ix = leaf_slot (ram m) P ix /\
  edit_slot (ram m') P ix = edit_slot (ram m) P ix /\
  missing (ram m') P ix = missing (ram m) P ix.
Proof.
  intros Hv. revert P. induction ix as [|i [|i' rest] IH]; intros P Hp Hs; [done|done|].
  destruct Hp as (Ht & Hi & Hnext). cbn zeta in Hnext.
  destruct (path_cons (ram m) P i i' rest) as (-> & -> & ->).
  destruct (path_cons (ram m') P i i' rest) as (-> & -> & ->).
  assert (Hl : load 8 (ram m') (P + 8 * i) = load 8 (ram m) (P + 8 * i)).
  { eapply slot_load_agree; [done|]. intros a Ha. by destruct (table_slot_safe m P i a Hv Ht Hi Ha) as (?&?&?). }
  rewrite Hl. destruct (present (load 8 (ram m) (P + 8 * i))) eqn:Hpe; [|done].
  destruct (Hnext eq_refl) as (_ & Hp' & _). by apply IH.
Qed.

Lemma path_ok_step m m' P ix :
  vmm_ok m -> path_ok m P ix -> wstep (tslot K) m m' -> frees m' = frees m -> path_ok m' P ix.
Proof.
  intros Hv. revert P. induction ix as [|i [|i' rest] IH]; intros P Hp Hs Hf.
  - destruct Hp as [Ht _]. split; [|done]. eapply table_ok_step; [apply Hs|by rewrite Hf|done].
  - destruct Hp as [Ht Hl]. split; [|done]. eapply table_ok_step; [apply Hs|by rewrite Hf|done].
  - pose proof Hp as (Ht & Hi & Hnext). split; [eapply table_ok_step; [apply Hs|by rewrite Hf|done]|].
    split; [done|]. intros e. subst e.
    assert (Hl : load 8 (ram m') (P + 8 * i) = load 8 (ram m) (P + 8 * i)).
    { eapply slot_load_agree; [done|]. intros a Ha. by destruct (table_slot_safe m P i a Hv Ht Hi Ha) as (?&?&?). }
    rewrite Hl. intros Hpe. destruct (Hnext Hpe) as (Hh & Hp' & Hleaf).
    split_and!; [done|by apply IH|].
    destruct (path_slots_step m m' _ _ Hv Hp' Hs) as (-> & _). exact Hleaf.
Qed.

(** a cleared fresh page is an editable path with everything missing *)
Lemma path_ok_fresh m P ix :
  table_ok m P -> (forall a, span P 4096 a -> ~ vtab a) ->
  (forall b, P <= b -> b + 8 <= P + 4096 -> load 8 (ram m) b = 0) ->
  Forall (fun i => 0 <= i < 512) ix -> ix <> [] ->
  path_ok m P ix /\ missing (ram m) P ix = pred (length ix) /\
  exists i, 0 <= i < 512 /\ edit_slot (ram m) P ix = P + 8 * i.
Proof.
  intros Ht Hvt Hz Hix Hne. destruct ix as [|i [|i' rest]]; [done| |];
    apply Forall_cons in Hix as [Hi Hix].
  - split_and!; [|done|by exists i]. split; [done|]. split; [done|].
    intros a Ha. apply Hvt. by eapply slot_in_page.
  - destruct (path_cons (ram m) P i i' rest) as (_ & -> & ->).
    assert (Hl : load 8 (ram m) (P + 8 * i) = 0) by (apply Hz; lia).
    rewrite Hl. split_and!; [|done|by exists i].
    split; [done|]. split; [done|]. cbn zeta. by rewrite Hl.
Qed.

(** the edited slot is aligned, and absent unless it is the leaf *)
Lemma edit_slot_spec m P ix :
  path_ok m P ix -> ix <> [] ->
  edit_slot (ram m) P ix mod 8 = 0 /\
  (present (load 8 (ram m) (edit_slot (ram m) P ix)) = false \/
   leaf_slot (ram m) P ix = Some (edit_slot (ram m) P ix)).
Proof.
  revert P. induction ix as [|i [|i' rest] IH]; intros P Hp Hne; [done| |].
  - destruct Hp as [Ht _]. pose proof (to_align _ _ _ Ht). cbn. split; [dlia|by right].
  - destruct Hp as (Ht & Hi & Hnext). pose proof (to_align _ _ _ Ht).
    destruct (path_cons (ram m) P i i' rest) as (-> & -> & _). cbn zeta in Hnext.
    destruct (present (load 8 (ram m) (P + 8 * i))) eqn:Hpe.
    + destruct (Hnext eq_refl) as (_ & Hp' & _). by apply IH.
    + split; [dlia|by left].
Qed.

(** an upper slot of the path survives the mapping of the rest *)
Lemma upper_slot_safe m m1 P i i' rest :
  let e := load 8 (ram m) (P + 8 * i) in
  vmm_ok m -> vmm_ok m1 -> path_ok m P (i :: i' :: rest) -> present e = true ->
  wstep (tslot K) m m1 -> frees m1 = frees m ->
  forall a, span (P + 8 * i) 8 a -> ~ writes m1 (edit_slot (ram m1) (pte_addr e) (i' :: rest)) a.
Proof.
  intros e Hv Hv1 Hp Hpe Hs1 Hf1 a Ha. pose proof Hp as (Ht & Hi & Hnext). cbn zeta in Hnext.
  destruct (Hnext Hpe) as (_ & Hp' & Hnl). fold e in Hp', Hnl.
  destruct (path_slots_step m m1 _ _ Hv Hp' Hs1) as (Hl1 & He1 & _).
  pose proof (path_ok_step m m1 _ _ Hv Hp' Hs1 Hf1) as Hp1.
  destruct (table_slot_safe m P i a Hv Ht Hi Ha) as (Ho & Htm & Hfp).
  unfold writes. rewrite (ws_glb _ _ _ Hs1), Hf1. intros [?|[?|[?|Hs]]]; [done..|].
  destruct (edit_slot_spec m1 (pte_addr e) (i' :: rest) Hp1) as [Hal Hor]; [done|].
  pose proof (to_align _ _ _ Ht).
  assert (Heq : edit_slot (ram m1) (pte_addr e) (i' :: rest) = P + 8 * i) by (unfold span in *; dlia).
  rewrite Heq in Hor. destruct Hor as [Hab|Hlf].
  - rewrite (slot_load_agree _ _ _ (P + 8 * i) Hs1) in Hab; [unfold e in Hpe; congruence|].
    intros b Hb. by destruct (table_slot_safe m P i b Hv Ht Hi Hb) as (?&?&?).
  - by rewrite Hl1 in Hlf.
Qed.

(** the state after linking the fresh table [j] at slot [i] of [P] *)
Record linked m m1 P i j : Prop := mk_linked {
  li_in : j ∈ frees m;
  li_step : wstep (writes m (P + 8 * i)) m m1;
  li_ok : vmm_ok m1;
  li_frees : frees m1 = frees m ∖ {[j]};
  li_entry : load 8 (ram m1) (P + 8 * i) = Z.lor (Z.lor (j * 4096) flags) 1;
  li_zero : forall b, j * 4096 <= b -> b + 8 <= j * 4096 + 4096 -> load 8 (ram m1) b = 0
}.

Lemma linked_path m m1 P i j ix :
  vmm_ok m -> linked m m1 P i j -> Forall (fun i => 0 <= i < 512) ix -> ix <> [] ->
  path_ok m1 (j * 4096) ix /\ missing (ram m1) (j * 4096) ix = pred (length ix) /\
  exists i, 0 <= i < 512 /\ edit_slot (ram m1) (j * 4096) ix = j * 4096 + 8 * i.
Proof.
  intros Hv [Hj Hs1 Hv1 Hf1 Hl1 Hz1] Hix Hne.
  pose proof (fa_range K m j (vo_a _ _ _ Hv) Hj) as Hj40.
  assert (Hfr : forall a, span (j * 4096) 4096 a -> ~ vtab a /\ ~ tslot K a /\ ~ own (glb m) a)
    by (intros a; by apply fresh_safe).
  apply path_ok_fresh; [|intros a Ha; by destruct (Hfr a Ha) as (?&?&?)|done|done|done].
  split; [lia|apply Z_mod_mult| | |].
  - rewrite Hf1, Z.div_mul by lia. apply gset_not_in_diff.
  - rewrite (ws_glb _ _ _ Hs1). intros a Ha. by destruct (Hfr a Ha) as (?&?&?).
  - intros Heq. destruct (Hfr (kt1 K)) as (Hn & _); [unfold span; lia|].
    apply Hn. left. unfold ktab, span. lia.
Qed.

(** continuing below the fresh table only writes fresh pages *)
Lemma linked_writes m m1 P i j i1 a :
  linked m m1 P i j -> 0 <= i1 < 512 -> writes m1 (j * 4096 + 8 * i1) a ->
  own (glb m) a \/ tslot K a \/ free_pages (frees m) a.
Proof.
  intros [Hj Hs1 Hv1 Hf1 Hl1 Hz1] Hi1. unfold Vmm.writes. rewrite (ws_glb _ _ _ Hs1), Hf1.
  intros [?|[?|[(k & Hk & Ha)|Ha]]]; [by left|by right; left| |]; right; right.
  - exists k. split; [by apply gset_diff_sub in Hk|done].
  - exists j. split; [done|]. by eapply slot_in_page.
Qed.

(** ** Mapping along a path *)

(** what mapping the path [ix] below [P] achieves: the path resolves to the leaf, one
    existing slot was written, and one frame was taken for each missing table, the
    first of which the written slot now points to *)
Record mapped m m' P ix leaf : Prop := mk_mapped {
  mp_step : wstep (writes m (edit_slot (ram m) P ix)) m m';
  mp_ok : vmm_ok m';
  mp_size : (size (frees m') + missing (ram m) P ix = size (frees m))%nat;
  mp_frees : frees m' ⊆ frees m;
  mp_leaf : resolves m' P ix leaf;
  mp_new : missing (ram m) P ix = 0%nat \/ exists j, j ∈ frees m /\
    load 8 (ram m') (edit_slot (ram m) P ix) = Z.lor (Z.lor (j * 4096) flags) 1
}.

Lemma mapped_leaf m m' P i leaf :
  vmm_ok m -> path_ok m P [i] -> 0 <= leaf < 2 ^ 64 ->
  wstep (span (P + 8 * i) 8) m m' -> ram m' = store 8 (P + 8 * i) leaf (ram m) -> mapped m m' P [i] leaf.
Proof.
  intros Hv (Ht & Hi & Hvt) Hleaf Hs1 Hr1.
  assert (Hf : frees m' = frees m).
  { eapply frees_wstep; [apply Hv|done|]. intros a Ho Ha.
    by destruct (table_slot_safe m P i a Hv Ht Hi Ha) as (?&?&?). }
  split; [|eapply vmm_ok_wstep; [done|done| |by rewrite Hf]|rewrite Hf; cbn; lia|by rewrite Hf| |by left].
  - eapply wstep_weaken; [exact Hs1|]. unfold Vmm.writes. cbn [edit_slot]. tauto.
  - intros a Ha Hs. by apply (Hvt a).
  - split; [eapply table_ok_step; [apply Hs1|by rewrite Hf|done]|].
    rewrite Hr1. by apply load8_store8.
Qed.

(** through a present entry, with the next table in the window *)
Lemma mapped_down m m1 m2 P i i' rest leaf :
  let e := load 8 (ram m) (P + 8 * i) in
  vmm_ok m -> vmm_ok m1 -> path_ok m P (i :: i' :: rest) -> present e = true ->
  wstep (tslot K) m m1 -> frees m1 = frees m ->
  mapped m1 m2 (pte_addr e) (i' :: rest) leaf -> mapped m m2 P (i :: i' :: rest) leaf.
Proof.
  intros e Hv Hv1 Hp Hpe Hs1 Hf1 [Hs2 Hv2 Hmis Hf2 Hres Hnew]. pose proof Hp as (Ht & Hi & Hnext).
  destruct (Hnext Hpe) as (Hh & Hp' & _). fold e in Hp', Hh.
  destruct (path_slots_step m m1 _ _ Hv Hp' Hs1) as (_ & He1 & Hmi1). rewrite Hmi1, Hf1 in *.
  destruct (path_cons (ram m) P i i' rest) as (_ & Hedit & Hmiss). fold e in Hedit, Hmiss. rewrite Hpe in Hedit, Hmiss.
  assert (Hl2 : load 8 (ram m2) (P + 8 * i) = e).
  { unfold e. rewrite <- (slot_load_agree _ _ _ (P + 8 * i) Hs1).
    - eapply slot_load_agree; [exact Hs2|]. by apply (upper_slot_safe m m1 P i i' rest).
    - intros a Ha. by destruct (table_slot_safe m P i a Hv Ht Hi Ha) as (?&?&?). }
  split; rewrite ?Hedit, ?Hmiss; [|done|done|done| |by rewrite <- He1].
  - etrans; [eapply wstep_weaken; [exact Hs1|unfold Vmm.writes; tauto]|].
    rewrite <- He1. eapply wstep_weaken; [exact Hs2|]. unfold Vmm.writes.
    by rewrite (ws_glb _ _ _ Hs1), Hf1.
  - split; [|by rewrite Hl2].
    eapply table_ok_step; [|exact Hf2|exact Ht]. by rewrite (ws_glb _ _ _ Hs2), (ws_glb _ _ _ Hs1).
Qed.

(** through a table just linked at an absent entry *)
Lemma mapped_link m m1 m2 P i j i' rest leaf :
  vmm_ok m -> table_ok m P -> 0 <= i < 512 -> Forall (fun i => 0 <= i < 512) (i' :: rest) ->
  present (load 8 (ram m) (P + 8 * i)) = false -> linked m m1 P i j ->
  mapped m1 m2 (j * 4096) (i' :: rest) leaf -> mapped m m2 P (i :: i' :: rest) leaf.
Proof.
  intros Hv Ht Hi Hix Hpa HL [Hs2 Hv2 Hmis Hf2 Hres _]. pose proof HL as [Hj Hs1 Hv1 Hf1 Hl1 Hz1].
  destruct (path_cons (ram m) P i i' rest) as (_ & Hedit & Hmiss). rewrite Hpa in Hedit, Hmiss.
  destruct (linked_path m m1 P i j (i' :: rest) Hv HL Hix) as (Hp1 & Hm1' & i1 & Hi1 & He1); [done|].
  destruct (size_remove (frees m) j Hj) as (n & Hn & Hn'). rewrite <- Hf1 in Hn'.
  rewrite Hm1', Hn' in Hmis. cbn [length pred] in Hmis. rewrite He1 in Hs2.
  assert (Hlw : forall a, writes m1 (j * 4096 + 8 * i1) a -> own (glb m) a \/ tslot K a \/ free_pages (frees m) a)
    by (intros a; by apply (linked_writes m m1 P i j i1)).
  assert (Hsub : frees m1 ⊆ frees m) by (rewrite Hf1; apply gset_diff_sub).
  destruct (new_entry j (fa_range K m j (vo_a _ _ _ Hv) Hj)) as (_ & Hn2 & Hn3 & Hn4).
  assert (Hl2 : load 8 (ram m2) (P + 8 * i) = Z.lor (Z.lor (j * 4096) flags) 1).
  { rewrite <- Hl1. eapply slot_load_agree; [exact Hs2|]. intros a Ha Hw.
    destruct (table_slot_safe m P i a Hv Ht Hi Ha) as (?&?&?). apply Hlw in Hw. tauto. }
  split; rewrite ?Hedit, ?Hmiss; [|done|lia|by etrans| |right; by exists j].
  - etrans; [exact Hs1|]. eapply wstep_weaken; [exact Hs2|]. intros a Ha.
    unfold Vmm.writes. specialize (Hlw a Ha). tauto.
  - split; [|by rewrite Hl2, Hn4].
    eapply table_ok_step; [|etrans; [exact Hf2|exact Hsub]|exact Ht].
    by rewrite (ws_glb _ _ _ Hs2), (ws_glb _ _ _ Hs1).
Qed.

Lemma wp_map_path ix leaf : forall m tbl P (Q : unit -> machine -> Prop) (E : stop -> machine -> Prop),
  vmm_ok m -> ix <> [] -> Forall (fun i => 0 <= i < 512) ix -> path_ok m P ix ->
  vstable m (own (glb m)) tbl P 4096 -> 0 <= leaf < 2 ^ 64 ->
  (forall m', mapped m m' P ix leaf -> Q tt m') ->
  (forall m', (size (frees m) < missing (ram m) P ix)%nat -> E Halted m') ->
  wp (map_path tbl ix flags leaf) Q E m.
Proof.
  induction ix as [|i [|i' rest] IH]; intros m tbl P Q E Hv Hne Hix Hp Hst Hleaf HQ HE; [done| |];
    apply Forall_cons in Hix as [Hi Hix].
  - cbn [map_path]. unfold slot. rewrite (vmap_u64 _ _ _ _ _ (proj1 Hst)) by lia.
    eapply (wp_vstore_st 8 _ (span (P + 8 * i) 8));
      [eapply (vmap_sub _ _ _ _ _ 8); [apply Hst|lia|lia]|done|].
    intros m1 Hs1 Hr1. by apply HQ, mapped_leaf.
  - pose proof Hp as (Ht & _ & Hnext). destruct (path_cons (ram m) P i i' rest) as (_ & _ & Hmiss).
    assert (Hwin : forall m1 f, vmm_ok m1 -> maps m1 TVPN f -> vstable m1 (own (glb m1)) TEMP_PAGE f 4096).
    { intros m1 f Hv1 Hm1. apply (temp_vstable K q); [done|done|lia|]. intros a Ha Ho.
      destruct (vo_own _ _ _ Hv1 a Ho). tauto. }
    cbn [map_path]. apply wp_bind. apply (wp_map_level m tbl P i); [done|done|done|done| | |].
    + intros Hpe m1 Hs1 Hv1 Hf1 Hm1. destruct (Hnext Hpe) as (_ & Hp' & _). rewrite Hpe in Hmiss.
      destruct (path_slots_step m m1 _ _ Hv Hp' Hs1) as (_ & _ & Hmi1).
      apply (IH m1 TEMP_PAGE (pte_addr (load 8 (ram m) (P + 8 * i))) Q E Hv1); [done|done|by apply (path_ok_step m m1)|by apply Hwin|done| |].
      * intros m2 Hm2. by apply HQ, (mapped_down m m1).
      * intros m2. rewrite Hf1, Hmi1, <- Hmiss. apply HE.
    + intros Hpa j m1 Hj Hs1 Hv1 Hf1 Hm1 Hl1 Hz1. rewrite Hpa in Hmiss.
      assert (HL : linked m m1 P i j) by done.
      destruct (linked_path m m1 P i j (i' :: rest) Hv HL Hix) as (Hp1 & Hm1' & _); [done|].
      destruct (size_remove (frees m) j Hj) as (n & Hn & Hn'). rewrite <- Hf1 in Hn'.
      apply (IH m1 TEMP_PAGE (j * 4096) Q E Hv1); [done|done|done|by apply Hwin|done| |].
      * intros m2 Hm2. by apply HQ, (mapped_link m m1 m2 P i j).
      * intros m2. rewrite Hn', Hm1'. cbn [length pred]. intros Hlt. apply HE. lia.
    + intros Hpa Hemp m1. rewrite Hpa in Hmiss. apply HE. rewrite Hmiss, Hemp, size_empty. lia.
Qed.
End VmmMap.
