(* ===== verification/VmmWalk.v ===== *)
(** The page-table operations against the MMU: after [map_page] the hardware walk
    of the page ends in the new frame and every other mapped page keeps its walk;
    [get_physical_address] computes that walk; [unmap_page] clears the leaf and
    frees the frame and the emptied table. *)

From S2P Require Import Prelude Comp Ram Machine KSpace Utils Pmm Vmm VmmMap.

(** the indices the code takes from a virtual address *)
Definition va_path (va : Z) : list Z := [pml4t_index va; pdpt_index va; pd_index va; pt_index va].

Lemma va_path_range va : Forall (fun i => 0 <= i < 512) (va_path va).
Proof. destruct (index_range va) as (?&?&?&?). unfold va_path. by rewrite !Forall_cons, Forall_nil. Qed.

Lemma pte_addr_aligned P : 0 <= P < 2 ^ 52 -> P mod 4096 = 0 -> pte_addr P = P.
Proof. intros. rewrite <- (Z.lor_0_r P) at 1. by apply pte_addr_lor. Qed.

(** every byte a successful walk reads belongs to an aligned present entry *)
Lemma walk_bytes_present r root p f a :
  walk r root p = Some f -> walk_bytes r root p a ->
  exists s, s mod 8 = 0 /\ span s 8 a /\ present (load 8 r s) = true.
Proof.
  assert (Hal : forall e i, (pte_addr e + 8 * i) mod 8 = 0).
  { intros e i. destruct (pte_addr_range e) as [_ H]. dlia. }
  unfold walk, walk_bytes.
  set (s4 := pte_addr root + _). set (e4 := load 8 r s4).
  destruct (present e4) eqn:P4; cbn [negb]; [|done].
  set (s3 := pte_addr e4 + _). set (e3 := load 8 r s3).
  destruct (present e3) eqn:P3; cbn [negb]; [|done].
  set (s2 := pte_addr e3 + _). set (e2 := load 8 r s2).
  set (s1 := pte_addr e2 + _). set (e1 := load 8 r s1).
  intros Hw [H|[_ [H|(_ & H3 & [H|(P2 & H2 & H)])]]].
  - exists s4. split_and!; [apply Hal|apply H..|done].
  - exists s3. split_and!; [apply Hal|apply H..|done].
  - exists s2. rewrite H3 in Hw. split_and!; [apply Hal|apply H..|].
    fold e2. by destruct (present e2).
  - exists s1. rewrite H3, P2, H2 in Hw. cbn [negb] in Hw. split_and!; [apply Hal|apply H..|].
    fold e1. by destruct (present e1).
Qed.

Section VmmWalk.
Context `{FA : !FrameAllocator pmm_alloc pmm_free}.
Context {QT : Quiet} (K : ktables) (q : Z).
Implicit Types m : machine.
Local Abbreviation vmm_ok := (Vmm.vmm_ok K q).
Local Abbreviation table_ok := (Vmm.table_ok K).
Local Abbreviation path_ok := (Vmm.path_ok K q).
Local Abbreviation writes := (Vmm.writes K).
Local Abbreviation resolves := (Vmm.resolves K).

Lemma resolves_chain m P ix e : resolves m P ix e -> chain (ram m) P ix e.
Proof.
  revert P. induction ix as [|i [|i' rest] IH]; intros P Hr; [done|apply Hr|].
  destruct Hr as (_ & Hp & Hh & Hr). split_and!; [done|done|]. by apply IH.
Qed.

(** a chain of entries is what the hardware walks *)
Lemma chain_walk r P va e :
  0 <= P < 2 ^ 52 -> P mod 4096 = 0 -> chain r P (va_path va) e ->
  walk r P (va / 4096) = if present e then Some (pte_addr e) else None.
Proof.
  intros HP Ha (P4 & _ & P3 & H3 & P2 & H2 & He).
  destruct (index_walk va) as (I4 & I3 & I2 & I1). rewrite I4, I3, I2, I1 in *.
  unfold walk. rewrite (pte_addr_aligned P) by done.
  rewrite P4. cbn [negb]. rewrite P3, H3. cbn [negb]. rewrite P2, H2. cbn [negb].
  cbn [chain] in He. rewrite He. by destruct (present e).
Qed.

Lemma resolves_table m P ix e : resolves m P ix e -> table_ok m P.
Proof. destruct ix as [|? [|??]]; [done|intros H; apply H..]. Qed.

Lemma resolves_walk m P va e :
  resolves m P (va_path va) e -> present e = true -> walk (ram m) P (va / 4096) = Some (pte_addr e).
Proof.
  intros Hr He. pose proof (resolves_table _ _ _ _ Hr) as [].
  by rewrite (chain_walk _ _ _ e), He by (done || by apply resolves_chain).
Qed.

(** [map_page]: the walk of the page ends in [pa | flags]; panics only for lack
    of page frames *)
Lemma wp_map_page m ctx P va pa flags (Q : unit -> machine -> Prop) E :
  vmm_ok m -> vstable m (own (glb m)) (ctx_pml4t ctx) P 4096 -> path_ok m P (va_path va) ->
  0 <= pa < 2 ^ 52 -> pa mod 4096 = 0 -> 0 <= flags < 4096 -> huge flags = false ->
  (forall m', mapped K q flags m m' P (va_path va) (Z.lor pa flags) -> Q tt m') ->
  (forall m', (size (frees m) < missing (ram m) P (va_path va))%nat -> E Halted m') ->
  wp (map_page ctx va pa flags) Q E m.
Proof.
  intros Hv Hst Hp Hpa Hpm Hfl Hh HQ HE. rewrite map_page_path.
  apply (wp_map_path K q flags Hfl Hh _ _ m _ P); [done|done|apply va_path_range|done|done| |done|done].
  by apply lor_range.
Qed.

(** pages mapped elsewhere keep their walk *)
Lemma map_page_keeps m m' s root p f :
  wstep (writes m s) m m' -> s mod 8 = 0 -> present (load 8 (ram m) s) = false ->
  walk (ram m) root p = Some f ->
  (forall a, walk_bytes (ram m) root p a ->
     ~ own (glb m) a /\ ~ tslot K a /\ ~ free_pages (frees m) a) ->
  walk (ram m') root p = Some f.
Proof.
  intros Hs Hal Hab Hw Hd. rewrite <- Hw. apply walk_agree.
  eapply agree_weaken; [apply Hs|]. intros a Ha. unfold Vmm.writes.
  destruct (Hd a Ha) as (Ho & Ht & Hf). intros [?|[?|[?|Hsp]]]; [done..|].
  destruct (walk_bytes_present _ _ _ _ _ Hw Ha) as (s' & Hal' & Ha' & Hp').
  assert (s = s') by (unfold span in *; dlia). congruence.
Qed.

(** ** Following a path through the window *)

(** reading a slot of a mapped table *)
Lemma wp_slot_read m tbl P i (Q : Z -> machine -> Prop) E :
  vmm_ok m -> vmap m tbl P 4096 -> 0 <= i < 512 ->
  (forall m', warm m m' -> vmm_ok m' -> frees m' = frees m -> Q (load 8 (ram m) (P + 8 * i)) m') ->
  wp (vload 8 (slot tbl i)) Q E m.
Proof.
  intros Hv Hvm Hi HQ. unfold slot. rewrite (vmap_u64 _ _ _ _ _ Hvm) by lia.
  eapply (wp_vload 8); [eapply (vmap_sub _ _ _ _ _ 8); [exact Hvm|lia|lia]|].
  intros m1 Hw1.
  assert (Hf : frees m1 = frees m)
    by (apply (fa_frees K); [apply Hv|apply Hw1|by rewrite (warm_ram _ _ Hw1)]).
  apply HQ; [done| |done].
  eapply (vmm_ok_wstep K q nowhere); [done|by apply warm_wstep|by intros a _ []|by rewrite Hf].
Qed.

(** stepping from the table in the window to the next one *)
Lemma resolves_tstep m m' P ix e :
  vmm_ok m -> Forall (fun i => 0 <= i < 512) ix -> resolves m P ix e ->
  wstep (tslot K) m m' -> frees m' = frees m -> resolves m' P ix e.
Proof.
  intros Hv. revert P. induction ix as [|i [|i' rest] IH]; intros P Hix Hr Hs Hf; [done| |];
    apply Forall_cons in Hix as [Hi Hix]; destruct Hr as [Ht Hr];
    (assert (Hl : load 8 (ram m') (P + 8 * i) = load 8 (ram m) (P + 8 * i));
     [eapply slot_load_agree; [done|]; intros a Ha;
      by destruct (table_slot_safe K q m P i a Hv Ht Hi Ha) as (?&?&?)|]);
    (split; [eapply table_ok_step; [apply Hs|by rewrite Hf|done]|]); rewrite Hl.
  - done.
  - destruct Hr as (Hp & Hh & Hr). split_and!; [done|done|]. by apply IH.
Qed.

Lemma resolves_warm m m' P ix e :
  vmm_ok m -> Forall (fun i => 0 <= i < 512) ix -> warm m m' -> frees m' = frees m ->
  resolves m P ix e -> resolves m' P ix e.
Proof. intros Hv Hix Hw Hf Hr. eapply resolves_tstep; [done|done|done|by apply warm_wstep|done]. Qed.

(** one step down: read an entry, map the table it points to *)
Lemma wp_descend m tbl P i i' rest e {A} (k : Z -> M A) (Q : A -> machine -> Prop) E :
  vmm_ok m -> vmap m tbl P 4096 -> Forall (fun i => 0 <= i < 512) (i :: i' :: rest) ->
  resolves m P (i :: i' :: rest) e ->
  (forall m', let P' := pte_addr (load 8 (ram m) (P + 8 * i)) in
     wstep (tslot K) m m' -> vmm_ok m' -> vmap m' TEMP_PAGE P' 4096 -> frees m' = frees m ->
     resolves m' P' (i' :: rest) e -> wp (k (load 8 (ram m) (P + 8 * i))) Q E m') ->
  wp (x <- vload 8 (slot tbl i) ;; temp_map (Z.land x PAGE_MASK) ;;; k x) Q E m.
Proof.
  intros Hv Hm Hix (Ht & Hp & Hh & Hr) Hk. apply Forall_cons in Hix as [Hi Hix].
  apply wp_bind, (wp_slot_read m tbl P); [done..|]. intros m1 Hw1 Hv1 Hf1.
  fold (pte_addr (load 8 (ram m) (P + 8 * i))).
  destruct (pte_addr_range (load 8 (ram m) (P + 8 * i))) as [Hr1 Hr2].
  apply wp_bind, (wp_temp_map K q); [done|done|done|]. intros m2 Hs2 Hv2 Hf2 Hm2.
  assert (Hs : wstep (tslot K) m m2) by (etrans; [by apply warm_wstep|done]).
  apply Hk; [done|done|by apply temp_vmap|congruence|].
  eapply resolves_tstep; [exact Hv|done|done|done|congruence].
Qed.

Lemma path_tables_va r P va P3 P2 P1 :
  path_tables r P (va_path va) = [P; P3; P2; P1] ->
  pte_addr (load 8 r (P + 8 * pml4t_index va)) = P3 /\
  pte_addr (load 8 r (P3 + 8 * pdpt_index va)) = P2 /\
  pte_addr (load 8 r (P2 + 8 * pd_index va)) = P1.
Proof.
  intros H.
  assert (H3 : pte_addr (load 8 r (P + 8 * pml4t_index va)) = P3) by exact (f_equal (fun l => nth 1 l 0) H).
  assert (H2 : pte_addr (load 8 r (P3 + 8 * pdpt_index va)) = P2)
    by (rewrite <- H3; exact (f_equal (fun l => nth 2 l 0) H)).
  split_and!; [done|done|]. rewrite <- H2, <- H3. exact (f_equal (fun l => nth 3 l 0) H).
Qed.

(** an entry of an editable table survives redirections of the window *)
Lemma entry_tstep m m' P i :
  vmm_ok m -> table_ok m P -> 0 <= i < 512 -> wstep (tslot K) m m' ->
  load 8 (ram m') (P + 8 * i) = load 8 (ram m) (P + 8 * i).
Proof.
  intros Hv Ht Hi Hs. eapply slot_load_agree; [exact Hs|].
  intros a Ha. by destruct (table_slot_safe K q m P i a Hv Ht Hi Ha) as (?&?&?).
Qed.

(** the three descents with which [unmap_page] and [get_physical_address] begin *)
Lemma wp_descend_all m tbl P va e P3 P2 P1 {A} (k : Z -> Z -> Z -> M A) (Q : A -> machine -> Prop) E :
  vmm_ok m -> vmap m tbl P 4096 -> resolves m P (va_path va) e ->
  path_tables (ram m) P (va_path va) = [P; P3; P2; P1] ->
  (forall e4 e3 e2 m', Z.land e4 PAGE_MASK = P3 -> Z.land e3 PAGE_MASK = P2 -> Z.land e2 PAGE_MASK = P1 ->
     wstep (tslot K) m m' -> vmm_ok m' -> vmap m' TEMP_PAGE P1 4096 -> frees m' = frees m ->
     load 8 (ram m') (P1 + 8 * pt_index va) = e -> wp (k e4 e3 e2) Q E m') ->
  wp (e4 <- vload 8 (slot tbl (pml4t_index va)) ;; temp_map (Z.land e4 PAGE_MASK) ;;;
      e3 <- vload 8 (slot TEMP_PAGE (pdpt_index va)) ;; temp_map (Z.land e3 PAGE_MASK) ;;;
      e2 <- vload 8 (slot TEMP_PAGE (pd_index va)) ;; temp_map (Z.land e2 PAGE_MASK) ;;; k e4 e3 e2) Q E m.
Proof.
  intros Hv Hm Hr Ht Hk. pose proof (va_path_range va) as Hix. unfold va_path in *.
  pose proof Hix as Hix3. apply Forall_cons in Hix3 as [_ Hix3].
  pose proof Hix3 as Hix2. apply Forall_cons in Hix2 as [Hi3 Hix2].
  pose proof Hix2 as Hix1. apply Forall_cons in Hix1 as [Hi2 Hix1].
  pose proof Hr as (_ & _ & _ & T3 & _ & _ & T2 & _ & _ & _). apply path_tables_va in Ht as (H3 & H2 & H1).
  rewrite H3 in T3, T2. rewrite H2 in T2.
  eapply wp_descend; [done|exact Hm|exact Hix|exact Hr|]. intros m1 P3' Hs1 Hv1 Hm1 Hf1 Hr1.
  subst P3'. rewrite H3 in Hm1, Hr1.
  eapply wp_descend; [done|exact Hm1|exact Hix3|exact Hr1|]. intros m2 P2' Hs2 Hv2 Hm2 Hf2 Hr2.
  subst P2'. rewrite (entry_tstep m m1 P3 _ Hv T3 Hi3 Hs1) in *. rewrite H2 in Hm2, Hr2.
  eapply wp_descend; [done|exact Hm2|exact Hix2|exact Hr2|]. intros m3 P1' Hs3 Hv3 Hm3 Hf3 Hr3.
  assert (Hs : wstep (tslot K) m m2) by by etrans.
  subst P1'. rewrite (entry_tstep m m2 P2 _ Hv T2 Hi2 Hs) in *. rewrite H1 in Hm3, Hr3.
  apply Hk; [done..| |done|done|congruence|apply Hr3]. by etrans.
Qed.

(** ** [get_physical_address] *)
Lemma wp_get_physical_address m ctx P va e (Q : Z -> machine -> Prop) E :
  vmm_ok m -> vmap m (ctx_pml4t ctx) P 4096 -> resolves m P (va_path va) e ->
  (forall m', wstep (tslot K) m m' -> vmm_ok m' -> frees m' = frees m ->
     Q (u64 (pte_addr e + va mod 4096)) m') ->
  wp (get_physical_address ctx va) Q E m.
Proof.
  intros Hv Hm Hr HQ. unfold get_physical_address. cbn zeta.
  eapply (wp_descend_all m _ P va e); [done|done|done|reflexivity|].
  intros e4 e3 e2 m3 _ _ _ Hs3 Hv3 Hm3 Hf3 He. destruct (index_range va) as (_&_&_&Hi).
  apply wp_bind. eapply wp_slot_read; [done|exact Hm3|done|]. intros m4 Hw4 Hv4 Hf4. wp_steps.
  rewrite He, land_fff. fold (pte_addr e). apply HQ; [|done|congruence].
  etrans; [exact Hs3|]. by apply warm_wstep.
Qed.

(** ** [unmap_page] *)

(** the [empty] flag of the code *)
Definition table_is_empty (r : ram_t) (P : Z) : bool :=
  forallb (fun i => negb (present (load 8 r (P + 8 * i)))) (seqZ 0 512).

Lemma table_is_empty_true r P :
  table_is_empty r P = true <-> forall i, 0 <= i < 512 -> present (load 8 r (P + 8 * i)) = false.
Proof.
  unfold table_is_empty. rewrite forallb_forall. split.
  - intros H i Hi. apply negb_true_iff, H. apply list_elem_of_In, elem_of_seqZ. lia.
  - intros H i Hi. apply negb_true_iff, H. apply list_elem_of_In, elem_of_seqZ in Hi. lia.
Qed.

Lemma table_is_empty_agree r r' P : agree (span P 4096) r r' -> table_is_empty r' P = table_is_empty r P.
Proof.
  intros Ha. apply eq_true_iff_eq. rewrite !table_is_empty_true.
  assert (Hl : forall i, 0 <= i < 512 -> load 8 r' (P + 8 * i) = load 8 r (P + 8 * i)).
  { intros i Hi. apply load_agree. eapply agree_weaken; [exact Ha|]. intros a. by apply slot_in_page. }
  split; intros H i Hi; specialize (H i Hi); by rewrite Hl in *.
Qed.

Lemma wp_table_empty m P (Q : bool -> machine -> Prop) E :
  vmm_ok m -> vmap m TEMP_PAGE P 4096 ->
  (forall m', warm m m' -> vmm_ok m' -> frees m' = frees m -> Q (table_is_empty (ram m) P) m') ->
  wp (table_empty TEMP_PAGE) Q E m.
Proof.
  intros Hv Hm HQ. unfold table_empty. apply wp_bind.
  eapply (wp_for_find (fun i m' => warm m m' /\ vmm_ok m' /\ frees m' = frees m /\
    forall j, 0 <= j < i -> present (load 8 (ram m) (P + 8 * j)) = false)).
  - split_and!; [done|done|done|lia].
  - intros i m1 Hi (Hw1 & Hv1 & Hf1 & Hno).
    apply wp_bind, (wp_slot_read m1 _ P); [done|by eapply vmap_warm|lia|].
    intros m2 Hw2 Hv2 Hf2. change 0x1 with 1. rewrite land_1_testbit, negb_involutive.
    rewrite (warm_ram _ _ Hw1). fold (present (load 8 (ram m) (P + 8 * i))).
    assert (Hw : warm m m2) by by etrans.
    destruct (present (load 8 (ram m) (P + 8 * i))) eqn:Hp; wp_steps; cbn [default].
    + replace false with (table_is_empty (ram m) P); [apply HQ; [done|done|congruence]|].
      apply not_true_is_false. rewrite table_is_empty_true. intros H. rewrite H in Hp by lia. done.
    + split_and!; [done|done|congruence|]. intros j Hj.
      destruct (Z.eq_dec j i) as [->|]; [done|apply Hno; lia].
  - intros m1 (Hw1 & Hv1 & Hf1 & Hno). wp_steps. cbn [default].
    replace true with (table_is_empty (ram m) P); [by apply HQ|].
    apply table_is_empty_true. intros i Hi. apply Hno. lia.
Qed.

(** what [unmap_page] writes: the allocator's bitmap, the slot of the window,
    and the leaf entry [s] *)
Definition clears (m : machine) (s : Z) : Z -> Prop :=
  fun a => own (glb m) a \/ tslot K a \/ span s 8 a.

Lemma leaf_slot_aligned m P ix s :
  path_ok m P ix -> leaf_slot (ram m) P ix = Some s -> s mod 8 = 0.
Proof.
  revert P. induction ix as [|i [|i' rest] IH]; intros P Hp Hl; [done| |].
  - destruct Hp as [[? Ha _ _ _] _]. injection Hl as <-. dlia.
  - destruct Hp as (_ & _ & Hn). destruct (path_cons (ram m) P i i' rest) as (Hls & _ & _).
    rewrite Hls in Hl. destruct (present _) eqn:Hp; [|done].
    destruct (Hn Hp) as (_ & Hp' & _). by eapply IH.
Qed.

(** clearing the leaf leaves the upper entries alone *)
Lemma chain_clear m m' P ix e s v :
  vmm_ok m -> path_ok m P ix -> resolves m P ix e -> leaf_slot (ram m) P ix = Some s ->
  wstep (clears m s) m m' -> load 8 (ram m') s = v ->
  chain (ram m') P ix v /\ path_tables (ram m') P ix = path_tables (ram m) P ix.
Proof.
  intros Hv. revert P. induction ix as [|i [|i' rest] IH]; intros P Hp Hr Hl Hs He; [done| |].
  - injection Hl as <-. done.
  - pose proof (leaf_slot_aligned _ _ _ _ Hp Hl) as Hal.
    destruct Hp as (Ht & Hi & Hn), Hr as (_ & Hpr & Hh & Hr). destruct (Hn Hpr) as (_ & Hp' & Hne).
    destruct (path_cons (ram m) P i i' rest) as (Hls & _ & _). rewrite Hls, Hpr in Hl.
    assert (Hload : load 8 (ram m') (P + 8 * i) = load 8 (ram m) (P + 8 * i)).
    { eapply slot_load_agree; [exact Hs|]. intros a Ha. pose proof (to_align _ _ _ Ht).
      destruct (table_slot_safe K q m P i a Hv Ht Hi Ha) as (?&?&?). intros [?|[?|Hsp]]; [done..|].
      apply Hne. rewrite Hl. f_equal. unfold span in *. dlia. }
    destruct (IH _ Hp' Hr Hl Hs He) as [Hc Htb]. cbn [chain path_tables]. rewrite Hload.
    split; [done|]. by f_equal.
Qed.

(** [free] of a frame adds it to the free pages, if the allocator manages it *)
Definition released (g : globals) (p : Z) (F F' : gset Z) : Prop :=
  forall i, i ∈ F' <-> i ∈ F \/ (i = p / 4096 /\ managed g i).

Lemma wp_release m p (Q : unit -> machine -> Prop) E :
  vmm_ok m -> 2 ^ 21 <= p -> p / 4096 * 4096 <> kt4 K ->
  (forall m', wstep (own (glb m)) m m' -> vmm_ok m' -> released (glb m) p (frees m) (frees m') -> Q tt m') ->
  wp (pmm_free p) Q E m.
Proof.
  intros Hv Hp Hk HQ.
  assert (Hok : forall m', wstep (own (glb m)) m m' -> kspace K m' ->
            released (glb m) p (frees m) (frees m') -> vmm_ok m').
  { intros m' Hs Hk' Hr. assert (Hg : glb m' = glb m) by apply Hs. pose proof Hv as [].
    assert (Hq : load 8 (ram m') (q + 4088) = load 8 (ram m) (q + 4088)).
    { eapply slot_load_agree; [exact Hs|]. intros a Ha Ho. apply vo_own in Ho as [Ho _]. apply Ho. by right. }
    split; rewrite ?Hq, ?Hg; try done.
    intros i [Hi|[-> _]]%Hr; [by apply vo_free|]. split; [dlia|done]. }
  apply (fa_free K); [apply Hv|apply Hv| | |lia]; intros Hm m' Hs Hk' Hf.
  - assert (Hr : released (glb m) p (frees m) (frees m')).
    { intros i. rewrite Hf, elem_of_union, elem_of_singleton. unfold PAGE_SIZE in *.
      split; [intros [->|]|intros [|[-> _]]]; auto. }
    by apply HQ, Hr; [|apply Hok].
  - assert (Hr : released (glb m) p (frees m) (frees m')).
    { intros i. rewrite Hf. unfold PAGE_SIZE in *. split; [auto|]. intros [|[-> ?]]; [done|tauto]. }
    assert (wstep (own (glb m)) m m') by (eapply wstep_weaken; [exact Hs|intros ? []]).
    by apply HQ, Hr; [|apply Hok].
Qed.

(** what a closing block of [unmap_page] releases *)
Definition released_if (b : bool) (g : globals) (p : Z) (F F' : gset Z) : Prop :=
  if b then released g p F F' else F' = F.

Lemma wp_release_if_empty m P (Q : unit -> machine -> Prop) E :
  vmm_ok m -> 0 <= P < 2 ^ 52 -> P mod 4096 = 0 ->
  (forall a, span P 4096 a -> ~ tslot K a) ->
  (table_is_empty (ram m) P = true -> 2 ^ 21 <= P /\ P <> kt4 K) ->
  (forall m', wstep (fun a => own (glb m) a \/ tslot K a) m m' -> vmm_ok m' ->
     released_if (table_is_empty (ram m) P) (glb m) P (frees m) (frees m') -> Q tt m') ->
  wp (release_if_empty P) Q E m.
Proof.
  intros Hv HP Ha Ht He HQ. unfold release_if_empty.
  apply wp_bind, (wp_temp_map K q); [done..|]. intros m1 Hs1 Hv1 Hf1 Hm1.
  assert (Hst : forall a, span P 4096 a -> ~ tslot K a) by done.
  assert (Heq : table_is_empty (ram m1) P = table_is_empty (ram m) P).
  { apply table_is_empty_agree. eapply agree_weaken; [apply Hs1|exact Ht]. }
  apply wp_bind, (wp_table_empty m1 P); [done|by apply temp_vmap|]. intros m2 Hw2 Hv2 Hf2. rewrite Heq.
  assert (Hs2 : wstep (tslot K) m m2) by (etrans; [exact Hs1|by apply warm_wstep]).
  assert (Hg2 : glb m2 = glb m) by apply Hs2.
  destruct (table_is_empty (ram m) P) eqn:Hem.
  - destruct (He eq_refl) as [Hlow Hk4].
    apply wp_release; [done|done|by replace (P / 4096 * 4096) with P by dlia|].
    intros m3 Hs3 Hv3 Hr3. rewrite Hg2 in *. apply HQ; [|done|].
    + etrans; eapply wstep_weaken; [exact Hs2|tauto|exact Hs3|tauto].
    + cbn. intros i. by rewrite <- Hf1, <- Hf2.
  - wp_steps. apply HQ; [|done|cbn; congruence]. eapply wstep_weaken; [exact Hs2|tauto].
Qed.

(** no entry but [i] of the table at [P] is present *)
Definition only_entry (r : ram_t) (P i : Z) : bool :=
  forallb (fun j => (j =? i) || negb (present (load 8 r (P + 8 * j)))) (seqZ 0 512).

Lemma only_entry_cleared r r' P i :
  0 <= i < 512 -> load 8 r' (P + 8 * i) = 0 ->
  (forall j, 0 <= j < 512 -> j <> i -> load 8 r' (P + 8 * j) = load 8 r (P + 8 * j)) ->
  table_is_empty r' P = only_entry r P i.
Proof.
  intros Hi H0 Heq. apply eq_true_iff_eq. rewrite table_is_empty_true. unfold only_entry.
  rewrite forallb_forall. split; intros H j Hj.
  - apply list_elem_of_In, elem_of_seqZ in Hj. destruct (Z.eqb_spec j i); [done|].
    rewrite orb_false_l, <- Heq by lia. by rewrite H by lia.
  - destruct (Z.eq_dec j i) as [->|Hne]; [by rewrite H0|].
    specialize (H j). rewrite Heq by lia. apply negb_true_iff.
    assert (Hin : In j (seqZ 0 512)) by (apply list_elem_of_In, elem_of_seqZ; lia).
    specialize (H Hin). apply Z.eqb_neq in Hne. by rewrite Hne, orb_false_l in H.
Qed.

Lemma table_span_safe m P a : vmm_ok m -> table_ok m P -> span P 4096 a -> ~ own (glb m) a /\ ~ tslot K a.
Proof.
  intros Hv Ht Ha. pose proof (to_align _ _ _ Ht).
  destruct (table_slot_safe K q m P ((a - P) / 8) a Hv Ht) as (?&?&?); [unfold span in *; dlia..|done].
Qed.

(** everything [unmap_page] assumes *)
Record unmap_pre m ctx P va e P3 P2 P1 : Prop := mk_unmap_pre {
  um_ok : vmm_ok m;
  um_map : vmap m (ctx_pml4t ctx) P 4096;
  um_path : path_ok m P (va_path va);
  um_res : resolves m P (va_path va) e;
  um_tabs : path_tables (ram m) P (va_path va) = [P; P3; P2; P1];
  um_frame : 2 ^ 21 <= pte_addr e /\ pte_addr e <> kt4 K;
  um_table : only_entry (ram m) P1 (pt_index va) = true -> 2 ^ 21 <= P1 /\ P1 <> kt4 K
}.

Lemma unmap_leaf m ctx P va e P3 P2 P1 :
  unmap_pre m ctx P va e P3 P2 P1 ->
  let s := P1 + 8 * pt_index va in
  leaf_slot (ram m) P (va_path va) = Some s /\ (forall a, span s 8 a -> ~ vtab K q a) /\
  table_ok m P3 /\ table_ok m P2 /\ table_ok m P1.
Proof.
  intros [Hv _ Hp (_ & P4p & _ & T3 & P3p & _ & T2 & P2p & _ & T1 & _) Ht _ _] s.
  apply path_tables_va in Ht as (H3 & H2 & H1). subst s.
  rewrite H3 in T3, P3p, T2, P2p, T1. rewrite H2 in T2, P2p, T1. rewrite H1 in T1.
  destruct Hp as (_ & _ & Hn). cbn zeta in Hn. rewrite H3 in Hn. destruct (Hn P4p) as (_ & (_ & _ & Hn3) & _).
  cbn zeta in Hn3. rewrite H2 in Hn3. destruct (Hn3 P3p) as (_ & (_ & _ & Hn2) & _).
  cbn zeta in Hn2. rewrite H1 in Hn2. destruct (Hn2 P2p) as (_ & (_ & _ & Hvt) & _).
  split_and!; [|done|done|done|done]. unfold va_path.
  destruct (path_cons (ram m) P (pml4t_index va) (pdpt_index va) [pd_index va; pt_index va]) as (-> & _).
  rewrite P4p, H3.
  destruct (path_cons (ram m) P3 (pdpt_index va) (pd_index va) [pt_index va]) as (-> & _). rewrite P3p, H2.
  destruct (path_cons (ram m) P2 (pd_index va) (pt_index va) []) as (-> & _). by rewrite P2p, H1.
Qed.

(** the tables after the leaf has been cleared: only the last one can be empty *)
Lemma cleared_tables m ctx P va e P3 P2 P1 m' :
  unmap_pre m ctx P va e P3 P2 P1 ->
  let s := P1 + 8 * pt_index va in
  wstep (clears m s) m m' -> load 8 (ram m') s = 0 ->
  (chain (ram m') P (va_path va) 0 /\ path_tables (ram m') P (va_path va) = [P; P3; P2; P1]) /\
  table_is_empty (ram m') P1 = only_entry (ram m) P1 (pt_index va) /\
  table_is_empty (ram m') P2 = false /\ table_is_empty (ram m') P3 = false.
Proof.
  intros Hpre s Hs H0. destruct (unmap_leaf _ _ _ _ _ _ _ _ Hpre) as (Hl & _ & _ & _ & T1).
  destruct Hpre as [Hv _ Hp Hr Ht _ _].
  destruct (index_range va) as (_ & I3 & I2 & I1).
  destruct (chain_clear m m' P _ e s 0 Hv Hp Hr Hl Hs H0) as [Hc Htb]. rewrite Ht in Htb.
  pose proof Htb as Htb'. apply path_tables_va in Htb as (H3 & H2 & H1).
  assert (Hne : forall T i, 0 <= i < 512 -> present (load 8 (ram m') (T + 8 * i)) = true ->
            table_is_empty (ram m') T = false).
  { intros T i Hi Hpr. apply not_true_is_false. rewrite table_is_empty_true. intros H.
    rewrite H in Hpr by done. done. }
  pose proof Hc as (_ & _ & P3p & _ & P2p & _ & _). rewrite H3 in P3p, P2p. rewrite H2 in P2p.
  split_and!; [done|done| |by eapply Hne, P2p|by eapply Hne, P3p].
  apply only_entry_cleared; [done|done|]. intros j Hj Hji. eapply slot_load_agree; [exact Hs|].
  intros a Ha. destruct (table_slot_safe K q m P1 j a Hv T1 Hj Ha) as (?&?&?).
  intros [?|[?|Hsp]]; [done..|]. unfold s, span in *. lia.
Qed.

Lemma released_if_weaken b g p F F' G : F = G -> released_if b g p F F' -> released_if b g p G F'.
Proof. by intros ->. Qed.

(** freeing the frame and the emptied table *)
Lemma wp_unmap_tail m ctx P va e P3 P2 P1 m5 (Q : unit -> machine -> Prop) E :
  unmap_pre m ctx P va e P3 P2 P1 ->
  let s := P1 + 8 * pt_index va in
  wstep (clears m s) m m5 -> vmm_ok m5 -> frees m5 = frees m -> load 8 (ram m5) s = 0 ->
  (forall m' F, wstep (clears m s) m m' -> vmm_ok m' -> chain (ram m') P (va_path va) 0 ->
     path_tables (ram m') P (va_path va) = [P; P3; P2; P1] -> released (glb m) (pte_addr e) (frees m) F ->
     released_if (only_entry (ram m) P1 (pt_index va)) (glb m) P1 F (frees m') -> Q tt m') ->
  wp (pmm_free (pte_addr e) ;;; release_if_empty P1 ;;; release_if_empty P2 ;;; release_if_empty P3) Q E m5.
Proof.
  intros Hpre s Hs5 Hv5 Hf5 H5 HQ. pose proof Hpre as [Hv _ _ _ _ [Hfr Hfk] Htb].
  destruct (unmap_leaf _ _ _ _ _ _ _ _ Hpre) as (_ & _ & T3 & T2 & T1).
  destruct (pte_addr_range e) as [Hpr Hpa]. destruct (index_range va) as (_ & I3 & I2 & I1).
  assert (Hrel : forall x y (W : Z -> Prop), wstep (clears m s) m x -> load 8 (ram x) s = 0 -> wstep W x y ->
            (forall a, W a -> own (glb m) a \/ tslot K a) ->
            wstep (clears m s) m y /\ load 8 (ram y) s = 0).
  { intros x y W Hx Hx0 Hxy HW. split.
    - etrans; [exact Hx|]. eapply wstep_weaken; [exact Hxy|]. intros a Ha.
      unfold clears. specialize (HW a Ha). tauto.
    - rewrite <- Hx0. eapply slot_load_agree; [exact Hxy|]. intros a Ha Hwa.
      destruct (table_slot_safe K q m P1 (pt_index va) a Hv T1 I1 Ha) as (?&?&?).
      by destruct (HW a Hwa). }
  assert (Htm : forall T, table_ok m T -> forall a, span T 4096 a -> ~ tslot K a).
  { intros T HT a Ha. by destruct (table_span_safe m T a Hv HT Ha). }
  assert (Hgl : forall x, wstep (clears m s) m x -> glb x = glb m) by (by intros x []).
  apply wp_bind, wp_release; [done|done|by replace (pte_addr e / 4096 * 4096) with (pte_addr e) by dlia|].
  intros m6 Hs6 Hv6 Hf6. rewrite (Hgl m5), Hf5 in * by done.
  destruct (Hrel _ _ _ Hs5 H5 Hs6) as [Hc6 H6]; [tauto|].
  destruct (cleared_tables _ _ _ _ _ _ _ _ _ Hpre Hc6 H6) as (_ & He1 & _).
  apply wp_bind, wp_release_if_empty; [done|apply T1|apply T1|by apply Htm|by rewrite He1|].
  rewrite He1, (Hgl m6) by done. intros m7 Hs7 Hv7 Hf7.
  destruct (Hrel _ _ _ Hc6 H6 Hs7) as [Hc7 H7]; [tauto|].
  destruct (cleared_tables _ _ _ _ _ _ _ _ _ Hpre Hc7 H7) as (_ & _ & He2 & _).
  apply wp_bind, wp_release_if_empty; [done|apply T2|apply T2|by apply Htm|by rewrite He2|].
  rewrite He2, (Hgl m7) by done. intros m8 Hs8 Hv8 Hf8.
  destruct (Hrel _ _ _ Hc7 H7 Hs8) as [Hc8 H8]; [tauto|].
  destruct (cleared_tables _ _ _ _ _ _ _ _ _ Hpre Hc8 H8) as (_ & _ & _ & He3).
  apply wp_release_if_empty; [done|apply T3|apply T3|by apply Htm|by rewrite He3|].
  rewrite He3, (Hgl m8) by done. intros m9 Hs9 Hv9 Hf9.
  destruct (Hrel _ _ _ Hc8 H8 Hs9) as [Hc9 H9]; [tauto|].
  destruct (cleared_tables _ _ _ _ _ _ _ _ _ Hpre Hc9 H9) as ((Hch & Hpt) & _).
  cbn in Hf8, Hf9. apply (HQ m9 (frees m6)); [done|done|done|done|done|by rewrite Hf9, Hf8].
Qed.

(** [unmap_page]: the leaf is cleared, its frame goes back to the allocator, and
    so does the frame of the page table if that was its last entry; the upper
    tables are never released *)
Lemma wp_unmap_page m ctx P va e P3 P2 P1 (Q : unit -> machine -> Prop) E :
  unmap_pre m ctx P va e P3 P2 P1 ->
  (forall m' F, wstep (clears m (P1 + 8 * pt_index va)) m m' -> vmm_ok m' ->
     chain (ram m') P (va_path va) 0 -> path_tables (ram m') P (va_path va) = [P; P3; P2; P1] ->
     released (glb m) (pte_addr e) (frees m) F ->
     released_if (only_entry (ram m) P1 (pt_index va)) (glb m) P1 F (frees m') -> Q tt m') ->
  wp (unmap_page ctx va) Q E m.
Proof.
  intros Hpre HQ. pose proof Hpre as [Hv Hm _ Hr Ht _ _].
  destruct (unmap_leaf _ _ _ _ _ _ _ _ Hpre) as (_ & Hvt & _ & _ & T1).
  destruct (index_range va) as (_ & _ & _ & I1).
  unfold unmap_page. cbn zeta.
  eapply (wp_descend_all m _ P va e); [done|done|done|exact Ht|].
  intros e4 e3 e2 m3 -> -> -> Hs3 Hv3 Hm3 Hf3 He.
  apply wp_bind. eapply wp_slot_read; [done|exact Hm3|done|]. intros m4 Hw4 Hv4 Hf4. rewrite He.
  fold (pte_addr e).
  assert (Hs4 : wstep (tslot K) m m4) by (etrans; [exact Hs3|by apply warm_wstep]).
  apply wp_bind. unfold slot. eassert (Hvm4 : vmap m4 _ _ _) by (eapply vmap_warm; [exact Hw4|exact Hm3]).
  rewrite (vmap_u64 _ _ _ _ _ Hvm4) by lia.
  eapply (wp_vstore_st 8 _ (span (P1 + 8 * pt_index va) 8));
    [eapply (vmap_sub _ _ _ _ _ 8); [exact Hvm4|lia|lia]|done|].
  intros m5 Hs5 Hr5.
  assert (Hf5 : frees m5 = frees m4).
  { eapply frees_wstep; [apply Hv4|exact Hs5|]. rewrite (ws_glb _ _ _ Hs4). intros a Ho Ha.
    by destruct (table_slot_safe K q m P1 _ a Hv T1 I1 Ha). }
  eapply wp_unmap_tail; [exact Hpre| | |congruence| |exact HQ].
  - etrans; [eapply wstep_weaken; [exact Hs4|unfold clears; tauto]|].
    eapply wstep_weaken; [exact Hs5|unfold clears; tauto].
  - eapply (vmm_ok_wstep K q); [exact Hv4|exact Hs5| |by rewrite Hf5]. intros a Ha Hsp. by apply (Hvt a).
  - rewrite Hr5. by apply load8_store8.
Qed.
End VmmWalk.

(** ** Properties *)

(** C4: [map_page] makes the hardware walk of the virtual page end in the given
    frame.  Along any editable path it needs exactly as many free frames as tables
    are missing; with fewer it panics, otherwise it returns, having written only
    the allocator's bitmap, the slot of the window, the new tables and one entry of
    the existing ones. *)
Theorem map_page_correct K q m ctx P va pa flags :
  vmm_ok K q m -> vstable m (own (glb m)) (ctx_pml4t ctx) P 4096 -> path_ok K q m P (va_path va) ->
  0 <= pa < 2 ^ 52 -> pa mod 4096 = 0 -> 0 <= flags < 4096 -> present flags = true -> huge flags = false ->
  wp (map_page ctx va pa flags)
    (fun _ m' =>
       walk (ram m') P (va / 4096) = Some pa /\
       (size (frees m') + missing (ram m) P (va_path va) = size (frees m))%nat /\ frees m' ⊆ frees m /\ vmm_ok K q m' /\
       wstep (writes K m (edit_slot (ram m) P (va_path va))) m m')
    (fun e _ => e = Halted /\ (size (frees m) < missing (ram m) P (va_path va))%nat) m.
Proof.
  intros Hv Hst Hp Hpa Hpm Hfl Hpf Hh. apply (wp_map_page K q m ctx P); [done..| |done].
  intros m' [Hs Hv' Hm Hf Hr _]. split_and!; [|done..].
  rewrite (resolves_walk K m' P va _ Hr), pte_addr_lor by (done || by rewrite present_lor). done.
Qed.

(** mapping a page that was not mapped leaves every other translation alone: a
    page whose walk reads neither the bitmap, the window's slot nor free frames
    keeps its frame, under any root. *)
Theorem map_page_keeps_others K q m ctx P va pa flags root p f :
  vmm_ok K q m -> vstable m (own (glb m)) (ctx_pml4t ctx) P 4096 -> path_ok K q m P (va_path va) ->
  0 <= pa < 2 ^ 52 -> pa mod 4096 = 0 -> 0 <= flags < 4096 -> huge flags = false ->
  present (load 8 (ram m) (edit_slot (ram m) P (va_path va))) = false ->
  walk (ram m) root p = Some f ->
  (forall a, walk_bytes (ram m) root p a -> ~ own (glb m) a /\ ~ tslot K a /\ ~ free_pages (frees m) a) ->
  wp (map_page ctx va pa flags) (fun _ m' => walk (ram m') root p = Some f) (fun e _ => e = Halted) m.
Proof.
  intros Hv Hst Hp Hpa Hpm Hfl Hh Hab Hw Hd. apply (wp_map_page K q m ctx P); [done..| |done].
  intros m' [Hs _ _ _ _ _]. eapply (map_page_keeps K m m'); [exact Hs| |done|done|done].
  by eapply edit_slot_spec.
Qed.

(** the callers of [pmm_alloc] do not test its answer: with no free frame left and
    the tables of the page in place, the allocate-and-map step of [load_elf] succeeds
    and maps the page to physical page 0. *)
Theorem map_without_memory K q m ctx P va flags :
  vmm_ok K q m -> vstable m (own (glb m)) (ctx_pml4t ctx) P 4096 -> path_ok K q m P (va_path va) ->
  frees m = ∅ -> missing (ram m) P (va_path va) = O ->
  0 <= flags < 4096 -> present flags = true -> huge flags = false ->
  wp (phys_addr <- pmm_alloc ;; map_page ctx va phys_addr flags)
    (fun _ m' => walk (ram m') P (va / 4096) = Some 0) nostop m.
Proof.
  intros Hv Hst Hp He Hmis Hfl Hpf Hh. apply wp_bind, (fa_alloc K); [apply Hv|apply Hv|intros i; by rewrite He|].
  intros _ m1 Hs1 _ Hf1. assert (Hs1' : wstep (tslot K) m m1) by (eapply wstep_weaken; [exact Hs1|by intros a []]).
  assert (Hv1 : vmm_ok K q m1) by (eapply vmm_ok_wstep; [exact Hv|exact Hs1|by intros a _ []|by rewrite Hf1]).
  destruct (path_slots_step K q m m1 P _ Hv Hp Hs1') as (_ & _ & Hmi).
  apply (wp_map_page K q m1 ctx P); [done| |by apply (path_ok_step K q m m1); [..|rewrite Hf1, He]|done..| |lia].
  - rewrite (ws_glb _ _ _ Hs1). eapply vstable_wstep; [|exact Hst]. eapply wstep_weaken; [exact Hs1|by intros a []].
  - intros m' [_ _ _ _ Hr _]. by rewrite (resolves_walk K m' P va _ Hr), pte_addr_lor by (done || by rewrite present_lor).
Qed.

(** nor does [map_page] tell the TLB: when a page is mapped afresh, as [load_elf] does
    with a page two segments share, the tables name the new frame and the CPU goes on
    using the old one for as long as it has it cached. *)
Theorem map_page_stale K q m ctx P va pa flags f :
  vmm_ok K q m -> vstable m (own (glb m)) (ctx_pml4t ctx) P 4096 -> path_ok K q m P (va_path va) ->
  0 <= pa < 2 ^ 52 -> pa mod 4096 = 0 -> 0 <= flags < 4096 -> present flags = true -> huge flags = false ->
  canonical va = true -> va / 4096 <> TEMP_PAGE / 4096 -> tlb m !! (va / 4096) = Some f ->
  wp (map_page ctx va pa flags)
    (fun _ m' => walk (ram m') P (va / 4096) = Some pa /\ translate va m' = Ret (f + va mod 4096) m')
    (fun e _ => e = Halted /\ (size (frees m) < missing (ram m) P (va_path va))%nat) m.
Proof.
  intros Hv Hst Hp Hpa Hpm Hfl Hpf Hh Hc Hne Ht. apply (wp_map_page K q m ctx P); [done..| |done].
  intros m' [Hs _ _ _ Hr _]. split.
  - by rewrite (resolves_walk K m' P va _ Hr), pte_addr_lor by (done || by rewrite present_lor).
  - unfold translate. by rewrite Hc, (ws_keep _ _ _ Hs _ _ Hne Ht).
Qed.

(** C19: [get_physical_address] answers what the page tables say: the frame of the
    leaf entry the path leads to, plus the page offset; it moves only the window. *)
Theorem get_physical_address_correct K q m ctx P va e :
  vmm_ok K q m -> vmap m (ctx_pml4t ctx) P 4096 -> resolves K m P (va_path va) e -> present e = true ->
  wp (get_physical_address ctx va)
    (fun r m' => exists f, walk (ram m) P (va / 4096) = Some f /\ r = f + va mod 4096 /\
                   wstep (tslot K) m m' /\ vmm_ok K q m') nostop m.
Proof.
  intros Hv Hm Hr Hpe. apply (wp_get_physical_address K q m ctx P va e); [done..|]. intros m' Hs Hv' _.
  exists (pte_addr e). split_and!; [by apply (resolves_walk K)| |done|done].
  destruct (pte_addr_range e). apply u64_small. pose proof (Z.mod_pos_bound va 4096). lia.
Qed.

(** round trip: right after [map_page], [get_physical_address] of the page
    returns the frame it was mapped to, offset included. *)
Theorem map_then_get K q m ctx P va pa flags :
  vmm_ok K q m -> vstable m (writes K m (edit_slot (ram m) P (va_path va))) (ctx_pml4t ctx) P 4096 ->
  path_ok K q m P (va_path va) ->
  0 <= pa < 2 ^ 52 -> pa mod 4096 = 0 -> 0 <= flags < 4096 -> huge flags = false ->
  wp (map_page ctx va pa flags ;;; get_physical_address ctx va)
    (fun r _ => r = pa + va mod 4096)
    (fun e _ => e = Halted /\ (size (frees m) < missing (ram m) P (va_path va))%nat) m.
Proof.
  intros Hv Hst Hp Hpa Hpm Hfl Hh. apply wp_bind, (wp_map_page K q m ctx P); [done| |done..| |done].
  { destruct Hst as [Hvm Hd]. split; [done|]. intros i Hi a Ha Ho. apply (Hd i Hi a Ha). by left. }
  intros m' [Hs Hv' _ _ Hr _].
  eapply (wp_get_physical_address K q m' ctx P va); [done| |exact Hr|].
  - by apply (vstable_wstep _ _ _ _ _ _ Hs Hst).
  - intros m2 _ _ _. rewrite pte_addr_lor by done. apply u64_small.
    pose proof (Z.mod_pos_bound va 4096). lia.
Qed.

(** C9: [unmap_page] of a mapped page: the hardware walk of the page fails from then
    on, the frame it was mapped to goes back to the allocator, and the frame of the
    last-level table too if no other entry of it was present; only the bitmap, the
    window's slot and the leaf entry are written. *)
Theorem unmap_page_correct K q m ctx P va e P3 P2 P1 :
  unmap_pre K q m ctx P va e P3 P2 P1 ->
  wp (unmap_page ctx va)
    (fun _ m' =>
       walk (ram m') P (va / 4096) = None /\ vmm_ok K q m' /\
       wstep (clears K m (P1 + 8 * pt_index va)) m m' /\
       exists F, released (glb m) (pte_addr e) (frees m) F /\
                 released_if (only_entry (ram m) P1 (pt_index va)) (glb m) P1 F (frees m'))
    nostop m.
Proof.
  intros Hpre. apply (wp_unmap_page K q m ctx P va e P3 P2 P1); [done|].
  intros m' F Hs Hv Hc _ HF HF'. destruct (resolves_table K m P _ e (um_res _ _ _ _ _ _ _ _ _ _ Hpre)).
  split_and!; [by rewrite (chain_walk _ _ _ 0)|done|done|by exists F].
Qed.

(** C26: but the directory entry is left in place: when the page was the last one of
    its table, the table's frame is free again while the page directory still
    points to it, so the next allocation can hand out a live page table. *)
Theorem unmap_page_dangling K q m ctx P va e P3 P2 P1 :
  unmap_pre K q m ctx P va e P3 P2 P1 ->
  only_entry (ram m) P1 (pt_index va) = true -> managed (glb m) (P1 / 4096) ->
  wp (unmap_page ctx va)
    (fun _ m' =>
       P1 / 4096 ∈ frees m' /\
       present (load 8 (ram m') (P2 + 8 * pd_index va)) = true /\
       pte_addr (load 8 (ram m') (P2 + 8 * pd_index va)) = P1)
    nostop m.
Proof.
  intros Hpre Honly Hman. apply (wp_unmap_page K q m ctx P va e P3 P2 P1); [done|].
  intros m' F _ _ Hc Ht _ HF'. rewrite Honly in HF'.
  apply path_tables_va in Ht as (H3 & H2 & H1). destruct Hc as (_ & _ & _ & _ & P2p & _).
  rewrite H3, H2 in P2p. split_and!; [|done|done]. apply HF'. by right.
Qed.

(** C25: the TLB is not told: a translation of the page the CPU had cached survives, so
    after [unmap_page] the address still reaches the frame, which the allocator may
    already have handed to somebody else. *)
Theorem unmap_page_stale K q m ctx P va e P3 P2 P1 :
  unmap_pre K q m ctx P va e P3 P2 P1 -> canonical va = true -> va / 4096 <> TEMP_PAGE / 4096 ->
  tlb m !! (va / 4096) = Some (pte_addr e) -> managed (glb m) (pte_addr e / 4096) ->
  wp (unmap_page ctx va)
    (fun _ m' => walk (ram m') P (va / 4096) = None /\ pte_addr e / 4096 ∈ frees m' /\
       translate va m' = Ret (pte_addr e + va mod 4096) m')
    nostop m.
Proof.
  intros Hpre Hc Hne Ht Hman. apply (wp_unmap_page K q m ctx P va e P3 P2 P1); [done|].
  intros m' F Hs Hv Hch _ HF HF'. destruct (resolves_table K m P _ e (um_res _ _ _ _ _ _ _ _ _ _ Hpre)).
  split_and!; [by rewrite (chain_walk _ _ _ 0)| |].
  - assert (Hin : pte_addr e / 4096 ∈ F) by (apply HF; by right).
    unfold released_if in HF'. destruct (only_entry _ _ _); [apply HF'; by left|by rewrite HF'].
  - unfold translate. by rewrite Hc, (ws_keep _ _ _ Hs _ _ Hne Ht).
Qed.

(** [temp_map] points the window [TEMP_PAGE] at any frame, with no stale
    translation left, and changes one page-table slot and nothing else. *)
Theorem temp_map_correct K q m pa :
  vmm_ok K q m -> 0 <= pa < 2 ^ 52 -> pa mod 4096 = 0 ->
  wp (temp_map pa) (fun _ m' => vmap m' TEMP_PAGE pa 4096 /\ wstep (tslot K) m m' /\ vmm_ok K q m' /\ frees m' = frees m)
    nostop m.
Proof.
  intros Hv H1 H2. apply (wp_temp_map K q); [done..|]. intros m' Hs Hv' Hf Hm. split_and!; [by apply temp_vmap|done..].
Qed.
