(* ===== verification/Space.v ===== *)
(** A whole user address space, as an invariant of map_page: every table reachable
    from the root through the lower half has one place in the tree, so mapping a
    page changes the translation of that page and of no other. *)

From S2P Require Import Prelude Comp Ram Machine KSpace Utils Pmm Vmm VmmMap VmmWalk.

(** ** Paths *)

(** the indices of the walk of a page, and those of the lower half below a table
    whose own path from the root is [pre] *)
Definition vpn_path (p : Z) : list Z :=
  [(p / 2 ^ 27) mod 512; (p / 2 ^ 18) mod 512; (p / 2 ^ 9) mod 512; p mod 512].

Definition uslot (pre : list Z) (i : Z) : Prop := 0 <= i < 512 /\ (pre = [] -> i < 256).

Definition upath (pre ix : list Z) : Prop :=
  (length pre + length ix = 4)%nat /\ Forall (fun i => 0 <= i < 512) ix /\ (pre = [] -> hd 0 ix < 256).

Lemma va_vpn_path va : va_path va = vpn_path (va / 4096).
Proof. destruct (index_walk va) as (H4 & H3 & H2 & H1). unfold va_path, vpn_path. congruence. Qed.

Lemma upath_vpn p : 0 <= p -> low p -> upath [] (vpn_path p).
Proof.
  unfold low, upath, vpn_path. intros. split; [done|]. split.
  - rewrite !Forall_cons, Forall_nil. split_and!; try done; apply Z.mod_pos_bound; lia.
  - intros _. cbn [hd]. change (2 ^ 27) with 134217728. change (2 ^ 35) with 34359738368 in *. dlia.
Qed.

Lemma vpn_path_inj p p' : 0 <= p -> low p -> 0 <= p' -> low p' -> vpn_path p = vpn_path p' -> p = p'.
Proof.
  unfold low, vpn_path. change (2 ^ 35) with 34359738368. change (2 ^ 27) with 134217728.
  change (2 ^ 18) with 262144. change (2 ^ 9) with 512. intros ???? [= H4 H3 H2 H1]. dlia.
Qed.

Lemma upath_cons pre i ix : upath pre (i :: ix) -> uslot pre i /\ (length pre <= 3)%nat.
Proof.
  intros (Hl & Hi & H0). apply Forall_cons in Hi as [Hi _]. cbn in Hl, H0. split; [by split|lia].
Qed.

Lemma upath_next pre i i' ix : upath pre (i :: i' :: ix) -> upath (pre ++ [i]) (i' :: ix) /\ (length pre < 3)%nat.
Proof.
  intros (Hl & Hi & _). apply Forall_cons in Hi as [_ Hi]. cbn in Hl. split; [|lia]. split; [|split].
  - rewrite length_app. cbn. lia.
  - done.
  - by destruct pre.
Qed.

Lemma upath_leaf pre i : upath pre [i] -> length pre = 3%nat.
Proof. intros (Hl & _). cbn in Hl. lia. Qed.

(** the frame at the end of a path of entries *)
Fixpoint walkp (r : ram_t) (t : Z) (ix : list Z) : option Z :=
  match ix with
  | [] => None
  | i :: rest =>
      let e := load 8 r (t + 8 * i) in
      if present e then match rest with [] => Some (pte_addr e) | _ => walkp r (pte_addr e) rest end else None
  end.

Section Space.
Context `{FA : !FrameAllocator pmm_alloc pmm_free}.
Context (K : ktables) (q root : Z).
Implicit Types (m : machine) (tb : gmap Z (list Z)).
Local Abbreviation vtab := (Vmm.vtab K q).
Local Abbreviation vmm_ok := (Vmm.vmm_ok K q).
Local Abbreviation table_ok := (Vmm.table_ok K).
Local Abbreviation path_ok := (Vmm.path_ok K q).
Local Abbreviation writes := (Vmm.writes K).

(** [tb] gives every table of the lower half its path from the root: the entry at
    index [i] of the table with path [pre], if present, points to the table with
    path [pre ++ [i]] *)
Record space m tb : Prop := mk_space {
  sp_root : tb !! root = Some [];
  sp_table t pre : tb !! t = Some pre -> (length pre <= 3)%nat /\ table_ok m t;
  sp_next t pre i : tb !! t = Some pre -> (length pre < 3)%nat -> uslot pre i ->
    present (load 8 (ram m) (t + 8 * i)) = true ->
    huge (load 8 (ram m) (t + 8 * i)) = false /\
    tb !! pte_addr (load 8 (ram m) (t + 8 * i)) = Some (pre ++ [i]);
  sp_leaf t pre : tb !! t = Some pre -> length pre = 3%nat -> forall a, span t 4096 a -> ~ vtab a
}.

Lemma table_slot_inj m m' t t' i i' :
  table_ok m t -> table_ok m' t' -> 0 <= i < 512 -> 0 <= i' < 512 -> t + 8 * i = t' + 8 * i' -> t = t' /\ i = i'.
Proof. intros [? ? _ _ _] [? ? _ _ _] ???. dlia. Qed.

(** one level down a path *)
Lemma space_down m tb t pre i i' ix :
  space m tb -> tb !! t = Some pre -> upath pre (i :: i' :: ix) -> present (load 8 (ram m) (t + 8 * i)) = true ->
  huge (load 8 (ram m) (t + 8 * i)) = false /\
  tb !! pte_addr (load 8 (ram m) (t + 8 * i)) = Some (pre ++ [i]) /\ upath (pre ++ [i]) (i' :: ix).
Proof.
  intros Hsp Ht Hu Hpe. destruct (upath_cons _ _ _ Hu) as [Hi _], (upath_next _ _ _ _ Hu) as [Hu' Hlt].
  by destruct (sp_next _ _ Hsp t pre i Ht Hlt Hi Hpe).
Qed.

(** the slots at the end of a path lie in tables of the space *)
Lemma leaf_slot_table m tb ix : forall t pre s,
  space m tb -> tb !! t = Some pre -> upath pre ix -> leaf_slot (ram m) t ix = Some s ->
  exists t' pre' i, tb !! t' = Some pre' /\ length pre' = 3%nat /\ 0 <= i < 512 /\ s = t' + 8 * i.
Proof.
  induction ix as [|i [|i' rest] IH]; intros t pre s Hsp Ht Hu Hl; [done| |];
    pose proof (upath_cons _ _ _ Hu) as [Hi Hlen].
  - injection Hl as <-. exists t, pre, i. split_and!; [done|by eapply upath_leaf|apply Hi..|done].
  - destruct (upath_next _ _ _ _ Hu) as [Hu' Hlt].
    destruct (path_cons (ram m) t i i' rest) as (E1 & _ & _). rewrite E1 in Hl.
    destruct (present (load 8 (ram m) (t + 8 * i))) eqn:Hpe; [|done].
    destruct (sp_next _ _ Hsp t pre i Ht Hlt Hi Hpe) as [_ Hn]. by eapply IH.
Qed.

Lemma edit_slot_table m tb ix : forall t pre,
  space m tb -> tb !! t = Some pre -> upath pre ix ->
  exists t' pre' i, tb !! t' = Some pre' /\ uslot pre' i /\ edit_slot (ram m) t ix = t' + 8 * i.
Proof.
  induction ix as [|i [|i' rest] IH]; intros t pre Hsp Ht Hu; [destruct Hu as (Hl & _)| |].
  - destruct (sp_table _ _ Hsp t pre Ht). cbn in Hl. lia.
  - exists t, pre, i. split_and!; [done|apply (upath_cons _ _ _ Hu)|done].
  - pose proof (upath_cons _ _ _ Hu) as [Hi _]. destruct (upath_next _ _ _ _ Hu) as [Hu' Hlt].
    destruct (path_cons (ram m) t i i' rest) as (_ & -> & _).
    destruct (present (load 8 (ram m) (t + 8 * i))) eqn:Hpe; [|by exists t, pre, i].
    destruct (sp_next _ _ Hsp t pre i Ht Hlt Hi Hpe) as [_ Hn]. by eapply IH.
Qed.

(** every path of a space can be edited *)
Lemma space_path_ok m tb ix : forall t pre,
  space m tb -> tb !! t = Some pre -> upath pre ix -> path_ok m t ix.
Proof.
  induction ix as [|i [|i' rest] IH]; intros t pre Hsp Ht Hu;
    destruct (sp_table _ _ Hsp t pre Ht) as [_ Htok]; [by split| |];
    pose proof (upath_cons _ _ _ Hu) as [[Hi _] Hlen].
  - split_and!; [done|apply Hi..|]. intros a Ha. eapply (sp_leaf _ _ Hsp t pre Ht); [by eapply upath_leaf|].
    by eapply slot_in_page.
  - destruct (upath_next _ _ _ _ Hu) as [Hu' Hlt]. split; [done|]. split; [done|]. cbn zeta. intros Hpe.
    destruct (sp_next _ _ Hsp t pre i Ht Hlt) as [Hh Hn]; [by eapply upath_cons|done|].
    split_and!; [done|by eapply IH|]. intros Hl.
    eapply leaf_slot_table in Hl as (t' & pre' & j & Ht' & Hl3 & Hj & He); [|done|done|done].
    destruct (sp_table _ _ Hsp t' pre' Ht') as [_ Htok'].
    destruct (table_slot_inj m m t t' i j Htok Htok' Hi Hj He) as [<- _].
    rewrite Ht in Ht'. injection Ht' as <-. lia.
Qed.

(** the hardware walk of a page of the lower half follows its path *)
Lemma space_walk m tb p :
  space m tb -> 0 <= p -> low p -> walk (ram m) root p = walkp (ram m) root (vpn_path p).
Proof.
  intros Hsp Hp Hl. pose proof (upath_vpn p Hp Hl) as Hu. unfold vpn_path in *.
  destruct (sp_table _ _ Hsp root [] (sp_root _ _ Hsp)) as [_ [Hr Ha _ _ _]].
  unfold walk. cbn [walkp]. rewrite (pte_addr_aligned root) by done. pose proof (sp_root _ _ Hsp) as T4.
  destruct (present (load 8 _ (root + _))) eqn:P4; cbn [negb]; [|done].
  destruct (space_down _ _ _ _ _ _ _ Hsp T4 Hu P4) as (_ & T3 & Hu3).
  destruct (present (load 8 _ (pte_addr (load 8 _ (root + _)) + _))) eqn:P3; cbn [negb]; [|done].
  destruct (space_down _ _ _ _ _ _ _ Hsp T3 Hu3 P3) as (-> & T2 & Hu2).
  destruct (present (load 8 _ (pte_addr (load 8 _ (pte_addr (load 8 _ (root + _)) + _)) + _))) eqn:P2; cbn [negb]; [|done].
  destruct (space_down _ _ _ _ _ _ _ Hsp T2 Hu2 P2) as (-> & _).
  match goal with |- context [negb (present ?e)] => by destruct (present e) end.
Qed.

(** and reads only its tables *)
Lemma space_bytes m tb p a :
  space m tb -> 0 <= p -> low p -> walk_bytes (ram m) root p a ->
  exists t pre, tb !! t = Some pre /\ span t 4096 a.
Proof.
  intros Hsp Hp Hl Ha. pose proof (upath_vpn p Hp Hl) as Hu. pose proof (sp_root _ _ Hsp) as T4.
  destruct (sp_table _ _ Hsp root [] T4) as [_ [Hr Hal _ _ _]].
  unfold walk_bytes in Ha. rewrite (pte_addr_aligned root) in Ha by done.
  assert (Hin : forall t pre i ix, tb !! t = Some pre -> upath pre (i :: ix) -> span (t + 8 * i) 8 a ->
            exists t pre, tb !! t = Some pre /\ span t 4096 a).
  { intros t pre i ix Ht Hu' Hs. exists t, pre. split; [done|]. eapply slot_in_page; [|exact Hs].
    apply (upath_cons _ _ _ Hu'). }
  destruct Ha as [Ha|(P4 & Ha)]; [by eapply Hin|]. destruct (space_down _ _ _ _ _ _ _ Hsp T4 Hu P4) as (_ & T3 & Hu3).
  destruct Ha as [Ha|(P3 & _ & Ha)]; [by eapply Hin|]. destruct (space_down _ _ _ _ _ _ _ Hsp T3 Hu3 P3) as (_ & T2 & Hu2).
  destruct Ha as [Ha|(P2 & _ & Ha)]; [by eapply Hin|]. destruct (space_down _ _ _ _ _ _ _ Hsp T2 Hu2 P2) as (_ & T1 & Hu1).
  by eapply Hin.
Qed.

(** ** Steps that leave the tables alone *)

(** the upper entries of the tables agree *)
Definition same_entries tb (r r' : ram_t) : Prop := forall t pre i, tb !! t = Some pre ->
  (length pre < 3)%nat -> uslot pre i -> load 8 r' (t + 8 * i) = load 8 r (t + 8 * i).

Lemma space_step m m' tb :
  space m tb -> glb m' = glb m -> frees m' ⊆ frees m -> same_entries tb (ram m) (ram m') -> space m' tb.
Proof.
  intros Hsp Hg Hf He. split; [apply Hsp| | |apply Hsp].
  - intros t pre Ht. destruct (sp_table _ _ Hsp t pre Ht). split; [done|]. by eapply table_ok_step.
  - intros t pre i Ht Hlt Hi. rewrite (He t pre i Ht Hlt Hi). by apply (sp_next _ _ Hsp).
Qed.

(** walks of every path of [tb] but [skip] are the same *)
Definition same_walks tb (skip : list Z) (r r' : ram_t) : Prop := forall t pre ix,
  tb !! t = Some pre -> upath pre ix -> pre ++ ix <> skip -> walkp r' t ix = walkp r t ix.

(** one slot is written: it is the leaf of the skipped path, or the walks through it
    end in [None] before and after *)
Lemma walkp_slot m r' tb t0 i0 skip :
  space m tb ->
  (forall t pre i, tb !! t = Some pre -> uslot pre i -> ~ (t = t0 /\ i = i0) ->
     load 8 r' (t + 8 * i) = load 8 (ram m) (t + 8 * i)) ->
  (forall pre, tb !! t0 = Some pre -> uslot pre i0 -> (length pre = 3%nat /\ pre ++ [i0] = skip) \/
     ((length pre < 3)%nat /\ present (load 8 (ram m) (t0 + 8 * i0)) = false /\
      forall i ix, Forall (fun i => 0 <= i < 512) (i :: ix) -> walkp r' t0 (i0 :: i :: ix) = None)) ->
  same_walks tb skip (ram m) r'.
Proof.
  intros Hsp Hsame Hslot t pre ix. revert t pre.
  induction ix as [|i ix IH]; intros t pre Ht Hu Hne; [done|].
  destruct (upath_cons _ _ _ Hu) as [Hi Hlen].
  destruct (decide (t = t0 /\ i = i0)) as [[-> ->]|Hd].
  - destruct (Hslot pre Ht Hi) as [[Hl Hsk]|(Hl & Hab & Hnone)]; destruct ix as [|i' ix].
    + congruence.
    + destruct (upath_next _ _ _ _ Hu). lia.
    + pose proof (upath_leaf _ _ Hu). lia.
    + destruct Hu as (_ & HF & _). apply Forall_cons in HF as [_ HF]. rewrite Hnone by done.
      cbn [walkp]. by rewrite Hab.
  - cbn [walkp]. rewrite (Hsame t pre i Ht Hi Hd).
    destruct (present (load 8 (ram m) (t + 8 * i))) eqn:Hpe; [|done]. destruct ix as [|i' ix]; [done|].
    destruct (upath_next _ _ _ _ Hu) as [Hu' Hlt]. eapply IH; [by apply (sp_next _ _ Hsp)|done|].
    by rewrite <- app_assoc.
Qed.

(** what a step that edits slot [i] of [t] leaves alone *)
Lemma other_entries m m' tb t pre i t' pre' i' :
  vmm_ok m -> space m tb -> tb !! t = Some pre -> uslot pre i -> wstep (writes m (t + 8 * i)) m m' ->
  tb !! t' = Some pre' -> uslot pre' i' -> ~ (t' = t /\ i' = i) ->
  load 8 (ram m') (t' + 8 * i') = load 8 (ram m) (t' + 8 * i').
Proof.
  intros Hv Hsp Ht [Hi _] Hs Ht' [Hi' _] Hne.
  destruct (sp_table _ _ Hsp t pre Ht) as [_ Tok], (sp_table _ _ Hsp t' pre' Ht') as [_ Tok'].
  eapply slot_load_agree; [exact Hs|]. intros a Ha.
  destruct (table_slot_safe K q m t' i' a Hv Tok' Hi' Ha) as (?&?&?). intros [?|[?|[?|Ha']]]; [done..|].
  apply Hne, (table_slot_inj m m t' t); [done|done|done|done|].
  destruct Tok, Tok'. unfold span in *. dlia.
Qed.

(** ** Linking a fresh table *)
Context (flags : Z) (Hfl : 0 <= flags < 4096) (Hhuge : huge flags = false).
Local Abbreviation linked := (VmmMap.linked K q flags).

Lemma space_link m m1 tb t pre i j :
  vmm_ok m -> space m tb -> tb !! t = Some pre -> (length pre < 3)%nat -> uslot pre i ->
  present (load 8 (ram m) (t + 8 * i)) = false -> linked m m1 t i j ->
  tb !! (j * 4096) = None /\ space m1 (<[j * 4096 := pre ++ [i]]> tb) /\
  forall skip, same_walks tb skip (ram m) (ram m1).
Proof.
  intros Hv Hsp Ht Hlt Hi Hab HL. pose proof HL as [Hj Hs Hv1 Hf1 Hl1 Hz1].
  pose proof (fa_range K m j (vo_a _ _ _ Hv) Hj) as Hj40.
  destruct (new_entry flags Hfl Hhuge j Hj40) as (_ & Hn2 & Hn3 & Hn4).
  assert (Hnone : tb !! (j * 4096) = None).
  { destruct (tb !! (j * 4096)) as [pre'|] eqn:E1; [|done]. destruct (sp_table _ _ Hsp _ _ E1) as [_ T].
    exfalso. apply (to_used _ _ _ T). by rewrite Z.div_mul by lia. }
  assert (Hz : forall k, 0 <= k < 512 -> load 8 (ram m1) (j * 4096 + 8 * k) = 0) by (intros; apply Hz1; lia).
  assert (Hfr : forall a, span (j * 4096) 4096 a -> ~ vtab a).
  { intros a Ha. by destruct (fresh_safe K q m j a Hv Hj Ha). }
  assert (Hent : forall t' pre' i', tb !! t' = Some pre' -> uslot pre' i' -> ~ (t' = t /\ i' = i) ->
            load 8 (ram m1) (t' + 8 * i') = load 8 (ram m) (t' + 8 * i')).
  { intros t' pre' i' ???. by apply (other_entries m m1 tb t pre i t' pre' i'). }
  split; [done|]. split; [split|].
  - rewrite lookup_insert_ne; [apply (sp_root _ _ Hsp)|]. pose proof (sp_root _ _ Hsp). congruence.
  - intros t' pre' [[<- <-]|[_ Ht']]%lookup_insert_Some.
    + rewrite length_app. cbn. split; [lia|].
      destruct (linked_path K q flags m m1 t i j [0] Hv HL) as ([? _] & _); [by repeat constructor|done|done].
    + destruct (sp_table _ _ Hsp t' pre' Ht'). split; [done|]. eapply table_ok_step; [apply Hs| |done].
      rewrite Hf1. apply gset_diff_sub.
  - intros t' pre' i' [[<- <-]|[Hne Ht']]%lookup_insert_Some Hlt' Hi' Hpe.
    + rewrite Hz in Hpe by apply Hi'. done.
    + destruct (decide (t' = t /\ i' = i)) as [[-> ->]|Hd].
      * rewrite Hl1, Hn4. split; [done|]. rewrite lookup_insert_eq. congruence.
      * rewrite (Hent t' pre' i' Ht' Hi' Hd) in *. destruct (sp_next _ _ Hsp t' pre' i' Ht' Hlt' Hi' Hpe) as [? Hn].
        split; [done|]. rewrite lookup_insert_ne; [done|]. congruence.
  - intros t' pre' [[<- <-]|[_ Ht']]%lookup_insert_Some Hl3; [done|by eapply sp_leaf].
  - intros skip. eapply (walkp_slot m _ tb t i); [done|done|]. intros pre0 Ht0 _.
    rewrite Ht in Ht0. injection Ht0 as <-. right. split_and!; [done|done|].
    intros k ix HF. apply Forall_cons in HF as [Hk _]. cbn [walkp]. rewrite Hl1, Hn2, Hn4, Hz by done. done.
Qed.

(** ** Mapping along a path *)

Lemma same_walks_trans tb skip r r' r'' :
  same_walks tb skip r r' -> same_walks tb skip r' r'' -> same_walks tb skip r r''.
Proof. intros H H' t pre ix Ht Hu Hne. by rewrite (H' t pre ix), (H t pre ix). Qed.

Lemma same_walks_sub tb tb' skip r r' : tb ⊆ tb' -> same_walks tb' skip r r' -> same_walks tb skip r r'.
Proof. intros Hs H t pre ix Ht. apply H. by eapply lookup_weaken. Qed.

(** redirecting the window changes nothing *)
Lemma space_tstep m m' tb :
  vmm_ok m -> space m tb -> wstep (tslot K) m m' -> frees m' = frees m ->
  space m' tb /\ forall skip, same_walks tb skip (ram m) (ram m').
Proof.
  intros Hv Hsp Hs Hf.
  assert (He : forall t pre i, tb !! t = Some pre -> uslot pre i ->
            load 8 (ram m') (t + 8 * i) = load 8 (ram m) (t + 8 * i)).
  { intros t pre i Ht [Hi _]. by apply (entry_tstep K q); [|apply (sp_table _ _ Hsp t pre Ht)| |]. }
  split; [apply (space_step m m'); [done|apply Hs|by rewrite Hf|intros ?????; by eapply He]|].
  intros skip. apply (walkp_slot m _ tb (-1) 0); [done|intros; by eapply He|].
  intros pre Ht. destruct (sp_table _ _ Hsp _ _ Ht) as [_ []]. lia.
Qed.

(** the tables of a space after some pages [F] may have been linked in *)
Definition grew (F : gset Z) tb tb' : Prop :=
  tb ⊆ tb' /\ forall t pre, tb' !! t = Some pre -> tb !! t = Some pre \/ exists j, j ∈ F /\ t = j * 4096.

Lemma wp_map_path_space ix leaf : forall m tbl t pre tb (Q : unit -> machine -> Prop) (E : stop -> machine -> Prop),
  vmm_ok m -> space m tb -> tb !! t = Some pre -> upath pre ix -> vstable m (own (glb m)) tbl t 4096 ->
  0 <= leaf < 2 ^ 64 -> (forall m', E Halted m') ->
  (forall m' tb', space m' tb' -> grew (frees m) tb tb' -> same_walks tb (pre ++ ix) (ram m) (ram m') -> Q tt m') ->
  wp (map_path tbl ix flags leaf) Q E m.
Proof.
  induction ix as [|i [|i' rest] IH]; intros m tbl t pre tb Q E Hv Hsp Ht Hu Hst Hleaf HE HQ;
    destruct (sp_table _ _ Hsp t pre Ht) as [Hlen Tok].
  - destruct Hu as (Hl & _). cbn in Hl. lia.
  - destruct (upath_cons _ _ _ Hu) as [Hi _]. pose proof (upath_leaf _ _ Hu) as Hl3. cbn [map_path].
    unfold slot. rewrite (vmap_u64 _ _ _ _ _ (proj1 Hst)) by (destruct Hi; lia).
    eapply (wp_vstore_st 8 _ (span (t + 8 * i) 8));
      [eapply (vmap_sub _ _ _ _ _ 8); [apply Hst|destruct Hi; lia|destruct Hi; lia]|done|].
    intros m1 Hs1 _.
    assert (Hs : wstep (writes m (t + 8 * i)) m m1) by (eapply wstep_weaken; [exact Hs1|unfold Vmm.writes; tauto]).
    assert (Hf : frees m1 = frees m).
    { eapply frees_wstep; [apply Hv|exact Hs1|]. intros a Ho Ha.
      by destruct (table_slot_safe K q m t i a Hv Tok (proj1 Hi) Ha). }
    apply (HQ m1 tb).
    + apply (space_step m m1); [done|apply Hs|by rewrite Hf|]. intros t' pre' k Ht' Hlt' Hk.
      apply (other_entries m m1 tb t pre i t' pre' k); [done..|]. intros [-> ->]. rewrite Ht in Ht'.
      injection Ht' as <-. lia.
    + split; [done|]. by left.
    + apply (walkp_slot m _ tb t i); [done| |].
      * intros t' pre' k Ht' Hk Hne. by apply (other_entries m m1 tb t pre i t' pre' k).
      * intros pre0 Ht0 _. rewrite Ht in Ht0. injection Ht0 as <-. by left.
  - destruct (upath_cons _ _ _ Hu) as [Hi _]. destruct (upath_next _ _ _ _ Hu) as [Hu' Hlt].
    cbn [map_path]. apply wp_bind. apply (wp_map_level K q flags Hfl Hhuge m tbl t i); [done|done|apply Hi|done| | |done].
    + intros Hpe m1 Hs1 Hv1 Hf1 Hm1. destruct (space_tstep m m1 tb Hv Hsp Hs1 Hf1) as [Hsp1 Hw1].
      destruct (sp_next _ _ Hsp t pre i Ht Hlt Hi Hpe) as [_ Hn].
      apply (IH m1 TEMP_PAGE _ _ tb Q E Hv1 Hsp1 Hn Hu'); [|done|done|].
      { apply (temp_vstable K q); [done|done|lia|]. intros a Ha Ho. destruct (vo_own _ _ _ Hv1 a Ho). tauto. }
      rewrite Hf1, <- app_assoc. intros m2 tb' Hsp2 Hg Hw2. apply (HQ m2 tb'); [done|done|].
      by eapply same_walks_trans.
    + intros Hab j m1 Hj Hs1 Hv1 Hf1 Hm1 Hl1 Hz1. assert (HL : linked m m1 t i j) by done.
      destruct (space_link m m1 tb t pre i j Hv Hsp Ht Hlt Hi Hab HL) as (Hnone & Hsp1 & Hw1).
      apply (IH m1 TEMP_PAGE (j * 4096) (pre ++ [i]) _ Q E Hv1 Hsp1); [by rewrite lookup_insert_eq|done| |done|done|].
      { apply (temp_vstable K q); [done|done|lia|]. intros a Ha Ho. destruct (vo_own _ _ _ Hv1 a Ho). tauto. }
      rewrite <- app_assoc. intros m2 tb' Hsp2 [Hsub Hnew] Hw2.
      assert (Hs01 : tb ⊆ <[j * 4096 := pre ++ [i]]> tb) by by apply insert_subseteq.
      apply (HQ m2 tb'); [done| |].
      * split; [by etrans|]. intros t' pre' Ht'. destruct (Hnew t' pre' Ht') as [H|(k & Hk & ->)].
        -- apply lookup_insert_Some in H as [[<- _]|[_ H]]; [right; by exists j|by left].
        -- right. exists k. split; [|done]. rewrite Hf1 in Hk. by apply gset_diff_sub in Hk.
      * eapply same_walks_trans; [by apply Hw1|]. by eapply same_walks_sub.
Qed.

(** ** The address space of a program *)

(** what mapping pages of the lower half may write *)
Definition area (g : globals) (F : gset Z) tb : Z -> Prop := fun a =>
  own g a \/ tslot K a \/ free_pages F a \/
  exists t pre i, tb !! t = Some pre /\ uslot pre i /\ span (t + 8 * i) 8 a.

Lemma area_grew g F F' tb tb' a : F' ⊆ F -> grew F tb tb' -> area g F' tb' a -> area g F tb a.
Proof.
  intros HF [_ Hnew] [?|[?|[(j & Hj & Ha)|(t & pre & i & Ht & Hi & Ha)]]]; [by left|by right; left| |];
    right; right.
  - left. exists j. split; [by apply HF|done].
  - destruct (Hnew t pre Ht) as [H|(j & Hj & ->)]; [right; by exists t, pre, i|]. left. exists j. split; [done|].
    eapply slot_in_page; [apply Hi|done].
Qed.

Lemma grew_refl F tb : grew F tb tb.
Proof. split; [done|]. by left. Qed.

Lemma grew_weaken F F' tb tb' : F ⊆ F' -> grew F tb tb' -> grew F' tb tb'.
Proof.
  intros HF [Hs Hn]. split; [done|]. intros t pre Ht. destruct (Hn t pre Ht) as [?|(j & Hj & ->)]; [by left|].
  right. exists j. split; [by apply HF|done].
Qed.

Lemma area_edit m tb t pre ix a :
  space m tb -> tb !! t = Some pre -> upath pre ix ->
  writes m (edit_slot (ram m) t ix) a -> area (glb m) (frees m) tb a.
Proof.
  intros Hsp Ht Hu Ha. destruct (edit_slot_table m tb ix t pre Hsp Ht Hu) as (t' & pre' & i & Ht' & Hi & E1).
  rewrite E1 in Ha. destruct Ha as [?|[?|[?|?]]]; [by left|by right; left|by right; right; left|].
  right; right; right. by exists t', pre', i.
Qed.

(** the window, the tables [tb] of the lower half, and the virtual address [ctx]
    through which the code edits the root *)
Record user_space m tb (ctx : Z) : Prop := mk_user_space {
  us_ok : vmm_ok m;
  us_space : space m tb;
  us_ctx : vstable m (area (glb m) (frees m) tb) ctx root 4096
}.

(** a step inside the area keeps the root reachable *)
Lemma user_space_step m m' tb tb' ctx :
  user_space m tb ctx -> vmm_ok m' -> space m' tb' -> wstep (area (glb m) (frees m) tb) m m' ->
  frees m' ⊆ frees m -> grew (frees m) tb tb' -> user_space m' tb' ctx.
Proof.
  intros [Hv Hsp Hc] Hv' Hsp' Hs Hf Hg. split; [done|done|].
  pose proof (vstable_wstep _ _ _ _ _ _ Hs Hc) as [Hvm Hd]. split; [done|].
  intros i Hi a Ha Har. apply (Hd i Hi a Ha). rewrite (ws_glb _ _ _ Hs) in Har. by eapply area_grew.
Qed.

(** [map_page] of a page of the lower half *)
Lemma wp_map_user m tb tbl k va pa (Q : unit -> machine -> Prop) (E : stop -> machine -> Prop) :
  user_space m tb tbl -> 0 <= va < 2 ^ 47 -> 0 <= pa < 2 ^ 52 -> pa mod 4096 = 0 -> present flags = true ->
  (forall m' tb', user_space m' tb' tbl -> grew (frees m) tb tb' ->
     wstep (area (glb m) (frees m) tb) m m' -> frees m' ⊆ frees m -> (size (frees m) <= size (frees m') + 3)%nat ->
     walk (ram m') root (va / 4096) = Some pa ->
     (forall p, 0 <= p -> low p -> p <> va / 4096 -> walk (ram m') root p = walk (ram m) root p) -> Q tt m') ->
  ((size (frees m) < 3)%nat -> forall m', E Halted m') ->
  wp (map_page (mk_page_table_t tbl k) va pa flags) Q E m.
Proof.
  intros Hus Hva Hpa Hpm Hpf HQ HE. pose proof Hus as [Hv Hsp [Hvm Hd]].
  assert (Hp : 0 <= va / 4096 /\ low (va / 4096)) by (unfold low; change (2 ^ 35) with 34359738368; dlia).
  pose proof (sp_root _ _ Hsp) as Hroot. pose proof (upath_vpn (va / 4096) (proj1 Hp) (proj2 Hp)) as Hu.
  rewrite <- va_vpn_path in Hu.
  assert (Hst : vstable m (own (glb m)) tbl root 4096).
  { split; [done|]. intros i Hi a Ha Ho. apply (Hd i Hi a Ha). by left. }
  assert (Hmiss : (missing (ram m) root (va_path va) <= 3)%nat).
  { unfold va_path. cbn [missing length]. repeat (destruct (present _); [|lia]). lia. }
  assert (H1 : wp (map_page (mk_page_table_t tbl k) va pa flags)
    (fun _ m' => wstep (writes m (edit_slot (ram m) root (va_path va))) m m' /\ vmm_ok m' /\ frees m' ⊆ frees m /\
       (size (frees m) <= size (frees m') + 3)%nat /\ resolves K m' root (va_path va) (Z.lor pa flags))
    (fun e _ => e = Halted /\ (size (frees m) < 3)%nat) m).
  { apply (wp_map_page K q m _ root); [done|done|by eapply space_path_ok|done..| |].
    - intros m' [Hs Hv' Hm Hf Hr _]. split_and!; [done..|lia|done].
    - intros m' Hlt. split; [done|lia]. }
  assert (H2 : wp (map_page (mk_page_table_t tbl k) va pa flags)
    (fun _ m' => exists tb', space m' tb' /\ grew (frees m) tb tb' /\
       same_walks tb (va_path va) (ram m) (ram m')) (fun _ _ => True) m).
  { rewrite map_page_path. apply (wp_map_path_space _ _ m tbl root [] tb); [done..|by apply lor_range|done|].
    intros m' tb' ???. by exists tb'. }
  eapply wp_mono; [exact (wp_and _ _ _ _ _ _ H1 H2)| |].
  - intros [] m' [(Hs & Hv' & Hf & Hsz & Hr) (tb' & Hsp' & Hg & Hw)].
    assert (Hsa : wstep (area (glb m) (frees m) tb) m m').
    { eapply wstep_weaken; [exact Hs|]. intros a. by eapply area_edit. }
    apply (HQ m' tb'); [by eapply user_space_step|done..| |].
    + rewrite (resolves_walk K m' root va _ Hr), pte_addr_lor by (done || by rewrite present_lor). done.
    + intros p Hp0 Hpl Hne. rewrite (space_walk m' tb'), (space_walk m tb) by done.
      apply (Hw root []); [done|by apply upath_vpn|]. rewrite app_nil_l, va_vpn_path. intros Heq.
      apply Hne. apply vpn_path_inj; [done|done|apply Hp|apply Hp|done].
  - intros e m' [[-> Hlt] _]. by apply HE.
Qed.
End Space.

(** ** Properties *)

(** C11: in a well-formed address space [map_page] of a lower-half page keeps the space
    well formed and changes the translation of that page and of no other page of the
    program, mapped or not: the walk of the page ends in the frame, every other walk is
    what it was.  At most three frames are taken, and only with fewer does it panic. *)
Theorem map_page_in_space K q root m tb ctx va pa flags :
  user_space K q root m tb (ctx_pml4t ctx) -> 0 <= va < 2 ^ 47 -> 0 <= pa < 2 ^ 52 -> pa mod 4096 = 0 ->
  0 <= flags < 4096 -> huge flags = false -> present flags = true ->
  wp (map_page ctx va pa flags)
    (fun _ m' => (exists tb', user_space K q root m' tb' (ctx_pml4t ctx)) /\
       (forall p, 0 <= p -> low p ->
          walk (ram m') root p = if decide (p = va / 4096) then Some pa else walk (ram m) root p) /\
       (size (frees m) <= size (frees m') + 3)%nat)
    (fun e _ => e = Halted /\ (size (frees m) < 3)%nat) m.
Proof.
  intros Hus Hva Hpa Hpm Hfl Hh Hpf. destruct ctx as [tbl k].
  apply (wp_map_user K q root flags Hfl Hh m tb tbl k va pa); [done..| |by intros].
  intros m' tb' Hus' _ _ _ Hsz Hw Ho. split_and!; [by exists tb'| |done].
  intros p Hp Hl. case_decide as Heq; [by subst p|by apply Ho].
Qed.
