(* ===== verification/User.v ===== *)
(** The memory of a user program, as a finite map: the lower half of an address
    space maps page numbers to frames, allocating and mapping a page inserts into
    that map, and copying into mapped pages writes bytes and nothing else. *)

From S2P Require Import Prelude Comp Ram Machine KSpace Utils Pmm Vmm VmmMap VmmWalk Space.

(** the bytes of the frames of [pg] *)
Definition data (pg : gmap Z Z) : Z -> Prop := fun a => exists p f, pg !! p = Some f /\ span f 4096 a.

(** what the program sees at address [va] *)
Definition ubyte (r : ram_t) (pg : gmap Z Z) (va : Z) : option Z :=
  match pg !! (va / 4096) with
  | Some f => Some (rd r (f + va mod 4096))
  | None => None
  end.

Section User.
Context `{FA : !FrameAllocator pmm_alloc pmm_free}.
Context (K : ktables) (q root ctx : Z).
Implicit Types (m : machine) (tb : gmap Z (list Z)) (pg : gmap Z Z).
Local Abbreviation vtab := (Vmm.vtab K q).
Local Abbreviation vmm_ok := (Vmm.vmm_ok K q).
Local Abbreviation space := (Space.space K q root).
Local Abbreviation area := (Space.area K).

(** the current address space has tables [tb] and maps exactly the pages [pg] of
    its lower half, each to a frame of its own above the kernel's memory; no stale
    translation of the lower half is cached *)
Record uas m tb pg : Prop := mk_uas {
  ua_ok : vmm_ok m;
  ua_space : space m tb;
  ua_ctx : vstable m (fun a => (area (glb m) (frees m) tb a) \/ data pg a) ctx root 4096;
  ua_root : kt4 K = root;
  ua_walk p : 0 <= p -> low p -> walk (ram m) root p = pg !! p;
  ua_low p f : pg !! p = Some f -> 0 <= p /\ low p;
  ua_fresh p f : 0 <= p -> low p -> tlb m !! p = Some f -> pg !! p = Some f;
  ua_frame p f : pg !! p = Some f ->
    2 ^ 21 <= f < 2 ^ 52 /\ f mod 4096 = 0 /\ (f / 4096 ∉ frees m) /\ tb !! f = None;
  ua_inj p p' f : pg !! p = Some f -> pg !! p' = Some f -> p = p'
}.

Lemma uas_user_space m tb pg : uas m tb pg -> user_space K q root m tb ctx.
Proof. intros []. split; [done|done|]. eapply vstable_weaken; [done|]. intros a Ha. by left. Qed.

(** ** The walks of the lower half *)

(** steps outside the tables keep them *)
Lemma low_walk W m m' tb p :
  space m tb -> mstep W m m' -> (forall t pre a, tb !! t = Some pre -> span t 4096 a -> ~ W a) ->
  0 <= p -> low p -> walk (ram m') root p = walk (ram m) root p.
Proof.
  intros Hsp Hs Hd Hp Hl. apply walk_agree. eapply agree_weaken; [apply Hs|]. intros a Ha.
  destruct (space_bytes K q root m tb p a Hsp Hp Hl Ha) as (t & pre & Ht & Hta). by eapply Hd.
Qed.

(** the frames of the program are apart from everything the kernel needs *)
Lemma data_safe m tb pg a : uas m tb pg -> data pg a ->
  KWIN <= a /\ ~ vtab a /\ ~ own (glb m) a /\ ~ tslot K a /\ ~ free_pages (frees m) a /\
  forall t pre, tb !! t = Some pre -> ~ span t 4096 a.
Proof.
  intros Hu (p & f & Hp & Ha). destruct (ua_frame _ _ _ Hu p f Hp) as (Hf & Hm & Hfr & Htb).
  pose proof (ua_ok _ _ _ Hu) as Hv. pose proof (vo_1 _ _ _ Hv). pose proof (vo_2 _ _ _ Hv).
  pose proof (vo_3 _ _ _ Hv). pose proof (vo_qh _ _ _ Hv).
  assert (Hk : KWIN <= a) by (unfold KWIN, span in *; lia).
  assert (Htab : forall t pre, tb !! t = Some pre -> ~ span t 4096 a).
  { intros t pre Ht Hta. destruct (sp_table _ _ _ _ _ (ua_space _ _ _ Hu) t pre Ht) as [_ [_ Hal _ _ _]].
    assert (t = f) by (unfold span in *; dlia). congruence. }
  split_and!; [done| | | | |done].
  - intros [[Hv4|[Hv3|[Hv2|Hv1]]]|Hvq]; [|unfold span in *; lia..].
    apply (Htab root [] (sp_root _ _ _ _ _ (ua_space _ _ _ Hu))). rewrite <- (ua_root _ _ _ Hu). unfold span in *. lia.
  - intros Ho. apply (fa_own K) in Ho as [Ho _]; [|apply Hv]. lia.
  - unfold tslot, span. lia.
  - intros (j & Hj & Hja). apply Hfr. replace (f / 4096) with j; [done|]. unfold span in *. dlia.
Qed.

(** the processor walks the tables of the space *)
Lemma space_walk_cr3 m tb p : kspace K m -> kt4 K = root -> space m tb ->
  mwalk m p = walk (ram m) root p /\ mbytes m p = walk_bytes (ram m) root p.
Proof.
  intros Hk Hr Hsp. unfold mwalk, mbytes, walk, walk_bytes. rewrite (ks_root _ _ Hk), Hr.
  destruct (sp_table _ _ _ _ _ Hsp root [] (sp_root _ _ _ _ _ Hsp)) as [_ []]. by rewrite (pte_addr_aligned root) by done.
Qed.

Lemma uas_walk_cr3 m tb pg p : uas m tb pg -> walk (ram m) (cr3 m) p = walk (ram m) root p.
Proof. intros Hu. by apply (space_walk_cr3 m tb); [apply (ua_ok _ _ _ Hu)|apply Hu..]. Qed.

Lemma uas_mwalk m tb pg p : uas m tb pg -> 0 <= p -> low p -> mwalk m p = pg !! p.
Proof. intros Hu Hp Hl. unfold mwalk. rewrite (uas_walk_cr3 m tb pg p Hu). by apply (ua_walk _ _ _ Hu). Qed.

(** ** Steps that write data *)
Lemma uas_data m m' tb pg :
  uas m tb pg -> mstep (data pg) m m' ->
  (forall p f, 0 <= p -> low p -> tlb m' !! p = Some f -> pg !! p = Some f) ->
  uas m' tb pg /\ frees m' = frees m.
Proof.
  intros Hu Hs Hfr. pose proof Hu as [Hv Hsp Hc Hr Hw Hl _ Hfm Hi].
  pose proof (fun a Ha => data_safe m tb pg a Hu Ha) as Hd.
  assert (Hf : frees m' = frees m).
  { apply (fa_frees K); [apply Hv|apply Hs|]. eapply agree_weaken; [apply Hs|].
    intros a Ho Ha. by destruct (Hd a Ha) as (?&?&?&?). }
  split; [|done]. split; rewrite ?Hf, ?(ms_glb _ _ _ Hs); try done.
  - eapply vmm_ok_mstep; [exact Hv|exact Hs| |by rewrite Hf]. intros a Ha Hda. by destruct (Hd a Hda) as (?&?&?).
  - apply (space_step K q root m m'); [done|apply Hs|by rewrite Hf|]. intros t pre i Ht _ [Hi' _].
    apply load_agree. eapply agree_weaken; [apply Hs|]. intros a Ha Hda.
    destruct (Hd a Hda) as (_&_&_&_&_&Ht'). eapply Ht'; [exact Ht|]. by eapply slot_in_page.
  - eapply vstable_mstep; [|exact Hc]. eapply mstep_weaken; [exact Hs|]. tauto.
  - intros p Hp Hlo. rewrite (low_walk (data pg) m m' tb) by (done || (intros t pre a Ht Hta Hda;
      destruct (Hd a Hda) as (_&_&_&_&_&Ht'); by eapply Ht')). by apply Hw.
Qed.

Lemma uas_warm m m' tb pg : uas m tb pg -> warm m m' -> uas m' tb pg /\ frees m' = frees m.
Proof.
  intros Hu Hw. apply (uas_data m); [done|by apply wstep_mstep, warm_wstep|].
  intros p f Hp Hl Hf. apply (ua_fresh _ _ _ Hu p f Hp Hl). by apply (warm_low _ _ Hw).
Qed.

(** an access of the kernel to a mapped address of the lower half *)
Lemma wp_translate_user m tb pg va f (Q : Z -> machine -> Prop) E :
  uas m tb pg -> lower va = true -> pg !! (va / 4096) = Some f ->
  (forall m', uas m' tb pg -> mstep (data pg) m m' -> frees m' = frees m -> ram m' = ram m -> Q (f + va mod 4096) m') ->
  wp (translate va) Q E m.
Proof.
  intros Hu Hlo Hp HQ. destruct (ua_low _ _ _ Hu _ _ Hp) as [Hp0 Hpl].
  assert (Hwalk : walk (ram m) (cr3 m) (va / 4096) = Some f).
  { rewrite <- Hp. by apply (uas_mwalk m tb pg). }
  assert (Hrun : exists t, (t = tlb m \/ t = <[va / 4096 := f]> (tlb m)) /\ translate va m = Ret (f + va mod 4096) (set_tlb t m)).
  { unfold translate, canonical. rewrite Hlo. cbn [orb]. destruct (tlb m !! (va / 4096)) as [f'|] eqn:E1.
    - apply (ua_fresh _ _ _ Hu) in E1; [|done|done]. assert (f' = f) as -> by congruence.
      exists (tlb m). split; [by left|]. by destruct m.
    - rewrite Hwalk. eexists. split; [by right|]. done. }
  destruct Hrun as (t & Ht & Hrun). unfold wp. rewrite Hrun.
  assert (Hs : mstep (data pg) m (set_tlb t m)).
  { split; try done. intros p _ f'. cbn [tlb set_tlb]. destruct Ht as [->| ->]; [by left|].
    intros [[<- <-]|[_ H]]%lookup_insert_Some; [by right|by left]. }
  destruct (uas_data m (set_tlb t m) tb pg Hu Hs) as [Hu' Hf'].
  { intros p f' Hp' Hl'. cbn [tlb set_tlb]. destruct Ht as [->| ->]; [by apply (ua_fresh _ _ _ Hu)|].
    intros [[<- <-]|[_ H]]%lookup_insert_Some; [done|by apply (ua_fresh _ _ _ Hu)]. }
  by apply HQ.
Qed.

Lemma wp_translate_range_user n m tb pg va f (Q : list Z -> machine -> Prop) E :
  uas m tb pg -> 0 <= va < 2 ^ 47 -> va mod 4096 + Z.of_nat n <= 4096 -> pg !! (va / 4096) = Some f ->
  (forall m', uas m' tb pg -> mstep (data pg) m m' -> frees m' = frees m -> ram m' = ram m ->
     Q (addrs n (f + va mod 4096)) m') ->
  wp (translate_range n va) Q E m.
Proof.
  revert m va Q. change (2 ^ 47) with 140737488355328. induction n as [|n IH]; intros m va Q Hu Hva Hn Hp HQ.
  { by apply HQ. }
  cbn [translate_range addrs] in *. apply wp_bind, (wp_translate_user m tb pg va f); [done| |done|].
  { unfold lower. by rewrite (proj2 (Z.leb_le _ _)), (proj2 (Z.ltb_lt _ _)) by (change (2 ^ 47) with 140737488355328; lia). }
  intros m1 Hu1 Hs1 Hf1 Hr1. rewrite u64_small by lia. destruct n as [|n]; [by apply HQ|].
  assert (Hdm : (va + 1) / 4096 = va / 4096 /\ (va + 1) mod 4096 = va mod 4096 + 1) by dlia. destruct Hdm as [Hd Hm].
  apply wp_bind, (IH m1 (va + 1)); [done|dlia|lia|by rewrite Hd|]. intros m2 Hu2 Hs2 Hf2 Hr2. rewrite Hm, Z.add_assoc.
  apply wp_ret, HQ; [done|by etrans|congruence|congruence].
Qed.

(** a store that does not leave its page *)
Lemma wp_store_user n m tb pg va v f (Q : unit -> machine -> Prop) E :
  uas m tb pg -> 0 <= va < 2 ^ 47 -> va mod 4096 + Z.of_nat n <= 4096 -> pg !! (va / 4096) = Some f ->
  (forall m', uas m' tb pg -> mstep (data pg) m m' -> frees m' = frees m ->
     ram m' = store n (f + va mod 4096) v (ram m) -> Q tt m') ->
  wp (vstore n va v) Q E m.
Proof.
  intros Hu Hva Hn Hp HQ. apply wp_bind, (wp_translate_range_user n m tb pg va f); [done..|].
  intros m1 Hu1 Hs1 Hf1 Hr1. apply wp_modify. rewrite store_at_addrs.
  assert (Hs : mstep (data pg) m1 (set_ram (store n (f + va mod 4096) v (ram m1)) m1)).
  { split; try done; [|intros p _ f'; by left]. apply agree_store. intros a Ha Hna. apply Hna.
    exists (va / 4096), f. split; [done|]. pose proof (Z.mod_pos_bound va 4096). unfold span in *. lia. }
  destruct (uas_data m1 _ tb pg Hu1 Hs) as [Hu' Hf']; [apply (ua_fresh _ _ _ Hu1)|].
  apply HQ; [done|by etrans|congruence|]. cbn [ram set_ram]. by rewrite Hr1.
Qed.

(** one byte changes *)
Lemma ubyte_store m tb pg va v f r a :
  uas m tb pg -> pg !! (va / 4096) = Some f -> 0 <= v < 256 ->
  ubyte (wr (f + va mod 4096) v r) pg a = if decide (a = va) then Some v else ubyte r pg a.
Proof.
  intros Hu Hp Hv. unfold ubyte. case_decide as Ha.
  - subst a. by rewrite Hp, rd_wr_eq, u8_small.
  - destruct (pg !! (a / 4096)) as [f'|] eqn:E1; [|done]. rewrite rd_wr_ne; [done|]. intros Heq.
    destruct (ua_frame _ _ _ Hu _ _ Hp) as (_ & Hm & _), (ua_frame _ _ _ Hu _ _ E1) as (_ & Hm' & _).
    assert (f = f') as <- by dlia.
    pose proof (ua_inj _ _ _ Hu _ _ _ Hp E1). apply Ha. dlia.
Qed.

(** the bytes of a program after [n] bytes from [s] have been copied to [va] *)
Definition written (r r' : ram_t) pg (va s n : Z) : Prop := forall a,
  ubyte r' pg a = if decide (span va n a) then Some (rd r (s + (a - va))) else ubyte r pg a.

(** [memcpy] from kernel memory into mapped pages of the lower half *)
Lemma wp_memcpy_user m tb pg va s n (Q : Z -> machine -> Prop) E :
  uas m tb pg -> 0 <= n < 2 ^ 31 -> 0 <= va -> va + n <= 2 ^ 47 -> 0 <= s -> s + n <= KWIN ->
  (forall a, span va n a -> is_Some (pg !! (a / 4096))) ->
  (forall m', uas m' tb pg -> mstep (data pg) m m' -> frees m' = frees m ->
     written (ram m) (ram m') pg va s n -> Q va m') ->
  wp (memcpy va (KERNEL_BASE + s) n) Q E m.
Proof.
  intros Hu Hn Hva Hvn Hs Hsn Hmap HQ. unfold memcpy. rewrite Z.min_l by lia. apply wp_bind.
  eapply wp_mono; [eapply (wp_for_range (fun i m' => uas m' tb pg /\ mstep (data pg) m m' /\
      frees m' = frees m /\ written (ram m) (ram m') pg va s i))| |by intros].
  - split_and!; [done|done|done|]. intros a. rewrite decide_False; [done|]. unfold span. lia.
  - intros i m1 Hi (Hu1 & Hs1 & Hf1 & Hw1). rewrite Z2Nat.id in Hi by lia.
    replace (u64 (KERNEL_BASE + s + i)) with (KERNEL_BASE + (s + i))
      by (unfold KWIN in *; zconst; rewrite u64_small; lia).
    rewrite (u64_small (va + i)) by lia.
    apply wp_bind. apply (wp_kload K 1); [apply (ua_ok _ _ _ Hu1)|lia|lia|]. intros m2 Hw2 _. rewrite load1.
    destruct (uas_warm m1 m2 tb pg Hu1 Hw2) as [Hu2 Hf2].
    destruct (Hmap (va + i)) as [f Hf]; [unfold span; lia|].
    apply (wp_store_user 1 m2 tb pg _ _ f); [done|lia|dlia|done|]. cbn [store].
    intros m3 Hu3 Hs3 Hf3 Hr3.
    assert (Hsrc : rd (ram m1) (s + i) = rd (ram m) (s + i)).
    { apply (ms_ram _ _ _ Hs1). intros Hd. destruct (data_safe m tb pg _ Hu Hd). lia. }
    split_and!; [done| |congruence|].
    + etrans; [exact Hs1|]. etrans; [by apply wstep_mstep, warm_wstep|done].
    + intros a. rewrite Hr3, Hsrc, (ubyte_store m3 tb) by (done || apply rd_range).
      rewrite (warm_ram _ _ Hw2), Hw1. unfold span.
      destruct (decide (a = va + i)) as [->|].
      * rewrite decide_True by lia. do 2 f_equal. lia.
      * repeat case_decide; done || lia.
  - intros [] m1 (Hu1 & Hs1 & Hf1 & Hw1). rewrite Z2Nat.id in Hw1 by lia.
    rewrite (proj2 (Z.leb_gt _ _)) by lia. by apply wp_ret, HQ.
Qed.

(** ** Allocating a frame and mapping it *)

Lemma user_alloc m m1 tb pg j :
  uas m tb pg -> j ∈ frees m -> wstep (own (glb m)) m m1 -> kspace K m1 -> frees m1 = frees m ∖ {[j]} ->
  user_space K q root m1 tb ctx /\ (forall p, 0 <= p -> low p -> walk (ram m1) root p = walk (ram m) root p).
Proof.
  intros Hu Hj Hs Hk Hf. pose proof Hu as [Hv Hsp Hc Hr Hw Hl _ Hfm Hi].
  assert (Htab : forall t pre a, tb !! t = Some pre -> span t 4096 a -> ~ own (glb m) a).
  { intros t pre a Ht. by apply (sp_table _ _ _ _ _ Hsp t pre Ht). }
  assert (Hsub : frees m1 ⊆ frees m) by (rewrite Hf; apply gset_diff_sub).
  split.
  - eapply (user_space_step K q root m m1 tb tb); [by eapply uas_user_space| | | |done|apply grew_refl].
    + eapply vmm_ok_wstep; [exact Hv|exact Hs| |done]. intros a Ha Ho. by destruct (vo_own _ _ _ Hv a Ho).
    + apply (space_step K q root m m1); [done|apply Hs|done|]. intros t pre i Ht _ [Hi' _].
      eapply slot_load_agree; [exact Hs|]. intros a Ha. eapply Htab; [exact Ht|]. by eapply slot_in_page.
    + eapply wstep_weaken; [exact Hs|]. intros a Ha. by left.
  - intros p Hp Hlo. eapply low_walk; [exact Hsp|by apply wstep_mstep|exact Htab|done|done].
Qed.

(** no translation is cached of a page the program does not have *)
Lemma uas_cold m tb pg p : uas m tb pg -> 0 <= p -> low p -> pg !! p = None -> tlb m !! p = None.
Proof.
  intros Hu Hp Hl Hn. destruct (tlb m !! p) as [f|] eqn:E1; [|done].
  apply (ua_fresh _ _ _ Hu) in E1; [congruence|done|done].
Qed.

(** the program's pages after page [p], of which no translation is cached, has been
    mapped to the fresh frame [j], whether it was mapped before or not *)
Lemma uas_insert m m' tb tb' pg p j :
  uas m tb pg -> 0 <= p -> low p -> tlb m !! p = None -> j ∈ frees m ->
  user_space K q root m' tb' ctx -> grew (frees m ∖ {[j]}) tb tb' -> frees m' ⊆ frees m ∖ {[j]} ->
  wstep (area (glb m) (frees m) tb) m m' ->
  (forall p', 0 <= p' -> low p' -> walk (ram m') root p' = <[p := j * 4096]> pg !! p') ->
  uas m' tb' (<[p := j * 4096]> pg).
Proof.
  intros Hu Hp Hl Hnone Hj [Hv' Hsp' _] [Hsub Hnew] Hf' Hs Hw'.
  pose proof Hu as [Hv Hsp Hc Hr Hw Hlow Hfr Hfm Hi]. pose proof (fa_range K m j (vo_a _ _ _ Hv) Hj) as Hj40.
  destruct (vo_free _ _ _ Hv j Hj) as [Hj512 _].
  assert (Hdj : j * 4096 / 4096 = j) by (apply Z.div_mul; lia).
  assert (Hjf : j ∉ frees m') by (intros H; by apply Hf', gset_not_in_diff in H).
  assert (Hfree : frees m' ⊆ frees m) by (etrans; [exact Hf'|apply gset_diff_sub]).
  assert (Hold : forall p' f, pg !! p' = Some f -> f <> j * 4096).
  { intros p' f Hp' ->. destruct (Hfm _ _ Hp') as (_ & _ & Hn & _). by rewrite Hdj in Hn. }
  split; [done|done| |done|done| | | |].
  - eapply vstable_weaken; [by eapply vstable_wstep; [eapply wstep_weaken; [exact Hs|]|exact Hc]; tauto|].
    intros a [Ha|(p' & f & [[<- <-]|[_ Hp']]%lookup_insert_Some & Ha)].
    + left. rewrite (ws_glb _ _ _ Hs) in Ha. eapply area_grew; [exact Hfree| |exact Ha].
      by eapply grew_weaken; [apply gset_diff_sub|split; [exact Hsub|exact Hnew]].
    + left. right; right; left. by exists j.
    + right. by exists p', f.
  - intros p' f [[<- <-]|[_ Hp']]%lookup_insert_Some; [done|by eapply Hlow].
  - intros p' f Hp' Hl' Ht. apply (ws_low _ _ _ Hs p' f Hl') in Ht.
    rewrite lookup_insert_ne by congruence. by apply (Hfr p' f Hp' Hl').
  - intros p' f [[<- <-]|[_ Hp']]%lookup_insert_Some.
    + split_and!; [lia|lia|apply Z_mod_mult|by rewrite Hdj|].
      destruct (tb' !! (j * 4096)) as [pre|] eqn:E1; [|done]. exfalso.
      destruct (Hnew _ _ E1) as [H|(k & Hk & Heq)].
      * destruct (sp_table _ _ _ _ _ Hsp _ _ H) as [_ T]. apply (to_used _ _ _ T). by rewrite Hdj.
      * assert (k = j) as -> by lia. by apply gset_not_in_diff in Hk.
    + destruct (Hfm p' f Hp') as (H1 & H2 & H3 & H4). split_and!; [lia|lia|done|by intros H; apply H3, Hfree|].
      destruct (tb' !! f) as [pre|] eqn:E1; [|done]. exfalso.
      destruct (Hnew _ _ E1) as [H|(k & Hk & ->)]; [congruence|]. apply H3. rewrite Z.div_mul by lia.
      by apply gset_diff_sub in Hk.
  - intros p1 p2 f [[<- <-]|[_ H1]]%lookup_insert_Some [[<- E2]|[_ H2]]%lookup_insert_Some; [done| | |by eapply Hi].
    + by apply Hold in H2.
    + subst f. by apply Hold in H1.
Qed.

(** mapping a page keeps the bytes of the other pages *)
Lemma ubyte_other m m' tb pg p f a :
  uas m tb pg -> a / 4096 <> p -> wstep (area (glb m) (frees m) tb) m m' ->
  ubyte (ram m') (<[p := f]> pg) a = ubyte (ram m) pg a.
Proof.
  intros Hu Hne Hs. unfold ubyte. rewrite lookup_insert_ne by congruence. destruct (pg !! (a / 4096)) as [g|] eqn:Hg; [|done]. f_equal.
  apply (ws_ram _ _ _ Hs). intros Ha.
  destruct (data_safe m tb pg (g + a mod 4096) Hu) as (_&_&Ho&Ht&Hf&Htb).
  { exists (a / 4096), g. split; [done|]. unfold span. pose proof (Z.mod_pos_bound a 4096). lia. }
  destruct Ha as [?|[?|[?|(u & pre & i & Hu1 & [Hi _] & Ha)]]]; [done..|].
  eapply Htb; [exact Hu1|]. by eapply slot_in_page.
Qed.

Lemma ubyte_kept m m' tb pg p f a :
  uas m tb pg -> pg !! p = None -> wstep (area (glb m) (frees m) tb) m m' -> is_Some (pg !! (a / 4096)) ->
  ubyte (ram m') (<[p := f]> pg) a = ubyte (ram m) pg a.
Proof. intros Hu Hnone Hs [g Hg]. apply (ubyte_other m m' tb); [done| |done]. congruence. Qed.

(** nothing that maps a page writes to the frame that was just taken *)
Lemma frame_unwritten m m1 m2 tb pg j a :
  uas m tb pg -> j ∈ frees m -> wstep (own (glb m)) m m1 -> frees m1 = frees m ∖ {[j]} ->
  wstep (area (glb m1) (frees m1) tb) m1 m2 -> span (j * 4096) 4096 a -> rd (ram m2) a = rd (ram m) a.
Proof.
  intros Hu Hj Hs1 Hf1 Hs2 Ha. pose proof (ua_ok _ _ _ Hu) as Hv. destruct (vo_free _ _ _ Hv j Hj) as [Hj512 _].
  assert (Hk : KWIN <= a) by (unfold KWIN, span in *; lia).
  assert (Hno : ~ own (glb m) a) by (intros Ho; pose proof (fa_own K (glb m) a (vo_a _ _ _ Hv) Ho); lia).
  rewrite (ws_ram _ _ _ Hs2); [by apply (ws_ram _ _ _ Hs1)|]. rewrite (ws_glb _ _ _ Hs1), Hf1.
  intros [?|[Ht|[(i & Hi & Hia)|(t & pre & i & Ht & [Hi _] & Hia)]]]; [done| | |].
  - pose proof (vo_1 _ _ _ Hv). unfold tslot, span in *. lia.
  - assert (i = j) as -> by (unfold span in *; lia). by apply gset_not_in_diff in Hi.
  - pose proof (slot_in_page t i a Hi Hia) as Hta. destruct (sp_table _ _ _ _ _ (ua_space _ _ _ Hu) t pre Ht) as [_ T].
    apply (to_used _ _ _ T). pose proof (to_align _ _ _ T). by replace (t / 4096) with j by (unfold span in *; dlia).
Qed.

(** [j] is the frame taken, and mapped at [va]: what [phys = pmm_alloc(); map_page(ctx,
    va, phys, flags)] does to the tables, whatever was mapped there *)
Record remapped m tb va j m' tb' : Prop := mk_remapped {
  rm_frame : j ∈ frees m;
  rm_space : user_space K q root m' tb' ctx;
  rm_grew : grew (frees m ∖ {[j]}) tb tb';
  rm_frees : frees m' ⊆ frees m ∖ {[j]};
  rm_size : (size (frees m) <= size (frees m') + 4)%nat;
  rm_step : wstep (area (glb m) (frees m) tb) m m';
  rm_walk : walk (ram m') root (va / 4096) = Some (j * 4096);
  rm_other p : 0 <= p -> low p -> p <> va / 4096 -> walk (ram m') root p = walk (ram m) root p;
  rm_bytes a : span (j * 4096) 4096 a -> rd (ram m') a = rd (ram m) a
}.

Lemma wp_remap m tb pg k va flags (Q : unit -> machine -> Prop) (E : stop -> machine -> Prop) :
  uas m tb pg -> 0 <= va < 2 ^ 47 ->
  0 <= flags < 4096 -> huge flags = false -> present flags = true -> (4 <= size (frees m))%nat ->
  (forall m' tb' j, remapped m tb va j m' tb' -> Q tt m') ->
  wp (phys_addr <- pmm_alloc ;; map_page (mk_page_table_t ctx k) va phys_addr flags) Q E m.
Proof.
  intros Hu Hva Hfl Hh Hpf Hsz HQ. pose proof (ua_ok _ _ _ Hu) as Hv.
  apply wp_bind, (fa_alloc K); [apply Hv|apply Hv| |].
  2: { intros Hemp. rewrite Hemp, size_empty in Hsz. lia. }
  intros j m1 Hj Hs1 Hk1 Hf1. destruct (user_alloc m m1 tb pg j Hu Hj Hs1 Hk1 Hf1) as [Hus1 Hw1].
  destruct (size_remove (frees m) j Hj) as (n & Hn & Hn1). rewrite <- Hf1 in Hn1.
  pose proof (fa_range K m j (vo_a _ _ _ Hv) Hj). unfold PAGE_SIZE. change 0x1000 with 4096.
  apply (wp_map_user K q root flags Hfl Hh m1 tb); [done|done|lia|apply Z_mod_mult|done| |].
  2: { intros Hlt. lia. }
  intros m2 tb2 Hus2 Hg2 Hs2 Hf2 Hsz2 Hwp Hwo. apply (HQ m2 tb2 j). split; [done|done|by rewrite <- Hf1|by rewrite <- Hf1|lia| |done| |].
  - etrans; [eapply wstep_weaken; [exact Hs1|by left]|]. eapply wstep_weaken; [exact Hs2|].
    rewrite (ws_glb _ _ _ Hs1), Hf1. intros a. apply area_grew; [apply gset_diff_sub|apply grew_refl].
  - intros p Hp Hl Hne. by rewrite Hwo, Hw1.
  - intros a. by eapply frame_unwritten.
Qed.

(** on a page of which no translation is cached this is insertion into the page map *)
Lemma remapped_uas m tb pg va j m' tb' :
  uas m tb pg -> 0 <= va < 2 ^ 47 -> tlb m !! (va / 4096) = None -> remapped m tb va j m' tb' ->
  uas m' tb' (<[va / 4096 := j * 4096]> pg).
Proof.
  intros Hu Hva Hcold [Hj Hus Hg Hf _ Hs Hw Ho _].
  assert (Hp : 0 <= va / 4096 /\ low (va / 4096)) by (unfold low; change (2 ^ 35) with 34359738368; dlia).
  eapply uas_insert; [exact Hu|apply Hp|apply Hp|done..|]. intros p' Hp' Hl'. destruct (decide (p' = va / 4096)) as [->|Hne].
  - by rewrite lookup_insert_eq.
  - rewrite lookup_insert_ne, Ho by done. by apply (ua_walk _ _ _ Hu).
Qed.

(** the frame is in no page of the program *)
Lemma remapped_fresh m tb pg va j m' tb' p : uas m tb pg -> remapped m tb va j m' tb' -> pg !! p <> Some (j * 4096).
Proof.
  intros Hu HR Hp. destruct (ua_frame _ _ _ Hu _ _ Hp) as (_ & _ & Hn & _). rewrite Z.div_mul in Hn by lia. apply Hn, HR.
Qed.

(** and what the next call may write is no more than what this one might *)
Lemma remapped_area m tb va j m' tb' a :
  remapped m tb va j m' tb' -> area (glb m') (frees m') tb' a -> area (glb m) (frees m) tb a.
Proof.
  intros [Hj Hus Hg Hf _ Hs _ _ _]. rewrite (ws_glb _ _ _ Hs). apply area_grew; [etrans; [exact Hf|apply gset_diff_sub]|].
  eapply grew_weaken; [apply gset_diff_sub|exact Hg].
Qed.

(** [phys = pmm_alloc(); map_page(ctx, va, phys, flags)] on a page not yet mapped *)
Lemma wp_alloc_map m tb pg k va flags (Q : unit -> machine -> Prop) (E : stop -> machine -> Prop) :
  uas m tb pg -> 0 <= va < 2 ^ 47 -> pg !! (va / 4096) = None ->
  0 <= flags < 4096 -> huge flags = false -> present flags = true -> (4 <= size (frees m))%nat ->
  (forall m' tb' f, uas m' tb' (<[va / 4096 := f]> pg) -> wstep (area (glb m) (frees m) tb) m m' ->
     (size (frees m) <= size (frees m') + 4)%nat ->
     (forall a, area (glb m') (frees m') tb' a -> area (glb m) (frees m) tb a) ->
     (f / 4096 ∈ frees m /\ f mod 4096 = 0 /\ forall a, span f 4096 a -> rd (ram m') a = rd (ram m) a) -> Q tt m') ->
  wp (phys_addr <- pmm_alloc ;; map_page (mk_page_table_t ctx k) va phys_addr flags) Q E m.
Proof.
  intros Hu Hva Hnone Hfl Hh Hpf Hsz HQ. apply (wp_remap m tb pg); [done..|]. intros m' tb' j HR.
  assert (Hp : 0 <= va / 4096 /\ low (va / 4096)) by (unfold low; change (2 ^ 35) with 34359738368; dlia).
  apply (HQ m' tb' (j * 4096)); [|apply HR|apply HR|intros a; by apply (remapped_area m tb va j)|].
  - apply (remapped_uas m tb); [done|done| |done]. by eapply uas_cold; [done|apply Hp|apply Hp|].
  - rewrite Z.div_mul by lia. split_and!; [apply HR|apply Z_mod_mult|apply HR].
Qed.
End User.

(** ** Properties *)

(** [memcpy] from kernel memory into mapped pages of a program, however the frames
    behind them lie: exactly the bytes of the range change, to those of the source, as
    the program sees them, and no translation changes. *)
Theorem memcpy_to_user K q root ctx m tb pg va s n :
  uas K q root ctx m tb pg -> 0 <= n < 2 ^ 31 -> 0 <= va -> va + n <= 2 ^ 47 -> 0 <= s -> s + n <= KWIN ->
  (forall a, span va n a -> is_Some (pg !! (a / 4096))) ->
  wp (memcpy va (KERNEL_BASE + s) n)
    (fun r m' => r = va /\ uas K q root ctx m' tb pg /\
       forall a, ubyte (ram m') pg a = if decide (span va n a) then Some (rd (ram m) (s + (a - va))) else ubyte (ram m) pg a)
    nostop m.
Proof.
  intros Hu Hn Hva Hvn Hs Hsn Hmap. apply (wp_memcpy_user K q root ctx m tb pg); [done..|].
  intros m' Hu' _ _ Hw. by split_and!.
Qed.

(** taking a frame and mapping it at a page the program does not have yet is
    insertion into the program's page map, to a frame no other page uses: the memory of
    the program stays well formed, keeps all its bytes, and costs at most four frames.
    The new page is not cleared: the program finds in it what the frame held before. *)
Theorem alloc_map_inserts K q root ctx m tb pg k va flags :
  uas K q root ctx m tb pg -> 0 <= va < 2 ^ 47 -> pg !! (va / 4096) = None ->
  0 <= flags < 4096 -> huge flags = false -> present flags = true -> (4 <= size (frees m))%nat ->
  wp (phys_addr <- pmm_alloc ;; map_page (mk_page_table_t ctx k) va phys_addr flags)
    (fun _ m' => exists tb' f, uas K q root ctx m' tb' (<[va / 4096 := f]> pg) /\
       (forall p, pg !! p <> Some f) /\ (size (frees m) <= size (frees m') + 4)%nat /\
       (forall a, is_Some (pg !! (a / 4096)) -> ubyte (ram m') (<[va / 4096 := f]> pg) a = ubyte (ram m) pg a) /\
       f / 4096 ∈ frees m /\
       forall a, a / 4096 = va / 4096 -> ubyte (ram m') (<[va / 4096 := f]> pg) a = Some (rd (ram m) (f + a mod 4096)))
    nostop m.
Proof.
  intros Hu Hva Hnone Hfl Hh Hpf Hsz. apply (wp_alloc_map K q root ctx m tb pg); [done..|].
  intros m' tb' f Hu' Hs Hsz' Har (Hfj & _ & Hold). exists tb', f. split_and!; [done| |done| |done|].
  - intros p Hp. assert (p = va / 4096) as ->; [|congruence].
    apply (ua_inj _ _ _ _ _ _ _ Hu' p _ f); [|apply lookup_insert_eq].
    rewrite lookup_insert_ne; [done|congruence].
  - intros a Ha. by apply (ubyte_kept K q root ctx m m' tb pg).
  - intros a Ha. unfold ubyte. rewrite Ha, lookup_insert_eq. cbn. f_equal. apply Hold.
    unfold span. pose proof (Z.mod_pos_bound a 4096). lia.
Qed.
