(* ===== verification/UserRuns.v ===== *)
(** A client of the memory manager: any sequence of pages allocated, mapped and unmapped
    in one address space, as a step relation over the machine and the page map the
    client keeps.  [unmap_page] is deletion from that map as long as it neither
    empties a page table (the directory would go on pointing to it) nor leaves a stale
    translation (the processor may have none of the page). *)

From S2P Require Import Prelude Comp Ram Machine KSpace Utils Pmm Vmm VmmMap VmmWalk Space User.

(** the tables above the last of the walk of a page, and the last *)
Definition table_3 (r : ram_t) (root p : Z) : Z := pte_addr (load 8 r (root + 8 * ((p / 2 ^ 27) mod 512))).
Definition table_2 (r : ram_t) (root p : Z) : Z := pte_addr (load 8 r (table_3 r root p + 8 * ((p / 2 ^ 18) mod 512))).
Definition table_1 (r : ram_t) (root p : Z) : Z := pte_addr (load 8 r (table_2 r root p + 8 * ((p / 2 ^ 9) mod 512))).

(** two pages of one page table *)
Definition neighbours (p p' : Z) : Prop := p / 512 = p' / 512.

Lemma neighbours_table r root p p' : neighbours p p' -> table_1 r root p' = table_1 r root p.
Proof.
  unfold neighbours, table_1, table_2, table_3. intros H.
  assert (forall k, 9 <= k -> p' / 2 ^ k = p / 2 ^ k) as Hd.
  { intros k Hk. replace (2 ^ k) with (512 * 2 ^ (k - 9)) by (rewrite <- (Z.pow_add_r 2 9) by lia; f_equal; lia).
    rewrite <- !Z.div_div by (try apply Z.pow_pos_nonneg; lia). by rewrite H. }
  by rewrite !Hd by lia.
Qed.

Section UserRuns.
Context `{FA : !FrameAllocator pmm_alloc pmm_free}.
Context (K : ktables) (q root ctx : Z).
Implicit Types (m : machine) (tb : gmap Z (list Z)) (pg : gmap Z Z).
Local Abbreviation uas := (User.uas K q root ctx).
Local Abbreviation space := (Space.space K q root).

(** the leaf of a mapped page *)
Record leaf m tb (p e : Z) : Prop := mk_leaf {
  lf_res : resolves K m root (vpn_path p) e;
  lf_tabs : path_tables (ram m) root (vpn_path p) = [root; table_3 (ram m) root p; table_2 (ram m) root p; table_1 (ram m) root p];
  lf_table : exists pre, tb !! table_1 (ram m) root p = Some pre /\ length pre = 3%nat /\ pre ++ [p mod 512] = vpn_path p;
  lf_entry : load 8 (ram m) (table_1 (ram m) root p + 8 * (p mod 512)) = e
}.

Lemma space_leaf m tb p f :
  space m tb -> 0 <= p -> low p -> walk (ram m) root p = Some f ->
  exists e, leaf m tb p e /\ present e = true /\ pte_addr e = f.
Proof.
  intros Hsp Hp Hl Hw. rewrite (space_walk K q root m tb) in Hw by done.
  pose proof (upath_vpn p Hp Hl) as Hu. unfold vpn_path in Hu, Hw. cbn [walkp] in Hw.
  pose proof (sp_root _ _ _ _ _ Hsp) as T4. fold (table_3 (ram m) root p) in Hw.
  destruct (present (load 8 _ (root + _))) eqn:P4; [|done]. fold (table_2 (ram m) root p) in Hw.
  destruct (space_down K q root m tb _ _ _ _ _ Hsp T4 Hu P4) as (H4 & T3 & Hu3). fold (table_3 (ram m) root p) in T3.
  destruct (present (load 8 _ (table_3 _ _ _ + _))) eqn:P3; [|done]. fold (table_1 (ram m) root p) in Hw.
  destruct (space_down K q root m tb _ _ _ _ _ Hsp T3 Hu3 P3) as (H3 & T2 & Hu2). fold (table_2 (ram m) root p) in T2.
  destruct (present (load 8 _ (table_2 _ _ _ + _))) eqn:P2; [|done].
  destruct (space_down K q root m tb _ _ _ _ _ Hsp T2 Hu2 P2) as (H2 & T1 & _). fold (table_1 (ram m) root p) in T1.
  destruct (present (load 8 _ (table_1 _ _ _ + _))) eqn:P1; [|done]. injection Hw as Hw.
  eexists. split; [|by split]. split; [|done| |done].
  - unfold vpn_path. cbn [resolves]. fold (table_3 (ram m) root p). fold (table_2 (ram m) root p). fold (table_1 (ram m) root p).
    split_and!; try done; by eapply sp_table.
  - eexists. split; [exact T1|done].
Qed.

(** another page of the table is mapped: unmapping does not empty it *)
Lemma neighbour_entry m tb pg p p' :
  uas m tb pg -> 0 <= p -> low p -> is_Some (pg !! p') -> p' <> p -> neighbours p p' ->
  only_entry (ram m) (table_1 (ram m) root p) (p mod 512) = false.
Proof.
  intros Hu Hp Hl [f' Hf'] Hne Hn. destruct (ua_low _ _ _ _ _ _ _ Hu _ _ Hf') as [Hp' Hl'].
  pose proof (ua_walk _ _ _ _ _ _ _ Hu p' Hp' Hl') as Hw. rewrite Hf' in Hw.
  destruct (space_leaf m tb p' f' (ua_space _ _ _ _ _ _ _ Hu) Hp' Hl' Hw) as (e & [_ _ _ He] & Hpe & _).
  rewrite (neighbours_table _ _ p p' Hn) in He. apply not_true_is_false. unfold only_entry. rewrite forallb_forall. intros H.
  specialize (H (p' mod 512)). rewrite He, Hpe in H. unfold neighbours in Hn.
  assert (Hm : (p' mod 512 =? p mod 512) = false) by (apply Z.eqb_neq; dlia). rewrite Hm in H. cbn in H.
  discriminate H. apply list_elem_of_In, elem_of_seqZ. pose proof (Z.mod_pos_bound p' 512). lia.
Qed.

(** everything [unmap_page] needs of a page of the program *)
Lemma uas_unmap_pre m tb pg k va e f :
  uas m tb pg -> pg !! (va / 4096) = Some f -> leaf m tb (va / 4096) e -> pte_addr e = f ->
  only_entry (ram m) (table_1 (ram m) root (va / 4096)) (pt_index va) = false ->
  unmap_pre K q m (mk_page_table_t ctx k) root va e (table_3 (ram m) root (va / 4096)) (table_2 (ram m) root (va / 4096))
    (table_1 (ram m) root (va / 4096)).
Proof.
  intros Hu Hp [L1 L2 _ _] He Ho. destruct (ua_low _ _ _ _ _ _ _ Hu _ _ Hp) as [Hp0 Hpl].
  pose proof (ua_space _ _ _ _ _ _ _ Hu) as Hsp. destruct (ua_frame _ _ _ _ _ _ _ Hu _ _ Hp) as (Hf & _ & _ & Htb).
  split; rewrite ?va_vpn_path; try done.
  - apply Hu.
  - apply (ua_ctx _ _ _ _ _ _ _ Hu).
  - apply (space_path_ok K q root m tb _ root []); [done|apply Hsp|by apply upath_vpn].
  - rewrite He. split; [lia|]. rewrite (ua_root _ _ _ _ _ _ _ Hu). intros ->. by rewrite (sp_root _ _ _ _ _ Hsp) in Htb.
  - by rewrite Ho.
Qed.

(** the space after a leaf has been cleared and its frame given back *)
Lemma space_clear m m' tb t pre i f skip :
  vmm_ok K q m -> space m tb -> tb !! t = Some pre -> length pre = 3%nat -> 0 <= i < 512 -> pre ++ [i] = skip ->
  wstep (clears K m (t + 8 * i)) m m' -> released (glb m) f (frees m) (frees m') -> tb !! f = None -> f mod 4096 = 0 ->
  space m' tb /\ same_walks tb skip (ram m) (ram m').
Proof.
  intros Hv Hsp Ht Hl3 Hi Hsk Hs HF Hf Hfm.
  assert (Hui : uslot pre i) by (split; [done|by intros ->]).
  assert (Hs' : wstep (writes K m (t + 8 * i)) m m').
  { eapply wstep_weaken; [exact Hs|]. unfold clears, writes. tauto. }
  assert (Hent : forall t' pre' i', tb !! t' = Some pre' -> uslot pre' i' -> ~ (t' = t /\ i' = i) ->
            load 8 (ram m') (t' + 8 * i') = load 8 (ram m) (t' + 8 * i')).
  { intros t' pre' i' ???. by apply (other_entries K q root m m' tb t pre i t' pre' i'). }
  split; [split|].
  - apply Hsp.
  - intros t' pre' Ht'. destruct (sp_table _ _ _ _ _ Hsp t' pre' Ht') as [Hl' [T1 T2 T3 T4 T5]]. split; [done|].
    split; [done|done| |by rewrite (ws_glb _ _ _ Hs)|done]. rewrite (HF (t' / 4096)). intros [?|[He _]]; [done|].
    assert (t' = f) by dlia. congruence.
  - intros t' pre' i' Ht' Hlt Hi'. rewrite (Hent t' pre' i'); [by apply (sp_next _ _ _ _ _ Hsp)|done|done|].
    intros [-> _]. rewrite Ht in Ht'. injection Ht' as <-. lia.
  - apply (sp_leaf _ _ _ _ _ Hsp).
  - apply (walkp_slot K q root m _ tb t i); [done|done|]. intros pre0 Ht0 _. rewrite Ht in Ht0. injection Ht0 as <-. by left.
Qed.

(** no translation of the lower half is cached: the kernel has not used one *)
Definition cold m : Prop := forall p f, 0 <= p -> low p -> tlb m !! p <> Some f.

Lemma cold_wstep W m m' : cold m -> wstep W m m' -> cold m'.
Proof. intros Hc Hs p f Hp Hl Ht. by apply (Hc p f Hp Hl), (ws_low _ _ _ Hs). Qed.

(** deletion from the page map *)
Lemma uas_delete m m' tb pg p f t :
  uas m tb pg -> pg !! p = Some f -> tlb m !! p = None -> wstep (clears K m (t + 8 * (p mod 512))) m m' -> vmm_ok K q m' ->
  (exists pre, tb !! t = Some pre /\ length pre = 3%nat /\ pre ++ [p mod 512] = vpn_path p) ->
  released (glb m) f (frees m) (frees m') -> walk (ram m') root p = None -> uas m' tb (delete p pg).
Proof.
  intros Hu Hp Hcold Hs Hv' (pre & Ht & Hl3 & Hsk) HF Hnone. pose proof Hu as [Hv Hsp Hc Hr Hw Hlow Hfr Hfm Hi].
  destruct (Hlow _ _ Hp) as [Hp0 Hpl]. destruct (Hfm _ _ Hp) as (Hfr0 & Hfm0 & Hff & Hft).
  assert (Hmod : 0 <= p mod 512 < 512) by (apply Z.mod_pos_bound; lia).
  destruct (space_clear m m' tb t pre (p mod 512) f (vpn_path p) Hv Hsp Ht Hl3 Hmod Hsk Hs HF Hft Hfm0) as [Hsp' Hsw].
  assert (Hold : forall p' f', delete p pg !! p' = Some f' -> p' <> p /\ pg !! p' = Some f' /\ f' <> f).
  { intros p' f' [Hne Hp']%lookup_delete_Some. split_and!; [done|done|]. intros ->. by apply Hne, (Hi p p' f). }
  split; [done|done| |done| | | | |].
  - eapply vstable_weaken; [eapply vstable_wstep; [eapply wstep_weaken; [exact Hs|]|exact Hc]|].
    + intros a [?|[?|?]]; [by left; left|by left; right; left|]. left. right; right; right. exists t, pre, (p mod 512).
      split_and!; [done|by split; [|intros ->]|done].
    + intros a [[?|[?|[(j & Hj & Ha)|Ha]]]|(p' & f' & Hp' & Ha)]; rewrite ?(ws_glb _ _ _ Hs) in *.
      * by left; left.
      * by left; right; left.
      * apply HF in Hj as [Hj|[-> _]]; [left; right; right; left; by exists j|].
        right. exists p, f. split; [done|]. by replace (f / 4096 * 4096) with f in Ha by dlia.
      * left. by right; right; right.
      * right. apply Hold in Hp' as (_ & Hp' & _). by exists p', f'.
  - intros p' Hp' Hl'. destruct (decide (p' = p)) as [->|Hne]; [by rewrite lookup_delete_eq|].
    rewrite lookup_delete_ne, <- Hw by done. rewrite (space_walk K q root m' tb), (space_walk K q root m tb) by done.
    apply (Hsw root []); [apply Hsp|by apply upath_vpn|]. cbn [app]. intros Heq. by apply Hne, vpn_path_inj.
  - intros p' f' Hp'. apply Hold in Hp' as (_ & Hp' & _). by eapply Hlow.
  - intros p' f' Hp' Hl' Ht'. apply (ws_low _ _ _ Hs p' f' Hl') in Ht'. rewrite lookup_delete_ne; [by apply Hfr|]. congruence.
  - intros p' f' Hp'. apply Hold in Hp' as (_ & Hp' & Hne). destruct (Hfm _ _ Hp') as (H1 & H2 & H3 & H4).
    split_and!; [lia|lia|done| |done]. rewrite (HF (f' / 4096)). intros [?|[He _]]; [done|]. apply Hne. dlia.
  - intros p1 p2 f' H1 H2. apply Hold in H1 as (_ & H1 & _), H2 as (_ & H2 & _). by eapply Hi.
Qed.

(** unmapping writes no byte of another page *)
Lemma ubyte_deleted m m' tb pg p t pre a :
  uas m tb pg -> tb !! t = Some pre -> wstep (clears K m (t + 8 * (p mod 512))) m m' -> a / 4096 <> p ->
  ubyte (ram m') (delete p pg) a = ubyte (ram m) pg a.
Proof.
  intros Hu Ht Hs Hne. unfold ubyte. rewrite lookup_delete_ne by done. destruct (pg !! (a / 4096)) as [f|] eqn:Hf; [|done]. f_equal.
  apply (ws_ram _ _ _ Hs). destruct (data_safe K q root ctx m tb pg (f + a mod 4096) Hu) as (_ & _ & Ho & Hts & _ & Htb).
  { exists (a / 4096), f. split; [done|]. unfold span. pose proof (Z.mod_pos_bound a 4096). lia. }
  intros [?|[?|Ha]]; [done|done|]. eapply Htb; [exact Ht|]. eapply slot_in_page; [|exact Ha]. apply Z.mod_pos_bound. lia.
Qed.

Lemma wp_unmap_user m tb pg k va f (Q : unit -> machine -> Prop) E :
  uas m tb pg -> 0 <= va -> pg !! (va / 4096) = Some f -> tlb m !! (va / 4096) = None ->
  (exists p', is_Some (pg !! p') /\ p' <> va / 4096 /\ neighbours (va / 4096) p') ->
  (forall m', uas m' tb (delete (va / 4096) pg) -> released (glb m) f (frees m) (frees m') ->
     (forall a, a / 4096 <> va / 4096 -> ubyte (ram m') (delete (va / 4096) pg) a = ubyte (ram m) pg a) ->
     (exists W, wstep W m m') -> Q tt m') ->
  wp (unmap_page (mk_page_table_t ctx k) va) Q E m.
Proof.
  intros Hu Hva Hp Hcold (p' & Hp' & Hne & Hnb) HQ. destruct (ua_low _ _ _ _ _ _ _ Hu _ _ Hp) as [Hp0 Hpl].
  pose proof (ua_walk _ _ _ _ _ _ _ Hu _ Hp0 Hpl) as Hw. rewrite Hp in Hw.
  destruct (space_leaf m tb (va / 4096) f (ua_space _ _ _ _ _ _ _ Hu) Hp0 Hpl Hw) as (e & Hleaf & _ & He).
  destruct (index_walk va) as (_ & _ & _ & I1).
  assert (Ho : only_entry (ram m) (table_1 (ram m) root (va / 4096)) (pt_index va) = false).
  { rewrite I1. by eapply neighbour_entry. }
  pose proof (uas_unmap_pre m tb pg k va e f Hu Hp Hleaf He Ho) as Hpre.
  eapply (wp_unmap_page K q); [exact Hpre|]. intros m' F Hs Hv' Hch _ HF HF'. rewrite Ho in HF'. cbn in HF'. subst F.
  rewrite He in HF. rewrite I1 in Hs. pose proof (lf_table _ _ _ _ Hleaf) as (pre & Ht & Hl3 & Hsk).
  apply HQ; [|done| |by eexists].
  - eapply uas_delete; [exact Hu|exact Hp|exact Hcold|exact Hs|exact Hv'|by exists pre|exact HF|].
    destruct (resolves_table K m root _ e (um_res _ _ _ _ _ _ _ _ _ _ Hpre)). by rewrite (chain_walk _ _ _ 0).
  - intros a Ha. by eapply ubyte_deleted.
Qed.

(** ** A client *)

Inductive space_call : Type :=
  | Map (p flags : Z)          (* take a frame and map it at page [p], mapped before or not *)
  | Unmap (p : Z).

Definition flags_ok (flags : Z) : Prop := 0 <= flags < 4096 /\ huge flags = false /\ present flags = true.
Definition has_neighbour pg (p : Z) : Prop := exists p', is_Some (pg !! p') /\ p' <> p /\ neighbours p p'.

Definition alloc_map (p flags : Z) : M unit :=
  phys_addr <- pmm_alloc ;; map_page (mk_page_table_t ctx true) (p * 4096) phys_addr flags.

Inductive space_step : space_call -> machine * gmap Z Z -> machine * gmap Z Z -> Prop :=
  | step_map p flags f m pg m' :
      0 <= p -> low p -> flags_ok flags -> (4 <= size (frees m))%nat ->
      alloc_map p flags m = Ret tt m' -> walk (ram m') root p = Some f ->
      space_step (Map p flags) (m, pg) (m', <[p := f]> pg)
  | step_unmap p m pg m' :
      is_Some (pg !! p) -> has_neighbour pg p -> unmap_page (mk_page_table_t ctx true) (p * 4096) m = Ret tt m' ->
      space_step (Unmap p) (m, pg) (m', delete p pg).

(** the state of a client whose page [a] holds what it held in [m0] *)
Record tenant (held : Z -> option Z) (s : machine * gmap Z Z) : Prop := mk_tenant {
  tn_uas : exists tb, uas s.1 tb s.2;
  tn_cold : cold s.1;
  tn_held a v : held a = Some v -> ubyte (ram s.1) s.2 a = Some v
}.

Lemma page_va p : 0 <= p -> low p -> 0 <= p * 4096 < 2 ^ 47 /\ p * 4096 / 4096 = p.
Proof. unfold low. change (2 ^ 35) with 34359738368. change (2 ^ 47) with 140737488355328. intros. split; [lia|]. by apply Z.div_mul. Qed.

Lemma wp_tenant_map held m pg p flags :
  tenant held (m, pg) -> 0 <= p -> low p -> flags_ok flags -> (4 <= size (frees m))%nat ->
  wp (alloc_map p flags) (fun _ m' => exists f, walk (ram m') root p = Some f /\ (forall p', pg !! p' <> Some f) /\
     (size (frees m) <= size (frees m') + 4)%nat /\
     tenant (fun a => if decide (a / 4096 = p) then None else held a) (m', <[p := f]> pg)) nostop m.
Proof.
  intros [[tb Hu] Hc Hh] Hp Hl (H1 & H2 & H3) Hsz. destruct (page_va p Hp Hl) as [Hva Hd]. cbn [fst snd] in *.
  apply (wp_remap K q root ctx m tb pg); [done..|]. intros m' tb' j HR. pose proof (rm_step _ _ _ _ _ _ _ _ _ _ HR) as Hs.
  assert (Hu' : uas m' tb' (<[p := j * 4096]> pg)).
  { rewrite <- Hd at 1. eapply remapped_uas; [exact Hu|done| |exact HR]. rewrite Hd.
    destruct (tlb m !! p) as [g|] eqn:E1; [by apply Hc in E1|done]. }
  exists (j * 4096). split_and!.
  - rewrite (ua_walk _ _ _ _ _ _ _ Hu') by done. apply lookup_insert_eq.
  - intros p'. by eapply remapped_fresh.
  - apply HR.
  - split; cbn [fst snd]; [by exists tb'|by eapply cold_wstep|]. intros a v. case_decide as Ha; [done|]. intros Hv.
    rewrite (ubyte_other K q root ctx m m' tb) by done. by apply Hh.
Qed.

Lemma wp_tenant_unmap held m pg p :
  tenant held (m, pg) -> is_Some (pg !! p) -> has_neighbour pg p ->
  wp (unmap_page (mk_page_table_t ctx true) (p * 4096)) (fun _ m' => walk (ram m') root p = None /\
     tenant (fun a => if decide (a / 4096 = p) then None else held a) (m', delete p pg)) nostop m.
Proof.
  intros [[tb Hu] Hc Hh] [f Hf] Hn. cbn [fst snd] in *. destruct (ua_low _ _ _ _ _ _ _ Hu _ _ Hf) as [Hp Hl].
  destruct (page_va p Hp Hl) as [Hva Hd]. apply (wp_unmap_user m tb pg true (p * 4096) f); rewrite ?Hd; [done|lia|done| |done|].
  { destruct (tlb m !! p) as [g|] eqn:E1; [by apply Hc in E1|done]. }
  intros m' Hu' _ Hb [W Hs]. split.
  - rewrite (ua_walk _ _ _ _ _ _ _ Hu') by done. apply lookup_delete_eq.
  - split; cbn [fst snd]; [by exists tb|by eapply cold_wstep|]. intros a v. case_decide as Ha; [done|]. intros Hv.
    rewrite Hb by done. by apply Hh.
Qed.

(** the pages a run leaves alone *)
Definition spares (p : Z) (c : space_call) : bool := match c with Unmap p' | Map p' _ => negb (p' =? p) end.

(** what is held on the other pages only is held *)
Lemma tenant_spared held p c s :
  match c with Unmap p' | Map p' _ => p' =? p end = true -> (forall a, is_Some (held a) -> spares (a / 4096) c = true) ->
  tenant (fun a => if decide (a / 4096 = p) then None else held a) s -> tenant held s.
Proof.
  intros Hc Hh [H1 H2 H3]. split; [done|done|]. intros a v Ha. apply H3. rewrite decide_False; [done|]. intros Heq.
  specialize (Hh a ltac:(by eexists)). unfold spares in Hh. rewrite Heq in Hh. destruct c; by rewrite Hc in Hh.
Qed.

Lemma tenant_runs allow held calls s s' :
  (forall c a, allow c = true -> is_Some (held a) -> spares (a / 4096) c = true) -> forallb allow calls = true ->
  runs space_step calls s s' -> tenant held s -> tenant held s'.
Proof.
  intros Hh. apply (runs_invariant space_step allow). intros c s1 s2 Hc Hst Hcl.
  destruct Hst as [p1 flags f m pg m' Hp Hl Hfl Hsz Hrun Hw|p1 m pg m' Hp Hn Hrun].
  - destruct (ran _ _ _ _ _ _ (wp_tenant_map held m pg p1 flags Hcl Hp Hl Hfl Hsz) Hrun) as (f' & Hw' & _ & _ & H).
    assert (f' = f) as -> by congruence. by apply (tenant_spared held p1 (Map p1 flags) _ (Z.eqb_refl p1) (fun a => Hh _ a Hc)).
  - destruct (ran _ _ _ _ _ _ (wp_tenant_unmap held m pg p1 Hcl Hp Hn) Hrun) as [_ H].
    by apply (tenant_spared held p1 (Unmap p1) _ (Z.eqb_refl p1) (fun a => Hh _ a Hc)).
Qed.
End UserRuns.

(** ** Properties *)

(** in the memory of a program, [unmap_page] of a page whose table holds another page,
    and of which no translation is cached, is deletion from the page map: the memory
    stays well formed, every other page keeps its frame and its bytes, and the frame of
    the page goes back to the allocator. *)
Theorem unmap_deletes K q root ctx m tb pg k va f :
  uas K q root ctx m tb pg -> 0 <= va -> pg !! (va / 4096) = Some f -> tlb m !! (va / 4096) = None ->
  has_neighbour pg (va / 4096) ->
  wp (unmap_page (mk_page_table_t ctx k) va)
    (fun _ m' => uas K q root ctx m' tb (delete (va / 4096) pg) /\ released (glb m) f (frees m) (frees m') /\
       forall a, a / 4096 <> va / 4096 -> ubyte (ram m') (delete (va / 4096) pg) a = ubyte (ram m) pg a)
    nostop m.
Proof.
  intros Hu Hva Hp Hc Hn. apply (wp_unmap_user K q root ctx m tb pg k va f); [done..|]. intros m' Hu' HF Hb _. by split_and!.
Qed.

(** C13: through any sequence of calls in which a client of an address space maps pages,
    maps them again, and unmaps pages whose page table has another page (the other
    unmapping is the subject of [unmap_page_dangling]): the processor's walk finds exactly
    the pages the client holds, at distinct frames none of which is free; a page no call
    names keeps its bytes; and in every state reached such calls return, with the result
    they promise. *)
Theorem space_client K q root ctx calls m0 tb0 pg0 m pg :
  uas K q root ctx m0 tb0 pg0 -> cold m0 -> runs (space_step root ctx) calls (m0, pg0) (m, pg) ->
  (forall p, 0 <= p -> low p -> walk (ram m) root p = pg !! p) /\
  (forall p p' f, pg !! p = Some f -> pg !! p' = Some f -> p = p' /\ f / 4096 ∉ frees m) /\
  (forall p a v, forallb (spares p) calls = true -> a / 4096 = p -> ubyte (ram m0) pg0 a = Some v -> ubyte (ram m) pg a = Some v) /\
  (forall p flags, 0 <= p -> low p -> flags_ok flags -> (4 <= size (frees m))%nat ->
     wp (alloc_map ctx p flags) (fun _ m' => (exists f, walk (ram m') root p = Some f /\ forall p', pg !! p' <> Some f) /\
       (size (frees m) <= size (frees m') + 4)%nat) nostop m) /\
  (forall p, is_Some (pg !! p) -> has_neighbour pg p ->
     wp (unmap_page (mk_page_table_t ctx true) (p * 4096)) (fun _ m' => walk (ram m') root p = None) nostop m).
Proof.
  intros Hu Hc Hrun.
  assert (Hcl : tenant K q root ctx (fun _ => None) (m, pg)).
  { eapply (tenant_runs K q root ctx (fun _ => true)); [by intros c a _ [v Hv]|apply allow_all|exact Hrun|by split; [exists tb0|..]]. }
  pose proof Hcl as [[tb Hu'] _ _]. cbn [fst snd] in Hu'. split_and!.
  - apply (ua_walk _ _ _ _ _ _ _ Hu').
  - intros p p' f H1 H2. split; [by apply (ua_inj _ _ _ _ _ _ _ Hu' p p' f)|]. by apply (ua_frame _ _ _ _ _ _ _ Hu') in H1 as (_ & _ & ? & _).
  - intros p a v Hsp Ha Hv.
    assert (H : tenant K q root ctx (fun b => if decide (b / 4096 = p) then ubyte (ram m0) pg0 b else None) (m, pg)).
    { eapply (tenant_runs K q root ctx (spares p)); [|exact Hsp|exact Hrun|].
      - intros c b Hc' [w Hw]. case_decide as E1; [by rewrite E1|done].
      - split; [by exists tb0|done|]. intros b w. by case_decide. }
    apply (tn_held _ _ _ _ _ _ H). by rewrite decide_True.
  - intros p flags Hp Hl Hfl Hsz. eapply wp_mono; [by apply (wp_tenant_map K q root ctx (fun _ => None) m pg)| |done].
    intros _ m' (f & Hw & Hd & Hs & _). split; [by exists f|done].
  - intros p Hp Hn. eapply wp_mono; [by apply (wp_tenant_unmap K q root ctx (fun _ => None) m pg)| |done]. by intros _ m' [Hw _].
Qed.
