(* ===== verification/HeapSpec.v ===== *)
(** The kernel heap as its users see it: an address-ordered list of chunks.
    First-fit allocation with splitting, release with coalescing, growth and
    shrinking in place, and the invariants they keep: chunks stay 16-aligned,
    ordered and disjoint inside the heap, no two free neighbours stay apart, and
    the heap's bytes are accounted for. *)

From S2P Require Import Prelude.

(** a chunk: physical address of its header, payload size, [inuse] *)
Record chunk : Type := mk_chunk { c_addr : Z; c_size : Z; c_used : bool }.

#[global] Instance chunk_eq_dec : EqDecision chunk.
Proof. solve_decision. Defined.

(** [sizeof(struct heapchunk_t)] and the split threshold [MIN_CHUNK_SIZE] *)
Definition HDR : Z := 32.
Definition MIN_CHUNK_SIZE : Z := HDR + 4.

Definition c_end (c : chunk) : Z := c_addr c + HDR + c_size c.
Definition payload (c : chunk) : Z := c_addr c + HDR.

(** ** Invariants *)

(** chunks lie in [[lo, hi)], in address order, without overlap, 16-aligned *)
Fixpoint ordered (lo hi : Z) (cs : list chunk) : Prop :=
  match cs with
  | [] => lo <= hi
  | c :: cs' => lo <= c_addr c /\ c_addr c mod 16 = 0 /\ 0 <= c_size c /\ c_size c mod 16 = 0 /\
                ordered (c_end c) hi cs'
  end.

(** no bytes between the chunks *)
Fixpoint tiled (lo hi : Z) (cs : list chunk) : Prop :=
  match cs with
  | [] => lo = hi
  | c :: cs' => c_addr c = lo /\ tiled (c_end c) hi cs'
  end.

(** no two neighbours are both free *)
Fixpoint coalesced (cs : list chunk) : bool :=
  match cs with
  | c :: ((d :: _) as cs') => (c_used c || c_used d) && coalesced cs'
  | _ => true
  end.

(** the bytes the chunks occupy, headers included *)
Fixpoint total (cs : list chunk) : Z :=
  match cs with [] => 0 | c :: cs' => HDR + c_size c + total cs' end.

(** ** Operations *)

Definition fits (size : Z) (c : chunk) : bool := negb (c_used c) && (size <=? c_size c).

(** the chunk [c] turned into a used one of at least [size] bytes *)
Definition carve (size : Z) (c : chunk) : list chunk :=
  let leftover := c_size c - size in
  if MIN_CHUNK_SIZE <? leftover
  then [mk_chunk (c_addr c) size true; mk_chunk (c_addr c + HDR + size) (leftover - HDR) false]
  else [mk_chunk (c_addr c) (c_size c) true].

Fixpoint first_fit (size : Z) (cs : list chunk) : option (Z * list chunk) :=
  match cs with
  | [] => None
  | c :: cs' =>
      if fits size c then Some (payload c, carve size c ++ cs')
      else match first_fit size cs' with
           | Some (p, r) => Some (p, c :: r)
           | None => None
           end
  end.

(** [c] followed by [cs], free neighbours merged from left to right *)
Fixpoint merge_into (c : chunk) (cs : list chunk) : list chunk :=
  match cs with
  | [] => [c]
  | d :: cs' =>
      if negb (c_used c) && negb (c_used d)
      then merge_into (mk_chunk (c_addr c) (c_size c + (HDR + c_size d)) (c_used c)) cs'
      else c :: merge_into d cs'
  end.

Definition coalesce (cs : list chunk) : list chunk :=
  match cs with [] => [] | c :: cs' => merge_into c cs' end.

Definition set_used (b : bool) (c : chunk) : chunk := mk_chunk (c_addr c) (c_size c) b.

(** the chunk at payload address [p] is marked free *)
Definition mark_free (p : Z) (cs : list chunk) : list chunk :=
  map (fun c => if payload c =? p then set_used false c else c) cs.

Definition release (p : Z) (cs : list chunk) : list chunk := coalesce (mark_free p cs).

(** the chunk whose payload starts at [p] *)
Definition chunk_at (p : Z) (cs : list chunk) : option chunk := find (fun c => payload c =? p) cs.

(** ** Ordering *)
Lemma ordered_app lo hi cs1 cs2 :
  ordered lo hi (cs1 ++ cs2) <-> exists mid, ordered lo mid cs1 /\ ordered mid hi cs2.
Proof.
  revert lo. induction cs1 as [|c cs1 IH]; intros lo; cbn [app ordered].
  - split; [intros H; exists lo; auto with lia|]. intros (mid & Hm & H).
    destruct cs2; cbn [ordered] in *; intuition lia.
  - rewrite IH. split.
    + intros (?&?&?&?&mid&?&?). exists mid. auto 10.
    + intros (mid&(?&?&?&?&?)&?). eauto 10.
Qed.

Lemma ordered_weaken lo lo' hi cs : ordered lo hi cs -> lo' <= lo -> ordered lo' hi cs.
Proof. destruct cs; cbn [ordered]; [lia|]. intros (?&?) ?. split; [lia|done]. Qed.

Lemma ordered_le lo hi cs : ordered lo hi cs -> lo + HDR * Z.of_nat (length cs) <= hi.
Proof.
  revert lo. induction cs as [|c cs IH]; intros lo; cbn [ordered length]; [lia|].
  intros (?&?&?&?&H). apply IH in H. unfold c_end, HDR in *. lia.
Qed.

Lemma ordered_in lo hi cs c :
  ordered lo hi cs -> c ∈ cs ->
  lo <= c_addr c /\ c_end c <= hi /\ c_addr c mod 16 = 0 /\ c_size c mod 16 = 0 /\ 0 <= c_size c.
Proof.
  intros Ho Hin. apply list_elem_of_split in Hin as (l1 & l2 & ->).
  apply ordered_app in Ho as (mid & H1 & H2). apply ordered_le in H1. cbn [ordered] in H2.
  destruct H2 as (?&?&?&?&H2). apply ordered_le in H2. unfold HDR in *. split_and!; try done; lia.
Qed.

(** distinct positions hold disjoint chunks *)
Lemma ordered_disjoint lo hi l1 c l2 d l3 :
  ordered lo hi (l1 ++ c :: l2 ++ d :: l3) -> c_end c <= c_addr d.
Proof.
  intros H. apply ordered_app in H as (m1 & _ & H). cbn [ordered] in H. destruct H as (_&_&_&_&H).
  apply ordered_app in H as (m2 & H & Hd). apply ordered_le in H. cbn [ordered] in Hd.
  unfold HDR in *. lia.
Qed.

Lemma total_app cs1 cs2 : total (cs1 ++ cs2) = total cs1 + total cs2.
Proof. induction cs1 as [|c cs IH]; cbn [app total]; lia. Qed.

Lemma tiled_total lo hi cs : tiled lo hi cs -> total cs = hi - lo.
Proof.
  revert lo. induction cs as [|c cs IH]; intros lo; cbn [tiled total]; [lia|].
  intros [<- H]. apply IH in H. unfold c_end in H. lia.
Qed.

Lemma tiled_app lo hi cs1 cs2 : tiled lo hi (cs1 ++ cs2) <-> exists mid, tiled lo mid cs1 /\ tiled mid hi cs2.
Proof.
  revert lo. induction cs1 as [|c cs1 IH]; intros lo; cbn [app tiled].
  - split; [eauto|]. by intros (mid & -> & ?).
  - rewrite IH. split; [intros (?&mid&?&?); eauto|intros (mid&(?&?)&?); eauto].
Qed.

(** ** Allocation *)

(** first fit splits the list at the first fitting chunk *)
Lemma first_fit_split size cs :
  match first_fit size cs with
  | Some (p, r) => exists l1 c l2, cs = l1 ++ c :: l2 /\ fits size c = true /\
                     Forall (fun d => fits size d = false) l1 /\ p = payload c /\ r = l1 ++ carve size c ++ l2
  | None => Forall (fun d => fits size d = false) cs
  end.
Proof.
  induction cs as [|c cs IH]; cbn [first_fit]; [done|].
  destruct (fits size c) eqn:Hf; [by exists [], c, cs|].
  destruct (first_fit size cs) as [[p r]|]; [|by constructor].
  destruct IH as (l1 & d & l2 & -> & Hd & Hl1 & -> & ->).
  exists (c :: l1), d, l2. split_and!; [done|done|by constructor|done|done].
Qed.

Lemma first_fit_at size l1 c l2 :
  Forall (fun d => fits size d = false) l1 -> fits size c = true ->
  first_fit size (l1 ++ c :: l2) = Some (payload c, l1 ++ carve size c ++ l2).
Proof.
  intros Hl Hc. induction Hl as [|d l1 Hd Hl IH]; cbn [app first_fit]; [by rewrite Hc|].
  by rewrite Hd, IH.
Qed.

Lemma first_fit_none size cs : Forall (fun d => fits size d = false) cs -> first_fit size cs = None.
Proof. induction 1 as [|d l Hd Hl IH]; cbn [first_fit]; [done|]. by rewrite Hd, IH. Qed.

Lemma fits_true size c : fits size c = true <-> c_used c = false /\ size <= c_size c.
Proof. unfold fits. rewrite andb_true_iff, negb_true_iff, Z.leb_le. done. Qed.

Lemma carve_ordered size c lo hi :
  0 <= size -> size mod 16 = 0 -> size <= c_size c -> ordered lo hi [c] -> ordered lo hi (carve size c).
Proof.
  intros H0 H16 Hs (?&?&?&?&?). unfold carve.
  destruct (Z.ltb_spec MIN_CHUNK_SIZE (c_size c - size)).
  - cbn [ordered] in *. unfold MIN_CHUNK_SIZE, HDR, c_end in *. cbn [c_addr c_size] in *.
    unfold HDR in *. split_and!; dlia.
  - done.
Qed.

Lemma carve_total size c : total (carve size c) = HDR + c_size c.
Proof. unfold carve. destruct (_ <? _); cbn [total c_size]; unfold HDR; lia. Qed.

Lemma carve_tiled size c lo hi : tiled lo hi [c] -> tiled lo hi (carve size c).
Proof.
  intros [<- <-]. unfold carve. destruct (_ <? _); cbn [tiled c_addr]; unfold c_end; cbn [c_addr c_size];
    repeat split; lia.
Qed.

Lemma carve_head size c : exists s, head (carve size c) = Some (mk_chunk (c_addr c) s true) /\ (fits size c = true -> size <= s).
Proof.
  unfold carve. destruct (_ <? _); [exists size|exists (c_size c)]; (split; [done|]); intros [_ ?]%fits_true; lia.
Qed.

(** ** Coalescing *)

Lemma merge_into_skip c d cs : c_used c || c_used d = true -> merge_into c (d :: cs) = c :: merge_into d cs.
Proof. cbn [merge_into]. by destruct (c_used c), (c_used d). Qed.

Lemma merge_into_merge c d cs :
  c_used c = false -> c_used d = false ->
  merge_into c (d :: cs) = merge_into (mk_chunk (c_addr c) (c_size c + (HDR + c_size d)) false) cs.
Proof. intros Hc Hd. cbn [merge_into]. by rewrite Hc, Hd. Qed.

(** case analysis on the first merge *)
Ltac merge_cases c d :=
  destruct (c_used c || c_used d) eqn:?;
  [rewrite merge_into_skip by done | rewrite merge_into_merge by (destruct (c_used c), (c_used d); done)].

Lemma merge_into_ordered lo hi c cs : ordered lo hi (c :: cs) -> ordered lo hi (merge_into c cs).
Proof.
  revert lo c. induction cs as [|d cs IH]; intros lo c H; [done|]. merge_cases c d.
  - cbn [ordered] in *. destruct H as (?&?&?&?&H). by auto 10.
  - apply IH. cbn [ordered c_addr c_size] in *. destruct H as (?&?&?&?&?&?&?&?&H).
    unfold c_end, HDR in *. cbn [c_addr c_size]. split_and!; [lia|done|lia|dlia|].
    eapply ordered_weaken; [exact H|lia].
Qed.

Lemma merge_into_tiled lo hi c cs : tiled lo hi (c :: cs) -> tiled lo hi (merge_into c cs).
Proof.
  revert lo c. induction cs as [|d cs IH]; intros lo c H; [done|]. merge_cases c d.
  - cbn [tiled] in *. destruct H as (?&H). auto.
  - apply IH. cbn [tiled c_addr c_size] in *. destruct H as (?&?&H). split; [done|].
    replace (c_end _) with (c_end d); [done|]. unfold c_end, HDR in *. cbn [c_addr c_size]. lia.
Qed.

Lemma merge_into_total c cs : total (merge_into c cs) = total (c :: cs).
Proof.
  revert c. induction cs as [|d cs IH]; intros c; [done|]. merge_cases c d; cbn [total] in *; rewrite ?IH; cbn [c_size]; lia.
Qed.

Lemma merge_into_used c cs : filter (fun d => c_used d) (merge_into c cs) = filter (fun d => c_used d) (c :: cs).
Proof.
  revert c. induction cs as [|d cs IH]; intros c; [done|]. merge_cases c d.
  - rewrite !filter_cons. by rewrite IH, filter_cons.
  - assert (c_used c = false /\ c_used d = false) as [Hc Hd] by by destruct (c_used c), (c_used d).
    rewrite IH, !filter_cons. cbn [c_used]. by rewrite Hc, Hd.
Qed.

Lemma merge_into_head c cs : exists d r, merge_into c cs = d :: r /\ c_used d = c_used c /\ c_addr d = c_addr c.
Proof.
  revert c. induction cs as [|d cs IH]; intros c; [by eexists c, _|]. merge_cases c d; [by eexists c, _|].
  destruct (IH (mk_chunk (c_addr c) (c_size c + (HDR + c_size d)) false)) as (e & r & -> & ? & ?).
  exists e, r. split; [done|]. cbn in *. split; [|done]. by destruct (c_used c), (c_used d).
Qed.

Lemma merge_into_coalesced c cs : coalesced (merge_into c cs) = true.
Proof.
  revert c. induction cs as [|d cs IH]; intros c; [done|]. merge_cases c d; [|apply IH].
  specialize (IH d). destruct (merge_into_head d cs) as (e & r & He & Hu & _). rewrite He in *.
  change ((c_used c || c_used e) && coalesced (e :: r) = true). rewrite IH, Hu, andb_true_r. done.
Qed.

Lemma merge_into_id c cs : coalesced (c :: cs) = true -> merge_into c cs = c :: cs.
Proof.
  revert c. induction cs as [|d cs IH]; intros c; [done|].
  cbn [coalesced]. intros [H1 H2]%andb_true_iff. rewrite merge_into_skip by done. by rewrite IH.
Qed.

Lemma coalesce_id cs : coalesced cs = true -> coalesce cs = cs.
Proof. destruct cs; [done|apply merge_into_id]. Qed.

Lemma coalesce_ordered lo hi cs : ordered lo hi cs -> ordered lo hi (coalesce cs).
Proof. destruct cs; [done|apply merge_into_ordered]. Qed.
Lemma coalesce_tiled lo hi cs : tiled lo hi cs -> tiled lo hi (coalesce cs).
Proof. destruct cs; [done|apply merge_into_tiled]. Qed.
Lemma coalesce_total cs : total (coalesce cs) = total cs.
Proof. destruct cs; [done|apply merge_into_total]. Qed.
Lemma coalesce_coalesced cs : coalesced (coalesce cs) = true.
Proof. destruct cs; [done|apply merge_into_coalesced]. Qed.
Lemma coalesce_used cs : filter (fun d => c_used d) (coalesce cs) = filter (fun d => c_used d) cs.
Proof. destruct cs; [done|apply merge_into_used]. Qed.

(** coalescing below an already coalesced prefix *)
Lemma coalesce_prefix l1 c l2 e X :
  coalesced (l1 ++ c :: l2) = true -> c_used e = c_used c -> merge_into e X = c :: l2 ->
  coalesce (l1 ++ e :: X) = l1 ++ c :: l2.
Proof.
  intros Hc He HX. induction l1 as [|d l1 IH]; [done|].
  cbn [app]. cbn [coalesce]. destruct l1 as [|d' l1]; cbn [app coalesced] in *;
    apply andb_true_iff in Hc as [Hu Hc].
  - rewrite merge_into_skip by (by rewrite He). by rewrite HX.
  - rewrite merge_into_skip by done. f_equal. by apply IH.
Qed.

Lemma payload_ne lo hi l1 c l2 d l3 : ordered lo hi (l1 ++ c :: l2 ++ d :: l3) -> payload c <> payload d.
Proof.
  intros Ho. pose proof (ordered_disjoint _ _ _ _ _ _ _ Ho) as Hd.
  destruct (ordered_in _ _ _ c Ho) as (_&_&_&_&?).
  { rewrite elem_of_app, elem_of_cons. tauto. }
  unfold payload, c_end, HDR in *. lia.
Qed.

(** ** Marking free *)

Lemma mark_free_none p cs : (forall c, c ∈ cs -> payload c <> p) -> mark_free p cs = cs.
Proof.
  intros H. unfold mark_free. induction cs as [|c cs IH]; [done|]. cbn [map].
  rewrite IH by (intros d Hd; apply H; by right).
  destruct (Z.eqb_spec (payload c) p); [|done]. by destruct (H c ltac:(by left)).
Qed.

(** payload addresses identify the chunks of an ordered list *)
Lemma mark_free_mid lo hi l1 c l2 :
  ordered lo hi (l1 ++ c :: l2) -> mark_free (payload c) (l1 ++ c :: l2) = l1 ++ set_used false c :: l2.
Proof.
  intros Ho. unfold mark_free. rewrite map_app. cbn [map]. rewrite Z.eqb_refl.
  f_equal; [|f_equal]; apply mark_free_none; intros d Hd Heq;
    apply list_elem_of_split in Hd as (k1 & k2 & ->).
  - rewrite <- app_assoc in Ho. cbn [app] in Ho. by apply payload_ne in Ho.
  - by apply payload_ne in Ho.
Qed.

Lemma set_used_ordered lo hi l1 c l2 b :
  ordered lo hi (l1 ++ c :: l2) -> ordered lo hi (l1 ++ set_used b c :: l2).
Proof. rewrite !ordered_app. intros (m & H1 & H2). by exists m. Qed.

Lemma set_used_tiled lo hi l1 c l2 b :
  tiled lo hi (l1 ++ c :: l2) -> tiled lo hi (l1 ++ set_used b c :: l2).
Proof. rewrite !tiled_app. intros (m & H1 & H2). by exists m. Qed.

Lemma payload_inj lo hi cs c d :
  ordered lo hi cs -> c ∈ cs -> d ∈ cs -> payload c = payload d -> c = d.
Proof.
  intros Ho Hc Hd Heq. apply list_elem_of_split in Hc as (l1 & l2 & ->).
  apply elem_of_app in Hd as [Hd|Hd]; [|apply elem_of_cons in Hd as [->|Hd]; [done|]];
    apply list_elem_of_split in Hd as (k1 & k2 & ->).
  - rewrite <- app_assoc in Ho. cbn [app] in Ho. by apply payload_ne in Ho.
  - by apply payload_ne in Ho.
Qed.

Lemma chunk_at_mid lo hi l1 c l2 :
  ordered lo hi (l1 ++ c :: l2) -> chunk_at (payload c) (l1 ++ c :: l2) = Some c.
Proof.
  intros Ho. destruct (chunk_at (payload c) (l1 ++ c :: l2)) as [d|] eqn:E.
  - apply find_some in E as [Hin He]. apply Z.eqb_eq in He. f_equal.
    eapply payload_inj; [exact Ho|by apply list_elem_of_In| |done]. rewrite elem_of_app, elem_of_cons. tauto.
  - eapply find_none in E as E'; [|apply in_or_app; right; by left]. cbn in E'. by rewrite Z.eqb_refl in E'.
Qed.

Lemma chunk_at_split p cs c : chunk_at p cs = Some c -> exists l1 l2, cs = l1 ++ c :: l2 /\ payload c = p.
Proof.
  intros H. apply find_some in H as [Hin He]. apply list_elem_of_In, list_elem_of_split in Hin as (l1&l2&->).
  apply Z.eqb_eq in He. eauto.
Qed.

Lemma carve_in_ordered size lo hi l1 c l2 :
  0 <= size -> size mod 16 = 0 -> size <= c_size c ->
  ordered lo hi (l1 ++ c :: l2) -> ordered lo hi (l1 ++ carve size c ++ l2).
Proof.
  intros H0 H16 Hs Ho.
  apply ordered_app in Ho as (m & H1 & H2). apply ordered_app. exists m. split; [done|].
  apply (ordered_app m hi [c] l2) in H2 as (m' & H2 & H3). apply ordered_app. exists m'.
  split; [by apply carve_ordered|done].
Qed.

(** ** Release undoes allocation *)

Lemma carve_release l1 c l2 size lo hi :
  ordered lo hi (l1 ++ c :: l2) -> coalesced (l1 ++ c :: l2) = true ->
  0 <= size -> size mod 16 = 0 -> fits size c = true ->
  release (payload c) (l1 ++ carve size c ++ l2) = l1 ++ c :: l2.
Proof.
  intros Ho Hco H0 H16 Hf. pose proof Hf as [Hu Hs]%fits_true.
  pose proof (carve_in_ordered size _ _ _ _ _ H0 H16 Hs Ho) as Hoc.
  assert (Hid : merge_into c l2 = c :: l2).
  { apply merge_into_id. clear -Hco. induction l1 as [|d l1 IH]; [done|]. apply IH.
    cbn [app] in Hco. destruct (l1 ++ c :: l2) eqn:E; [done|]. by apply andb_true_iff in Hco as [_ ?]. }
  unfold release. revert Hoc. unfold carve. destruct (MIN_CHUNK_SIZE <? c_size c - size); intros Hoc; cbn [app] in *.
  - set (e := mk_chunk (c_addr c) size true) in *. change (payload c) with (payload e).
    erewrite mark_free_mid by exact Hoc. apply coalesce_prefix; [done|by rewrite Hu|].
    rewrite merge_into_merge by done. cbn [c_addr c_size set_used e].
    replace (mk_chunk _ _ _) with c; [done|]. destruct c as [a sz u]. cbn in *. subst u. f_equal. lia.
  - set (e := mk_chunk (c_addr c) (c_size c) true) in *. change (payload c) with (payload e).
    erewrite mark_free_mid by exact Hoc. apply coalesce_prefix; [done|by rewrite Hu|].
    replace (set_used false e) with c; [done|]. destruct c as [a sz u]. cbn in *. by subst u.
Qed.

(** ** What allocation keeps *)

Lemma coalesced_app_r l1 l2 : coalesced (l1 ++ l2) = true -> coalesced l2 = true.
Proof.
  induction l1 as [|d l1 IH]; [done|]. intros H. apply IH. cbn [app coalesced] in H.
  destruct (l1 ++ l2); [done|]. by apply andb_true_iff in H as [_ ?].
Qed.

Lemma coalesced_flag c d l : c_used c = c_used d -> coalesced (c :: l) = coalesced (d :: l).
Proof. intros H. destruct l; cbn [coalesced]; [done|]. by rewrite H. Qed.

(** a used chunk may follow anything *)
Lemma coalesced_put l1 c l2 e X :
  coalesced (l1 ++ c :: l2) = true -> c_used e = true -> coalesced (e :: X) = true ->
  coalesced (l1 ++ e :: X) = true.
Proof.
  intros Hc He HX. induction l1 as [|d l1 IH]; [done|]. cbn [app coalesced] in *.
  destruct l1 as [|d' l1]; cbn [app] in *; apply andb_true_iff in Hc as [Hu Hc]; apply andb_true_iff.
  - by rewrite He, orb_true_r.
  - split; [done|by apply IH].
Qed.

Lemma carve_coalesced size l1 c l2 :
  coalesced (l1 ++ c :: l2) = true -> c_used c = false -> coalesced (l1 ++ carve size c ++ l2) = true.
Proof.
  intros Hc Hu. pose proof (coalesced_app_r _ _ Hc) as Hr. unfold carve.
  destruct (_ <? _); cbn [app]; (eapply coalesced_put; [exact Hc|done|]).
  - apply andb_true_intro. split; [done|].
    etrans; [|exact Hr]. by apply (coalesced_flag (mk_chunk _ _ false) c).
  - destruct l2 as [|d l2]; [done|]. cbn [coalesced] in *. by apply andb_true_iff in Hr as [_ ?].
Qed.

Lemma carve_in_tiled size lo hi l1 c l2 :
  tiled lo hi (l1 ++ c :: l2) -> tiled lo hi (l1 ++ carve size c ++ l2).
Proof.
  intros Ho. apply tiled_app in Ho as (m & H1 & H2). apply tiled_app. exists m. split; [done|].
  apply (tiled_app m hi [c] l2) in H2 as (m' & H2 & H3). apply tiled_app. exists m'.
  split; [by apply carve_tiled|done].
Qed.

(** ** Growing and shrinking *)

(** the used chunk at [p] takes space from the free chunk after it; the rest of
    that chunk gets a new header 32 bytes further on than the space requires *)
Fixpoint extend (p new : Z) (cs : list chunk) : option (list chunk) :=
  match cs with
  | [] => None
  | o :: cs' =>
      if payload o =? p then
        match cs' with
        | n :: rest =>
            let extra := new - c_size o in
            if negb (c_used n) && (extra + HDR <=? c_size n) then
              Some (mk_chunk (c_addr o) new (c_used o) ::
                    mk_chunk (c_addr n + HDR + extra) (c_size n - extra - HDR) false :: rest)
            else None
        | [] => None
        end
      else match extend p new cs' with Some r => Some (o :: r) | None => None end
  end.

Definition shrink (p new : Z) (cs : list chunk) : list chunk :=
  flat_map (fun c => if payload c =? p then carve new c else [c]) cs.

Definition relocate (p new : Z) (cs : list chunk) : option (Z * list chunk) :=
  match first_fit new cs with
  | Some (p', r) => Some (p', release p r)
  | None => None
  end.

(** [krealloc] of the chunk [o] at [p] to the rounded size [new] *)
Definition resize (p new : Z) (o : chunk) (cs : list chunk) : option (Z * list chunk) :=
  if c_size o <? new then
    match extend p new cs with
    | Some r => Some (p, r)
    | None => relocate p new cs
    end
  else if new <? c_size o then
    if MIN_CHUNK_SIZE <? c_size o - new then Some (p, coalesce (shrink p new cs))
    else relocate p new cs
  else Some (p, cs).

(** ** Used chunks stay where they are *)

Lemma coalesce_keeps cs d : c_used d = true -> d ∈ coalesce cs <-> d ∈ cs.
Proof.
  intros Hu. assert (H : forall l : list chunk, d ∈ l <-> d ∈ filter (fun d => c_used d) l).
  { intros l. rewrite list_elem_of_filter, Hu. cbn. tauto. }
  by rewrite (H (coalesce cs)), (H cs), coalesce_used.
Qed.

Lemma mark_free_keeps p cs d : payload d <> p -> d ∈ cs -> d ∈ mark_free p cs.
Proof.
  intros Hp Hd. unfold mark_free. apply list_elem_of_In, in_map_iff. exists d.
  rewrite (proj2 (Z.eqb_neq _ _) Hp). split; [done|by apply list_elem_of_In].
Qed.

Lemma release_keeps p cs d : c_used d = true -> payload d <> p -> d ∈ cs -> d ∈ release p cs.
Proof. intros Hu Hp Hd. apply coalesce_keeps; [done|]. by apply mark_free_keeps. Qed.

Lemma first_fit_keeps size cs p r d :
  first_fit size cs = Some (p, r) -> c_used d = true -> d ∈ cs -> d ∈ r.
Proof.
  intros Hf Hu Hd. pose proof (first_fit_split size cs) as H. rewrite Hf in H.
  destruct H as (l1 & c & l2 & -> & [Hc _]%fits_true & _ & -> & ->).
  rewrite !elem_of_app. apply elem_of_app in Hd as [?|[->|?]%elem_of_cons]; [tauto|congruence|tauto].
Qed.

(** the block handed out: used, large enough, and not the payload of a used chunk *)
Lemma first_fit_block size cs p r :
  first_fit size cs = Some (p, r) ->
  exists b, b ∈ r /\ payload b = p /\ c_used b = true /\ size <= c_size b.
Proof.
  intros Hf. pose proof (first_fit_split size cs) as H. rewrite Hf in H.
  destruct H as (l1 & c & l2 & -> & Hc & _ & -> & ->).
  destruct (carve_head size c) as (s & Hh & Hs). apply head_Some in Hh as [l' Hh]. rewrite Hh.
  eexists. split; [rewrite elem_of_app; right; by left|]. split_and!; [done|done|]. by apply Hs.
Qed.

Lemma first_fit_fresh size lo hi cs p r d :
  ordered lo hi cs -> first_fit size cs = Some (p, r) -> c_used d = true -> d ∈ cs -> payload d <> p.
Proof.
  intros Ho Hf Hu Hd. pose proof (first_fit_split size cs) as H. rewrite Hf in H.
  destruct H as (l1 & c & l2 & -> & [Hc _]%fits_true & _ & -> & _). intros Heq.
  assert (d = c); [|congruence]. eapply payload_inj; [exact Ho|done| |done].
  rewrite elem_of_app, elem_of_cons. tauto.
Qed.

Lemma first_fit_ordered size lo hi cs p r :
  ordered lo hi cs -> 0 <= size -> size mod 16 = 0 -> first_fit size cs = Some (p, r) -> ordered lo hi r.
Proof.
  intros Ho H0 H16 Hf. pose proof (first_fit_split size cs) as H. rewrite Hf in H.
  destruct H as (l1 & c & l2 & -> & [_ Hc]%fits_true & _ & -> & ->). by apply carve_in_ordered.
Qed.

(** distinct chunks of an ordered list are disjoint *)
Lemma ordered_apart lo hi cs c d :
  ordered lo hi cs -> c ∈ cs -> d ∈ cs -> c <> d -> c_end c <= c_addr d \/ c_end d <= c_addr c.
Proof.
  intros Ho Hc Hd Hne. apply list_elem_of_split in Hc as (l1 & l2 & ->).
  apply elem_of_app in Hd as [Hd|Hd]; [|apply elem_of_cons in Hd as [->|Hd]; [done|]];
    apply list_elem_of_split in Hd as (k1 & k2 & ->).
  - right. rewrite <- app_assoc in Ho. by apply ordered_disjoint in Ho.
  - left. by apply ordered_disjoint in Ho.
Qed.

(** ** Growing and shrinking one chunk of an ordered list *)

Lemma skip_eqb lo hi l1 d l2 o l3 : ordered lo hi (l1 ++ d :: l2 ++ o :: l3) -> (payload d =? payload o) = false.
Proof. intros Ho. apply Z.eqb_neq. by eapply payload_ne. Qed.

Definition grown (o n : chunk) (new : Z) : list chunk :=
  let extra := new - c_size o in
  [mk_chunk (c_addr o) new (c_used o); mk_chunk (c_addr n + HDR + extra) (c_size n - extra - HDR) false].

Lemma extend_at new lo hi l1 o n l2 :
  ordered lo hi (l1 ++ o :: n :: l2) ->
  extend (payload o) new (l1 ++ o :: n :: l2) =
    if negb (c_used n) && (new - c_size o + HDR <=? c_size n) then Some (l1 ++ grown o n new ++ l2) else None.
Proof.
  revert lo. induction l1 as [|d l1 IH]; intros lo Ho; cbn [app extend].
  - rewrite Z.eqb_refl. by destruct (_ && _).
  - rewrite (skip_eqb lo hi [] d l1 o (n :: l2) Ho). cbn [app ordered] in Ho.
    erewrite IH by apply Ho. by destruct (_ && _).
Qed.

Lemma extend_last lo hi new l1 o : ordered lo hi (l1 ++ [o]) -> extend (payload o) new (l1 ++ [o]) = None.
Proof.
  revert lo. induction l1 as [|d l1 IH]; intros lo Ho; cbn [app extend].
  - by rewrite Z.eqb_refl.
  - rewrite (skip_eqb lo hi [] d l1 o [] Ho). cbn [app ordered] in Ho. erewrite IH by apply Ho. done.
Qed.

Lemma grown_ordered new lo hi l1 o n l2 :
  ordered lo hi (l1 ++ o :: n :: l2) -> c_size o < new -> new mod 16 = 0 -> new - c_size o + HDR <= c_size n ->
  ordered lo hi (l1 ++ grown o n new ++ l2).
Proof.
  intros Ho Hlt H16 Hfit. apply ordered_app in Ho as (mid & H1 & Ho). apply ordered_app. exists mid. split; [done|].
  unfold grown. cbn [app ordered] in *. unfold c_end, HDR in *. cbn [c_addr c_size] in *.
  destruct Ho as (?&?&?&?&?&?&?&?&Ho). split_and!; try dlia. eapply ordered_weaken; [exact Ho|lia].
Qed.

Lemma shrink_at new lo hi l1 o l2 :
  ordered lo hi (l1 ++ o :: l2) -> shrink (payload o) new (l1 ++ o :: l2) = l1 ++ carve new o ++ l2.
Proof.
  assert (Hid : forall l : list chunk, (forall d, d ∈ l -> (payload d =? payload o) = false) -> shrink (payload o) new l = l).
  { intros l. unfold shrink. induction l as [|d l IH]; intros H; [done|]. cbn [flat_map].
    rewrite H by by left. cbn [app]. f_equal. apply IH. intros e He. apply H. by right. }
  intros Ho. unfold shrink. rewrite flat_map_app. cbn [flat_map]. rewrite Z.eqb_refl.
  fold (shrink (payload o) new l1) (shrink (payload o) new l2).
  rewrite !Hid; [done| |]; intros d Hd; apply list_elem_of_split in Hd as (k1 & k2 & ->); apply Z.eqb_neq.
  - apply not_eq_sym. by eapply payload_ne.
  - rewrite <- app_assoc in Ho. cbn [app] in Ho. by eapply payload_ne.
Qed.

(** ** Used chunks, before and after an operation *)

Lemma release_used p cs d : c_used d = true -> d ∈ release p cs -> d ∈ cs /\ payload d <> p.
Proof.
  intros Hu. unfold release. rewrite coalesce_keeps by done. unfold mark_free. intros Hd.
  apply list_elem_of_fmap in Hd as (c & -> & Hc). destruct (Z.eqb_spec (payload c) p); [done|by split].
Qed.

Lemma carve_used new c d : d ∈ carve new c -> c_used d = true -> payload d = payload c.
Proof.
  unfold carve. destruct (_ <? _); rewrite ?elem_of_cons, elem_of_nil; [intros [->|[->|?]]|intros [->|?]]; done.
Qed.

Lemma first_fit_used size cs p r d : first_fit size cs = Some (p, r) -> c_used d = true -> d ∈ r -> payload d = p \/ d ∈ cs.
Proof.
  intros Hf Hu Hd. pose proof (first_fit_split size cs) as H. rewrite Hf in H.
  destruct H as (l1 & c & l2 & -> & _ & _ & -> & ->). rewrite !elem_of_app, elem_of_cons in *.
  destruct Hd as [?|[Hd|?]]; [tauto| |tauto]. left. by eapply carve_used.
Qed.

(** the block [resize] answers with, and the blocks that stay *)
Lemma relocate_block lo hi new cs o p' r :
  ordered lo hi cs -> o ∈ cs -> c_used o = true -> relocate (payload o) new cs = Some (p', r) ->
  (exists b, b ∈ r /\ payload b = p' /\ c_used b = true /\ new <= c_size b) /\
  (forall d, d ∈ cs -> c_used d = true -> payload d <> payload o -> d ∈ r).
Proof.
  intros Ho Hin Hu. unfold relocate. destruct (first_fit new cs) as [[q r1]|] eqn:Hf; [|done]. intros [= -> <-]. split.
  - destruct (first_fit_block _ _ _ _ Hf) as (b & Hb & Hpb & Hub & Hs). exists b. split_and!; [|done..].
    apply release_keeps; [done| |done]. rewrite Hpb. intros Heq. by apply (first_fit_fresh _ _ _ _ _ _ o Ho Hf).
  - intros d Hd Hud Hne. apply release_keeps; [done..|]. by eapply first_fit_keeps.
Qed.

Lemma resize_block lo hi new l1 o l2 p' r :
  let cs := l1 ++ o :: l2 in
  ordered lo hi cs -> c_used o = true -> resize (payload o) new o cs = Some (p', r) ->
  (exists b, b ∈ r /\ payload b = p' /\ c_used b = true /\ new <= c_size b) /\
  (forall d, d ∈ cs -> c_used d = true -> payload d <> payload o -> d ∈ r).
Proof.
  intros cs Ho Hu. assert (Hin : o ∈ cs) by (unfold cs; rewrite elem_of_app, elem_of_cons; tauto).
  pose proof (relocate_block lo hi new cs o p' r Ho Hin Hu) as Hrel. unfold resize.
  destruct (Z.ltb_spec (c_size o) new) as [Hg|Hg]; [|destruct (Z.ltb_spec new (c_size o)) as [Hl|Hl];
    [destruct (Z.ltb_spec MIN_CHUNK_SIZE (c_size o - new)) as [Hm|Hm]|]].
  - unfold cs at 1. destruct l2 as [|n l2].
    { rewrite (extend_last lo hi) by done. done. }
    rewrite (extend_at new lo hi) by done. destruct (negb (c_used n) && _) eqn:Hc; [|done].
    apply andb_prop in Hc as [Hn%negb_true_iff _]. intros [= <- <-]. split.
    + exists (mk_chunk (c_addr o) new (c_used o)). split_and!; [|done|done|cbn; lia]. rewrite elem_of_app. right. by left.
    + intros d Hd Hud Hne. unfold cs in Hd. rewrite !elem_of_app, !elem_of_cons in *.
      destruct Hd as [?|[->|[->|?]]]; [tauto|done|congruence|tauto].
  - unfold cs. rewrite (shrink_at new lo hi) by done. intros [= <- <-]. split.
    + exists (mk_chunk (c_addr o) new true). split_and!; [|done|done|cbn; lia]. apply coalesce_keeps; [done|].
      unfold carve. rewrite (proj2 (Z.ltb_lt _ _) Hm), !elem_of_app. right. left. by left.
    + intros d Hd Hud Hne. apply coalesce_keeps; [done|]. rewrite !elem_of_app, elem_of_cons in *.
      destruct Hd as [?|[->|?]]; tauto.
  - done.
  - intros [= <- <-]. split; [exists o; split_and!; [done..|lia]|by intros].
Qed.
