(* ===== verification/Heap.v ===== *)
(** kheap.c: the code of the kernel heap over the machine, the representation of
    a chunk list by its linked headers, and the refinement of [kalloc] and
    [kfree] to the operations of HeapSpec.v. *)

From S2P Require Import Prelude Comp Ram Machine KSpace Utils HeapSpec.

(** ** [struct heapchunk_t]: [size] at 0, [inuse] at 8, [next] at 16, 32 bytes *)
Definition size_at (chunk : Z) : Z := u64 chunk.
Definition inuse_at (chunk : Z) : Z := u64 (chunk + 8).
Definition next_at (chunk : Z) : Z := u64 (chunk + 16).

(** [(size + 15) & ~15] *)
Definition round16 (size : Z) : Z := Z.land (u64 (size + 15)) (u64 (Z.lnot 15)).

Definition heap_init : M unit :=
  start <- getg heap_start ;;
  setg (fun g => set_heap (mk_heapinfo start (avail (heap g))) g) ;;;
  hend <- getg heap_end ;;
  start <- getg heap_start ;;
  setg (fun g => set_heap (mk_heapinfo (heap_first (heap g)) (u64 (hend - start))) g) ;;;
  chunk <- getg (fun g => heap_first (heap g)) ;;
  avail <- getg (fun g => avail (heap g)) ;;
  vstore 8 (size_at chunk) (u64 (avail - HDR)) ;;;
  vstore 1 (inuse_at chunk) 0 ;;;
  vstore 8 (next_at chunk) NULL.

(** fuel of the list traversals: one step per possible header, and the exit *)
Definition heap_fuel : M nat := getg (fun g => Z.to_nat (avail (heap g) / HDR) + 2)%nat.

(** the search loop of [kalloc] *)
Definition find_chunk (size first : Z) : M Z :=
  fuel <- heap_fuel ;;
  while_fuel fuel
    (fun chunk =>
       if chunk =? NULL then ret false else
       inuse <- vload 1 (inuse_at chunk) ;;
       if negb (inuse =? 0) then ret true else
       csize <- vload 8 (size_at chunk) ;;
       ret (negb (size <=? csize)))
    (fun chunk => vload 8 (next_at chunk))
    first.

(** [new->size = size; new->inuse = false; new->next = from->next] *)
Definition put_free_chunk (new_chunk size from : Z) : M unit :=
  vstore 8 (size_at new_chunk) size ;;;
  vstore 1 (inuse_at new_chunk) 0 ;;;
  next <- vload 8 (next_at from) ;;
  vstore 8 (next_at new_chunk) next.

Definition kalloc (size : Z) : M Z :=
  let size := round16 size in
  avail <- getg (fun g => avail (heap g)) ;;
  if avail <? size then ret NULL else
  first <- getg (fun g => heap_first (heap g)) ;;
  chunk <- find_chunk size first ;;
  if chunk =? NULL then ret NULL else
  csize <- vload 8 (size_at chunk) ;;
  let leftover := u64 (csize - size) in
  (if MIN_CHUNK_SIZE <? leftover then
     let new_chunk := u64 (chunk + HDR + size) in
     put_free_chunk new_chunk (u64 (leftover - HDR)) chunk ;;;
     vstore 8 (next_at chunk) new_chunk ;;;
     vstore 8 (size_at chunk) size
   else ret tt) ;;;
  vstore 1 (inuse_at chunk) 1 ;;;
  ret (u64 (chunk + HDR)).

Definition coalesce_chunk : M unit :=
  first <- getg (fun g => heap_first (heap g)) ;;
  fuel <- heap_fuel ;;
  while_fuel fuel
    (fun chunk =>
       if chunk =? NULL then ret false else
       next <- vload 8 (next_at chunk) ;; ret (negb (next =? NULL)))
    (fun chunk =>
       inuse <- vload 1 (inuse_at chunk) ;;
       both <- (if negb (inuse =? 0) then ret false else
                next <- vload 8 (next_at chunk) ;;
                ninuse <- vload 1 (inuse_at next) ;; ret (ninuse =? 0)) ;;
       if both : bool then
         size <- vload 8 (size_at chunk) ;;
         next <- vload 8 (next_at chunk) ;;
         nsize <- vload 8 (size_at next) ;;
         vstore 8 (size_at chunk) (u64 (size + u64 (HDR + nsize))) ;;;
         next <- vload 8 (next_at chunk) ;;
         nnext <- vload 8 (next_at next) ;;
         vstore 8 (next_at chunk) nnext ;;;
         ret chunk
       else vload 8 (next_at chunk))
    first ;;;
  ret tt.

Definition kfree (ptr : Z) : M unit :=
  if ptr =? NULL then ret tt else
  start <- getg heap_start ;;
  hend <- getg heap_end ;;
  if (ptr <? start) || (hend <=? ptr) then ret tt else
  let chunk := u64 (ptr - HDR) in
  inuse <- vload 1 (inuse_at chunk) ;;
  if inuse =? 0 then ret tt else
  vstore 1 (inuse_at chunk) 0 ;;;
  coalesce_chunk.

Definition extendChunkInPlace (ptr new_size old_chunk : Z) : M Z :=
  next <- vload 8 (next_at old_chunk) ;;
  ninuse <- vload 1 (inuse_at next) ;;
  if ninuse =? 0 then
    osize <- vload 8 (size_at old_chunk) ;;
    let extra_space_required := u64 (new_size - osize) in
    next <- vload 8 (next_at old_chunk) ;;
    nsize <- vload 8 (size_at next) ;;
    if u64 (extra_space_required + HDR) <=? nsize then
      next <- vload 8 (next_at old_chunk) ;;
      let split := u64 (next + HDR + extra_space_required) in
      nsize <- vload 8 (size_at next) ;;
      put_free_chunk split (u64 (nsize - extra_space_required - HDR)) next ;;;
      osize <- vload 8 (size_at old_chunk) ;;
      vstore 8 (size_at old_chunk) (u64 (osize + extra_space_required)) ;;;
      vstore 8 (next_at old_chunk) split ;;;
      ret (u64 (old_chunk + HDR))
    else ret NULL
  else ret NULL.

(** "allocate completely new block", copy, free the old one: the two blocks of
    [krealloc] differ only in how they write the minimum of the sizes *)
Definition move_block (ptr new_size old_chunk : Z) : M Z :=
  new_ptr <- kalloc new_size ;;
  if new_ptr =? NULL then ret NULL else
  osize <- vload 8 (size_at old_chunk) ;;
  memcpy new_ptr ptr (Z.min osize new_size) ;;;
  kfree ptr ;;;
  ret new_ptr.

Definition krealloc (ptr new_size : Z) : M Z :=
  let new_size := round16 new_size in
  if ptr =? NULL then kalloc new_size else
  let old_chunk := u64 (ptr - HDR) in
  osize <- vload 8 (size_at old_chunk) ;;
  if osize <? new_size then
    ext <- extendChunkInPlace ptr new_size old_chunk ;;
    if negb (ext =? NULL) then ret ptr else move_block ptr new_size old_chunk
  else
    osize <- vload 8 (size_at old_chunk) ;;
    if new_size <? osize then
      let leftover := u64 (osize - new_size) in
      if MIN_CHUNK_SIZE <? leftover then
        let new_chunk := u64 (old_chunk + HDR + new_size) in
        put_free_chunk new_chunk (u64 (leftover - HDR)) old_chunk ;;;
        osize <- vload 8 (size_at old_chunk) ;;
        vstore 8 (size_at old_chunk) (u64 (osize - leftover)) ;;;
        vstore 8 (next_at old_chunk) new_chunk ;;;
        coalesce_chunk ;;;
        ret (u64 (old_chunk + HDR))
      else if leftover <? MIN_CHUNK_SIZE then move_block ptr new_size old_chunk
      else ret ptr
    else ret ptr.

(** ** Representation *)

Definition b2z (b : bool) : Z := if b then 1 else 0.

(** the pointer to a list: its first header, or [q] *)
Definition cptr (cs : list chunk) (q : Z) : Z :=
  match cs with [] => q | c :: _ => KERNEL_BASE + c_addr c end.

(** the headers of [cs] are in memory, linked, the last [next] being [q] *)
Fixpoint headers (r : ram_t) (cs : list chunk) (q : Z) : Prop :=
  match cs with
  | [] => True
  | c :: cs' =>
      load 8 r (c_addr c) = c_size c /\ load 1 r (c_addr c + 8) = b2z (c_used c) /\
      load 8 r (c_addr c + 16) = cptr cs' q /\ headers r cs' q
  end.

(** the bytes of the headers *)
Definition hdr_bytes (cs : list chunk) : Z -> Prop := fun a => exists c, c ∈ cs /\ span (c_addr c) 24 a.

Lemma cptr_app a b q : cptr (a ++ b) q = cptr a (cptr b q).
Proof. by destruct a. Qed.

Lemma headers_app r a b q : headers r (a ++ b) q <-> headers r a (cptr b q) /\ headers r b q.
Proof.
  induction a as [|c a IH]; cbn [app headers]; [tauto|]. rewrite IH, cptr_app. tauto.
Qed.

Lemma headers_agree r r' cs q : agree (hdr_bytes cs) r r' -> headers r cs q -> headers r' cs q.
Proof.
  induction cs as [|c cs IH]; cbn [headers]; [done|]. intros Ha (H1 & H2 & H3 & H4).
  assert (Hc : agree (span (c_addr c) 24) r r').
  { intros b Hb. apply Ha. exists c. split; [by left|done]. }
  rewrite (load_agree 8 r r' (c_addr c)), (load_agree 1 r r' (c_addr c + 8)), (load_agree 8 r r' (c_addr c + 16)).
  - split_and!; [done..|]. apply IH; [|done]. intros b (d & Hd & Hb). apply Ha. exists d. split; [by right|done].
  - intros b Hb. apply Hc. unfold span in *. lia.
  - intros b Hb. apply Hc. unfold span in *. lia.
  - intros b Hb. apply Hc. unfold span in *. lia.
Qed.

Record heap_rep (K : ktables) (lo hi : Z) (cs : list chunk) (m : machine) : Prop := mk_heap_rep {
  hr_k : kspace K m;
  hr_lo : 0 <= lo;
  hr_hi : hi <= KWIN;
  hr_start : heap_start (glb m) = KERNEL_BASE + lo;
  hr_end : heap_end (glb m) = KERNEL_BASE + hi;
  hr_first : heap_first (heap (glb m)) = KERNEL_BASE + lo;
  hr_avail : avail (heap (glb m)) = hi - lo;
  hr_sep : forall a, lo <= a < hi -> ~ ktab K a;
  hr_ord : ordered lo hi cs;
  hr_head : cptr cs NULL = KERNEL_BASE + lo;
  hr_mem : headers (ram m) cs NULL
}.

Lemma field_addrs a : 0 <= a -> a + 24 <= KWIN ->
  size_at (KERNEL_BASE + a) = KERNEL_BASE + a /\ inuse_at (KERNEL_BASE + a) = KERNEL_BASE + (a + 8) /\
  next_at (KERNEL_BASE + a) = KERNEL_BASE + (a + 16).
Proof. unfold size_at, inuse_at, next_at, KWIN. intros. zconst. rewrite !u64_small by lia. lia. Qed.

Lemma round16_spec size : round16 size = 16 * (u64 (size + 15) / 16).
Proof.
  unfold round16. rewrite land_not_15 by apply u64_range.
  lia.
Qed.

Lemma round16_range size : 0 <= round16 size < 2 ^ 64 /\ round16 size mod 16 = 0.
Proof. rewrite round16_spec. pose proof (u64_range (size + 15)). split; dlia. Qed.

(** away from the top of the range the request is rounded up *)
Lemma round16_up size : 0 <= size <= 2 ^ 64 - 16 -> size <= round16 size < size + 16.
Proof. intros. rewrite round16_spec, u64_small by lia. dlia. Qed.

Lemma round16_id size : 0 <= size < 2 ^ 64 -> size mod 16 = 0 -> round16 size = size.
Proof. intros. rewrite round16_spec, u64_small by dlia. dlia. Qed.

Lemma hdr_bytes_app a b x : hdr_bytes (a ++ b) x <-> hdr_bytes a x \/ hdr_bytes b x.
Proof.
  unfold hdr_bytes. split.
  - intros (c & [?|?]%elem_of_app & ?); [left|right]; eauto.
  - intros [(c & ? & ?)|(c & ? & ?)]; exists c; (split; [apply elem_of_app|done]); [by left|by right].
Qed.

Lemma hdr_range lo hi cs a : ordered lo hi cs -> hdr_bytes cs a -> lo <= a < hi.
Proof.
  intros Ho (c & Hc & Ha). destruct (ordered_in _ _ _ _ Ho Hc) as (?&?&_&_&?).
  unfold span, c_end, HDR in *. lia.
Qed.

Lemma hdr_disjoint lo hi a b x : ordered lo hi (a ++ b) -> hdr_bytes a x -> hdr_bytes b x -> False.
Proof.
  intros Ho Ha Hb. apply ordered_app in Ho as (mid & H1 & H2).
  apply (hdr_range _ _ _ _ H1) in Ha. apply (hdr_range _ _ _ _ H2) in Hb. lia.
Qed.

Lemma hdr_bytes_cons c cs a : hdr_bytes (c :: cs) a <-> span (c_addr c) 24 a \/ hdr_bytes cs a.
Proof.
  unfold hdr_bytes. split.
  - intros (d & [->|?]%elem_of_cons & ?); [by left|right; eauto].
  - intros [?|(d & ? & ?)]; [exists c|exists d]; (split; [apply elem_of_cons|done]); auto.
Qed.

Lemma hdr_bytes_nil a : hdr_bytes [] a <-> False.
Proof. split; [|done]. by intros (c & ?%elem_of_nil & _). Qed.

(** header bytes inside the heap are not page tables *)
Lemma hdr_not_ktab K lo hi cs m a b n : heap_rep K lo hi cs m -> lo <= a -> a + n <= hi -> span a n b -> ~ ktab K b.
Proof. intros Hr ? ? Hb. apply (hr_sep _ _ _ _ _ Hr). unfold span in Hb. lia. Qed.

(** side conditions of a store into a header *)
Ltac in_hdr := intros a Ha; split;
  [rewrite !hdr_bytes_cons; unfold span in *; cbn [c_addr] in *; lia
  |eapply hdr_not_ktab; [eassumption| | |exact Ha]; cbn; lia].

Section Heap.
Context {QT : Quiet} (K : ktables) (lo hi : Z).
Implicit Types m : machine.
Local Abbreviation heap_rep := (heap_rep K lo hi).

Lemma heap_rep_warm cs m m' : warm m m' -> heap_rep cs m -> heap_rep cs m'.
Proof.
  intros Hw []. split; rewrite ?(warm_glb _ _ Hw), ?(warm_ram _ _ Hw); try done. by eapply kspace_warm.
Qed.

(** steps of other components *)
Lemma heap_rep_step W cs m m' : wstep W m m' -> (forall a, lo <= a < hi \/ ktab K a -> ~ W a) -> heap_rep cs m -> heap_rep cs m'.
Proof.
  intros Hs Hd Hr. pose proof Hr as []. split; rewrite ?(ws_glb _ _ _ Hs); try done.
  - eapply kspace_wstep; [done|exact Hs|auto].
  - eapply headers_agree; [|done]. eapply agree_weaken; [apply Hs|]. intros a Ha. apply Hd. left. by eapply hdr_range.
Qed.

Lemma heap_rep_hw h cs m : heap_rep cs m -> heap_rep cs (set_hw h m).
Proof. intros []. split; try done. by apply kspace_set_hw. Qed.

(** the run of chunks [Y] of the list replaced by [X], writing headers only *)
Lemma heap_update l1 Y l2 X m m' :
  heap_rep (l1 ++ Y ++ l2) m -> kspace K m' -> glb m' = glb m ->
  ordered lo hi (l1 ++ X ++ l2) -> (forall q, cptr X q = cptr Y q) ->
  agree (fun a => ~ (hdr_bytes Y a \/ hdr_bytes X a)) (ram m) (ram m') ->
  headers (ram m') X (cptr l2 NULL) -> heap_rep (l1 ++ X ++ l2) m'.
Proof.
  intros [] Hk Hg Ho Hhd Ha Hh. split; rewrite ?Hg; try done.
  - rewrite <- hr_head0. by rewrite !cptr_app, Hhd.
  - rewrite !headers_app in *. destruct hr_mem0 as (H1 & H2 & H3).
    rewrite !cptr_app in *. rewrite Hhd.
    assert (Hd1 : forall a, hdr_bytes l1 a -> ~ (hdr_bytes Y a \/ hdr_bytes X a)).
    { intros a Ha1 [H|H].
      - apply (hdr_disjoint _ _ _ _ a hr_ord0 Ha1). apply hdr_bytes_app. by left.
      - apply (hdr_disjoint _ _ _ _ a Ho Ha1). apply hdr_bytes_app. by left. }
    assert (Hd2 : forall a, hdr_bytes l2 a -> ~ (hdr_bytes Y a \/ hdr_bytes X a)).
    { intros a Ha2 [H|H].
      - rewrite app_assoc in hr_ord0. apply (hdr_disjoint _ _ _ _ a hr_ord0); [|done]. apply hdr_bytes_app. by right.
      - rewrite app_assoc in Ho. apply (hdr_disjoint _ _ _ _ a Ho); [|done]. apply hdr_bytes_app. by right. }
    split_and!; [|done|].
    + eapply headers_agree; [|exact H1]. eapply agree_weaken; [exact Ha|exact Hd1].
    + eapply headers_agree; [|exact H3]. eapply agree_weaken; [exact Ha|exact Hd2].
Qed.

(** the fields of a chunk of the list *)
Lemma chunk_fields l1 c l2 m :
  heap_rep (l1 ++ c :: l2) m ->
  load 8 (ram m) (c_addr c) = c_size c /\ load 1 (ram m) (c_addr c + 8) = b2z (c_used c) /\
  load 8 (ram m) (c_addr c + 16) = cptr l2 NULL.
Proof. intros [? ? ? ? ? ? ? ? ? ? H]. rewrite headers_app in H. by destruct H as (_ & ? & ? & ? & _). Qed.

Lemma chunk_range l1 c l2 m :
  heap_rep (l1 ++ c :: l2) m ->
  lo <= c_addr c /\ 0 <= c_addr c /\ c_addr c + 32 + c_size c <= KWIN /\ c_addr c + 32 + c_size c <= hi /\
  0 <= c_size c < 2 ^ 63 /\ c_size c mod 16 = 0 /\ c_addr c mod 16 = 0.
Proof.
  intros []. destruct (ordered_in _ _ _ c hr_ord0) as (?&?&?&?&?); [rewrite elem_of_app, elem_of_cons; tauto|].
  unfold c_end, HDR, KWIN in *. split_and!; lia.
Qed.

Lemma wp_chunk_size l1 c l2 m (Q : Z -> machine -> Prop) E :
  heap_rep (l1 ++ c :: l2) m -> (forall m', warm m m' -> heap_rep (l1 ++ c :: l2) m' -> Q (c_size c) m') ->
  wp (vload 8 (size_at (KERNEL_BASE + c_addr c))) Q E m.
Proof.
  intros Hr HQ. destruct (chunk_range _ _ _ _ Hr) as (?&?&?&?&?&_). destruct (chunk_fields _ _ _ _ Hr) as (Hl&_&_).
  destruct (field_addrs (c_addr c)) as (-> & _ & _); [lia..|].
  apply (wp_kload K 8); [apply Hr|lia|lia|]. intros m' Hw _. rewrite Hl. apply HQ; [done|by eapply heap_rep_warm].
Qed.

Lemma wp_chunk_inuse l1 c l2 m (Q : Z -> machine -> Prop) E :
  heap_rep (l1 ++ c :: l2) m -> (forall m', warm m m' -> heap_rep (l1 ++ c :: l2) m' -> Q (b2z (c_used c)) m') ->
  wp (vload 1 (inuse_at (KERNEL_BASE + c_addr c))) Q E m.
Proof.
  intros Hr HQ. destruct (chunk_range _ _ _ _ Hr) as (?&?&?&?&?&_). destruct (chunk_fields _ _ _ _ Hr) as (_&Hl&_).
  destruct (field_addrs (c_addr c)) as (_ & -> & _); [lia..|].
  apply (wp_kload K 1); [apply Hr|lia|lia|]. intros m' Hw _. rewrite Hl. apply HQ; [done|by eapply heap_rep_warm].
Qed.

Lemma wp_chunk_next l1 c l2 m (Q : Z -> machine -> Prop) E :
  heap_rep (l1 ++ c :: l2) m -> (forall m', warm m m' -> heap_rep (l1 ++ c :: l2) m' -> Q (cptr l2 NULL) m') ->
  wp (vload 8 (next_at (KERNEL_BASE + c_addr c))) Q E m.
Proof.
  intros Hr HQ. destruct (chunk_range _ _ _ _ Hr) as (?&?&?&?&?&_). destruct (chunk_fields _ _ _ _ Hr) as (_&_&Hl).
  destruct (field_addrs (c_addr c)) as (_ & _ & ->); [lia..|].
  apply (wp_kload K 8); [apply Hr|lia|lia|]. intros m' Hw _. rewrite Hl. apply HQ; [done|by eapply heap_rep_warm].
Qed.

Lemma cptr_null cs : (forall c, c ∈ cs -> 0 <= c_addr c) -> (cptr cs NULL =? NULL) = match cs with [] => true | _ => false end.
Proof.
  destruct cs as [|c cs]; [done|]. intros H. specialize (H c ltac:(by left)). cbn [cptr].
  apply Z.eqb_neq. unfold KERNEL_BASE, NULL. lia.
Qed.

Lemma heap_cptr_null l1 l2 m :
  heap_rep (l1 ++ l2) m -> (cptr l2 NULL =? NULL) = match l2 with [] => true | _ => false end.
Proof.
  intros [? Hl ? ? ? ? ? ? Ho ? ?]. apply cptr_null. intros c Hc.
  destruct (ordered_in _ _ _ c Ho) as (?&_); [by rewrite elem_of_app; right|]. lia.
Qed.

(** enough fuel for a traversal *)
Lemma wp_heap_fuel cs m (Q : nat -> machine -> Prop) E :
  heap_rep cs m -> (forall n, (length cs < n)%nat -> Q n m) -> wp heap_fuel Q E m.
Proof.
  intros Hr HQ. unfold heap_fuel. wp_steps. apply HQ. rewrite (hr_avail _ _ _ _ _ Hr).
  pose proof (ordered_le _ _ _ (hr_ord _ _ _ _ _ Hr)). unfold HDR in *.
  assert (Z.of_nat (length cs) <= (hi - lo) / 32) by (apply Z.div_le_lower_bound; lia). lia.
Qed.

Lemma b2z_eqb b : (b2z b =? 0) = negb b.
Proof. by destruct b. Qed.

(** ** The search loop finds the first fitting chunk *)
Lemma wp_find_chunk size cs m (Q : Z -> machine -> Prop) E :
  heap_rep cs m ->
  (forall l1 c l2 m', cs = l1 ++ c :: l2 -> Forall (fun d => fits size d = false) l1 -> fits size c = true ->
     warm m m' -> Q (KERNEL_BASE + c_addr c) m') ->
  (Forall (fun d => fits size d = false) cs -> forall m', warm m m' -> Q NULL m') ->
  wp (find_chunk size (KERNEL_BASE + lo)) Q E m.
Proof.
  intros Hr Hfound Hnone. unfold find_chunk. apply wp_bind. apply (wp_heap_fuel cs); [done|]. intros fuel Hfuel.
  apply (wp_while_var (fun k ptr m' => exists l1 l2, cs = l1 ++ l2 /\ length l2 = k /\
    Forall (fun d => fits size d = false) l1 /\ ptr = cptr l2 NULL /\ warm m m') (length cs)); [|done|].
  { exists [], cs. split_and!; [done..|by rewrite (hr_head _ _ _ _ _ Hr)|done]. }
  intros k ptr m1 (l1 & l2 & Hcs & <- & Hl1 & -> & Hw1).
  assert (Hr1 : heap_rep (l1 ++ l2) m1) by (rewrite <- Hcs; by eapply heap_rep_warm).
  rewrite (heap_cptr_null _ _ _ Hr1). destruct l2 as [|c l2].
  { wp_steps. apply Hnone; [|done]. by rewrite Hcs, app_nil_r. }
  cbn [cptr]. apply wp_bind, (wp_chunk_inuse l1 c l2); [done|]. intros m2 Hw2 Hr2. rewrite b2z_eqb, negb_involutive.
  assert (Hgo : forall m3, warm m2 m3 -> fits size c = false ->
    wp (vload 8 (next_at (KERNEL_BASE + c_addr c)))
      (fun y' s3 => exists k', (k' < length (c :: l2))%nat /\ exists l1 l2, cs = l1 ++ l2 /\ length l2 = k' /\
        Forall (fun d => fits size d = false) l1 /\ y' = cptr l2 NULL /\ warm m s3) E m3).
  { intros m3 Hw3 Hf. apply (wp_chunk_next l1 c l2); [by eapply heap_rep_warm|]. intros m4 Hw4 _.
    exists (length l2). split; [cbn; lia|]. exists (l1 ++ [c]), l2. split_and!; [by rewrite <- app_assoc|done| |done|].
    - apply Forall_app. split; [done|by constructor].
    - etrans; [exact Hw1|]. etrans; [exact Hw2|]. by etrans. }
  destruct (c_used c) eqn:Hu.
  { wp_steps. apply Hgo; [done|]. unfold fits. by rewrite Hu. }
  apply wp_bind, (wp_chunk_size l1 c l2); [done|]. intros m3 Hw3 Hr3. wp_steps.
  destruct (size <=? c_size c) eqn:Hs; cbn [negb].
  - apply (Hfound l1 c l2); [done|done|unfold fits; by rewrite Hu, Hs|]. etrans; [exact Hw1|]. by etrans.
  - apply Hgo; [done|]. unfold fits. by rewrite Hu, Hs.
Qed.

(** ** Writing headers *)

(** the memory after the three stores of [put_free_chunk] *)
Definition put_hdr (n size inuse next : Z) (r : ram_t) : ram_t :=
  store 8 (n + 16) next (store 1 (n + 8) inuse (store 8 n size r)).

Lemma wp_put_free_chunk (W : Z -> Prop) m0 r m n from size (Q : unit -> machine -> Prop) E :
  at_ram K W m0 r m -> 0 <= n -> n + 24 <= KWIN -> 0 <= from -> from + 24 <= KWIN ->
  (from + 24 <= n \/ n + 24 <= from) -> (forall a, span n 24 a -> W a /\ ~ ktab K a) ->
  (forall m', at_ram K W m0 (put_hdr n size 0 (load 8 r (from + 16)) r) m' -> Q tt m') ->
  wp (put_free_chunk (KERNEL_BASE + n) size (KERNEL_BASE + from)) Q E m.
Proof.
  intros Ha Hn Hn' Hf Hf' Hd HW HQ. unfold put_free_chunk.
  destruct (field_addrs n) as (-> & -> & ->); [lia..|]. destruct (field_addrs from) as (_ & _ & ->); [lia..|].
  apply wp_bind. apply (wp_st K W m0 r); [done|lia|lia|intros a ?; apply HW; unfold span in *; lia|]. intros m1 H1.
  apply wp_bind. eapply (wp_st K W m0); [exact H1|lia|lia|intros a ?; apply HW; unfold span in *; lia|]. intros m2 H2.
  apply wp_bind. eapply (wp_ld K W m0); [exact H2|lia|lia|]. intros m3 H3.
  rewrite !load_store_ne by (cbn; lia).
  eapply (wp_st K W m0); [exact H3|lia|lia|intros a ?; apply HW; unfold span in *; lia|]. intros m4 H4. by apply HQ.
Qed.

(** closing a step of the heap: from the memory reached to the new list *)
Lemma heap_update_at l1 Y l2 X m r m' :
  heap_rep (l1 ++ Y ++ l2) m -> at_ram K (fun a => hdr_bytes Y a \/ hdr_bytes X a) m r m' ->
  ordered lo hi (l1 ++ X ++ l2) -> (forall q, cptr X q = cptr Y q) ->
  headers r X (cptr l2 NULL) ->
  heap_rep (l1 ++ X ++ l2) m' /\
  wstep (fun a => hdr_bytes (l1 ++ Y ++ l2) a \/ hdr_bytes (l1 ++ X ++ l2) a) m m'.
Proof.
  intros Hr [Hk Hs Hram] Ho Hhd Hh. split.
  - eapply heap_update; [exact Hr|done|apply Hs|done|done|apply Hs|by rewrite Hram].
  - eapply wstep_weaken; [exact Hs|]. intros a. rewrite !hdr_bytes_app. tauto.
Qed.

(** the part of [kalloc] after the search *)
Lemma wp_carve l1 c l2 size m (Q : Z -> machine -> Prop) E :
  let chunk := KERNEL_BASE + c_addr c in
  heap_rep (l1 ++ c :: l2) m -> 0 <= size -> size mod 16 = 0 -> size <= c_size c ->
  (forall m', heap_rep (l1 ++ carve size c ++ l2) m' ->
     wstep (fun a => hdr_bytes (l1 ++ c :: l2) a \/ hdr_bytes (l1 ++ carve size c ++ l2) a) m m' ->
     Q (KERNEL_BASE + payload c) m') ->
  wp (csize <- vload 8 (size_at chunk) ;;
      let leftover := u64 (csize - size) in
      (if MIN_CHUNK_SIZE <? leftover then
         let new_chunk := u64 (chunk + HDR + size) in
         put_free_chunk new_chunk (u64 (leftover - HDR)) chunk ;;;
         vstore 8 (next_at chunk) new_chunk ;;;
         vstore 8 (size_at chunk) size
       else ret tt) ;;;
      vstore 1 (inuse_at chunk) 1 ;;;
      ret (u64 (chunk + HDR))) Q E m.
Proof.
  intros chunk Hr Hs Hs16 Hle HQ. destruct (chunk_range _ _ _ _ Hr) as (?&?&?&?&?&?&?).
  destruct (chunk_fields _ _ _ _ Hr) as (F1 & F2 & F3).
  pose proof (load8_range (ram m) (c_addr c + 16)) as Hcp. rewrite F3 in Hcp.
  pose proof (carve_in_ordered size _ _ _ _ _ Hs Hs16 Hle (hr_ord _ _ _ _ _ Hr)) as Ho.
  apply wp_bind, (wp_chunk_size l1 c l2); [done|]. intros m1 Hw1 Hr1. cbn zeta.
  rewrite u64_small by lia.
  assert (Hret : u64 (chunk + HDR) = KERNEL_BASE + payload c).
  { unfold chunk, payload, HDR, KWIN in *. zconst. rewrite u64_small; lia. }
  set (W := fun a => hdr_bytes [c] a \/ hdr_bytes (carve size c) a).
  assert (Hfin : forall r m', at_ram K W m1 r m' -> headers r (carve size c) (cptr l2 NULL) ->
            Q (KERNEL_BASE + payload c) m').
  { intros r m' Hat Hh. destruct (heap_update_at l1 [c] l2 (carve size c) m1 r m') as [Hr' Hs'];
      [done|done|done| |done|].
    - unfold carve. by destruct (_ <? _).
    - apply HQ; [done|]. etrans; [by apply warm_wstep|exact Hs']. }
  pose proof (at_ram_refl K W m1 (hr_k _ _ _ _ _ Hr1)) as Hat1. rewrite (warm_ram _ _ Hw1) in *.
  destruct (field_addrs (c_addr c)) as (Fs & Fi & Fn); [lia..|]. unfold chunk in *. rewrite Hret.
  unfold W, carve in *. clear W.
  destruct (Z.ltb_spec MIN_CHUNK_SIZE (c_size c - size)) as [Hlt|Hge]; unfold MIN_CHUNK_SIZE, HDR in *.
  - replace (u64 (KERNEL_BASE + c_addr c + 32 + size)) with (KERNEL_BASE + (c_addr c + 32 + size))
      by (unfold KWIN in *; zconst; rewrite u64_small; lia).
    rewrite (u64_small (c_size c - size - 32)) by lia.
    apply wp_bind, wp_bind. eapply wp_put_free_chunk; [exact Hat1|lia..|in_hdr|]. intros m2 At2.
    rewrite Fs, Fi, Fn, F3 in *. apply wp_bind. eapply (wp_st K); [exact At2|lia|lia|in_hdr|]. intros m3 At3.
    eapply (wp_st K); [exact At3|lia|lia|in_hdr|]. intros m4 At4.
    apply wp_bind. eapply (wp_st K); [exact At4|lia|lia|in_hdr|]. intros m5 At5. apply wp_ret.
    eapply Hfin; [exact At5|]. cbn [headers c_addr c_size c_used b2z cptr app]. unfold put_hdr.
    unfold KWIN in *. zconst. split_and!; ram_load; try done; lia.
  - apply wp_bind, wp_ret. rewrite Fi. apply wp_bind. eapply (wp_st K); [exact Hat1|lia|lia|in_hdr|]. intros m5 At5.
    apply wp_ret. eapply Hfin; [exact At5|]. cbn [headers c_addr c_size c_used b2z cptr app].
    split_and!; ram_load; try done; lia.
Qed.

(** ** [kalloc] *)
Lemma wp_kalloc size cs m (Q : Z -> machine -> Prop) E :
  heap_rep cs m ->
  match first_fit (round16 size) cs with
  | Some (p, cs') => forall m', heap_rep cs' m' -> wstep (fun a => hdr_bytes cs a \/ hdr_bytes cs' a) m m' ->
                       Q (KERNEL_BASE + p) m'
  | None => forall m', heap_rep cs m' -> warm m m' -> Q NULL m'
  end -> wp (kalloc size) Q E m.
Proof.
  intros Hr HQ. destruct (round16_range size) as [Hs Hs16]. unfold kalloc. revert Hs Hs16 HQ.
  generalize (round16 size). clear size. intros size Hs Hs16 HQ. wp_steps.
  rewrite (hr_avail _ _ _ _ _ Hr). destruct (Z.ltb_spec (hi - lo) size) as [Hbig|Hsmall].
  { wp_steps. rewrite first_fit_none in HQ; [by apply HQ|]. apply Forall_forall. intros c Hc.
    destruct (ordered_in _ _ _ _ (hr_ord _ _ _ _ _ Hr) Hc) as (?&?&_&_&?). apply not_true_iff_false.
    intros [_ Hf]%fits_true. unfold c_end, HDR in *. lia. }
  wp_steps. rewrite (hr_first _ _ _ _ _ Hr). apply wp_bind, (wp_find_chunk size cs); [done| |].
  2: { intros Hno m1 Hw1. change (NULL =? NULL) with true. wp_steps. rewrite first_fit_none in HQ by done.
       apply HQ; [by eapply heap_rep_warm|done]. }
  intros l1 c l2 m1 -> Hl1 Hf Hw1. rewrite (first_fit_at _ _ _ _ Hl1 Hf) in HQ.
  assert (Hr1 : heap_rep (l1 ++ c :: l2) m1) by by eapply heap_rep_warm.
  rewrite (heap_cptr_null l1 (c :: l2) m1 Hr1 : (KERNEL_BASE + c_addr c =? NULL) = false).
  apply fits_true in Hf as [_ Hf]. apply (wp_carve l1 c l2); [done|lia|done|done|]. intros m' Hr' Hs'.
  apply HQ; [done|]. etrans; [by apply warm_wstep|exact Hs'].
Qed.

(** ** [coalesce_chunk] *)

(** one merge: [d] disappears into the free chunk [c] before it *)
Lemma wp_merge l1 c d l2 m (Q : Z -> machine -> Prop) E :
  let chunk := KERNEL_BASE + c_addr c in
  let c' := mk_chunk (c_addr c) (c_size c + (HDR + c_size d)) false in
  heap_rep (l1 ++ c :: d :: l2) m -> c_used c = false ->
  (forall m', heap_rep (l1 ++ c' :: l2) m' ->
     wstep (hdr_bytes (l1 ++ c :: d :: l2)) m m' -> Q chunk m') ->
  wp (size <- vload 8 (size_at chunk) ;;
      next <- vload 8 (next_at chunk) ;;
      nsize <- vload 8 (size_at next) ;;
      vstore 8 (size_at chunk) (u64 (size + u64 (HDR + nsize))) ;;;
      next <- vload 8 (next_at chunk) ;;
      nnext <- vload 8 (next_at next) ;;
      vstore 8 (next_at chunk) nnext ;;;
      ret chunk) Q E m.
Proof.
  intros chunk c' Hr Hu HQ. destruct (chunk_range _ _ _ _ Hr) as (?&?&?&?&?&?&?).
  pose proof Hr as Hrd. rewrite (app_assoc l1 [c] (d :: l2) : l1 ++ c :: d :: l2 = _) in Hrd.
  destruct (chunk_range _ _ _ _ Hrd) as (?&?&?&?&?&?&?).
  pose proof (ordered_disjoint _ _ _ _ [] _ _ (hr_ord _ _ _ _ _ Hr)) as Hcd. unfold c_end in Hcd.
  destruct (chunk_fields _ _ _ _ Hr) as (F1 & F2 & F3). cbn [cptr] in F3.
  destruct (chunk_fields _ _ _ _ Hrd) as (G1 & G2 & G3).
  pose proof (load8_range (ram m) (c_addr d + 16)) as Hcp. rewrite G3 in Hcp.
  destruct (field_addrs (c_addr c)) as (Fs & Fi & Fn); [lia..|].
  destruct (field_addrs (c_addr d)) as (Gs & Gi & Gn); [lia..|]. unfold chunk in *.
  set (W := fun a => hdr_bytes [c; d] a \/ hdr_bytes [c'] a).
  pose proof (at_ram_refl K W m (hr_k _ _ _ _ _ Hr)) as At0. unfold HDR in *.
  rewrite Fs, Fn. apply wp_bind. eapply (wp_ld K); [exact At0|lia|lia|]. intros m1 At1. rewrite F1.
  apply wp_bind. eapply (wp_ld K); [exact At1|lia|lia|]. intros m2 At2. rewrite F3, Gs.
  apply wp_bind. eapply (wp_ld K); [exact At2|lia|lia|]. intros m3 At3. rewrite G1.
  unfold KWIN in *. rewrite (u64_small (32 + c_size d)), u64_small by lia.
  apply wp_bind. eapply (wp_st K); [exact At3|lia|unfold KWIN; lia|unfold W, c'; in_hdr|]. intros m4 At4.
  apply wp_bind. eapply (wp_ld K); [exact At4|lia|unfold KWIN; lia|]. intros m5 At5.
  rewrite load_store_ne, F3, Gn by (cbn; lia).
  apply wp_bind. eapply (wp_ld K); [exact At5|lia|unfold KWIN; lia|]. intros m6 At6.
  rewrite load_store_ne, G3 by (cbn; lia).
  apply wp_bind. eapply (wp_st K); [exact At6|lia|unfold KWIN; lia|unfold W, c'; in_hdr|]. intros m7 At7. apply wp_ret.
  destruct (heap_update_at l1 [c; d] l2 [c'] m _ m7 Hr At7) as [Hr' Hs']; [|done| |].
  - pose proof (hr_ord _ _ _ _ _ Hr) as Ho. apply ordered_app in Ho as (mid & Ho1 & Ho).
    apply ordered_app. exists mid. split; [done|]. cbn [app ordered] in *.
    unfold c_end, HDR, c' in *. cbn [c_addr c_size] in *. destruct Ho as (?&?&?&?&?&?&?&?&Ho).
    split_and!; [done|done|lia|dlia|]. eapply ordered_weaken; [exact Ho|lia].
  - cbn [headers c_addr c_size c_used b2z cptr c']. split_and!; ram_load; try done; try lia; by rewrite ?F2, ?Hu.
  - apply HQ; [done|]. eapply wstep_weaken; [exact Hs'|]. intros a. rewrite !hdr_bytes_app, !hdr_bytes_cons, !hdr_bytes_nil.
    cbn [c_addr c']. tauto.
Qed.

Lemma wp_coalesce_chunk cs m (Q : unit -> machine -> Prop) E :
  heap_rep cs m ->
  (forall m', heap_rep (coalesce cs) m' -> wstep (hdr_bytes cs) m m' -> Q tt m') ->
  wp coalesce_chunk Q E m.
Proof.
  intros Hr HQ. unfold coalesce_chunk. wp_steps. rewrite (hr_first _ _ _ _ _ Hr).
  apply wp_bind, (wp_heap_fuel cs); [done|]. intros fuel Hfuel. apply wp_bind.
  apply (wp_while_var (fun k ptr m' => exists l1 c l2, heap_rep (l1 ++ c :: l2) m' /\
    ptr = KERNEL_BASE + c_addr c /\ l1 ++ merge_into c l2 = coalesce cs /\ k = length l2 /\
    wstep (hdr_bytes cs) m m' /\ forall a, hdr_bytes (l1 ++ c :: l2) a -> hdr_bytes cs a) (length cs - 1)); [|lia|].
  { destruct cs as [|c cs].
    - pose proof (hr_head _ _ _ _ _ Hr) as H. pose proof (hr_lo _ _ _ _ _ Hr). cbn in H. zconst. lia.
    - exists [], c, cs. rewrite <- (hr_head _ _ _ _ _ Hr). split_and!; [done..|cbn; lia|done|done]. }
  intros k ptr m1 (l1 & c & l2 & Hr1 & -> & Heq & -> & Hs1 & Hb).
  rewrite (heap_cptr_null l1 (c :: l2) m1 Hr1 : (KERNEL_BASE + c_addr c =? NULL) = false).
  apply wp_bind, (wp_chunk_next l1 c l2); [done|]. intros m2 Hw2 Hr2. wp_steps.
  assert (Hr2' : heap_rep ((l1 ++ [c]) ++ l2) m2) by by rewrite <- app_assoc.
  rewrite (heap_cptr_null _ _ _ Hr2'). destruct l2 as [|d l2]; cbn [negb].
  { wp_steps. rewrite <- Heq in HQ. apply HQ; [done|]. etrans; [exact Hs1|by apply warm_wstep]. }
  apply wp_bind, (wp_chunk_inuse l1 c (d :: l2)); [done|]. intros m3 Hw3 Hr3. rewrite b2z_eqb, negb_involutive.
  assert (Hskip : forall m5, warm m1 m5 -> c_used c || c_used d = true ->
    wp (vload 8 (next_at (KERNEL_BASE + c_addr c)))
      (fun y' s3 => exists k', (k' < length (d :: l2))%nat /\ exists l1 c l2, heap_rep (l1 ++ c :: l2) s3 /\
        y' = KERNEL_BASE + c_addr c /\ l1 ++ merge_into c l2 = coalesce cs /\ k' = length l2 /\
        wstep (hdr_bytes cs) m s3 /\ forall a, hdr_bytes (l1 ++ c :: l2) a -> hdr_bytes cs a) E m5).
  { intros m5 Hw5 Hor. apply (wp_chunk_next l1 c (d :: l2)); [by eapply heap_rep_warm|]. intros m6 Hw6 Hr6.
    exists (length l2). split; [cbn; lia|]. exists (l1 ++ [c]), d, l2. rewrite <- !app_assoc.
    split_and!; [done|done| |done| |done].
    - rewrite <- Heq, merge_into_skip by done. done.
    - etrans; [exact Hs1|]. apply warm_wstep. by etrans. }
  destruct (c_used c) eqn:Hc.
  { wp_steps. apply Hskip; [by etrans|done]. }
  apply wp_bind, wp_bind, (wp_chunk_next l1 c (d :: l2)); [done|]. intros m4 Hw4 Hr4. cbn [cptr].
  assert (Hr4' : heap_rep ((l1 ++ [c]) ++ d :: l2) m4) by by rewrite <- app_assoc.
  apply wp_bind, (wp_chunk_inuse (l1 ++ [c]) d l2); [done|]. intros m5 Hw5 Hr5. wp_steps. rewrite b2z_eqb.
  assert (Hw15 : warm m1 m5) by (etrans; [exact Hw2|]; etrans; [exact Hw3|]; by etrans).
  destruct (c_used d) eqn:Hd; cbn [negb]; [by apply Hskip|].
  rewrite <- app_assoc in Hr5. apply (wp_merge l1 c d l2); [done|done|]. intros m6 Hr6 Hs6.
  exists (length l2). split; [cbn; lia|]. eexists l1, _, l2. split_and!; [exact Hr6|done| |done| |].
  - rewrite <- Heq, merge_into_merge by done. done.
  - etrans; [exact Hs1|]. etrans; [by apply warm_wstep|]. by eapply wstep_weaken.
  - intros a Ha. apply Hb. rewrite !hdr_bytes_app, !hdr_bytes_cons in *. cbn [c_addr] in Ha. tauto.
Qed.

(** ** [kfree] *)

(** pointers that are not in the heap are ignored *)
Lemma kfree_outside cs m ptr :
  heap_rep cs m -> ptr = NULL \/ ptr < KERNEL_BASE + lo \/ KERNEL_BASE + hi <= ptr ->
  kfree ptr m = Ret tt m.
Proof.
  intros Hr Hp. unfold kfree. destruct (Z.eqb_spec ptr NULL) as [|Hn]; [done|].
  unfold bind, getg, gets. rewrite (hr_start _ _ _ _ _ Hr), (hr_end _ _ _ _ _ Hr).
  destruct (Z.ltb_spec ptr (KERNEL_BASE + lo)), (Z.leb_spec (KERNEL_BASE + hi) ptr); cbn [orb]; try done. lia.
Qed.

(** the flag of one chunk cleared *)
Lemma wp_clear_inuse l1 c l2 m (Q : unit -> machine -> Prop) E :
  heap_rep (l1 ++ c :: l2) m ->
  (forall m', heap_rep (l1 ++ set_used false c :: l2) m' -> wstep (hdr_bytes (l1 ++ c :: l2)) m m' -> Q tt m') ->
  wp (vstore 1 (inuse_at (KERNEL_BASE + c_addr c)) 0) Q E m.
Proof.
  intros Hr HQ. destruct (chunk_range _ _ _ _ Hr) as (?&?&?&?&?&?&?).
  destruct (chunk_fields _ _ _ _ Hr) as (F1 & F2 & F3).
  destruct (field_addrs (c_addr c)) as (_ & Fi & _); [lia..|]. rewrite Fi.
  set (X := [set_used false c]).
  pose proof (at_ram_refl K (fun a => hdr_bytes [c] a \/ hdr_bytes X a) m (hr_k _ _ _ _ _ Hr)) as At0.
  eapply (wp_st K); [exact At0|lia|lia|unfold X; in_hdr|]. intros m1 At1.
  destruct (heap_update_at l1 [c] l2 X m _ m1 Hr At1) as [Hr' Hs']; [|done| |].
  - apply (set_used_ordered _ _ _ _ _ false), Hr.
  - unfold X. cbn [headers c_addr c_size c_used b2z set_used cptr]. split_and!; ram_load; done.
  - apply HQ; [done|]. eapply wstep_weaken; [exact Hs'|]. intros a. unfold X.
    rewrite !hdr_bytes_app, !hdr_bytes_cons, !hdr_bytes_nil. cbn [c_addr set_used]. tauto.
Qed.

Lemma hdr_bytes_set_used l1 c l2 a :
  hdr_bytes (l1 ++ set_used false c :: l2) a <-> hdr_bytes (l1 ++ c :: l2) a.
Proof. by rewrite !hdr_bytes_app, !hdr_bytes_cons. Qed.

(** a pointer to a chunk: a used one is released, a free one left alone *)
Lemma wp_kfree l1 c l2 m (Q : unit -> machine -> Prop) E :
  let cs := l1 ++ c :: l2 in
  heap_rep cs m -> payload c < hi ->
  (forall m', heap_rep (if c_used c then release (payload c) cs else cs) m' ->
     wstep (hdr_bytes cs) m m' -> Q tt m') ->
  wp (kfree (KERNEL_BASE + payload c)) Q E m.
Proof.
  intros cs Hr Hlt HQ. unfold cs in *. destruct (chunk_range _ _ _ _ Hr) as (?&?&?&?&?&?&?).
  unfold kfree, payload, HDR, KWIN in *.
  rewrite (proj2 (Z.eqb_neq _ _)) by (zconst; lia). wp_steps.
  rewrite (hr_start _ _ _ _ _ Hr), (hr_end _ _ _ _ _ Hr).
  rewrite (proj2 (Z.ltb_ge _ _)) by lia. rewrite (proj2 (Z.leb_gt _ _)) by lia. cbn [orb].
  replace (u64 _) with (KERNEL_BASE + c_addr c) by (zconst; rewrite u64_small; lia).
  apply wp_bind, (wp_chunk_inuse l1 c l2); [done|]. intros m1 Hw1 Hr1. rewrite b2z_eqb.
  destruct (c_used c) eqn:Hu; cbn [negb].
  2: { wp_steps. apply HQ; [done|by apply warm_wstep]. }
  apply wp_bind, (wp_clear_inuse l1 c l2); [done|]. intros m2 Hr2 Hs2.
  apply (wp_coalesce_chunk (l1 ++ set_used false c :: l2)); [done|]. intros m3 Hr3 Hs3.
  apply HQ.
  - unfold release. change (c_addr c + 32) with (payload c).
    by erewrite mark_free_mid by apply Hr.
  - etrans; [by apply warm_wstep|]. etrans; [exact Hs2|]. eapply wstep_weaken; [exact Hs3|].
    intros a. by rewrite hdr_bytes_set_used.
Qed.

(** ** [heap_init] *)
Lemma wp_heap_init m (Q : unit -> machine -> Prop) E :
  kspace K m -> 0 <= lo -> lo mod 16 = 0 -> hi mod 16 = 0 -> lo + HDR <= hi -> hi <= KWIN ->
  heap_start (glb m) = KERNEL_BASE + lo -> heap_end (glb m) = KERNEL_BASE + hi ->
  (forall a, lo <= a < hi -> ~ ktab K a) ->
  (forall m', heap_rep [mk_chunk lo (hi - lo - HDR) false] m' ->
     wstep (span lo 24) (set_glb (set_heap (mk_heapinfo (KERNEL_BASE + lo) (hi - lo)) (glb m)) m) m' -> Q tt m') ->
  wp heap_init Q E m.
Proof.
  intros Hk Hlo Hl16 Hh16 Hsz Hhi Hst Hen Hsep HQ. unfold heap_init, HDR, KWIN in *. wp_steps. cbn [glb set_glb].
  wp_steps. cbn [glb set_glb heap_end heap_start set_heap heap heap_first avail]. rewrite Hst, Hen.
  replace (u64 (KERNEL_BASE + hi - (KERNEL_BASE + lo))) with (hi - lo) by (rewrite u64_small; lia).
  rewrite (u64_small (hi - lo - 32)) by lia. set (m1 := set_glb _ _).
  assert (Hm1 : m1 = set_glb (set_heap (mk_heapinfo (KERNEL_BASE + lo) (hi - lo)) (glb m)) m) by done.
  rewrite <- Hm1 in HQ.
  destruct (field_addrs lo) as (-> & -> & ->); [lia|unfold KWIN; lia|].
  pose proof (at_ram_refl K (span lo 24) m1 (kspace_set_glb K m _ Hk)) as At0.
  assert (HW : forall a k n, 0 <= k -> k + n <= 24 -> span (lo + k) n a -> span lo 24 a /\ ~ ktab K a).
  { intros a k n ?? Ha. unfold span in *. split; [lia|]. apply Hsep. lia. }
  apply wp_bind. eapply (wp_st K); [exact At0|lia|unfold KWIN; lia| |].
  { intros a. rewrite <- (Z.add_0_r lo) at 1. by apply HW. }
  intros m2 At2. apply wp_bind. eapply (wp_st K); [exact At2|lia|unfold KWIN; lia|intros a; by apply HW|].
  intros m3 At3. eapply (wp_st K); [exact At3|lia|unfold KWIN; lia|intros a; by apply HW|]. intros m4 [Hk4 Hs4 Hr4].
  assert (Hg4 : glb m4 = glb m1) by apply Hs4.
  apply HQ; [|done]. split; rewrite ?Hg4; try done.
  - cbn [ordered c_addr c_size c_end]. unfold c_end, HDR. cbn [c_addr c_size]. split_and!; dlia.
  - cbn [headers c_addr c_size c_used b2z cptr]. rewrite Hr4. split_and!; ram_load; try done; lia.
Qed.
End Heap.
