(* ===== verification/HeapRealloc.v ===== *)
(** krealloc: growth into the free chunk behind, shrinking by a split, and
    relocation, refined to [HeapSpec.resize]; the bytes of the block move with it
    and the payloads of all other blocks are untouched. *)

From S2P Require Import Prelude Comp Ram Machine KSpace Utils HeapSpec Heap.

Section HeapRealloc.
Context (K : ktables) (lo hi : Z).
Implicit Types m : machine.
Local Abbreviation heap_rep := (Heap.heap_rep K lo hi).

Lemma heap_rep_next l1 o n l2 m : heap_rep (l1 ++ o :: n :: l2) m -> heap_rep ((l1 ++ [o]) ++ n :: l2) m.
Proof. by rewrite <- app_assoc. Qed.

(** the writes of [extendChunkInPlace]: the split header, then the grown chunk *)
Lemma wp_grow l1 o n l2 new m (Q : Z -> machine -> Prop) E :
  let old_chunk := KERNEL_BASE + c_addr o in
  let extra := new - c_size o in
  heap_rep (l1 ++ o :: n :: l2) m -> c_size o < new -> new mod 16 = 0 -> extra + HDR <= c_size n ->
  (forall m', heap_rep (l1 ++ grown o n new ++ l2) m' ->
     wstep (fun a => hdr_bytes (l1 ++ o :: n :: l2) a \/ hdr_bytes (l1 ++ grown o n new ++ l2) a) m m' ->
     Q (KERNEL_BASE + payload o) m') ->
  wp (next <- vload 8 (next_at old_chunk) ;;
      let split := u64 (next + HDR + extra) in
      nsize <- vload 8 (size_at next) ;;
      put_free_chunk split (u64 (nsize - extra - HDR)) next ;;;
      osize <- vload 8 (size_at old_chunk) ;;
      vstore 8 (size_at old_chunk) (u64 (osize + extra)) ;;;
      vstore 8 (next_at old_chunk) split ;;;
      ret (u64 (old_chunk + HDR))) Q E m.
Proof.
  intros old_chunk extra Hr Hlt H16 Hfit HQ. unfold old_chunk, extra in *. clear old_chunk extra.
  destruct (chunk_range _ _ _ _ _ _ _ Hr) as (?&?&?&?&?&?&?).
  destruct (chunk_range _ _ _ _ _ _ _ (heap_rep_next _ _ _ _ _ Hr)) as (?&?&?&?&?&?&?).
  pose proof (ordered_disjoint _ _ _ _ [] _ _ (hr_ord _ _ _ _ _ Hr)) as Hon.
  pose proof (grown_ordered _ _ _ _ _ _ _ (hr_ord _ _ _ _ _ Hr) Hlt H16 Hfit) as Ho.
  destruct (chunk_fields _ _ _ _ _ _ _ Hr) as (F1 & F2 & F3). cbn [cptr] in F3.
  destruct (chunk_fields _ _ _ _ _ _ _ (heap_rep_next _ _ _ _ _ Hr)) as (_ & _ & G3).
  pose proof (load8_range (ram m) (c_addr n + 16)) as Hcp. rewrite G3 in Hcp.
  apply wp_bind, (wp_chunk_next K lo hi l1 o (n :: l2)); [done|]. intros m1 Hw1 Hr1%heap_rep_next. cbn [cptr].
  apply wp_bind, (wp_chunk_size K lo hi (l1 ++ [o]) n l2); [done|]. intros m2 Hw2 Hr2.
  assert (Hw : warm m m2) by by etrans. unfold grown in *. unfold c_end, payload, HDR, KWIN in *.
  set (W := fun a => hdr_bytes [o; n] a \/ hdr_bytes (grown o n new) a).
  assert (At2 : at_ram K W m (ram m) m2).
  { split; [apply Hr2|by apply warm_wstep|apply Hw]. }
  replace (u64 (KERNEL_BASE + c_addr n + 32 + (new - c_size o))) with
    (KERNEL_BASE + (c_addr n + 32 + (new - c_size o))) by (zconst; rewrite u64_small; lia).
  rewrite (u64_small (c_size n - (new - c_size o) - 32)) by lia.
  replace (u64 (KERNEL_BASE + c_addr o + 32)) with (KERNEL_BASE + (c_addr o + 32)) by (zconst; rewrite u64_small; lia).
  destruct (field_addrs (c_addr o)) as (Fs & Fi & Fn); [lia|unfold KWIN; lia|]. rewrite Fs, Fn.
  apply wp_bind. eapply wp_put_free_chunk; [exact At2|unfold KWIN; lia..|unfold W, grown, HDR; in_hdr|].
  intros m3 At3. rewrite G3 in At3.
  apply wp_bind. eapply (wp_ld K); [exact At3|lia|unfold KWIN; lia|]. intros m4 At4. unfold put_hdr in *.
  rewrite !load_store_ne, F1 by (cbn; lia). rewrite u64_small by lia.
  apply wp_bind. eapply (wp_st K); [exact At4|lia|unfold KWIN; lia|unfold W, grown, HDR; in_hdr|]. intros m5 At5.
  apply wp_bind. eapply (wp_st K); [exact At5|lia|unfold KWIN; lia|unfold W, grown, HDR; in_hdr|]. intros m6 At6.
  apply wp_ret. destruct (heap_update_at K lo hi l1 [o; n] l2 (grown o n new) m _ m6 Hr At6 Ho) as [Hr' Hs'];
    [done| |by apply HQ].
  unfold grown, HDR. cbn [headers c_addr c_size c_used b2z cptr app]. zconst.
  split_and!; ram_load; try done; lia.
Qed.

(** ** [extendChunkInPlace] *)
Lemma wp_extendChunkInPlace l1 o n l2 ptr new m (Q : Z -> machine -> Prop) E :
  heap_rep (l1 ++ o :: n :: l2) m -> c_size o < new <= 2 ^ 63 -> new mod 16 = 0 ->
  (if negb (c_used n) && (new - c_size o + HDR <=? c_size n)
   then forall m', heap_rep (l1 ++ grown o n new ++ l2) m' ->
          wstep (fun a => hdr_bytes (l1 ++ o :: n :: l2) a \/ hdr_bytes (l1 ++ grown o n new ++ l2) a) m m' ->
          Q (KERNEL_BASE + payload o) m'
   else forall m', warm m m' -> Q NULL m') ->
  wp (extendChunkInPlace ptr new (KERNEL_BASE + c_addr o)) Q E m.
Proof.
  intros Hr [Hlt Hmax] H16 HQ. unfold extendChunkInPlace.
  destruct (chunk_range _ _ _ _ _ _ _ Hr) as (?&?&?&?&?&?&?).
  destruct (chunk_range _ _ _ _ _ _ _ (heap_rep_next _ _ _ _ _ Hr)) as (?&?&?&?&?&?&?).
  apply wp_bind, (wp_chunk_next K lo hi l1 o (n :: l2)); [done|]. intros m1 Hw1 Hr1%heap_rep_next. cbn [cptr].
  apply wp_bind, (wp_chunk_inuse K lo hi (l1 ++ [o]) n l2); [done|]. intros m2 Hw2 Hr2. rewrite b2z_eqb.
  assert (Hw02 : warm m m2) by by etrans.
  destruct (c_used n) eqn:Hun; cbn [negb andb] in *; [by apply wp_ret, HQ|].
  rewrite <- app_assoc in Hr2. cbn [app] in Hr2.
  apply wp_bind, (wp_chunk_size K lo hi l1 o (n :: l2)); [done|]. intros m3 Hw3 Hr3. cbn zeta.
  rewrite (u64_small (new - c_size o)) by lia.
  apply wp_bind, (wp_chunk_next K lo hi l1 o (n :: l2)); [done|]. intros m4 Hw4 Hr4%heap_rep_next. cbn [cptr].
  apply wp_bind, (wp_chunk_size K lo hi (l1 ++ [o]) n l2); [done|]. intros m5 Hw5 Hr5. unfold HDR in *.
  rewrite (u64_small (new - c_size o + 32)) by lia.
  assert (Hw05 : warm m m5) by by repeat (etrans; [eassumption|]).
  destruct (new - c_size o + 32 <=? c_size n) eqn:Hfit; [|by apply wp_ret, HQ].
  apply Z.leb_le in Hfit. rewrite <- app_assoc in Hr5. cbn [app] in Hr5.
  apply (wp_grow l1 o n l2 new); [done|done|done|done|]. intros m6 Hr6 Hs6.
  apply HQ; [done|]. etrans; [by apply warm_wstep|exact Hs6].
Qed.

(** ** Shrinking *)
Lemma wp_shrink {A} (k : M A) l1 o l2 new m (Q : A -> machine -> Prop) E :
  let old_chunk := KERNEL_BASE + c_addr o in
  let leftover := c_size o - new in
  heap_rep (l1 ++ o :: l2) m -> c_used o = true -> 0 <= new -> new mod 16 = 0 -> MIN_CHUNK_SIZE < leftover ->
  (forall m', heap_rep (l1 ++ carve new o ++ l2) m' ->
     wstep (fun a => hdr_bytes (l1 ++ o :: l2) a \/ hdr_bytes (l1 ++ carve new o ++ l2) a) m m' -> wp k Q E m') ->
  wp (put_free_chunk (u64 (old_chunk + HDR + new)) (u64 (leftover - HDR)) old_chunk ;;;
      osize <- vload 8 (size_at old_chunk) ;;
      vstore 8 (size_at old_chunk) (u64 (osize - leftover)) ;;;
      vstore 8 (next_at old_chunk) (u64 (old_chunk + HDR + new)) ;;; k) Q E m.
Proof.
  intros old_chunk leftover Hr Hu H0 H16 Hlt HQ. unfold old_chunk, leftover in *. clear old_chunk leftover.
  destruct (chunk_range _ _ _ _ _ _ _ Hr) as (?&?&?&?&?&?&?).
  destruct (chunk_fields _ _ _ _ _ _ _ Hr) as (F1 & F2 & F3).
  pose proof (load8_range (ram m) (c_addr o + 16)) as Hcp. rewrite F3 in Hcp. unfold MIN_CHUNK_SIZE in *.
  assert (Ho : ordered lo hi (l1 ++ carve new o ++ l2)).
  { apply carve_in_ordered; [done|done|unfold HDR in *; lia|apply Hr]. }
  assert (Hcarve : carve new o = [mk_chunk (c_addr o) new true; mk_chunk (c_addr o + HDR + new) (c_size o - new - HDR) false]).
  { unfold carve, MIN_CHUNK_SIZE. by rewrite (proj2 (Z.ltb_lt _ _) Hlt). }
  rewrite Hcarve in *. unfold HDR, KWIN in *.
  set (X := [mk_chunk (c_addr o) new true; mk_chunk (c_addr o + 32 + new) (c_size o - new - 32) false]) in *.
  set (W := fun a => hdr_bytes [o] a \/ hdr_bytes X a).
  pose proof (at_ram_refl K W m (hr_k _ _ _ _ _ Hr)) as At0.
  replace (u64 (KERNEL_BASE + c_addr o + 32 + new)) with (KERNEL_BASE + (c_addr o + 32 + new))
    by (zconst; rewrite u64_small; lia).
  rewrite (u64_small (c_size o - new - 32)) by lia.
  destruct (field_addrs (c_addr o)) as (Fs & Fi & Fn); [lia|unfold KWIN; lia|]. rewrite Fs, Fn.
  apply wp_bind. eapply wp_put_free_chunk; [exact At0|unfold KWIN; lia..|unfold W, X; in_hdr|].
  intros m3 At3. rewrite F3 in At3. unfold put_hdr in *.
  apply wp_bind. eapply (wp_ld K); [exact At3|lia|unfold KWIN; lia|]. intros m4 At4.
  rewrite !load_store_ne, F1 by (cbn; lia). rewrite u64_small by lia.
  apply wp_bind. eapply (wp_st K); [exact At4|lia|unfold KWIN; lia|unfold W, X; in_hdr|]. intros m5 At5.
  apply wp_bind. eapply (wp_st K); [exact At5|lia|unfold KWIN; lia|unfold W, X; in_hdr|]. intros m6 At6.
  destruct (heap_update_at K lo hi l1 [o] l2 X m _ m6 Hr At6 Ho) as [Hr' Hs']; [done| |by apply HQ].
  unfold X. cbn [headers c_addr c_size c_used b2z cptr app]. zconst.
  split_and!; ram_load; try done; try lia; by rewrite F2, Hu.
Qed.

(** ** Payloads and headers never meet *)
Lemma hdr_payload cs d a :
  ordered lo hi cs -> d ∈ cs -> hdr_bytes cs a -> ~ span (payload d) (c_size d) a.
Proof.
  intros Ho Hd (c & Hc & Ha) Hp. destruct (decide (c = d)) as [->|Hne].
  - unfold span, payload, HDR in *. lia.
  - destruct (ordered_in _ _ _ _ Ho Hc) as (_&_&_&_&?), (ordered_in _ _ _ _ Ho Hd) as (_&_&_&_&?).
    destruct (ordered_apart _ _ _ _ _ Ho Hc Hd Hne); unfold span, payload, c_end, HDR in *; lia.
Qed.

(** so a step that writes headers only leaves a payload alone that is one
    before and after *)
Lemma payload_kept_n cs cs' d d' n m m' :
  ordered lo hi cs -> ordered lo hi cs' -> d ∈ cs -> d' ∈ cs' -> payload d' = payload d ->
  n <= c_size d -> n <= c_size d' ->
  wstep (fun a => hdr_bytes cs a \/ hdr_bytes cs' a) m m' -> agree (span (payload d) n) (ram m) (ram m').
Proof.
  intros Ho Ho' Hd Hd' Hp Hn Hn' Hs. eapply agree_weaken; [apply Hs|]. intros a Ha [H|H].
  - apply (hdr_payload cs d a Ho Hd H). unfold span in *. lia.
  - apply (hdr_payload cs' d' a Ho' Hd' H). unfold span in *. lia.
Qed.

Lemma payload_kept cs cs' d m m' :
  ordered lo hi cs -> ordered lo hi cs' -> d ∈ cs -> d ∈ cs' ->
  wstep (fun a => hdr_bytes cs a \/ hdr_bytes cs' a) m m' ->
  agree (span (payload d) (c_size d)) (ram m) (ram m').
Proof. intros. by eapply (payload_kept_n cs cs' d d). Qed.

(** ** Moving a block *)

(** everything a block's owner relies on *)
Definition kept (p : Z) (cs : list chunk) (m m' : machine) : Prop :=
  forall d, d ∈ cs -> c_used d = true -> payload d <> p -> agree (span (payload d) (c_size d)) (ram m) (ram m').
Definition moved (p p' n : Z) (m m' : machine) : Prop :=
  forall i, 0 <= i < n -> rd (ram m') (p' + i) = rd (ram m) (p + i).

(** all that a heap operation writes lies in the heap *)
Definition in_heap : Z -> Prop := fun a => lo <= a < hi.

Lemma headers_in_heap cs cs' m m' : ordered lo hi cs -> ordered lo hi cs' ->
  wstep (fun a => hdr_bytes cs a \/ hdr_bytes cs' a) m m' -> wstep in_heap m m'.
Proof. intros Ho Ho' Hs. eapply wstep_weaken; [exact Hs|]. intros a [H|H]; [exact (hdr_range lo hi _ a Ho H)|exact (hdr_range lo hi _ a Ho' H)]. Qed.

Lemma payload_in_heap cs c m m' : heap_rep cs m -> c ∈ cs -> wstep (span (payload c) (c_size c)) m m' -> wstep in_heap m m'.
Proof.
  intros Hr Hc Hs. eapply wstep_weaken; [exact Hs|]. destruct (ordered_in _ _ _ _ (hr_ord _ _ _ _ _ Hr) Hc) as (?&?&_).
  unfold in_heap, span, payload, c_end, HDR in *. lia.
Qed.

Lemma heap_vstable cs m (W : Z -> Prop) a n :
  heap_rep cs m -> (forall b, W b -> lo <= b < hi) -> 0 <= a -> a + n <= KWIN ->
  vstable m W (KERNEL_BASE + a) a n.
Proof.
  intros Hr HW ??. apply (kspace_vstable K); [apply Hr|done|done|]. intros b Hb Hp.
  by apply (hr_sep _ _ _ _ _ Hr b); [apply HW|].
Qed.

Lemma chunk_bounds cs c m : heap_rep cs m -> c ∈ cs ->
  lo <= c_addr c /\ 0 <= c_addr c /\ payload c + c_size c <= hi /\ payload c + c_size c <= KWIN /\
  0 <= c_size c /\ payload c = c_addr c + 32.
Proof.
  intros Hr Hc. destruct (ordered_in _ _ _ _ (hr_ord _ _ _ _ _ Hr) Hc) as (?&?&_&_&?).
  pose proof (hr_hi _ _ _ _ _ Hr). pose proof (hr_lo _ _ _ _ _ Hr).
  unfold payload, c_end, HDR, KWIN in *. lia.
Qed.

(** writing inside payloads keeps the list *)
Lemma heap_rep_payload cs c m m' :
  heap_rep cs m -> c ∈ cs -> wstep (span (payload c) (c_size c)) m m' -> heap_rep cs m'.
Proof.
  intros Hr Hc Hs. assert (Hg : glb m' = glb m) by apply Hs.
  pose proof Hr as [Hk ? ? ? ? ? ? Hsep Ho ? Hmem]. split; rewrite ?Hg; try done.
  - eapply kspace_wstep; [done|exact Hs|]. intros a Ha Hp. apply (Hsep a); [|done].
    destruct (ordered_in _ _ _ _ Ho Hc) as (?&?&_). unfold span, payload, c_end, HDR in *. lia.
  - eapply headers_agree; [|exact Hmem]. eapply agree_weaken; [apply Hs|]. intros a Ha.
    by apply (hdr_payload cs).
Qed.

(** copying the payload of [o] into the fresh block [b] *)
Lemma wp_copy_block cs o b n m (Q : Z -> machine -> Prop) E :
  heap_rep cs m -> o ∈ cs -> b ∈ cs -> o <> b -> 0 <= n <= c_size o -> n <= c_size b ->
  (forall m', heap_rep cs m' -> wstep (span (payload b) (c_size b)) m m' -> moved (payload o) (payload b) n m m' ->
     (forall d, d ∈ cs -> d <> b -> agree (span (payload d) (c_size d)) (ram m) (ram m')) ->
     Q (KERNEL_BASE + payload b) m') ->
  wp (memcpy (KERNEL_BASE + payload b) (KERNEL_BASE + payload o) n) Q E m.
Proof.
  intros Hr Ho Hb Hne Hn Hnb HQ.
  destruct (chunk_bounds _ _ _ Hr Ho) as (?&?&?&?&?&?), (chunk_bounds _ _ _ Hr Hb) as (?&?&?&?&?&?).
  assert (Hap : forall d, d ∈ cs -> d <> b -> forall a, span (payload d) (c_size d) a -> ~ span (payload b) n a).
  { intros d Hd Hdb a Ha Ha'. destruct (chunk_bounds _ _ _ Hr Hd) as (?&?&?&?&?&?).
    destruct (ordered_apart _ _ _ _ _ (hr_ord _ _ _ _ _ Hr) Hd Hb Hdb); unfold span, c_end, HDR in *; lia. }
  assert (HW : forall x, span (payload b) n x -> lo <= x < hi) by (unfold span; lia).
  apply (wp_memcpy m _ _ (payload b) (payload o) n).
  - unfold KWIN in *. lia.
  - destruct (ordered_apart _ _ _ _ _ (hr_ord _ _ _ _ _ Hr) Ho Hb Hne); unfold c_end, HDR in *; lia.
  - eapply heap_vstable; [done|done|lia|lia].
  - eapply heap_vstable; [done|done|lia|lia].
  - intros m' Hs Hcp. assert (Hs' : wstep (span (payload b) (c_size b)) m m').
    { eapply wstep_weaken; [exact Hs|]. unfold span. lia. }
    apply HQ; [by eapply heap_rep_payload|done| |].
    + intros i Hi. rewrite (Hcp (payload b + i)), decide_True by (unfold span; lia). f_equal. lia.
    + intros d Hd Hdb. eapply agree_weaken; [apply Hs|]. by apply Hap.
Qed.

Lemma wp_move_block l1 o l2 new m (Q : Z -> machine -> Prop) E :
  let cs := l1 ++ o :: l2 in
  heap_rep cs m -> c_used o = true -> payload o < hi -> 0 <= new < 2 ^ 64 -> new mod 16 = 0 ->
  match relocate (payload o) new cs with
  | Some (p', r) => forall m', heap_rep r m' -> kept (payload o) cs m m' ->
      moved (payload o) p' (Z.min (c_size o) new) m m' -> wstep in_heap m m' -> Q (KERNEL_BASE + p') m'
  | None => forall m', heap_rep cs m' -> warm m m' -> Q NULL m'
  end ->
  wp (move_block (KERNEL_BASE + payload o) new (KERNEL_BASE + c_addr o)) Q E m.
Proof.
  intros cs Hr Hu Hlt Hn H16 HQ. assert (Ho : o ∈ cs) by (unfold cs; rewrite elem_of_app, elem_of_cons; tauto).
  unfold relocate in HQ. unfold move_block. apply wp_bind, (wp_kalloc K lo hi new cs); [done|].
  rewrite round16_id by done. pose proof (hr_ord _ _ _ _ _ Hr) as Hoc. clearbody cs.
  destruct (first_fit new cs) as [[p' r1]|] eqn:Hf.
  2: { intros m1 Hr1 Hw1. change (NULL =? NULL) with true. by apply wp_ret, HQ. }
  intros m1 Hr1 Hs1.
  destruct (first_fit_block _ _ _ _ Hf) as (b & Hb & Hpb & Hub & Hsb). subst p'.
  pose proof (first_fit_keeps _ _ _ _ _ Hf Hu Ho) as Ho1. pose proof (hr_ord _ _ _ _ _ Hr1) as Hoc1.
  pose proof (fun d H1 H2 => first_fit_fresh _ _ _ _ _ _ d Hoc Hf H1 H2) as Hfresh.
  destruct (chunk_bounds _ _ _ Hr1 Hb) as (?&?&?&?&?&?), (chunk_bounds _ _ _ Hr1 Ho1) as (?&?&?&?&?&?).
  rewrite (proj2 (Z.eqb_neq _ _)) by (unfold NULL; zconst; lia).
  pose proof Ho1 as Hsp. apply list_elem_of_split in Hsp as (k1 & k2 & Hk). rewrite Hk in Hr1.
  apply wp_bind, (wp_chunk_size K lo hi k1 o k2); [done|]. intros m2 Hw2 Hr2. rewrite <- Hk in Hr2.
  assert (Hne : o <> b) by (intros ->; by apply (Hfresh b Hub)).
  apply wp_bind, (wp_copy_block r1 o b); [done|done|done|done|lia|lia|]. intros m3 Hr3 Hs3 Hmv3 Hk3.
  rewrite Hk in Hr3. apply wp_bind, (wp_kfree K lo hi k1 o k2); [done|done|]. rewrite Hu, <- Hk.
  intros m4 Hr4 Hs4. pose proof (hr_ord _ _ _ _ _ Hr4) as Hoc4.
  assert (Hs4' : wstep (fun a => hdr_bytes r1 a \/ hdr_bytes (release (payload o) r1) a) m3 m4)
    by (eapply wstep_weaken; [exact Hs4|tauto]).
  assert (Hstay : forall d, c_used d = true -> d ∈ r1 -> d <> o -> agree (span (payload d) (c_size d)) (ram m3) (ram m4)).
  { intros d Hd Hd1 Hdo. apply (payload_kept r1 (release (payload o) r1)); [done|done|done| |done].
    apply release_keeps; [done| |done]. intros Heq. apply Hdo. by apply (payload_inj lo hi r1). }
  apply wp_ret, HQ; [done| | |].
  3: { etrans; [by eapply headers_in_heap; [| |exact Hs1]|]. etrans; [by apply warm_wstep|].
       etrans; [by eapply (payload_in_heap r1 b m2)|]. by eapply headers_in_heap; [| |exact Hs4']. }
  - intros d Hd Hud Hdo. assert (Hd1 : d ∈ r1) by by eapply first_fit_keeps.
    etrans; [by apply (payload_kept cs r1 d m m1)|]. rewrite <- (warm_ram _ _ Hw2). etrans.
    + apply Hk3; [done|]. intros ->. by apply (Hfresh b Hud).
    + apply Hstay; [done|done|]. by intros ->.
  - intros i Hi. rewrite (Hstay b Hub Hb) by (done || (unfold span; lia)). rewrite Hmv3, (warm_ram _ _ Hw2) by done.
    apply (payload_kept cs r1 o m m1); [done|done|done|done|done|]. unfold span. lia.
Qed.

(** ** [krealloc] *)

(** what the caller of [krealloc] gets, by the answer of [resize] *)
Definition realloc_post (o : chunk) (new : Z) (cs : list chunk) m (Q : Z -> machine -> Prop)
  (ans : option (Z * list chunk)) : Prop :=
  match ans with
  | Some (p', r) => forall m', heap_rep r m' -> kept (payload o) cs m m' ->
      moved (payload o) p' (Z.min (c_size o) new) m m' -> wstep in_heap m m' -> Q (KERNEL_BASE + p') m'
  | None => forall m', heap_rep cs m' -> warm m m' -> Q NULL m'
  end.

Lemma realloc_post_warm o new cs m m1 Q ans :
  warm m m1 -> realloc_post o new cs m Q ans -> realloc_post o new cs m1 Q ans.
Proof.
  intros Hw. destruct ans as [[p' r]|]; cbn [realloc_post]; intros H m' Hr.
  - intros Hk Hm Hs. unfold kept, moved in *. rewrite (warm_ram _ _ Hw) in *. apply H; [done..|].
    etrans; [by apply warm_wstep|done].
  - intros Hw'. apply H; [done|by etrans].
Qed.

(** the block stays: only headers are written around it *)
Lemma stay_post l1 o l2 X o' new m m' :
  let cs := l1 ++ o :: l2 in
  heap_rep cs m -> ordered lo hi X -> o' ∈ X -> payload o' = payload o -> Z.min (c_size o) new <= c_size o' ->
  (forall d, c_used d = true -> d ∈ cs -> payload d <> payload o -> d ∈ X) ->
  wstep (fun a => hdr_bytes cs a \/ hdr_bytes X a) m m' ->
  kept (payload o) cs m m' /\ moved (payload o) (payload o) (Z.min (c_size o) new) m m' /\ wstep in_heap m m'.
Proof.
  intros cs Hr HoX Ho' Hp Hsz Hst Hs. pose proof (hr_ord _ _ _ _ _ Hr) as Hoc. split_and!.
  - intros d Hd Hu Hne. apply (payload_kept cs X); auto.
  - intros i Hi.
    apply (payload_kept_n cs X o o' (Z.min (c_size o) new) m m'); try done; [|lia|unfold span; lia].
    unfold cs. rewrite elem_of_app, elem_of_cons. tauto.
  - by eapply (headers_in_heap cs X).
Qed.

Lemma wp_krealloc_grow l1 o n l2 new m (Q : Z -> machine -> Prop) E :
  let cs := l1 ++ o :: n :: l2 in
  let ptr := KERNEL_BASE + payload o in
  let old_chunk := KERNEL_BASE + c_addr o in
  heap_rep cs m -> c_used o = true -> payload o < hi -> c_size o < new <= 2 ^ 63 -> new mod 16 = 0 ->
  realloc_post o new cs m Q (resize (payload o) new o cs) ->
  wp (ext <- extendChunkInPlace ptr new old_chunk ;;
      if negb (ext =? NULL) then ret ptr else move_block ptr new old_chunk) Q E m.
Proof.
  intros cs ptr old_chunk Hr Hu Hlt Hn H16 HQ. unfold resize in HQ.
  rewrite (proj2 (Z.ltb_lt _ _)) in HQ by lia. unfold cs in HQ at 2. rewrite (extend_at new lo hi) in HQ by apply Hr.
  assert (Ho : o ∈ cs) by (unfold cs; rewrite elem_of_app, elem_of_cons; tauto).
  destruct (chunk_bounds _ _ _ Hr Ho) as (?&?&?&?&?&?).
  apply wp_bind, (wp_extendChunkInPlace l1 o n l2); [done|done|done|].
  destruct (negb (c_used n) && (new - c_size o + HDR <=? c_size n)) eqn:Hc.
  - apply andb_prop in Hc as [Hun%negb_true_iff Hfit%Z.leb_le]. intros m1 Hr1 Hs1.
    rewrite (proj2 (Z.eqb_neq _ _)) by (unfold NULL; zconst; lia). apply wp_ret.
    destruct (stay_post l1 o (n :: l2) (l1 ++ grown o n new ++ l2) (mk_chunk (c_addr o) new (c_used o)) new m m1)
      as (Hk & Hm & Hi); [done|apply Hr1| |done|cbn; lia| |exact Hs1|by apply HQ].
    + rewrite elem_of_app. right. by left.
    + intros d Hud Hd Hne. rewrite !elem_of_app. apply elem_of_app in Hd as [?|[->|[->|?]%elem_of_cons]%elem_of_cons];
        [tauto|done|congruence|tauto].
  - intros m1 Hw1. change (NULL =? NULL) with true. apply (wp_move_block l1 o (n :: l2)); [by eapply heap_rep_warm|done|done|lia|done|].
    by eapply realloc_post_warm.
Qed.

Lemma wp_krealloc_shrink l1 o l2 new m (Q : Z -> machine -> Prop) E :
  let cs := l1 ++ o :: l2 in
  let old_chunk := KERNEL_BASE + c_addr o in
  let leftover := c_size o - new in
  heap_rep cs m -> c_used o = true -> 0 <= new -> new mod 16 = 0 -> MIN_CHUNK_SIZE < leftover ->
  realloc_post o new cs m Q (resize (payload o) new o cs) ->
  wp (put_free_chunk (u64 (old_chunk + HDR + new)) (u64 (leftover - HDR)) old_chunk ;;;
      osize <- vload 8 (size_at old_chunk) ;;
      vstore 8 (size_at old_chunk) (u64 (osize - leftover)) ;;;
      vstore 8 (next_at old_chunk) (u64 (old_chunk + HDR + new)) ;;;
      coalesce_chunk ;;;
      ret (u64 (old_chunk + HDR))) Q E m.
Proof.
  intros cs old_chunk leftover Hr Hu Hn H16 Hlt HQ. unfold resize in HQ. unfold leftover, MIN_CHUNK_SIZE, HDR in *.
  rewrite (proj2 (Z.ltb_ge _ _)), (proj2 (Z.ltb_lt _ _)), (proj2 (Z.ltb_lt _ _)) in HQ by lia.
  unfold cs in HQ at 2. rewrite (shrink_at new lo hi) in HQ by apply Hr.
  assert (Ho : o ∈ cs) by (unfold cs; rewrite elem_of_app, elem_of_cons; tauto).
  destruct (chunk_bounds _ _ _ Hr Ho) as (?&?&?&?&?&?).
  apply (wp_shrink _ l1 o l2); [done|done|done|done|done|]. intros m1 Hr1 Hs1.
  set (X := l1 ++ carve new o ++ l2) in *.
  apply wp_bind, (wp_coalesce_chunk K lo hi X); [done|]. intros m2 Hr2 Hs2.
  assert (Hc : carve new o = [mk_chunk (c_addr o) new true; mk_chunk (c_addr o + 32 + new) (c_size o - new - 32) false]).
  { unfold carve, MIN_CHUNK_SIZE, HDR. by rewrite (proj2 (Z.ltb_lt _ _) Hlt). }
  set (o' := mk_chunk (c_addr o) new true) in *.
  assert (Ho' : o' ∈ X) by (unfold X; rewrite Hc, !elem_of_app; right; left; by left).
  assert (HX : forall d, c_used d = true -> d ∈ cs -> payload d <> payload o -> d ∈ X).
  { intros d Hud Hd Hne. unfold X. rewrite !elem_of_app. apply elem_of_app in Hd as [?|[->|?]%elem_of_cons]; tauto. }
  destruct (stay_post l1 o l2 X o' new m m1) as (Hk & Hm & Hin); [done|apply Hr1|done|done|cbn; lia|done|exact Hs1|].
  assert (Hs2' : wstep (fun a => hdr_bytes X a \/ hdr_bytes (coalesce X) a) m1 m2)
    by (eapply wstep_weaken; [exact Hs2|tauto]).
  apply wp_ret. replace (u64 (old_chunk + 32)) with (KERNEL_BASE + payload o)
    by (unfold old_chunk, KWIN in *; zconst; rewrite u64_small; lia).
  apply HQ; [done| | |].
  3: { etrans; [exact Hin|]. by eapply (headers_in_heap X (coalesce X)); [apply Hr1|apply Hr2|]. }
  - intros d Hd Hud Hne. etrans; [by apply Hk|].
    assert (HdX : d ∈ X) by by apply HX.
    apply (payload_kept X (coalesce X)); [apply Hr1|apply Hr2|done| |done]. by apply coalesce_keeps.
  - intros i Hi. rewrite <- Hm by done.
    apply (payload_kept X (coalesce X) o' m1 m2); [apply Hr1|apply Hr2|done| |done|].
    + by apply coalesce_keeps.
    + unfold span, payload, o' in *. cbn [c_addr c_size]. unfold HDR in *. lia.
Qed.

(** [krealloc] of a used chunk implements [resize]: the contents move along, all
    other blocks keep theirs *)
Lemma wp_krealloc l1 o l2 size m (Q : Z -> machine -> Prop) E :
  let cs := l1 ++ o :: l2 in
  heap_rep cs m -> c_used o = true -> payload o < hi -> round16 size <= 2 ^ 63 ->
  (l2 = [] -> round16 size <= c_size o) ->
  realloc_post o (round16 size) cs m Q (resize (payload o) (round16 size) o cs) ->
  wp (krealloc (KERNEL_BASE + payload o) size) Q E m.
Proof.
  intros cs Hr Hu Hlt Hmax Hlast HQ. destruct (round16_range size) as [Hs Hs16]. unfold krealloc.
  revert Hmax Hlast HQ Hs Hs16. generalize (round16 size). intros new Hmax Hlast HQ Hs Hs16. cbn zeta.
  assert (Ho : o ∈ cs) by (unfold cs; rewrite elem_of_app, elem_of_cons; tauto).
  destruct (chunk_bounds _ _ _ Hr Ho) as (?&?&?&?&?&?).
  destruct (chunk_range _ _ _ _ _ _ _ Hr) as (_&_&_&_&?&_&_).
  rewrite (proj2 (Z.eqb_neq _ _)) by (unfold NULL; zconst; lia).
  replace (u64 (KERNEL_BASE + payload o - HDR)) with (KERNEL_BASE + c_addr o)
    by (unfold KWIN, HDR in *; zconst; rewrite u64_small; lia).
  apply wp_bind, (wp_chunk_size K lo hi l1 o l2); [done|]. intros m1 Hw1 Hr1.
  apply (realloc_post_warm _ _ _ _ _ _ _ Hw1) in HQ.
  destruct (Z.ltb_spec (c_size o) new) as [Hg|Hg].
  - destruct l2 as [|n l2]; [specialize (Hlast eq_refl); lia|].
    by apply (wp_krealloc_grow l1 o n l2).
  - apply wp_bind, (wp_chunk_size K lo hi l1 o l2); [done|]. intros m2 Hw2 Hr2.
    apply (realloc_post_warm _ _ _ _ _ _ _ Hw2) in HQ.
    destruct (Z.ltb_spec new (c_size o)) as [Hl|Hl].
    + rewrite (u64_small (c_size o - new)) by lia.
      destruct (Z.ltb_spec MIN_CHUNK_SIZE (c_size o - new)) as [Hm|Hm].
      { apply (wp_krealloc_shrink l1 o l2); [done|done|lia|done|done|done]. }
      unfold resize in HQ. rewrite (proj2 (Z.ltb_ge _ _)), (proj2 (Z.ltb_lt _ _)), (proj2 (Z.ltb_ge _ _)) in HQ by lia.
      assert (Hne : c_size o - new <> MIN_CHUNK_SIZE).
      { pose proof (ordered_in _ _ _ _ (hr_ord _ _ _ _ _ Hr) Ho) as (_&_&_&?&_).
        unfold MIN_CHUNK_SIZE, HDR. dlia. }
      rewrite (proj2 (Z.ltb_lt _ _)) by lia. by apply (wp_move_block l1 o l2).
    + unfold resize in HQ. rewrite (proj2 (Z.ltb_ge _ _)), (proj2 (Z.ltb_ge _ _)) in HQ by lia.
      apply wp_ret, HQ; [done|by intros d ? ? ?|by intros i ?|].
      reflexivity.
Qed.
End HeapRealloc.
