(* ===== verification/HeapProps.v ===== *)
(** The properties of the kernel heap: what [heap_init], [kalloc], [kfree] and
    [krealloc] promise, the invariants of the chunk list over their use, and the
    corner cases in which the code does not do what it means to. *)

From S2P Require Import Prelude Comp Ram Machine KSpace Utils HeapSpec Heap HeapRealloc.

(** ** Invariants of the operations on chunk lists *)

Lemma carve_in_total size l1 c l2 : total (l1 ++ carve size c ++ l2) = total (l1 ++ c :: l2).
Proof. rewrite !total_app, carve_total. cbn [total]. lia. Qed.

(** the invariants of a heap that never grew a block in place *)
Record heap_inv (lo hi : Z) (cs : list chunk) : Prop := mk_heap_inv {
  hi_coalesced : coalesced cs = true;
  hi_tiled : tiled lo hi cs
}.

Lemma first_fit_inv lo hi size cs p r :
  heap_inv lo hi cs -> first_fit size cs = Some (p, r) -> heap_inv lo hi r /\ total r = total cs.
Proof.
  intros [Hc Ht] Hf. pose proof (first_fit_split size cs) as H. rewrite Hf in H.
  destruct H as (l1 & c & l2 & -> & [Hu _]%fits_true & _ & _ & ->). split; [split|].
  - by apply carve_coalesced.
  - by apply carve_in_tiled.
  - apply carve_in_total.
Qed.

Lemma mark_free_total p cs : total (mark_free p cs) = total cs.
Proof.
  unfold mark_free. induction cs as [|c cs IH]; [done|]. cbn [map total]. rewrite IH. by destruct (_ =? _).
Qed.

Lemma mark_free_tiled lo hi p cs : tiled lo hi cs -> tiled lo hi (mark_free p cs).
Proof.
  unfold mark_free. revert lo. induction cs as [|c cs IH]; intros lo; [done|]. cbn [map tiled].
  intros [? ?]. destruct (_ =? _); (split; [done|]); by apply IH.
Qed.

Lemma release_inv lo hi p cs : heap_inv lo hi cs -> heap_inv lo hi (release p cs) /\ total (release p cs) = total cs.
Proof.
  intros [Hc Ht]. unfold release. split; [split|].
  - apply coalesce_coalesced.
  - by apply coalesce_tiled, mark_free_tiled.
  - by rewrite coalesce_total, mark_free_total.
Qed.

Section HeapProps.
Context (K : ktables) (lo hi : Z).
Implicit Types m : machine.
Local Abbreviation heap_rep := (Heap.heap_rep K lo hi).

Lemma chunk_ptr cs c m : heap_rep cs m -> c ∈ cs -> KERNEL_BASE + payload c <> NULL.
Proof.
  intros Hr Hc. destruct (chunk_bounds K lo hi _ _ _ Hr Hc) as (?&?&_&_&_&?). unfold NULL. zconst. lia.
Qed.

Lemma block_ptr size cs p r m :
  heap_rep r m -> first_fit size cs = Some (p, r) ->
  exists b, b ∈ r /\ payload b = p /\ c_used b = true /\ size <= c_size b /\ KERNEL_BASE + p <> NULL.
Proof.
  intros Hr Hf. destruct (first_fit_block _ _ _ _ Hf) as (b & Hb & <- & Hu & Hs).
  exists b. split_and!; [done..|by eapply chunk_ptr].
Qed.

(** [heap_init] turns the heap area into one free chunk. *)
Theorem heap_init_correct m :
  kspace K m -> 0 <= lo -> lo mod 16 = 0 -> hi mod 16 = 0 -> lo + HDR <= hi -> hi <= KWIN ->
  heap_start (glb m) = KERNEL_BASE + lo -> heap_end (glb m) = KERNEL_BASE + hi ->
  (forall a, lo <= a < hi -> ~ ktab K a) ->
  wp heap_init
    (fun _ m' => exists c, heap_rep [c] m' /\ c_used c = false /\ heap_inv lo hi [c] /\
       agree (fun a => ~ span lo 24 a) (ram m) (ram m')) nostop m.
Proof.
  intros. apply (wp_heap_init K lo hi); [done..|]. intros m' Hr Hs. eexists. split_and!; [exact Hr|done| |apply Hs].
  split; [done|]. cbn. unfold c_end. cbn. split; [done|lia].
Qed.

(** C5: [kalloc] refines first-fit allocation on the chunk list: it returns the
    payload of the chunk [first_fit] picks for the rounded size and leaves memory
    representing the carved list, or NULL and an unchanged list; the payload of
    every block in use keeps its bytes. *)
Theorem kalloc_refines size cs m :
  heap_rep cs m ->
  wp (kalloc size)
    (fun r m' =>
       match first_fit (round16 size) cs with
       | Some (p, cs') => r = KERNEL_BASE + p /\ heap_rep cs' m'
       | None => r = NULL /\ heap_rep cs m'
       end /\
       forall d, d ∈ cs -> c_used d = true -> agree (span (payload d) (c_size d)) (ram m) (ram m')) nostop m.
Proof.
  intros Hr. apply (wp_kalloc K lo hi size cs); [done|].
  destruct (first_fit (round16 size) cs) as [[p cs']|] eqn:Hf.
  - intros m' Hr' Hs. split_and!; [done|done|]. intros d Hd Hu.
    apply (payload_kept lo hi cs cs'); [apply Hr|apply Hr'|done|by eapply first_fit_keeps|done].
  - intros m' Hr' Hw. split_and!; [done|done|]. intros d _ _ a _. by rewrite (warm_ram _ _ Hw).
Qed.

(** a block [kalloc] returns is usable: 16-byte aligned, at least as large as
    asked for, marked used, and disjoint from every block already in use. *)
Theorem kalloc_block size cs m :
  heap_rep cs m -> 0 <= size <= 2 ^ 64 - 16 ->
  wp (kalloc size)
    (fun r m' => r <> NULL -> exists cs' b, heap_rep cs' m' /\ b ∈ cs' /\ c_used b = true /\
       r = KERNEL_BASE + payload b /\ r mod 16 = 0 /\ size <= c_size b /\
       forall d, d ∈ cs -> c_used d = true ->
         d ∈ cs' /\ (payload d + c_size d <= payload b \/ payload b + c_size b <= payload d)) nostop m.
Proof.
  intros Hr Hsz. apply (wp_kalloc K lo hi size cs); [done|].
  destruct (first_fit (round16 size) cs) as [[p cs']|] eqn:Hf; [|by intros].
  intros m' Hr' _ _. destruct (block_ptr _ _ _ _ _ Hr' Hf) as (b & Hb & <- & Hu & Hs & _).
  pose proof (hr_ord _ _ _ _ _ Hr') as Ho'. pose proof (hr_ord _ _ _ _ _ Hr) as Ho.
  exists cs', b. split_and!; [done..| | |].
  - destruct (ordered_in _ _ _ _ Ho' Hb) as (_&_&?&_). unfold payload, HDR. zconst. dlia.
  - pose proof (round16_up size Hsz). lia.
  - intros d Hd Hud. assert (Hd' : d ∈ cs') by by eapply first_fit_keeps. split; [done|].
    assert (Hne : d <> b).
    { intros ->. by apply (first_fit_fresh _ _ _ _ _ _ b Ho Hf Hud Hd). }
    destruct (chunk_bounds K lo hi _ _ _ Hr' Hd') as (_&_&_&_&?&?), (chunk_bounds K lo hi _ _ _ Hr' Hb) as (_&_&_&_&?&?).
    destruct (ordered_apart _ _ _ _ _ Ho' Hd' Hb Hne); unfold c_end, HDR in *; lia.
Qed.

(** NULL exactly when first fit finds nothing *)
Lemma kalloc_null size cs m :
  heap_rep cs m -> wp (kalloc size) (fun r _ => r = NULL <-> first_fit (round16 size) cs = None) nostop m.
Proof.
  intros Hr. apply (wp_kalloc K lo hi size cs); [done|].
  destruct (first_fit (round16 size) cs) as [[p cs']|] eqn:Hf; [|by intros].
  intros m' Hr' _. destruct (block_ptr _ _ _ _ _ Hr' Hf) as (_ & _ & _ & _ & _ & Hne). done.
Qed.

(** [kalloc] fails exactly when no free chunk has room for the rounded size. *)
Theorem kalloc_fails_iff size cs m :
  heap_rep cs m ->
  wp (kalloc size) (fun r _ => r = NULL <-> Forall (fun d => fits (round16 size) d = false) cs) nostop m.
Proof.
  intros Hr. eapply wp_mono; [by apply (kalloc_null size cs)| |done]. intros r _ ->.
  pose proof (first_fit_split (round16 size) cs) as Hsp. split; [|apply first_fit_none].
  by destruct (first_fit (round16 size) cs) as [[? ?]|].
Qed.

(** the rounding wraps: a request within 15 bytes of 2^64 becomes a request
    for 0 bytes, which succeeds whenever any chunk is free. *)
Theorem kalloc_wraps size cs m :
  heap_rep cs m -> 2 ^ 64 - 15 <= size < 2 ^ 64 -> Exists (fun d => c_used d = false) cs ->
  wp (kalloc size) (fun r m' => round16 size = 0 /\ r <> NULL) nostop m.
Proof.
  intros Hr Hsz Hex. assert (H0 : round16 size = 0).
  { rewrite round16_spec. unfold u64. replace (size + 15) with (size - (2 ^ 64 - 15) + 1 * 2 ^ 64) by lia.
    rewrite Z.mod_add, Z.mod_small by lia. dlia. }
  apply (wp_kalloc K lo hi size cs); [done|]. rewrite H0. pose proof (first_fit_split 0 cs) as Hsp.
  destruct (first_fit 0 cs) as [[p cs']|] eqn:Hf.
  - intros m' Hr' _. by destruct (block_ptr _ _ _ _ _ Hr' Hf) as (_ & _ & _ & _ & _ & Hne).
  - exfalso. apply Exists_exists in Hex as (d & Hd & Hu). rewrite Forall_forall in Hsp.
    specialize (Hsp d Hd). destruct (ordered_in _ _ _ _ (hr_ord _ _ _ _ _ Hr) Hd) as (_&_&_&_&?).
    assert (fits 0 d = true) by by apply fits_true. congruence.
Qed.

(** C6: [kfree] of a block in use refines release with coalescing on the chunk
    list; the payload of every other block in use keeps its bytes. *)
Theorem kfree_refines l1 c l2 m :
  let cs := l1 ++ c :: l2 in
  heap_rep cs m -> c_used c = true -> payload c < hi ->
  wp (kfree (KERNEL_BASE + payload c))
    (fun _ m' => heap_rep (release (payload c) cs) m' /\ coalesced (release (payload c) cs) = true /\
       kept (payload c) cs m m') nostop m.
Proof.
  intros cs Hr Hu Hlt. apply (wp_kfree K lo hi l1 c l2); [done|done|]. rewrite Hu. fold cs. intros m' Hr' Hs.
  split_and!; [done|apply coalesce_coalesced|]. intros d Hd Hud Hne.
  apply (payload_kept lo hi cs (release (payload c) cs)); [apply Hr|apply Hr'|done|by apply release_keeps|].
  eapply wstep_weaken; [exact Hs|tauto].
Qed.

(** [kfree] ignores NULL, pointers outside the heap and blocks that are not in use. *)
Theorem kfree_ignores l1 c l2 m ptr :
  let cs := l1 ++ c :: l2 in
  heap_rep cs m ->
  ptr = NULL \/ ptr < KERNEL_BASE + lo \/ KERNEL_BASE + hi <= ptr \/
    (ptr = KERNEL_BASE + payload c /\ c_used c = false) ->
  wp (kfree ptr) (fun _ m' => ram m' = ram m /\ heap_rep cs m') nostop m.
Proof.
  intros cs Hr Hp.
  assert (Hout : ptr = NULL \/ ptr < KERNEL_BASE + lo \/ KERNEL_BASE + hi <= ptr \/
                 (ptr = KERNEL_BASE + payload c /\ c_used c = false /\ payload c < hi)).
  { destruct Hp as [?|[?|[?|[-> ?]]]]; [by auto..|].
    destruct (Z.lt_ge_cases (payload c) hi); [by auto 10|right; right; left; lia]. }
  clear Hp. destruct Hout as [Ho|[Ho|[Ho|(-> & Hu & Hlt)]]].
  1-3: unfold wp; by rewrite (kfree_outside K lo hi cs) by tauto.
  destruct (chunk_range K lo hi l1 c l2 m Hr) as (?&?&?&?&?&?&?).
  unfold kfree, payload, HDR, KWIN in *.
  rewrite (proj2 (Z.eqb_neq _ _)) by (unfold NULL; zconst; lia). wp_steps.
  rewrite (hr_start _ _ _ _ _ Hr), (hr_end _ _ _ _ _ Hr).
  rewrite (proj2 (Z.ltb_ge _ _)) by lia. rewrite (proj2 (Z.leb_gt _ _)) by lia. cbn [orb].
  replace (u64 _) with (KERNEL_BASE + c_addr c) by (zconst; rewrite u64_small; lia).
  apply wp_bind, (wp_chunk_inuse K lo hi l1 c l2); [done|]. intros m1 Hw1 Hr1. rewrite b2z_eqb, Hu. cbn [negb].
  apply wp_ret. split; [apply Hw1|done].
Qed.

(** round trip: freeing the block just allocated gives back the very same
    chunk list, for every heap without adjacent free chunks. *)
Theorem kalloc_kfree_roundtrip size cs m :
  heap_rep cs m -> coalesced cs = true -> 0 < round16 size ->
  wp (p <- kalloc size ;; kfree p) (fun _ m' => heap_rep cs m') nostop m.
Proof.
  intros Hr Hc Hpos. destruct (round16_range size) as [Hs Hs16]. pose proof (hr_ord _ _ _ _ _ Hr) as Ho.
  pose proof (first_fit_split (round16 size) cs) as Hsp. apply wp_bind, (wp_kalloc K lo hi size cs); [done|].
  destruct (first_fit (round16 size) cs) as [[p cs']|] eqn:Hf.
  2: { intros m' Hr' _. unfold wp. by rewrite (kfree_outside K lo hi cs m' NULL Hr' (or_introl eq_refl)). }
  intros m1 Hr1 _. destruct (block_ptr _ _ _ _ _ Hr1 Hf) as (b & Hb & <- & Hu & Hsz & _).
  destruct (chunk_bounds K lo hi _ _ _ Hr1 Hb) as (_&_&?&_&_&_).
  destruct Hsp as (l1 & c & l2 & -> & Hfit & _ & Hpb & Hcs').
  apply list_elem_of_split in Hb as (k1 & k2 & Hk). rewrite Hk in Hr1.
  apply (wp_kfree K lo hi k1 b k2); [done|lia|]. rewrite Hu, <- Hk. intros m2 Hr2 _.
  rewrite Hcs', Hpb in Hr2. by rewrite (carve_release l1 c l2 (round16 size) lo hi) in Hr2 by (done || lia).
Qed.

(** allocating and freeing keep the shape of the heap: no two adjacent free
    chunks, the chunks tile the heap area without gaps, and no byte of it is lost. *)
Theorem heap_ops_invariant size l1 c l2 m :
  let cs := l1 ++ c :: l2 in
  heap_rep cs m -> heap_inv lo hi cs -> payload c < hi ->
  wp (kalloc size) (fun _ m' => exists cs', heap_rep cs' m' /\ heap_inv lo hi cs' /\ total cs' = hi - lo) nostop m /\
  wp (kfree (KERNEL_BASE + payload c))
    (fun _ m' => exists cs', heap_rep cs' m' /\ heap_inv lo hi cs' /\ total cs' = hi - lo) nostop m.
Proof.
  intros cs Hr Hi Hlt. pose proof (tiled_total _ _ _ (hi_tiled _ _ _ Hi)) as Htot. split.
  - apply (wp_kalloc K lo hi size cs); [done|].
    destruct (first_fit (round16 size) cs) as [[p cs']|] eqn:Hf; intros m' Hr' _; [|by exists cs].
    destruct (first_fit_inv _ _ _ _ _ _ Hi Hf) as [Hi' Ht']. exists cs'. split_and!; [done|done|congruence].
  - apply (wp_kfree K lo hi l1 c l2); [done|done|]. fold cs. intros m' Hr' _.
    destruct (c_used c); [|by exists cs].
    destruct (release_inv _ _ (payload c) _ Hi) as [Hi' Ht']. eexists. split_and!; [exact Hr'|done|congruence].
Qed.

(** ** [krealloc] *)

(** C7: [krealloc] of a block in use refines [resize]: the answer and the new
    chunk list are those of growing in place, splitting, or moving the block; its
    contents, up to the smaller of the two sizes, are found at the returned
    address, and every other block in use keeps its bytes.  (The block must not
    be the last chunk when it has to grow: see [krealloc_last_faults].) *)
Theorem krealloc_refines l1 o l2 size m :
  let cs := l1 ++ o :: l2 in
  heap_rep cs m -> c_used o = true -> payload o < hi -> round16 size <= 2 ^ 63 ->
  (l2 = [] -> round16 size <= c_size o) ->
  wp (krealloc (KERNEL_BASE + payload o) size)
    (fun r m' =>
       match resize (payload o) (round16 size) o cs with
       | Some (p', cs') => r = KERNEL_BASE + p' /\ heap_rep cs' m' /\ kept (payload o) cs m m' /\
                           moved (payload o) p' (Z.min (c_size o) (round16 size)) m m'
       | None => r = NULL /\ heap_rep cs m' /\ ram m' = ram m
       end) nostop m.
Proof.
  intros cs Hr Hu Hlt Hmax Hlast. apply (wp_krealloc K lo hi l1 o l2); [done..|]. fold cs.
  destruct (resize (payload o) (round16 size) o cs) as [[p' cs']|]; cbn [realloc_post].
  - intros m' Hr' Hk Hm _. by split_and!.
  - intros m' Hr' Hw. split_and!; [done|done|apply Hw].
Qed.

(** C28: growing a block in place loses 32 bytes of the heap for good: the split
    header is placed a header's size too far. *)
Theorem krealloc_grow_leaks l1 o n l2 size m :
  let cs := l1 ++ o :: n :: l2 in
  heap_rep cs m -> c_used o = true -> c_used n = false -> c_size o < round16 size <= 2 ^ 63 ->
  round16 size - c_size o + HDR <= c_size n ->
  wp (krealloc (KERNEL_BASE + payload o) size)
    (fun r m' => r = KERNEL_BASE + payload o /\
       exists cs', heap_rep cs' m' /\ total cs' = total cs - 32) nostop m.
Proof.
  intros cs Hr Hu Hun [Hlt Hmax] Hfit.
  assert (Ho : o ∈ cs) by (unfold cs; rewrite elem_of_app, elem_of_cons; tauto).
  assert (Hn : n ∈ cs) by (unfold cs; rewrite elem_of_app, !elem_of_cons; tauto).
  destruct (chunk_bounds K lo hi _ _ _ Hr Ho) as (_&_&?&_&?&?), (chunk_bounds K lo hi _ _ _ Hr Hn) as (_&_&?&_&?&?).
  pose proof (ordered_disjoint _ _ _ _ [] _ _ (hr_ord _ _ _ _ _ Hr)) as Hon. unfold c_end, HDR in *.
  apply (wp_krealloc K lo hi l1 o (n :: l2)); [done|done|lia|done|done|]. fold cs.
  unfold resize. rewrite (proj2 (Z.ltb_lt _ _) Hlt). unfold cs. rewrite (extend_at _ lo hi) by apply Hr.
  unfold HDR. rewrite Hun, (proj2 (Z.leb_le _ _) Hfit). cbn [negb andb realloc_post].
  intros m' Hr' _ _ _. split; [done|]. eexists. split; [exact Hr'|].
  rewrite !total_app. unfold grown, HDR. cbn [app total c_size]. unfold HDR. lia.
Qed.

(** growing the last chunk reads the header at NULL *)
Lemma wp_krealloc_last l1 o size m (Q : Z -> machine -> Prop) E :
  heap_rep (l1 ++ [o]) m -> c_used o = true -> c_size o < round16 size ->
  mwalk m 0 = None -> tlb m !! 0 = None ->
  (forall m', warm m m' -> E (PageFault 8) m') ->
  wp (krealloc (KERNEL_BASE + payload o) size) Q E m.
Proof.
  intros Hr Hu Hlt Hw Ht HE. unfold krealloc. destruct (chunk_range K lo hi l1 o [] m Hr) as (?&?&?&?&?&?&?).
  unfold payload, HDR, KWIN in *. rewrite (proj2 (Z.eqb_neq _ _)) by (unfold NULL; zconst; lia). cbn zeta.
  replace (u64 (_ - 32)) with (KERNEL_BASE + c_addr o) by (zconst; rewrite u64_small; lia).
  apply wp_bind, (wp_chunk_size K lo hi l1 o []); [done|]. intros m1 Hw1 Hr1.
  rewrite (proj2 (Z.ltb_lt _ _) Hlt). apply wp_bind. unfold extendChunkInPlace.
  apply wp_bind, (wp_chunk_next K lo hi l1 o []); [done|]. intros m2 Hw2 _. apply wp_bind.
  assert (Hwm : warm m m2) by by etrans.
  assert (Ht2 : tlb m2 !! 0 = None).
  { destruct (tlb m2 !! 0) as [f|] eqn:Ef; [|done]. unfold mwalk in Hw.
    destruct (warm_new _ _ Hwm 0 f Ef); congruence. }
  change (inuse_at (cptr [] NULL)) with 8. unfold wp, vload, bind. cbn [translate_range].
  unfold translate, bind. change (canonical 8) with true. change (8 / 4096) with 0. cbn iota.
  rewrite Ht2, (warm_ram _ _ Hwm), (warm_cr3 _ _ Hwm). unfold mwalk in Hw. rewrite Hw. by apply HE.
Qed.
(** C27: growing the last chunk of the heap dereferences its NULL [next] pointer:
    with page 0 unmapped the kernel takes a page fault at address 8. *)
Theorem krealloc_last_faults l1 o size m :
  heap_rep (l1 ++ [o]) m -> c_used o = true -> c_size o < round16 size ->
  mwalk m 0 = None -> tlb m !! 0 = None ->
  wp (krealloc (KERNEL_BASE + payload o) size) (fun _ _ => False) (fun e _ => e = PageFault 8) m.
Proof. intros. by apply (wp_krealloc_last l1 o). Qed.
End HeapProps.
