(* ===== verification/HeapRuns.v ===== *)
(** A client of the heap: any sequence of [kalloc], [kfree] and [krealloc] calls and of
    writes into the blocks they returned, as a labelled step relation over the machine
    and the blocks the client holds.  Invariants of the reachable states: blocks
    never overlap and always hold what the client last put there; and a client that
    gave everything back leaves the heap as it found it. *)

From S2P Require Import Prelude Comp Ram Machine KSpace HeapSpec Heap HeapRealloc HeapProps.

(** what a client does with the heap *)
Inductive call : Type :=
  | CAlloc (size : Z)
  | CFree (p : Z)
  | CRealloc (p size : Z)
  | CWrite (p off v : Z).

(** the blocks it holds: the pointer it was given, and the bytes it should find there *)
Abbreviation blocks := (gmap Z (list Z)).

Definition size_of (bs : list Z) : Z := Z.of_nat (length bs).

(** [n] bytes of memory at the pointer [p] into the kernel window *)
Definition bytes_of (m : machine) (p n : Z) : list Z := (fun i => rd (ram m) (p - KERNEL_BASE + i)) <$> seqZ 0 n.

(** a request whose size does not wrap: see [kalloc_wraps] *)
Definition sound_size (size : Z) : Prop := 0 < size <= 2 ^ 63 - 16.

Inductive heap_step : call -> machine * blocks -> machine * blocks -> Prop :=
  | step_alloc size m h r m' :
      sound_size size -> kalloc size m = Ret r m' ->
      heap_step (CAlloc size) (m, h) (m', if decide (r = NULL) then h else <[r := bytes_of m' r size]> h)
  | step_free p m h m' :
      is_Some (h !! p) -> kfree p m = Ret tt m' -> heap_step (CFree p) (m, h) (m', delete p h)
  | step_realloc p size bs m h r m' :
      sound_size size -> h !! p = Some bs -> krealloc p size m = Ret r m' ->
      heap_step (CRealloc p size) (m, h)
        (m', if decide (r = NULL) then h
             else <[r := take (Z.to_nat size) bs ++ bytes_of m' (r + size_of bs) (size - size_of bs)]> (delete p h))
  | step_write p off v bs m h m' :
      h !! p = Some bs -> 0 <= off < size_of bs -> 0 <= v < 256 -> vstore 1 (p + off) v m = Ret tt m' ->
      heap_step (CWrite p off v) (m, h) (m', <[p := <[Z.to_nat off := v]> bs]> h).

Definition heap_run : list call -> machine * blocks -> machine * blocks -> Prop := runs heap_step.

(** a client that never resizes *)
Definition no_resize (c : call) : bool := match c with CRealloc _ _ => false | _ => true end.

Lemma length_bytes_of m p n : length (bytes_of m p n) = Z.to_nat n.
Proof. unfold bytes_of. by rewrite length_fmap, length_seqZ. Qed.

Lemma lookup_bytes_of m p n i b :
  bytes_of m p n !! i = Some b <-> Z.of_nat i < n /\ b = rd (ram m) (p - KERNEL_BASE + Z.of_nat i).
Proof.
  unfold bytes_of. rewrite list_lookup_fmap, fmap_Some. split.
  - intros (j & [-> Hi]%lookup_seqZ & ->). by rewrite Z.add_0_l.
  - intros [Hi ->]. exists (Z.of_nat i). split; [by apply lookup_seqZ|done].
Qed.

Lemma bytes_of_agree m m' p n :
  agree (span (p - KERNEL_BASE) n) (ram m) (ram m') -> bytes_of m' p n = bytes_of m p n.
Proof.
  intros Ha. unfold bytes_of. apply list_fmap_ext. intros i x [-> Hi]%lookup_seqZ. apply Ha. unfold span. lia.
Qed.

Lemma bytes_of_app m p a b : 0 <= a -> 0 <= b -> bytes_of m p (a + b) = bytes_of m p a ++ bytes_of m (p + a) b.
Proof.
  intros Ha Hb. unfold bytes_of. rewrite seqZ_app, fmap_app, Z.add_0_l by done. f_equal.
  replace a with (a + 0) at 1 by lia. rewrite <- fmap_add_seqZ, <- list_fmap_compose.
  apply list_fmap_ext. intros i x _. cbn. f_equal. lia.
Qed.

Section Runs.
Context (K : ktables) (lo hi : Z).
Implicit Types m : machine.
Implicit Types h : blocks.
Local Abbreviation heap_rep := (Heap.heap_rep K lo hi).
Local Abbreviation in_heap := (HeapRealloc.in_heap lo hi).

(** page 0 is not mapped, and no table that says so lies in the heap *)
Definition null_page m : Prop :=
  mwalk m 0 = None /\ tlb m !! 0 = None /\ forall a, mbytes m 0 a -> ~ in_heap a.

Lemma null_page_step m m' : null_page m -> wstep in_heap m m' -> null_page m'.
Proof.
  intros (Hw & Ht & Hb) Hs. destruct (wstep_walk _ _ _ 0 Hs Hb) as [Hw' Hb']. split_and!; [by rewrite Hw'| |].
  - destruct (tlb m' !! 0) as [f|] eqn:E; [|done]. destruct (ws_tlb _ _ _ Hs 0 Hb f E); congruence.
  - intros a Ha. by apply Hb, Hb'.
Qed.

(** the block of the client at [p] is a chunk in use, with the bytes expected *)
Definition holds (cs : list chunk) m (p : Z) (bs : list Z) : Prop :=
  exists b, b ∈ cs /\ c_used b = true /\ p = KERNEL_BASE + payload b /\ 0 < size_of bs <= c_size b /\
            bytes_of m p (size_of bs) = bs.

Record client (cs : list chunk) m h : Prop := mk_client {
  cl_rep : heap_rep cs m;
  cl_null : null_page m;
  cl_holds : forall p bs, h !! p = Some bs -> holds cs m p bs
}.

(** the client is the only one to use the heap *)
Record exclusive (cs : list chunk) h : Prop := mk_exclusive {
  ex_inv : heap_inv lo hi cs;
  ex_used : forall b, b ∈ cs -> c_used b = true -> is_Some (h !! (KERNEL_BASE + payload b))
}.

Lemma holds_kept cs cs' m m' p bs :
  holds cs m p bs ->
  (forall d, d ∈ cs -> c_used d = true -> p = KERNEL_BASE + payload d ->
     d ∈ cs' /\ agree (span (payload d) (c_size d)) (ram m) (ram m')) ->
  holds cs' m' p bs.
Proof.
  intros (b & Hb & Hu & -> & Hs & Hbs) Hk. destruct (Hk b) as [Hb' Ha]; [done..|]. exists b. split_and!; [done..|lia|lia|].
  rewrite <- Hbs at 2. apply bytes_of_agree. eapply agree_weaken; [exact Ha|]. unfold span. intros a. lia.
Qed.

(** the block of a pointer the client holds *)
Lemma client_block cs m h p bs : client cs m h -> h !! p = Some bs ->
  exists l1 b l2, cs = l1 ++ b :: l2 /\ c_used b = true /\ p = KERNEL_BASE + payload b /\ 0 < size_of bs <= c_size b /\
    bytes_of m p (size_of bs) = bs /\ payload b < hi.
Proof.
  intros Hc Hp. destruct (cl_holds _ _ _ Hc p bs Hp) as (b & Hb & Hu & Hpb & Hs & Hbs).
  destruct (chunk_bounds K lo hi _ _ _ (cl_rep _ _ _ Hc) Hb) as (_&_&?&_).
  pose proof Hb as Hsp. apply list_elem_of_split in Hsp as (l1 & l2 & ->). exists l1, b, l2. split_and!; try done; lia.
Qed.

(** [kalloc] *)
Lemma wp_client_alloc cs m h size :
  client cs m h -> sound_size size ->
  wp (kalloc size)
    (fun r m' => let h' := if decide (r = NULL) then h else <[r := bytes_of m' r size]> h in
       exists cs', client cs' m' h' /\ (exclusive cs h -> exclusive cs' h')) nostop m.
Proof.
  intros [Hr Hn Hh] Hsz. unfold sound_size in Hsz. pose proof (hr_ord _ _ _ _ _ Hr) as Ho.
  apply (wp_kalloc K lo hi size cs); [done|]. destruct (first_fit (round16 size) cs) as [[q cs']|] eqn:Hf.
  2: { intros m' Hr' Hw. exists cs. rewrite decide_True by done. split; [|done]. split; [done|..].
       - eapply null_page_step; [done|by apply warm_wstep].
       - intros p bs Hp. eapply holds_kept; [by apply Hh|]. intros d Hd _ _. split; [done|].
         intros a _. by rewrite (warm_ram _ _ Hw). }
  intros m' Hr' Hs. destruct (block_ptr K lo hi _ _ _ _ _ Hr' Hf) as (b & Hb & <- & Hub & Hsb & Hne). cbn zeta.
  pose proof (round16_up size ltac:(lia)) as H16. pose proof (hr_ord _ _ _ _ _ Hr') as Ho'.
  exists cs'. rewrite decide_False by done. split; [split; [done|..]|].
  - eapply null_page_step; [done|]. by eapply headers_in_heap; [| |exact Hs].
  - intros p bs [[<- <-]|[Hpne Hp]]%lookup_insert_Some.
    + exists b. unfold size_of. rewrite length_bytes_of, Z2Nat.id by lia. split_and!; try done; lia.
    + eapply holds_kept; [by apply Hh|]. intros d Hd Hud _. assert (Hd' : d ∈ cs') by by eapply first_fit_keeps.
      split; [done|]. by apply (payload_kept lo hi cs cs').
  - intros [Hi Hu]. split; [by eapply (first_fit_inv lo hi _ _ _ _ Hi)|]. intros d Hd Hud.
    destruct (first_fit_used _ _ _ _ d Hf Hud Hd) as [->|Hdc]; [rewrite lookup_insert_eq; by eexists|].
    rewrite lookup_insert_is_Some. destruct (decide (KERNEL_BASE + payload b = KERNEL_BASE + payload d)); [by left|right; auto].
Qed.

(** [kfree] *)
Lemma wp_client_free cs m h p :
  client cs m h -> is_Some (h !! p) ->
  wp (kfree p) (fun _ m' => exists cs', client cs' m' (delete p h) /\ (exclusive cs h -> exclusive cs' (delete p h)))
    nostop m.
Proof.
  intros Hc [bs Hp]. destruct (client_block _ _ _ _ _ Hc Hp) as (l1 & b & l2 & Hcs & Hub & -> & _ & _ & Hlt).
  destruct Hc as [Hr Hn Hh]. pose proof (hr_ord _ _ _ _ _ Hr) as Ho. rewrite Hcs in Hr.
  apply (wp_kfree K lo hi l1 b l2); [done|done|]. rewrite Hub, <- Hcs. intros m' Hr' Hs.
  assert (Hs' : wstep (fun a => hdr_bytes cs a \/ hdr_bytes (release (payload b) cs) a) m m')
    by (eapply wstep_weaken; [exact Hs|tauto]).
  pose proof (hr_ord _ _ _ _ _ Hr') as Ho'. exists (release (payload b) cs). split; [split; [done|..]|].
  - eapply null_page_step; [done|]. by eapply headers_in_heap; [| |exact Hs'].
  - intros q bs' [Hqne Hq]%lookup_delete_Some. eapply holds_kept; [by apply Hh|]. intros d Hd Hud ->.
    assert (Hd' : d ∈ release (payload b) cs) by (apply release_keeps; [done|congruence|done]).
    split; [done|]. by apply (payload_kept lo hi cs (release (payload b) cs)).
  - intros [Hi Hu]. split; [by apply release_inv|]. intros d Hd Hud. destruct (release_used _ _ _ Hud Hd) as [Hdc Hne].
    rewrite lookup_delete_ne by lia. by apply Hu.
Qed.

(** [krealloc]: it faults when it has to grow the last chunk, and else answers *)
Lemma wp_krealloc_held l1 o l2 size m (Q : Z -> machine -> Prop) (E : stop -> machine -> Prop) :
  let cs := l1 ++ o :: l2 in
  heap_rep cs m -> null_page m -> c_used o = true -> payload o < hi -> sound_size size ->
  (forall m', l2 = [] -> c_size o < round16 size -> E (PageFault 8) m') ->
  realloc_post K lo hi o (round16 size) cs m Q (resize (payload o) (round16 size) o cs) ->
  wp (krealloc (KERNEL_BASE + payload o) size) Q E m.
Proof.
  intros cs Hr Hn Hu Hlt Hsz HE HQ. unfold sound_size in Hsz.
  assert (H16 : size <= round16 size < size + 16) by (apply round16_up; lia).
  assert (Hmax : round16 size <= 2 ^ 63) by lia.
  destruct (decide (l2 = [] /\ c_size o < round16 size)) as [[-> Hg]|Hg].
  - destruct Hn as (Hw & Ht & _). apply (wp_krealloc_last K lo hi l1 o); [done..|]. intros m' _. by apply HE.
  - apply (wp_krealloc K lo hi l1 o l2); [done..| |done]. intros ->. apply Z.nlt_ge. intros ?. by apply Hg.
Qed.

(** the new contents: the old bytes up to the new size, then what was there *)
Lemma moved_bytes m m' q q' size bs :
  0 < size -> bytes_of m (KERNEL_BASE + q) (size_of bs) = bs -> moved q q' (Z.min (size_of bs) size) m m' ->
  bytes_of m' (KERNEL_BASE + q') size =
    take (Z.to_nat size) bs ++ bytes_of m' (KERNEL_BASE + q' + size_of bs) (size - size_of bs).
Proof.
  intros Hsz Hbs Hm. assert (Hl : 0 <= size_of bs) by (unfold size_of; lia).
  assert (Hpre : forall n, 0 <= n <= Z.min (size_of bs) size -> bytes_of m' (KERNEL_BASE + q') n = take (Z.to_nat n) bs).
  { intros n Hn. rewrite <- Hbs. apply list_eq. intros i. apply option_eq. intros x.
    rewrite lookup_take_Some, !lookup_bytes_of.
    replace (KERNEL_BASE + q' - KERNEL_BASE) with q' by lia. replace (KERNEL_BASE + q - KERNEL_BASE) with q by lia.
    split; [intros [? ->]|intros [[? ->] ?]]; rewrite Hm by lia; repeat split; lia. }
  destruct (Z.le_gt_cases size (size_of bs)) as [Hle|Hgt].
  - rewrite Hpre by lia. unfold bytes_of. rewrite (seqZ_nil 0 (size - size_of bs)) by lia. by rewrite app_nil_r.
  - replace size with (size_of bs + (size - size_of bs)) at 1 by lia. rewrite bytes_of_app, Hpre by lia. f_equal.
    rewrite !take_ge by (unfold size_of in *; lia). done.
Qed.

Definition resized (p size : Z) (bs : list Z) h (r : Z) m' : blocks :=
  if decide (r = NULL) then h
  else <[r := take (Z.to_nat size) bs ++ bytes_of m' (r + size_of bs) (size - size_of bs)]> (delete p h).

(** [p] is the block of the last chunk, and too small *)
Definition grows_last (cs : list chunk) (p size : Z) : Prop :=
  exists l o, cs = l ++ [o] /\ p = KERNEL_BASE + payload o /\ c_size o < round16 size.

Lemma wp_client_realloc cs m h p bs size :
  client cs m h -> h !! p = Some bs -> sound_size size ->
  wp (krealloc p size) (fun r m' => exists cs', client cs' m' (resized p size bs h r m'))
    (fun e _ => e = PageFault 8 /\ grows_last cs p size) m.
Proof.
  intros Hc Hp Hsz. destruct (client_block _ _ _ _ _ Hc Hp) as (l1 & o & l2 & Hcs & Hu & -> & Hs & Hbs & Hlt).
  pose proof Hc as [Hr Hn Hh]. pose proof (hr_ord _ _ _ _ _ Hr) as Ho. rewrite Hcs in Hr, Ho.
  assert (Hin : o ∈ cs) by (rewrite Hcs, elem_of_app, elem_of_cons; tauto).
  assert (H16 : size <= round16 size < size + 16) by (apply round16_up; unfold sound_size in Hsz; lia).
  destruct (ordered_in _ _ _ _ (hr_ord _ _ _ _ _ (cl_rep _ _ _ Hc)) Hin) as (_&_&_&Hm16&_).
  apply (wp_krealloc_held l1 o l2); [done..| |].
  { intros ? -> Hg. split; [done|]. by exists l1, o. }
  pose proof (fun q r => resize_block lo hi (round16 size) l1 o l2 q r Ho Hu) as Hres. rewrite <- Hcs in *.
  destruct (resize (payload o) (round16 size) o cs) as [[q r]|]; cbn [realloc_post]; unfold resized.
  2: { intros m' Hr' Hw. exists cs. rewrite decide_True by done. split; [done|..].
       - eapply null_page_step; [done|by apply warm_wstep].
       - intros p' bs' Hp'. eapply holds_kept; [by apply Hh|]. intros d Hd _ _. split; [done|].
         intros a _. by rewrite (warm_ram _ _ Hw). }
  intros m' Hr' Hk Hm Hst. destruct (Hres _ _ eq_refl) as [(b & Hb & Hpb & Hub & Hsb) Hothers].
  exists r. rewrite decide_False by (rewrite <- Hpb; by eapply chunk_ptr). split; [done|by eapply null_page_step|].
  intros p' bs' [[<- <-]|[Hne [Hne' Hp']%lookup_delete_Some]]%lookup_insert_Some.
  - exists b. unfold sound_size in Hsz.
    assert (Hnew : bytes_of m' (KERNEL_BASE + q) size = take (Z.to_nat size) bs ++
              bytes_of m' (KERNEL_BASE + q + size_of bs) (size - size_of bs)).
    { apply (moved_bytes m m' (payload o)); [lia|done|]. intros i Hi. apply Hm. lia. }
    rewrite <- Hnew. unfold size_of at 1 2 3. rewrite length_bytes_of, Z2Nat.id by lia. rewrite Hpb. split_and!; try done; lia.
  - eapply holds_kept; [by apply Hh|]. intros d Hd Hud ->.
    assert (Hdne : payload d <> payload o) by congruence. split; [by apply Hothers|by apply Hk].
Qed.

(** a write into a block *)
Lemma wp_client_write cs m h p bs off v :
  client cs m h -> h !! p = Some bs -> 0 <= off < size_of bs -> 0 <= v < 256 ->
  wp (vstore 1 (p + off) v)
    (fun _ m' => client cs m' (<[p := <[Z.to_nat off := v]> bs]> h) /\
       (exclusive cs h -> exclusive cs (<[p := <[Z.to_nat off := v]> bs]> h))) nostop m.
Proof.
  intros Hc Hp Hoff Hv. destruct (client_block _ _ _ _ _ Hc Hp) as (l1 & o & l2 & Hcs & Hu & -> & Hs & Hbs & Hlt).
  destruct Hc as [Hr Hn Hh]. assert (Hin : o ∈ cs) by (rewrite Hcs, elem_of_app, elem_of_cons; tauto).
  destruct (chunk_bounds K lo hi _ _ _ Hr Hin) as (?&?&?&?&?&?). rewrite <- Z.add_assoc.
  assert (Hsub : forall a, span (payload o + off) 1 a -> span (payload o) (c_size o) a) by (unfold span; lia).
  apply (wp_kstore K 1); [apply Hr|lia|cbn; lia| |].
  { intros a Ha%Hsub. apply (hr_sep _ _ _ _ _ Hr). unfold span in Ha. lia. }
  intros m' Hs1 _ Hram. change (Z.of_nat 1) with 1 in Hs1.
  assert (Hs' : wstep (span (payload o) (c_size o)) m m') by (by eapply wstep_weaken).
  split; [split|].
  - by eapply heap_rep_payload.
  - eapply null_page_step; [done|]. by eapply payload_in_heap.
  - intros p' bs' [[<- <-]|[Hne Hp']]%lookup_insert_Some.
    + exists o. unfold size_of in *. rewrite length_insert. split_and!; try done; [lia..|].
      apply list_eq. intros i. apply option_eq. intros x.
      rewrite lookup_bytes_of, list_lookup_insert_Some, Hram. replace (KERNEL_BASE + payload o - KERNEL_BASE) with (payload o) by lia.
      destruct (Z.eq_dec (Z.of_nat i) off) as [<-|Hi].
      * rewrite Nat2Z.id, rd_store1, u8_small by done. split; [intros [? ->]; left; split_and!; [done..|lia]|].
        intros [(_ & <- & ?)|[? _]]; [split; [lia|done]|done].
      * rewrite rd_store_out by (unfold span; cbn; lia). rewrite <- Hbs at 3. unfold size_of. rewrite lookup_bytes_of.
        replace (KERNEL_BASE + payload o - KERNEL_BASE) with (payload o) by lia.
        split; [intros [? ->]; right; split_and!; [lia|lia|done]|]. intros [(<- & _ & _)|(_ & ? & ->)]; [lia|done].
    + eapply holds_kept; [by apply Hh|]. intros d Hd Hud ->. split; [done|].
      assert (Hdo : d <> o) by (intros ->; done). eapply agree_weaken; [apply Hs1|]. intros a Ha Hb%Hsub.
      destruct (chunk_bounds K lo hi _ _ _ Hr Hd) as (?&?&?&?&?&?).
      destruct (ordered_apart _ _ _ _ _ (hr_ord _ _ _ _ _ Hr) Hd Hin Hdo); unfold span, c_end, HDR in *; lia.
  - intros [Hi Hx]. split; [done|]. intros b Hb Hub. rewrite lookup_insert_is_Some.
    destruct (decide (KERNEL_BASE + payload o = KERNEL_BASE + payload b)); [by left|right; auto].
Qed.

(** ** Runs *)

Lemma heap_step_client c s s' cs :
  heap_step c s s' -> client cs s.1 s.2 ->
  exists cs', client cs' s'.1 s'.2 /\ (no_resize c = true -> exclusive cs s.2 -> exclusive cs' s'.2).
Proof.
  intros Hst Hc. destruct Hst as [size m h r m' Hsz Hrun|p m h m' Hp Hrun|p size bs m h r m' Hsz Hp Hrun|p off v bs m h m' Hp Ho Hv Hrun];
    cbn [fst snd no_resize] in *.
  - destruct (ran _ _ _ _ _ _ (wp_client_alloc cs m h size Hc Hsz) Hrun) as (cs' & ? & ?). by exists cs'.
  - destruct (ran _ _ _ _ _ _ (wp_client_free cs m h p Hc Hp) Hrun) as (cs' & ? & ?). by exists cs'.
  - destruct (ran _ _ _ _ _ _ (wp_client_realloc cs m h p bs size Hc Hp Hsz) Hrun) as (cs' & ?). by exists cs'.
  - destruct (ran _ _ _ _ _ _ (wp_client_write cs m h p bs off v Hc Hp Ho Hv) Hrun) as [? ?]. by exists cs.
Qed.

Lemma client_start cs m : heap_rep cs m -> null_page m -> client cs m ∅.
Proof. intros Hr Hn. split; [done..|]. intros p bs Hp. by rewrite lookup_empty in Hp. Qed.

(** the reachable states of a client *)
Lemma heap_run_client calls cs0 m0 m h :
  heap_rep cs0 m0 -> null_page m0 -> heap_run calls (m0, ∅) (m, h) -> exists cs, client cs m h.
Proof.
  intros Hr Hn Hrun.
  apply (runs_invariant heap_step (fun _ => true) (fun s => exists cs, client cs s.1 s.2)) in Hrun; [done| |apply allow_all|].
  - intros c s s' _ Hst [cs Hc]. destruct (heap_step_client _ _ _ _ Hst Hc) as (cs' & Hc' & _). by exists cs'.
  - exists cs0. by apply client_start.
Qed.

(** and of one that is alone and never resizes *)
Lemma heap_run_exclusive calls cs0 m0 m h :
  heap_rep cs0 m0 -> null_page m0 -> exclusive cs0 ∅ -> forallb no_resize calls = true ->
  heap_run calls (m0, ∅) (m, h) -> exists cs, client cs m h /\ exclusive cs h.
Proof.
  intros Hr Hn Hx Hnr Hrun.
  apply (runs_invariant heap_step no_resize (fun s => exists cs, client cs s.1 s.2 /\ exclusive cs s.2)) in Hrun; [done| |done|].
  - intros c s s' Hc Hst (cs & Hcl & Hxs). destruct (heap_step_client _ _ _ _ Hst Hcl) as (cs' & ? & ?). by exists cs'; auto.
  - exists cs0. split; [by apply client_start|done].
Qed.

(** the calls of a client, whatever their outcome: what [heap_step] asks of it *)
Definition admissible h (c : call) : Prop :=
  match c with
  | CAlloc size => sound_size size
  | CFree p => is_Some (h !! p)
  | CRealloc p size => sound_size size /\ is_Some (h !! p)
  | CWrite p off v => (exists bs, h !! p = Some bs /\ 0 <= off < size_of bs) /\ 0 <= v < 256
  end.

(** ** Properties *)

(** C22: whatever sequence of allocations, releases, resizings and writes a client makes,
    its blocks lie in the heap, aligned, never overlap, and hold what the client last
    put there, through every move of [krealloc] and all other traffic. *)
Theorem heap_client_safe calls cs0 m0 m h :
  heap_rep cs0 m0 -> null_page m0 -> heap_run calls (m0, ∅) (m, h) ->
  (forall p bs, h !! p = Some bs -> p mod 16 = 0 /\ KERNEL_BASE + lo <= p /\ p + size_of bs <= KERNEL_BASE + hi /\
                                    bytes_of m p (size_of bs) = bs) /\
  (forall p bs p' bs', h !! p = Some bs -> h !! p' = Some bs' -> p <> p' ->
     p + size_of bs <= p' \/ p' + size_of bs' <= p).
Proof.
  intros Hr Hn Hrun. destruct (heap_run_client _ _ _ _ _ Hr Hn Hrun) as [cs Hc]. pose proof (hr_ord _ _ _ _ _ (cl_rep _ _ _ Hc)) as Ho. split.
  - intros p bs Hp. destruct (cl_holds _ _ _ Hc p bs Hp) as (b & Hb & Hu & -> & Hs & Hbs).
    destruct (chunk_bounds K lo hi _ _ _ (cl_rep _ _ _ Hc) Hb) as (?&?&?&?&?&?), (ordered_in _ _ _ _ Ho Hb) as (_&_&?&_).
    split_and!; [zconst; dlia|lia|lia|done].
  - intros p bs p' bs' Hp Hp' Hne. destruct (cl_holds _ _ _ Hc p bs Hp) as (b & Hb & Hu & -> & Hs & _).
    destruct (cl_holds _ _ _ Hc p' bs' Hp') as (b' & Hb' & Hu' & -> & Hs' & _).
    assert (Hbb : b <> b') by congruence. unfold payload.
    destruct (ordered_apart _ _ _ _ _ Ho Hb Hb' Hbb); unfold c_end, HDR in *; lia.
Qed.

(** C23: in every state a client can reach, every call it may make returns, with one
    exception: a [krealloc] that grows the block of the last chunk of the heap, and that
    one page-faults at address 8. *)
Theorem heap_client_progress calls cs0 m0 m h c :
  heap_rep cs0 m0 -> null_page m0 -> heap_run calls (m0, ∅) (m, h) -> admissible h c ->
  (exists s, heap_step c (m, h) s) \/
  (exists cs p size m', c = CRealloc p size /\ heap_rep cs m /\ grows_last cs p size /\
     krealloc p size m = Stop (PageFault 8) m').
Proof.
  intros Hr Hn Hrun Ha. destruct (heap_run_client _ _ _ _ _ Hr Hn Hrun) as [cs Hc]. destruct c as [size|p|p size|p off v]; cbn [admissible] in Ha.
  - destruct (wp_nostop_ret _ _ _ (wp_client_alloc cs m h size Hc Ha)) as (r & m' & Hm & _). left. eexists. by eapply step_alloc.
  - destruct (wp_nostop_ret _ _ _ (wp_client_free cs m h p Hc Ha)) as ([] & m' & Hm & _). left. eexists. by eapply step_free.
  - destruct Ha as (Hsz & bs & Hp). pose proof (wp_client_realloc cs m h p bs size Hc Hp Hsz) as H.
    unfold wp in H. destruct (krealloc p size m) as [r m'|e m'] eqn:Hm; [left; eexists; by eapply step_realloc|].
    destruct H as [-> Hg]. right. exists cs, p, size, m'. split_and!; [done|apply Hc|done|done].
  - destruct Ha as ((bs & Hp & Ho) & Hv).
    destruct (wp_nostop_ret _ _ _ (wp_client_write cs m h p bs off v Hc Hp Ho Hv)) as ([] & m' & Hm & _).
    left. eexists. by eapply step_write.
Qed.

(** C24: after any sequence of allocations, releases and writes in which a client, alone
    on the heap, has given back all it got, the heap is the one free chunk it began
    as: nothing leaks and nothing stays fragmented. *)
Theorem heap_all_freed calls c0 m0 m :
  heap_rep [c0] m0 -> null_page m0 -> c_used c0 = false -> tiled lo hi [c0] ->
  forallb no_resize calls = true -> heap_run calls (m0, ∅) (m, ∅) ->
  heap_rep [c0] m.
Proof.
  intros Hr Hn Hu Ht Hnr Hrun. assert (Hx0 : exclusive [c0] ∅).
  { split; [by split|]. intros b ->%list_elem_of_singleton Hb. congruence. }
  destruct (heap_run_exclusive _ _ _ _ _ Hr Hn Hx0 Hnr Hrun) as (cs & Hc & [[Hco Hti] Hus]).
  assert (Hfree : forall b, b ∈ cs -> c_used b = false).
  { intros b Hb. destruct (c_used b) eqn:E; [|done]. destruct (Hus b Hb E) as [x Hxl]. by rewrite lookup_empty in Hxl. }
  destruct Hc as [Hr' _ _]. destruct cs as [|c [|d cs]].
  - cbn in Hti, Ht. destruct Ht as [Ha Hb]. unfold c_end, HDR in Hb.
    destruct (ordered_in _ _ _ c0 (hr_ord _ _ _ _ _ Hr)) as (_&_&_&_&?); [by left|]. lia.
  - replace c0 with c; [done|]. specialize (Hfree c ltac:(by left)). destruct c as [a1 s1 u1], c0 as [a0 s0 u0].
    cbn in Hti, Ht, Hu, Hfree. unfold c_end in *. cbn in Hti, Ht. f_equal; [lia|lia|congruence].
  - cbn [coalesced] in Hco. rewrite (Hfree c), (Hfree d) in Hco; [done|right; by left|by left].
Qed.
End Runs.
