(* ===== verification/Idt.v ===== *)
(** idt/idt.c: interrupt gates, the remapping of the two 8259 interrupt
    controllers, and [idt_init].  The addresses of the assembly stubs [isr0] ..
    [isr31], [irq0], [irq1] and of the table itself are link-time constants, so
    they are parameters.  The controllers themselves are modelled as the device
    the port traffic is meant for, to state what the traffic achieves. *)

From S2P Require Import Prelude Comp Ram Machine.

Definition IDT_ENTRIES : Z := 256.

(** the entry [idt_set_gate] writes *)
Definition gate (handler : Z) : idt_entry :=
  mk_idt_entry (u16 (Z.land handler 0xFFFF)) 0x18 0 0x8E
    (u16 (Z.land (Z.shiftr handler 16) 0xFFFF)) (u32 (Z.land (Z.shiftr handler 32) 0xFFFFFFFF)) 0.

Definition idt_set_gate (n handler : Z) : M unit :=
  if (0 <=? n) && (n <? IDT_ENTRIES)
  then setg (fun g => set_idt (<[Z.to_nat n := gate handler]> (idt g)) g)
  else halt Undefined.

Definition pic_remap : M unit :=
  outb 0x11 0x20 ;;;
  outb 0x11 0xA0 ;;;
  outb 0x20 0x21 ;;;
  outb 0x28 0xA1 ;;;
  outb 0x04 0x21 ;;;
  outb 0x02 0xA1 ;;;
  outb 0x01 0x21 ;;;
  outb 0x01 0xA1 ;;;
  outb 0xFD 0x21 ;;;
  outb 0xFF 0xA1.

(** [lidt], [sti] *)
Definition lidt (p : idt_ptr) : M unit :=
  sethw (fun h => mk_cpu (cr0 h) (cr4 h) (cpuid1_edx h) (msrs h) (Some (limit p, base p)) (iflag h) (ports h) (kbd h)).
Definition sti : M unit :=
  sethw (fun h => mk_cpu (cr0 h) (cr4 h) (cpuid1_edx h) (msrs h) (idtr h) true (ports h) (kbd h)).

(** the link-time addresses: stub of vector [n], and [&idt] *)
Record symbols : Type := mk_symbols { isr : Z -> Z; irq : Z -> Z; idt_addr : Z }.

Definition idt_init (sym : symbols) : M unit :=
  idt_set_gate 0 (isr sym 0) ;;; idt_set_gate 1 (isr sym 1) ;;;
  idt_set_gate 2 (isr sym 2) ;;; idt_set_gate 3 (isr sym 3) ;;;
  idt_set_gate 4 (isr sym 4) ;;; idt_set_gate 5 (isr sym 5) ;;;
  idt_set_gate 6 (isr sym 6) ;;; idt_set_gate 7 (isr sym 7) ;;;
  idt_set_gate 8 (isr sym 8) ;;; idt_set_gate 9 (isr sym 9) ;;;
  idt_set_gate 10 (isr sym 10) ;;; idt_set_gate 11 (isr sym 11) ;;;
  idt_set_gate 12 (isr sym 12) ;;; idt_set_gate 13 (isr sym 13) ;;;
  idt_set_gate 14 (isr sym 14) ;;; idt_set_gate 15 (isr sym 15) ;;;
  idt_set_gate 16 (isr sym 16) ;;; idt_set_gate 17 (isr sym 17) ;;;
  idt_set_gate 18 (isr sym 18) ;;; idt_set_gate 19 (isr sym 19) ;;;
  idt_set_gate 20 (isr sym 20) ;;; idt_set_gate 21 (isr sym 21) ;;;
  idt_set_gate 22 (isr sym 22) ;;; idt_set_gate 23 (isr sym 23) ;;;
  idt_set_gate 24 (isr sym 24) ;;; idt_set_gate 25 (isr sym 25) ;;;
  idt_set_gate 26 (isr sym 26) ;;; idt_set_gate 27 (isr sym 27) ;;;
  idt_set_gate 28 (isr sym 28) ;;; idt_set_gate 29 (isr sym 29) ;;;
  idt_set_gate 30 (isr sym 30) ;;; idt_set_gate 31 (isr sym 31) ;;;
  pic_remap ;;;
  idt_set_gate 32 (irq sym 0) ;;;
  idt_set_gate 33 (irq sym 1) ;;;
  setg (set_idtp (mk_idt_ptr (16 * IDT_ENTRIES - 1) (idt_addr sym))) ;;;
  p <- getg idtp ;;
  lidt p ;;;
  sti.

(** ** The gate format *)

(** the handler address the CPU reassembles from a gate *)
Definition gate_offset (e : idt_entry) : Z :=
  offset_low e + Z.shiftl (offset_mid e) 16 + Z.shiftl (offset_high e) 32.

(** present, ring 0, 64-bit interrupt gate *)
Definition gate_live (e : idt_entry) : bool :=
  Z.testbit (type_attr e) 7 && (Z.land (Z.shiftr (type_attr e) 5) 3 =? 0) && (Z.land (type_attr e) 0x1F =? 0x0E).

Lemma gate_offset_handler handler : 0 <= handler < 2 ^ 64 -> gate_offset (gate handler) = handler.
Proof.
  intros Hh. unfold gate_offset, gate. cbn [offset_low offset_mid offset_high].
  change 0xFFFF with (Z.ones 16). change 0xFFFFFFFF with (Z.ones 32).
  rewrite !Z.land_ones, !Z.shiftr_div_pow2, !Z.shiftl_mul_pow2 by lia. unfold u16, u32.
  rewrite !Z.mod_mod by lia. change (2 ^ 16) with 65536. change (2 ^ 32) with 4294967296. dlia.
Qed.

(** ** What [idt_init] leaves behind *)

(** the handler of vector [n] *)
Definition vector (sym : symbols) (n : Z) : Z := if n <? 32 then isr sym n else irq sym (n - 32).

Definition gates (sym : symbols) (t : list idt_entry) : list idt_entry :=
  map (fun n => gate (vector sym n)) (seqZ 0 34) ++ drop 34 t.

Definition pic_traffic : list io_event :=
  [OutB 0xA1 0xFF; OutB 0x21 0xFD; OutB 0xA1 0x01; OutB 0x21 0x01; OutB 0xA1 0x02; OutB 0x21 0x04;
   OutB 0xA1 0x28; OutB 0x21 0x20; OutB 0xA0 0x11; OutB 0x20 0x11].

Lemma wp_idt_set_gate n handler m (Q : unit -> machine -> Prop) E :
  0 <= n < IDT_ENTRIES -> Q tt (set_glb (set_idt (<[Z.to_nat n := gate handler]> (idt (glb m))) (glb m)) m) ->
  wp (idt_set_gate n handler) Q E m.
Proof.
  intros [H1 H2] HQ. unfold idt_set_gate. apply Z.leb_le in H1. apply Z.ltb_lt in H2. rewrite H1, H2. exact HQ.
Qed.

Lemma idt_init_run sym m :
  length (idt (glb m)) = 256%nat ->
  idt_init sym m = Ret tt
    (set_hw (mk_cpu (cr0 (hw m)) (cr4 (hw m)) (cpuid1_edx (hw m)) (msrs (hw m)) (Some (4095, idt_addr sym)) true
               (pic_traffic ++ ports (hw m)) (kbd (hw m)))
      (set_glb (set_idtp (mk_idt_ptr 4095 (idt_addr sym)) (set_idt (gates sym (idt (glb m))) (glb m))) m)).
Proof.
  intros Hl. destruct m as [r t c h g], g as [? ? ? ? ? ? ? ? l ?]. cbn [glb idt] in *.
  do 34 (destruct l as [|? l]; [discriminate Hl|]). clear Hl. destruct h. reflexivity.
Qed.

(** ** The 8259 controllers *)

(** one controller: initialisation word expected next (0 when operating), vector
    base, interrupt mask *)
Record pic : Type := mk_pic { icw : Z; vec_base : Z; mask : Z }.

Definition pic_command (v : Z) (p : pic) : pic :=
  if Z.testbit v 4 then mk_pic 2 (vec_base p) 0 else p.
Definition pic_data (v : Z) (p : pic) : pic :=
  if icw p =? 2 then mk_pic 3 (Z.land v 0xF8) (mask p)
  else if icw p =? 3 then mk_pic 4 (vec_base p) (mask p)
  else if icw p =? 4 then mk_pic 0 (vec_base p) (mask p)
  else mk_pic 0 (vec_base p) v.

(** master at ports 0x20/0x21, slave at 0xA0/0xA1 *)
Definition pic_event (e : io_event) (ps : pic * pic) : pic * pic :=
  match e with
  | OutB port v =>
      if port =? 0x20 then (pic_command v ps.1, ps.2)
      else if port =? 0x21 then (pic_data v ps.1, ps.2)
      else if port =? 0xA0 then (ps.1, pic_command v ps.2)
      else if port =? 0xA1 then (ps.1, pic_data v ps.2)
      else ps
  | InB _ _ => ps
  end.

(** the controllers after a traffic log, most recent event first *)
Definition pics_after (log : list io_event) (ps : pic * pic) : pic * pic := foldr pic_event ps log.

Lemma pic_remapped ps :
  pics_after pic_traffic ps = (mk_pic 0 0x20 0xFD, mk_pic 0 0x28 0xFF).
Proof. destruct ps as [[? ? ?] [? ? ?]]. reflexivity. Qed.

(** the vector on which an interrupt line (0-7 master, 8-15 slave) arrives, if unmasked *)
Definition irq_vector (ps : pic * pic) (line : Z) : option Z :=
  let p := if line <? 8 then ps.1 else ps.2 in
  if (icw p =? 0) && negb (Z.testbit (mask p) (line mod 8)) then Some (vec_base p + line mod 8) else None.

(** ** Properties *)

Lemma gates_lookup sym t n : 0 <= n < 34 -> gates sym t !! Z.to_nat n = Some (gate (vector sym n)).
Proof.
  intros Hn. unfold gates. rewrite lookup_app_l by (rewrite length_map, length_seqZ; lia).
  rewrite list_lookup_fmap, lookup_seqZ_lt by lia. cbn. do 3 f_equal. lia.
Qed.

Lemma gates_rest sym t k : (34 <= k)%nat -> gates sym t !! k = t !! k.
Proof.
  intros Hk. unfold gates. rewrite lookup_app_r by (rewrite length_map, length_seqZ; lia).
  rewrite length_map, length_seqZ, lookup_drop. f_equal. lia.
Qed.

(** [idt_set_gate] installs a present ring-0 interrupt gate from which the CPU
    reassembles exactly the handler's address, and touches no other vector. *)
Theorem idt_set_gate_correct n handler m :
  0 <= n < IDT_ENTRIES -> length (idt (glb m)) = 256%nat -> 0 <= handler < 2 ^ 64 ->
  wp (idt_set_gate n handler)
    (fun _ m' =>
       (exists e, idt (glb m') !! Z.to_nat n = Some e /\ gate_live e = true /\ gate_offset e = handler) /\
       forall k, k <> Z.to_nat n -> idt (glb m') !! k = idt (glb m) !! k) nostop m.
Proof.
  intros Hn Hl Hh. unfold IDT_ENTRIES in *. apply wp_idt_set_gate; [done|]. cbn [glb set_glb idt set_idt]. split.
  - exists (gate handler). split_and!; [apply list_lookup_insert_eq; lia|done|by apply gate_offset_handler].
  - intros k Hk. by apply list_lookup_insert_ne.
Qed.

(** after [idt_init] each of the vectors 0-33 is a live gate to its own stub, all
    other vectors are as before, the table is loaded with its full size, interrupts
    are on, and memory is untouched. *)
Theorem idt_init_vectors sym m :
  length (idt (glb m)) = 256%nat -> (forall n, 0 <= vector sym n < 2 ^ 64) ->
  wp (idt_init sym)
    (fun _ m' =>
       (forall n, 0 <= n < 34 -> exists e, idt (glb m') !! Z.to_nat n = Some e /\ gate_live e = true /\
          gate_offset e = vector sym n) /\
       (forall k, (34 <= k)%nat -> idt (glb m') !! k = idt (glb m) !! k) /\
       idtr (hw m') = Some (16 * IDT_ENTRIES - 1, idt_addr sym) /\ iflag (hw m') = true /\ ram m' = ram m) nostop m.
Proof.
  intros Hl Hv. unfold wp. rewrite idt_init_run by done. cbn [glb hw set_hw set_glb idt set_idtp set_idt idtr iflag ram].
  split_and!; [|by intros; apply gates_rest|done..].
  intros n Hn. exists (gate (vector sym n)). split_and!; [by apply gates_lookup|done|by apply gate_offset_handler].
Qed.

