(* ===== verification/Isr.v ===== *)
(** idt/isr.c: the exception and interrupt handlers the assembly stubs call, with
    the text they draw on the screen and the traffic they send to the interrupt
    controllers. *)

From S2P Require Import Prelude Comp Ram Machine KSpace Utils Idt.
From Stdlib Require Import Ascii String.

Definition SCREEN_WIDTH : Z := 80.

Definition print_at (str : string) (x y color : Z) : M unit :=
  put_text (Z.shiftl color 8) (y * SCREEN_WIDTH + x) str.

Definition digits : list ascii := list_ascii_of_string "0123456789ABCDEF".

(** [for (i = i0; i >= 2; i--) { hex[i] = digits[n & 0xF]; n >>= 4; }], [k] iterations *)
Fixpoint hex_loop (k : nat) (i n : Z) (hex : list ascii) : list ascii :=
  match k with
  | O => hex
  | S k' =>
      hex_loop k' (i - 1) (Z.shiftr n 4)
        (<[Z.to_nat i := nth (Z.to_nat (Z.land n 0xF)) digits zero]> hex)
  end.

Definition hex_string (n : Z) : string :=
  string_of_list_ascii (hex_loop 16 17 n (list_ascii_of_string "0x0000000000000000")).

Definition print_hex (n x y : Z) : M unit := print_at (hex_string n) x y 0x0F.

Definition exception_names : list string :=
  ["Division by Zero"; "Debug"; "NMI"; "Breakpoint"; "Overflow"; "Bound Range Exceeded";
   "Invalid Opcode"; "Device Not Available"; "Double Fault"; "Coprocessor Segment Overrun";
   "Invalid TSS"; "Segment Not Present"; "Stack Fault"; "General Protection Fault"; "Page Fault";
   "Reserved"; "x87 FPU Error"; "Alignment Check"; "Machine Check"; "SIMD Floating Point";
   "Virtualization"; "Control Protection";
   "Reserved"; "Reserved"; "Reserved"; "Reserved"; "Reserved"; "Reserved"; "Reserved"; "Reserved";
   "Reserved"; "Reserved"]%string.

Definition isr_handler (int_no : Z) : M unit :=
  print_at "EXCEPTION: " 0 10 0x0C ;;;
  (if int_no <? 32
   then match exception_names !! Z.to_nat int_no with
        | Some name => print_at name 11 10 0x0C
        | None => halt Undefined
        end
   else ret tt) ;;;
  print_at "INT#: " 0 11 0x0C ;;;
  print_hex int_no 6 11 ;;;
  halt Halted.

Definition irq_handler (int_no : Z) : M unit :=
  (if int_no =? 33 then scancode <- inb 0x60 ;; ret tt else ret tt) ;;;
  (if 40 <=? int_no then outb 0x20 0xA0 else ret tt) ;;;
  outb 0x20 0x20.

(** ** Hexadecimal *)

(** the value of a digit, and of a digit string, most significant first *)
Definition digit_val (c : ascii) : Z :=
  let v := Z.of_N (N_of_ascii c) in if v <? 58 then v - 48 else v - 55.

Definition hex_val (l : list ascii) : Z := foldl (fun a c => 16 * a + digit_val c) 0 l.

Lemma digit_val_digits d : 0 <= d < 16 -> digit_val (nth (Z.to_nat d) digits zero) = d.
Proof.
  intros H. assert (Hd : forallb (fun d => digit_val (nth (Z.to_nat d) digits zero) =? d) (seqZ 0 16) = true)
    by reflexivity.
  rewrite forallb_forall in Hd. apply Z.eqb_eq, Hd. apply list_elem_of_In, elem_of_seqZ. lia.
Qed.

Lemma digit_nul d : (char_val (nth (Z.to_nat (d mod 16)) digits zero) =? 0) = false.
Proof.
  assert (Hd : forallb (fun d => negb (char_val (nth (Z.to_nat d) digits zero) =? 0)) (seqZ 0 16) = true)
    by reflexivity.
  rewrite forallb_forall in Hd. apply negb_true_iff, Hd. apply list_elem_of_In, elem_of_seqZ.
  pose proof (Z.mod_pos_bound d 16). lia.
Qed.

(** the digit positions, least significant first *)
Fixpoint nibbles (k : nat) (n : Z) : list Z :=
  match k with O => [] | S k' => n mod 16 :: nibbles k' (n / 16) end.

Definition digit (d : Z) : ascii := nth (Z.to_nat d) digits zero.

Lemma hex_string_eq n :
  hex_string n = String "0" (String "x" (string_of_list_ascii (map digit (rev (nibbles 16 n))))).
Proof.
  unfold hex_string. cbn [nibbles rev map app hex_loop].
  assert (Hl : forall x, Z.land x 15 = x mod 16) by (intros x; apply (Z.land_ones x 4); lia).
  assert (Hs : forall x, Z.shiftr x 4 = x / 16) by (intros x; by rewrite Z.shiftr_div_pow2 by lia).
  rewrite !Hl, !Hs. reflexivity.
Qed.

Lemma hex_val_snoc l c : hex_val (l ++ [c]) = 16 * hex_val l + digit_val c.
Proof. unfold hex_val. by rewrite foldl_app. Qed.

Lemma nibbles_val k n : 0 <= n < 16 ^ Z.of_nat k -> hex_val (map digit (rev (nibbles k n))) = n.
Proof.
  revert n. induction k as [|k IH]; intros n Hn; cbn [nibbles rev].
  - change (16 ^ Z.of_nat 0) with 1 in Hn. cbn. lia.
  - rewrite map_app. cbn [map]. rewrite hex_val_snoc.
    rewrite Nat2Z.inj_succ, Z.pow_succ_r in Hn by lia.
    rewrite IH by (split; [apply Z.div_pos; lia|apply Z.div_lt_upper_bound; lia]).
    unfold digit. rewrite digit_val_digits by (apply Z.mod_pos_bound; lia). dlia.
Qed.

(** [print_hex] writes 16 digits whose value is the number *)
Lemma hex_string_val n : 0 <= n < 2 ^ 64 -> hex_val (drop 2 (list_ascii_of_string (hex_string n))) = n.
Proof.
  intros Hn. rewrite hex_string_eq. cbn [list_ascii_of_string drop].
  rewrite list_ascii_of_string_of_list_ascii. apply nibbles_val. exact Hn.
Qed.

Lemma no_nul_digits k n : forall l, no_nul (string_of_list_ascii l) = true ->
  no_nul (string_of_list_ascii (map digit (rev (nibbles k n)) ++ l)) = true.
Proof.
  revert n. induction k as [|k IH]; intros n l Hl; cbn [nibbles rev map app]; [done|].
  rewrite map_app, <- app_assoc. apply IH. cbn [map app string_of_list_ascii no_nul].
  unfold digit. by rewrite digit_nul, Hl.
Qed.

Lemma hex_string_ok n : no_nul (hex_string n) = true /\ String.length (hex_string n) = 18%nat.
Proof.
  rewrite hex_string_eq. split; [|reflexivity]. cbn [no_nul].
  rewrite <- (app_nil_r (map digit _)). by rewrite no_nul_digits.
Qed.

(** ** What the handlers do *)

Definition exception_name (int_no : Z) : string :=
  if int_no <? 32 then default EmptyString (exception_names !! Z.to_nat int_no) else EmptyString.

Lemma exception_name_ok int_no : no_nul (exception_name int_no) = true /\
  (String.length (exception_name int_no) <= 27)%nat.
Proof.
  unfold exception_name. destruct (int_no <? 32); [|by split; [|cbn; lia]].
  assert (H : forallb (fun s => no_nul s && (Nat.leb (String.length s) 27)) exception_names = true) by reflexivity.
  rewrite forallb_forall in H. destruct (exception_names !! Z.to_nat int_no) as [s|] eqn:E; [|by split; [|cbn; lia]].
  apply list_elem_of_lookup_2, list_elem_of_In, H, andb_prop in E as [? ?%Nat.leb_le]. by split.
Qed.

Section Handlers.
Context {QT : Quiet} (K : ktables) (Hvga : forall a, vga_bytes a -> ~ ktab K a).
Implicit Types m : machine.

(** the cell of column [x], row [y] *)
Definition at_xy (x y : Z) : Z := VGA_PHYS + 2 * (80 * y + x).

Lemma wp_print_at s x y color m (Q : unit -> machine -> Prop) E :
  kspace K m -> no_nul s = true -> 0 <= x -> 0 <= y -> 80 * y + x + Z.of_nat (String.length s) <= 2000 ->
  (forall m', wstep (span (at_xy x y) (2 * Z.of_nat (String.length s))) m m' -> kspace K m' ->
     drawn (ram m') (at_xy x y) (text_cells (color * 256) s) -> Q tt m') ->
  wp (print_at s x y color) Q E m.
Proof.
  intros Hk Hn Hx Hy Hl HQ. unfold print_at, SCREEN_WIDTH. replace (y * 80 + x) with (80 * y + x) by lia.
  rewrite Z.shiftl_mul_pow2 by lia. apply (wp_put_text K Hvga); [done|done|lia|lia|exact HQ].
Qed.

Lemma drawn_wstep m m' p q n s attr :
  wstep (span q n) m m' -> p + 2 * Z.of_nat (String.length s) <= q \/ q + n <= p ->
  drawn (ram m) p (text_cells attr s) -> drawn (ram m') p (text_cells attr s).
Proof.
  intros Hs Hd. apply drawn_agree. rewrite text_cells_length. eapply agree_weaken; [apply Hs|].
  unfold span. lia.
Qed.

(** [isr_handler] reports every exception and never returns *)
Lemma wp_isr_handler int_no m (Q : unit -> machine -> Prop) (E : stop -> machine -> Prop) :
  kspace K m -> 0 <= int_no < 2 ^ 64 ->
  (forall m', kspace K m' -> wstep vga_bytes m m' ->
     drawn (ram m') (at_xy 0 10) (text_cells 0x0C00 "EXCEPTION: ") ->
     drawn (ram m') (at_xy 11 10) (text_cells 0x0C00 (exception_name int_no)) ->
     drawn (ram m') (at_xy 0 11) (text_cells 0x0C00 "INT#: ") ->
     drawn (ram m') (at_xy 6 11) (text_cells 0x0F00 (hex_string int_no)) -> E Halted m') ->
  wp (isr_handler int_no) Q E m.
Proof.
  intros Hk Hi HE. unfold isr_handler.
  apply wp_bind, wp_print_at; [done|done|done|done|cbn; lia|]. intros m1 Hs1 Hk1 Hd1.
  destruct (exception_name_ok int_no) as [Hn Hl]. destruct (hex_string_ok int_no) as [Hn' Hl'].
  assert (Hname : wp (if int_no <? 32
                      then match exception_names !! Z.to_nat int_no with
                           | Some name => print_at name 11 10 0x0C
                           | None => halt Undefined
                           end
                      else ret tt)
    (fun _ m2 => kspace K m2 /\
       wstep (span (at_xy 11 10) (2 * Z.of_nat (String.length (exception_name int_no)))) m1 m2 /\
       drawn (ram m2) (at_xy 11 10) (text_cells 0x0C00 (exception_name int_no))) E m1).
  { unfold exception_name in *. destruct (Z.ltb_spec int_no 32) as [Hlt|Hge].
    - destruct (exception_names !! Z.to_nat int_no) as [s|] eqn:Es; cbn [from_option id] in *.
      + apply wp_print_at; [done|done|done|done|cbn; lia|]. auto.
      + apply lookup_ge_None in Es. cbn in Es. lia.
    - apply wp_ret. split_and!; [done|done|]. by intros i v Hv. }
  apply wp_bind. eapply wp_mono; [exact Hname| |done]. intros _ m2 (Hk2 & Hs2 & Hd2).
  apply wp_bind, wp_print_at; [done|done|done|done|cbn; lia|]. intros m3 Hs3 Hk3 Hd3.
  apply wp_bind, wp_print_at; [done|done|done|done|rewrite Hl'; lia|]. intros m4 Hs4 Hk4 Hd4. rewrite Hl' in Hs4.
  apply wp_halt. cbn [String.length] in *. unfold at_xy in *. apply HE; [done| | | | |exact Hd4].
  - repeat (etrans; [|eapply wstep_weaken; [eassumption|unfold vga_bytes, span, VGA_PHYS; lia]]). done.
  - eapply drawn_wstep; [exact Hs4|cbn; lia|]. eapply drawn_wstep; [exact Hs3|cbn; lia|].
    eapply drawn_wstep; [exact Hs2|cbn; lia|exact Hd1].
  - eapply drawn_wstep; [exact Hs4|lia|]. eapply drawn_wstep; [exact Hs3|lia|exact Hd2].
  - eapply drawn_wstep; [exact Hs4|cbn; lia|exact Hd3].
Qed.
End Handlers.

(** [irq_handler]: a scancode is taken for the keyboard vector, and every
    controller that delivered the interrupt gets its end-of-interrupt *)
Lemma irq_handler_run int_no m :
  irq_handler int_no m = Ret tt (set_hw
    (mk_cpu (cr0 (hw m)) (cr4 (hw m)) (cpuid1_edx (hw m)) (msrs (hw m)) (idtr (hw m)) (iflag (hw m))
       (OutB 0x20 0x20 :: (if 40 <=? int_no then [OutB 0xA0 0x20] else []) ++
        (if int_no =? 33 then [InB 0x60 (u8 (hd 0 (kbd (hw m))))] else []) ++ ports (hw m))
       (if int_no =? 33 then tl (kbd (hw m)) else kbd (hw m))) m).
Proof.
  destruct m as [r t c [? ? ? ? ? ? ? ?] g]. unfold irq_handler.
  by destruct (int_no =? 33), (40 <=? int_no).
Qed.

(** ** Properties *)

(** [isr_handler] reports any exception and stops the machine: the name and the
    hexadecimal number of the vector are on rows 10 and 11, only the screen is
    written, and it never returns. *)
Theorem isr_handler_reports K int_no m :
  (forall a, vga_bytes a -> ~ ktab K a) -> kspace K m -> 0 <= int_no < 2 ^ 64 ->
  wp (isr_handler int_no) (fun _ _ => False)
    (fun e m' => e = Halted /\ wstep vga_bytes m m' /\
       drawn (ram m') (at_xy 0 10) (text_cells 0x0C00 "EXCEPTION: ") /\
       drawn (ram m') (at_xy 11 10) (text_cells 0x0C00 (exception_name int_no)) /\
       drawn (ram m') (at_xy 0 11) (text_cells 0x0C00 "INT#: ") /\
       drawn (ram m') (at_xy 6 11) (text_cells 0x0F00 (hex_string int_no))) m.
Proof. intros Hvga Hk Hi. apply (wp_isr_handler K Hvga); [done|done|]. intros. by split_and!. Qed.

(** [irq_handler] takes a scancode for the keyboard vector only, and sends an
    end-of-interrupt to the master controller always, to the slave exactly for
    vectors from 40 on; nothing but the devices is touched. *)
Theorem irq_handler_acknowledges int_no m :
  wp (irq_handler int_no)
    (fun _ m' =>
       ports (hw m') = OutB 0x20 0x20 :: (if 40 <=? int_no then [OutB 0xA0 0x20] else []) ++
         (if int_no =? 33 then [InB 0x60 (u8 (hd 0 (kbd (hw m))))] else []) ++ ports (hw m) /\
       kbd (hw m') = (if int_no =? 33 then tl (kbd (hw m)) else kbd (hw m)) /\
       ram m' = ram m /\ glb m' = glb m /\ tlb m' = tlb m) nostop m.
Proof. unfold wp. by rewrite irq_handler_run. Qed.

(** [print_hex] draws "0x" and sixteen digits that denote exactly the number. *)
Theorem print_hex_roundtrip K n x y m :
  (forall a, vga_bytes a -> ~ ktab K a) -> kspace K m -> 0 <= n < 2 ^ 64 -> 0 <= x -> 0 <= y -> 80 * y + x <= 1982 ->
  wp (print_hex n x y)
    (fun _ m' => drawn (ram m') (at_xy x y) (text_cells 0x0F00 (hex_string n)) /\
       take 2 (list_ascii_of_string (hex_string n)) = list_ascii_of_string "0x" /\
       hex_val (drop 2 (list_ascii_of_string (hex_string n))) = n) nostop m.
Proof.
  intros Hvga Hk Hn Hx Hy Hxy. destruct (hex_string_ok n) as [Hz Hl].
  apply (wp_print_at K Hvga); [done|done|done|done|rewrite Hl; lia|].
  intros m' _ _ Hd. split_and!; [exact Hd| |by apply hex_string_val]. by rewrite hex_string_eq.
Qed.
