(* ===== verification/ElfConst.v ===== *)
(** elf.h: the legal values of the fields of an ELF file, one table per field, each
    under the names the header gives them.  The loader's own constants (Elf.v) are
    read off these tables; those of notes and symbol versions are in ElfNotes.v, those
    of the processors in ElfArch.v and ElfRelocs.v. *)

From stdpp Require Import strings.
From S2P Require Import Prelude.

Definition constants : Type := list (string * Z).

(** indices and legal values of the bytes of [e_ident] *)
Definition e_ident_constants : constants :=
  [("EI_NIDENT", 16); ("EI_MAG0", 0); ("ELFMAG0", 0x7f); ("EI_MAG1", 1); ("ELFMAG1", 0x45); ("EI_MAG2", 2);
   ("ELFMAG2", 0x4c); ("EI_MAG3", 3); ("ELFMAG3", 0x46); ("SELFMAG", 4); ("EI_CLASS", 4);
   ("ELFCLASSNONE", 0); ("ELFCLASS32", 1); ("ELFCLASS64", 2); ("ELFCLASSNUM", 3); ("EI_DATA", 5);
   ("ELFDATANONE", 0); ("ELFDATA2LSB", 1); ("ELFDATA2MSB", 2); ("ELFDATANUM", 3); ("EI_VERSION", 6);
   ("EI_OSABI", 7); ("ELFOSABI_NONE", 0); ("ELFOSABI_SYSV", 0); ("ELFOSABI_HPUX", 1);
   ("ELFOSABI_NETBSD", 2); ("ELFOSABI_GNU", 3); ("ELFOSABI_LINUX", 3); ("ELFOSABI_SOLARIS", 6);
   ("ELFOSABI_AIX", 7); ("ELFOSABI_IRIX", 8); ("ELFOSABI_FREEBSD", 9); ("ELFOSABI_TRU64", 10);
   ("ELFOSABI_MODESTO", 11); ("ELFOSABI_OPENBSD", 12); ("ELFOSABI_ARM_AEABI", 64); ("ELFOSABI_ARM", 97);
   ("ELFOSABI_STANDALONE", 255); ("EI_ABIVERSION", 8); ("EI_PAD", 9)].

(** [e_type]: the kind of object file *)
Definition e_type_constants : constants :=
  [("ET_NONE", 0); ("ET_REL", 1); ("ET_EXEC", 2); ("ET_DYN", 3); ("ET_CORE", 4); ("ET_NUM", 5);
   ("ET_LOOS", 0xfe00); ("ET_HIOS", 0xfeff); ("ET_LOPROC", 0xff00); ("ET_HIPROC", 0xffff)].

(** [e_machine], first half *)
Definition e_machine_low : constants :=
  [("EM_NONE", 0); ("EM_M32", 1); ("EM_SPARC", 2); ("EM_386", 3); ("EM_68K", 4); ("EM_88K", 5);
   ("EM_IAMCU", 6); ("EM_860", 7); ("EM_MIPS", 8); ("EM_S370", 9); ("EM_MIPS_RS3_LE", 10);
   ("EM_PARISC", 15); ("EM_VPP500", 17); ("EM_SPARC32PLUS", 18); ("EM_960", 19); ("EM_PPC", 20);
   ("EM_PPC64", 21); ("EM_S390", 22); ("EM_SPU", 23); ("EM_V800", 36); ("EM_FR20", 37); ("EM_RH32", 38);
   ("EM_RCE", 39); ("EM_ARM", 40); ("EM_FAKE_ALPHA", 41); ("EM_SH", 42); ("EM_SPARCV9", 43);
   ("EM_TRICORE", 44); ("EM_ARC", 45); ("EM_H8_300", 46); ("EM_H8_300H", 47); ("EM_H8S", 48);
   ("EM_H8_500", 49); ("EM_IA_64", 50); ("EM_MIPS_X", 51); ("EM_COLDFIRE", 52); ("EM_68HC12", 53);
   ("EM_MMA", 54); ("EM_PCP", 55); ("EM_NCPU", 56); ("EM_NDR1", 57); ("EM_STARCORE", 58); ("EM_ME16", 59);
   ("EM_ST100", 60); ("EM_TINYJ", 61); ("EM_X86_64", 62); ("EM_PDSP", 63); ("EM_PDP10", 64);
   ("EM_PDP11", 65); ("EM_FX66", 66); ("EM_ST9PLUS", 67); ("EM_ST7", 68); ("EM_68HC16", 69);
   ("EM_68HC11", 70); ("EM_68HC08", 71); ("EM_68HC05", 72); ("EM_SVX", 73); ("EM_ST19", 74);
   ("EM_VAX", 75); ("EM_CRIS", 76); ("EM_JAVELIN", 77); ("EM_FIREPATH", 78); ("EM_ZSP", 79);
   ("EM_MMIX", 80); ("EM_HUANY", 81); ("EM_PRISM", 82); ("EM_AVR", 83); ("EM_FR30", 84); ("EM_D10V", 85);
   ("EM_D30V", 86); ("EM_V850", 87); ("EM_M32R", 88); ("EM_MN10300", 89); ("EM_MN10200", 90);
   ("EM_PJ", 91); ("EM_OPENRISC", 92); ("EM_ARC_COMPACT", 93); ("EM_XTENSA", 94); ("EM_VIDEOCORE", 95);
   ("EM_TMM_GPP", 96); ("EM_NS32K", 97); ("EM_TPC", 98); ("EM_SNP1K", 99); ("EM_ST200", 100);
   ("EM_IP2K", 101); ("EM_MAX", 102); ("EM_CR", 103); ("EM_F2MC16", 104); ("EM_MSP430", 105);
   ("EM_BLACKFIN", 106); ("EM_SE_C33", 107); ("EM_SEP", 108); ("EM_ARCA", 109); ("EM_UNICORE", 110);
   ("EM_EXCESS", 111); ("EM_DXP", 112); ("EM_ALTERA_NIOS2", 113); ("EM_CRX", 114); ("EM_XGATE", 115);
   ("EM_C166", 116); ("EM_M16C", 117); ("EM_DSPIC30F", 118); ("EM_CE", 119); ("EM_M32C", 120);
   ("EM_TSK3000", 131); ("EM_RS08", 132); ("EM_SHARC", 133); ("EM_ECOG2", 134); ("EM_SCORE7", 135);
   ("EM_DSP24", 136); ("EM_VIDEOCORE3", 137); ("EM_LATTICEMICO32", 138); ("EM_SE_C17", 139);
   ("EM_TI_C6000", 140); ("EM_TI_C2000", 141); ("EM_TI_C5500", 142); ("EM_TI_ARP32", 143);
   ("EM_TI_PRU", 144); ("EM_MMDSP_PLUS", 160); ("EM_CYPRESS_M8C", 161); ("EM_R32C", 162);
   ("EM_TRIMEDIA", 163); ("EM_QDSP6", 164); ("EM_8051", 165); ("EM_STXP7X", 166); ("EM_NDS32", 167);
   ("EM_ECOG1X", 168); ("EM_MAXQ30", 169); ("EM_XIMO16", 170); ("EM_MANIK", 171); ("EM_CRAYNV2", 172);
   ("EM_RX", 173); ("EM_METAG", 174); ("EM_MCST_ELBRUS", 175); ("EM_ECOG16", 176)].

(** [e_machine], second half, with the old spellings *)
Definition e_machine_high : constants :=
  [("EM_CR16", 177); ("EM_ETPU", 178); ("EM_SLE9X", 179); ("EM_L10M", 180); ("EM_K10M", 181);
   ("EM_AARCH64", 183); ("EM_AVR32", 185); ("EM_STM8", 186); ("EM_TILE64", 187); ("EM_TILEPRO", 188);
   ("EM_MICROBLAZE", 189); ("EM_CUDA", 190); ("EM_TILEGX", 191); ("EM_CLOUDSHIELD", 192);
   ("EM_COREA_1ST", 193); ("EM_COREA_2ND", 194); ("EM_ARCV2", 195); ("EM_OPEN8", 196); ("EM_RL78", 197);
   ("EM_VIDEOCORE5", 198); ("EM_78KOR", 199); ("EM_56800EX", 200); ("EM_BA1", 201); ("EM_BA2", 202);
   ("EM_XCORE", 203); ("EM_MCHP_PIC", 204); ("EM_INTELGT", 205); ("EM_KM32", 210); ("EM_KMX32", 211);
   ("EM_EMX16", 212); ("EM_EMX8", 213); ("EM_KVARC", 214); ("EM_CDP", 215); ("EM_COGE", 216);
   ("EM_COOL", 217); ("EM_NORC", 218); ("EM_CSR_KALIMBA", 219); ("EM_Z80", 220); ("EM_VISIUM", 221);
   ("EM_FT32", 222); ("EM_MOXIE", 223); ("EM_AMDGPU", 224); ("EM_RISCV", 243); ("EM_BPF", 247);
   ("EM_CSKY", 252); ("EM_LOONGARCH", 258); ("EM_NUM", 259); ("EM_ARC_A5", 93); ("EM_ALPHA", 0x9026)].

(** [e_version] *)
Definition e_version_constants : constants :=
  [("EV_NONE", 0); ("EV_CURRENT", 1); ("EV_NUM", 2)].

(** special section indices *)
Definition section_indices : constants :=
  [("SHN_UNDEF", 0); ("SHN_LORESERVE", 0xff00); ("SHN_LOPROC", 0xff00); ("SHN_BEFORE", 0xff00);
   ("SHN_AFTER", 0xff01); ("SHN_HIPROC", 0xff1f); ("SHN_LOOS", 0xff20); ("SHN_HIOS", 0xff3f);
   ("SHN_ABS", 0xfff1); ("SHN_COMMON", 0xfff2); ("SHN_XINDEX", 0xffff); ("SHN_HIRESERVE", 0xffff)].

(** [sh_type]: section types *)
Definition sh_type_constants : constants :=
  [("SHT_NULL", 0); ("SHT_PROGBITS", 1); ("SHT_SYMTAB", 2); ("SHT_STRTAB", 3); ("SHT_RELA", 4);
   ("SHT_HASH", 5); ("SHT_DYNAMIC", 6); ("SHT_NOTE", 7); ("SHT_NOBITS", 8); ("SHT_REL", 9);
   ("SHT_SHLIB", 10); ("SHT_DYNSYM", 11); ("SHT_INIT_ARRAY", 14); ("SHT_FINI_ARRAY", 15);
   ("SHT_PREINIT_ARRAY", 16); ("SHT_GROUP", 17); ("SHT_SYMTAB_SHNDX", 18); ("SHT_RELR", 19);
   ("SHT_NUM", 20); ("SHT_LOOS", 0x60000000); ("SHT_GNU_ATTRIBUTES", 0x6ffffff5);
   ("SHT_GNU_HASH", 0x6ffffff6); ("SHT_GNU_LIBLIST", 0x6ffffff7); ("SHT_CHECKSUM", 0x6ffffff8);
   ("SHT_LOSUNW", 0x6ffffffa); ("SHT_SUNW_move", 0x6ffffffa); ("SHT_SUNW_COMDAT", 0x6ffffffb);
   ("SHT_SUNW_syminfo", 0x6ffffffc); ("SHT_GNU_verdef", 0x6ffffffd); ("SHT_GNU_verneed", 0x6ffffffe);
   ("SHT_GNU_versym", 0x6fffffff); ("SHT_HISUNW", 0x6fffffff); ("SHT_HIOS", 0x6fffffff);
   ("SHT_LOPROC", 0x70000000); ("SHT_HIPROC", 0x7fffffff); ("SHT_LOUSER", 0x80000000);
   ("SHT_HIUSER", 0x8fffffff)].

(** [sh_flags]: section flags *)
Definition sh_flags_constants : constants :=
  [("SHF_WRITE", Z.shiftl 1 0); ("SHF_ALLOC", Z.shiftl 1 1); ("SHF_EXECINSTR", Z.shiftl 1 2);
   ("SHF_MERGE", Z.shiftl 1 4); ("SHF_STRINGS", Z.shiftl 1 5); ("SHF_INFO_LINK", Z.shiftl 1 6);
   ("SHF_LINK_ORDER", Z.shiftl 1 7); ("SHF_OS_NONCONFORMING", Z.shiftl 1 8); ("SHF_GROUP", Z.shiftl 1 9);
   ("SHF_TLS", Z.shiftl 1 10); ("SHF_COMPRESSED", Z.shiftl 1 11); ("SHF_MASKOS", 0x0ff00000);
   ("SHF_MASKPROC", 0xf0000000); ("SHF_GNU_RETAIN", Z.shiftl 1 21); ("SHF_ORDERED", Z.shiftl 1 30);
   ("SHF_EXCLUDE", Z.shiftl 1 31)].

(** [ch_type] of a compressed section, and the group flag *)
Definition ch_type_constants : constants :=
  [("ELFCOMPRESS_ZLIB", 1); ("ELFCOMPRESS_ZSTD", 2); ("ELFCOMPRESS_LOOS", 0x60000000);
   ("ELFCOMPRESS_HIOS", 0x6fffffff); ("ELFCOMPRESS_LOPROC", 0x70000000);
   ("ELFCOMPRESS_HIPROC", 0x7fffffff); ("GRP_COMDAT", 0x1)].

(** [si_boundto], [si_flags] and the version of a symbol information table *)
Definition syminfo_constants : constants :=
  [("SYMINFO_BT_SELF", 0xffff); ("SYMINFO_BT_PARENT", 0xfffe); ("SYMINFO_BT_LOWRESERVE", 0xff00);
   ("SYMINFO_FLG_DIRECT", 0x0001); ("SYMINFO_FLG_PASSTHRU", 0x0002); ("SYMINFO_FLG_COPY", 0x0004);
   ("SYMINFO_FLG_LAZYLOAD", 0x0008); ("SYMINFO_NONE", 0); ("SYMINFO_CURRENT", 1); ("SYMINFO_NUM", 2)].

(** symbol bindings *)
Definition st_bind_constants : constants :=
  [("STB_LOCAL", 0); ("STB_GLOBAL", 1); ("STB_WEAK", 2); ("STB_NUM", 3); ("STB_LOOS", 10);
   ("STB_GNU_UNIQUE", 10); ("STB_HIOS", 12); ("STB_LOPROC", 13); ("STB_HIPROC", 15)].

(** symbol types *)
Definition st_type_constants : constants :=
  [("STT_NOTYPE", 0); ("STT_OBJECT", 1); ("STT_FUNC", 2); ("STT_SECTION", 3); ("STT_FILE", 4);
   ("STT_COMMON", 5); ("STT_TLS", 6); ("STT_NUM", 7); ("STT_LOOS", 10); ("STT_GNU_IFUNC", 10);
   ("STT_HIOS", 12); ("STT_LOPROC", 13); ("STT_HIPROC", 15)].

(** the end of a hash chain, and symbol visibility *)
Definition st_visibility_constants : constants :=
  [("STN_UNDEF", 0); ("STV_DEFAULT", 0); ("STV_INTERNAL", 1); ("STV_HIDDEN", 2); ("STV_PROTECTED", 3)].

(** [PN_XNUM], and [p_type]: segment types *)
Definition p_type_constants : constants :=
  [("PN_XNUM", 0xffff); ("PT_NULL", 0); ("PT_LOAD", 1); ("PT_DYNAMIC", 2); ("PT_INTERP", 3);
   ("PT_NOTE", 4); ("PT_SHLIB", 5); ("PT_PHDR", 6); ("PT_TLS", 7); ("PT_NUM", 8); ("PT_LOOS", 0x60000000);
   ("PT_GNU_EH_FRAME", 0x6474e550); ("PT_GNU_STACK", 0x6474e551); ("PT_GNU_RELRO", 0x6474e552);
   ("PT_GNU_PROPERTY", 0x6474e553); ("PT_GNU_SFRAME", 0x6474e554); ("PT_LOSUNW", 0x6ffffffa);
   ("PT_SUNWBSS", 0x6ffffffa); ("PT_SUNWSTACK", 0x6ffffffb); ("PT_HISUNW", 0x6fffffff);
   ("PT_HIOS", 0x6fffffff); ("PT_LOPROC", 0x70000000); ("PT_HIPROC", 0x7fffffff)].

(** [p_flags]: segment flags *)
Definition p_flags_constants : constants :=
  [("PF_X", Z.shiftl 1 0); ("PF_W", Z.shiftl 1 1); ("PF_R", Z.shiftl 1 2); ("PF_MASKOS", 0x0ff00000);
   ("PF_MASKPROC", 0xf0000000)].

(** [d_tag]: entries of a dynamic section *)
Definition d_tag_constants : constants :=
  [("DT_NULL", 0); ("DT_NEEDED", 1); ("DT_PLTRELSZ", 2); ("DT_PLTGOT", 3); ("DT_HASH", 4);
   ("DT_STRTAB", 5); ("DT_SYMTAB", 6); ("DT_RELA", 7); ("DT_RELASZ", 8); ("DT_RELAENT", 9);
   ("DT_STRSZ", 10); ("DT_SYMENT", 11); ("DT_INIT", 12); ("DT_FINI", 13); ("DT_SONAME", 14);
   ("DT_RPATH", 15); ("DT_SYMBOLIC", 16); ("DT_REL", 17); ("DT_RELSZ", 18); ("DT_RELENT", 19);
   ("DT_PLTREL", 20); ("DT_DEBUG", 21); ("DT_TEXTREL", 22); ("DT_JMPREL", 23); ("DT_BIND_NOW", 24);
   ("DT_INIT_ARRAY", 25); ("DT_FINI_ARRAY", 26); ("DT_INIT_ARRAYSZ", 27); ("DT_FINI_ARRAYSZ", 28);
   ("DT_RUNPATH", 29); ("DT_FLAGS", 30); ("DT_ENCODING", 32); ("DT_PREINIT_ARRAY", 32);
   ("DT_PREINIT_ARRAYSZ", 33); ("DT_SYMTAB_SHNDX", 34); ("DT_RELRSZ", 35); ("DT_RELR", 36);
   ("DT_RELRENT", 37); ("DT_NUM", 38); ("DT_LOOS", 0x6000000d); ("DT_HIOS", 0x6ffff000);
   ("DT_LOPROC", 0x70000000); ("DT_HIPROC", 0x7fffffff); ("DT_PROCNUM", 0x37); ("DT_VALRNGLO", 0x6ffffd00);
   ("DT_GNU_PRELINKED", 0x6ffffdf5); ("DT_GNU_CONFLICTSZ", 0x6ffffdf6); ("DT_GNU_LIBLISTSZ", 0x6ffffdf7);
   ("DT_CHECKSUM", 0x6ffffdf8); ("DT_PLTPADSZ", 0x6ffffdf9); ("DT_MOVEENT", 0x6ffffdfa);
   ("DT_MOVESZ", 0x6ffffdfb); ("DT_FEATURE_1", 0x6ffffdfc); ("DT_POSFLAG_1", 0x6ffffdfd);
   ("DT_SYMINSZ", 0x6ffffdfe); ("DT_SYMINENT", 0x6ffffdff); ("DT_VALRNGHI", 0x6ffffdff); ("DT_VALNUM", 12);
   ("DT_ADDRRNGLO", 0x6ffffe00); ("DT_GNU_HASH", 0x6ffffef5); ("DT_TLSDESC_PLT", 0x6ffffef6);
   ("DT_TLSDESC_GOT", 0x6ffffef7); ("DT_GNU_CONFLICT", 0x6ffffef8); ("DT_GNU_LIBLIST", 0x6ffffef9);
   ("DT_CONFIG", 0x6ffffefa); ("DT_DEPAUDIT", 0x6ffffefb); ("DT_AUDIT", 0x6ffffefc);
   ("DT_PLTPAD", 0x6ffffefd); ("DT_MOVETAB", 0x6ffffefe); ("DT_SYMINFO", 0x6ffffeff);
   ("DT_ADDRRNGHI", 0x6ffffeff); ("DT_ADDRNUM", 11); ("DT_VERSYM", 0x6ffffff0);
   ("DT_RELACOUNT", 0x6ffffff9); ("DT_RELCOUNT", 0x6ffffffa); ("DT_FLAGS_1", 0x6ffffffb);
   ("DT_VERDEF", 0x6ffffffc); ("DT_VERDEFNUM", 0x6ffffffd); ("DT_VERNEED", 0x6ffffffe);
   ("DT_VERNEEDNUM", 0x6fffffff); ("DT_VERSIONTAGNUM", 16); ("DT_AUXILIARY", 0x7ffffffd);
   ("DT_FILTER", 0x7fffffff); ("DT_EXTRANUM", 3)].

(** flags of a dynamic section *)
Definition dynamic_flags : constants :=
  [("DF_ORIGIN", 0x00000001); ("DF_SYMBOLIC", 0x00000002); ("DF_TEXTREL", 0x00000004);
   ("DF_BIND_NOW", 0x00000008); ("DF_STATIC_TLS", 0x00000010); ("DF_1_NOW", 0x00000001);
   ("DF_1_GLOBAL", 0x00000002); ("DF_1_GROUP", 0x00000004); ("DF_1_NODELETE", 0x00000008);
   ("DF_1_LOADFLTR", 0x00000010); ("DF_1_INITFIRST", 0x00000020); ("DF_1_NOOPEN", 0x00000040);
   ("DF_1_ORIGIN", 0x00000080); ("DF_1_DIRECT", 0x00000100); ("DF_1_TRANS", 0x00000200);
   ("DF_1_INTERPOSE", 0x00000400); ("DF_1_NODEFLIB", 0x00000800); ("DF_1_NODUMP", 0x00001000);
   ("DF_1_CONFALT", 0x00002000); ("DF_1_ENDFILTEE", 0x00004000); ("DF_1_DISPRELDNE", 0x00008000);
   ("DF_1_DISPRELPND", 0x00010000); ("DF_1_NODIRECT", 0x00020000); ("DF_1_IGNMULDEF", 0x00040000);
   ("DF_1_NOKSYMS", 0x00080000); ("DF_1_NOHDR", 0x00100000); ("DF_1_EDITED", 0x00200000);
   ("DF_1_NORELOC", 0x00400000); ("DF_1_SYMINTPOSE", 0x00800000); ("DF_1_GLOBAUDIT", 0x01000000);
   ("DF_1_SINGLETON", 0x02000000); ("DF_1_STUB", 0x04000000); ("DF_1_PIE", 0x08000000);
   ("DF_1_KMOD", 0x10000000); ("DF_1_WEAKFILTER", 0x20000000); ("DF_1_NOCOMMON", 0x40000000);
   ("DTF_1_PARINIT", 0x00000001); ("DTF_1_CONFEXP", 0x00000002); ("DF_P1_LAZYLOAD", 0x00000001);
   ("DF_P1_GROUPPERM", 0x00000002)].

(** relocation types of x86-64 *)
Definition r_x86_64_constants : constants :=
  [("R_X86_64_NONE", 0); ("R_X86_64_64", 1); ("R_X86_64_PC32", 2); ("R_X86_64_GOT32", 3);
   ("R_X86_64_PLT32", 4); ("R_X86_64_COPY", 5); ("R_X86_64_GLOB_DAT", 6); ("R_X86_64_JUMP_SLOT", 7);
   ("R_X86_64_RELATIVE", 8); ("R_X86_64_GOTPCREL", 9); ("R_X86_64_32", 10); ("R_X86_64_32S", 11);
   ("R_X86_64_16", 12); ("R_X86_64_PC16", 13); ("R_X86_64_8", 14); ("R_X86_64_PC8", 15);
   ("R_X86_64_DTPMOD64", 16); ("R_X86_64_DTPOFF64", 17); ("R_X86_64_TPOFF64", 18); ("R_X86_64_TLSGD", 19);
   ("R_X86_64_TLSLD", 20); ("R_X86_64_DTPOFF32", 21); ("R_X86_64_GOTTPOFF", 22); ("R_X86_64_TPOFF32", 23);
   ("R_X86_64_PC64", 24); ("R_X86_64_GOTOFF64", 25); ("R_X86_64_GOTPC32", 26); ("R_X86_64_GOT64", 27);
   ("R_X86_64_GOTPCREL64", 28); ("R_X86_64_GOTPC64", 29); ("R_X86_64_GOTPLT64", 30);
   ("R_X86_64_PLTOFF64", 31); ("R_X86_64_SIZE32", 32); ("R_X86_64_SIZE64", 33);
   ("R_X86_64_GOTPC32_TLSDESC", 34); ("R_X86_64_TLSDESC_CALL", 35); ("R_X86_64_TLSDESC", 36);
   ("R_X86_64_IRELATIVE", 37); ("R_X86_64_RELATIVE64", 38); ("R_X86_64_GOTPCRELX", 41);
   ("R_X86_64_REX_GOTPCRELX", 42); ("R_X86_64_NUM", 43)].

Definition e_machine_constants : constants := e_machine_low ++ e_machine_high.

(** the value of a constant (0 for a name the table lacks), and the first name of a value *)
Definition value_of (t : constants) (name : string) : Z :=
  match List.find (fun c => String.eqb c.1 name) t with
  | Some c => c.2
  | None => 0
  end.

Definition name_of (t : constants) (v : Z) : option string :=
  match List.find (fun c => c.2 =? v) t with
  | Some c => Some c.1
  | None => None
  end.

(** the value of a constant as a literal *)
Ltac constant t name := let v := eval vm_compute in (value_of t name) in exact v.
