(* ===== verification/ElfFormat.v ===== *)
(** elf.h: the types and structures of the ELF file format, with the layout the C
    compiler gives them, and what it takes for a file image to be an executable
    the kernel can run. *)

From stdpp Require Import strings.
From S2P Require Import Prelude ElfConst.

(** ** Types and layout *)

(** the integer types elf.h builds on; x86-64 aligns each to its size *)
Inductive cint : Type := uchar | uint16_t | uint32_t | uint64_t | int32_t | int64_t.

Definition sizeof_cint (t : cint) : Z :=
  match t with
  | uchar => 1
  | uint16_t => 2
  | uint32_t | int32_t => 4
  | uint64_t | int64_t => 8
  end.

(** the types of the fields *)
Definition Elf32_Half : cint := uint16_t.
Definition Elf64_Half : cint := uint16_t.
Definition Elf32_Word : cint := uint32_t.
Definition Elf64_Word : cint := uint32_t.
Definition Elf32_Sword : cint := int32_t.
Definition Elf64_Sword : cint := int32_t.
Definition Elf32_Xword : cint := uint64_t.
Definition Elf64_Xword : cint := uint64_t.
Definition Elf32_Sxword : cint := int64_t.
Definition Elf64_Sxword : cint := int64_t.
Definition Elf32_Addr : cint := uint32_t.
Definition Elf64_Addr : cint := uint64_t.
Definition Elf32_Off : cint := uint32_t.
Definition Elf64_Off : cint := uint64_t.
Definition Elf32_Section : cint := uint16_t.
Definition Elf64_Section : cint := uint16_t.
Definition Elf32_Versym : cint := Elf32_Half.
Definition Elf64_Versym : cint := Elf64_Half.
Definition Elf32_Relr : cint := Elf32_Word.
Definition Elf64_Relr : cint := Elf64_Xword.

(** a structure: its fields in order, each a name, a type and a number of elements *)
Definition struct : Type := list (string * cint * Z).

Definition field_size (f : string * cint * Z) : Z := sizeof_cint f.1.2 * f.2.
Definition align_up (a n : Z) : Z := (n + a - 1) / a * a.

(** the offset of every field, from [pos] on *)
Fixpoint layout (pos : Z) (s : struct) : list (string * Z * Z) :=
  match s with
  | [] => []
  | f :: s' =>
      let off := align_up (sizeof_cint f.1.2) pos in
      (f.1.1, off, field_size f) :: layout (off + field_size f) s'
  end.

Definition struct_align (s : struct) : Z := foldr (fun f a => Z.max (sizeof_cint f.1.2) a) 1 s.

Definition struct_end (s : struct) : Z :=
  foldr (fun f e => Z.max (f.1.2 + f.2) e) 0 (layout 0 s).

Definition sizeof (s : struct) : Z := align_up (struct_align s) (struct_end s).

Definition field_of (s : struct) (name : string) : option (string * Z * Z) :=
  List.find (fun f => String.eqb f.1.1 name) (layout 0 s).

Definition offset_of (s : struct) (name : string) : Z :=
  match field_of s name with
  | Some f => f.1.2
  | None => 0
  end.

(** an offset or a size as a literal *)
Ltac offsetof s name := let v := eval vm_compute in (offset_of s name) in exact v.
Ltac sizeof_lit s := let v := eval vm_compute in (sizeof s) in exact v.

(** ** The structures *)

Definition Elf32_Ehdr : struct :=
  [("e_ident", uchar, 16); ("e_type", Elf32_Half, 1); ("e_machine", Elf32_Half, 1);
   ("e_version", Elf32_Word, 1); ("e_entry", Elf32_Addr, 1); ("e_phoff", Elf32_Off, 1);
   ("e_shoff", Elf32_Off, 1); ("e_flags", Elf32_Word, 1); ("e_ehsize", Elf32_Half, 1);
   ("e_phentsize", Elf32_Half, 1); ("e_phnum", Elf32_Half, 1); ("e_shentsize", Elf32_Half, 1);
   ("e_shnum", Elf32_Half, 1); ("e_shstrndx", Elf32_Half, 1)].
Definition Elf64_Ehdr : struct :=
  [("e_ident", uchar, 16); ("e_type", Elf64_Half, 1); ("e_machine", Elf64_Half, 1);
   ("e_version", Elf64_Word, 1); ("e_entry", Elf64_Addr, 1); ("e_phoff", Elf64_Off, 1);
   ("e_shoff", Elf64_Off, 1); ("e_flags", Elf64_Word, 1); ("e_ehsize", Elf64_Half, 1);
   ("e_phentsize", Elf64_Half, 1); ("e_phnum", Elf64_Half, 1); ("e_shentsize", Elf64_Half, 1);
   ("e_shnum", Elf64_Half, 1); ("e_shstrndx", Elf64_Half, 1)].
Definition Elf32_Shdr : struct :=
  [("sh_name", Elf32_Word, 1); ("sh_type", Elf32_Word, 1); ("sh_flags", Elf32_Word, 1);
   ("sh_addr", Elf32_Addr, 1); ("sh_offset", Elf32_Off, 1); ("sh_size", Elf32_Word, 1);
   ("sh_link", Elf32_Word, 1); ("sh_info", Elf32_Word, 1); ("sh_addralign", Elf32_Word, 1);
   ("sh_entsize", Elf32_Word, 1)].
Definition Elf64_Shdr : struct :=
  [("sh_name", Elf64_Word, 1); ("sh_type", Elf64_Word, 1); ("sh_flags", Elf64_Xword, 1);
   ("sh_addr", Elf64_Addr, 1); ("sh_offset", Elf64_Off, 1); ("sh_size", Elf64_Xword, 1);
   ("sh_link", Elf64_Word, 1); ("sh_info", Elf64_Word, 1); ("sh_addralign", Elf64_Xword, 1);
   ("sh_entsize", Elf64_Xword, 1)].
Definition Elf32_Chdr : struct :=
  [("ch_type", Elf32_Word, 1); ("ch_size", Elf32_Word, 1); ("ch_addralign", Elf32_Word, 1)].
Definition Elf64_Chdr : struct :=
  [("ch_type", Elf64_Word, 1); ("ch_reserved", Elf64_Word, 1); ("ch_size", Elf64_Xword, 1);
   ("ch_addralign", Elf64_Xword, 1)].
Definition Elf32_Sym : struct :=
  [("st_name", Elf32_Word, 1); ("st_value", Elf32_Addr, 1); ("st_size", Elf32_Word, 1);
   ("st_info", uchar, 1); ("st_other", uchar, 1); ("st_shndx", Elf32_Section, 1)].
Definition Elf64_Sym : struct :=
  [("st_name", Elf64_Word, 1); ("st_info", uchar, 1); ("st_other", uchar, 1);
   ("st_shndx", Elf64_Section, 1); ("st_value", Elf64_Addr, 1); ("st_size", Elf64_Xword, 1)].
Definition Elf32_Syminfo : struct :=
  [("si_boundto", Elf32_Half, 1); ("si_flags", Elf32_Half, 1)].
Definition Elf64_Syminfo : struct :=
  [("si_boundto", Elf64_Half, 1); ("si_flags", Elf64_Half, 1)].
Definition Elf32_Rel : struct :=
  [("r_offset", Elf32_Addr, 1); ("r_info", Elf32_Word, 1)].
Definition Elf64_Rel : struct :=
  [("r_offset", Elf64_Addr, 1); ("r_info", Elf64_Xword, 1)].
Definition Elf32_Rela : struct :=
  [("r_offset", Elf32_Addr, 1); ("r_info", Elf32_Word, 1); ("r_addend", Elf32_Sword, 1)].
Definition Elf64_Rela : struct :=
  [("r_offset", Elf64_Addr, 1); ("r_info", Elf64_Xword, 1); ("r_addend", Elf64_Sxword, 1)].
Definition Elf32_Phdr : struct :=
  [("p_type", Elf32_Word, 1); ("p_offset", Elf32_Off, 1); ("p_vaddr", Elf32_Addr, 1);
   ("p_paddr", Elf32_Addr, 1); ("p_filesz", Elf32_Word, 1); ("p_memsz", Elf32_Word, 1);
   ("p_flags", Elf32_Word, 1); ("p_align", Elf32_Word, 1)].
Definition Elf64_Phdr : struct :=
  [("p_type", Elf64_Word, 1); ("p_flags", Elf64_Word, 1); ("p_offset", Elf64_Off, 1);
   ("p_vaddr", Elf64_Addr, 1); ("p_paddr", Elf64_Addr, 1); ("p_filesz", Elf64_Xword, 1);
   ("p_memsz", Elf64_Xword, 1); ("p_align", Elf64_Xword, 1)].

(** entries of a dynamic section: the members of the union [d_un] share one type size *)
Definition Elf32_Dyn : struct := [("d_tag", Elf32_Sword, 1); ("d_un", Elf32_Word, 1)].
Definition Elf64_Dyn : struct := [("d_tag", Elf64_Sxword, 1); ("d_un", Elf64_Xword, 1)].

(** the accessors of [st_info], [st_other] and [r_info] *)
Definition ELF32_ST_BIND (val : Z) : Z := Z.shiftr (u8 val) 4.
Definition ELF32_ST_TYPE (val : Z) : Z := Z.land val 0xf.
Definition ELF32_ST_INFO (bind type : Z) : Z := Z.shiftl bind 4 + Z.land type 0xf.
Definition ELF64_ST_BIND (val : Z) : Z := ELF32_ST_BIND val.
Definition ELF64_ST_TYPE (val : Z) : Z := ELF32_ST_TYPE val.
Definition ELF64_ST_INFO (bind type : Z) : Z := ELF32_ST_INFO bind type.
Definition ELF32_ST_VISIBILITY (o : Z) : Z := Z.land o 0x03.
Definition ELF64_ST_VISIBILITY (o : Z) : Z := ELF32_ST_VISIBILITY o.
Definition ELF32_R_SYM (val : Z) : Z := Z.shiftr val 8.
Definition ELF32_R_TYPE (val : Z) : Z := Z.land val 0xff.
Definition ELF32_R_INFO (sym type : Z) : Z := Z.shiftl sym 8 + Z.land type 0xff.
Definition ELF64_R_SYM (i : Z) : Z := Z.shiftr i 32.
Definition ELF64_R_TYPE (i : Z) : Z := Z.land i 0xffffffff.
Definition ELF64_R_INFO (sym type : Z) : Z := u64 (Z.shiftl (u64 sym) 32 + type).

(** ** Reading a file image *)

(** the [n]-byte little-endian integer at offset [off], if the file has it *)
Fixpoint le_bytes (l : list Z) : Z :=
  match l with
  | [] => 0
  | b :: l' => b + 256 * le_bytes l'
  end.

Definition read_at (file : list Z) (off n : Z) : option Z :=
  if (0 <=? off) && (off + n <=? Z.of_nat (length file))
  then Some (le_bytes (take (Z.to_nat n) (drop (Z.to_nat off) file)))
  else None.

(** the field [name] of the structure [s] at offset [base] *)
Definition field (file : list Z) (s : struct) (base : Z) (name : string) : option Z :=
  match field_of s name with
  | Some f => read_at file (base + f.1.2) f.2
  | None => None
  end.

(** the NUL-terminated string at offset [off] *)
Fixpoint c_string (l : list Z) : string :=
  match l with
  | [] => EmptyString
  | b :: l' => if b =? 0 then EmptyString else String (Ascii.ascii_of_nat (Z.to_nat b)) (c_string l')
  end.

Definition string_at (file : list Z) (off : Z) : string := c_string (drop (Z.to_nat off) file).

(** the offsets of the entries of a table *)
Definition entries (base size count : Z) : list Z := (fun i => base + size * i) <$> seqZ 0 count.

Definition program_headers (file : list Z) : option (list Z) :=
  off ← field file Elf64_Ehdr 0 "e_phoff";
  n ← field file Elf64_Ehdr 0 "e_phnum";
  Some (entries off (sizeof Elf64_Phdr) n).

Definition section_headers (file : list Z) : option (list Z) :=
  off ← field file Elf64_Ehdr 0 "e_shoff";
  n ← field file Elf64_Ehdr 0 "e_shnum";
  Some (entries off (sizeof Elf64_Shdr) n).

Definition section_name (file : list Z) (sh : Z) : option string :=
  shs ← section_headers file;
  ndx ← field file Elf64_Ehdr 0 "e_shstrndx";
  str ← shs !! Z.to_nat ndx;
  off ← field file Elf64_Shdr str "sh_offset";
  name ← field file Elf64_Shdr sh "sh_name";
  Some (string_at file (off + name)).

(** the symbols of the first symbol table: name, binding, type and value *)
Record symbol : Type := mk_symbol { s_name : string; s_bind : Z; s_type : Z; s_shndx : Z; s_value : Z; s_size : Z }.

Definition read_symbol (file : list Z) (str off : Z) : option symbol :=
  name ← field file Elf64_Sym off "st_name";
  info ← field file Elf64_Sym off "st_info";
  shndx ← field file Elf64_Sym off "st_shndx";
  value ← field file Elf64_Sym off "st_value";
  size ← field file Elf64_Sym off "st_size";
  Some (mk_symbol (string_at file (str + name)) (ELF64_ST_BIND info) (ELF64_ST_TYPE info) shndx value size).

Definition is_symtab (file : list Z) (sh : Z) : bool :=
  match field file Elf64_Shdr sh "sh_type" with
  | Some t => t =? value_of sh_type_constants "SHT_SYMTAB"
  | None => false
  end.

Definition symbols_of (file : list Z) : option (list symbol) :=
  shs ← section_headers file;
  tab ← List.find (is_symtab file) shs;
  off ← field file Elf64_Shdr tab "sh_offset";
  size ← field file Elf64_Shdr tab "sh_size";
  link ← field file Elf64_Shdr tab "sh_link";
  strtab ← shs !! Z.to_nat link;
  str ← field file Elf64_Shdr strtab "sh_offset";
  mapM (read_symbol file str) (entries off (sizeof Elf64_Sym) (size / sizeof Elf64_Sym)).

(** ** Executables *)

(** the value [v] of a field satisfies [p], and the file has the field *)
Definition holds (v : option Z) (p : Z -> bool) : bool :=
  match v with
  | Some x => p x
  | None => false
  end.

Definition is_load (file : list Z) (ph : Z) : bool :=
  holds (field file Elf64_Phdr ph "p_type") (Z.eqb (value_of p_type_constants "PT_LOAD")).

(** a loadable segment lies in the file and in the lower half of the address space,
    needs no zero fill beyond its bytes in the file, and sits at the same place in
    its page in both *)
Definition segment_ok (file : list Z) (ph : Z) : bool :=
  holds (field file Elf64_Phdr ph "p_offset") (fun off =>
  holds (field file Elf64_Phdr ph "p_filesz") (fun filesz =>
  holds (field file Elf64_Phdr ph "p_memsz") (fun memsz =>
  holds (field file Elf64_Phdr ph "p_vaddr") (fun vaddr =>
    (off + filesz <=? Z.of_nat (length file)) && (filesz =? memsz) &&
    (vaddr + memsz <=? 2 ^ 47) && (vaddr mod 4096 =? off mod 4096))))).

(** the segment holds [va] and is executable *)
Definition executes (file : list Z) (va ph : Z) : bool :=
  is_load file ph &&
  holds (field file Elf64_Phdr ph "p_flags") (fun fl => negb (Z.land fl (value_of p_flags_constants "PF_X") =? 0)) &&
  holds (field file Elf64_Phdr ph "p_vaddr") (fun vaddr =>
  holds (field file Elf64_Phdr ph "p_filesz") (fun filesz => (vaddr <=? va) && (va <? vaddr + filesz))).

(** the file asks for a dynamic linker or for relocations, which the kernel has not *)
Definition needs_linking (file : list Z) : bool :=
  match program_headers file, section_headers file with
  | Some phs, Some shs =>
      existsb (fun ph => holds (field file Elf64_Phdr ph "p_type") (fun t =>
        (t =? value_of p_type_constants "PT_DYNAMIC") || (t =? value_of p_type_constants "PT_INTERP"))) phs ||
      existsb (fun sh => holds (field file Elf64_Shdr sh "sh_type") (fun t =>
        (t =? value_of sh_type_constants "SHT_REL") || (t =? value_of sh_type_constants "SHT_RELA"))) shs
  | _, _ => true
  end.

(** an executable of the class the loader reads: a version-1 ELF64 header whose
    tables have the entry sizes of the structures, sound loadable segments, an entry
    point in an executable one, and no need for relocation *)
Definition elf_executable (file : list Z) : bool :=
  let hdr name p := holds (field file Elf64_Ehdr 0 name) p in
  hdr "e_type" (Z.eqb (value_of e_type_constants "ET_EXEC")) &&
  hdr "e_machine" (Z.eqb (value_of e_machine_constants "EM_X86_64")) &&
  hdr "e_version" (Z.eqb (value_of e_version_constants "EV_CURRENT")) &&
  hdr "e_ehsize" (Z.eqb (sizeof Elf64_Ehdr)) &&
  hdr "e_phentsize" (Z.eqb (sizeof Elf64_Phdr)) &&
  hdr "e_shentsize" (Z.eqb (sizeof Elf64_Shdr)) &&
  negb (needs_linking file) &&
  match program_headers file with
  | Some phs =>
      existsb (is_load file) phs && forallb (fun ph => negb (is_load file ph) || segment_ok file ph) phs &&
      hdr "e_entry" (fun entry => existsb (executes file entry) phs)
  | None => false
  end.

(** ** Layouts are sound *)

Lemma align_up_spec a n : 0 < a -> n <= align_up a n /\ align_up a n mod a = 0.
Proof.
  intros Ha. unfold align_up. split; [|by apply Z_mod_mult].
  pose proof (Z.div_mod (n + a - 1) a). pose proof (Z.mod_pos_bound (n + a - 1) a Ha). nia.
Qed.

Lemma sizeof_cint_pos t : 0 < sizeof_cint t.
Proof. by destruct t. Qed.

(** every field has an entry, aligned, behind [pos] and all fields before it *)
Lemma layout_entries s : forall pos,
  Forall (fun f : string * cint * Z => 0 < f.2) s ->
  (forall i f, s !! i = Some f -> exists off, layout pos s !! i = Some (f.1.1, off, field_size f) /\
     pos <= off /\ off mod sizeof_cint f.1.2 = 0) /\
  (forall i e, layout pos s !! i = Some e -> pos <= e.1.2 /\ 0 < e.2) /\
  (forall i j e e', (i < j)%nat -> layout pos s !! i = Some e -> layout pos s !! j = Some e' -> e.1.2 + e.2 <= e'.1.2).
Proof.
  induction s as [|f s IH]; intros pos Hs; [by split_and!; intros; rewrite ?lookup_nil in *|].
  apply Forall_cons in Hs as [Hf Hs]. pose proof (sizeof_cint_pos f.1.2) as Hp.
  destruct (align_up_spec (sizeof_cint f.1.2) pos Hp) as [Hle Hm]. cbn [layout].
  set (off := align_up (sizeof_cint f.1.2) pos) in *. destruct (IH (off + field_size f) Hs) as (H1 & H2 & H3).
  assert (Hsz : 0 < field_size f) by (unfold field_size; nia). split_and!.
  - intros [|i] g Hg; cbn in Hg |- *; [injection Hg as <-; by exists off|].
    destruct (H1 i g Hg) as (o & ? & ? & ?). exists o. split_and!; [done|lia|done].
  - intros [|i] e He; cbn in He; [injection He as <-; cbn; lia|]. destruct (H2 i e He). lia.
  - intros [|i] [|j] e e' Hij He He'; cbn in He, He'; [lia| |lia|by apply (H3 i j); [lia|..]].
    injection He as <-. cbn. by destruct (H2 j e' He').
Qed.

Lemma end_bound (l : list (string * Z * Z)) i e :
  l !! i = Some e -> e.1.2 + e.2 <= foldr (fun f e => Z.max (f.1.2 + f.2) e) 0 l.
Proof.
  revert i. induction l as [|x l IH]; intros [|i] H; [done|done|injection H as ->; cbn [foldr]; lia|].
  cbn [foldr]. cbn in H. specialize (IH i H). lia.
Qed.

(** alignments are powers of two, so the largest is a multiple of all *)
Lemma struct_align_spec (s : struct) :
  (struct_align s = 1 \/ struct_align s = 2 \/ struct_align s = 4 \/ struct_align s = 8) /\
  forall f, f ∈ s -> struct_align s mod sizeof_cint f.1.2 = 0.
Proof.
  induction s as [|g s [IH1 IH2]]; [split; [by left|by intros f ?%elem_of_nil]|]. cbn [struct_align foldr].
  fold (struct_align s). split.
  - destruct IH1 as [->|[->|[->| ->]]], (g.1.2); cbn; auto.
  - intros f [->|Hf]%elem_of_cons.
    + by destruct IH1 as [->|[->|[->| ->]]], (g.1.2).
    + specialize (IH2 f Hf). by destruct IH1 as [E|[E|[E|E]]], (g.1.2), (f.1.2); rewrite E in *.
Qed.

(** the layout C requires: the fields keep their order, never overlap, are aligned for
    their types, and lie in the size of the structure, which is a multiple of every
    alignment, so that the elements of a table are aligned too *)
Definition sound_layout (s : struct) : Prop :=
  (forall i f, s !! i = Some f -> exists off, layout 0 s !! i = Some (f.1.1, off, field_size f) /\
     0 <= off /\ off mod sizeof_cint f.1.2 = 0 /\ off + field_size f <= sizeof s /\ sizeof s mod sizeof_cint f.1.2 = 0) /\
  (forall i j e e', (i < j)%nat -> layout 0 s !! i = Some e -> layout 0 s !! j = Some e' -> e.1.2 + e.2 <= e'.1.2).

Lemma layout_sound (s : struct) : Forall (fun f : string * cint * Z => 0 < f.2) s -> sound_layout s.
Proof.
  intros Hs. destruct (layout_entries s 0 Hs) as (H1 & _ & H3). split; [|exact H3].
  destruct (struct_align_spec s) as [Ha Hd]. destruct (align_up_spec (struct_align s) (struct_end s)) as [Hle Hm]; [lia|].
  fold (sizeof s) in Hle, Hm. intros i f Hf. destruct (H1 i f Hf) as (off & Ho & H0 & Hal). exists off.
  pose proof (end_bound _ _ _ Ho) as He. fold (struct_end s) in He. cbn [fst snd] in He.
  split_and!; [done|done|done|lia|]. pose proof (sizeof_cint_pos f.1.2) as Hp.
  apply Z.mod_divide in Hm; [|lia]. apply Z.mod_divide; [lia|]. etrans; [|exact Hm].
  apply Z.mod_divide; [lia|]. apply Hd. by eapply list_elem_of_lookup_2.
Qed.
