(* ===== verification/ElfArch.v ===== *)
(** elf.h: what the processors add to the format, one table per field: the flags of the
    file header, special sections, types and flags of sections, segments and symbols,
    dynamic entries, and the structures of the MIPS.  Sums and shifts are written as in
    the header, over the value of the constant they start from. *)

From stdpp Require Import strings.
From S2P Require Import Prelude ElfConst ElfFormat.

(** ** Motorola 68k and SPARC *)

(** [e_flags] of the 68k *)
Definition e_flags_68k : constants :=
  [("EF_CPU32", 0x00810000)].

(** symbol types of the SPARC *)
Definition st_type_sparc : constants :=
  [("STT_SPARC_REGISTER", 13)].

(** [e_flags] of the SPARC *)
Definition e_flags_sparc : constants :=
  [("EF_SPARCV9_MM", 3); ("EF_SPARCV9_TSO", 0); ("EF_SPARCV9_PSO", 1); ("EF_SPARCV9_RMO", 2);
   ("EF_SPARC_LEDATA", 0x800000); ("EF_SPARC_EXT_MASK", 0xFFFF00); ("EF_SPARC_32PLUS", 0x000100);
   ("EF_SPARC_SUN_US1", 0x000200); ("EF_SPARC_HAL_R1", 0x000400); ("EF_SPARC_SUN_US3", 0x000800)].

(** dynamic entries of the SPARC *)
Definition d_tag_sparc : constants :=
  [("DT_SPARC_REGISTER", 0x70000001); ("DT_SPARC_NUM", 2)].

(** ** MIPS *)

(** [e_flags]: code model and extensions *)
Definition e_flags_mips : constants :=
  [("EF_MIPS_NOREORDER", 1); ("EF_MIPS_PIC", 2); ("EF_MIPS_CPIC", 4); ("EF_MIPS_XGOT", 8);
   ("EF_MIPS_UCODE", 16); ("EF_MIPS_ABI2", 32); ("EF_MIPS_ABI_ON32", 64);
   ("EF_MIPS_OPTIONS_FIRST", 0x00000080); ("EF_MIPS_32BITMODE", 0x00000100); ("EF_MIPS_FP64", 512);
   ("EF_MIPS_NAN2008", 1024); ("EF_MIPS_ARCH_ASE", 0x0f000000); ("EF_MIPS_ARCH_ASE_MDMX", 0x08000000);
   ("EF_MIPS_ARCH_ASE_M16", 0x04000000); ("EF_MIPS_ARCH_ASE_MICROMIPS", 0x02000000);
   ("EF_MIPS_ARCH", 0xf0000000)].

(** [e_flags]: architecture level *)
Definition e_flags_mips_arch : constants :=
  [("EF_MIPS_ARCH_1", 0x00000000); ("EF_MIPS_ARCH_2", 0x10000000); ("EF_MIPS_ARCH_3", 0x20000000);
   ("EF_MIPS_ARCH_4", 0x30000000); ("EF_MIPS_ARCH_5", 0x40000000); ("EF_MIPS_ARCH_32", 0x50000000);
   ("EF_MIPS_ARCH_64", 0x60000000); ("EF_MIPS_ARCH_32R2", 0x70000000); ("EF_MIPS_ARCH_64R2", 0x80000000);
   ("EF_MIPS_ARCH_32R6", 0x90000000); ("EF_MIPS_ARCH_64R6", 0xa0000000)].

(** [e_flags]: the ABI *)
Definition e_flags_mips_abi : constants :=
  [("EF_MIPS_ABI", 0x0000F000); ("EF_MIPS_ABI_O32", 0x00001000); ("EF_MIPS_ABI_O64", 0x00002000);
   ("EF_MIPS_ABI_EABI32", 0x00003000); ("EF_MIPS_ABI_EABI64", 0x00004000)].

(** [e_flags]: the machine *)
Definition e_flags_mips_mach : constants :=
  [("EF_MIPS_MACH", 0x00FF0000); ("EF_MIPS_MACH_3900", 0x00810000); ("EF_MIPS_MACH_4010", 0x00820000);
   ("EF_MIPS_MACH_4100", 0x00830000); ("EF_MIPS_MACH_ALLEGREX", 0x00840000);
   ("EF_MIPS_MACH_4650", 0x00850000); ("EF_MIPS_MACH_4120", 0x00870000); ("EF_MIPS_MACH_4111", 0x00880000);
   ("EF_MIPS_MACH_SB1", 0x008a0000); ("EF_MIPS_MACH_OCTEON", 0x008b0000); ("EF_MIPS_MACH_XLR", 0x008c0000);
   ("EF_MIPS_MACH_OCTEON2", 0x008d0000); ("EF_MIPS_MACH_OCTEON3", 0x008e0000);
   ("EF_MIPS_MACH_5400", 0x00910000); ("EF_MIPS_MACH_5900", 0x00920000);
   ("EF_MIPS_MACH_IAMR2", 0x00930000); ("EF_MIPS_MACH_5500", 0x00980000);
   ("EF_MIPS_MACH_9000", 0x00990000); ("EF_MIPS_MACH_LS2E", 0x00A00000); ("EF_MIPS_MACH_LS2F", 0x00A10000);
   ("EF_MIPS_MACH_GS464", 0x00A20000); ("EF_MIPS_MACH_GS464E", 0x00A30000);
   ("EF_MIPS_MACH_GS264E", 0x00A40000)].

(** unofficial names of the architecture levels *)
Definition e_mips_arch : constants :=
  [("E_MIPS_ARCH_1", 0); ("E_MIPS_ARCH_2", 0x10000000); ("E_MIPS_ARCH_3", 0x20000000);
   ("E_MIPS_ARCH_4", 0x30000000); ("E_MIPS_ARCH_5", 0x40000000); ("E_MIPS_ARCH_32", 0x50000000);
   ("E_MIPS_ARCH_64", 0x60000000)].

(** special section indices *)
Definition section_indices_mips : constants :=
  [("SHN_MIPS_ACOMMON", 0xff00); ("SHN_MIPS_TEXT", 0xff01); ("SHN_MIPS_DATA", 0xff02);
   ("SHN_MIPS_SCOMMON", 0xff03); ("SHN_MIPS_SUNDEFINED", 0xff04)].

(** section types *)
Definition sh_type_mips : constants :=
  [("SHT_MIPS_LIBLIST", 0x70000000); ("SHT_MIPS_MSYM", 0x70000001); ("SHT_MIPS_CONFLICT", 0x70000002);
   ("SHT_MIPS_GPTAB", 0x70000003); ("SHT_MIPS_UCODE", 0x70000004); ("SHT_MIPS_DEBUG", 0x70000005);
   ("SHT_MIPS_REGINFO", 0x70000006); ("SHT_MIPS_PACKAGE", 0x70000007); ("SHT_MIPS_PACKSYM", 0x70000008);
   ("SHT_MIPS_RELD", 0x70000009); ("SHT_MIPS_IFACE", 0x7000000b); ("SHT_MIPS_CONTENT", 0x7000000c);
   ("SHT_MIPS_OPTIONS", 0x7000000d); ("SHT_MIPS_SHDR", 0x70000010); ("SHT_MIPS_FDESC", 0x70000011);
   ("SHT_MIPS_EXTSYM", 0x70000012); ("SHT_MIPS_DENSE", 0x70000013); ("SHT_MIPS_PDESC", 0x70000014);
   ("SHT_MIPS_LOCSYM", 0x70000015); ("SHT_MIPS_AUXSYM", 0x70000016); ("SHT_MIPS_OPTSYM", 0x70000017);
   ("SHT_MIPS_LOCSTR", 0x70000018); ("SHT_MIPS_LINE", 0x70000019); ("SHT_MIPS_RFDESC", 0x7000001a);
   ("SHT_MIPS_DELTASYM", 0x7000001b); ("SHT_MIPS_DELTAINST", 0x7000001c);
   ("SHT_MIPS_DELTACLASS", 0x7000001d); ("SHT_MIPS_DWARF", 0x7000001e); ("SHT_MIPS_DELTADECL", 0x7000001f);
   ("SHT_MIPS_SYMBOL_LIB", 0x70000020); ("SHT_MIPS_EVENTS", 0x70000021);
   ("SHT_MIPS_TRANSLATE", 0x70000022); ("SHT_MIPS_PIXIE", 0x70000023); ("SHT_MIPS_XLATE", 0x70000024);
   ("SHT_MIPS_XLATE_DEBUG", 0x70000025); ("SHT_MIPS_WHIRL", 0x70000026);
   ("SHT_MIPS_EH_REGION", 0x70000027); ("SHT_MIPS_XLATE_OLD", 0x70000028);
   ("SHT_MIPS_PDR_EXCEPTION", 0x70000029); ("SHT_MIPS_ABIFLAGS", 0x7000002a);
   ("SHT_MIPS_XHASH", 0x7000002b)].

(** section flags *)
Definition sh_flags_mips : constants :=
  [("SHF_MIPS_GPREL", 0x10000000); ("SHF_MIPS_MERGE", 0x20000000); ("SHF_MIPS_ADDR", 0x40000000);
   ("SHF_MIPS_STRINGS", 0x80000000); ("SHF_MIPS_NOSTRIP", 0x08000000); ("SHF_MIPS_LOCAL", 0x04000000);
   ("SHF_MIPS_NAMES", 0x02000000); ("SHF_MIPS_NODUPE", 0x01000000)].

(** [st_other] *)
Definition st_other_mips : constants :=
  [("STO_MIPS_DEFAULT", 0x0); ("STO_MIPS_INTERNAL", 0x1); ("STO_MIPS_HIDDEN", 0x2);
   ("STO_MIPS_PROTECTED", 0x3); ("STO_MIPS_PLT", 0x8); ("STO_MIPS_SC_ALIGN_UNUSED", 0xff)].

(** symbol bindings *)
Definition st_bind_mips : constants :=
  [("STB_MIPS_SPLIT_COMMON", 13)].

(** an entry of a section of type SHT_MIPS_GPTAB: a union, the first member for the first
    entry and the second for the others *)
Definition Elf32_gptab : list (string * struct) :=
  [("gt_header", [("gt_current_g_value", Elf32_Word, 1); ("gt_unused", Elf32_Word, 1)]);
   ("gt_entry", [("gt_g_value", Elf32_Word, 1); ("gt_bytes", Elf32_Word, 1)])].

(** registers used, an option and a patch for it *)
Definition Elf32_RegInfo : struct :=
  [("ri_gprmask", Elf32_Word, 1); ("ri_cprmask", Elf32_Word, 4); ("ri_gp_value", Elf32_Sword, 1)].

Definition Elf_Options : struct :=
  [("kind", uchar, 1); ("size", uchar, 1); ("section", Elf32_Section, 1); ("info", Elf32_Word, 1)].

Definition Elf_Options_Hw : struct := [("hwp_flags1", Elf32_Word, 1); ("hwp_flags2", Elf32_Word, 1)].

(** [kind] of an option *)
Definition odk_constants : constants :=
  [("ODK_NULL", 0); ("ODK_REGINFO", 1); ("ODK_EXCEPTIONS", 2); ("ODK_PAD", 3); ("ODK_HWPATCH", 4);
   ("ODK_FILL", 5); ("ODK_TAGS", 6); ("ODK_HWAND", 7); ("ODK_HWOR", 8)].

(** [info] of an option on exceptions *)
Definition oex_constants : constants :=
  [("OEX_FPU_MIN", 0x1f); ("OEX_FPU_MAX", 0x1f00); ("OEX_PAGE0", 0x10000); ("OEX_SMM", 0x20000);
   ("OEX_FPDBUG", 0x40000); ("OEX_PRECISEFP", 0x40000); ("OEX_DISMISS", 0x80000); ("OEX_FPU_INVAL", 0x10);
   ("OEX_FPU_DIV0", 0x08); ("OEX_FPU_OFLO", 0x04); ("OEX_FPU_UFLO", 0x02); ("OEX_FPU_INEX", 0x01)].

(** masks for [info] of a hardware patch and of padding *)
Definition ohw_constants : constants :=
  [("OHW_R4KEOP", 0x1); ("OHW_R8KPFETCH", 0x2); ("OHW_R5KEOP", 0x4); ("OHW_R5KCVTL", 0x8);
   ("OPAD_PREFIX", 0x1); ("OPAD_POSTFIX", 0x2); ("OPAD_SYMBOL", 0x4)].

(** masks for [info] of hardware options to combine *)
Definition ohwa_constants : constants :=
  [("OHWA0_R4KEOP_CHECKED", 0x00000001); ("OHWA1_R4KEOP_CLEAN", 0x00000002)].

(** segment types *)
Definition p_type_mips : constants :=
  [("PT_MIPS_REGINFO", 0x70000000); ("PT_MIPS_RTPROC", 0x70000001); ("PT_MIPS_OPTIONS", 0x70000002);
   ("PT_MIPS_ABIFLAGS", 0x70000003)].

(** segment flags *)
Definition p_flags_mips : constants :=
  [("PF_MIPS_LOCAL", 0x10000000)].

(** dynamic entries *)
Definition d_tag_mips : constants :=
  [("DT_MIPS_RLD_VERSION", 0x70000001); ("DT_MIPS_TIME_STAMP", 0x70000002);
   ("DT_MIPS_ICHECKSUM", 0x70000003); ("DT_MIPS_IVERSION", 0x70000004); ("DT_MIPS_FLAGS", 0x70000005);
   ("DT_MIPS_BASE_ADDRESS", 0x70000006); ("DT_MIPS_MSYM", 0x70000007); ("DT_MIPS_CONFLICT", 0x70000008);
   ("DT_MIPS_LIBLIST", 0x70000009); ("DT_MIPS_LOCAL_GOTNO", 0x7000000a);
   ("DT_MIPS_CONFLICTNO", 0x7000000b); ("DT_MIPS_LIBLISTNO", 0x70000010); ("DT_MIPS_SYMTABNO", 0x70000011);
   ("DT_MIPS_UNREFEXTNO", 0x70000012); ("DT_MIPS_GOTSYM", 0x70000013); ("DT_MIPS_HIPAGENO", 0x70000014);
   ("DT_MIPS_RLD_MAP", 0x70000016); ("DT_MIPS_DELTA_CLASS", 0x70000017);
   ("DT_MIPS_DELTA_CLASS_NO", 0x70000018); ("DT_MIPS_DELTA_INSTANCE", 0x70000019);
   ("DT_MIPS_DELTA_INSTANCE_NO", 0x7000001a); ("DT_MIPS_DELTA_RELOC", 0x7000001b);
   ("DT_MIPS_DELTA_RELOC_NO", 0x7000001c); ("DT_MIPS_DELTA_SYM", 0x7000001d);
   ("DT_MIPS_DELTA_SYM_NO", 0x7000001e); ("DT_MIPS_DELTA_CLASSSYM", 0x70000020);
   ("DT_MIPS_DELTA_CLASSSYM_NO", 0x70000021); ("DT_MIPS_CXX_FLAGS", 0x70000022);
   ("DT_MIPS_PIXIE_INIT", 0x70000023); ("DT_MIPS_SYMBOL_LIB", 0x70000024);
   ("DT_MIPS_LOCALPAGE_GOTIDX", 0x70000025); ("DT_MIPS_LOCAL_GOTIDX", 0x70000026);
   ("DT_MIPS_HIDDEN_GOTIDX", 0x70000027); ("DT_MIPS_PROTECTED_GOTIDX", 0x70000028);
   ("DT_MIPS_OPTIONS", 0x70000029); ("DT_MIPS_INTERFACE", 0x7000002a);
   ("DT_MIPS_DYNSTR_ALIGN", 0x7000002b); ("DT_MIPS_INTERFACE_SIZE", 0x7000002c);
   ("DT_MIPS_RLD_TEXT_RESOLVE_ADDR", 0x7000002d); ("DT_MIPS_PERF_SUFFIX", 0x7000002e);
   ("DT_MIPS_COMPACT_SIZE", 0x7000002f); ("DT_MIPS_GP_VALUE", 0x70000030);
   ("DT_MIPS_AUX_DYNAMIC", 0x70000031); ("DT_MIPS_PLTGOT", 0x70000032); ("DT_MIPS_RWPLT", 0x70000034);
   ("DT_MIPS_RLD_MAP_REL", 0x70000035); ("DT_MIPS_XHASH", 0x70000036); ("DT_MIPS_NUM", 0x37)].

(** the flags of the dynamic entry DT_MIPS_FLAGS *)
Definition rhf_constants : constants :=
  [("RHF_NONE", 0); ("RHF_QUICKSTART", Z.shiftl 1 0); ("RHF_NOTPOT", Z.shiftl 1 1);
   ("RHF_NO_LIBRARY_REPLACEMENT", Z.shiftl 1 2); ("RHF_NO_MOVE", Z.shiftl 1 3);
   ("RHF_SGI_ONLY", Z.shiftl 1 4); ("RHF_GUARANTEE_INIT", Z.shiftl 1 5);
   ("RHF_DELTA_C_PLUS_PLUS", Z.shiftl 1 6); ("RHF_GUARANTEE_START_INIT", Z.shiftl 1 7);
   ("RHF_PIXIE", Z.shiftl 1 8); ("RHF_DEFAULT_DELAY_LOAD", Z.shiftl 1 9);
   ("RHF_REQUICKSTART", Z.shiftl 1 10); ("RHF_REQUICKSTARTED", Z.shiftl 1 11); ("RHF_CORD", Z.shiftl 1 12);
   ("RHF_NO_UNRES_UNDEF", Z.shiftl 1 13); ("RHF_RLD_ORDER_SAFE", Z.shiftl 1 14)].

(** an entry of a list of libraries *)
Definition Elf32_Lib : struct :=
  [("l_name", Elf32_Word, 1); ("l_time_stamp", Elf32_Word, 1); ("l_checksum", Elf32_Word, 1);
   ("l_version", Elf32_Word, 1); ("l_flags", Elf32_Word, 1)].

Definition Elf64_Lib : struct :=
  [("l_name", Elf64_Word, 1); ("l_time_stamp", Elf64_Word, 1); ("l_checksum", Elf64_Word, 1);
   ("l_version", Elf64_Word, 1); ("l_flags", Elf64_Word, 1)].

(** [l_flags] *)
Definition ll_constants : constants :=
  [("LL_NONE", 0); ("LL_EXACT_MATCH", Z.shiftl 1 0); ("LL_IGNORE_INT_VER", Z.shiftl 1 1);
   ("LL_REQUIRE_MINOR", Z.shiftl 1 2); ("LL_EXPORTS", Z.shiftl 1 3); ("LL_DELAY_LOAD", Z.shiftl 1 4);
   ("LL_DELTA", Z.shiftl 1 5)].

Definition Elf32_Conflict : cint := Elf32_Addr.

(** the flags of the ABI *)
Definition Elf_MIPS_ABIFlags_v0 : struct :=
  [("version", Elf32_Half, 1); ("isa_level", uchar, 1); ("isa_rev", uchar, 1);
   ("gpr_size", uchar, 1); ("cpr1_size", uchar, 1); ("cpr2_size", uchar, 1);
   ("fp_abi", uchar, 1); ("isa_ext", Elf32_Word, 1); ("ases", Elf32_Word, 1); ("flags1", Elf32_Word, 1);
   ("flags2", Elf32_Word, 1)].

(** register sizes *)
Definition afl_reg_constants : constants :=
  [("MIPS_AFL_REG_NONE", 0x00); ("MIPS_AFL_REG_32", 0x01); ("MIPS_AFL_REG_64", 0x02);
   ("MIPS_AFL_REG_128", 0x03)].

(** [ases] *)
Definition afl_ase_constants : constants :=
  [("MIPS_AFL_ASE_DSP", 0x00000001); ("MIPS_AFL_ASE_DSPR2", 0x00000002); ("MIPS_AFL_ASE_EVA", 0x00000004);
   ("MIPS_AFL_ASE_MCU", 0x00000008); ("MIPS_AFL_ASE_MDMX", 0x00000010);
   ("MIPS_AFL_ASE_MIPS3D", 0x00000020); ("MIPS_AFL_ASE_MT", 0x00000040);
   ("MIPS_AFL_ASE_SMARTMIPS", 0x00000080); ("MIPS_AFL_ASE_VIRT", 0x00000100);
   ("MIPS_AFL_ASE_MSA", 0x00000200); ("MIPS_AFL_ASE_MIPS16", 0x00000400);
   ("MIPS_AFL_ASE_MICROMIPS", 0x00000800); ("MIPS_AFL_ASE_XPA", 0x00001000);
   ("MIPS_AFL_ASE_MASK", 0x00001fff)].

(** [isa_ext] *)
Definition afl_ext_constants : constants :=
  [("MIPS_AFL_EXT_XLR", 1); ("MIPS_AFL_EXT_OCTEON2", 2); ("MIPS_AFL_EXT_OCTEONP", 3);
   ("MIPS_AFL_EXT_LOONGSON_3A", 4); ("MIPS_AFL_EXT_OCTEON", 5); ("MIPS_AFL_EXT_5900", 6);
   ("MIPS_AFL_EXT_4650", 7); ("MIPS_AFL_EXT_4010", 8); ("MIPS_AFL_EXT_4100", 9); ("MIPS_AFL_EXT_3900", 10);
   ("MIPS_AFL_EXT_10000", 11); ("MIPS_AFL_EXT_SB1", 12); ("MIPS_AFL_EXT_4111", 13);
   ("MIPS_AFL_EXT_4120", 14); ("MIPS_AFL_EXT_5400", 15); ("MIPS_AFL_EXT_5500", 16);
   ("MIPS_AFL_EXT_LOONGSON_2E", 17); ("MIPS_AFL_EXT_LOONGSON_2F", 18)].

(** [flags1] *)
Definition afl_flags1_constants : constants :=
  [("MIPS_AFL_FLAGS1_ODDSPREG", 1)].

(** [fp_abi] *)
Definition val_gnu_mips_abi_fp : constants :=
  [("Val_GNU_MIPS_ABI_FP_ANY", 0); ("Val_GNU_MIPS_ABI_FP_DOUBLE", 1); ("Val_GNU_MIPS_ABI_FP_SINGLE", 2);
   ("Val_GNU_MIPS_ABI_FP_SOFT", 3); ("Val_GNU_MIPS_ABI_FP_OLD_64", 4); ("Val_GNU_MIPS_ABI_FP_XX", 5);
   ("Val_GNU_MIPS_ABI_FP_64", 6); ("Val_GNU_MIPS_ABI_FP_64A", 7); ("Val_GNU_MIPS_ABI_FP_MAX", 7)].

(** ** HP PA-RISC and Alpha *)

(** [e_flags] of the PA-RISC *)
Definition e_flags_parisc : constants :=
  [("EF_PARISC_TRAPNIL", 0x00010000); ("EF_PARISC_EXT", 0x00020000); ("EF_PARISC_LSB", 0x00040000);
   ("EF_PARISC_WIDE", 0x00080000); ("EF_PARISC_NO_KABP", 0x00100000); ("EF_PARISC_LAZYSWAP", 0x00400000);
   ("EF_PARISC_ARCH", 0x0000ffff)].

(** [e_flags]: architecture version *)
Definition e_flags_parisc_arch : constants :=
  [("EFA_PARISC_1_0", 0x020b); ("EFA_PARISC_1_1", 0x0210); ("EFA_PARISC_2_0", 0x0214)].

(** special section indices *)
Definition section_indices_parisc : constants :=
  [("SHN_PARISC_ANSI_COMMON", 0xff00); ("SHN_PARISC_HUGE_COMMON", 0xff01)].

(** section types *)
Definition sh_type_parisc : constants :=
  [("SHT_PARISC_EXT", 0x70000000); ("SHT_PARISC_UNWIND", 0x70000001); ("SHT_PARISC_DOC", 0x70000002)].

(** section flags *)
Definition sh_flags_parisc : constants :=
  [("SHF_PARISC_SHORT", 0x20000000); ("SHF_PARISC_HUGE", 0x40000000); ("SHF_PARISC_SBP", 0x80000000)].

(** symbol types *)
Definition st_type_parisc : constants :=
  [("STT_PARISC_MILLICODE", 13); ("STT_HP_OPAQUE", 0xa + 0x1); ("STT_HP_STUB", 0xa + 0x2)].

(** segment types *)
Definition p_type_parisc : constants :=
  [("PT_HP_TLS", 0x60000000 + 0x0); ("PT_HP_CORE_NONE", 0x60000000 + 0x1);
   ("PT_HP_CORE_VERSION", 0x60000000 + 0x2); ("PT_HP_CORE_KERNEL", 0x60000000 + 0x3);
   ("PT_HP_CORE_COMM", 0x60000000 + 0x4); ("PT_HP_CORE_PROC", 0x60000000 + 0x5);
   ("PT_HP_CORE_LOADABLE", 0x60000000 + 0x6); ("PT_HP_CORE_STACK", 0x60000000 + 0x7);
   ("PT_HP_CORE_SHM", 0x60000000 + 0x8); ("PT_HP_CORE_MMF", 0x60000000 + 0x9);
   ("PT_HP_PARALLEL", 0x60000000 + 0x10); ("PT_HP_FASTBIND", 0x60000000 + 0x11);
   ("PT_HP_OPT_ANNOT", 0x60000000 + 0x12); ("PT_HP_HSL_ANNOT", 0x60000000 + 0x13);
   ("PT_HP_STACK", 0x60000000 + 0x14); ("PT_PARISC_ARCHEXT", 0x70000000); ("PT_PARISC_UNWIND", 0x70000001)].

(** segment flags *)
Definition p_flags_parisc : constants :=
  [("PF_PARISC_SBP", 0x08000000); ("PF_HP_PAGE_SIZE", 0x00100000); ("PF_HP_FAR_SHARED", 0x00200000);
   ("PF_HP_NEAR_SHARED", 0x00400000); ("PF_HP_CODE", 0x01000000); ("PF_HP_MODIFY", 0x02000000);
   ("PF_HP_LAZYSWAP", 0x04000000); ("PF_HP_SBP", 0x08000000)].

(** [e_flags] of the Alpha *)
Definition e_flags_alpha : constants :=
  [("EF_ALPHA_32BIT", 1); ("EF_ALPHA_CANRELAX", 2)].

(** section types *)
Definition sh_type_alpha : constants :=
  [("SHT_ALPHA_DEBUG", 0x70000001); ("SHT_ALPHA_REGINFO", 0x70000002)].

(** section flags *)
Definition sh_flags_alpha : constants :=
  [("SHF_ALPHA_GPREL", 0x10000000)].

(** [st_other] *)
Definition st_other_alpha : constants :=
  [("STO_ALPHA_NOPV", 0x80); ("STO_ALPHA_STD_GPLOAD", 0x88)].

(** addends of the relocation LITUSE *)
Definition lituse_alpha : constants :=
  [("LITUSE_ALPHA_ADDR", 0); ("LITUSE_ALPHA_BASE", 1); ("LITUSE_ALPHA_BYTOFF", 2); ("LITUSE_ALPHA_JSR", 3);
   ("LITUSE_ALPHA_TLS_GD", 4); ("LITUSE_ALPHA_TLS_LDM", 5)].

(** dynamic entries *)
Definition d_tag_alpha : constants :=
  [("DT_ALPHA_PLTRO", 0x70000000 + 0); ("DT_ALPHA_NUM", 1)].

(** ** PowerPC *)

(** [e_flags] of the PowerPC *)
Definition e_flags_ppc : constants :=
  [("EF_PPC_EMB", 0x80000000); ("EF_PPC_RELOCATABLE", 0x00010000); ("EF_PPC_RELOCATABLE_LIB", 0x00008000)].

(** dynamic entries *)
Definition d_tag_ppc : constants :=
  [("DT_PPC_GOT", 0x70000000 + 0); ("DT_PPC_OPT", 0x70000000 + 1); ("DT_PPC_NUM", 2)].

(** the entry DT_PPC_OPT *)
Definition dt_ppc_opt : constants :=
  [("PPC_OPT_TLS", 1)].

(** [e_flags] of the PowerPC64 *)
Definition e_flags_ppc64 : constants :=
  [("EF_PPC64_ABI", 3)].

(** dynamic entries *)
Definition d_tag_ppc64 : constants :=
  [("DT_PPC64_GLINK", 0x70000000 + 0); ("DT_PPC64_OPD", 0x70000000 + 1);
   ("DT_PPC64_OPDSZ", 0x70000000 + 2); ("DT_PPC64_OPT", 0x70000000 + 3); ("DT_PPC64_NUM", 4)].

(** the entry DT_PPC64_OPT *)
Definition dt_ppc64_opt : constants :=
  [("PPC64_OPT_TLS", 1); ("PPC64_OPT_MULTI_TOC", 2); ("PPC64_OPT_LOCALENTRY", 4)].

(** [st_other] *)
Definition st_other_ppc64 : constants :=
  [("STO_PPC64_LOCAL_BIT", 5); ("STO_PPC64_LOCAL_MASK", Z.shiftl 7 5)].

(** the distance of the local entry point, from [st_other] *)
Definition PPC64_LOCAL_ENTRY_OFFSET (other : Z) : Z :=
  Z.shiftl (Z.shiftr (Z.shiftl 1 (Z.shiftr (Z.land other (Z.shiftl 7 5)) 5)) 2) 2.

(** ** ARM *)

(** [e_flags] of the ARM *)
Definition e_flags_arm : constants :=
  [("EF_ARM_RELEXEC", 0x01); ("EF_ARM_HASENTRY", 0x02); ("EF_ARM_INTERWORK", 0x04);
   ("EF_ARM_APCS_26", 0x08); ("EF_ARM_APCS_FLOAT", 0x10); ("EF_ARM_PIC", 0x20); ("EF_ARM_ALIGN8", 0x40);
   ("EF_ARM_NEW_ABI", 0x80); ("EF_ARM_OLD_ABI", 0x100); ("EF_ARM_SOFT_FLOAT", 0x200);
   ("EF_ARM_VFP_FLOAT", 0x400); ("EF_ARM_MAVERICK_FLOAT", 0x800); ("EF_ARM_ABI_FLOAT_SOFT", 0x200);
   ("EF_ARM_ABI_FLOAT_HARD", 0x400)].

(** [e_flags], by the ARM ELF specification *)
Definition e_flags_arm_elf : constants :=
  [("EF_ARM_SYMSARESORTED", 0x04); ("EF_ARM_DYNSYMSUSESEGIDX", 0x08); ("EF_ARM_MAPSYMSFIRST", 0x10);
   ("EF_ARM_EABIMASK", 0xFF000000)].

(** [e_flags]: byte order of the code *)
Definition e_flags_arm_be : constants :=
  [("EF_ARM_BE8", 0x00800000); ("EF_ARM_LE8", 0x00400000)].

(** [e_flags]: the version of the EABI *)
Definition EF_ARM_EABI_VERSION (flags : Z) : Z := Z.land flags 0xFF000000.

(** versions of the EABI *)
Definition e_flags_arm_eabi : constants :=
  [("EF_ARM_EABI_UNKNOWN", 0x00000000); ("EF_ARM_EABI_VER1", 0x01000000); ("EF_ARM_EABI_VER2", 0x02000000);
   ("EF_ARM_EABI_VER3", 0x03000000); ("EF_ARM_EABI_VER4", 0x04000000); ("EF_ARM_EABI_VER5", 0x05000000)].

(** symbol types of Thumb *)
Definition st_type_arm : constants :=
  [("STT_ARM_TFUNC", 13); ("STT_ARM_16BIT", 15)].

(** section flags *)
Definition sh_flags_arm : constants :=
  [("SHF_ARM_ENTRYSECT", 0x10000000); ("SHF_ARM_COMDEF", 0x80000000)].

(** segment flags *)
Definition p_flags_arm : constants :=
  [("PF_ARM_SB", 0x10000000); ("PF_ARM_PI", 0x20000000); ("PF_ARM_ABS", 0x40000000)].

(** segment types *)
Definition p_type_arm : constants :=
  [("PT_ARM_EXIDX", 0x70000000 + 1)].

(** section types *)
Definition sh_type_arm : constants :=
  [("SHT_ARM_EXIDX", 0x70000000 + 1); ("SHT_ARM_PREEMPTMAP", 0x70000000 + 2);
   ("SHT_ARM_ATTRIBUTES", 0x70000000 + 3)].

(** segment types of the AArch64 *)
Definition p_type_aarch64 : constants :=
  [("PT_AARCH64_MEMTAG_MTE", 0x70000000 + 2)].

(** dynamic entries *)
Definition d_tag_aarch64 : constants :=
  [("DT_AARCH64_BTI_PLT", 0x70000000 + 1); ("DT_AARCH64_PAC_PLT", 0x70000000 + 3);
   ("DT_AARCH64_VARIANT_PCS", 0x70000000 + 5); ("DT_AARCH64_NUM", 6)].

(** [st_other] *)
Definition st_other_aarch64 : constants :=
  [("STO_AARCH64_VARIANT_PCS", 0x80)].

(** ** C-SKY, IA-64, SuperH, S/390, x86-64, Nios II *)

(** [e_flags] of the C-SKY *)
Definition e_flags_csky : constants :=
  [("EF_CSKY_ABIMASK", 0xF0000000); ("EF_CSKY_OTHER", 0x0FFF0000); ("EF_CSKY_PROCESSOR", 0x0000FFFF);
   ("EF_CSKY_ABIV1", 0x10000000); ("EF_CSKY_ABIV2", 0x20000000)].

(** section types *)
Definition sh_type_csky : constants :=
  [("SHT_CSKY_ATTRIBUTES", 0x70000000 + 1)].

(** [e_flags] of the IA-64 *)
Definition e_flags_ia64 : constants :=
  [("EF_IA_64_MASKOS", 0x0000000f); ("EF_IA_64_ABI64", 0x00000010); ("EF_IA_64_ARCH", 0xff000000)].

(** segment types *)
Definition p_type_ia64 : constants :=
  [("PT_IA_64_ARCHEXT", 0x70000000 + 0); ("PT_IA_64_UNWIND", 0x70000000 + 1);
   ("PT_IA_64_HP_OPT_ANOT", 0x60000000 + 0x12); ("PT_IA_64_HP_HSL_ANOT", 0x60000000 + 0x13);
   ("PT_IA_64_HP_STACK", 0x60000000 + 0x14)].

(** segment flags *)
Definition p_flags_ia64 : constants :=
  [("PF_IA_64_NORECOV", 0x80000000)].

(** section types *)
Definition sh_type_ia64 : constants :=
  [("SHT_IA_64_EXT", 0x70000000 + 0); ("SHT_IA_64_UNWIND", 0x70000000 + 1)].

(** section flags *)
Definition sh_flags_ia64 : constants :=
  [("SHF_IA_64_SHORT", 0x10000000); ("SHF_IA_64_NORECOV", 0x20000000)].

(** dynamic entries *)
Definition d_tag_ia64 : constants :=
  [("DT_IA_64_PLT_RESERVE", 0x70000000 + 0); ("DT_IA_64_NUM", 1)].

(** [e_flags] of the SuperH *)
Definition e_flags_sh : constants :=
  [("EF_SH_MACH_MASK", 0x1f); ("EF_SH_UNKNOWN", 0x0); ("EF_SH1", 0x1); ("EF_SH2", 0x2); ("EF_SH3", 0x3);
   ("EF_SH_DSP", 0x4); ("EF_SH3_DSP", 0x5); ("EF_SH4AL_DSP", 0x6); ("EF_SH3E", 0x8); ("EF_SH4", 0x9);
   ("EF_SH2E", 0xb); ("EF_SH4A", 0xc); ("EF_SH2A", 0xd); ("EF_SH4_NOFPU", 0x10); ("EF_SH4A_NOFPU", 0x11);
   ("EF_SH4_NOMMU_NOFPU", 0x12); ("EF_SH2A_NOFPU", 0x13); ("EF_SH3_NOMMU", 0x14);
   ("EF_SH2A_SH4_NOFPU", 0x15); ("EF_SH2A_SH3_NOFPU", 0x16); ("EF_SH2A_SH4", 0x17); ("EF_SH2A_SH3E", 0x18)].

(** [e_flags] of the S/390 *)
Definition e_flags_s390 : constants :=
  [("EF_S390_HIGH_GPRS", 0x00000001)].

(** section types of x86-64 *)
Definition sh_type_x86_64 : constants :=
  [("SHT_X86_64_UNWIND", 0x70000001)].

(** dynamic entries *)
Definition d_tag_x86_64 : constants :=
  [("DT_X86_64_PLT", 0x70000000 + 0); ("DT_X86_64_PLTSZ", 0x70000000 + 1);
   ("DT_X86_64_PLTENT", 0x70000000 + 3); ("DT_X86_64_NUM", 4)].

(** dynamic entries of the Nios II *)
Definition d_tag_nios2 : constants :=
  [("DT_NIOS2_GP", 0x70000002)].

(** ** RISC-V, LoongArch, ARC *)

(** [e_flags] of the RISC-V *)
Definition e_flags_riscv : constants :=
  [("EF_RISCV_RVC", 0x0001); ("EF_RISCV_FLOAT_ABI", 0x0006); ("EF_RISCV_FLOAT_ABI_SOFT", 0x0000);
   ("EF_RISCV_FLOAT_ABI_SINGLE", 0x0002); ("EF_RISCV_FLOAT_ABI_DOUBLE", 0x0004);
   ("EF_RISCV_FLOAT_ABI_QUAD", 0x0006); ("EF_RISCV_RVE", 0x0008); ("EF_RISCV_TSO", 0x0010)].

(** [st_other] *)
Definition st_other_riscv : constants :=
  [("STO_RISCV_VARIANT_CC", 0x80)].

(** section types *)
Definition sh_type_riscv : constants :=
  [("SHT_RISCV_ATTRIBUTES", 0x70000000 + 3)].

(** segment types *)
Definition p_type_riscv : constants :=
  [("PT_RISCV_ATTRIBUTES", 0x70000000 + 3)].

(** dynamic entries *)
Definition d_tag_riscv : constants :=
  [("DT_RISCV_VARIANT_CC", 0x70000000 + 1)].

(** [e_flags] of the LoongArch *)
Definition e_flags_loongarch : constants :=
  [("EF_LARCH_ABI_MODIFIER_MASK", 0x07); ("EF_LARCH_ABI_SOFT_FLOAT", 0x01);
   ("EF_LARCH_ABI_SINGLE_FLOAT", 0x02); ("EF_LARCH_ABI_DOUBLE_FLOAT", 0x03); ("EF_LARCH_OBJABI_V1", 0x40)].

(** [e_flags] of the ARC *)
Definition e_flags_arc : constants :=
  [("EF_ARC_MACH_MSK", 0x000000ff); ("EF_ARC_OSABI_MSK", 0x00000f00); ("EF_ARC_ALL_MSK", Z.lor 0xff 0xf00)].

(** section types *)
Definition sh_type_arc : constants :=
  [("SHT_ARC_ATTRIBUTES", 0x70000000 + 1)].

(** ** What the ABI reserves *)

(** the constants of one field, with the generic tables they extend: the numbers of a
    processor lie between the bounds the format reserves for processors, or, for the
    operating system HP-UX, between those for systems *)
Definition between (t : constants) (lo hi : string) (v : Z) : bool := (value_of t lo <=? v) && (v <=? value_of t hi).

Definition numbers (reserved : Z -> bool) (t : constants) : bool :=
  forallb (fun c => String.eqb (String.substring (String.length c.1 - 4) 4 c.1) "_NUM" || reserved c.2) t.

Definition reserved_types : list ((Z -> bool) * list constants) :=
  [(between sh_type_constants "SHT_LOPROC" "SHT_HIPROC",
    [sh_type_mips; sh_type_parisc; sh_type_alpha; sh_type_arm; sh_type_csky; sh_type_ia64; sh_type_x86_64; sh_type_riscv;
     sh_type_arc]);
   (between section_indices "SHN_LOPROC" "SHN_HIPROC", [section_indices_mips; section_indices_parisc]);
   (between st_type_constants "STT_LOPROC" "STT_HIPROC", [st_type_sparc; st_type_arm]);
   (between st_bind_constants "STB_LOPROC" "STB_HIPROC", [st_bind_mips]);
   (between p_type_constants "PT_LOPROC" "PT_HIPROC", [p_type_mips; p_type_arm; p_type_aarch64; p_type_riscv]);
   (fun v => between st_type_constants "STT_LOPROC" "STT_HIPROC" v || between st_type_constants "STT_LOOS" "STT_HIOS" v, [st_type_parisc]);
   (fun v => between p_type_constants "PT_LOPROC" "PT_HIPROC" v || between p_type_constants "PT_LOOS" "PT_HIOS" v,
    [p_type_parisc; p_type_ia64]);
   (between d_tag_constants "DT_LOPROC" "DT_HIPROC",
    [d_tag_sparc; d_tag_mips; d_tag_alpha; d_tag_ppc; d_tag_ppc64; d_tag_aarch64; d_tag_ia64; d_tag_x86_64; d_tag_nios2;
     d_tag_riscv])].

(** flags of MIPS sections and of HP-UX segments that the mask for processors does not cover *)
Definition outside_mask : list string :=
  ["SHF_MIPS_NOSTRIP"; "SHF_MIPS_LOCAL"; "SHF_MIPS_NAMES"; "SHF_MIPS_NODUPE"; "PF_PARISC_SBP"; "PF_HP_PAGE_SIZE"; "PF_HP_FAR_SHARED";
   "PF_HP_NEAR_SHARED"; "PF_HP_CODE"; "PF_HP_MODIFY"; "PF_HP_LAZYSWAP"; "PF_HP_SBP"].

(** flags under the mask of their field, and those that are not *)
Definition under (mask : Z) (t : constants) : bool :=
  forallb (fun c => Bool.eqb (Z.land c.2 mask =? c.2) (negb (existsb (String.eqb c.1) outside_mask))) t.

Definition masked_fields : list (Z * constants) :=
  [(value_of sh_flags_constants "SHF_MASKPROC", sh_flags_mips); (value_of p_flags_constants "PF_MASKPROC", p_flags_parisc);
   (value_of sh_flags_constants "SHF_MASKPROC", sh_flags_parisc); (value_of sh_flags_constants "SHF_MASKPROC", sh_flags_alpha);
   (value_of sh_flags_constants "SHF_MASKPROC", sh_flags_arm); (value_of sh_flags_constants "SHF_MASKPROC", sh_flags_ia64);
   (value_of p_flags_constants "PF_MASKPROC", p_flags_mips); (value_of p_flags_constants "PF_MASKPROC", p_flags_arm);
   (value_of p_flags_constants "PF_MASKPROC", p_flags_ia64);
   (value_of e_flags_mips "EF_MIPS_ARCH", e_flags_mips_arch); (value_of e_flags_mips_abi "EF_MIPS_ABI", e_flags_mips_abi);
   (value_of e_flags_mips_mach "EF_MIPS_MACH", e_flags_mips_mach); (value_of e_flags_parisc "EF_PARISC_ARCH", e_flags_parisc_arch);
   (value_of e_flags_arm_elf "EF_ARM_EABIMASK", e_flags_arm_eabi); (value_of e_flags_sh "EF_SH_MACH_MASK", e_flags_sh);
   (value_of afl_ase_constants "MIPS_AFL_ASE_MASK", afl_ase_constants)].

Lemma reserved_numbers :
  forallb (fun x => forallb (numbers x.1) x.2) reserved_types = true /\ forallb (fun x => under x.1 x.2) masked_fields = true.
Proof. by vm_compute. Qed.

(** the numbers the processors add to the types of sections, segments, symbols and
    dynamic entries lie in the ranges reserved for processors (and HP-UX); their flags and
    versions lie under the mask of their field, except for the twelve of [outside_mask],
    which do not; the version of the ARM EABI is read back from any flags with it, and
    [PPC64_LOCAL_ENTRY_OFFSET] is 0 or the power of two that the three bits encode. *)
Theorem processor_constants_reserved :
  (forall r ts t name v, (r, ts) ∈ reserved_types -> t ∈ ts -> (name, v) ∈ t ->
     String.substring (String.length name - 4) 4 name <> "_NUM" -> r v = true) /\
  (forall mask t name v, (mask, t) ∈ masked_fields -> (name, v) ∈ t ->
     Z.land v mask = v <-> existsb (String.eqb name) outside_mask = false) /\
  (forall name v flags, (name, v) ∈ e_flags_arm_eabi -> 0 <= flags < 2 ^ 24 -> EF_ARM_EABI_VERSION (v + flags) = v) /\
  (forall bits low, 0 <= bits < 8 -> 0 <= low < 32 ->
     PPC64_LOCAL_ENTRY_OFFSET (32 * bits + low) = if bits <=? 1 then 0 else 2 ^ bits).
Proof.
  destruct reserved_numbers as [Hr Hm]. rewrite forallb_forall in Hr, Hm. split_and!.
  - intros r ts t name v Hx Ht Hc Hn. apply list_elem_of_In, Hr in Hx. rewrite forallb_forall in Hx.
    apply list_elem_of_In, Hx in Ht. unfold numbers in Ht. rewrite forallb_forall in Ht. apply list_elem_of_In, Ht in Hc.
    apply orb_prop in Hc as [Hc|Hc]; [|done]. by apply String.eqb_eq in Hc.
  - intros mask t name v Hx Hc. apply list_elem_of_In, Hm in Hx. unfold under in Hx. rewrite forallb_forall in Hx.
    apply list_elem_of_In, Hx, eqb_prop in Hc. cbn [fst snd] in Hc. rewrite <- Z.eqb_eq, Hc. apply negb_true_iff.
  - intros name v flags Hv Hf. unfold EF_ARM_EABI_VERSION. change 0xFF000000 with (Z.shiftl (Z.ones 8) 24).
    change (2 ^ 24) with 16777216 in Hf.
    assert (H : forallb (fun c : string * Z => (c.2 mod 16777216 =? 0) && (0 <=? c.2) && (c.2 <? 2 ^ 32)) e_flags_arm_eabi = true) by by vm_compute.
    rewrite forallb_forall in H. apply list_elem_of_In, H in Hv. cbn [snd] in Hv. change (2 ^ 32) with 4294967296 in Hv.
    apply andb_prop in Hv as [Hv H3]. apply andb_prop in Hv as [H1 H2]. rewrite land_field by lia. change (2 ^ 24) with 16777216.
    change (2 ^ 8) with 256. dlia.
  - intros bits low Hb Hl. unfold PPC64_LOCAL_ENTRY_OFFSET. change (Z.shiftl 7 5) with (Z.shiftl (Z.ones 3) 5).
    rewrite land_field by lia. change (2 ^ 5) with 32. change (2 ^ 3) with 8.
    assert ((32 * bits + low) / 32 mod 8 = bits) as -> by dlia. clear Hl.
    assert (bits = 0 \/ bits = 1 \/ bits = 2 \/ bits = 3 \/ bits = 4 \/ bits = 5 \/ bits = 6 \/ bits = 7) as Hc by lia.
    by repeat destruct Hc as [->|Hc]; [..|subst].
Qed.
