(* ===== verification/ElfNotes.v ===== *)
(** elf.h: symbol versions, the auxiliary vector, notes, move records and the
    relocations of the i386: structures and constants the kernel does not use. *)

From stdpp Require Import strings.
From S2P Require Import Prelude ElfConst ElfFormat ElfArch.

(** ** Symbol versions: definitions, dependencies and their auxiliary entries *)

Definition Elf32_Verdef : struct :=
  [("vd_version", Elf32_Half, 1); ("vd_flags", Elf32_Half, 1); ("vd_ndx", Elf32_Half, 1);
   ("vd_cnt", Elf32_Half, 1); ("vd_hash", Elf32_Word, 1); ("vd_aux", Elf32_Word, 1);
   ("vd_next", Elf32_Word, 1)].
Definition Elf64_Verdef : struct :=
  [("vd_version", Elf64_Half, 1); ("vd_flags", Elf64_Half, 1); ("vd_ndx", Elf64_Half, 1);
   ("vd_cnt", Elf64_Half, 1); ("vd_hash", Elf64_Word, 1); ("vd_aux", Elf64_Word, 1);
   ("vd_next", Elf64_Word, 1)].
Definition Elf32_Verdaux : struct :=
  [("vda_name", Elf32_Word, 1); ("vda_next", Elf32_Word, 1)].
Definition Elf64_Verdaux : struct :=
  [("vda_name", Elf64_Word, 1); ("vda_next", Elf64_Word, 1)].
Definition Elf32_Verneed : struct :=
  [("vn_version", Elf32_Half, 1); ("vn_cnt", Elf32_Half, 1); ("vn_file", Elf32_Word, 1);
   ("vn_aux", Elf32_Word, 1); ("vn_next", Elf32_Word, 1)].
Definition Elf64_Verneed : struct :=
  [("vn_version", Elf64_Half, 1); ("vn_cnt", Elf64_Half, 1); ("vn_file", Elf64_Word, 1);
   ("vn_aux", Elf64_Word, 1); ("vn_next", Elf64_Word, 1)].
Definition Elf32_Vernaux : struct :=
  [("vna_hash", Elf32_Word, 1); ("vna_flags", Elf32_Half, 1); ("vna_other", Elf32_Half, 1);
   ("vna_name", Elf32_Word, 1); ("vna_next", Elf32_Word, 1)].
Definition Elf64_Vernaux : struct :=
  [("vna_hash", Elf64_Word, 1); ("vna_flags", Elf64_Half, 1); ("vna_other", Elf64_Half, 1);
   ("vna_name", Elf64_Word, 1); ("vna_next", Elf64_Word, 1)].

(** [vd_version] *)
Definition vd_version_constants : constants :=
  [("VER_DEF_NONE", 0); ("VER_DEF_CURRENT", 1); ("VER_DEF_NUM", 2)].

(** [vd_flags], also [vna_flags] *)
Definition vd_flags_constants : constants :=
  [("VER_FLG_BASE", 0x1); ("VER_FLG_WEAK", 0x2)].

(** indices of a symbol version table *)
Definition versym_constants : constants :=
  [("VER_NDX_LOCAL", 0); ("VER_NDX_GLOBAL", 1); ("VER_NDX_LORESERVE", 0xff00);
   ("VER_NDX_ELIMINATE", 0xff01)].

(** [vn_version] *)
Definition vn_version_constants : constants :=
  [("VER_NEED_NONE", 0); ("VER_NEED_CURRENT", 1); ("VER_NEED_NUM", 2)].

(** ** The auxiliary vector: the union [a_un] has one member *)

Definition Elf32_auxv_t : struct :=
  [("a_type", uint32_t, 1); ("a_val", uint32_t, 1)].
Definition Elf64_auxv_t : struct :=
  [("a_type", uint64_t, 1); ("a_val", uint64_t, 1)].

(** [a_type] *)
Definition a_type_constants : constants :=
  [("AT_NULL", 0); ("AT_IGNORE", 1); ("AT_EXECFD", 2); ("AT_PHDR", 3); ("AT_PHENT", 4); ("AT_PHNUM", 5);
   ("AT_PAGESZ", 6); ("AT_BASE", 7); ("AT_FLAGS", 8); ("AT_ENTRY", 9); ("AT_NOTELF", 10); ("AT_UID", 11);
   ("AT_EUID", 12); ("AT_GID", 13); ("AT_EGID", 14); ("AT_CLKTCK", 17); ("AT_PLATFORM", 15);
   ("AT_HWCAP", 16); ("AT_FPUCW", 18); ("AT_DCACHEBSIZE", 19); ("AT_ICACHEBSIZE", 20);
   ("AT_UCACHEBSIZE", 21); ("AT_IGNOREPPC", 22); ("AT_SECURE", 23); ("AT_BASE_PLATFORM", 24);
   ("AT_RANDOM", 25); ("AT_HWCAP2", 26); ("AT_RSEQ_FEATURE_SIZE", 27); ("AT_RSEQ_ALIGN", 28);
   ("AT_HWCAP3", 29); ("AT_HWCAP4", 30); ("AT_EXECFN", 31); ("AT_SYSINFO", 32); ("AT_SYSINFO_EHDR", 33);
   ("AT_L1I_CACHESHAPE", 34); ("AT_L1D_CACHESHAPE", 35); ("AT_L2_CACHESHAPE", 36);
   ("AT_L3_CACHESHAPE", 37); ("AT_L1I_CACHESIZE", 40); ("AT_L1I_CACHEGEOMETRY", 41);
   ("AT_L1D_CACHESIZE", 42); ("AT_L1D_CACHEGEOMETRY", 43); ("AT_L2_CACHESIZE", 44);
   ("AT_L2_CACHEGEOMETRY", 45); ("AT_L3_CACHESIZE", 46); ("AT_L3_CACHEGEOMETRY", 47);
   ("AT_MINSIGSTKSZ", 51)].

(** ** Notes *)

Definition Elf32_Nhdr : struct :=
  [("n_namesz", Elf32_Word, 1); ("n_descsz", Elf32_Word, 1); ("n_type", Elf32_Word, 1)].
Definition Elf64_Nhdr : struct :=
  [("n_namesz", Elf64_Word, 1); ("n_descsz", Elf64_Word, 1); ("n_type", Elf64_Word, 1)].

(** note types of core files *)
Definition core_note_types : constants :=
  [("NT_PRSTATUS", 1); ("NT_PRFPREG", 2); ("NT_FPREGSET", 2); ("NT_PRPSINFO", 3); ("NT_PRXREG", 4);
   ("NT_TASKSTRUCT", 4); ("NT_PLATFORM", 5); ("NT_AUXV", 6); ("NT_GWINDOWS", 7); ("NT_ASRS", 8);
   ("NT_PSTATUS", 10); ("NT_PSINFO", 13); ("NT_PRCRED", 14); ("NT_UTSNAME", 15); ("NT_LWPSTATUS", 16);
   ("NT_LWPSINFO", 17); ("NT_PRFPXREG", 20); ("NT_SIGINFO", 0x53494749); ("NT_FILE", 0x46494c45);
   ("NT_PRXFPREG", 0x46e62b7f); ("NT_PPC_VMX", 0x100); ("NT_PPC_SPE", 0x101); ("NT_PPC_VSX", 0x102);
   ("NT_PPC_TAR", 0x103); ("NT_PPC_PPR", 0x104); ("NT_PPC_DSCR", 0x105); ("NT_PPC_EBB", 0x106);
   ("NT_PPC_PMU", 0x107); ("NT_PPC_TM_CGPR", 0x108); ("NT_PPC_TM_CFPR", 0x109); ("NT_PPC_TM_CVMX", 0x10a);
   ("NT_PPC_TM_CVSX", 0x10b); ("NT_PPC_TM_SPR", 0x10c); ("NT_PPC_TM_CTAR", 0x10d);
   ("NT_PPC_TM_CPPR", 0x10e); ("NT_PPC_TM_CDSCR", 0x10f); ("NT_PPC_PKEY", 0x110); ("NT_PPC_DEXCR", 0x111);
   ("NT_PPC_HASHKEYR", 0x112); ("NT_386_TLS", 0x200); ("NT_386_IOPERM", 0x201); ("NT_X86_XSTATE", 0x202);
   ("NT_X86_SHSTK", 0x204); ("NT_S390_HIGH_GPRS", 0x300); ("NT_S390_TIMER", 0x301);
   ("NT_S390_TODCMP", 0x302); ("NT_S390_TODPREG", 0x303); ("NT_S390_CTRS", 0x304);
   ("NT_S390_PREFIX", 0x305); ("NT_S390_LAST_BREAK", 0x306); ("NT_S390_SYSTEM_CALL", 0x307);
   ("NT_S390_TDB", 0x308); ("NT_S390_VXRS_LOW", 0x309); ("NT_S390_VXRS_HIGH", 0x30a);
   ("NT_S390_GS_CB", 0x30b); ("NT_S390_GS_BC", 0x30c); ("NT_S390_RI_CB", 0x30d);
   ("NT_S390_PV_CPU_DATA", 0x30e); ("NT_ARM_VFP", 0x400); ("NT_ARM_TLS", 0x401);
   ("NT_ARM_HW_BREAK", 0x402); ("NT_ARM_HW_WATCH", 0x403); ("NT_ARM_SYSTEM_CALL", 0x404);
   ("NT_ARM_SVE", 0x405); ("NT_ARM_PAC_MASK", 0x406); ("NT_ARM_PACA_KEYS", 0x407);
   ("NT_ARM_PACG_KEYS", 0x408); ("NT_ARM_TAGGED_ADDR_CTRL", 0x409); ("NT_ARM_PAC_ENABLED_KEYS", 0x40a);
   ("NT_VMCOREDD", 0x700); ("NT_MIPS_DSP", 0x800); ("NT_MIPS_FP_MODE", 0x801); ("NT_MIPS_MSA", 0x802);
   ("NT_RISCV_CSR", 0x900); ("NT_RISCV_VECTOR", 0x901); ("NT_LOONGARCH_CPUCFG", 0xa00);
   ("NT_LOONGARCH_CSR", 0xa01); ("NT_LOONGARCH_LSX", 0xa02); ("NT_LOONGARCH_LASX", 0xa03);
   ("NT_LOONGARCH_LBT", 0xa04); ("NT_LOONGARCH_HW_BREAK", 0xa05); ("NT_LOONGARCH_HW_WATCH", 0xa06)].

(** note types of object files *)
Definition object_note_types : constants :=
  [("NT_VERSION", 1)].

(** names of notes and of the section of program properties *)
Definition note_names : list (string * string) :=
  [("ELF_NOTE_SOLARIS", "SUNW Solaris"); ("ELF_NOTE_GNU", "GNU"); ("ELF_NOTE_FDO", "FDO")].
Definition NOTE_GNU_PROPERTY_SECTION_NAME : string := ".note.gnu.property".

(** note types of Solaris and of the ABI tag *)
Definition note_types : constants :=
  [("ELF_NOTE_PAGESIZE_HINT", 1); ("NT_GNU_ABI_TAG", 1); ("ELF_NOTE_ABI", 1)].

(** operating systems of an ABI tag *)
Definition note_os_constants : constants :=
  [("ELF_NOTE_OS_LINUX", 0); ("ELF_NOTE_OS_GNU", 1); ("ELF_NOTE_OS_SOLARIS2", 2);
   ("ELF_NOTE_OS_FREEBSD", 3)].

(** note types of GNU and freedesktop.org *)
Definition gnu_note_types : constants :=
  [("NT_GNU_HWCAP", 2); ("NT_GNU_BUILD_ID", 3); ("NT_GNU_GOLD_VERSION", 4); ("NT_GNU_PROPERTY_TYPE_0", 5);
   ("NT_FDO_PACKAGING_METADATA", 0xcafe1a7e)].

(** program properties *)
Definition gnu_property_constants : constants :=
  [("GNU_PROPERTY_STACK_SIZE", 1); ("GNU_PROPERTY_NO_COPY_ON_PROTECTED", 2);
   ("GNU_PROPERTY_UINT32_AND_LO", 0xb0000000); ("GNU_PROPERTY_UINT32_AND_HI", 0xb0007fff);
   ("GNU_PROPERTY_UINT32_OR_LO", 0xb0008000); ("GNU_PROPERTY_UINT32_OR_HI", 0xb000ffff);
   ("GNU_PROPERTY_1_NEEDED", 0xb0008000); ("GNU_PROPERTY_1_NEEDED_INDIRECT_EXTERN_ACCESS", Z.shiftl 1 0);
   ("GNU_PROPERTY_LOPROC", 0xc0000000); ("GNU_PROPERTY_HIPROC", 0xdfffffff);
   ("GNU_PROPERTY_LOUSER", 0xe0000000); ("GNU_PROPERTY_HIUSER", 0xffffffff);
   ("GNU_PROPERTY_AARCH64_FEATURE_1_AND", 0xc0000000);
   ("GNU_PROPERTY_AARCH64_FEATURE_1_BTI", Z.shiftl 1 0);
   ("GNU_PROPERTY_AARCH64_FEATURE_1_PAC", Z.shiftl 1 1)].

(** program properties of x86 *)
Definition gnu_property_x86_constants : constants :=
  [("GNU_PROPERTY_X86_ISA_1_USED", 0xc0010002); ("GNU_PROPERTY_X86_ISA_1_NEEDED", 0xc0008002);
   ("GNU_PROPERTY_X86_FEATURE_1_AND", 0xc0000002); ("GNU_PROPERTY_X86_ISA_1_BASELINE", Z.shiftl 1 0);
   ("GNU_PROPERTY_X86_ISA_1_V2", Z.shiftl 1 1); ("GNU_PROPERTY_X86_ISA_1_V3", Z.shiftl 1 2);
   ("GNU_PROPERTY_X86_ISA_1_V4", Z.shiftl 1 3); ("GNU_PROPERTY_X86_FEATURE_1_IBT", Z.shiftl 1 0);
   ("GNU_PROPERTY_X86_FEATURE_1_SHSTK", Z.shiftl 1 1)].

(** ** Move records *)

Definition Elf32_Move : struct :=
  [("m_value", Elf32_Xword, 1); ("m_info", Elf32_Word, 1); ("m_poffset", Elf32_Word, 1);
   ("m_repeat", Elf32_Half, 1); ("m_stride", Elf32_Half, 1)].
Definition Elf64_Move : struct :=
  [("m_value", Elf64_Xword, 1); ("m_info", Elf64_Xword, 1); ("m_poffset", Elf64_Xword, 1);
   ("m_repeat", Elf64_Half, 1); ("m_stride", Elf64_Half, 1)].

Definition ELF32_M_SYM (info : Z) : Z := Z.shiftr info 8.
Definition ELF32_M_SIZE (info : Z) : Z := u8 info.
Definition ELF32_M_INFO (sym size : Z) : Z := Z.shiftl sym 8 + u8 size.
Definition ELF64_M_SYM (info : Z) : Z := ELF32_M_SYM info.
Definition ELF64_M_SIZE (info : Z) : Z := ELF32_M_SIZE info.
Definition ELF64_M_INFO (sym size : Z) : Z := ELF32_M_INFO sym size.

(** ** Relocations of the i386 *)

(** relocation types *)
Definition r_386_constants : constants :=
  [("R_386_NONE", 0); ("R_386_32", 1); ("R_386_PC32", 2); ("R_386_GOT32", 3); ("R_386_PLT32", 4);
   ("R_386_COPY", 5); ("R_386_GLOB_DAT", 6); ("R_386_JMP_SLOT", 7); ("R_386_RELATIVE", 8);
   ("R_386_GOTOFF", 9); ("R_386_GOTPC", 10); ("R_386_32PLT", 11); ("R_386_TLS_TPOFF", 14);
   ("R_386_TLS_IE", 15); ("R_386_TLS_GOTIE", 16); ("R_386_TLS_LE", 17); ("R_386_TLS_GD", 18);
   ("R_386_TLS_LDM", 19); ("R_386_16", 20); ("R_386_PC16", 21); ("R_386_8", 22); ("R_386_PC8", 23);
   ("R_386_TLS_GD_32", 24); ("R_386_TLS_GD_PUSH", 25); ("R_386_TLS_GD_CALL", 26); ("R_386_TLS_GD_POP", 27);
   ("R_386_TLS_LDM_32", 28); ("R_386_TLS_LDM_PUSH", 29); ("R_386_TLS_LDM_CALL", 30);
   ("R_386_TLS_LDM_POP", 31); ("R_386_TLS_LDO_32", 32); ("R_386_TLS_IE_32", 33); ("R_386_TLS_LE_32", 34);
   ("R_386_TLS_DTPMOD32", 35); ("R_386_TLS_DTPOFF32", 36); ("R_386_TLS_TPOFF32", 37); ("R_386_SIZE32", 38);
   ("R_386_TLS_GOTDESC", 39); ("R_386_TLS_DESC_CALL", 40); ("R_386_TLS_DESC", 41); ("R_386_IRELATIVE", 42);
   ("R_386_GOT32X", 43); ("R_386_NUM", 44)].

(** ** All structures of the header, with the sizes the ABI prescribes *)
Definition elf_structs : list (struct * Z) :=
  [(Elf32_Ehdr, 52); (Elf64_Ehdr, 64); (Elf32_Shdr, 40); (Elf64_Shdr, 64); (Elf32_Chdr, 12); (Elf64_Chdr, 24);
   (Elf32_Sym, 16); (Elf64_Sym, 24); (Elf32_Syminfo, 4); (Elf64_Syminfo, 4); (Elf32_Rel, 8); (Elf64_Rel, 16);
   (Elf32_Rela, 12); (Elf64_Rela, 24); (Elf32_Phdr, 32); (Elf64_Phdr, 56); (Elf32_Dyn, 8); (Elf64_Dyn, 16);
   (Elf32_Verdef, 20); (Elf64_Verdef, 20); (Elf32_Verdaux, 8); (Elf64_Verdaux, 8); (Elf32_Verneed, 16);
   (Elf64_Verneed, 16); (Elf32_Vernaux, 16); (Elf64_Vernaux, 16); (Elf32_auxv_t, 8); (Elf64_auxv_t, 16);
   (Elf32_Nhdr, 12); (Elf64_Nhdr, 12); (Elf32_Move, 24); (Elf64_Move, 32); (Elf32_RegInfo, 24); (Elf_Options, 8);
   (Elf_Options_Hw, 8); (Elf32_Lib, 20); (Elf64_Lib, 20); (Elf_MIPS_ABIFlags_v0, 24)] ++
  map (fun m => (m.2, 8)) Elf32_gptab.

(** ** What the accessors recover *)

(** packing and unpacking the two halves of an info word, for symbols, relocations and moves *)
Definition info_fields : list ((Z -> Z -> Z) * (Z -> Z) * (Z -> Z) * Z * Z) :=
  [(ELF32_ST_INFO, ELF32_ST_BIND, ELF32_ST_TYPE, 2 ^ 4, 2 ^ 4);
   (ELF64_ST_INFO, ELF64_ST_BIND, ELF64_ST_TYPE, 2 ^ 4, 2 ^ 4);
   (ELF32_R_INFO, ELF32_R_SYM, ELF32_R_TYPE, 2 ^ 24, 2 ^ 8);
   (ELF64_R_INFO, ELF64_R_SYM, ELF64_R_TYPE, 2 ^ 32, 2 ^ 32);
   (ELF32_M_INFO, ELF32_M_SYM, ELF32_M_SIZE, 2 ^ 24, 2 ^ 8);
   (ELF64_M_INFO, ELF64_M_SYM, ELF64_M_SIZE, 2 ^ 56, 2 ^ 8)].

Lemma land_low k b : 0 <= k -> 0 <= b < 2 ^ k -> Z.land b (Z.ones k) = b.
Proof. intros Hk Hb. rewrite Z.land_ones by lia. by apply Z.mod_small. Qed.

(** ** Properties *)

(** the accessor macros of elf.h take apart what the [INFO] macros put together, for
    symbols, relocations and move records of both classes, over the whole range of the
    two parts. *)
Theorem info_roundtrip :
  Forall (fun '(info, high, low, nhigh, nlow) => forall a b, 0 <= a < nhigh -> 0 <= b < nlow ->
            high (info a b) = a /\ low (info a b) = b) info_fields.
Proof.
  assert (Hm : forall k a b, 0 <= k -> 0 <= b < 2 ^ k -> Z.shiftr (Z.shiftl a k + b) k = a /\ Z.land (Z.shiftl a k + b) (Z.ones k) = b).
  { intros k a b Hk Hb. rewrite Z.shiftr_div_pow2, Z.land_ones, Z.shiftl_mul_pow2 by lia. split.
    - rewrite Z.div_add_l, Z.div_small by lia. lia.
    - rewrite Z.add_comm, Z.mod_add by lia. by apply Z.mod_small. }
  assert (Hl4 : forall b, 0 <= b < 2 ^ 4 -> Z.land b 0xf = b) by (intros; by apply (land_low 4)).
  assert (Hl8 : forall b, 0 <= b < 2 ^ 8 -> Z.land b 0xff = b) by (intros; by apply (land_low 8)).
  assert (H8 : forall a b, 0 <= b < 2 ^ 8 -> u8 (Z.shiftl a 8 + b) = b).
  { intros a b Hb. unfold u8. rewrite Z.shiftl_mul_pow2, Z.add_comm, Z.mod_add by lia. by apply Z.mod_small. }
  assert (H4 : forall a b, 0 <= a < 2 ^ 4 -> 0 <= b < 2 ^ 4 -> u8 (Z.shiftl a 4 + b) = Z.shiftl a 4 + b).
  { intros a b Ha Hb. rewrite Z.shiftl_mul_pow2 by lia. apply u8_small. lia. }
  unfold info_fields. repeat apply Forall_cons_2; [..|apply Forall_nil_2]; intros a b Ha Hb.
  - unfold ELF32_ST_INFO, ELF32_ST_BIND, ELF32_ST_TYPE. rewrite Hl4, H4 by done. by apply (Hm 4).
  - unfold ELF64_ST_INFO, ELF64_ST_BIND, ELF64_ST_TYPE, ELF32_ST_INFO, ELF32_ST_BIND, ELF32_ST_TYPE.
    rewrite Hl4, H4 by done. by apply (Hm 4).
  - unfold ELF32_R_INFO, ELF32_R_SYM, ELF32_R_TYPE. rewrite Hl8 by done. by apply (Hm 8).
  - unfold ELF64_R_INFO, ELF64_R_SYM, ELF64_R_TYPE. rewrite (u64_small a), u64_small by (rewrite ?Z.shiftl_mul_pow2; lia).
    by apply (Hm 32).
  - unfold ELF32_M_INFO, ELF32_M_SYM, ELF32_M_SIZE. rewrite (u8_small b), H8 by done. split; [by apply (Hm 8)|done].
  - unfold ELF64_M_INFO, ELF64_M_SYM, ELF64_M_SIZE, ELF32_M_INFO, ELF32_M_SYM, ELF32_M_SIZE.
    rewrite (u8_small b), H8 by done. split; [by apply (Hm 8)|done].
Qed.

(** every structure of elf.h has the size the ELF specification gives it and the
    layout C requires: fields in order, apart, aligned for their types, inside a size
    that is a multiple of every alignment. *)
Theorem elf_structs_sound s n : (s, n) ∈ elf_structs -> sizeof s = n /\ sound_layout s.
Proof.
  assert (H : Forall (fun x : struct * Z => sizeof x.1 = x.2 /\ Forall (fun f => 0 < f.2) x.1) elf_structs)
    by (repeat constructor).
  rewrite Forall_forall in H. intros Hs. destruct (H _ Hs) as [Hn Hp]. split; [exact Hn|by apply layout_sound].
Qed.
