(* ===== verification/ElfRelocs.v ===== *)
(** elf.h: the relocation types of every processor but the x86-64 (ElfConst.v) and the
    i386 (ElfNotes.v), and what the info word of a relocation can hold of them. *)

From stdpp Require Import strings.
From S2P Require Import Prelude ElfConst ElfFormat ElfNotes.

(** Motorola 68k *)
Definition r_68k_constants : constants :=
  [("R_68K_NONE", 0); ("R_68K_32", 1); ("R_68K_16", 2); ("R_68K_8", 3); ("R_68K_PC32", 4);
   ("R_68K_PC16", 5); ("R_68K_PC8", 6); ("R_68K_GOT32", 7); ("R_68K_GOT16", 8); ("R_68K_GOT8", 9);
   ("R_68K_GOT32O", 10); ("R_68K_GOT16O", 11); ("R_68K_GOT8O", 12); ("R_68K_PLT32", 13);
   ("R_68K_PLT16", 14); ("R_68K_PLT8", 15); ("R_68K_PLT32O", 16); ("R_68K_PLT16O", 17);
   ("R_68K_PLT8O", 18); ("R_68K_COPY", 19); ("R_68K_GLOB_DAT", 20); ("R_68K_JMP_SLOT", 21);
   ("R_68K_RELATIVE", 22); ("R_68K_TLS_GD32", 25); ("R_68K_TLS_GD16", 26); ("R_68K_TLS_GD8", 27);
   ("R_68K_TLS_LDM32", 28); ("R_68K_TLS_LDM16", 29); ("R_68K_TLS_LDM8", 30); ("R_68K_TLS_LDO32", 31);
   ("R_68K_TLS_LDO16", 32); ("R_68K_TLS_LDO8", 33); ("R_68K_TLS_IE32", 34); ("R_68K_TLS_IE16", 35);
   ("R_68K_TLS_IE8", 36); ("R_68K_TLS_LE32", 37); ("R_68K_TLS_LE16", 38); ("R_68K_TLS_LE8", 39);
   ("R_68K_TLS_DTPMOD32", 40); ("R_68K_TLS_DTPREL32", 41); ("R_68K_TLS_TPREL32", 42); ("R_68K_NUM", 43)].

(** SPARC *)
Definition r_sparc_constants : constants :=
  [("R_SPARC_NONE", 0); ("R_SPARC_8", 1); ("R_SPARC_16", 2); ("R_SPARC_32", 3); ("R_SPARC_DISP8", 4);
   ("R_SPARC_DISP16", 5); ("R_SPARC_DISP32", 6); ("R_SPARC_WDISP30", 7); ("R_SPARC_WDISP22", 8);
   ("R_SPARC_HI22", 9); ("R_SPARC_22", 10); ("R_SPARC_13", 11); ("R_SPARC_LO10", 12);
   ("R_SPARC_GOT10", 13); ("R_SPARC_GOT13", 14); ("R_SPARC_GOT22", 15); ("R_SPARC_PC10", 16);
   ("R_SPARC_PC22", 17); ("R_SPARC_WPLT30", 18); ("R_SPARC_COPY", 19); ("R_SPARC_GLOB_DAT", 20);
   ("R_SPARC_JMP_SLOT", 21); ("R_SPARC_RELATIVE", 22); ("R_SPARC_UA32", 23); ("R_SPARC_PLT32", 24);
   ("R_SPARC_HIPLT22", 25); ("R_SPARC_LOPLT10", 26); ("R_SPARC_PCPLT32", 27); ("R_SPARC_PCPLT22", 28);
   ("R_SPARC_PCPLT10", 29); ("R_SPARC_10", 30); ("R_SPARC_11", 31); ("R_SPARC_64", 32);
   ("R_SPARC_OLO10", 33); ("R_SPARC_HH22", 34); ("R_SPARC_HM10", 35); ("R_SPARC_LM22", 36);
   ("R_SPARC_PC_HH22", 37); ("R_SPARC_PC_HM10", 38); ("R_SPARC_PC_LM22", 39); ("R_SPARC_WDISP16", 40);
   ("R_SPARC_WDISP19", 41); ("R_SPARC_GLOB_JMP", 42); ("R_SPARC_7", 43); ("R_SPARC_5", 44);
   ("R_SPARC_6", 45); ("R_SPARC_DISP64", 46); ("R_SPARC_PLT64", 47); ("R_SPARC_HIX22", 48);
   ("R_SPARC_LOX10", 49); ("R_SPARC_H44", 50); ("R_SPARC_M44", 51); ("R_SPARC_L44", 52);
   ("R_SPARC_REGISTER", 53); ("R_SPARC_UA64", 54); ("R_SPARC_UA16", 55); ("R_SPARC_TLS_GD_HI22", 56);
   ("R_SPARC_TLS_GD_LO10", 57); ("R_SPARC_TLS_GD_ADD", 58); ("R_SPARC_TLS_GD_CALL", 59);
   ("R_SPARC_TLS_LDM_HI22", 60); ("R_SPARC_TLS_LDM_LO10", 61); ("R_SPARC_TLS_LDM_ADD", 62);
   ("R_SPARC_TLS_LDM_CALL", 63); ("R_SPARC_TLS_LDO_HIX22", 64); ("R_SPARC_TLS_LDO_LOX10", 65);
   ("R_SPARC_TLS_LDO_ADD", 66); ("R_SPARC_TLS_IE_HI22", 67); ("R_SPARC_TLS_IE_LO10", 68);
   ("R_SPARC_TLS_IE_LD", 69); ("R_SPARC_TLS_IE_LDX", 70); ("R_SPARC_TLS_IE_ADD", 71);
   ("R_SPARC_TLS_LE_HIX22", 72); ("R_SPARC_TLS_LE_LOX10", 73); ("R_SPARC_TLS_DTPMOD32", 74);
   ("R_SPARC_TLS_DTPMOD64", 75); ("R_SPARC_TLS_DTPOFF32", 76); ("R_SPARC_TLS_DTPOFF64", 77);
   ("R_SPARC_TLS_TPOFF32", 78); ("R_SPARC_TLS_TPOFF64", 79); ("R_SPARC_GOTDATA_HIX22", 80);
   ("R_SPARC_GOTDATA_LOX10", 81); ("R_SPARC_GOTDATA_OP_HIX22", 82); ("R_SPARC_GOTDATA_OP_LOX10", 83);
   ("R_SPARC_GOTDATA_OP", 84); ("R_SPARC_H34", 85); ("R_SPARC_SIZE32", 86); ("R_SPARC_SIZE64", 87);
   ("R_SPARC_WDISP10", 88); ("R_SPARC_JMP_IREL", 248); ("R_SPARC_IRELATIVE", 249);
   ("R_SPARC_GNU_VTINHERIT", 250); ("R_SPARC_GNU_VTENTRY", 251); ("R_SPARC_REV32", 252);
   ("R_SPARC_NUM", 253)].

(** MIPS, with the MIPS16 and microMIPS codes *)
Definition r_mips_constants : constants :=
  [("R_MIPS_NONE", 0); ("R_MIPS_16", 1); ("R_MIPS_32", 2); ("R_MIPS_REL32", 3); ("R_MIPS_26", 4);
   ("R_MIPS_HI16", 5); ("R_MIPS_LO16", 6); ("R_MIPS_GPREL16", 7); ("R_MIPS_LITERAL", 8);
   ("R_MIPS_GOT16", 9); ("R_MIPS_PC16", 10); ("R_MIPS_CALL16", 11); ("R_MIPS_GPREL32", 12);
   ("R_MIPS_SHIFT5", 16); ("R_MIPS_SHIFT6", 17); ("R_MIPS_64", 18); ("R_MIPS_GOT_DISP", 19);
   ("R_MIPS_GOT_PAGE", 20); ("R_MIPS_GOT_OFST", 21); ("R_MIPS_GOT_HI16", 22); ("R_MIPS_GOT_LO16", 23);
   ("R_MIPS_SUB", 24); ("R_MIPS_INSERT_A", 25); ("R_MIPS_INSERT_B", 26); ("R_MIPS_DELETE", 27);
   ("R_MIPS_HIGHER", 28); ("R_MIPS_HIGHEST", 29); ("R_MIPS_CALL_HI16", 30); ("R_MIPS_CALL_LO16", 31);
   ("R_MIPS_SCN_DISP", 32); ("R_MIPS_REL16", 33); ("R_MIPS_ADD_IMMEDIATE", 34); ("R_MIPS_PJUMP", 35);
   ("R_MIPS_RELGOT", 36); ("R_MIPS_JALR", 37); ("R_MIPS_TLS_DTPMOD32", 38); ("R_MIPS_TLS_DTPREL32", 39);
   ("R_MIPS_TLS_DTPMOD64", 40); ("R_MIPS_TLS_DTPREL64", 41); ("R_MIPS_TLS_GD", 42); ("R_MIPS_TLS_LDM", 43);
   ("R_MIPS_TLS_DTPREL_HI16", 44); ("R_MIPS_TLS_DTPREL_LO16", 45); ("R_MIPS_TLS_GOTTPREL", 46);
   ("R_MIPS_TLS_TPREL32", 47); ("R_MIPS_TLS_TPREL64", 48); ("R_MIPS_TLS_TPREL_HI16", 49);
   ("R_MIPS_TLS_TPREL_LO16", 50); ("R_MIPS_GLOB_DAT", 51); ("R_MIPS_PC21_S2", 60); ("R_MIPS_PC26_S2", 61);
   ("R_MIPS_PC18_S3", 62); ("R_MIPS_PC19_S2", 63); ("R_MIPS_PCHI16", 64); ("R_MIPS_PCLO16", 65);
   ("R_MIPS16_26", 100); ("R_MIPS16_GPREL", 101); ("R_MIPS16_GOT16", 102); ("R_MIPS16_CALL16", 103);
   ("R_MIPS16_HI16", 104); ("R_MIPS16_LO16", 105); ("R_MIPS16_TLS_GD", 106); ("R_MIPS16_TLS_LDM", 107);
   ("R_MIPS16_TLS_DTPREL_HI16", 108); ("R_MIPS16_TLS_DTPREL_LO16", 109); ("R_MIPS16_TLS_GOTTPREL", 110);
   ("R_MIPS16_TLS_TPREL_HI16", 111); ("R_MIPS16_TLS_TPREL_LO16", 112); ("R_MIPS16_PC16_S1", 113);
   ("R_MIPS_COPY", 126); ("R_MIPS_JUMP_SLOT", 127); ("R_MIPS_RELATIVE", 128); ("R_MICROMIPS_26_S1", 133);
   ("R_MICROMIPS_HI16", 134); ("R_MICROMIPS_LO16", 135); ("R_MICROMIPS_GPREL16", 136);
   ("R_MICROMIPS_LITERAL", 137); ("R_MICROMIPS_GOT16", 138); ("R_MICROMIPS_PC7_S1", 139);
   ("R_MICROMIPS_PC10_S1", 140); ("R_MICROMIPS_PC16_S1", 141); ("R_MICROMIPS_CALL16", 142);
   ("R_MICROMIPS_GOT_DISP", 145); ("R_MICROMIPS_GOT_PAGE", 146); ("R_MICROMIPS_GOT_OFST", 147);
   ("R_MICROMIPS_GOT_HI16", 148); ("R_MICROMIPS_GOT_LO16", 149); ("R_MICROMIPS_SUB", 150);
   ("R_MICROMIPS_HIGHER", 151); ("R_MICROMIPS_HIGHEST", 152); ("R_MICROMIPS_CALL_HI16", 153);
   ("R_MICROMIPS_CALL_LO16", 154); ("R_MICROMIPS_SCN_DISP", 155); ("R_MICROMIPS_JALR", 156);
   ("R_MICROMIPS_HI0_LO16", 157); ("R_MICROMIPS_TLS_GD", 162); ("R_MICROMIPS_TLS_LDM", 163);
   ("R_MICROMIPS_TLS_DTPREL_HI16", 164); ("R_MICROMIPS_TLS_DTPREL_LO16", 165);
   ("R_MICROMIPS_TLS_GOTTPREL", 166); ("R_MICROMIPS_TLS_TPREL_HI16", 169);
   ("R_MICROMIPS_TLS_TPREL_LO16", 170); ("R_MICROMIPS_GPREL7_S2", 172); ("R_MICROMIPS_PC23_S2", 173);
   ("R_MIPS_PC32", 248); ("R_MIPS_EH", 249); ("R_MIPS_GNU_REL16_S2", 250); ("R_MIPS_GNU_VTINHERIT", 253);
   ("R_MIPS_GNU_VTENTRY", 254); ("R_MIPS_NUM", 255)].

(** PA-RISC, the aliases of the thread-local types included *)
Definition r_parisc_constants : constants :=
  [("R_PARISC_NONE", 0); ("R_PARISC_DIR32", 1); ("R_PARISC_DIR21L", 2); ("R_PARISC_DIR17R", 3);
   ("R_PARISC_DIR17F", 4); ("R_PARISC_DIR14R", 6); ("R_PARISC_PCREL32", 9); ("R_PARISC_PCREL21L", 10);
   ("R_PARISC_PCREL17R", 11); ("R_PARISC_PCREL17F", 12); ("R_PARISC_PCREL14R", 14);
   ("R_PARISC_DPREL21L", 18); ("R_PARISC_DPREL14R", 22); ("R_PARISC_GPREL21L", 26);
   ("R_PARISC_GPREL14R", 30); ("R_PARISC_LTOFF21L", 34); ("R_PARISC_LTOFF14R", 38);
   ("R_PARISC_SECREL32", 41); ("R_PARISC_SEGBASE", 48); ("R_PARISC_SEGREL32", 49);
   ("R_PARISC_PLTOFF21L", 50); ("R_PARISC_PLTOFF14R", 54); ("R_PARISC_LTOFF_FPTR32", 57);
   ("R_PARISC_LTOFF_FPTR21L", 58); ("R_PARISC_LTOFF_FPTR14R", 62); ("R_PARISC_FPTR64", 64);
   ("R_PARISC_PLABEL32", 65); ("R_PARISC_PLABEL21L", 66); ("R_PARISC_PLABEL14R", 70);
   ("R_PARISC_PCREL64", 72); ("R_PARISC_PCREL22F", 74); ("R_PARISC_PCREL14WR", 75);
   ("R_PARISC_PCREL14DR", 76); ("R_PARISC_PCREL16F", 77); ("R_PARISC_PCREL16WF", 78);
   ("R_PARISC_PCREL16DF", 79); ("R_PARISC_DIR64", 80); ("R_PARISC_DIR14WR", 83); ("R_PARISC_DIR14DR", 84);
   ("R_PARISC_DIR16F", 85); ("R_PARISC_DIR16WF", 86); ("R_PARISC_DIR16DF", 87); ("R_PARISC_GPREL64", 88);
   ("R_PARISC_GPREL14WR", 91); ("R_PARISC_GPREL14DR", 92); ("R_PARISC_GPREL16F", 93);
   ("R_PARISC_GPREL16WF", 94); ("R_PARISC_GPREL16DF", 95); ("R_PARISC_LTOFF64", 96);
   ("R_PARISC_LTOFF14WR", 99); ("R_PARISC_LTOFF14DR", 100); ("R_PARISC_LTOFF16F", 101);
   ("R_PARISC_LTOFF16WF", 102); ("R_PARISC_LTOFF16DF", 103); ("R_PARISC_SECREL64", 104);
   ("R_PARISC_SEGREL64", 112); ("R_PARISC_PLTOFF14WR", 115); ("R_PARISC_PLTOFF14DR", 116);
   ("R_PARISC_PLTOFF16F", 117); ("R_PARISC_PLTOFF16WF", 118); ("R_PARISC_PLTOFF16DF", 119);
   ("R_PARISC_LTOFF_FPTR64", 120); ("R_PARISC_LTOFF_FPTR14WR", 123); ("R_PARISC_LTOFF_FPTR14DR", 124);
   ("R_PARISC_LTOFF_FPTR16F", 125); ("R_PARISC_LTOFF_FPTR16WF", 126); ("R_PARISC_LTOFF_FPTR16DF", 127);
   ("R_PARISC_LORESERVE", 128); ("R_PARISC_COPY", 128); ("R_PARISC_IPLT", 129); ("R_PARISC_EPLT", 130);
   ("R_PARISC_TPREL32", 153); ("R_PARISC_TPREL21L", 154); ("R_PARISC_TPREL14R", 158);
   ("R_PARISC_LTOFF_TP21L", 162); ("R_PARISC_LTOFF_TP14R", 166); ("R_PARISC_LTOFF_TP14F", 167);
   ("R_PARISC_TPREL64", 216); ("R_PARISC_TPREL14WR", 219); ("R_PARISC_TPREL14DR", 220);
   ("R_PARISC_TPREL16F", 221); ("R_PARISC_TPREL16WF", 222); ("R_PARISC_TPREL16DF", 223);
   ("R_PARISC_LTOFF_TP64", 224); ("R_PARISC_LTOFF_TP14WR", 227); ("R_PARISC_LTOFF_TP14DR", 228);
   ("R_PARISC_LTOFF_TP16F", 229); ("R_PARISC_LTOFF_TP16WF", 230); ("R_PARISC_LTOFF_TP16DF", 231);
   ("R_PARISC_GNU_VTENTRY", 232); ("R_PARISC_GNU_VTINHERIT", 233); ("R_PARISC_TLS_GD21L", 234);
   ("R_PARISC_TLS_GD14R", 235); ("R_PARISC_TLS_GDCALL", 236); ("R_PARISC_TLS_LDM21L", 237);
   ("R_PARISC_TLS_LDM14R", 238); ("R_PARISC_TLS_LDMCALL", 239); ("R_PARISC_TLS_LDO21L", 240);
   ("R_PARISC_TLS_LDO14R", 241); ("R_PARISC_TLS_DTPMOD32", 242); ("R_PARISC_TLS_DTPMOD64", 243);
   ("R_PARISC_TLS_DTPOFF32", 244); ("R_PARISC_TLS_DTPOFF64", 245); ("R_PARISC_TLS_LE21L", 154);
   ("R_PARISC_TLS_LE14R", 158); ("R_PARISC_TLS_IE21L", 162); ("R_PARISC_TLS_IE14R", 166);
   ("R_PARISC_TLS_TPREL32", 153); ("R_PARISC_TLS_TPREL64", 216); ("R_PARISC_HIRESERVE", 255)].

(** Alpha *)
Definition r_alpha_constants : constants :=
  [("R_ALPHA_NONE", 0); ("R_ALPHA_REFLONG", 1); ("R_ALPHA_REFQUAD", 2); ("R_ALPHA_GPREL32", 3);
   ("R_ALPHA_LITERAL", 4); ("R_ALPHA_LITUSE", 5); ("R_ALPHA_GPDISP", 6); ("R_ALPHA_BRADDR", 7);
   ("R_ALPHA_HINT", 8); ("R_ALPHA_SREL16", 9); ("R_ALPHA_SREL32", 10); ("R_ALPHA_SREL64", 11);
   ("R_ALPHA_GPRELHIGH", 17); ("R_ALPHA_GPRELLOW", 18); ("R_ALPHA_GPREL16", 19); ("R_ALPHA_COPY", 24);
   ("R_ALPHA_GLOB_DAT", 25); ("R_ALPHA_JMP_SLOT", 26); ("R_ALPHA_RELATIVE", 27); ("R_ALPHA_TLS_GD_HI", 28);
   ("R_ALPHA_TLSGD", 29); ("R_ALPHA_TLS_LDM", 30); ("R_ALPHA_DTPMOD64", 31); ("R_ALPHA_GOTDTPREL", 32);
   ("R_ALPHA_DTPREL64", 33); ("R_ALPHA_DTPRELHI", 34); ("R_ALPHA_DTPRELLO", 35); ("R_ALPHA_DTPREL16", 36);
   ("R_ALPHA_GOTTPREL", 37); ("R_ALPHA_TPREL64", 38); ("R_ALPHA_TPRELHI", 39); ("R_ALPHA_TPRELLO", 40);
   ("R_ALPHA_TPREL16", 41); ("R_ALPHA_NUM", 46)].

(** PowerPC *)
Definition r_ppc_constants : constants :=
  [("R_PPC_NONE", 0); ("R_PPC_ADDR32", 1); ("R_PPC_ADDR24", 2); ("R_PPC_ADDR16", 3);
   ("R_PPC_ADDR16_LO", 4); ("R_PPC_ADDR16_HI", 5); ("R_PPC_ADDR16_HA", 6); ("R_PPC_ADDR14", 7);
   ("R_PPC_ADDR14_BRTAKEN", 8); ("R_PPC_ADDR14_BRNTAKEN", 9); ("R_PPC_REL24", 10); ("R_PPC_REL14", 11);
   ("R_PPC_REL14_BRTAKEN", 12); ("R_PPC_REL14_BRNTAKEN", 13); ("R_PPC_GOT16", 14); ("R_PPC_GOT16_LO", 15);
   ("R_PPC_GOT16_HI", 16); ("R_PPC_GOT16_HA", 17); ("R_PPC_PLTREL24", 18); ("R_PPC_COPY", 19);
   ("R_PPC_GLOB_DAT", 20); ("R_PPC_JMP_SLOT", 21); ("R_PPC_RELATIVE", 22); ("R_PPC_LOCAL24PC", 23);
   ("R_PPC_UADDR32", 24); ("R_PPC_UADDR16", 25); ("R_PPC_REL32", 26); ("R_PPC_PLT32", 27);
   ("R_PPC_PLTREL32", 28); ("R_PPC_PLT16_LO", 29); ("R_PPC_PLT16_HI", 30); ("R_PPC_PLT16_HA", 31);
   ("R_PPC_SDAREL16", 32); ("R_PPC_SECTOFF", 33); ("R_PPC_SECTOFF_LO", 34); ("R_PPC_SECTOFF_HI", 35);
   ("R_PPC_SECTOFF_HA", 36); ("R_PPC_TLS", 67); ("R_PPC_DTPMOD32", 68); ("R_PPC_TPREL16", 69);
   ("R_PPC_TPREL16_LO", 70); ("R_PPC_TPREL16_HI", 71); ("R_PPC_TPREL16_HA", 72); ("R_PPC_TPREL32", 73);
   ("R_PPC_DTPREL16", 74); ("R_PPC_DTPREL16_LO", 75); ("R_PPC_DTPREL16_HI", 76); ("R_PPC_DTPREL16_HA", 77);
   ("R_PPC_DTPREL32", 78); ("R_PPC_GOT_TLSGD16", 79); ("R_PPC_GOT_TLSGD16_LO", 80);
   ("R_PPC_GOT_TLSGD16_HI", 81); ("R_PPC_GOT_TLSGD16_HA", 82); ("R_PPC_GOT_TLSLD16", 83);
   ("R_PPC_GOT_TLSLD16_LO", 84); ("R_PPC_GOT_TLSLD16_HI", 85); ("R_PPC_GOT_TLSLD16_HA", 86);
   ("R_PPC_GOT_TPREL16", 87); ("R_PPC_GOT_TPREL16_LO", 88); ("R_PPC_GOT_TPREL16_HI", 89);
   ("R_PPC_GOT_TPREL16_HA", 90); ("R_PPC_GOT_DTPREL16", 91); ("R_PPC_GOT_DTPREL16_LO", 92);
   ("R_PPC_GOT_DTPREL16_HI", 93); ("R_PPC_GOT_DTPREL16_HA", 94); ("R_PPC_TLSGD", 95); ("R_PPC_TLSLD", 96);
   ("R_PPC_EMB_NADDR32", 101); ("R_PPC_EMB_NADDR16", 102); ("R_PPC_EMB_NADDR16_LO", 103);
   ("R_PPC_EMB_NADDR16_HI", 104); ("R_PPC_EMB_NADDR16_HA", 105); ("R_PPC_EMB_SDAI16", 106);
   ("R_PPC_EMB_SDA2I16", 107); ("R_PPC_EMB_SDA2REL", 108); ("R_PPC_EMB_SDA21", 109);
   ("R_PPC_EMB_MRKREF", 110); ("R_PPC_EMB_RELSEC16", 111); ("R_PPC_EMB_RELST_LO", 112);
   ("R_PPC_EMB_RELST_HI", 113); ("R_PPC_EMB_RELST_HA", 114); ("R_PPC_EMB_BIT_FLD", 115);
   ("R_PPC_EMB_RELSDA", 116); ("R_PPC_DIAB_SDA21_LO", 180); ("R_PPC_DIAB_SDA21_HI", 181);
   ("R_PPC_DIAB_SDA21_HA", 182); ("R_PPC_DIAB_RELSDA_LO", 183); ("R_PPC_DIAB_RELSDA_HI", 184);
   ("R_PPC_DIAB_RELSDA_HA", 185); ("R_PPC_IRELATIVE", 248); ("R_PPC_REL16", 249); ("R_PPC_REL16_LO", 250);
   ("R_PPC_REL16_HI", 251); ("R_PPC_REL16_HA", 252); ("R_PPC_TOC16", 255)].

(** PowerPC64; the first of them take their numbers from the PowerPC *)
Definition r_ppc64_constants : constants :=
  [("R_PPC64_NONE", 0); ("R_PPC64_ADDR32", 1); ("R_PPC64_ADDR24", 2); ("R_PPC64_ADDR16", 3);
   ("R_PPC64_ADDR16_LO", 4); ("R_PPC64_ADDR16_HI", 5); ("R_PPC64_ADDR16_HA", 6); ("R_PPC64_ADDR14", 7);
   ("R_PPC64_ADDR14_BRTAKEN", 8); ("R_PPC64_ADDR14_BRNTAKEN", 9); ("R_PPC64_REL24", 10);
   ("R_PPC64_REL14", 11); ("R_PPC64_REL14_BRTAKEN", 12); ("R_PPC64_REL14_BRNTAKEN", 13);
   ("R_PPC64_GOT16", 14); ("R_PPC64_GOT16_LO", 15); ("R_PPC64_GOT16_HI", 16); ("R_PPC64_GOT16_HA", 17);
   ("R_PPC64_COPY", 19); ("R_PPC64_GLOB_DAT", 20); ("R_PPC64_JMP_SLOT", 21); ("R_PPC64_RELATIVE", 22);
   ("R_PPC64_UADDR32", 24); ("R_PPC64_UADDR16", 25); ("R_PPC64_REL32", 26); ("R_PPC64_PLT32", 27);
   ("R_PPC64_PLTREL32", 28); ("R_PPC64_PLT16_LO", 29); ("R_PPC64_PLT16_HI", 30); ("R_PPC64_PLT16_HA", 31);
   ("R_PPC64_SECTOFF", 33); ("R_PPC64_SECTOFF_LO", 34); ("R_PPC64_SECTOFF_HI", 35);
   ("R_PPC64_SECTOFF_HA", 36); ("R_PPC64_ADDR30", 37); ("R_PPC64_ADDR64", 38);
   ("R_PPC64_ADDR16_HIGHER", 39); ("R_PPC64_ADDR16_HIGHERA", 40); ("R_PPC64_ADDR16_HIGHEST", 41);
   ("R_PPC64_ADDR16_HIGHESTA", 42); ("R_PPC64_UADDR64", 43); ("R_PPC64_REL64", 44); ("R_PPC64_PLT64", 45);
   ("R_PPC64_PLTREL64", 46); ("R_PPC64_TOC16", 47); ("R_PPC64_TOC16_LO", 48); ("R_PPC64_TOC16_HI", 49);
   ("R_PPC64_TOC16_HA", 50); ("R_PPC64_TOC", 51); ("R_PPC64_PLTGOT16", 52); ("R_PPC64_PLTGOT16_LO", 53);
   ("R_PPC64_PLTGOT16_HI", 54); ("R_PPC64_PLTGOT16_HA", 55); ("R_PPC64_ADDR16_DS", 56);
   ("R_PPC64_ADDR16_LO_DS", 57); ("R_PPC64_GOT16_DS", 58); ("R_PPC64_GOT16_LO_DS", 59);
   ("R_PPC64_PLT16_LO_DS", 60); ("R_PPC64_SECTOFF_DS", 61); ("R_PPC64_SECTOFF_LO_DS", 62);
   ("R_PPC64_TOC16_DS", 63); ("R_PPC64_TOC16_LO_DS", 64); ("R_PPC64_PLTGOT16_DS", 65);
   ("R_PPC64_PLTGOT16_LO_DS", 66); ("R_PPC64_TLS", 67); ("R_PPC64_DTPMOD64", 68); ("R_PPC64_TPREL16", 69);
   ("R_PPC64_TPREL16_LO", 70); ("R_PPC64_TPREL16_HI", 71); ("R_PPC64_TPREL16_HA", 72);
   ("R_PPC64_TPREL64", 73); ("R_PPC64_DTPREL16", 74); ("R_PPC64_DTPREL16_LO", 75);
   ("R_PPC64_DTPREL16_HI", 76); ("R_PPC64_DTPREL16_HA", 77); ("R_PPC64_DTPREL64", 78);
   ("R_PPC64_GOT_TLSGD16", 79); ("R_PPC64_GOT_TLSGD16_LO", 80); ("R_PPC64_GOT_TLSGD16_HI", 81);
   ("R_PPC64_GOT_TLSGD16_HA", 82); ("R_PPC64_GOT_TLSLD16", 83); ("R_PPC64_GOT_TLSLD16_LO", 84);
   ("R_PPC64_GOT_TLSLD16_HI", 85); ("R_PPC64_GOT_TLSLD16_HA", 86); ("R_PPC64_GOT_TPREL16_DS", 87);
   ("R_PPC64_GOT_TPREL16_LO_DS", 88); ("R_PPC64_GOT_TPREL16_HI", 89); ("R_PPC64_GOT_TPREL16_HA", 90);
   ("R_PPC64_GOT_DTPREL16_DS", 91); ("R_PPC64_GOT_DTPREL16_LO_DS", 92); ("R_PPC64_GOT_DTPREL16_HI", 93);
   ("R_PPC64_GOT_DTPREL16_HA", 94); ("R_PPC64_TPREL16_DS", 95); ("R_PPC64_TPREL16_LO_DS", 96);
   ("R_PPC64_TPREL16_HIGHER", 97); ("R_PPC64_TPREL16_HIGHERA", 98); ("R_PPC64_TPREL16_HIGHEST", 99);
   ("R_PPC64_TPREL16_HIGHESTA", 100); ("R_PPC64_DTPREL16_DS", 101); ("R_PPC64_DTPREL16_LO_DS", 102);
   ("R_PPC64_DTPREL16_HIGHER", 103); ("R_PPC64_DTPREL16_HIGHERA", 104); ("R_PPC64_DTPREL16_HIGHEST", 105);
   ("R_PPC64_DTPREL16_HIGHESTA", 106); ("R_PPC64_TLSGD", 107); ("R_PPC64_TLSLD", 108);
   ("R_PPC64_TOCSAVE", 109); ("R_PPC64_ADDR16_HIGH", 110); ("R_PPC64_ADDR16_HIGHA", 111);
   ("R_PPC64_TPREL16_HIGH", 112); ("R_PPC64_TPREL16_HIGHA", 113); ("R_PPC64_DTPREL16_HIGH", 114);
   ("R_PPC64_DTPREL16_HIGHA", 115); ("R_PPC64_JMP_IREL", 247); ("R_PPC64_IRELATIVE", 248);
   ("R_PPC64_REL16", 249); ("R_PPC64_REL16_LO", 250); ("R_PPC64_REL16_HI", 251); ("R_PPC64_REL16_HA", 252)].

(** AArch64, with the types of the 32-bit data model *)
Definition r_aarch64_constants : constants :=
  [("R_AARCH64_NONE", 0); ("R_AARCH64_P32_ABS32", 1); ("R_AARCH64_P32_COPY", 180);
   ("R_AARCH64_P32_GLOB_DAT", 181); ("R_AARCH64_P32_JUMP_SLOT", 182); ("R_AARCH64_P32_RELATIVE", 183);
   ("R_AARCH64_P32_TLS_DTPMOD", 184); ("R_AARCH64_P32_TLS_DTPREL", 185); ("R_AARCH64_P32_TLS_TPREL", 186);
   ("R_AARCH64_P32_TLSDESC", 187); ("R_AARCH64_P32_IRELATIVE", 188); ("R_AARCH64_ABS64", 257);
   ("R_AARCH64_ABS32", 258); ("R_AARCH64_ABS16", 259); ("R_AARCH64_PREL64", 260);
   ("R_AARCH64_PREL32", 261); ("R_AARCH64_PREL16", 262); ("R_AARCH64_MOVW_UABS_G0", 263);
   ("R_AARCH64_MOVW_UABS_G0_NC", 264); ("R_AARCH64_MOVW_UABS_G1", 265); ("R_AARCH64_MOVW_UABS_G1_NC", 266);
   ("R_AARCH64_MOVW_UABS_G2", 267); ("R_AARCH64_MOVW_UABS_G2_NC", 268); ("R_AARCH64_MOVW_UABS_G3", 269);
   ("R_AARCH64_MOVW_SABS_G0", 270); ("R_AARCH64_MOVW_SABS_G1", 271); ("R_AARCH64_MOVW_SABS_G2", 272);
   ("R_AARCH64_LD_PREL_LO19", 273); ("R_AARCH64_ADR_PREL_LO21", 274); ("R_AARCH64_ADR_PREL_PG_HI21", 275);
   ("R_AARCH64_ADR_PREL_PG_HI21_NC", 276); ("R_AARCH64_ADD_ABS_LO12_NC", 277);
   ("R_AARCH64_LDST8_ABS_LO12_NC", 278); ("R_AARCH64_TSTBR14", 279); ("R_AARCH64_CONDBR19", 280);
   ("R_AARCH64_JUMP26", 282); ("R_AARCH64_CALL26", 283); ("R_AARCH64_LDST16_ABS_LO12_NC", 284);
   ("R_AARCH64_LDST32_ABS_LO12_NC", 285); ("R_AARCH64_LDST64_ABS_LO12_NC", 286);
   ("R_AARCH64_MOVW_PREL_G0", 287); ("R_AARCH64_MOVW_PREL_G0_NC", 288); ("R_AARCH64_MOVW_PREL_G1", 289);
   ("R_AARCH64_MOVW_PREL_G1_NC", 290); ("R_AARCH64_MOVW_PREL_G2", 291); ("R_AARCH64_MOVW_PREL_G2_NC", 292);
   ("R_AARCH64_MOVW_PREL_G3", 293); ("R_AARCH64_LDST128_ABS_LO12_NC", 299);
   ("R_AARCH64_MOVW_GOTOFF_G0", 300); ("R_AARCH64_MOVW_GOTOFF_G0_NC", 301);
   ("R_AARCH64_MOVW_GOTOFF_G1", 302); ("R_AARCH64_MOVW_GOTOFF_G1_NC", 303);
   ("R_AARCH64_MOVW_GOTOFF_G2", 304); ("R_AARCH64_MOVW_GOTOFF_G2_NC", 305);
   ("R_AARCH64_MOVW_GOTOFF_G3", 306); ("R_AARCH64_GOTREL64", 307); ("R_AARCH64_GOTREL32", 308);
   ("R_AARCH64_GOT_LD_PREL19", 309); ("R_AARCH64_LD64_GOTOFF_LO15", 310); ("R_AARCH64_ADR_GOT_PAGE", 311);
   ("R_AARCH64_LD64_GOT_LO12_NC", 312); ("R_AARCH64_LD64_GOTPAGE_LO15", 313);
   ("R_AARCH64_TLSGD_ADR_PREL21", 512); ("R_AARCH64_TLSGD_ADR_PAGE21", 513);
   ("R_AARCH64_TLSGD_ADD_LO12_NC", 514); ("R_AARCH64_TLSGD_MOVW_G1", 515);
   ("R_AARCH64_TLSGD_MOVW_G0_NC", 516); ("R_AARCH64_TLSLD_ADR_PREL21", 517);
   ("R_AARCH64_TLSLD_ADR_PAGE21", 518); ("R_AARCH64_TLSLD_ADD_LO12_NC", 519);
   ("R_AARCH64_TLSLD_MOVW_G1", 520); ("R_AARCH64_TLSLD_MOVW_G0_NC", 521);
   ("R_AARCH64_TLSLD_LD_PREL19", 522); ("R_AARCH64_TLSLD_MOVW_DTPREL_G2", 523);
   ("R_AARCH64_TLSLD_MOVW_DTPREL_G1", 524); ("R_AARCH64_TLSLD_MOVW_DTPREL_G1_NC", 525);
   ("R_AARCH64_TLSLD_MOVW_DTPREL_G0", 526); ("R_AARCH64_TLSLD_MOVW_DTPREL_G0_NC", 527);
   ("R_AARCH64_TLSLD_ADD_DTPREL_HI12", 528); ("R_AARCH64_TLSLD_ADD_DTPREL_LO12", 529);
   ("R_AARCH64_TLSLD_ADD_DTPREL_LO12_NC", 530); ("R_AARCH64_TLSLD_LDST8_DTPREL_LO12", 531);
   ("R_AARCH64_TLSLD_LDST8_DTPREL_LO12_NC", 532); ("R_AARCH64_TLSLD_LDST16_DTPREL_LO12", 533);
   ("R_AARCH64_TLSLD_LDST16_DTPREL_LO12_NC", 534); ("R_AARCH64_TLSLD_LDST32_DTPREL_LO12", 535);
   ("R_AARCH64_TLSLD_LDST32_DTPREL_LO12_NC", 536); ("R_AARCH64_TLSLD_LDST64_DTPREL_LO12", 537);
   ("R_AARCH64_TLSLD_LDST64_DTPREL_LO12_NC", 538); ("R_AARCH64_TLSIE_MOVW_GOTTPREL_G1", 539);
   ("R_AARCH64_TLSIE_MOVW_GOTTPREL_G0_NC", 540); ("R_AARCH64_TLSIE_ADR_GOTTPREL_PAGE21", 541);
   ("R_AARCH64_TLSIE_LD64_GOTTPREL_LO12_NC", 542); ("R_AARCH64_TLSIE_LD_GOTTPREL_PREL19", 543);
   ("R_AARCH64_TLSLE_MOVW_TPREL_G2", 544); ("R_AARCH64_TLSLE_MOVW_TPREL_G1", 545);
   ("R_AARCH64_TLSLE_MOVW_TPREL_G1_NC", 546); ("R_AARCH64_TLSLE_MOVW_TPREL_G0", 547);
   ("R_AARCH64_TLSLE_MOVW_TPREL_G0_NC", 548); ("R_AARCH64_TLSLE_ADD_TPREL_HI12", 549);
   ("R_AARCH64_TLSLE_ADD_TPREL_LO12", 550); ("R_AARCH64_TLSLE_ADD_TPREL_LO12_NC", 551);
   ("R_AARCH64_TLSLE_LDST8_TPREL_LO12", 552); ("R_AARCH64_TLSLE_LDST8_TPREL_LO12_NC", 553);
   ("R_AARCH64_TLSLE_LDST16_TPREL_LO12", 554); ("R_AARCH64_TLSLE_LDST16_TPREL_LO12_NC", 555);
   ("R_AARCH64_TLSLE_LDST32_TPREL_LO12", 556); ("R_AARCH64_TLSLE_LDST32_TPREL_LO12_NC", 557);
   ("R_AARCH64_TLSLE_LDST64_TPREL_LO12", 558); ("R_AARCH64_TLSLE_LDST64_TPREL_LO12_NC", 559);
   ("R_AARCH64_TLSDESC_LD_PREL19", 560); ("R_AARCH64_TLSDESC_ADR_PREL21", 561);
   ("R_AARCH64_TLSDESC_ADR_PAGE21", 562); ("R_AARCH64_TLSDESC_LD64_LO12", 563);
   ("R_AARCH64_TLSDESC_ADD_LO12", 564); ("R_AARCH64_TLSDESC_OFF_G1", 565);
   ("R_AARCH64_TLSDESC_OFF_G0_NC", 566); ("R_AARCH64_TLSDESC_LDR", 567); ("R_AARCH64_TLSDESC_ADD", 568);
   ("R_AARCH64_TLSDESC_CALL", 569); ("R_AARCH64_TLSLE_LDST128_TPREL_LO12", 570);
   ("R_AARCH64_TLSLE_LDST128_TPREL_LO12_NC", 571); ("R_AARCH64_TLSLD_LDST128_DTPREL_LO12", 572);
   ("R_AARCH64_TLSLD_LDST128_DTPREL_LO12_NC", 573); ("R_AARCH64_COPY", 1024); ("R_AARCH64_GLOB_DAT", 1025);
   ("R_AARCH64_JUMP_SLOT", 1026); ("R_AARCH64_RELATIVE", 1027); ("R_AARCH64_TLS_DTPMOD", 1028);
   ("R_AARCH64_TLS_DTPREL", 1029); ("R_AARCH64_TLS_TPREL", 1030); ("R_AARCH64_TLSDESC", 1031);
   ("R_AARCH64_IRELATIVE", 1032)].

(** ARM, first half *)
Definition r_arm_low : constants :=
  [("R_ARM_NONE", 0); ("R_ARM_PC24", 1); ("R_ARM_ABS32", 2); ("R_ARM_REL32", 3); ("R_ARM_PC13", 4);
   ("R_ARM_ABS16", 5); ("R_ARM_ABS12", 6); ("R_ARM_THM_ABS5", 7); ("R_ARM_ABS8", 8); ("R_ARM_SBREL32", 9);
   ("R_ARM_THM_PC22", 10); ("R_ARM_THM_PC8", 11); ("R_ARM_AMP_VCALL9", 12); ("R_ARM_SWI24", 13);
   ("R_ARM_TLS_DESC", 13); ("R_ARM_THM_SWI8", 14); ("R_ARM_XPC25", 15); ("R_ARM_THM_XPC22", 16);
   ("R_ARM_TLS_DTPMOD32", 17); ("R_ARM_TLS_DTPOFF32", 18); ("R_ARM_TLS_TPOFF32", 19); ("R_ARM_COPY", 20);
   ("R_ARM_GLOB_DAT", 21); ("R_ARM_JUMP_SLOT", 22); ("R_ARM_RELATIVE", 23); ("R_ARM_GOTOFF", 24);
   ("R_ARM_GOTPC", 25); ("R_ARM_GOT32", 26); ("R_ARM_PLT32", 27); ("R_ARM_CALL", 28); ("R_ARM_JUMP24", 29);
   ("R_ARM_THM_JUMP24", 30); ("R_ARM_BASE_ABS", 31); ("R_ARM_ALU_PCREL_7_0", 32);
   ("R_ARM_ALU_PCREL_15_8", 33); ("R_ARM_ALU_PCREL_23_15", 34); ("R_ARM_LDR_SBREL_11_0", 35);
   ("R_ARM_ALU_SBREL_19_12", 36); ("R_ARM_ALU_SBREL_27_20", 37); ("R_ARM_TARGET1", 38);
   ("R_ARM_SBREL31", 39); ("R_ARM_V4BX", 40); ("R_ARM_TARGET2", 41); ("R_ARM_PREL31", 42);
   ("R_ARM_MOVW_ABS_NC", 43); ("R_ARM_MOVT_ABS", 44); ("R_ARM_MOVW_PREL_NC", 45); ("R_ARM_MOVT_PREL", 46);
   ("R_ARM_THM_MOVW_ABS_NC", 47); ("R_ARM_THM_MOVT_ABS", 48); ("R_ARM_THM_MOVW_PREL_NC", 49);
   ("R_ARM_THM_MOVT_PREL", 50); ("R_ARM_THM_JUMP19", 51); ("R_ARM_THM_JUMP6", 52);
   ("R_ARM_THM_ALU_PREL_11_0", 53); ("R_ARM_THM_PC12", 54); ("R_ARM_ABS32_NOI", 55);
   ("R_ARM_REL32_NOI", 56); ("R_ARM_ALU_PC_G0_NC", 57); ("R_ARM_ALU_PC_G0", 58);
   ("R_ARM_ALU_PC_G1_NC", 59); ("R_ARM_ALU_PC_G1", 60); ("R_ARM_ALU_PC_G2", 61); ("R_ARM_LDR_PC_G1", 62);
   ("R_ARM_LDR_PC_G2", 63); ("R_ARM_LDRS_PC_G0", 64); ("R_ARM_LDRS_PC_G1", 65); ("R_ARM_LDRS_PC_G2", 66);
   ("R_ARM_LDC_PC_G0", 67); ("R_ARM_LDC_PC_G1", 68)].

(** ARM, second half *)
Definition r_arm_high : constants :=
  [("R_ARM_LDC_PC_G2", 69); ("R_ARM_ALU_SB_G0_NC", 70); ("R_ARM_ALU_SB_G0", 71);
   ("R_ARM_ALU_SB_G1_NC", 72); ("R_ARM_ALU_SB_G1", 73); ("R_ARM_ALU_SB_G2", 74); ("R_ARM_LDR_SB_G0", 75);
   ("R_ARM_LDR_SB_G1", 76); ("R_ARM_LDR_SB_G2", 77); ("R_ARM_LDRS_SB_G0", 78); ("R_ARM_LDRS_SB_G1", 79);
   ("R_ARM_LDRS_SB_G2", 80); ("R_ARM_LDC_SB_G0", 81); ("R_ARM_LDC_SB_G1", 82); ("R_ARM_LDC_SB_G2", 83);
   ("R_ARM_MOVW_BREL_NC", 84); ("R_ARM_MOVT_BREL", 85); ("R_ARM_MOVW_BREL", 86);
   ("R_ARM_THM_MOVW_BREL_NC", 87); ("R_ARM_THM_MOVT_BREL", 88); ("R_ARM_THM_MOVW_BREL", 89);
   ("R_ARM_TLS_GOTDESC", 90); ("R_ARM_TLS_CALL", 91); ("R_ARM_TLS_DESCSEQ", 92);
   ("R_ARM_THM_TLS_CALL", 93); ("R_ARM_PLT32_ABS", 94); ("R_ARM_GOT_ABS", 95); ("R_ARM_GOT_PREL", 96);
   ("R_ARM_GOT_BREL12", 97); ("R_ARM_GOTOFF12", 98); ("R_ARM_GOTRELAX", 99); ("R_ARM_GNU_VTENTRY", 100);
   ("R_ARM_GNU_VTINHERIT", 101); ("R_ARM_THM_PC11", 102); ("R_ARM_THM_PC9", 103); ("R_ARM_TLS_GD32", 104);
   ("R_ARM_TLS_LDM32", 105); ("R_ARM_TLS_LDO32", 106); ("R_ARM_TLS_IE32", 107); ("R_ARM_TLS_LE32", 108);
   ("R_ARM_TLS_LDO12", 109); ("R_ARM_TLS_LE12", 110); ("R_ARM_TLS_IE12GP", 111); ("R_ARM_ME_TOO", 128);
   ("R_ARM_THM_TLS_DESCSEQ", 129); ("R_ARM_THM_TLS_DESCSEQ16", 129); ("R_ARM_THM_TLS_DESCSEQ32", 130);
   ("R_ARM_THM_GOT_BREL12", 131); ("R_ARM_IRELATIVE", 160); ("R_ARM_RXPC25", 249); ("R_ARM_RSBREL32", 250);
   ("R_ARM_THM_RPC22", 251); ("R_ARM_RREL32", 252); ("R_ARM_RABS22", 253); ("R_ARM_RPC24", 254);
   ("R_ARM_RBASE", 255); ("R_ARM_NUM", 256)].

(** C-SKY *)
Definition r_ckcore_constants : constants :=
  [("R_CKCORE_NONE", 0); ("R_CKCORE_ADDR32", 1); ("R_CKCORE_PCRELIMM8BY4", 2);
   ("R_CKCORE_PCRELIMM11BY2", 3); ("R_CKCORE_PCREL32", 5); ("R_CKCORE_PCRELJSR_IMM11BY2", 6);
   ("R_CKCORE_RELATIVE", 9); ("R_CKCORE_COPY", 10); ("R_CKCORE_GLOB_DAT", 11); ("R_CKCORE_JUMP_SLOT", 12);
   ("R_CKCORE_GOTOFF", 13); ("R_CKCORE_GOTPC", 14); ("R_CKCORE_GOT32", 15); ("R_CKCORE_PLT32", 16);
   ("R_CKCORE_ADDRGOT", 17); ("R_CKCORE_ADDRPLT", 18); ("R_CKCORE_PCREL_IMM26BY2", 19);
   ("R_CKCORE_PCREL_IMM16BY2", 20); ("R_CKCORE_PCREL_IMM16BY4", 21); ("R_CKCORE_PCREL_IMM10BY2", 22);
   ("R_CKCORE_PCREL_IMM10BY4", 23); ("R_CKCORE_ADDR_HI16", 24); ("R_CKCORE_ADDR_LO16", 25);
   ("R_CKCORE_GOTPC_HI16", 26); ("R_CKCORE_GOTPC_LO16", 27); ("R_CKCORE_GOTOFF_HI16", 28);
   ("R_CKCORE_GOTOFF_LO16", 29); ("R_CKCORE_GOT12", 30); ("R_CKCORE_GOT_HI16", 31);
   ("R_CKCORE_GOT_LO16", 32); ("R_CKCORE_PLT12", 33); ("R_CKCORE_PLT_HI16", 34); ("R_CKCORE_PLT_LO16", 35);
   ("R_CKCORE_ADDRGOT_HI16", 36); ("R_CKCORE_ADDRGOT_LO16", 37); ("R_CKCORE_ADDRPLT_HI16", 38);
   ("R_CKCORE_ADDRPLT_LO16", 39); ("R_CKCORE_PCREL_JSR_IMM26BY2", 40); ("R_CKCORE_TOFFSET_LO16", 41);
   ("R_CKCORE_DOFFSET_LO16", 42); ("R_CKCORE_PCREL_IMM18BY2", 43); ("R_CKCORE_DOFFSET_IMM18", 44);
   ("R_CKCORE_DOFFSET_IMM18BY2", 45); ("R_CKCORE_DOFFSET_IMM18BY4", 46); ("R_CKCORE_GOT_IMM18BY4", 48);
   ("R_CKCORE_PLT_IMM18BY4", 49); ("R_CKCORE_PCREL_IMM7BY4", 50); ("R_CKCORE_TLS_LE32", 51);
   ("R_CKCORE_TLS_IE32", 52); ("R_CKCORE_TLS_GD32", 53); ("R_CKCORE_TLS_LDM32", 54);
   ("R_CKCORE_TLS_LDO32", 55); ("R_CKCORE_TLS_DTPMOD32", 56); ("R_CKCORE_TLS_DTPOFF32", 57);
   ("R_CKCORE_TLS_TPOFF32", 58)].

(** IA-64 *)
Definition r_ia64_constants : constants :=
  [("R_IA64_NONE", 0x00); ("R_IA64_IMM14", 0x21); ("R_IA64_IMM22", 0x22); ("R_IA64_IMM64", 0x23);
   ("R_IA64_DIR32MSB", 0x24); ("R_IA64_DIR32LSB", 0x25); ("R_IA64_DIR64MSB", 0x26);
   ("R_IA64_DIR64LSB", 0x27); ("R_IA64_GPREL22", 0x2a); ("R_IA64_GPREL64I", 0x2b);
   ("R_IA64_GPREL32MSB", 0x2c); ("R_IA64_GPREL32LSB", 0x2d); ("R_IA64_GPREL64MSB", 0x2e);
   ("R_IA64_GPREL64LSB", 0x2f); ("R_IA64_LTOFF22", 0x32); ("R_IA64_LTOFF64I", 0x33);
   ("R_IA64_PLTOFF22", 0x3a); ("R_IA64_PLTOFF64I", 0x3b); ("R_IA64_PLTOFF64MSB", 0x3e);
   ("R_IA64_PLTOFF64LSB", 0x3f); ("R_IA64_FPTR64I", 0x43); ("R_IA64_FPTR32MSB", 0x44);
   ("R_IA64_FPTR32LSB", 0x45); ("R_IA64_FPTR64MSB", 0x46); ("R_IA64_FPTR64LSB", 0x47);
   ("R_IA64_PCREL60B", 0x48); ("R_IA64_PCREL21B", 0x49); ("R_IA64_PCREL21M", 0x4a);
   ("R_IA64_PCREL21F", 0x4b); ("R_IA64_PCREL32MSB", 0x4c); ("R_IA64_PCREL32LSB", 0x4d);
   ("R_IA64_PCREL64MSB", 0x4e); ("R_IA64_PCREL64LSB", 0x4f); ("R_IA64_LTOFF_FPTR22", 0x52);
   ("R_IA64_LTOFF_FPTR64I", 0x53); ("R_IA64_LTOFF_FPTR32MSB", 0x54); ("R_IA64_LTOFF_FPTR32LSB", 0x55);
   ("R_IA64_LTOFF_FPTR64MSB", 0x56); ("R_IA64_LTOFF_FPTR64LSB", 0x57); ("R_IA64_SEGREL32MSB", 0x5c);
   ("R_IA64_SEGREL32LSB", 0x5d); ("R_IA64_SEGREL64MSB", 0x5e); ("R_IA64_SEGREL64LSB", 0x5f);
   ("R_IA64_SECREL32MSB", 0x64); ("R_IA64_SECREL32LSB", 0x65); ("R_IA64_SECREL64MSB", 0x66);
   ("R_IA64_SECREL64LSB", 0x67); ("R_IA64_REL32MSB", 0x6c); ("R_IA64_REL32LSB", 0x6d);
   ("R_IA64_REL64MSB", 0x6e); ("R_IA64_REL64LSB", 0x6f); ("R_IA64_LTV32MSB", 0x74);
   ("R_IA64_LTV32LSB", 0x75); ("R_IA64_LTV64MSB", 0x76); ("R_IA64_LTV64LSB", 0x77);
   ("R_IA64_PCREL21BI", 0x79); ("R_IA64_PCREL22", 0x7a); ("R_IA64_PCREL64I", 0x7b);
   ("R_IA64_IPLTMSB", 0x80); ("R_IA64_IPLTLSB", 0x81); ("R_IA64_COPY", 0x84); ("R_IA64_SUB", 0x85);
   ("R_IA64_LTOFF22X", 0x86); ("R_IA64_LDXMOV", 0x87); ("R_IA64_TPREL14", 0x91); ("R_IA64_TPREL22", 0x92);
   ("R_IA64_TPREL64I", 0x93); ("R_IA64_TPREL64MSB", 0x96); ("R_IA64_TPREL64LSB", 0x97);
   ("R_IA64_LTOFF_TPREL22", 0x9a); ("R_IA64_DTPMOD64MSB", 0xa6); ("R_IA64_DTPMOD64LSB", 0xa7);
   ("R_IA64_LTOFF_DTPMOD22", 0xaa); ("R_IA64_DTPREL14", 0xb1); ("R_IA64_DTPREL22", 0xb2);
   ("R_IA64_DTPREL64I", 0xb3); ("R_IA64_DTPREL32MSB", 0xb4); ("R_IA64_DTPREL32LSB", 0xb5);
   ("R_IA64_DTPREL64MSB", 0xb6); ("R_IA64_DTPREL64LSB", 0xb7); ("R_IA64_LTOFF_DTPREL22", 0xba)].

(** SuperH *)
Definition r_sh_constants : constants :=
  [("R_SH_NONE", 0); ("R_SH_DIR32", 1); ("R_SH_REL32", 2); ("R_SH_DIR8WPN", 3); ("R_SH_IND12W", 4);
   ("R_SH_DIR8WPL", 5); ("R_SH_DIR8WPZ", 6); ("R_SH_DIR8BP", 7); ("R_SH_DIR8W", 8); ("R_SH_DIR8L", 9);
   ("R_SH_SWITCH16", 25); ("R_SH_SWITCH32", 26); ("R_SH_USES", 27); ("R_SH_COUNT", 28); ("R_SH_ALIGN", 29);
   ("R_SH_CODE", 30); ("R_SH_DATA", 31); ("R_SH_LABEL", 32); ("R_SH_SWITCH8", 33);
   ("R_SH_GNU_VTINHERIT", 34); ("R_SH_GNU_VTENTRY", 35); ("R_SH_TLS_GD_32", 144); ("R_SH_TLS_LD_32", 145);
   ("R_SH_TLS_LDO_32", 146); ("R_SH_TLS_IE_32", 147); ("R_SH_TLS_LE_32", 148); ("R_SH_TLS_DTPMOD32", 149);
   ("R_SH_TLS_DTPOFF32", 150); ("R_SH_TLS_TPOFF32", 151); ("R_SH_GOT32", 160); ("R_SH_PLT32", 161);
   ("R_SH_COPY", 162); ("R_SH_GLOB_DAT", 163); ("R_SH_JMP_SLOT", 164); ("R_SH_RELATIVE", 165);
   ("R_SH_GOTOFF", 166); ("R_SH_GOTPC", 167); ("R_SH_NUM", 256)].

(** S/390 *)
Definition r_390_constants : constants :=
  [("R_390_NONE", 0); ("R_390_8", 1); ("R_390_12", 2); ("R_390_16", 3); ("R_390_32", 4); ("R_390_PC32", 5);
   ("R_390_GOT12", 6); ("R_390_GOT32", 7); ("R_390_PLT32", 8); ("R_390_COPY", 9); ("R_390_GLOB_DAT", 10);
   ("R_390_JMP_SLOT", 11); ("R_390_RELATIVE", 12); ("R_390_GOTOFF32", 13); ("R_390_GOTPC", 14);
   ("R_390_GOT16", 15); ("R_390_PC16", 16); ("R_390_PC16DBL", 17); ("R_390_PLT16DBL", 18);
   ("R_390_PC32DBL", 19); ("R_390_PLT32DBL", 20); ("R_390_GOTPCDBL", 21); ("R_390_64", 22);
   ("R_390_PC64", 23); ("R_390_GOT64", 24); ("R_390_PLT64", 25); ("R_390_GOTENT", 26);
   ("R_390_GOTOFF16", 27); ("R_390_GOTOFF64", 28); ("R_390_GOTPLT12", 29); ("R_390_GOTPLT16", 30);
   ("R_390_GOTPLT32", 31); ("R_390_GOTPLT64", 32); ("R_390_GOTPLTENT", 33); ("R_390_PLTOFF16", 34);
   ("R_390_PLTOFF32", 35); ("R_390_PLTOFF64", 36); ("R_390_TLS_LOAD", 37); ("R_390_TLS_GDCALL", 38);
   ("R_390_TLS_LDCALL", 39); ("R_390_TLS_GD32", 40); ("R_390_TLS_GD64", 41); ("R_390_TLS_GOTIE12", 42);
   ("R_390_TLS_GOTIE32", 43); ("R_390_TLS_GOTIE64", 44); ("R_390_TLS_LDM32", 45); ("R_390_TLS_LDM64", 46);
   ("R_390_TLS_IE32", 47); ("R_390_TLS_IE64", 48); ("R_390_TLS_IEENT", 49); ("R_390_TLS_LE32", 50);
   ("R_390_TLS_LE64", 51); ("R_390_TLS_LDO32", 52); ("R_390_TLS_LDO64", 53); ("R_390_TLS_DTPMOD", 54);
   ("R_390_TLS_DTPOFF", 55); ("R_390_TLS_TPOFF", 56); ("R_390_20", 57); ("R_390_GOT20", 58);
   ("R_390_GOTPLT20", 59); ("R_390_TLS_GOTIE20", 60); ("R_390_IRELATIVE", 61); ("R_390_NUM", 62)].

(** CRIS *)
Definition r_cris_constants : constants :=
  [("R_CRIS_NONE", 0); ("R_CRIS_8", 1); ("R_CRIS_16", 2); ("R_CRIS_32", 3); ("R_CRIS_8_PCREL", 4);
   ("R_CRIS_16_PCREL", 5); ("R_CRIS_32_PCREL", 6); ("R_CRIS_GNU_VTINHERIT", 7); ("R_CRIS_GNU_VTENTRY", 8);
   ("R_CRIS_COPY", 9); ("R_CRIS_GLOB_DAT", 10); ("R_CRIS_JUMP_SLOT", 11); ("R_CRIS_RELATIVE", 12);
   ("R_CRIS_16_GOT", 13); ("R_CRIS_32_GOT", 14); ("R_CRIS_16_GOTPLT", 15); ("R_CRIS_32_GOTPLT", 16);
   ("R_CRIS_32_GOTREL", 17); ("R_CRIS_32_PLT_GOTREL", 18); ("R_CRIS_32_PLT_PCREL", 19); ("R_CRIS_NUM", 20)].

(** AM33 *)
Definition r_mn10300_constants : constants :=
  [("R_MN10300_NONE", 0); ("R_MN10300_32", 1); ("R_MN10300_16", 2); ("R_MN10300_8", 3);
   ("R_MN10300_PCREL32", 4); ("R_MN10300_PCREL16", 5); ("R_MN10300_PCREL8", 6);
   ("R_MN10300_GNU_VTINHERIT", 7); ("R_MN10300_GNU_VTENTRY", 8); ("R_MN10300_24", 9);
   ("R_MN10300_GOTPC32", 10); ("R_MN10300_GOTPC16", 11); ("R_MN10300_GOTOFF32", 12);
   ("R_MN10300_GOTOFF24", 13); ("R_MN10300_GOTOFF16", 14); ("R_MN10300_PLT32", 15);
   ("R_MN10300_PLT16", 16); ("R_MN10300_GOT32", 17); ("R_MN10300_GOT24", 18); ("R_MN10300_GOT16", 19);
   ("R_MN10300_COPY", 20); ("R_MN10300_GLOB_DAT", 21); ("R_MN10300_JMP_SLOT", 22);
   ("R_MN10300_RELATIVE", 23); ("R_MN10300_TLS_GD", 24); ("R_MN10300_TLS_LD", 25);
   ("R_MN10300_TLS_LDO", 26); ("R_MN10300_TLS_GOTIE", 27); ("R_MN10300_TLS_IE", 28);
   ("R_MN10300_TLS_LE", 29); ("R_MN10300_TLS_DTPMOD", 30); ("R_MN10300_TLS_DTPOFF", 31);
   ("R_MN10300_TLS_TPOFF", 32); ("R_MN10300_SYM_DIFF", 33); ("R_MN10300_ALIGN", 34); ("R_MN10300_NUM", 35)].

(** M32R *)
Definition r_m32r_constants : constants :=
  [("R_M32R_NONE", 0); ("R_M32R_16", 1); ("R_M32R_32", 2); ("R_M32R_24", 3); ("R_M32R_10_PCREL", 4);
   ("R_M32R_18_PCREL", 5); ("R_M32R_26_PCREL", 6); ("R_M32R_HI16_ULO", 7); ("R_M32R_HI16_SLO", 8);
   ("R_M32R_LO16", 9); ("R_M32R_SDA16", 10); ("R_M32R_GNU_VTINHERIT", 11); ("R_M32R_GNU_VTENTRY", 12);
   ("R_M32R_16_RELA", 33); ("R_M32R_32_RELA", 34); ("R_M32R_24_RELA", 35); ("R_M32R_10_PCREL_RELA", 36);
   ("R_M32R_18_PCREL_RELA", 37); ("R_M32R_26_PCREL_RELA", 38); ("R_M32R_HI16_ULO_RELA", 39);
   ("R_M32R_HI16_SLO_RELA", 40); ("R_M32R_LO16_RELA", 41); ("R_M32R_SDA16_RELA", 42);
   ("R_M32R_RELA_GNU_VTINHERIT", 43); ("R_M32R_RELA_GNU_VTENTRY", 44); ("R_M32R_REL32", 45);
   ("R_M32R_GOT24", 48); ("R_M32R_26_PLTREL", 49); ("R_M32R_COPY", 50); ("R_M32R_GLOB_DAT", 51);
   ("R_M32R_JMP_SLOT", 52); ("R_M32R_RELATIVE", 53); ("R_M32R_GOTOFF", 54); ("R_M32R_GOTPC24", 55);
   ("R_M32R_GOT16_HI_ULO", 56); ("R_M32R_GOT16_HI_SLO", 57); ("R_M32R_GOT16_LO", 58);
   ("R_M32R_GOTPC_HI_ULO", 59); ("R_M32R_GOTPC_HI_SLO", 60); ("R_M32R_GOTPC_LO", 61);
   ("R_M32R_GOTOFF_HI_ULO", 62); ("R_M32R_GOTOFF_HI_SLO", 63); ("R_M32R_GOTOFF_LO", 64);
   ("R_M32R_NUM", 256)].

(** MicroBlaze *)
Definition r_microblaze_constants : constants :=
  [("R_MICROBLAZE_NONE", 0); ("R_MICROBLAZE_32", 1); ("R_MICROBLAZE_32_PCREL", 2);
   ("R_MICROBLAZE_64_PCREL", 3); ("R_MICROBLAZE_32_PCREL_LO", 4); ("R_MICROBLAZE_64", 5);
   ("R_MICROBLAZE_32_LO", 6); ("R_MICROBLAZE_SRO32", 7); ("R_MICROBLAZE_SRW32", 8);
   ("R_MICROBLAZE_64_NONE", 9); ("R_MICROBLAZE_32_SYM_OP_SYM", 10); ("R_MICROBLAZE_GNU_VTINHERIT", 11);
   ("R_MICROBLAZE_GNU_VTENTRY", 12); ("R_MICROBLAZE_GOTPC_64", 13); ("R_MICROBLAZE_GOT_64", 14);
   ("R_MICROBLAZE_PLT_64", 15); ("R_MICROBLAZE_REL", 16); ("R_MICROBLAZE_JUMP_SLOT", 17);
   ("R_MICROBLAZE_GLOB_DAT", 18); ("R_MICROBLAZE_GOTOFF_64", 19); ("R_MICROBLAZE_GOTOFF_32", 20);
   ("R_MICROBLAZE_COPY", 21); ("R_MICROBLAZE_TLS", 22); ("R_MICROBLAZE_TLSGD", 23);
   ("R_MICROBLAZE_TLSLD", 24); ("R_MICROBLAZE_TLSDTPMOD32", 25); ("R_MICROBLAZE_TLSDTPREL32", 26);
   ("R_MICROBLAZE_TLSDTPREL64", 27); ("R_MICROBLAZE_TLSGOTTPREL32", 28); ("R_MICROBLAZE_TLSTPREL32", 29)].

(** Nios II *)
Definition r_nios2_constants : constants :=
  [("R_NIOS2_NONE", 0); ("R_NIOS2_S16", 1); ("R_NIOS2_U16", 2); ("R_NIOS2_PCREL16", 3);
   ("R_NIOS2_CALL26", 4); ("R_NIOS2_IMM5", 5); ("R_NIOS2_CACHE_OPX", 6); ("R_NIOS2_IMM6", 7);
   ("R_NIOS2_IMM8", 8); ("R_NIOS2_HI16", 9); ("R_NIOS2_LO16", 10); ("R_NIOS2_HIADJ16", 11);
   ("R_NIOS2_BFD_RELOC_32", 12); ("R_NIOS2_BFD_RELOC_16", 13); ("R_NIOS2_BFD_RELOC_8", 14);
   ("R_NIOS2_GPREL", 15); ("R_NIOS2_GNU_VTINHERIT", 16); ("R_NIOS2_GNU_VTENTRY", 17); ("R_NIOS2_UJMP", 18);
   ("R_NIOS2_CJMP", 19); ("R_NIOS2_CALLR", 20); ("R_NIOS2_ALIGN", 21); ("R_NIOS2_GOT16", 22);
   ("R_NIOS2_CALL16", 23); ("R_NIOS2_GOTOFF_LO", 24); ("R_NIOS2_GOTOFF_HA", 25); ("R_NIOS2_PCREL_LO", 26);
   ("R_NIOS2_PCREL_HA", 27); ("R_NIOS2_TLS_GD16", 28); ("R_NIOS2_TLS_LDM16", 29);
   ("R_NIOS2_TLS_LDO16", 30); ("R_NIOS2_TLS_IE16", 31); ("R_NIOS2_TLS_LE16", 32);
   ("R_NIOS2_TLS_DTPMOD", 33); ("R_NIOS2_TLS_DTPREL", 34); ("R_NIOS2_TLS_TPREL", 35); ("R_NIOS2_COPY", 36);
   ("R_NIOS2_GLOB_DAT", 37); ("R_NIOS2_JUMP_SLOT", 38); ("R_NIOS2_RELATIVE", 39); ("R_NIOS2_GOTOFF", 40);
   ("R_NIOS2_CALL26_NOAT", 41); ("R_NIOS2_GOT_LO", 42); ("R_NIOS2_GOT_HA", 43); ("R_NIOS2_CALL_LO", 44);
   ("R_NIOS2_CALL_HA", 45)].

(** TILEPro *)
Definition r_tilepro_constants : constants :=
  [("R_TILEPRO_NONE", 0); ("R_TILEPRO_32", 1); ("R_TILEPRO_16", 2); ("R_TILEPRO_8", 3);
   ("R_TILEPRO_32_PCREL", 4); ("R_TILEPRO_16_PCREL", 5); ("R_TILEPRO_8_PCREL", 6); ("R_TILEPRO_LO16", 7);
   ("R_TILEPRO_HI16", 8); ("R_TILEPRO_HA16", 9); ("R_TILEPRO_COPY", 10); ("R_TILEPRO_GLOB_DAT", 11);
   ("R_TILEPRO_JMP_SLOT", 12); ("R_TILEPRO_RELATIVE", 13); ("R_TILEPRO_BROFF_X1", 14);
   ("R_TILEPRO_JOFFLONG_X1", 15); ("R_TILEPRO_JOFFLONG_X1_PLT", 16); ("R_TILEPRO_IMM8_X0", 17);
   ("R_TILEPRO_IMM8_Y0", 18); ("R_TILEPRO_IMM8_X1", 19); ("R_TILEPRO_IMM8_Y1", 20);
   ("R_TILEPRO_MT_IMM15_X1", 21); ("R_TILEPRO_MF_IMM15_X1", 22); ("R_TILEPRO_IMM16_X0", 23);
   ("R_TILEPRO_IMM16_X1", 24); ("R_TILEPRO_IMM16_X0_LO", 25); ("R_TILEPRO_IMM16_X1_LO", 26);
   ("R_TILEPRO_IMM16_X0_HI", 27); ("R_TILEPRO_IMM16_X1_HI", 28); ("R_TILEPRO_IMM16_X0_HA", 29);
   ("R_TILEPRO_IMM16_X1_HA", 30); ("R_TILEPRO_IMM16_X0_PCREL", 31); ("R_TILEPRO_IMM16_X1_PCREL", 32);
   ("R_TILEPRO_IMM16_X0_LO_PCREL", 33); ("R_TILEPRO_IMM16_X1_LO_PCREL", 34);
   ("R_TILEPRO_IMM16_X0_HI_PCREL", 35); ("R_TILEPRO_IMM16_X1_HI_PCREL", 36);
   ("R_TILEPRO_IMM16_X0_HA_PCREL", 37); ("R_TILEPRO_IMM16_X1_HA_PCREL", 38);
   ("R_TILEPRO_IMM16_X0_GOT", 39); ("R_TILEPRO_IMM16_X1_GOT", 40); ("R_TILEPRO_IMM16_X0_GOT_LO", 41);
   ("R_TILEPRO_IMM16_X1_GOT_LO", 42); ("R_TILEPRO_IMM16_X0_GOT_HI", 43); ("R_TILEPRO_IMM16_X1_GOT_HI", 44);
   ("R_TILEPRO_IMM16_X0_GOT_HA", 45); ("R_TILEPRO_IMM16_X1_GOT_HA", 46); ("R_TILEPRO_MMSTART_X0", 47);
   ("R_TILEPRO_MMEND_X0", 48); ("R_TILEPRO_MMSTART_X1", 49); ("R_TILEPRO_MMEND_X1", 50);
   ("R_TILEPRO_SHAMT_X0", 51); ("R_TILEPRO_SHAMT_X1", 52); ("R_TILEPRO_SHAMT_Y0", 53);
   ("R_TILEPRO_SHAMT_Y1", 54); ("R_TILEPRO_DEST_IMM8_X1", 55); ("R_TILEPRO_TLS_GD_CALL", 60);
   ("R_TILEPRO_IMM8_X0_TLS_GD_ADD", 61); ("R_TILEPRO_IMM8_X1_TLS_GD_ADD", 62);
   ("R_TILEPRO_IMM8_Y0_TLS_GD_ADD", 63); ("R_TILEPRO_IMM8_Y1_TLS_GD_ADD", 64);
   ("R_TILEPRO_TLS_IE_LOAD", 65); ("R_TILEPRO_IMM16_X0_TLS_GD", 66); ("R_TILEPRO_IMM16_X1_TLS_GD", 67);
   ("R_TILEPRO_IMM16_X0_TLS_GD_LO", 68); ("R_TILEPRO_IMM16_X1_TLS_GD_LO", 69);
   ("R_TILEPRO_IMM16_X0_TLS_GD_HI", 70); ("R_TILEPRO_IMM16_X1_TLS_GD_HI", 71);
   ("R_TILEPRO_IMM16_X0_TLS_GD_HA", 72); ("R_TILEPRO_IMM16_X1_TLS_GD_HA", 73);
   ("R_TILEPRO_IMM16_X0_TLS_IE", 74); ("R_TILEPRO_IMM16_X1_TLS_IE", 75);
   ("R_TILEPRO_IMM16_X0_TLS_IE_LO", 76); ("R_TILEPRO_IMM16_X1_TLS_IE_LO", 77);
   ("R_TILEPRO_IMM16_X0_TLS_IE_HI", 78); ("R_TILEPRO_IMM16_X1_TLS_IE_HI", 79);
   ("R_TILEPRO_IMM16_X0_TLS_IE_HA", 80); ("R_TILEPRO_IMM16_X1_TLS_IE_HA", 81);
   ("R_TILEPRO_TLS_DTPMOD32", 82); ("R_TILEPRO_TLS_DTPOFF32", 83); ("R_TILEPRO_TLS_TPOFF32", 84);
   ("R_TILEPRO_IMM16_X0_TLS_LE", 85); ("R_TILEPRO_IMM16_X1_TLS_LE", 86);
   ("R_TILEPRO_IMM16_X0_TLS_LE_LO", 87); ("R_TILEPRO_IMM16_X1_TLS_LE_LO", 88);
   ("R_TILEPRO_IMM16_X0_TLS_LE_HI", 89); ("R_TILEPRO_IMM16_X1_TLS_LE_HI", 90);
   ("R_TILEPRO_IMM16_X0_TLS_LE_HA", 91); ("R_TILEPRO_IMM16_X1_TLS_LE_HA", 92);
   ("R_TILEPRO_GNU_VTINHERIT", 128); ("R_TILEPRO_GNU_VTENTRY", 129); ("R_TILEPRO_NUM", 130)].

(** TILE-Gx *)
Definition r_tilegx_constants : constants :=
  [("R_TILEGX_NONE", 0); ("R_TILEGX_64", 1); ("R_TILEGX_32", 2); ("R_TILEGX_16", 3); ("R_TILEGX_8", 4);
   ("R_TILEGX_64_PCREL", 5); ("R_TILEGX_32_PCREL", 6); ("R_TILEGX_16_PCREL", 7); ("R_TILEGX_8_PCREL", 8);
   ("R_TILEGX_HW0", 9); ("R_TILEGX_HW1", 10); ("R_TILEGX_HW2", 11); ("R_TILEGX_HW3", 12);
   ("R_TILEGX_HW0_LAST", 13); ("R_TILEGX_HW1_LAST", 14); ("R_TILEGX_HW2_LAST", 15); ("R_TILEGX_COPY", 16);
   ("R_TILEGX_GLOB_DAT", 17); ("R_TILEGX_JMP_SLOT", 18); ("R_TILEGX_RELATIVE", 19);
   ("R_TILEGX_BROFF_X1", 20); ("R_TILEGX_JUMPOFF_X1", 21); ("R_TILEGX_JUMPOFF_X1_PLT", 22);
   ("R_TILEGX_IMM8_X0", 23); ("R_TILEGX_IMM8_Y0", 24); ("R_TILEGX_IMM8_X1", 25); ("R_TILEGX_IMM8_Y1", 26);
   ("R_TILEGX_DEST_IMM8_X1", 27); ("R_TILEGX_MT_IMM14_X1", 28); ("R_TILEGX_MF_IMM14_X1", 29);
   ("R_TILEGX_MMSTART_X0", 30); ("R_TILEGX_MMEND_X0", 31); ("R_TILEGX_SHAMT_X0", 32);
   ("R_TILEGX_SHAMT_X1", 33); ("R_TILEGX_SHAMT_Y0", 34); ("R_TILEGX_SHAMT_Y1", 35);
   ("R_TILEGX_IMM16_X0_HW0", 36); ("R_TILEGX_IMM16_X1_HW0", 37); ("R_TILEGX_IMM16_X0_HW1", 38);
   ("R_TILEGX_IMM16_X1_HW1", 39); ("R_TILEGX_IMM16_X0_HW2", 40); ("R_TILEGX_IMM16_X1_HW2", 41);
   ("R_TILEGX_IMM16_X0_HW3", 42); ("R_TILEGX_IMM16_X1_HW3", 43); ("R_TILEGX_IMM16_X0_HW0_LAST", 44);
   ("R_TILEGX_IMM16_X1_HW0_LAST", 45); ("R_TILEGX_IMM16_X0_HW1_LAST", 46);
   ("R_TILEGX_IMM16_X1_HW1_LAST", 47); ("R_TILEGX_IMM16_X0_HW2_LAST", 48);
   ("R_TILEGX_IMM16_X1_HW2_LAST", 49); ("R_TILEGX_IMM16_X0_HW0_PCREL", 50);
   ("R_TILEGX_IMM16_X1_HW0_PCREL", 51); ("R_TILEGX_IMM16_X0_HW1_PCREL", 52);
   ("R_TILEGX_IMM16_X1_HW1_PCREL", 53); ("R_TILEGX_IMM16_X0_HW2_PCREL", 54);
   ("R_TILEGX_IMM16_X1_HW2_PCREL", 55); ("R_TILEGX_IMM16_X0_HW3_PCREL", 56);
   ("R_TILEGX_IMM16_X1_HW3_PCREL", 57); ("R_TILEGX_IMM16_X0_HW0_LAST_PCREL", 58);
   ("R_TILEGX_IMM16_X1_HW0_LAST_PCREL", 59); ("R_TILEGX_IMM16_X0_HW1_LAST_PCREL", 60);
   ("R_TILEGX_IMM16_X1_HW1_LAST_PCREL", 61); ("R_TILEGX_IMM16_X0_HW2_LAST_PCREL", 62);
   ("R_TILEGX_IMM16_X1_HW2_LAST_PCREL", 63); ("R_TILEGX_IMM16_X0_HW0_GOT", 64);
   ("R_TILEGX_IMM16_X1_HW0_GOT", 65); ("R_TILEGX_IMM16_X0_HW0_PLT_PCREL", 66);
   ("R_TILEGX_IMM16_X1_HW0_PLT_PCREL", 67); ("R_TILEGX_IMM16_X0_HW1_PLT_PCREL", 68);
   ("R_TILEGX_IMM16_X1_HW1_PLT_PCREL", 69); ("R_TILEGX_IMM16_X0_HW2_PLT_PCREL", 70);
   ("R_TILEGX_IMM16_X1_HW2_PLT_PCREL", 71); ("R_TILEGX_IMM16_X0_HW0_LAST_GOT", 72);
   ("R_TILEGX_IMM16_X1_HW0_LAST_GOT", 73); ("R_TILEGX_IMM16_X0_HW1_LAST_GOT", 74);
   ("R_TILEGX_IMM16_X1_HW1_LAST_GOT", 75); ("R_TILEGX_IMM16_X0_HW3_PLT_PCREL", 76);
   ("R_TILEGX_IMM16_X1_HW3_PLT_PCREL", 77); ("R_TILEGX_IMM16_X0_HW0_TLS_GD", 78);
   ("R_TILEGX_IMM16_X1_HW0_TLS_GD", 79); ("R_TILEGX_IMM16_X0_HW0_TLS_LE", 80);
   ("R_TILEGX_IMM16_X1_HW0_TLS_LE", 81); ("R_TILEGX_IMM16_X0_HW0_LAST_TLS_LE", 82);
   ("R_TILEGX_IMM16_X1_HW0_LAST_TLS_LE", 83); ("R_TILEGX_IMM16_X0_HW1_LAST_TLS_LE", 84);
   ("R_TILEGX_IMM16_X1_HW1_LAST_TLS_LE", 85); ("R_TILEGX_IMM16_X0_HW0_LAST_TLS_GD", 86);
   ("R_TILEGX_IMM16_X1_HW0_LAST_TLS_GD", 87); ("R_TILEGX_IMM16_X0_HW1_LAST_TLS_GD", 88);
   ("R_TILEGX_IMM16_X1_HW1_LAST_TLS_GD", 89); ("R_TILEGX_IMM16_X0_HW0_TLS_IE", 92);
   ("R_TILEGX_IMM16_X1_HW0_TLS_IE", 93); ("R_TILEGX_IMM16_X0_HW0_LAST_PLT_PCREL", 94);
   ("R_TILEGX_IMM16_X1_HW0_LAST_PLT_PCREL", 95); ("R_TILEGX_IMM16_X0_HW1_LAST_PLT_PCREL", 96);
   ("R_TILEGX_IMM16_X1_HW1_LAST_PLT_PCREL", 97); ("R_TILEGX_IMM16_X0_HW2_LAST_PLT_PCREL", 98);
   ("R_TILEGX_IMM16_X1_HW2_LAST_PLT_PCREL", 99); ("R_TILEGX_IMM16_X0_HW0_LAST_TLS_IE", 100);
   ("R_TILEGX_IMM16_X1_HW0_LAST_TLS_IE", 101); ("R_TILEGX_IMM16_X0_HW1_LAST_TLS_IE", 102);
   ("R_TILEGX_IMM16_X1_HW1_LAST_TLS_IE", 103); ("R_TILEGX_TLS_DTPMOD64", 106);
   ("R_TILEGX_TLS_DTPOFF64", 107); ("R_TILEGX_TLS_TPOFF64", 108); ("R_TILEGX_TLS_DTPMOD32", 109);
   ("R_TILEGX_TLS_DTPOFF32", 110); ("R_TILEGX_TLS_TPOFF32", 111); ("R_TILEGX_TLS_GD_CALL", 112);
   ("R_TILEGX_IMM8_X0_TLS_GD_ADD", 113); ("R_TILEGX_IMM8_X1_TLS_GD_ADD", 114);
   ("R_TILEGX_IMM8_Y0_TLS_GD_ADD", 115); ("R_TILEGX_IMM8_Y1_TLS_GD_ADD", 116);
   ("R_TILEGX_TLS_IE_LOAD", 117); ("R_TILEGX_IMM8_X0_TLS_ADD", 118); ("R_TILEGX_IMM8_X1_TLS_ADD", 119);
   ("R_TILEGX_IMM8_Y0_TLS_ADD", 120); ("R_TILEGX_IMM8_Y1_TLS_ADD", 121); ("R_TILEGX_GNU_VTINHERIT", 128);
   ("R_TILEGX_GNU_VTENTRY", 129); ("R_TILEGX_NUM", 130)].

(** RISC-V *)
Definition r_riscv_constants : constants :=
  [("R_RISCV_NONE", 0); ("R_RISCV_32", 1); ("R_RISCV_64", 2); ("R_RISCV_RELATIVE", 3); ("R_RISCV_COPY", 4);
   ("R_RISCV_JUMP_SLOT", 5); ("R_RISCV_TLS_DTPMOD32", 6); ("R_RISCV_TLS_DTPMOD64", 7);
   ("R_RISCV_TLS_DTPREL32", 8); ("R_RISCV_TLS_DTPREL64", 9); ("R_RISCV_TLS_TPREL32", 10);
   ("R_RISCV_TLS_TPREL64", 11); ("R_RISCV_BRANCH", 16); ("R_RISCV_JAL", 17); ("R_RISCV_CALL", 18);
   ("R_RISCV_CALL_PLT", 19); ("R_RISCV_GOT_HI20", 20); ("R_RISCV_TLS_GOT_HI20", 21);
   ("R_RISCV_TLS_GD_HI20", 22); ("R_RISCV_PCREL_HI20", 23); ("R_RISCV_PCREL_LO12_I", 24);
   ("R_RISCV_PCREL_LO12_S", 25); ("R_RISCV_HI20", 26); ("R_RISCV_LO12_I", 27); ("R_RISCV_LO12_S", 28);
   ("R_RISCV_TPREL_HI20", 29); ("R_RISCV_TPREL_LO12_I", 30); ("R_RISCV_TPREL_LO12_S", 31);
   ("R_RISCV_TPREL_ADD", 32); ("R_RISCV_ADD8", 33); ("R_RISCV_ADD16", 34); ("R_RISCV_ADD32", 35);
   ("R_RISCV_ADD64", 36); ("R_RISCV_SUB8", 37); ("R_RISCV_SUB16", 38); ("R_RISCV_SUB32", 39);
   ("R_RISCV_SUB64", 40); ("R_RISCV_GNU_VTINHERIT", 41); ("R_RISCV_GNU_VTENTRY", 42);
   ("R_RISCV_ALIGN", 43); ("R_RISCV_RVC_BRANCH", 44); ("R_RISCV_RVC_JUMP", 45); ("R_RISCV_RVC_LUI", 46);
   ("R_RISCV_GPREL_I", 47); ("R_RISCV_GPREL_S", 48); ("R_RISCV_TPREL_I", 49); ("R_RISCV_TPREL_S", 50);
   ("R_RISCV_RELAX", 51); ("R_RISCV_SUB6", 52); ("R_RISCV_SET6", 53); ("R_RISCV_SET8", 54);
   ("R_RISCV_SET16", 55); ("R_RISCV_SET32", 56); ("R_RISCV_32_PCREL", 57); ("R_RISCV_IRELATIVE", 58);
   ("R_RISCV_PLT32", 59); ("R_RISCV_SET_ULEB128", 60); ("R_RISCV_SUB_ULEB128", 61); ("R_RISCV_NUM", 62)].

(** BPF *)
Definition r_bpf_constants : constants :=
  [("R_BPF_NONE", 0); ("R_BPF_64_64", 1); ("R_BPF_64_32", 10)].

(** Imagination Meta *)
Definition r_metag_constants : constants :=
  [("R_METAG_HIADDR16", 0); ("R_METAG_LOADDR16", 1); ("R_METAG_ADDR32", 2); ("R_METAG_NONE", 3);
   ("R_METAG_RELBRANCH", 4); ("R_METAG_GETSETOFF", 5); ("R_METAG_REG32OP1", 6); ("R_METAG_REG32OP2", 7);
   ("R_METAG_REG32OP3", 8); ("R_METAG_REG16OP1", 9); ("R_METAG_REG16OP2", 10); ("R_METAG_REG16OP3", 11);
   ("R_METAG_REG32OP4", 12); ("R_METAG_HIOG", 13); ("R_METAG_LOOG", 14); ("R_METAG_REL8", 15);
   ("R_METAG_REL16", 16); ("R_METAG_GNU_VTINHERIT", 30); ("R_METAG_GNU_VTENTRY", 31);
   ("R_METAG_HI16_GOTOFF", 32); ("R_METAG_LO16_GOTOFF", 33); ("R_METAG_GETSET_GOTOFF", 34);
   ("R_METAG_GETSET_GOT", 35); ("R_METAG_HI16_GOTPC", 36); ("R_METAG_LO16_GOTPC", 37);
   ("R_METAG_HI16_PLT", 38); ("R_METAG_LO16_PLT", 39); ("R_METAG_RELBRANCH_PLT", 40);
   ("R_METAG_GOTOFF", 41); ("R_METAG_PLT", 42); ("R_METAG_COPY", 43); ("R_METAG_JMP_SLOT", 44);
   ("R_METAG_RELATIVE", 45); ("R_METAG_GLOB_DAT", 46); ("R_METAG_TLS_GD", 47); ("R_METAG_TLS_LDM", 48);
   ("R_METAG_TLS_LDO_HI16", 49); ("R_METAG_TLS_LDO_LO16", 50); ("R_METAG_TLS_LDO", 51);
   ("R_METAG_TLS_IE", 52); ("R_METAG_TLS_IENONPIC", 53); ("R_METAG_TLS_IENONPIC_HI16", 54);
   ("R_METAG_TLS_IENONPIC_LO16", 55); ("R_METAG_TLS_TPOFF", 56); ("R_METAG_TLS_DTPMOD", 57);
   ("R_METAG_TLS_DTPOFF", 58); ("R_METAG_TLS_LE", 59); ("R_METAG_TLS_LE_HI16", 60);
   ("R_METAG_TLS_LE_LO16", 61)].

(** NDS32 *)
Definition r_nds32_constants : constants :=
  [("R_NDS32_NONE", 0); ("R_NDS32_32_RELA", 20); ("R_NDS32_COPY", 39); ("R_NDS32_GLOB_DAT", 40);
   ("R_NDS32_JMP_SLOT", 41); ("R_NDS32_RELATIVE", 42); ("R_NDS32_TLS_TPOFF", 102);
   ("R_NDS32_TLS_DESC", 119)].

(** LoongArch *)
Definition r_larch_constants : constants :=
  [("R_LARCH_NONE", 0); ("R_LARCH_32", 1); ("R_LARCH_64", 2); ("R_LARCH_RELATIVE", 3); ("R_LARCH_COPY", 4);
   ("R_LARCH_JUMP_SLOT", 5); ("R_LARCH_TLS_DTPMOD32", 6); ("R_LARCH_TLS_DTPMOD64", 7);
   ("R_LARCH_TLS_DTPREL32", 8); ("R_LARCH_TLS_DTPREL64", 9); ("R_LARCH_TLS_TPREL32", 10);
   ("R_LARCH_TLS_TPREL64", 11); ("R_LARCH_IRELATIVE", 12); ("R_LARCH_MARK_LA", 20);
   ("R_LARCH_MARK_PCREL", 21); ("R_LARCH_SOP_PUSH_PCREL", 22); ("R_LARCH_SOP_PUSH_ABSOLUTE", 23);
   ("R_LARCH_SOP_PUSH_DUP", 24); ("R_LARCH_SOP_PUSH_GPREL", 25); ("R_LARCH_SOP_PUSH_TLS_TPREL", 26);
   ("R_LARCH_SOP_PUSH_TLS_GOT", 27); ("R_LARCH_SOP_PUSH_TLS_GD", 28); ("R_LARCH_SOP_PUSH_PLT_PCREL", 29);
   ("R_LARCH_SOP_ASSERT", 30); ("R_LARCH_SOP_NOT", 31); ("R_LARCH_SOP_SUB", 32); ("R_LARCH_SOP_SL", 33);
   ("R_LARCH_SOP_SR", 34); ("R_LARCH_SOP_ADD", 35); ("R_LARCH_SOP_AND", 36); ("R_LARCH_SOP_IF_ELSE", 37);
   ("R_LARCH_SOP_POP_32_S_10_5", 38); ("R_LARCH_SOP_POP_32_U_10_12", 39);
   ("R_LARCH_SOP_POP_32_S_10_12", 40); ("R_LARCH_SOP_POP_32_S_10_16", 41);
   ("R_LARCH_SOP_POP_32_S_10_16_S2", 42); ("R_LARCH_SOP_POP_32_S_5_20", 43);
   ("R_LARCH_SOP_POP_32_S_0_5_10_16_S2", 44); ("R_LARCH_SOP_POP_32_S_0_10_10_16_S2", 45);
   ("R_LARCH_SOP_POP_32_U", 46); ("R_LARCH_ADD8", 47); ("R_LARCH_ADD16", 48); ("R_LARCH_ADD24", 49);
   ("R_LARCH_ADD32", 50); ("R_LARCH_ADD64", 51); ("R_LARCH_SUB8", 52); ("R_LARCH_SUB16", 53);
   ("R_LARCH_SUB24", 54); ("R_LARCH_SUB32", 55); ("R_LARCH_SUB64", 56); ("R_LARCH_GNU_VTINHERIT", 57);
   ("R_LARCH_GNU_VTENTRY", 58); ("R_LARCH_B16", 64); ("R_LARCH_B21", 65); ("R_LARCH_B26", 66);
   ("R_LARCH_ABS_HI20", 67); ("R_LARCH_ABS_LO12", 68); ("R_LARCH_ABS64_LO20", 69);
   ("R_LARCH_ABS64_HI12", 70); ("R_LARCH_PCALA_HI20", 71); ("R_LARCH_PCALA_LO12", 72);
   ("R_LARCH_PCALA64_LO20", 73); ("R_LARCH_PCALA64_HI12", 74); ("R_LARCH_GOT_PC_HI20", 75);
   ("R_LARCH_GOT_PC_LO12", 76); ("R_LARCH_GOT64_PC_LO20", 77); ("R_LARCH_GOT64_PC_HI12", 78);
   ("R_LARCH_GOT_HI20", 79); ("R_LARCH_GOT_LO12", 80); ("R_LARCH_GOT64_LO20", 81);
   ("R_LARCH_GOT64_HI12", 82); ("R_LARCH_TLS_LE_HI20", 83); ("R_LARCH_TLS_LE_LO12", 84);
   ("R_LARCH_TLS_LE64_LO20", 85); ("R_LARCH_TLS_LE64_HI12", 86); ("R_LARCH_TLS_IE_PC_HI20", 87);
   ("R_LARCH_TLS_IE_PC_LO12", 88); ("R_LARCH_TLS_IE64_PC_LO20", 89); ("R_LARCH_TLS_IE64_PC_HI12", 90);
   ("R_LARCH_TLS_IE_HI20", 91); ("R_LARCH_TLS_IE_LO12", 92); ("R_LARCH_TLS_IE64_LO20", 93);
   ("R_LARCH_TLS_IE64_HI12", 94); ("R_LARCH_TLS_LD_PC_HI20", 95); ("R_LARCH_TLS_LD_HI20", 96);
   ("R_LARCH_TLS_GD_PC_HI20", 97); ("R_LARCH_TLS_GD_HI20", 98); ("R_LARCH_32_PCREL", 99);
   ("R_LARCH_RELAX", 100); ("R_LARCH_DELETE", 101); ("R_LARCH_ALIGN", 102); ("R_LARCH_PCREL20_S2", 103);
   ("R_LARCH_CFA", 104); ("R_LARCH_ADD6", 105); ("R_LARCH_SUB6", 106); ("R_LARCH_ADD_ULEB128", 107);
   ("R_LARCH_SUB_ULEB128", 108); ("R_LARCH_64_PCREL", 109)].

(** ARC *)
Definition r_arc_constants : constants :=
  [("R_ARC_NONE", 0x0); ("R_ARC_8", 0x1); ("R_ARC_16", 0x2); ("R_ARC_24", 0x3); ("R_ARC_32", 0x4);
   ("R_ARC_B22_PCREL", 0x6); ("R_ARC_H30", 0x7); ("R_ARC_N8", 0x8); ("R_ARC_N16", 0x9); ("R_ARC_N24", 0xA);
   ("R_ARC_N32", 0xB); ("R_ARC_SDA", 0xC); ("R_ARC_SECTOFF", 0xD); ("R_ARC_S21H_PCREL", 0xE);
   ("R_ARC_S21W_PCREL", 0xF); ("R_ARC_S25H_PCREL", 0x10); ("R_ARC_S25W_PCREL", 0x11);
   ("R_ARC_SDA32", 0x12); ("R_ARC_SDA_LDST", 0x13); ("R_ARC_SDA_LDST1", 0x14); ("R_ARC_SDA_LDST2", 0x15);
   ("R_ARC_SDA16_LD", 0x16); ("R_ARC_SDA16_LD1", 0x17); ("R_ARC_SDA16_LD2", 0x18);
   ("R_ARC_S13_PCREL", 0x19); ("R_ARC_W", 0x1A); ("R_ARC_32_ME", 0x1B); ("R_ARC_N32_ME", 0x1C);
   ("R_ARC_SECTOFF_ME", 0x1D); ("R_ARC_SDA32_ME", 0x1E); ("R_ARC_W_ME", 0x1F); ("R_ARC_H30_ME", 0x20);
   ("R_ARC_SECTOFF_U8", 0x21); ("R_ARC_SECTOFF_S9", 0x22); ("R_AC_SECTOFF_U8", 0x23);
   ("R_AC_SECTOFF_U8_1", 0x24); ("R_AC_SECTOFF_U8_2", 0x25); ("R_AC_SECTOFF_S9", 0x26);
   ("R_AC_SECTOFF_S9_1", 0x27); ("R_AC_SECTOFF_S9_2", 0x28); ("R_ARC_SECTOFF_ME_1", 0x29);
   ("R_ARC_SECTOFF_ME_2", 0x2A); ("R_ARC_SECTOFF_1", 0x2B); ("R_ARC_SECTOFF_2", 0x2C);
   ("R_ARC_SDA_12", 0x2D); ("R_ARC_SDA16_ST2", 0x30); ("R_ARC_32_PCREL", 0x31); ("R_ARC_PC32", 0x32);
   ("R_ARC_GOTPC32", 0x33); ("R_ARC_PLT32", 0x34); ("R_ARC_COPY", 0x35); ("R_ARC_GLOB_DAT", 0x36);
   ("R_ARC_JMP_SLOT", 0x37); ("R_ARC_RELATIVE", 0x38); ("R_ARC_GOTOFF", 0x39); ("R_ARC_GOTPC", 0x3A);
   ("R_ARC_GOT32", 0x3B); ("R_ARC_S21W_PCREL_PLT", 0x3C); ("R_ARC_S25H_PCREL_PLT", 0x3D);
   ("R_ARC_JLI_SECTOFF", 0x3F); ("R_ARC_TLS_DTPMOD", 0x42); ("R_ARC_TLS_DTPOFF", 0x43);
   ("R_ARC_TLS_TPOFF", 0x44); ("R_ARC_TLS_GD_GOT", 0x45); ("R_ARC_TLS_GD_LD", 0x46);
   ("R_ARC_TLS_GD_CALL", 0x47); ("R_ARC_TLS_IE_GOT", 0x48); ("R_ARC_TLS_DTPOFF_S9", 0x49);
   ("R_ARC_TLS_LE_S9", 0x4A); ("R_ARC_TLS_LE_32", 0x4B); ("R_ARC_S25W_PCREL_PLT", 0x4C);
   ("R_ARC_S21H_PCREL_PLT", 0x4D); ("R_ARC_NPS_CMEM16", 0x4E)].

(** OpenRISC 1000 *)
Definition r_or1k_constants : constants :=
  [("R_OR1K_NONE", 0); ("R_OR1K_32", 1); ("R_OR1K_16", 2); ("R_OR1K_8", 3); ("R_OR1K_LO_16_IN_INSN", 4);
   ("R_OR1K_HI_16_IN_INSN", 5); ("R_OR1K_INSN_REL_26", 6); ("R_OR1K_GNU_VTENTRY", 7);
   ("R_OR1K_GNU_VTINHERIT", 8); ("R_OR1K_32_PCREL", 9); ("R_OR1K_16_PCREL", 10); ("R_OR1K_8_PCREL", 11);
   ("R_OR1K_GOTPC_HI16", 12); ("R_OR1K_GOTPC_LO16", 13); ("R_OR1K_GOT16", 14); ("R_OR1K_PLT26", 15);
   ("R_OR1K_GOTOFF_HI16", 16); ("R_OR1K_GOTOFF_LO16", 17); ("R_OR1K_COPY", 18); ("R_OR1K_GLOB_DAT", 19);
   ("R_OR1K_JMP_SLOT", 20); ("R_OR1K_RELATIVE", 21); ("R_OR1K_TLS_GD_HI16", 22);
   ("R_OR1K_TLS_GD_LO16", 23); ("R_OR1K_TLS_LDM_HI16", 24); ("R_OR1K_TLS_LDM_LO16", 25);
   ("R_OR1K_TLS_LDO_HI16", 26); ("R_OR1K_TLS_LDO_LO16", 27); ("R_OR1K_TLS_IE_HI16", 28);
   ("R_OR1K_TLS_IE_LO16", 29); ("R_OR1K_TLS_LE_HI16", 30); ("R_OR1K_TLS_LE_LO16", 31);
   ("R_OR1K_TLS_TPOFF", 32); ("R_OR1K_TLS_DTPOFF", 33); ("R_OR1K_TLS_DTPMOD", 34)].

Definition r_arm_constants : constants := r_arm_low ++ r_arm_high.

(** ** The tables as the types of a relocation *)

(** the last entry of some tables is their length and no type *)
Definition is_count (c : string * Z) : bool :=
  let n := String.length c.1 in String.eqb (String.substring (n - 4) 4 c.1) "_NUM".

Definition types (t : constants) : constants := List.filter (fun c => negb (is_count c)) t.

(** the types a 32-bit object file can use *)
Definition relocations_32 : list constants :=
  [r_68k_constants; r_386_constants; r_sparc_constants; r_mips_constants; r_parisc_constants; r_ppc_constants;
   r_arm_constants; r_ckcore_constants; r_sh_constants; r_390_constants; r_cris_constants; r_mn10300_constants;
   r_m32r_constants; r_microblaze_constants; r_nios2_constants; r_tilepro_constants; r_tilegx_constants;
   r_riscv_constants; r_metag_constants; r_nds32_constants; r_larch_constants; r_arc_constants; r_or1k_constants;
   List.filter (fun c => String.prefix "R_AARCH64_P32" c.1) r_aarch64_constants].

(** and a 64-bit one *)
Definition relocations_64 : list constants :=
  [r_sparc_constants; r_mips_constants; r_parisc_constants; r_alpha_constants; r_ppc64_constants; r_aarch64_constants;
   r_ia64_constants; r_390_constants; r_x86_64_constants; r_tilegx_constants; r_riscv_constants; r_bpf_constants;
   r_larch_constants].

(** every number fits in a field of [b] values, and the length of a table bounds them *)
Definition fits (b : Z) (t : constants) : bool :=
  forallb (fun c => (0 <=? c.2) && (c.2 <? b)) (types t) &&
  forallb (fun n => forallb (fun c => c.2 <? n.2) (types t)) (List.filter is_count t).

(** types with two names in the table of their processor *)
Definition second_names : list (string * string) :=
  [("R_PARISC_LORESERVE", "R_PARISC_COPY"); ("R_PARISC_TPREL32", "R_PARISC_TLS_TPREL32");
   ("R_PARISC_TPREL21L", "R_PARISC_TLS_LE21L"); ("R_PARISC_TPREL14R", "R_PARISC_TLS_LE14R");
   ("R_PARISC_LTOFF_TP21L", "R_PARISC_TLS_IE21L"); ("R_PARISC_LTOFF_TP14R", "R_PARISC_TLS_IE14R");
   ("R_PARISC_TPREL64", "R_PARISC_TLS_TPREL64"); ("R_ARM_SWI24", "R_ARM_TLS_DESC");
   ("R_ARM_THM_TLS_DESCSEQ", "R_ARM_THM_TLS_DESCSEQ16")].

Definition same_type (x y : string) : bool :=
  String.eqb x y || existsb (fun p => (String.eqb x p.1 && String.eqb y p.2) || (String.eqb x p.2 && String.eqb y p.1)) second_names.

(** names stand for one number exactly if they are the same or a listed pair *)
Definition names_apart (t : constants) : bool :=
  forallb (fun c => forallb (fun d => Bool.eqb (c.2 =? d.2) (same_type c.1 d.1)) (types t)) (types t).

Lemma relocations_fit :
  Forall (fun t => fits (2 ^ 8) t = true /\ names_apart t = true) relocations_32 /\
  Forall (fun t => fits (2 ^ 32) t = true /\ names_apart t = true) relocations_64.
Proof. split; repeat (apply Forall_cons_2; [by vm_compute|]); apply Forall_nil_2. Qed.

Lemma fits_type b t c : fits b t = true -> c ∈ types t -> 0 <= c.2 < b.
Proof.
  intros H Hc. apply andb_prop in H as [H _]. rewrite forallb_forall in H. apply list_elem_of_In, H in Hc. lia.
Qed.

Lemma names_apart_spec t c d : names_apart t = true -> c ∈ types t -> d ∈ types t -> c.2 = d.2 <-> same_type c.1 d.1 = true.
Proof.
  intros H Hc Hd. unfold names_apart in H. rewrite forallb_forall in H. apply list_elem_of_In, H in Hc.
  rewrite forallb_forall in Hc. apply list_elem_of_In, Hc, eqb_prop in Hd. by rewrite <- Hd, Z.eqb_eq.
Qed.

(** ** Properties *)

(** every relocation type of every processor of the header survives packing into an info
    word of the class of file that has it, with every symbol index; and within one
    processor two names stand for one number only if they are one of the nine pairs of
    [second_names]. *)
Theorem relocation_types_packed :
  (forall t c sym, t ∈ relocations_32 -> c ∈ types t -> 0 <= sym < 2 ^ 24 ->
     ELF32_R_SYM (ELF32_R_INFO sym c.2) = sym /\ ELF32_R_TYPE (ELF32_R_INFO sym c.2) = c.2) /\
  (forall t c sym, t ∈ relocations_64 -> c ∈ types t -> 0 <= sym < 2 ^ 32 ->
     ELF64_R_SYM (ELF64_R_INFO sym c.2) = sym /\ ELF64_R_TYPE (ELF64_R_INFO sym c.2) = c.2) /\
  (forall t c d, t ∈ relocations_32 ++ relocations_64 -> c ∈ types t -> d ∈ types t -> c.2 = d.2 <-> same_type c.1 d.1 = true).
Proof.
  destruct relocations_fit as [H32 H64]. rewrite Forall_forall in H32, H64.
  pose proof info_roundtrip as Hi. unfold info_fields in Hi.
  apply Forall_cons in Hi as [_ Hi]. apply Forall_cons in Hi as [_ Hi]. apply Forall_cons in Hi as [Hi32 Hi]. apply Forall_cons in Hi as [Hi64 _].
  split_and!.
  - intros t c sym Ht Hc Hs. apply Hi32; [done|]. by apply (fits_type _ t); [apply H32|].
  - intros t c sym Ht Hc Hs. apply Hi64; [done|]. by apply (fits_type _ t); [apply H64|].
  - intros t c d [Ht|Ht]%elem_of_app Hc Hd; [apply (names_apart_spec t); [apply H32|..]|apply (names_apart_spec t); [apply H64|..]]; done.
Qed.
