(* ===== verification/Elf.v ===== *)
(** elf_parser/elf_parser.c: the loader of ELF64 executables.  A file is rejected
    with an error code before anything is allocated, or its loadable segments are
    mapped and copied, a stack page is mapped, the stack pointers are replaced, and
    [entry] is read again on the way to [sysret]. *)

From stdpp Require Import strings.
From S2P Require Import Prelude Comp Ram Machine KSpace Utils Pmm Vmm ElfConst ElfFormat.

(** the constants of elf.h the loader compares with *)
Definition EI_CLASS : Z := ltac:(constant e_ident_constants "EI_CLASS").
Definition ELFCLASS64 : Z := ltac:(constant e_ident_constants "ELFCLASS64").
Definition EI_DATA : Z := ltac:(constant e_ident_constants "EI_DATA").
Definition ELFDATA2LSB : Z := ltac:(constant e_ident_constants "ELFDATA2LSB").
Definition EM_X86_64 : Z := ltac:(constant e_machine_constants "EM_X86_64").
Definition PT_LOAD : Z := ltac:(constant p_type_constants "PT_LOAD").
Definition PF_W : Z := ltac:(constant p_flags_constants "PF_W").

(** the addresses of the fields of [Elf64_Ehdr] and [Elf64_Phdr], and the size of
    the latter, from the layout of the structures *)
Definition e_machine (ehdr : Z) : Z := u64 (ehdr + ltac:(offsetof Elf64_Ehdr "e_machine")).
Definition e_entry (ehdr : Z) : Z := u64 (ehdr + ltac:(offsetof Elf64_Ehdr "e_entry")).
Definition e_phoff (ehdr : Z) : Z := u64 (ehdr + ltac:(offsetof Elf64_Ehdr "e_phoff")).
Definition e_phnum (ehdr : Z) : Z := u64 (ehdr + ltac:(offsetof Elf64_Ehdr "e_phnum")).
Definition sizeof_phdr : Z := ltac:(sizeof_lit Elf64_Phdr).
Definition p_type (ph : Z) : Z := u64 (ph + ltac:(offsetof Elf64_Phdr "p_type")).
Definition p_flags (ph : Z) : Z := u64 (ph + ltac:(offsetof Elf64_Phdr "p_flags")).
Definition p_offset (ph : Z) : Z := u64 (ph + ltac:(offsetof Elf64_Phdr "p_offset")).
Definition p_vaddr (ph : Z) : Z := u64 (ph + ltac:(offsetof Elf64_Phdr "p_vaddr")).
Definition p_filesz (ph : Z) : Z := u64 (ph + ltac:(offsetof Elf64_Phdr "p_filesz")).
Definition p_memsz (ph : Z) : Z := u64 (ph + ltac:(offsetof Elf64_Phdr "p_memsz")).

(** [struct regs], [struct task] (utils.h) *)
Record regs_t : Type := mk_regs {
  rax : Z; rbx : Z; rcx : Z; rdx : Z; rsi : Z; rdi : Z; rsp : Z; rbp : Z;
  r8 : Z; r9 : Z; r10 : Z; r11 : Z; r12 : Z; r13 : Z; r14 : Z; r15 : Z
}.
Record task : Type := mk_task { pid : Z; task_pml4t : Z; regs : regs_t; state : Z }.

Definition magic : list Z := [0x7F; 0x45; 0x4C; 0x46].

(** the checks that precede any allocation: the error code, if one fails *)
Definition check_header (ehdr : Z) : M (option Z) :=
  bad <- for_find 4 0 (fun i =>
           c <- vload 1 (u64 (ehdr + i)) ;;
           ret (if c =? nth (Z.to_nat i) magic 0 then None else Some 0x10)) ;;
  match bad with
  | Some r => ret (Some r)
  | None =>
      class <- vload 1 (u64 (ehdr + EI_CLASS)) ;;
      if negb (class =? ELFCLASS64) then ret (Some 0x11) else
      data <- vload 1 (u64 (ehdr + EI_DATA)) ;;
      if negb (data =? ELFDATA2LSB) then ret (Some 0x12) else
      mach <- vload 2 (e_machine ehdr) ;;
      if negb (mach =? EM_X86_64) then ret (Some 0x13) else ret None
  end.

(** [& ~0xFFF]: the [int] constant is sign-extended *)
Definition page_down (a : Z) : Z := Z.land a (u64 (Z.lnot 0xFFF)).

(** [start], [end] and [page_count] of a segment *)
Definition seg_start (va_start : Z) : Z := page_down va_start.
Definition seg_end (va_start mem_size : Z) : Z := u64 (page_down (u64 (va_start + mem_size)) + PAGE_SIZE).
Definition seg_pages (va_start mem_size : Z) : Z := u64 (seg_end va_start mem_size - seg_start va_start) / 4096.

Definition seg_flags (flags : Z) : Z := if negb (Z.land flags PF_W =? 0) then Z.lor 0x5 0x2 else 0x5.

(** the body of the segment loop for the program header at [ph] *)
Definition load_segment (t : task) (elf_data ph : Z) : M unit :=
  type <- vload 4 (p_type ph) ;;
  if type =? PT_LOAD then
    va_start <- vload 8 (p_vaddr ph) ;;
    mem_size <- vload 8 (p_memsz ph) ;;
    f_size <- vload 8 (p_filesz ph) ;;
    offset <- vload 8 (p_offset ph) ;;
    flags <- vload 4 (p_flags ph) ;;
    for_range (Z.to_nat (seg_pages va_start mem_size)) 0 (fun j =>
      phys_addr <- pmm_alloc ;;
      map_page (mk_page_table_t (task_pml4t t) false) (u64 (page_down va_start + u64 (0x1000 * j)))
        phys_addr (seg_flags flags)) ;;;
    memcpy va_start (u64 (elf_data + offset)) f_size ;;;
    ret tt
  else ret tt.

Definition USER_STACK : Z := 0x700000000000.

(** The loop re-reads [e_phnum], a 16-bit field, before every iteration: 2^16
    iterations are more than it can take.

    The assembly at the end is four separate statements.  The first sets [rsp] and, from
    it, [rbp]; the second has [entry] as its operand, and without optimisation, as the
    makefile compiles, the compiler reads an operand from where the variable lives, in
    the frame [rbp] points to: [slot] bytes below it (0x68 with GCC 13).  By then [rbp]
    is the user stack.  The assembler takes [sysret] for the 32-bit form, which loads
    the instruction pointer from [ecx]. *)
Definition load_elf (slot : Z) (t : task) (elf_data : Z) : M Z :=
  err <- check_header elf_data ;;
  match err with
  | Some r => ret r
  | None =>
      phoff <- vload 8 (e_phoff elf_data) ;;
      let phdrs := u64 (elf_data + phoff) in
      while_fuel (Z.to_nat (2 ^ 16 + 1))
        (fun i => n <- vload 2 (e_phnum elf_data) ;; ret (i <? n))
        (fun i => load_segment t elf_data (u64 (phdrs + sizeof_phdr * i)) ;;; ret (i + 1)) 0 ;;;
      entry <- vload 8 (e_entry elf_data) ;;
      user_stack_phys <- pmm_alloc ;;
      let user_stack := USER_STACK in
      map_page (mk_page_table_t (task_pml4t t) false) user_stack user_stack_phys 0x7 ;;;
      let rsp := user_stack in
      let rbp := rsp in
      rcx <- vload 8 (u64 (rbp - slot)) ;;
      let r11 := 0 in
      halt (Sysret (u32 rcx) rsp r11)
  end.

(** ** The header checks *)

Definition magic_ok (h : Z -> Z) : bool :=
  forallb (fun i => h i =? nth (Z.to_nat i) magic 0) (seqZ 0 4).

(** the verdict on a header with bytes [h 0], [h 1], ... *)
Definition header_error (h : Z -> Z) : option Z :=
  if negb (magic_ok h) then Some 0x10
  else if negb (h EI_CLASS =? ELFCLASS64) then Some 0x11
  else if negb (h EI_DATA =? ELFDATA2LSB) then Some 0x12
  else if negb (h 18 + 256 * h 19 =? EM_X86_64) then Some 0x13
  else None.

Section Header.
Context (m0 : machine) (elf P : Z) (Hv : vmap m0 elf P 64).
Implicit Types m : machine.
Local Abbreviation h := (fun i => rd (ram m0) (P + i)).

Lemma wp_hdr_load n i m (Q : Z -> machine -> Prop) E :
  warm m0 m -> 0 <= i -> i + Z.of_nat n <= 64 -> (0 < n)%nat ->
  (forall m', warm m0 m' -> Q (load n (ram m0) (P + i)) m') -> wp (vload n (u64 (elf + i))) Q E m.
Proof.
  intros Hw Hi Hn Hpos HQ. rewrite (vmap_u64 _ _ _ _ _ Hv) by lia.
  eapply wp_vload; [eapply vmap_sub; [by eapply vmap_warm|lia|lia]|].
  intros m' Hw'. rewrite (warm_ram _ _ Hw). apply HQ. by etrans.
Qed.

(** the magic loop stops at the first wrong byte *)
Lemma wp_magic (Q : option Z -> machine -> Prop) E :
  (forall m', warm m0 m' -> Q (if magic_ok h then None else Some 0x10) m') ->
  wp (for_find 4 0 (fun i =>
        c <- vload 1 (u64 (elf + i)) ;;
        ret (if c =? nth (Z.to_nat i) magic 0 then None else Some 0x10))) Q E m0.
Proof.
  intros HQ. eapply (wp_for_find (fun i m => warm m0 m /\ forall j, 0 <= j < i -> h j = nth (Z.to_nat j) magic 0)).
  - split; [done|lia].
  - intros i m Hi [Hw Hm]. apply wp_bind, wp_hdr_load; [done|lia|cbn; lia|lia|]. intros m1 Hw1.
    rewrite load1. apply wp_ret. destruct (Z.eqb_spec (h i) (nth (Z.to_nat i) magic 0)) as [Heq|Hne].
    + split; [done|]. intros j Hj. destruct (Z.eq_dec j i) as [->|]; [done|apply Hm; lia].
    + replace (Some 0x10) with (if magic_ok h then None else Some 0x10); [by apply HQ|].
      destruct (magic_ok h) eqn:E1; [|done]. unfold magic_ok in E1. rewrite forallb_forall in E1.
      destruct Hne. apply Z.eqb_eq, E1, list_elem_of_In, elem_of_seqZ. lia.
  - intros m [Hw Hm]. replace (@None Z) with (if magic_ok h then None else Some 0x10); [by apply HQ|].
    replace (magic_ok h) with true; [done|]. symmetry. apply forallb_forall. intros j Hj.
    apply list_elem_of_In, elem_of_seqZ in Hj. apply Z.eqb_eq, Hm. lia.
Qed.

Lemma wp_check_header (Q : option Z -> machine -> Prop) E :
  (forall m', warm m0 m' -> Q (header_error h) m') -> wp (check_header elf) Q E m0.
Proof.
  intros HQ. unfold check_header. apply wp_bind, wp_magic. intros m1 Hw1. unfold header_error in HQ.
  destruct (magic_ok h); cbn [negb] in *; [|by apply wp_ret, HQ].
  apply wp_bind, wp_hdr_load; [done|done|done|lia|]. intros m2 Hw2. rewrite load1.
  destruct (negb (rd (ram m0) (P + EI_CLASS) =? ELFCLASS64)); [by apply wp_ret, HQ|].
  apply wp_bind, wp_hdr_load; [done|done|done|lia|]. intros m3 Hw3. rewrite load1.
  destruct (negb (rd (ram m0) (P + EI_DATA) =? ELFDATA2LSB)); [by apply wp_ret, HQ|].
  apply wp_bind, wp_hdr_load; [done|lia|cbn; lia|lia|]. intros m4 Hw4.
  assert (Hl : load 2 (ram m0) (P + 18) = h 18 + 256 * h 19).
  { cbn [load]. rewrite <- Z.add_assoc. change (18 + 1) with 19. lia. }
  rewrite Hl. cbv beta in *.
  destruct (negb (rd (ram m0) (P + 18) + 256 * rd (ram m0) (P + 19) =? EM_X86_64)); by apply wp_ret, HQ.
Qed.
End Header.

(** ** The pages of a segment *)

Lemma page_down_spec a : 0 <= a < 2 ^ 64 -> page_down a = a / 4096 * 4096.
Proof. intros. unfold page_down. by apply land_not_fff. Qed.

(** the pages mapped for a segment cover it, with no page before it and at most
    one page after its last byte *)
Lemma seg_pages_cover va n : 0 <= va -> 0 <= n -> va + n < 2 ^ 64 - 4096 ->
  let pages := seg_pages va n in
  seg_start va <= va < seg_start va + 4096 /\ va + n <= seg_start va + 4096 * pages <= va + n + 4096 /\
  0 <= pages /\ seg_start va mod 4096 = 0.
Proof.
  intros Hva Hn Hmax. cbn zeta. unfold seg_pages, seg_end, seg_start, PAGE_SIZE.
  rewrite (u64_small (va + n)), !page_down_spec by lia.
  rewrite (u64_small (_ + 0x1000)) by dlia. rewrite u64_small by dlia. dlia.
Qed.

(** ** Properties *)

(** C31: [load_elf] rejects a file whose header is not that of a little-endian ELF64
    executable for x86-64, with the code of the first check that fails (0x10 magic,
    0x11 class, 0x12 data, 0x13 machine), before writing or allocating anything. *)
Theorem load_elf_rejects slot t elf P code m :
  vmap m elf P 64 -> header_error (fun i => rd (ram m) (P + i)) = Some code ->
  wp (load_elf slot t elf) (fun r m' => r = code /\ warm m m') nostop m.
Proof.
  intros Hv Hc. unfold load_elf. apply wp_bind, (wp_check_header m elf P Hv). intros m' Hw. rewrite Hc.
  by apply wp_ret.
Qed.

(** the pages [load_segment] maps for a segment start at its page, cover every
    byte of it, and overshoot its end by at most one page. *)
Theorem segment_covered va n :
  0 <= va -> 0 <= n -> va + n < 2 ^ 64 - 4096 ->
  seg_start va mod 4096 = 0 /\ seg_start va <= va < seg_start va + 4096 /\
  va + n <= seg_start va + 4096 * seg_pages va n <= va + n + 4096.
Proof. intros H1 H2 H3. pose proof (seg_pages_cover va n H1 H2 H3) as H. cbn zeta in H. tauto. Qed.
