(* ===== verification/Loader.v ===== *)
(** load_elf, the part after the header checks: each loadable segment gets its own
    frames and the bytes of the file, and a stack page is added; the read of [entry]
    through the new frame pointer then faults.  Stated on the finite map of User.v. *)

From stdpp Require Import strings.
From S2P Require Import Prelude Comp Ram Machine KSpace Utils Pmm Vmm VmmMap VmmWalk Space User ElfConst ElfFormat Elf.

(** the fields of a program header the loader reads *)
Record phdr : Type := mk_phdr {
  ph_type : Z; ph_flags : Z; ph_offset : Z; ph_vaddr : Z; ph_filesz : Z; ph_memsz : Z
}.

Definition phdr_at (r : ram_t) (x : Z) (h : phdr) : Prop :=
  load 4 r x = ph_type h /\ load 4 r (x + 4) = ph_flags h /\ load 8 r (x + 8) = ph_offset h /\
  load 8 r (x + 16) = ph_vaddr h /\ load 8 r (x + 32) = ph_filesz h /\ load 8 r (x + 40) = ph_memsz h.

(** the pages of a loadable segment, and its bytes in the file *)
Definition in_segment (h : phdr) (p : Z) : Prop :=
  ph_type h = PT_LOAD /\ ph_vaddr h / 4096 <= p <= (ph_vaddr h + ph_memsz h) / 4096.
Definition from_file (h : phdr) : Z -> Prop := fun a => ph_type h = PT_LOAD /\ span (ph_vaddr h) (ph_filesz h) a.

Definition segment_count (h : phdr) : nat :=
  if ph_type h =? PT_LOAD then Z.to_nat ((ph_vaddr h + ph_memsz h) / 4096 - ph_vaddr h / 4096 + 1) else 0%nat.

(** a segment of a file of [len] bytes: in the file, and below the last page of the lower half *)
Definition phdr_ok (len : Z) (h : phdr) : Prop :=
  0 <= ph_vaddr h /\ 0 <= ph_filesz h <= ph_memsz h /\ ph_vaddr h + ph_memsz h < 2 ^ 47 - 4096 /\
  0 <= ph_offset h /\ ph_offset h + ph_filesz h <= len.

(** ** An address of the lower half that is not mapped *)

Section Faults.
Context `{FA : !FrameAllocator pmm_alloc pmm_free}.

Lemma wp_translate_fault K q root ctx m tb pg va (Q : Z -> machine -> Prop) (E : stop -> machine -> Prop) :
  uas K q root ctx m tb pg -> lower va = true -> pg !! (va / 4096) = None -> E (PageFault va) m ->
  wp (translate va) Q E m.
Proof.
  intros Hu Hlo Hp HE. unfold lower in Hlo. apply andb_prop in Hlo as Hr. rewrite Z.leb_le, Z.ltb_lt in Hr.
  assert (Hlow : 0 <= va / 4096 /\ low (va / 4096)).
  { unfold low. change (2 ^ 35) with 34359738368. change (2 ^ 47) with 140737488355328 in Hr. dlia. }
  assert (Hw : mwalk m (va / 4096) = None).
  { rewrite <- Hp. by apply (uas_mwalk K q root ctx m tb pg); [done|apply Hlow..]. }
  unfold wp, translate, canonical, lower. rewrite Hlo. cbn [orb].
  destruct (tlb m !! (va / 4096)) as [f|] eqn:E1.
  - apply (ua_fresh _ _ _ _ _ _ _ Hu) in E1; [congruence|apply Hlow..].
  - unfold mwalk in Hw. by rewrite Hw.
Qed.

Lemma wp_user_load_fault K q root ctx m tb pg va n (Q : Z -> machine -> Prop) (E : stop -> machine -> Prop) :
  uas K q root ctx m tb pg -> lower va = true -> pg !! (va / 4096) = None -> E (PageFault va) m ->
  wp (vload (S n) va) Q E m.
Proof. intros. by apply wp_bind, wp_bind, (wp_translate_fault K q root ctx m tb pg). Qed.

End Faults.

Section Loader.
Context `{FA : !FrameAllocator pmm_alloc pmm_free}.
Context (K : ktables) (q root : Z) (t : task) (s len : Z).
Context (Himg : 0 <= s) (Himg' : s + len <= KWIN) (Hlen : len < 2 ^ 31).
Context (slot : Z) (Hslot : 0 < slot <= 4096).
Implicit Types (m : machine) (tb : gmap Z (list Z)) (pg : gmap Z Z).
Local Abbreviation ctx := (task_pml4t t).
Local Abbreviation uas := (User.uas K q root ctx).
Local Abbreviation area := (Space.area K).

(** [m'] is [m] with pages added to the program, at most four frames taken for each
    of the [n] pages; what was mapped keeps its bytes, and so does kernel memory
    outside the allocator's, the window's and the tables' *)
Record loads m tb pg m' tb' pg' (n : nat) : Prop := mk_loads {
  lo_uas : uas m' tb' pg';
  lo_sub : pg ⊆ pg';
  lo_old a : is_Some (pg !! (a / 4096)) -> ubyte (ram m') pg' a = ubyte (ram m) pg a;
  lo_size : (size (frees m) <= size (frees m') + 4 * n)%nat;
  lo_area a : area (glb m') (frees m') tb' a -> area (glb m) (frees m) tb a;
  lo_img a : a < KWIN -> ~ area (glb m) (frees m) tb a -> rd (ram m') a = rd (ram m) a;
  lo_hw : hw m' = hw m;
  lo_glb : glb m' = glb m
}.

Definition pages_added pg pg' (P : Z -> Prop) : Prop :=
  forall p, is_Some (pg' !! p) <-> is_Some (pg !! p) \/ P p.

Lemma loads_refl m tb pg : uas m tb pg -> loads m tb pg m tb pg 0.
Proof. intros Hu. by split; try lia. Qed.

Lemma loads_trans m1 tb1 pg1 m2 tb2 pg2 m3 tb3 pg3 n k :
  loads m1 tb1 pg1 m2 tb2 pg2 n -> loads m2 tb2 pg2 m3 tb3 pg3 k -> loads m1 tb1 pg1 m3 tb3 pg3 (n + k).
Proof.
  intros [U1 S1 O1 Z1 A1 I1 H1 G1] [U2 S2 O2 Z2 A2 I2 H2 G2]. split; [done|by etrans| |lia|by auto| |congruence..].
  - intros a Ha. rewrite O2; [by apply O1|]. destruct Ha as [f Hf]. exists f. by eapply lookup_weaken.
  - intros a Ha Hn. rewrite I2; [by apply I1|done|]. intros H. by apply Hn, A1.
Qed.

Lemma loads_warm m tb pg m' : uas m tb pg -> warm m m' -> loads m tb pg m' tb pg 0.
Proof.
  intros Hu Hw. destruct (uas_warm K q root ctx m m' tb pg Hu Hw) as [Hu' Hf].
  split; [done|done|by rewrite (warm_ram _ _ Hw)|rewrite Hf; lia|by rewrite Hf, (warm_glb _ _ Hw)|by rewrite (warm_ram _ _ Hw)|apply Hw..].
Qed.

(** mapping one page *)
Lemma wp_load_page m tb pg va flags (Q : unit -> machine -> Prop) (E : stop -> machine -> Prop) :
  uas m tb pg -> 0 <= va < 2 ^ 47 -> pg !! (va / 4096) = None ->
  0 <= flags < 4096 -> huge flags = false -> present flags = true -> (4 <= size (frees m))%nat ->
  (forall m' tb' f, loads m tb pg m' tb' (<[va / 4096 := f]> pg) 1 -> Q tt m') ->
  wp (phys_addr <- pmm_alloc ;; map_page (mk_page_table_t ctx false) va phys_addr flags) Q E m.
Proof.
  intros Hu Hva Hnone Hfl Hh Hpf Hsz HQ. apply (wp_alloc_map K q root ctx m tb pg); [done..|].
  intros m' tb' f Hu' Hs Hsz' Har _. apply (HQ m' tb' f). split; [done|by apply insert_subseteq| |lia|done| |apply Hs..].
  - intros a Ha. by apply (ubyte_kept K q root ctx m m' tb pg).
  - intros a _ Ha. by apply (ws_ram _ _ _ Hs).
Qed.

(** ** One segment *)

Lemma wp_field n m0 m x o (Q : Z -> machine -> Prop) E :
  kspace K m0 -> warm m0 m -> 0 <= x -> 0 <= o -> x + o + Z.of_nat n <= KWIN ->
  (forall m', warm m0 m' -> Q (load n (ram m0) (x + o)) m') -> wp (vload n (u64 (KERNEL_BASE + x + o))) Q E m.
Proof.
  intros Hk Hw Hx Ho Hn HQ.
  replace (u64 (KERNEL_BASE + x + o)) with (KERNEL_BASE + (x + o))
    by (unfold KWIN in *; zconst; rewrite u64_small; lia).
  apply (wp_kload K n); [by eapply kspace_warm|lia|lia|]. intros m' Hw' _. rewrite (warm_ram _ _ Hw).
  apply HQ. by etrans.
Qed.

Lemma seg_flags_ok fl : 0 <= seg_flags fl < 4096 /\ huge (seg_flags fl) = false /\ present (seg_flags fl) = true.
Proof. unfold seg_flags. by destruct (negb _); vm_compute. Qed.

Lemma seg_pages_count h : phdr_ok len h -> ph_type h = PT_LOAD ->
  Z.to_nat (seg_pages (ph_vaddr h) (ph_memsz h)) = segment_count h /\
  (forall j, 0 <= j < Z.of_nat (segment_count h) ->
     u64 (page_down (ph_vaddr h) + u64 (0x1000 * j)) = (ph_vaddr h / 4096 + j) * 4096 /\
     0 <= (ph_vaddr h / 4096 + j) * 4096 < 2 ^ 47) /\
  Z.of_nat (segment_count h) = (ph_vaddr h + ph_memsz h) / 4096 - ph_vaddr h / 4096 + 1.
Proof.
  intros (Hv & Hf & Hm & _ & _) Hty. unfold segment_count. rewrite Hty, Z.eqb_refl.
  assert (Hn : seg_pages (ph_vaddr h) (ph_memsz h) = (ph_vaddr h + ph_memsz h) / 4096 - ph_vaddr h / 4096 + 1).
  { unfold seg_pages, seg_end, seg_start, PAGE_SIZE. rewrite (u64_small (_ + ph_memsz h)), !page_down_spec by lia.
    rewrite (u64_small (_ + 0x1000)) by dlia. rewrite u64_small by dlia. dlia. }
  split_and!; [by rewrite Hn| |dlia]. intros j Hj. rewrite page_down_spec by lia.
  change 0x1000 with 4096. rewrite (u64_small (4096 * j)), u64_small by dlia. split; dlia.
Qed.

(** the pages of the segment *)
Lemma wp_map_segment m tb pg h (Q : unit -> machine -> Prop) (E : stop -> machine -> Prop) :
  uas m tb pg -> phdr_ok len h -> ph_type h = PT_LOAD ->
  (forall p, in_segment h p -> pg !! p = None) -> (4 * segment_count h <= size (frees m))%nat ->
  (forall m' tb' pg', loads m tb pg m' tb' pg' (segment_count h) -> pages_added pg pg' (in_segment h) -> Q tt m') ->
  wp (for_range (Z.to_nat (seg_pages (ph_vaddr h) (ph_memsz h))) 0 (fun j =>
        phys_addr <- pmm_alloc ;;
        map_page (mk_page_table_t ctx false) (u64 (page_down (ph_vaddr h) + u64 (0x1000 * j)))
          phys_addr (seg_flags (ph_flags h)))) Q E m.
Proof.
  intros Hu Hok Hty Hnew Hsz HQ. destruct (seg_pages_count h Hok Hty) as (-> & Hj & Hcnt).
  set (v := ph_vaddr h / 4096) in *.
  eapply wp_mono; [eapply (wp_for_range (fun i m' => exists tb' pg', loads m tb pg m' tb' pg' (Z.to_nat i) /\
     pages_added pg pg' (fun p => v <= p < v + i)))| |done].
  - exists tb, pg. split; [by apply loads_refl|]. intros p. split; [by left|]. intros [?|?]; [done|lia].
  - intros j m1 Hjr (tb1 & pg1 & HL & Hp). destruct (Hj j ltac:(lia)) as [-> Hr].
    destruct (seg_flags_ok (ph_flags h)) as (F1 & F2 & F3). pose proof (lo_size _ _ _ _ _ _ _ HL).
    apply (wp_load_page m1 tb1 pg1); [apply HL|done| |done|done|done|lia|].
    { rewrite Z.div_mul by lia. destruct (pg1 !! (v + j)) as [f|] eqn:E1; [|done]. exfalso.
      destruct (proj1 (Hp (v + j)) ltac:(by eexists)) as [[g Hg]|?]; [|lia].
      rewrite Hnew in Hg; [done|]. split; [done|]. fold v. lia. }
    intros m2 tb2 f HL2. rewrite Z.div_mul in HL2 by lia. exists tb2, (<[v + j := f]> pg1). split.
    + replace (Z.to_nat (j + 1)) with (Z.to_nat j + 1)%nat by lia. by eapply loads_trans.
    + intros p. destruct (decide (p = v + j)) as [->|].
      * rewrite lookup_insert_eq. split; [|done]. right. lia.
      * rewrite lookup_insert_ne by done. rewrite (Hp p). split; (intros [?|?]; [by left|right; lia]).
  - intros [] m' (tb' & pg' & HL & Hp). rewrite Z.add_0_l, Nat2Z.id in HL. apply (HQ m' tb' pg'); [done|].
    intros p. rewrite (Hp p). unfold in_segment. fold v. split; (intros [?|?]; [by left|right]); [split; [done|]|]; lia.
Qed.

(** the header of a loadable segment is read, and says what is mapped and copied *)
Lemma wp_load_fields m x h (Q : unit -> machine -> Prop) (E : stop -> machine -> Prop) :
  kspace K m -> 0 <= x -> x + 56 <= KWIN -> phdr_at (ram m) x h -> ph_type h = PT_LOAD ->
  (forall m', warm m m' ->
     wp (for_range (Z.to_nat (seg_pages (ph_vaddr h) (ph_memsz h))) 0 (fun j =>
           phys_addr <- pmm_alloc ;;
           map_page (mk_page_table_t ctx false) (u64 (page_down (ph_vaddr h) + u64 (0x1000 * j)))
             phys_addr (seg_flags (ph_flags h))) ;;;
         memcpy (ph_vaddr h) (u64 (KERNEL_BASE + s + ph_offset h)) (ph_filesz h) ;;; ret tt) Q E m') ->
  wp (load_segment t (KERNEL_BASE + s) (KERNEL_BASE + x)) Q E m.
Proof.
  intros Hk Hx Hxk (Hty & Hfl & Hof & Hva & Hfs & Hms) Hl HQ.
  unfold load_segment, p_type, p_vaddr, p_memsz, p_filesz, p_offset, p_flags.
  apply wp_bind, (wp_field 4 m); [done|done|lia|lia|lia|]. intros m1 Hw1. rewrite Z.add_0_r, Hty, Hl, Z.eqb_refl.
  apply wp_bind, (wp_field 8 m); [done|done|lia|lia|lia|]. intros m2 Hw2. rewrite Hva.
  apply wp_bind, (wp_field 8 m); [done|done|lia|lia|lia|]. intros m3 Hw3. rewrite Hms.
  apply wp_bind, (wp_field 8 m); [done|done|lia|lia|lia|]. intros m4 Hw4. rewrite Hfs.
  apply wp_bind, (wp_field 8 m); [done|done|lia|lia|lia|]. intros m5 Hw5. rewrite Hof.
  apply wp_bind, (wp_field 4 m); [done|done|lia|lia|lia|]. intros m6 Hw6. rewrite Hfl. by apply HQ.
Qed.

Lemma wp_load_segment m tb pg x h (Q : unit -> machine -> Prop) (E : stop -> machine -> Prop) :
  uas m tb pg -> 0 <= x -> x + 56 <= KWIN -> phdr_at (ram m) x h -> phdr_ok len h ->
  (forall p, in_segment h p -> pg !! p = None) -> (4 * segment_count h <= size (frees m))%nat ->
  (forall a, span s len a -> ~ area (glb m) (frees m) tb a) ->
  (forall m' tb' pg', loads m tb pg m' tb' pg' (segment_count h) -> pages_added pg pg' (in_segment h) ->
     (forall a, from_file h a -> ubyte (ram m') pg' a = Some (rd (ram m) (s + ph_offset h + (a - ph_vaddr h)))) -> Q tt m') ->
  wp (load_segment t (KERNEL_BASE + s) (KERNEL_BASE + x)) Q E m.
Proof.
  intros Hu Hx Hxk Hat Hok Hnew Hsz Himgar HQ. pose proof (vo_k _ _ _ (ua_ok _ _ _ _ _ _ _ Hu)) as Hk.
  destruct (decide (ph_type h = PT_LOAD)) as [Hl|Hnl].
  2: { unfold load_segment, p_type. apply wp_bind, (wp_field 4 m); [done|done|lia|lia|lia|]. intros m1 Hw1.
       rewrite Z.add_0_r, (proj1 Hat), (proj2 (Z.eqb_neq _ _) Hnl). apply wp_ret.
       destruct (uas_warm K q root ctx m m1 tb pg Hu Hw1) as [Hu1 Hf1]. apply (HQ m1 tb pg).
       - unfold segment_count. rewrite (proj2 (Z.eqb_neq _ _) Hnl). by apply loads_warm.
       - intros p. split; [by left|]. by intros [?|[??]].
       - by intros a [??]. }
  apply (wp_load_fields m x h); [done..|]. intros m6 Hw6.
  destruct (uas_warm K q root ctx m m6 tb pg Hu Hw6) as [Hu6 Hf6].
  apply wp_bind, (wp_map_segment m6 tb pg); [done..|by rewrite Hf6|]. intros m7 tb7 pg7 HL7 Hp7.
  destruct Hok as (Hv & Hfm & Hvm & Ho & Hol).
  replace (u64 (KERNEL_BASE + s + ph_offset h)) with (KERNEL_BASE + (s + ph_offset h))
    by (unfold KWIN in *; zconst; rewrite u64_small; lia).
  assert (Hseg : forall a, span (ph_vaddr h) (ph_filesz h) a -> in_segment h (a / 4096)).
  { intros a Ha. split; [done|]. unfold span in Ha. dlia. }
  apply wp_bind, (wp_memcpy_user K q root ctx m7 tb7 pg7); [apply HL7|lia|lia|lia|lia|lia| |].
  { intros a Ha. apply Hp7. right. by apply Hseg. }
  intros m8 Hu8 Hs8 Hf8 Hw8. apply wp_ret.
  pose proof (loads_trans _ _ _ _ _ _ _ _ _ _ _ (loads_warm m tb pg m6 Hu Hw6) HL7) as HL. cbn [Nat.add] in HL.
  apply (HQ m8 tb7 pg7); [|done|].
  - destruct HL as [_ L2 L3 L4 L5 L6 L7 L8]. split; [done|done| |by rewrite Hf8| | |rewrite (ms_hw _ _ _ Hs8); done|rewrite (ms_glb _ _ _ Hs8); done].
    + intros a Ha. rewrite Hw8, decide_False; [by apply L3|]. intros Hin. destruct Ha as [f Hf].
      by rewrite Hnew in Hf by by apply Hseg.
    + intros a. rewrite Hf8, (ms_glb _ _ _ Hs8). apply L5.
    + intros a Ha Hna. rewrite (ms_ram _ _ _ Hs8); [by apply L6|]. intros Hd.
      destruct (data_safe K q root ctx m7 tb7 pg7 a (lo_uas _ _ _ _ _ _ _ HL7) Hd). lia.
  - intros a [_ Ha]. rewrite Hw8, decide_True by done. f_equal.
    apply (lo_img _ _ _ _ _ _ _ HL); [unfold span in Ha; lia|]. apply Himgar. unfold span in *. lia.
Qed.

(** ** All segments *)

(** the program headers [hs] at physical address [x], each in order, no two
    segments on one page and none on a page of the program *)
Record segments m pg (x : Z) (hs : list phdr) : Prop := mk_segments {
  sg_at (i : nat) h : hs !! i = Some h -> phdr_at (ram m) (x + 56 * Z.of_nat i) h;
  sg_ok h : h ∈ hs -> phdr_ok len h;
  sg_apart (i j : nat) h h' p : hs !! i = Some h -> hs !! j = Some h' -> in_segment h p -> in_segment h' p -> i = j;
  sg_new h p : h ∈ hs -> in_segment h p -> pg !! p = None
}.

Definition in_segments (hs : list phdr) (p : Z) : Prop := exists h, h ∈ hs /\ in_segment h p.
Definition page_count (hs : list phdr) : nat := sum_list_with segment_count hs.

(** the bytes of the file are where the headers say *)
Definition contents m m' pg' (hs : list phdr) : Prop := forall h a,
  h ∈ hs -> from_file h a -> ubyte (ram m') pg' a = Some (rd (ram m) (s + ph_offset h + (a - ph_vaddr h))).

(** the first [i] segments have been loaded *)
Definition loaded m tb pg hs (i : nat) m' : Prop := exists tb' pg',
  loads m tb pg m' tb' pg' (page_count (take i hs)) /\
  pages_added pg pg' (in_segments (take i hs)) /\ contents m m' pg' (take i hs).

Lemma phdr_at_agree r r' x h : agree (span x 56) r r' -> phdr_at r x h -> phdr_at r' x h.
Proof.
  intros Ha (?&?&?&?&?&?). unfold phdr_at.
  assert (L : forall n o, 0 <= o -> o + Z.of_nat n <= 56 -> load n r' (x + o) = load n r (x + o)).
  { intros n o Ho Hn. apply load_agree. intros b Hb. apply Ha. unfold span in *. lia. }
  rewrite !L by lia. rewrite <- (Z.add_0_r x) at 1. rewrite L, Z.add_0_r by lia. by split_and!.
Qed.

Lemma image_kept m tb pg m' tb' pg' n (o k : Z) :
  loads m tb pg m' tb' pg' n -> (forall a, span s len a -> ~ area (glb m) (frees m) tb a) ->
  0 <= o -> o + k <= len -> agree (span (s + o) k) (ram m) (ram m').
Proof.
  intros HL Hi Ho Hk a Ha. unfold span in Ha.
  apply (lo_img _ _ _ _ _ _ _ HL); [lia|]. apply Hi. unfold span. lia.
Qed.

Lemma loaded_next m tb pg o hs i h m' (Q : unit -> machine -> Prop) (E : stop -> machine -> Prop) :
  segments m pg (s + o) hs -> 0 <= o -> o + 56 * Z.of_nat (length hs) <= len ->
  (forall a, span s len a -> ~ area (glb m) (frees m) tb a) -> (4 * page_count hs <= size (frees m))%nat ->
  loaded m tb pg hs i m' -> hs !! i = Some h -> (forall m'', loaded m tb pg hs (S i) m'' -> Q tt m'') ->
  wp (load_segment t (KERNEL_BASE + s) (KERNEL_BASE + (s + o + 56 * Z.of_nat i))) Q E m'.
Proof.
  intros [Hat Hok Hap Hnew] Ho Hlo Himgar Hsz (tb' & pg' & HL & Hp & Hc) Hi HQ.
  pose proof (lookup_lt_Some _ _ _ Hi) as Hil. pose proof (list_elem_of_lookup_2 _ _ _ Hi) as Hin.
  assert (Htk : take (S i) hs = take i hs ++ [h]) by by apply take_S_r.
  assert (Hcnt : (page_count (take i hs) + segment_count h <= page_count hs)%nat).
  { unfold page_count. rewrite <- (take_drop (S i) hs) at 2. rewrite Htk, !sum_list_with_app. cbn. lia. }
  pose proof (lo_size _ _ _ _ _ _ _ HL).
  assert (Hnew' : forall p, in_segment h p -> pg' !! p = None).
  { intros p Hps. destruct (pg' !! p) as [f|] eqn:E1; [|done]. exfalso.
    destruct (proj1 (Hp p)) as [[g Hg]|(h' & Hh' & Hps')]; [by eexists| |].
    - by rewrite (Hnew h p) in Hg.
    - apply list_elem_of_lookup_1 in Hh' as [j Hj]. apply lookup_take_Some in Hj as [Hj Hji].
      pose proof (Hap _ _ _ _ _ Hi Hj Hps Hps'). lia. }
  apply (wp_load_segment m' tb' pg' _ h); [apply HL|lia|lia| |by apply Hok|done|lia| |].
  - eapply phdr_at_agree; [|by apply Hat]. rewrite <- Z.add_assoc. eapply image_kept; [done..|lia|lia].
  - intros a Ha Har. by apply (Himgar a Ha), (lo_area _ _ _ _ _ _ _ HL).
  - intros m2 tb2 pg2 HL2 Hp2 Hc2. apply HQ. exists tb2, pg2. rewrite Htk. split_and!.
    + unfold page_count. rewrite sum_list_with_app. cbn [sum_list_with]. rewrite Nat.add_0_r.
      by eapply loads_trans.
    + intros p. rewrite (Hp2 p), (Hp p). unfold in_segments. setoid_rewrite elem_of_app.
      setoid_rewrite list_elem_of_singleton. split.
      * intros [[?|(h' & ? & ?)]|?]; [by left|right; exists h'; tauto|right; exists h; tauto].
      * intros [?|(h' & [?| ->] & ?)]; [by left; left|left; right; by exists h'|by right].
    + intros h' a [Hh'| ->%list_elem_of_singleton]%elem_of_app Ha.
      * rewrite (lo_old _ _ _ _ _ _ _ HL2); [by apply Hc|]. specialize (Hc h' a Hh' Ha). unfold ubyte in Hc.
        by destruct (pg' !! (a / 4096)).
      * rewrite (Hc2 a Ha). f_equal. destruct (Hok h Hin) as (?&?&?&?&?).
        apply (image_kept m tb pg m' tb' pg' _ (ph_offset h) (ph_filesz h) HL); [done|done|done|].
        destruct Ha as [_ Ha]. unfold span in *. lia.
Qed.

Lemma wp_load_segments m0 m tb pg o hs (Q : Z -> machine -> Prop) (E : stop -> machine -> Prop) :
  uas m0 tb pg -> warm m0 m -> segments m0 pg (s + o) hs -> 64 <= len -> 0 <= o ->
  o + 56 * Z.of_nat (length hs) <= len -> load 2 (ram m0) (s + 56) = Z.of_nat (length hs) ->
  (forall a, span s len a -> ~ area (glb m0) (frees m0) tb a) -> (4 * page_count hs <= size (frees m0))%nat ->
  (forall m', loaded m0 tb pg hs (length hs) m' -> Q (Z.of_nat (length hs)) m') ->
  wp (while_fuel (Z.to_nat (2 ^ 16 + 1))
        (fun i => n <- vload 2 (e_phnum (KERNEL_BASE + s)) ;; ret (i <? n))
        (fun i => load_segment t (KERNEL_BASE + s) (u64 (KERNEL_BASE + (s + o) + sizeof_phdr * i)) ;;; ret (i + 1)) 0) Q E m.
Proof.
  intros Hu Hw Hsg Hl64 Ho Hlo Hn Himgar Hsz HQ. pose proof (load_range 2 (ram m0) (s + 56)) as Hn16.
  apply (wp_while_var (fun (k : nat) (y : Z) m' => (k <= length hs)%nat /\ y = Z.of_nat (length hs - k) /\
            loaded m0 tb pg hs (length hs - k) m') (length hs)).
  - split_and!; [lia|lia|]. rewrite Nat.sub_diag. exists tb, pg. split_and!.
    + by apply loads_warm.
    + intros p. split; [by left|]. intros [?|(h & Hh & _)]; [done|]. by apply elem_of_nil in Hh.
    + intros h a Hh. by apply elem_of_nil in Hh.
  - change (8 * Z.of_nat 2) with 16 in Hn16. change (2 ^ 16) with 65536 in *. lia.
  - intros k y m' (Hk & -> & HL). pose proof HL as (tb' & pg' & HL' & Hp & Hc).
    apply wp_bind, (wp_field 2 m'); [apply (vo_k _ _ _ (ua_ok _ _ _ _ _ _ _ (lo_uas _ _ _ _ _ _ _ HL')))|done|lia|lia|lia|].
    intros m1 Hw1. apply wp_ret.
    rewrite (load_agree 2 (ram m0)) by (eapply image_kept; [done..|lia|lia]). rewrite Hn.
    assert (HL1 : loaded m0 tb pg hs (length hs - k) m1).
    { exists tb', pg'. split_and!; [|done|].
      - rewrite <- (Nat.add_0_r (page_count _)). eapply loads_trans; [exact HL'|]. by apply loads_warm; [apply HL'|].
      - intros h a. rewrite (warm_ram _ _ Hw1). apply Hc. }
    destruct (Z.ltb_spec (Z.of_nat (length hs - k)) (Z.of_nat (length hs))) as [Hlt|Hge].
    + destruct (lookup_lt_is_Some_2 hs (length hs - k)) as [h Hh]; [lia|].
      replace (u64 _) with (KERNEL_BASE + (s + o + 56 * Z.of_nat (length hs - k))).
      2: { change sizeof_phdr with 56. unfold KWIN in *; zconst. rewrite u64_small; lia. }
      apply wp_bind. eapply loaded_next; [done..|]. intros m2 HL2. apply wp_ret. exists (k - 1)%nat.
      replace (length hs - (k - 1))%nat with (S (length hs - k)) by lia. split_and!; [lia|lia|lia|done].
    + replace k with 0%nat in * by lia. rewrite Nat.sub_0_r in *. by apply HQ.
Qed.

(** ** The end of the loader *)

(** the [len] bytes at [s] are an executable with program headers [hs] *)
Record elf_image m pg hs : Prop := mk_elf_image {
  im_len : 64 <= len;
  im_header : header_error (fun i => rd (ram m) (s + i)) = None;
  im_count : load 2 (ram m) (s + 56) = Z.of_nat (length hs);
  im_table : load 8 (ram m) (s + 32) + 56 * Z.of_nat (length hs) <= len;
  im_segments : segments m pg (s + load 8 (ram m) (s + 32)) hs
}.

Definition STACK_PAGE : Z := USER_STACK / 4096.

(** the segments are in place, and the one stack page; the page below it is not mapped,
    where the last read of the loader goes *)
Record placed m tb pg hs (e : stop) m' tb' pg' : Prop := mk_placed {
  pl_stop : e = PageFault (USER_STACK - slot);
  pl_loads : loads m tb pg m' tb' pg' (page_count hs + 1);
  pl_pages : pages_added pg pg' (fun p => in_segments hs p \/ p = STACK_PAGE);
  pl_contents : contents m m' pg' hs
}.

Lemma wp_load_elf m tb pg hs (Q : Z -> machine -> Prop) :
  uas m tb pg -> elf_image m pg hs -> (forall a, span s len a -> ~ area (glb m) (frees m) tb a) ->
  pg !! STACK_PAGE = None -> ~ in_segments hs STACK_PAGE ->
  pg !! (STACK_PAGE - 1) = None -> ~ in_segments hs (STACK_PAGE - 1) -> (4 * page_count hs + 4 <= size (frees m))%nat ->
  wp (load_elf slot t (KERNEL_BASE + s)) Q (fun e m' => exists tb' pg', placed m tb pg hs e m' tb' pg') m.
Proof.
  intros Hu [Hl Hh Hc Ht Hsg] Himgar Hst Hnst Hbl Hnbl Hsz. pose proof (vo_k _ _ _ (ua_ok _ _ _ _ _ _ _ Hu)) as Hk.
  pose proof (load_range 8 (ram m) (s + 32)) as Hpo. set (o := load 8 (ram m) (s + 32)) in *.
  unfold load_elf. apply wp_bind, (wp_check_header m _ s); [apply (kspace_vmap K); [done|lia|lia]|].
  intros m1 Hw1. rewrite Hh. apply wp_bind, (wp_field 8 m); [done|done|lia|lia|lia|]. intros m2 Hw2. fold o.
  replace (u64 (KERNEL_BASE + s + o)) with (KERNEL_BASE + (s + o)) by (unfold KWIN in *; zconst; rewrite u64_small; lia).
  cbv zeta. apply wp_bind. eapply (wp_load_segments m m2 tb pg o hs); [done..|lia|lia|done|done|done|lia|].
  intros m3 (tb3 & pg3 & HL3 & Hp3 & Hc3). rewrite firstn_all in HL3, Hp3, Hc3.
  assert (Hk3 : kspace K m3) by apply (vo_k _ _ _ (ua_ok _ _ _ _ _ _ _ (lo_uas _ _ _ _ _ _ _ HL3))).
  apply wp_bind, (wp_field 8 m3); [done|done|lia|lia|lia|]. intros m4 Hw4.
  pose proof (loads_trans _ _ _ _ _ _ _ _ _ _ _ HL3 (loads_warm _ _ _ _ (lo_uas _ _ _ _ _ _ _ HL3) Hw4)) as HL4.
  rewrite Nat.add_0_r in HL4. pose proof (lo_size _ _ _ _ _ _ _ HL4).
  apply wp_bind_assoc, wp_bind. unfold STACK_PAGE in *.
  apply (wp_load_page m4 tb3 pg3); [apply HL4|done| |done|done|done|lia|].
  { destruct (pg3 !! (USER_STACK / 4096)) as [f|] eqn:E1; [|done]. exfalso.
    destruct (proj1 (Hp3 _) ltac:(by eexists)) as [[g Hg]|?]; [congruence|done]. }
  intros m5 tb5 f HL5. cbv zeta. rewrite u64_small by (unfold USER_STACK; lia).
  assert (Hbp : (USER_STACK - slot) / 4096 = USER_STACK / 4096 - 1) by (unfold USER_STACK; dlia).
  apply wp_bind, (wp_user_load_fault K q root ctx m5 tb5 (<[USER_STACK / 4096 := f]> pg3)); [exact (lo_uas _ _ _ _ _ _ _ HL5)| | |].
  { unfold lower. rewrite (proj2 (Z.leb_le _ _)), (proj2 (Z.ltb_lt _ _)) by (unfold USER_STACK; lia). done. }
  { rewrite Hbp, lookup_insert_ne by lia. destruct (pg3 !! (USER_STACK / 4096 - 1)) as [g|] eqn:E1; [|done]. exfalso.
    destruct (proj1 (Hp3 _) ltac:(by eexists)) as [[g' Hg]|?]; [congruence|done]. }
  eexists tb5, _. split; [done|by eapply loads_trans| |].
  - intros p. unfold STACK_PAGE. destruct (decide (p = USER_STACK / 4096)) as [->|Hne].
    + rewrite lookup_insert_eq. split; [|done]. by right; right.
    + rewrite lookup_insert_ne by done. rewrite (Hp3 p). tauto.
  - intros h a Hin Ha. rewrite (lo_old _ _ _ _ _ _ _ HL5); [rewrite (warm_ram _ _ Hw4); by apply Hc3|].
    specialize (Hc3 h a Hin Ha). unfold ubyte in Hc3. by destruct (pg3 !! (a / 4096)).
Qed.
End Loader.

(** ** Files *)

(** the bytes of [file] at physical address [s] *)
Definition bytes_at (r : ram_t) (s : Z) (file : list Z) : Prop :=
  forall i, 0 <= i < Z.of_nat (length file) -> rd r (s + i) = nth (Z.to_nat i) file 0.

Lemma load_bytes r s file n (k : nat) :
  bytes_at r s file -> (k + n <= length file)%nat -> load n r (s + Z.of_nat k) = le_bytes (take n (drop k file)).
Proof.
  intros Hb. revert k. induction n as [|n IH]; intros k Hk; [by rewrite take_0|]. cbn [load].
  destruct (lookup_lt_is_Some_2 file k ltac:(lia)) as [v Hv].
  rewrite (drop_S file v k) by done. cbn [take le_bytes]. rewrite <- IH by lia.
  rewrite Hb, Nat2Z.id by lia. rewrite (nth_lookup_Some _ _ _ _ Hv). do 3 f_equal. lia.
Qed.

Lemma load_field r s file st base name f v :
  bytes_at r s file -> field_of st name = Some f -> field file st base name = Some v -> 0 <= f.2 ->
  load (Z.to_nat f.2) r (s + base + f.1.2) = v /\ 0 <= base + f.1.2 /\ base + f.1.2 + f.2 <= Z.of_nat (length file).
Proof.
  intros Hb Hf Hv Hn. unfold field in Hv. rewrite Hf in Hv. unfold read_at in Hv.
  destruct (Z.leb_spec 0 (base + f.1.2)); [|done]. destruct (Z.leb_spec (base + f.1.2 + f.2) (Z.of_nat (length file))); [|done].
  injection Hv as <-. split; [|done].
  replace (s + base + f.1.2) with (s + Z.of_nat (Z.to_nat (base + f.1.2))) by lia.
  apply load_bytes; [done|lia].
Qed.

Ltac load_of_field Hb E H :=
  lazymatch type of E with field ?file ?st ?base ?name = Some ?v =>
    lazymatch type of Hb with bytes_at ?r ?s _ =>
      let f := eval vm_compute in (field_of st name) in
      lazymatch f with Some ?g =>
        pose proof (load_field r s file st base name g v Hb eq_refl E ltac:(done)) as H;
        let k := eval vm_compute in (Z.to_nat g.2) in change (Z.to_nat g.2) with k in H; cbn [fst snd] in H
      end
    end
  end.

(** the program headers of a file *)
Definition read_phdr (file : list Z) (ph : Z) : option phdr :=
  type ← field file Elf64_Phdr ph "p_type";
  flags ← field file Elf64_Phdr ph "p_flags";
  offset ← field file Elf64_Phdr ph "p_offset";
  vaddr ← field file Elf64_Phdr ph "p_vaddr";
  filesz ← field file Elf64_Phdr ph "p_filesz";
  memsz ← field file Elf64_Phdr ph "p_memsz";
  Some (mk_phdr type flags offset vaddr filesz memsz).

Definition phdrs_of (file : list Z) : option (list phdr) := phs ← program_headers file; mapM (read_phdr file) phs.

(** an executable [load_elf] loads: its program headers are [hs] *)
Record loadable (file : list Z) (hs : list phdr) : Prop := mk_loadable {
  ld_header : header_error (fun i => nth (Z.to_nat i) file 0) = None;
  ld_len : 64 <= Z.of_nat (length file);
  ld_phdrs : phdrs_of file = Some hs;
  ld_table off : field file Elf64_Ehdr 0 "e_phoff" = Some off -> off + 56 * Z.of_nat (length hs) <= Z.of_nat (length file);
  ld_ok : Forall (phdr_ok (Z.of_nat (length file))) hs;
  ld_apart (i j : nat) h h' p : hs !! i = Some h -> hs !! j = Some h' -> in_segment h p -> in_segment h' p -> i = j
}.

Lemma read_phdr_at r s file ph h : bytes_at r s file -> read_phdr file ph = Some h -> phdr_at r (s + ph) h.
Proof.
  intros Hb Hr. unfold read_phdr in Hr.
  repeat match type of Hr with (?o ≫= _) = Some _ => let E := fresh "E" in destruct o eqn:E; [cbn [mbind option_bind] in Hr|done] end.
  injection Hr as <-. unfold phdr_at. cbn [ph_type ph_flags ph_offset ph_vaddr ph_filesz ph_memsz].
  split_and!; [rewrite <- (Z.add_0_r (s + ph))|..];
    match goal with E : _ = Some ?v |- _ = ?v => load_of_field Hb E H; apply H end.
Qed.

Lemma header_error_ext h h' : (forall i, 0 <= i < 64 -> h i = h' i) -> header_error h = header_error h'.
Proof.
  intros He. unfold header_error, magic_ok. change (seqZ 0 4) with [0; 1; 2; 3]. cbn [forallb].
  rewrite !(He 0), !(He 1), !(He 2), !(He 3), !(He 18), !(He 19), (He EI_CLASS), (He EI_DATA) by done. done.
Qed.

Lemma loadable_image file hs m pg s : bytes_at (ram m) s file -> loadable file hs ->
  (forall p, in_segments hs p -> pg !! p = None) -> elf_image s (Z.of_nat (length file)) m pg hs.
Proof.
  intros Hb [Hh Hl Hp Ht Hok Hap] Hnew. unfold phdrs_of, program_headers in Hp.
  destruct (field file Elf64_Ehdr 0 "e_phoff") as [off|] eqn:Eo; [|done].
  destruct (field file Elf64_Ehdr 0 "e_phnum") as [n|] eqn:En; [|done]. cbn in Hp.
  apply mapM_Some in Hp as HF. pose proof (Forall2_length _ _ _ HF) as Hlen. unfold entries in HF, Hlen.
  rewrite length_fmap, length_seqZ in Hlen.
  load_of_field Hb Eo Ho. load_of_field Hb En Hn. destruct Ho as (Lo & _), Hn as (Ln & _).
  rewrite !Z.add_0_r in *.
  split.
  - done.
  - rewrite <- Hh. apply header_error_ext. intros i Hi. apply Hb. lia.
  - rewrite Ln. pose proof (load_range 2 (ram m) (s + 56)). lia.
  - rewrite Lo. by apply Ht.
  - rewrite Lo. split.
    + intros i h Hi. destruct (Forall2_lookup_r _ _ _ _ _ HF Hi) as (ph & Hph & Hr).
      rewrite <- Z.add_assoc. apply (read_phdr_at _ _ file); [done|]. rewrite list_lookup_fmap in Hph.
      destruct (seqZ 0 n !! i) as [j|] eqn:Ej; [|done]. apply lookup_seqZ in Ej as [-> _]. injection Hph as <-.
      exact Hr.
    + by apply Forall_forall.
    + exact Hap.
    + intros h p Hin Hs. apply Hnew. by exists h.
Qed.

(** ** Properties *)

(** C3: [load_elf] of a sound executable into a program memory with room maps exactly the
    pages of the segments and the one stack page, every byte of every segment is the byte
    of the file the program header names, and what was mapped before is unchanged; but
    the program is not entered: the assembly at the end reads [entry] through the frame
    pointer it has just set to the user stack, and that read faults, since nothing is
    mapped below the stack page. *)
Theorem load_elf_faults K q root slot t s file hs m tb pg :
  uas K q root (task_pml4t t) m tb pg -> bytes_at (ram m) s file -> loadable file hs ->
  0 < slot <= 4096 ->
  0 <= s -> s + Z.of_nat (length file) <= KWIN -> Z.of_nat (length file) < 2 ^ 31 ->
  (forall a, span s (Z.of_nat (length file)) a -> ~ area K (glb m) (frees m) tb a) ->
  (forall p, in_segments hs p \/ p = STACK_PAGE \/ p = STACK_PAGE - 1 -> pg !! p = None) ->
  ~ in_segments hs STACK_PAGE -> ~ in_segments hs (STACK_PAGE - 1) ->
  (4 * page_count hs + 4 <= size (frees m))%nat ->
  wp (load_elf slot t (KERNEL_BASE + s)) (fun _ _ => False)
    (fun e m' => e = PageFault (USER_STACK - slot) /\ exists tb' pg',
       uas K q root (task_pml4t t) m' tb' pg' /\
       (forall p, is_Some (pg' !! p) <-> is_Some (pg !! p) \/ in_segments hs p \/ p = STACK_PAGE) /\
       (forall h a, h ∈ hs -> from_file h a ->
          ubyte (ram m') pg' a = Some (nth (Z.to_nat (ph_offset h + (a - ph_vaddr h))) file 0)) /\
       (forall a, is_Some (pg !! (a / 4096)) -> ubyte (ram m') pg' a = ubyte (ram m) pg a)) m.
Proof.
  intros Hu Hb Hld Hslot Hs Hsk Hl Har Hnew Hnst Hnbl Hsz.
  assert (Himg : elf_image s (Z.of_nat (length file)) m pg hs) by (apply (loadable_image file); auto).
  eapply wp_mono; [apply (wp_load_elf K q root t s (Z.of_nat (length file)) Hs Hsk Hl slot Hslot m tb pg hs (fun _ _ => False)); auto|done|].
  intros e m' (tb' & pg' & [-> HL Hp Hc]). split; [done|]. exists tb', pg'.
  split_and!; [apply HL|exact Hp| |apply HL].
  intros h a Hh Ha. rewrite (Hc h a Hh Ha). f_equal. pose proof (proj1 (Forall_forall _ _) (ld_ok _ _ Hld) h Hh) as (_ & _ & _ & ? & ?).
  destruct Ha as [_ Ha]. unfold span in Ha. rewrite <- Z.add_assoc. apply Hb. lia.
Qed.
