(* ===== verification/ElfWrite.v ===== *)
(** Writing ELF64 executables, by the tables of the System V ABI, independently of the
    structures of elf.h: a file so written is read back, through the layout of those
    structures, as what was put into it, and the loader accepts it. *)

From stdpp Require Import strings.
From S2P Require Import Prelude ElfConst ElfFormat Elf Loader.

(** ** Little-endian records *)

Fixpoint le (n : nat) (v : Z) : list Z :=
  match n with O => [] | S k => v mod 256 :: le k (v / 256) end.

(** fields of a width and a value, one after the other *)
Definition record : Type := list (nat * Z).
Definition write (l : record) : list Z := flat_map (fun c => le c.1 c.2) l.
Definition width (l : record) : nat := sum_list_with fst l.
Definition in_range (c : nat * Z) : Prop := 0 <= c.2 < 2 ^ (8 * Z.of_nat c.1).

Lemma length_le n v : length (le n v) = n.
Proof. revert v. induction n as [|n IH]; intros v; cbn; [done|]. by rewrite IH. Qed.

Lemma le_bytes_le n v : 0 <= v < 2 ^ (8 * Z.of_nat n) -> le_bytes (le n v) = v.
Proof.
  revert v. induction n as [|n IH]; intros v Hv; cbn [le le_bytes]; [change (2 ^ (8 * Z.of_nat 0)) with 1 in Hv; lia|].
  replace (8 * Z.of_nat (S n)) with (8 + 8 * Z.of_nat n) in Hv by lia. rewrite Z.pow_add_r in Hv by lia.
  change (2 ^ 8) with 256 in Hv. rewrite IH; [pose proof (Z.div_mod v 256); lia|]. split; [apply Z.div_pos; lia|].
  apply Z.div_lt_upper_bound; lia.
Qed.

Lemma length_write l : length (write l) = width l.
Proof. unfold write, width. induction l as [|c l IH]; cbn; [done|]. by rewrite length_app, length_le, IH. Qed.

Lemma write_app l l' : write (l ++ l') = write l ++ write l'.
Proof. unfold write. by rewrite flat_map_app. Qed.

(** a field is found behind the fields before it *)
Lemma read_written pre l rest (i : nat) n v (off : Z) :
  l !! i = Some (n, v) -> in_range (n, v) -> off = Z.of_nat (length pre + width (take i l)) ->
  read_at (pre ++ write l ++ rest) off (Z.of_nat n) = Some v.
Proof.
  intros Hi Hv ->. cbn [fst snd in_range] in Hv. rewrite <- (take_drop_middle l i (n, v) Hi).
  assert (Hw : write (take i l ++ (n, v) :: drop (S i) l) = write (take i l) ++ le n v ++ write (drop (S i) l)) by by rewrite write_app.
  rewrite Hw. assert (Hlt : (i < length l)%nat) by by eapply lookup_lt_Some.
  assert (Ht : take i (take i l ++ (n, v) :: drop (S i) l) = take i l) by (apply take_app_length'; rewrite length_take; lia).
  rewrite Ht. set (a := write (take i l)). set (b := write (drop (S i) l)).
  assert (Hla : length a = width (take i l)) by apply length_write. rewrite <- Hla.
  replace (pre ++ (a ++ le n v ++ b) ++ rest) with ((pre ++ a) ++ le n v ++ (b ++ rest)) by by rewrite <- !app_assoc.
  unfold read_at. rewrite !length_app, length_le. rewrite (proj2 (Z.leb_le _ _)), (proj2 (Z.leb_le _ _)) by lia. cbn [andb].
  rewrite !Nat2Z.id. rewrite drop_app_length' by by rewrite length_app. rewrite take_app_length' by by rewrite length_le.
  by rewrite le_bytes_le.
Qed.

(** ** The tables of the ABI *)

(** magic, 64 bits, little endian, version 1, and padding *)
Definition abi_ident : list Z := [0x7F; 0x45; 0x4C; 0x46; 2; 1; 1; 0; 0; 0; 0; 0; 0; 0; 0; 0].

(** what a writer of executables chooses *)
Record elf_choice : Type := mk_elf_choice {
  w_type : Z; w_entry : Z; w_phoff : Z; w_shoff : Z; w_flags : Z; w_phnum : Z; w_shnum : Z; w_shstrndx : Z
}.

(** the file header of an x86-64 file, figure 4-3 of the ABI *)
Definition abi_header (w : elf_choice) : record :=
  map (pair 1%nat) abi_ident ++
  [(2%nat, w_type w); (2%nat, 62); (4%nat, 1); (8%nat, w_entry w); (8%nat, w_phoff w); (8%nat, w_shoff w);
   (4%nat, w_flags w); (2%nat, 64); (2%nat, 56); (2%nat, w_phnum w); (2%nat, 64); (2%nat, w_shnum w);
   (2%nat, w_shstrndx w)].

(** a program header, figure 5-1, with a physical address and an alignment *)
Definition abi_segment (x : phdr * (Z * Z)) : record :=
  [(4%nat, ph_type x.1); (4%nat, ph_flags x.1); (8%nat, ph_offset x.1); (8%nat, ph_vaddr x.1); (8%nat, x.2.1);
   (8%nat, ph_filesz x.1); (8%nat, ph_memsz x.1); (8%nat, x.2.2)].

(** header, [gap] bytes, table of program headers, and the rest of the file *)
Definition write_elf (w : elf_choice) (gap : list Z) (xs : list (phdr * (Z * Z))) (body : list Z) : list Z :=
  write (abi_header w) ++ gap ++ flat_map (fun x => write (abi_segment x)) xs ++ body.

Record writable (w : elf_choice) (gap : list Z) (xs : list (phdr * (Z * Z))) : Prop := mk_writable {
  wr_header : Forall in_range (abi_header w);
  wr_segments : Forall (fun x => Forall in_range (abi_segment x)) xs;
  wr_phoff : w_phoff w = 64 + Z.of_nat (length gap);
  wr_phnum : w_phnum w = Z.of_nat (length xs)
}.

Section Written.
Context (w : elf_choice) (gap : list Z) (xs : list (phdr * (Z * Z))) (body : list Z) (Hw : writable w gap xs).
Local Abbreviation file := (write_elf w gap xs body).

(** the fields of the header, by their place in the table *)
Lemma header_field name f (i : nat) n v :
  field_of Elf64_Ehdr name = Some f -> abi_header w !! i = Some (n, v) -> f.2 = Z.of_nat n ->
  f.1.2 = Z.of_nat (width (take i (abi_header w))) -> field file Elf64_Ehdr 0 name = Some v.
Proof.
  intros Hf Hi Hn Ho. unfold field. rewrite Hf, Hn, Z.add_0_l.
  apply (read_written [] (abi_header w) _ i); [done| |done].
  exact (proj1 (Forall_lookup _ _) (wr_header _ _ _ Hw) i _ Hi).
Qed.

Lemma length_segments l : length (flat_map (fun x => write (abi_segment x)) l) = (56 * length l)%nat.
Proof. induction l as [|x l IH]; cbn [flat_map length]; [done|]. rewrite length_app, IH, length_write. change (width (abi_segment x)) with 56%nat. lia. Qed.

(** the fields of a program header *)
Lemma segment_field (k : nat) x name f (i : nat) n v :
  xs !! k = Some x -> field_of Elf64_Phdr name = Some f -> abi_segment x !! i = Some (n, v) -> f.2 = Z.of_nat n ->
  f.1.2 = Z.of_nat (width (take i (abi_segment x))) ->
  field file Elf64_Phdr (w_phoff w + sizeof Elf64_Phdr * Z.of_nat k) name = Some v.
Proof.
  intros Hk Hf Hi Hn Ho. unfold field. rewrite Hf, Hn.
  assert (Hs : flat_map (fun x => write (abi_segment x)) xs =
    flat_map (fun x => write (abi_segment x)) (take k xs) ++ write (abi_segment x) ++ flat_map (fun x => write (abi_segment x)) (drop (S k) xs)).
  { rewrite <- (take_drop_middle xs k x Hk) at 1. by rewrite flat_map_app. }
  unfold write_elf. rewrite Hs. set (pre := flat_map _ (take k xs)). set (post := flat_map _ (drop _ xs)).
  assert (Hlp : length pre = (56 * k)%nat).
  { unfold pre. rewrite length_segments, length_take. apply lookup_lt_Some in Hk. lia. }
  replace (write (abi_header w) ++ gap ++ (pre ++ write (abi_segment x) ++ post) ++ body)
    with ((write (abi_header w) ++ gap ++ pre) ++ write (abi_segment x) ++ (post ++ body)) by by rewrite <- !app_assoc.
  apply (read_written _ (abi_segment x) _ i); [done| |].
  - pose proof (proj1 (Forall_lookup _ _) (wr_segments _ _ _ Hw) k x Hk) as Hx. exact (proj1 (Forall_lookup _ _) Hx i _ Hi).
  - rewrite !length_app, length_write, Hlp, (wr_phoff _ _ _ Hw), Ho. change (width (abi_header w)) with 64%nat.
    change (sizeof Elf64_Phdr) with 56. lia.
Qed.

Lemma segment_read (k : nat) x : xs !! k = Some x ->
  read_phdr file (w_phoff w + sizeof Elf64_Phdr * Z.of_nat k) = Some x.1.
Proof.
  intros Hk. unfold read_phdr.
  rewrite (segment_field k x "p_type" ("p_type", 0, 4) 0 4 (ph_type x.1)) by done. cbn [mbind option_bind].
  rewrite (segment_field k x "p_flags" ("p_flags", 4, 4) 1 4 (ph_flags x.1)) by done. cbn [mbind option_bind].
  rewrite (segment_field k x "p_offset" ("p_offset", 8, 8) 2 8 (ph_offset x.1)) by done. cbn [mbind option_bind].
  rewrite (segment_field k x "p_vaddr" ("p_vaddr", 16, 8) 3 8 (ph_vaddr x.1)) by done. cbn [mbind option_bind].
  rewrite (segment_field k x "p_filesz" ("p_filesz", 32, 8) 5 8 (ph_filesz x.1)) by done. cbn [mbind option_bind].
  rewrite (segment_field k x "p_memsz" ("p_memsz", 40, 8) 6 8 (ph_memsz x.1)) by done. cbn [mbind option_bind].
  by destruct x as [[] ?].
Qed.

Lemma phdrs_read : phdrs_of file = Some xs.*1.
Proof.
  unfold phdrs_of, program_headers.
  rewrite (header_field "e_phoff" ("e_phoff", 32, 8) 20 8 (w_phoff w)) by done. cbn [mbind option_bind].
  rewrite (header_field "e_phnum" ("e_phnum", 56, 2) 25 2 (w_phnum w)) by done. cbn [mbind option_bind].
  rewrite (wr_phnum _ _ _ Hw). apply mapM_Some, Forall2_same_length_lookup. unfold entries. split.
  - by rewrite !length_fmap, length_seqZ, Nat2Z.id.
  - intros i ph h Hph Hh. apply list_lookup_fmap_Some in Hph as (j & -> & [-> Hi]%lookup_seqZ).
    apply list_lookup_fmap_Some in Hh as (x & -> & Hx). rewrite Z.add_0_l. by apply segment_read.
Qed.

Lemma written_header : header_error (fun i => nth (Z.to_nat i) file 0) = None.
Proof. reflexivity. Qed.

Lemma length_written : (64 + length gap + 56 * length xs <= length file)%nat.
Proof.
  unfold write_elf. rewrite !length_app, length_write, length_segments. change (width (abi_header w)) with 64%nat. lia.
Qed.
End Written.

(** ** Properties *)

