(* ===== verification/SharedPages.v ===== *)
(** Segments that share a page.  The loader maps every page of a segment to a fresh
    frame without looking whether an earlier segment has mapped it; what becomes of the
    bytes of the earlier segment depends on whether a translation of the page is cached. *)

From S2P Require Import Prelude Comp Ram Machine KSpace Utils Pmm Vmm VmmMap VmmWalk Space User ElfFormat Elf Loader.

Section SharedPages.
Context `{FA : !FrameAllocator pmm_alloc pmm_free}.
Context (K : ktables) (q root ctx : Z).
Implicit Types (m : machine) (tb : gmap Z (list Z)) (pg : gmap Z Z).
Local Abbreviation vmm_ok := (Vmm.vmm_ok K q).
Local Abbreviation uas := (User.uas K q root ctx).

(** the processor reaches frame [w] at page [p], through its cache or else the tables *)
Definition reaches m (p w : Z) : Prop := tlb m !! p = Some w \/ (tlb m !! p = None /\ mwalk m p = Some w).

(** a frame above the kernel's memory that is no table of the space, and none of whose
    bytes the walk of page [p] reads *)
Record apart m (p w : Z) : Prop := mk_apart {
  ap_high : KWIN <= w;
  ap_kernel a : span w 4096 a -> ~ ktab K a;
  ap_walk a : mbytes m p a -> ~ span w 4096 a
}.

Lemma frame_apart m tb p w :
  user_space K q root m tb ctx -> kt4 K = root -> 0 <= p -> low p -> 2 ^ 21 <= w -> w mod 4096 = 0 -> tb !! w = None -> apart m p w.
Proof.
  intros [Hv Hsp _] Hr Hp Hl Hw Hm Hn. pose proof (vo_1 _ _ _ Hv). pose proof (vo_2 _ _ _ Hv). pose proof (vo_3 _ _ _ Hv).
  assert (Hno : forall t pre a, tb !! t = Some pre -> span t 4096 a -> ~ span w 4096 a).
  { intros t pre a Ht Ha Hwa. destruct (sp_table _ _ _ _ _ Hsp t pre Ht) as [_ [_ Hal _ _ _]].
    assert (t = w) by (unfold span in *; dlia). congruence. }
  split; [unfold KWIN; lia| |].
  - intros a Ha [H4|Hk]; [|unfold KWIN, span in *; lia]. apply (Hno root [] a); [apply Hsp| |done]. unfold span in *. lia.
  - intros a Ha. rewrite (proj2 (space_walk_cr3 K q root m tb p (vo_k _ _ _ Hv) Hr Hsp)) in Ha.
    destruct (space_bytes K q root m tb p a Hsp Hp Hl Ha) as (t & pre & Ht & Hta). by eapply Hno.
Qed.

(** ** Copying to a page the processor reaches *)

Lemma wp_store_reached m va v w (Q : unit -> machine -> Prop) E :
  0 <= va < 2 ^ 47 -> reaches m (va / 4096) w -> apart m (va / 4096) w ->
  (forall m', mstep (span w 4096) m m' -> tlb m' !! (va / 4096) = Some w -> apart m' (va / 4096) w ->
     (forall p f, tlb m !! p = Some f -> tlb m' !! p = Some f) -> ram m' = wr (w + va mod 4096) v (ram m) -> Q tt m') ->
  wp (vstore 1 va v) Q E m.
Proof.
  intros Hva Hre Hap HQ. pose proof (Z.mod_pos_bound va 4096). set (p := va / 4096) in *.
  assert (Hrun : exists t, (t = tlb m \/ (tlb m !! p = None /\ mwalk m p = Some w /\ t = <[p := w]> (tlb m))) /\ t !! p = Some w /\
     translate va m = Ret (w + va mod 4096) (set_tlb t m)).
  { unfold translate, canonical, lower. rewrite (proj2 (Z.leb_le _ _)), (proj2 (Z.ltb_lt _ _)) by lia. cbn [andb orb]. fold p.
    destruct Hre as [Ht|[Hn Hw]].
    - rewrite Ht. exists (tlb m). split_and!; [by left|done|by destruct m].
    - rewrite Hn. unfold mwalk in Hw. rewrite Hw. eexists. split_and!; [by right|apply lookup_insert_eq|done]. }
  destruct Hrun as (t & Ht & Htp & Hrun). unfold wp, vstore, bind. cbn [translate_range]. unfold bind, ret, modify. rewrite Hrun.
  cbn [store_at set_tlb set_ram ram]. set (m' := set_ram _ _).
  assert (Hs : mstep (span w 4096) m m').
  { split; try done.
    - cbn. change (wr (w + va mod 4096) v (ram m)) with (store 1 (w + va mod 4096) v (ram m)). apply agree_store.
      intros a Ha Hn. apply Hn. unfold span in *. lia.
    - intros p' _ f. cbn. destruct Ht as [->|(_ & Hw & ->)]; [by left|]. intros [[<- <-]|[_ ?]]%lookup_insert_Some; [by right|by left]. }
  destruct (mstep_walk _ _ _ _ Hs (ap_walk _ _ _ Hap)) as [_ Hb]. apply HQ; [done|done| | |done].
  - destruct Hap as [A1 A2 A3]. split; [done|done|]. intros a Ha. by apply A3, Hb.
  - intros p' f Hf. cbn. destruct Ht as [->|(Hn & _ & ->)]; [done|]. rewrite lookup_insert_ne; [done|congruence].
Qed.

(** the [n] bytes from [s] are at [va], in the frame [w] of its page, and the rest of the
    frame is what it was *)
Definition copied_in (r r' : ram_t) (s va n w : Z) : Prop := forall i, 0 <= i < 4096 ->
  rd r' (w + i) = if decide (span (va mod 4096) n i) then rd r (s + (i - va mod 4096)) else rd r (w + i).

Lemma wp_memcpy_reached m va s n w (Q : Z -> machine -> Prop) E :
  kspace K m -> 0 <= va < 2 ^ 47 -> va mod 4096 + n <= 4096 -> 0 <= n -> 0 <= s -> s + n <= KWIN ->
  reaches m (va / 4096) w -> apart m (va / 4096) w ->
  (forall m', mstep (span w 4096) m m' -> (forall p f, tlb m !! p = Some f -> tlb m' !! p = Some f) ->
     (0 < n -> tlb m' !! (va / 4096) = Some w) -> copied_in (ram m) (ram m') s va n w -> Q va m') ->
  wp (memcpy va (KERNEL_BASE + s) n) Q E m.
Proof.
  intros Hk Hva Hvn Hn Hs Hsn Hre Hap HQ. pose proof (Z.mod_pos_bound va 4096). unfold memcpy. rewrite Z.min_l by lia. apply wp_bind.
  eapply wp_mono; [eapply (wp_for_range (fun i m' => kspace K m' /\ mstep (span w 4096) m m' /\ reaches m' (va / 4096) w /\
      apart m' (va / 4096) w /\ (forall p f, tlb m !! p = Some f -> tlb m' !! p = Some f) /\
      (0 < i -> tlb m' !! (va / 4096) = Some w) /\ copied_in (ram m) (ram m') s va i w))| |by intros].
  - split_and!; [done..|lia|]. intros i Hi. rewrite decide_False; [done|]. unfold span. lia.
  - intros i m1 Hi (Hk1 & Hs1 & Hre1 & Hap1 & Ht1 & _ & Hc1). rewrite Z2Nat.id in Hi by lia.
    replace (u64 (KERNEL_BASE + s + i)) with (KERNEL_BASE + (s + i)) by (unfold KWIN in *; zconst; rewrite u64_small; lia).
    rewrite (u64_small (va + i)) by lia. assert (Hd : (va + i) / 4096 = va / 4096 /\ (va + i) mod 4096 = va mod 4096 + i) by dlia.
    apply wp_bind, (wp_kload K 1); [done|lia|lia|]. intros m2 Hw2 Hk2. rewrite load1.
    assert (Hs12 : mstep (span w 4096) m m2) by (etrans; [exact Hs1|by apply wstep_mstep, warm_wstep]).
    assert (Hb2 : forall a, mbytes m2 (va / 4096) a <-> mbytes m1 (va / 4096) a).
    { apply (mstep_walk nowhere); [by apply wstep_mstep, warm_wstep|by intros ? _ []]. }
    apply (wp_store_reached m2 _ _ w); rewrite ?(proj1 Hd); [change (2 ^ 47) with 140737488355328 in *; dlia| | |].
    { destruct (tlb m2 !! (va / 4096)) as [f|] eqn:E2.
      - left. destruct Hre1 as [Hr|[Hr Hw]]; [by apply (warm_sub _ _ Hw2) in Hr; congruence|].
        destruct (warm_new _ _ Hw2 _ _ E2) as [?|Hf]; [congruence|]. unfold mwalk in Hw. congruence.
      - right. split; [done|]. destruct Hre1 as [Hr|[Hr Hw]]; [by apply (warm_sub _ _ Hw2) in Hr; congruence|].
        unfold mwalk in *. by rewrite (warm_ram _ _ Hw2), (warm_cr3 _ _ Hw2). }
    { destruct Hap1 as [A1 A2 A3]. split; [done|done|]. intros a Ha. by apply A3, Hb2. }
    intros m3 Hs3 Hre3 Hap3 Ht3 Hr3. rewrite (proj2 Hd) in Hr3. split_and!; [|by etrans|by left|done| |done|].
    + eapply kspace_mstep; [exact Hk2|exact Hs3|]. intros a Ha Hwa. by apply (ap_kernel _ _ _ Hap a).
    + intros p f Hf. by apply Ht3, (warm_sub _ _ Hw2), Ht1.
    + intros j Hj. rewrite Hr3, (warm_ram _ _ Hw2). destruct (decide (j = va mod 4096 + i)) as [->|Hne].
      * rewrite rd_wr_eq, u8_small by apply rd_range. rewrite decide_True by (unfold span; lia).
        replace (va mod 4096 + i - va mod 4096) with i by lia. apply (ms_ram _ _ _ Hs1). pose proof (ap_high _ _ _ Hap). unfold span. lia.
      * rewrite rd_wr_ne by lia. rewrite (Hc1 j Hj). unfold span. repeat case_decide; done || lia.
  - intros [] m1 (_ & Hs1 & _ & _ & Ht1 & Hh1 & Hc1). rewrite Z2Nat.id in Hh1, Hc1 by lia.
    rewrite (proj2 (Z.leb_gt _ _)) by (change (2 ^ 31) with 2147483648; lia). by apply wp_ret, HQ.
Qed.

Lemma copied_from r0 r r' s va n w :
  agree (span s n) r0 r -> agree (span w 4096) r0 r -> copied_in r r' s va n w -> copied_in r0 r' s va n w.
Proof.
  intros Hs Hw Hc i Hi. rewrite (Hc i Hi). case_decide as Hd.
  - apply Hs. unfold span in *. lia.
  - apply Hw. unfold span. lia.
Qed.

(** ** Mapping a page again *)

(** mapping a page writes to no frame of the program *)
Lemma frame_kept m m' tb pg p f :
  uas m tb pg -> pg !! p = Some f -> wstep (area K (glb m) (frees m) tb) m m' -> agree (span f 4096) (ram m) (ram m').
Proof.
  intros Hu Hp Hs a Ha. apply (ws_ram _ _ _ Hs).
  destruct (data_safe K q root ctx m tb pg a Hu ltac:(by exists p, f)) as (_ & _ & Ho & Ht & Hf & Htb).
  intros [?|[?|[?|(u & pre & i & Hu1 & [Hi _] & Hia)]]]; [done..|]. eapply Htb; [exact Hu1|]. by eapply slot_in_page.
Qed.

(** neither the old nor the new frame of a page that is mapped again is a table *)
Lemma remapped_frames m tb pg va f j m' tb' :
  uas m tb pg -> pg !! (va / 4096) = Some f -> remapped K q root ctx m tb va j m' tb' ->
  apart m' (va / 4096) f /\ apart m' (va / 4096) (j * 4096) /\ f <> j * 4096.
Proof.
  intros Hu Hp HR. destruct (ua_low _ _ _ _ _ _ _ Hu _ _ Hp) as [Hp0 Hpl]. pose proof (ua_ok _ _ _ _ _ _ _ Hu) as Hv.
  destruct (ua_frame _ _ _ _ _ _ _ Hu _ _ Hp) as (Hf & Hfm & Hff & Hft). pose proof (rm_frame _ _ _ _ _ _ _ _ _ _ HR) as Hj.
  destruct (vo_free _ _ _ Hv j Hj) as [Hj512 _]. destruct (rm_grew _ _ _ _ _ _ _ _ _ _ HR) as [_ Hnew].
  assert (Hne : f <> j * 4096) by (intros ->; by rewrite Z.div_mul in Hff).
  split_and!; [..|done]; (eapply (frame_apart m' tb'); [apply HR|apply Hu|done|done|lia| |]).
  - done.
  - destruct (tb' !! f) as [pre|] eqn:E1; [|done]. exfalso. destruct (Hnew _ _ E1) as [H|(k & Hk & ->)]; [congruence|].
    apply Hff. rewrite Z.div_mul by lia. by apply gset_diff_sub in Hk.
  - apply Z_mod_mult.
  - destruct (tb' !! (j * 4096)) as [pre|] eqn:E1; [|done]. exfalso. destruct (Hnew _ _ E1) as [H|(k & Hk & Heq)].
    + destruct (sp_table _ _ _ _ _ (ua_space _ _ _ _ _ _ _ Hu) _ _ H) as [_ T]. apply (to_used _ _ _ T). by rewrite Z.div_mul by lia.
    + assert (k = j) as -> by lia. by apply gset_not_in_diff in Hk.
Qed.

(** the cached translation, if there is one, survives; else the new one is found *)
Lemma remapped_reaches m tb pg va j m' tb' :
  uas m tb pg -> 0 <= va < 2 ^ 47 -> remapped K q root ctx m tb va j m' tb' ->
  reaches m' (va / 4096) (default (j * 4096) (tlb m !! (va / 4096))) /\ mwalk m' (va / 4096) = Some (j * 4096).
Proof.
  intros Hu Hva HR. pose proof (rm_step _ _ _ _ _ _ _ _ _ _ HR) as Hs. destruct (rm_space _ _ _ _ _ _ _ _ _ _ HR) as [Hv' Hsp' _].
  assert (Hl : low (va / 4096)) by (unfold low; change (2 ^ 35) with 34359738368; change (2 ^ 47) with 140737488355328 in *; dlia).
  assert (Hw : mwalk m' (va / 4096) = Some (j * 4096)).
  { rewrite (proj1 (space_walk_cr3 K q root m' tb' _ (vo_k _ _ _ Hv') (ua_root _ _ _ _ _ _ _ Hu) Hsp')). apply HR. }
  split; [|exact Hw]. destruct (tlb m !! (va / 4096)) as [f|] eqn:E1; cbn [default from_option id].
  - left. apply (ws_keep _ _ _ Hs); [|done]. unfold low in Hl. change (TEMP_PAGE / 4096) with 0xFFFFFFFF801FF. change (2 ^ 35) with 34359738368 in *. lia.
  - right. split; [|exact Hw]. destruct (tlb m' !! (va / 4096)) as [f|] eqn:E2; [|done].
    apply (ws_low _ _ _ Hs) in E2; [congruence|exact Hl].
Qed.
(** what neither the loader's reads nor the mapping change *)
Lemma remapped_kept m0 m tb pg va p f j m' tb' s n :
  uas m0 tb pg -> warm m0 m -> pg !! p = Some f -> (forall a, span s n a -> ~ area K (glb m0) (frees m0) tb a) ->
  remapped K q root ctx m tb va j m' tb' ->
  agree (span s n) (ram m0) (ram m') /\ agree (span f 4096) (ram m0) (ram m') /\ agree (span (j * 4096) 4096) (ram m0) (ram m') /\
  (forall a, span f 4096 a -> ~ span (j * 4096) 4096 a).
Proof.
  intros Hu0 Hw Hp Himg HR. destruct (uas_warm K q root ctx m0 m tb pg Hu0 Hw) as [Hu Hf]. rewrite <- (warm_ram _ _ Hw). split_and!.
  - eapply agree_weaken; [apply (rm_step _ _ _ _ _ _ _ _ _ _ HR)|]. cbv beta. rewrite (warm_glb _ _ Hw), Hf. apply Himg.
  - eapply frame_kept; [exact Hu|exact Hp|apply HR].
  - intros a Ha. by apply (rm_bytes _ _ _ _ _ _ _ _ _ _ HR).
  - destruct (ua_frame _ _ _ _ _ _ _ Hu _ _ Hp) as (Hf0 & Hfm & Hff & _). pose proof (rm_frame _ _ _ _ _ _ _ _ _ _ HR) as Hj.
    intros a Ha Hja. apply Hff. replace (f / 4096) with j; [done|]. unfold span in *. dlia.
Qed.

Lemma warm_low_tlb m m' p : warm m m' -> low p -> tlb m' !! p = tlb m !! p.
Proof.
  intros Hw Hl. destruct (tlb m !! p) as [g|] eqn:E0; [by apply (warm_sub _ _ Hw)|].
  destruct (tlb m' !! p) as [g|] eqn:E1; [|done]. apply (warm_low _ _ Hw) in E1; [congruence|done].
Qed.

(** the copy that follows: to the old frame, if its translation is cached *)
Lemma wp_shared_copy m0 m tb pg va f j m' tb' s n (Q : Z -> machine -> Prop) E :
  uas m0 tb pg -> warm m0 m -> pg !! (va / 4096) = Some f -> 0 <= va < 2 ^ 47 -> va mod 4096 + n <= 4096 -> 0 <= n -> 0 <= s ->
  s + n <= KWIN -> (forall a, span s n a -> ~ area K (glb m0) (frees m0) tb a) ->
  remapped K q root ctx m tb (va / 4096 * 4096) j m' tb' ->
  (forall m2, mwalk m2 (va / 4096) = Some (j * 4096) /\ j * 4096 <> f /\
     match tlb m0 !! (va / 4096) with
     | Some _ => tlb m2 !! (va / 4096) = Some f /\ agree (span (j * 4096) 4096) (ram m0) (ram m2) /\ copied_in (ram m0) (ram m2) s va n f
     | None => agree (span f 4096) (ram m0) (ram m2) /\ copied_in (ram m0) (ram m2) s va n (j * 4096)
     end -> Q va m2) ->
  wp (memcpy va (KERNEL_BASE + s) n) Q E m'.
Proof.
  intros Hu0 Hw Hp Hva Hvn Hn Hs Hsn Himg HR HQ. destruct (uas_warm K q root ctx m0 m tb pg Hu0 Hw) as [Hu Hf].
  assert (Hd : va / 4096 * 4096 / 4096 = va / 4096) by (by apply Z.div_mul).
  assert (Hva' : 0 <= va / 4096 * 4096 < 2 ^ 47) by dlia.
  destruct (remapped_frames m tb pg (va / 4096 * 4096) f j m' tb' Hu) as (Af & Ag & Hne); [by rewrite Hd|done|].
  destruct (remapped_reaches m tb pg (va / 4096 * 4096) j m' tb' Hu Hva' HR) as [Hre Hwk]. rewrite Hd in *.
  destruct (ua_low _ _ _ _ _ _ _ Hu _ _ Hp) as [Hp0 Hpl].
  destruct (remapped_kept m0 m tb pg _ (va / 4096) f j m' tb' s n Hu0 Hw Hp Himg HR) as (Hsrc & Hold & Hnew & Hapart).
  pose proof (warm_low_tlb m0 m (va / 4096) Hw Hpl) as Ht.
  rewrite Ht in Hre. pose proof (vo_k _ _ _ (us_ok _ _ _ _ _ _ (rm_space _ _ _ _ _ _ _ _ _ _ HR))) as Hk.
  destruct (tlb m0 !! (va / 4096)) as [f'|] eqn:E1; cbn [default from_option id] in Hre.
  - assert (f' = f) as -> by (apply (ua_fresh _ _ _ _ _ _ _ Hu0) in E1; [congruence|done|done]).
    apply (wp_memcpy_reached m' va s n f); [done..|]. intros m2 Hs2 Ht2 _ Hc2. apply HQ. split_and!.
    + rewrite <- Hwk. apply (mstep_walk _ _ _ _ Hs2). apply Af.
    + done.
    + apply Ht2. destruct Hre as [?|[_ Hx]]; [done|]. congruence.
    + etrans; [exact Hnew|]. eapply agree_weaken; [apply Hs2|]. intros a Ha Hfa. by apply (Hapart a).
    + by eapply copied_from.
  - apply (wp_memcpy_reached m' va s n (j * 4096)); [done..|]. intros m2 Hs2 Ht2 _ Hc2. apply HQ. split_and!.
    + rewrite <- Hwk. apply (mstep_walk _ _ _ _ Hs2). apply Ag.
    + done.
    + etrans; [exact Hold|]. eapply agree_weaken; [apply Hs2|]. intros a Ha. by apply Hapart.
    + by eapply copied_from.
Qed.
End SharedPages.

Section Loads.
Context `{FA : !FrameAllocator pmm_alloc pmm_free}.
Context (K : ktables) (q root : Z) (t : task) (s len : Z).
Context (Himg : 0 <= s) (Himg' : s + len <= KWIN).
Implicit Types (m : machine) (tb : gmap Z (list Z)) (pg : gmap Z Z).
Local Abbreviation ctx := (task_pml4t t).
Local Abbreviation uas := (User.uas K q root ctx).
Local Abbreviation area := (Space.area K).

(** a loadable segment that lies in one page *)
Record one_page (h : phdr) : Prop := mk_one_page {
  op_type : ph_type h = PT_LOAD;
  op_ok : phdr_ok len h;
  op_end : (ph_vaddr h + ph_memsz h) / 4096 = ph_vaddr h / 4096
}.

(** loading it maps the page and copies *)
Lemma wp_load_one_page m tb pg x h (Q : unit -> machine -> Prop) (E : stop -> machine -> Prop) :
  uas m tb pg -> 0 <= x -> x + 56 <= KWIN -> phdr_at (ram m) x h -> one_page h -> (4 <= size (frees m))%nat ->
  (forall m6 m7 tb7 j, warm m m6 -> remapped K q root ctx m6 tb (ph_vaddr h / 4096 * 4096) j m7 tb7 ->
     wp (memcpy (ph_vaddr h) (KERNEL_BASE + (s + ph_offset h)) (ph_filesz h)) (fun _ => Q tt) E m7) ->
  wp (load_segment t (KERNEL_BASE + s) (KERNEL_BASE + x)) Q E m.
Proof.
  intros Hu Hx Hxk Hat [Hty Hok Hone] Hsz HQ.
  apply (wp_load_fields K t s m x h); [apply (vo_k _ _ _ (ua_ok _ _ _ _ _ _ _ Hu))|done..|]. intros m6 Hw6.
  destruct (uas_warm K q root ctx m m6 tb pg Hu Hw6) as [Hu6 Hf6].
  assert (Hcnt : segment_count h = 1%nat) by (unfold segment_count; rewrite Hty, Z.eqb_refl, Hone; lia).
  destruct (seg_pages_count len h Hok Hty) as (-> & Hj & _). rewrite Hcnt in *. destruct (Hj 0 ltac:(lia)) as [Hva Hvr].
  rewrite (Z.add_0_r (_ / _)) in Hva, Hvr. cbn [for_range]. apply wp_bind, wp_bind. rewrite Hva.
  destruct (seg_flags_ok (ph_flags h)) as (F1 & F2 & F3).
  apply (wp_remap K q root ctx m6 tb pg); [done|done|done|done|done|by rewrite Hf6|]. intros m7 tb7 j HR. apply wp_ret.
  destruct Hok as (Hv & Hfm & Hvm & Ho & Hol).
  replace (u64 (KERNEL_BASE + s + ph_offset h)) with (KERNEL_BASE + (s + ph_offset h))
    by (unfold KWIN in *; zconst; rewrite u64_small; lia).
  apply wp_bind. eapply wp_mono; [exact (HQ m6 m7 tb7 j Hw6 HR)| |done]. intros r m8 H8. by apply wp_ret.
Qed.

(** the loader leaves a translation of the page in the cache *)
Lemma wp_load_caches m tb pg x h :
  uas m tb pg -> 0 <= x -> x + 56 <= KWIN -> phdr_at (ram m) x h -> one_page h -> (4 <= size (frees m))%nat ->
  pg !! (ph_vaddr h / 4096) = None -> 0 < ph_filesz h ->
  wp (load_segment t (KERNEL_BASE + s) (KERNEL_BASE + x)) (fun _ m' => is_Some (tlb m' !! (ph_vaddr h / 4096))) nostop m.
Proof.
  intros Hu Hx Hxk Hat Hop Hsz Hp Hpos. pose proof Hop as [_ (Hv & Hfm & Hvm & Ho & Hol) Hend].
  apply (wp_load_one_page m tb pg x h); [done..|]. intros m6 m7 tb7 j Hw6 HR.
  destruct (uas_warm K q root ctx m m6 tb pg Hu Hw6) as [Hu6 Hf6]. set (p := ph_vaddr h / 4096) in *.
  assert (Hpl : 0 <= p /\ low p) by (unfold low, p; change (2 ^ 35) with 34359738368; change (2 ^ 47) with 140737488355328 in *; dlia).
  assert (Hd : p * 4096 / 4096 = p) by (by apply Z.div_mul).
  assert (Hcold : tlb m6 !! p = None) by (eapply uas_cold; [exact Hu6|apply Hpl|apply Hpl|exact Hp]).
  assert (Hr : 0 <= p * 4096 < 2 ^ 47) by (unfold p; dlia).
  destruct (remapped_reaches K q root ctx m6 tb pg _ j m7 tb7 Hu6 Hr HR) as [Hre _]. rewrite Hd, Hcold in Hre.
  assert (Hu7 : uas m7 tb7 (<[p := j * 4096]> pg)).
  { rewrite <- Hd at 1. eapply remapped_uas; [exact Hu6|exact Hr|by rewrite Hd|exact HR]. }
  destruct (ua_frame _ _ _ _ _ _ _ Hu7 p (j * 4096) (lookup_insert_eq _ _ _)) as (G1 & G2 & _ & G4).
  apply (wp_memcpy_reached K m7 _ _ _ (j * 4096)); [apply (vo_k _ _ _ (ua_ok _ _ _ _ _ _ _ Hu7))|lia|unfold p in *; dlia|lia|lia|lia|exact Hre| |].
  - eapply frame_apart; [apply HR|apply Hu|apply Hpl|apply Hpl|lia|done|done].
  - intros m8 _ _ Hc _. eexists. by apply Hc.
Qed.

Lemma one_page_low h : one_page h -> 0 <= ph_vaddr h / 4096 /\ low (ph_vaddr h / 4096).
Proof.
  intros [_ (Hv & Hfm & Hvm & _) _]. unfold low. change (2 ^ 35) with 34359738368. change (2 ^ 47) with 140737488355328 in *. dlia.
Qed.

Lemma one_page_in h a : one_page h -> from_file h a -> a / 4096 = ph_vaddr h / 4096 /\ ph_vaddr h mod 4096 + (a - ph_vaddr h) = a mod 4096.
Proof. intros [_ (Hv & Hfm & _) He] [_ Ha]. unfold span in Ha. dlia. Qed.

(** a segment in a page of its own: the page, its bytes and its cached translation *)
Lemma wp_load_first m tb pg x h :
  uas m tb pg -> 0 <= x -> x + 56 <= KWIN -> phdr_at (ram m) x h -> one_page h -> (4 <= size (frees m))%nat ->
  pg !! (ph_vaddr h / 4096) = None -> 0 < ph_filesz h -> (forall a, span s len a -> ~ area (glb m) (frees m) tb a) ->
  wp (load_segment t (KERNEL_BASE + s) (KERNEL_BASE + x)) (fun _ m' => exists tb' pg' f,
    loads K q root t m tb pg m' tb' pg' 1 /\ pg' !! (ph_vaddr h / 4096) = Some f /\ tlb m' !! (ph_vaddr h / 4096) = Some f /\
    (forall a, from_file h a -> rd (ram m') (f + a mod 4096) = rd (ram m) (s + ph_offset h + (a - ph_vaddr h)))) nostop m.
Proof.
  intros Hu Hx Hxk Hat Hop Hsz Hp Hpos Himga. destruct (one_page_low h Hop) as [Hp0 Hpl]. pose proof Hop as [Hty Hok He].
  assert (Hc : segment_count h = 1%nat) by (unfold segment_count; rewrite Hty, Z.eqb_refl, He; lia).
  eapply wp_mono; [eapply wp_and| |by intros ?? [? _]].
  - by apply (wp_load_caches m tb pg x h).
  - apply (wp_load_segment K q root t s len Himg Himg' ltac:(unfold KWIN in *; lia) m tb pg x h
      (fun _ m' => exists tb' pg', loads K q root t m tb pg m' tb' pg' 1 /\ forall a, from_file h a ->
         ubyte (ram m') pg' a = Some (rd (ram m) (s + ph_offset h + (a - ph_vaddr h)))) nostop); [done..| |by rewrite Hc; lia|done|].
    + intros p' [_ Hp']. by replace p' with (ph_vaddr h / 4096) by lia.
    + rewrite Hc. intros m1 tb1 pg1 HL _ Hb. by exists tb1, pg1.
  - intros [] m1 [[f Htl] (tb1 & pg1 & HL & Hb)]. assert (Hp1 : pg1 !! (ph_vaddr h / 4096) = Some f).
    { by apply (ua_fresh _ _ _ _ _ _ _ (lo_uas _ _ _ _ _ _ _ _ _ _ _ HL)). }
    exists tb1, pg1, f. split_and!; [done..|]. intros a Ha. specialize (Hb a Ha). unfold ubyte in Hb.
    rewrite (proj1 (one_page_in h a Hop Ha)), Hp1 in Hb. congruence.
Qed.

(** a segment in a page the program has already *)
Lemma wp_load_shared m tb pg x h f (Q : unit -> machine -> Prop) E :
  uas m tb pg -> 0 <= x -> x + 56 <= KWIN -> phdr_at (ram m) x h -> one_page h -> (4 <= size (frees m))%nat ->
  pg !! (ph_vaddr h / 4096) = Some f -> (forall a, span s len a -> ~ area (glb m) (frees m) tb a) ->
  (forall m' g, mwalk m' (ph_vaddr h / 4096) = Some g -> g <> f -> g / 4096 ∈ frees m ->
    match tlb m !! (ph_vaddr h / 4096) with
    | Some _ => tlb m' !! (ph_vaddr h / 4096) = Some f /\ agree (span g 4096) (ram m) (ram m') /\
                copied_in (ram m) (ram m') (s + ph_offset h) (ph_vaddr h) (ph_filesz h) f
    | None => agree (span f 4096) (ram m) (ram m') /\
              copied_in (ram m) (ram m') (s + ph_offset h) (ph_vaddr h) (ph_filesz h) g
    end -> Q tt m') ->
  wp (load_segment t (KERNEL_BASE + s) (KERNEL_BASE + x)) Q E m.
Proof.
  intros Hu Hx Hxk Hat Hop Hsz Hp Himga HQ. pose proof Hop as [_ (Hv & Hfm & Hvm & Ho & Hol) Hend].
  apply (wp_load_one_page m tb pg x h); [done..|]. intros m6 m7 tb7 j Hw6 HR.
  destruct (uas_warm K q root ctx m m6 tb pg Hu Hw6) as [Hu6 Hf6].
  apply (wp_shared_copy K q root ctx m m6 tb pg _ f j m7 tb7); [done|done|done|lia|dlia|lia|lia|lia| |exact HR|].
  - intros a Ha. apply Himga. unfold span in *. lia.
  - intros m8 (H1 & H2 & H3). apply (HQ m8 (j * 4096)); [done|done| |done]. rewrite Z.div_mul, <- Hf6 by lia. apply HR.
Qed.
End Loads.

(** ** Properties *)

(** loading a segment that lies in a page of which no translation is cached, though an
    earlier segment has it, leaves the bytes of the earlier segment in the old frame, which
    the tables no longer name: the page has the new segment, and for the rest what its new
    frame held. *)
Theorem shared_page_dropped K q root t s len m tb pg x h f :
  uas K q root (task_pml4t t) m tb pg -> 0 <= s -> s + len <= KWIN -> 0 <= x -> x + 56 <= KWIN ->
  phdr_at (ram m) x h -> one_page len h -> (4 <= size (frees m))%nat -> pg !! (ph_vaddr h / 4096) = Some f ->
  tlb m !! (ph_vaddr h / 4096) = None -> (forall a, span s len a -> ~ area K (glb m) (frees m) tb a) ->
  wp (load_segment t (KERNEL_BASE + s) (KERNEL_BASE + x)) (fun _ m' => exists g,
    mwalk m' (ph_vaddr h / 4096) = Some g /\ g <> f /\ agree (span f 4096) (ram m) (ram m') /\
    copied_in (ram m) (ram m') (s + ph_offset h) (ph_vaddr h) (ph_filesz h) g) nostop m.
Proof.
  intros Hu Hs Hsl Hx Hxk Hat Hop Hsz Hp Hcold Himg.
  apply (wp_load_shared K q root t s len Hs Hsl m tb pg x h f); [done..|]. rewrite Hcold. intros m' g H1 H2 _ [H3 H4].
  by exists g.
Qed.

(** C36: two segments on one page: the second is mapped to a fresh frame [g] of which it gets
    no byte, since the copy still goes to the frame [f] of the first, through the translation
    the first copy has left in the cache.  Once that translation is dropped the
    program finds in the page what the allocator's frame happened to hold, and the bytes of
    neither segment. *)
Theorem shared_page_lost K q root t s len m tb pg o1 o2 h1 h2 :
  uas K q root (task_pml4t t) m tb pg -> 0 <= s -> s + len <= KWIN ->
  0 <= o1 -> o1 + 56 <= len -> phdr_at (ram m) (s + o1) h1 -> one_page len h1 -> 0 < ph_filesz h1 ->
  0 <= o2 -> o2 + 56 <= len -> phdr_at (ram m) (s + o2) h2 -> one_page len h2 ->
  let p := ph_vaddr h1 / 4096 in
  ph_vaddr h2 / 4096 = p -> pg !! p = None -> (8 <= size (frees m))%nat ->
  (forall a, span s len a -> ~ area K (glb m) (frees m) tb a) ->
  wp (load_segment t (KERNEL_BASE + s) (KERNEL_BASE + (s + o1))) (fun _ m1 => exists f,
    mwalk m1 p = Some f /\ tlb m1 !! p = Some f /\
    (forall a, from_file h1 a -> rd (ram m1) (f + a mod 4096) = rd (ram m) (s + ph_offset h1 + (a - ph_vaddr h1))) /\
    wp (load_segment t (KERNEL_BASE + s) (KERNEL_BASE + (s + o2))) (fun _ m2 => exists g,
      mwalk m2 p = Some g /\ g <> f /\ g / 4096 ∈ frees m1 /\ agree (span g 4096) (ram m1) (ram m2) /\
      tlb m2 !! p = Some f /\
      (forall a, from_file h2 a -> rd (ram m2) (f + a mod 4096) = rd (ram m) (s + ph_offset h2 + (a - ph_vaddr h2)))) nostop m1)
    nostop m.
Proof.
  intros Hu Hs Hsl Ho1 Hol1 Hat1 Hop1 Hpos Ho2 Hol2 Hat2 Hop2 p Hp2 Hnone Hsz Himg.
  eapply wp_mono; [apply (wp_load_first K q root t s len Hs Hsl m tb pg (s + o1) h1); [done|lia|lia|done|done|lia|done..]| |done].
  intros [] m1 (tb1 & pg1 & f & HL & Hp1 & Htl & Hb). fold p in Hp1, Htl. destruct (one_page_low _ _ Hop1) as [Hp0 Hpl].
  pose proof (lo_uas _ _ _ _ _ _ _ _ _ _ _ HL) as Hu1. pose proof (lo_size _ _ _ _ _ _ _ _ _ _ _ HL).
  exists f. split_and!; [by rewrite (uas_mwalk K q root (task_pml4t t) m1 tb1 pg1)|done|done|].
  assert (Hkept : forall o n, 0 <= o -> o + n <= len -> agree (span (s + o) n) (ram m) (ram m1)).
  { intros o n. by apply (image_kept K q root t s len Hsl m tb pg m1 tb1 pg1 1). }
  apply (wp_load_shared K q root t s len Hs Hsl m1 tb1 pg1 (s + o2) h2 f); rewrite ?Hp2; [done|lia|lia| |done|lia|done| |].
  - eapply phdr_at_agree; [by apply Hkept|done].
  - intros a Ha Har. by apply (Himg a Ha), (lo_area _ _ _ _ _ _ _ _ _ _ _ HL).
  - rewrite Htl. intros m2 g Hg1 Hg2 Hg3 (Hg4 & Hg5 & Hg6). exists g. split_and!; [done..|]. intros a Ha.
    destruct (one_page_in _ _ _ Hop2 Ha) as [_ Ham]. destruct Ha as [_ Ha]. destruct (op_ok _ _ Hop2) as (Hv & Hfm & Hvm & Hof & Hol).
    rewrite (Hg6 (a mod 4096)) by (apply Z.mod_pos_bound; lia). rewrite decide_True by (unfold span in *; lia).
    rewrite (Hkept (ph_offset h2) (ph_filesz h2)); [f_equal; lia|done|done|]. unfold span in *. lia.
Qed.
