(* ===== verification/Kernel.v ===== *)
(** kernel.c: the boot sequence [kernel_main] and its parts.  Link-time addresses
    ([symbols] of Idt.v, the embedded program, the syscall stub) are parameters,
    and so are what the compiler decides: the value of the over-wide shifts of
    [enable_syscall], which the C standard leaves undefined, and the place of
    [load_elf]'s variable [entry] in its frame. *)

From S2P Require Import Prelude Comp Ram Machine KSpace Utils Pmm Vmm Heap Idt Isr ElfConst ElfFormat Elf.
From Stdlib Require Import String Ascii.

Definition IA32_EFER : Z := 0xC0000080.
Definition STAR_MSR : Z := 0xC0000081.
Definition LSTAR_MSR : Z := 0xC0000082.
Definition SFMASK_MSR : Z := 0xC0000084.

Record kernel_symbols : Type := mk_kernel_symbols {
  idt_symbols : symbols;
  elf_image : Z;           (* address of [user_program_elf] *)
  syscall_stub : Z;        (* address of [syscall_stub] *)
  star_int : Z;            (* the int the compiler gives [(0x18 << 32) | (0x28 << 48) | 0] *)
  entry_slot : Z           (* where it keeps [load_elf]'s variable [entry], below [rbp] *)
}.

Definition syscall_message : string := "syscall has occured :O"%string.

Definition syscall_handler : M unit := put_text 0x0F00 0 syscall_message ;;; halt Halted.

Definition enable_syscall (sym : kernel_symbols) : M unit :=
  efer <- read_msr IA32_EFER ;;
  write_msr IA32_EFER (Z.lor efer 1) ;;;
  write_msr STAR_MSR (u64 (star_int sym)) ;;;
  write_msr LSTAR_MSR (syscall_stub sym) ;;;
  write_msr SFMASK_MSR 0.

(** an operation on [ax] inside [rax] *)
Definition on_ax (f : Z -> Z) (r : Z) : Z := Z.lor (Z.ldiff r 0xFFFF) (f (Z.land r 0xFFFF)).

Definition set_cr0 (v : Z) (h : cpu) : cpu :=
  mk_cpu v (cr4 h) (cpuid1_edx h) (msrs h) (idtr h) (iflag h) (ports h) (kbd h).
Definition set_cr4 (v : Z) (h : cpu) : cpu :=
  mk_cpu (cr0 h) v (cpuid1_edx h) (msrs h) (idtr h) (iflag h) (ports h) (kbd h).

Definition sse_init : M unit :=
  edx <- gethw cpuid1_edx ;;
  (if Z.land edx (Z.shiftl 1 25) =? 0 then panic "SSE not supported" else ret tt) ;;;
  rax <- gethw cr0 ;;
  let rax := on_ax (fun ax => Z.land ax 0xFFFB) rax in
  let rax := on_ax (fun ax => Z.lor ax 0x2) rax in
  sethw (set_cr0 rax) ;;;
  rax <- gethw cr4 ;;
  let rax := on_ax (fun ax => Z.lor ax 0x600) rax in
  sethw (set_cr4 rax).

Definition v2p (v : Z) : Z := u64 (v - KERNEL_BASE).

Definition paging_init : M unit :=
  p4 <- alloc_page ;;
  setg (set_pml4t p4) ;;;
  pdpt <- alloc_page ;;
  pdt <- alloc_page ;;
  pt <- alloc_page ;;
  p4 <- getg pml4t ;;
  memset p4 0 PAGE_SIZE ;;;
  memset pdpt 0 PAGE_SIZE ;;;
  memset pdt 0 PAGE_SIZE ;;;
  memset pt 0 PAGE_SIZE ;;;
  p4 <- getg pml4t ;;
  let pml4_phys := v2p p4 in
  let pdpt_phys := v2p pdpt in
  let pdt_phys := v2p pdt in
  let pt_phys := v2p pt in
  vstore 8 (slot p4 511) (Z.lor pdpt_phys 0x03) ;;;
  vstore 8 (slot pdpt 510) (Z.lor pdt_phys 0x03) ;;;
  vstore 8 (slot pdt 0) (Z.lor pt_phys 0x03) ;;;
  for_range 512 0 (fun i => vstore 8 (slot pt i) (Z.lor (i * PAGE_SIZE) 0x03)) ;;;
  write_cr3 pml4_phys.

(** the start of [kernel_main]: the pool pages of the stack and of the memory map *)
Definition reserve_boot_pages (mmap_count : Z) : M unit :=
  alloc_page ;;;
  let mmap_size := u64 (sizeof_mmap_entry * mmap_count) in
  let page_count := u64 (mmap_size + 4096 - 1) / 4096 in
  for_range (Z.to_nat page_count) 0 (fun _ => alloc_page ;;; ret tt).

(** the four pages of the heap *)
Definition heap_pages : M unit :=
  start <- alloc_page ;;
  setg (set_heap_start start) ;;;
  for_range 3 0 (fun _ =>
    p <- alloc_page ;;
    setg (set_heap_end (u64 (p + PAGE_SIZE)))) ;;;
  heap_init.

(** a second page table with the kernel's contents, loaded into [cr3] *)
Definition create_user_table : M task :=
  tmp <- pmm_alloc ;;
  let up := u64 (tmp + KERNEL_BASE) in
  let user_program := mk_task 1 up (mk_regs 0 0 0 0 0 0 0 0 0 0 0 0 0 0 0 0) 0 in
  p4 <- getg pml4t ;;
  map_page (mk_page_table_t p4 true) up tmp 0x3 ;;;
  p4 <- getg pml4t ;;
  memcpy up p4 0x1000 ;;;
  p4 <- getg pml4t ;;
  phys <- get_physical_address (mk_page_table_t p4 true) up ;;
  write_cr3 phys ;;;
  ret user_program.

Definition kernel_main (sym : kernel_symbols) (mmap mmap_count : Z) : M unit :=
  idt_init (idt_symbols sym) ;;;
  sse_init ;;;
  reserve_boot_pages mmap_count ;;;
  paging_init ;;;
  pmm_init mmap mmap_count ;;;
  heap_pages ;;;
  memset VGA_MEMORY 0 (80 * 25 * 2) ;;;
  enable_syscall sym ;;;
  user_program <- create_user_table ;;
  load_elf (entry_slot sym) user_program (elf_image sym) ;;;
  halt Halted.

(** the bytes a row of hexadecimal digits stands for *)
Fixpoint bytes_of_hex (s : string) : list Z :=
  match s with
  | String h (String l rest) => (16 * digit_val h + digit_val l) :: bytes_of_hex rest
  | _ => []
  end.

(** the static array [user_program_elf], an ELF64 executable, two rows of the source
    to a line *)
Definition user_program_elf : list Z := Eval vm_compute in List.concat (List.map bytes_of_hex [
  "7F454C4602010100000000000000000002003E00010000007800400000000000";
  "4000000000000000E00100000000000000000000400038000100400007000600";
  "0100000005000000000000000000000000004000000000000000400000000000";
  "C000000000000000C0000000000000000010000000000000554889E50F05B800";
  "0000005DC30000001400000000000000017A5200017810011B0C070890010000";
  "1C0000001C000000D0FFFFFF0D00000000410E108602430D06480C0708000000";
  "4743433A2028474E55292031332E322E30000000000000000000000000000000";
  "00000000000000000000000000000000010000000400F1FF0000000000000000";
  "00000000000000000D0000001000000000000000000000000000000000000000";
  "0800000010000200001040000000000000000000000000001400000012000100";
  "78004000000000000D0000000000000019000000100002000010400000000000";
  "0000000000000000200000001000020000104000000000000000000000000000";
  "00746573742E63005F5F6273735F7374617274006D61696E005F656461746100";
  "5F656E6400002E73796D746162002E737472746162002E736873747274616200";
  "2E74657874002E65685F6672616D65002E636F6D6D656E740000000000000000";
  "0000000000000000000000000000000000000000000000000000000000000000";
  "0000000000000000000000000000000000000000000000000000000000000000";
  "1B00000001000000060000000000000078004000000000007800000000000000";
  "0D00000000000000000000000000000001000000000000000000000000000000";
  "2100000001000000020000000000000088004000000000008800000000000000";
  "3800000000000000000000000000000008000000000000000000000000000000";
  "2B0000000100000030000000000000000000000000000000C000000000000000";
  "1200000000000000000000000000000001000000000000000100000000000000";
  "010000000200000000000000000000000000000000000000D800000000000000";
  "A800000000000000050000000200000008000000000000001800000000000000";
  "0900000003000000000000000000000000000000000000008001000000000000";
  "2500000000000000000000000000000001000000000000000000000000000000";
  "110000000300000000000000000000000000000000000000A501000000000000";
  "3400000000000000000000000000000001000000000000000000000000000000"
]%string).

(** ** Properties *)

(** C33: [enable_syscall] sets the SCE bit of EFER, keeps its other bits, and points
    the entry at the stub with no flags masked; but whatever [int] the compiler
    gives the over-wide shifts, STAR does not get the intended segment selectors
    0x28 and 0x18 (bits 48-63 and 32-47). *)
Theorem enable_syscall_star sym efer m :
  - 2 ^ 31 <= star_int sym < 2 ^ 31 -> 0 <= syscall_stub sym < 2 ^ 64 ->
  msrs (hw m) !! IA32_EFER = Some efer -> 0 <= efer < 2 ^ 64 ->
  wp (enable_syscall sym)
    (fun _ m' =>
       msrs (hw m') !! IA32_EFER = Some (Z.lor efer 1) /\
       msrs (hw m') !! LSTAR_MSR = Some (syscall_stub sym) /\ msrs (hw m') !! SFMASK_MSR = Some 0 /\
       exists star, msrs (hw m') !! STAR_MSR = Some star /\
         ~ (star / 2 ^ 48 = 0x28 /\ star / 2 ^ 32 mod 2 ^ 16 = 0x18)) nostop m.
Proof.
  intros Hs Hl He Hef. unfold enable_syscall.
  apply wp_bind, (wp_read_msr _ efer); [done|done|].
  assert (He1 : 0 <= Z.lor efer 1 < 2 ^ 64) by by apply lor_u64.
  apply wp_bind, wp_write_msr; [done|]. apply wp_bind, wp_write_msr; [apply u64_range|].
  apply wp_bind, wp_write_msr; [done|]. apply wp_write_msr; [done|].
  cbn [hw set_hw msrs with_msr]. split_and!.
  - by rewrite !lookup_insert_ne, lookup_insert_eq by done.
  - by rewrite lookup_insert_ne, lookup_insert_eq by done.
  - by rewrite lookup_insert_eq.
  - exists (u64 (star_int sym)). split; [by rewrite !lookup_insert_ne, lookup_insert_eq by done|].
    change (2 ^ 48) with 281474976710656. change (2 ^ 32) with 4294967296. change (2 ^ 16) with 65536.
    change (2 ^ 31) with 2147483648 in Hs. unfold u64. change (2 ^ 64) with 18446744073709551616.
    intros [H1 H2]. dlia.
Qed.

Lemma testbit_FFFF i : 0 <= i -> Z.testbit 0xFFFF i = (i <? 16).
Proof. intros. change 0xFFFF with (Z.ones 16). rewrite Z.testbit_ones by lia. by rewrite (proj2 (Z.leb_le 0 i)). Qed.

Lemma on_ax_bit f r i : 0 <= i -> Z.testbit (on_ax f r) i =
  (Z.testbit r i && negb (i <? 16)) || Z.testbit (f (Z.land r 0xFFFF)) i.
Proof. intros. unfold on_ax. by rewrite Z.lor_spec, Z.ldiff_spec, testbit_FFFF. Qed.

(** the constants of [sse_init], bit by bit *)
Lemma testbit_small c n i : 0 <= c < 2 ^ n -> n <= i -> 0 <= n -> Z.testbit c i = false.
Proof. intros Hc Hi Hn. rewrite <- (Z.mod_small c (2 ^ n)) by done. by apply Z.mod_pow2_bits_high. Qed.

Lemma in_16 (P : Z -> bool) i : 0 <= i < 16 -> forallb P (seqZ 0 16) = true -> P i = true.
Proof. intros Hi H. rewrite forallb_forall in H. apply H, list_elem_of_In, elem_of_seqZ. lia. Qed.

(** the test of [sse_init] *)
Lemma sse_bit edx : (Z.land edx (Z.shiftl 1 25) =? 0) = negb (Z.testbit edx 25).
Proof.
  change (Z.shiftl 1 25) with (2 ^ 25). destruct (Z.testbit edx 25) eqn:Hb; cbn [negb].
  - apply Z.eqb_neq. intros H0. apply (f_equal (fun x => Z.testbit x 25)) in H0.
    by rewrite Z.land_spec, Hb, Z.pow2_bits_eqb, Z.bits_0 in H0.
  - apply Z.eqb_eq, Z.bits_inj'. intros n Hn. rewrite Z.land_spec, Z.pow2_bits_eqb, Z.bits_0 by lia.
    destruct (Z.eqb_spec 25 n) as [<-|]; [by rewrite Hb|apply andb_false_r].
Qed.

(** C40: [sse_init] halts with a message on a CPU without SSE; otherwise it clears
    CR0.EM, sets CR0.MP, CR4.OSFXSR and CR4.OSXMMEXCPT, and changes no other bit. *)
Theorem sse_init_correct K m :
  (forall a, vga_bytes a -> ~ ktab K a) -> kspace K m ->
  wp sse_init
    (fun _ m' =>
       Z.testbit (cpuid1_edx (hw m)) 25 = true /\ ram m' = ram m /\
       (forall i, 0 <= i -> Z.testbit (cr0 (hw m')) i =
          if i =? 2 then false else if i =? 1 then true else Z.testbit (cr0 (hw m)) i) /\
       (forall i, 0 <= i -> Z.testbit (cr4 (hw m')) i =
          if (i =? 9) || (i =? 10) then true else Z.testbit (cr4 (hw m)) i))
    (fun e m' => e = Halted /\ Z.testbit (cpuid1_edx (hw m)) 25 = false /\
       drawn (ram m') (VGA_PHYS + 1920) (text_cells 0x0F00 "SSE not supported")) m.
Proof.
  intros Hvga Hk. unfold sse_init. apply wp_bind, wp_gethw.
  rewrite sse_bit. destruct (Z.testbit (cpuid1_edx (hw m)) 25); cbn [negb].
  2: { apply wp_bind, (wp_panic K Hvga); [done|done|cbn; lia|]. intros m' _ _ Hd. by split_and!. }
  wp_steps. cbn [hw set_hw set_cr0 set_cr4 cr0 cr4 ram]. split_and!; [done|done| |].
  - intros i Hi. repeat (rewrite ?on_ax_bit, ?Z.lor_spec, ?Z.land_spec, ?testbit_FFFF by done).
    destruct (Z.ltb_spec i 16) as [Hlt|Hge].
    + pose proof (in_16 (fun i => Bool.eqb (Z.testbit 0xFFFB i) (negb (i =? 2)) && Bool.eqb (Z.testbit 2 i) (i =? 1)) i
        ltac:(lia) eq_refl) as [H1%eqb_prop H2%eqb_prop]%andb_prop. rewrite H1, H2.
      destruct (Z.eqb_spec i 2), (Z.eqb_spec i 1); subst; cbn; rewrite ?andb_false_r, ?andb_true_r, ?orb_false_r, ?orb_true_r, ?orb_false_l; done.
    + rewrite (testbit_small 2 16), (testbit_small 0xFFFB 16) by (done || lia).
      rewrite (proj2 (Z.eqb_neq i 2)), (proj2 (Z.eqb_neq i 1)) by lia. cbn [negb]. by rewrite ?andb_false_r, ?andb_true_r, ?orb_false_r.
  - intros i Hi. repeat (rewrite ?on_ax_bit, ?Z.lor_spec, ?Z.land_spec, ?testbit_FFFF by done).
    destruct (Z.ltb_spec i 16) as [Hlt|Hge].
    + pose proof (in_16 (fun i => Bool.eqb (Z.testbit 0x600 i) ((i =? 9) || (i =? 10))) i
        ltac:(lia) eq_refl) as H1%eqb_prop. rewrite H1.
      cbn [negb]. rewrite ?andb_false_r, ?andb_true_r, ?orb_false_l. destruct (_ || _); by rewrite ?orb_true_r, ?orb_false_r.
    + rewrite (testbit_small 0x600 16) by (done || lia).
      rewrite (proj2 (Z.eqb_neq i 9)), (proj2 (Z.eqb_neq i 10)) by lia. cbn [negb]. by rewrite ?andb_false_r, ?andb_true_r, ?orb_false_r.
Qed.

(** [syscall_handler] shows its message at the top of the screen and halts. *)
Theorem syscall_handler_reports K m :
  (forall a, vga_bytes a -> ~ ktab K a) -> kspace K m ->
  wp syscall_handler (fun _ _ => False)
    (fun e m' => e = Halted /\ drawn (ram m') VGA_PHYS (text_cells 0x0F00 syscall_message)) m.
Proof.
  intros Hvga Hk. unfold syscall_handler. apply wp_bind, (wp_put_text K Hvga); [done|done|lia|cbn; lia|].
  intros m' _ _ Hd. by apply wp_halt.
Qed.

(** the symbol of a given name *)
Definition symbol_named (file : list Z) (name : string) : option symbol :=
  syms ← symbols_of file; List.find (fun s => String.eqb (s_name s) name) syms.

(** the embedded program is an executable the loader accepts: its headers pass the
    loader's checks, its loadable segments are sound and need no zero fill, and its
    entry point is the first instruction, [push rbp], of the global function [main],
    whose code makes one system call. *)
Theorem user_program_elf_runs :
  header_error (fun i => nth (Z.to_nat i) user_program_elf 0) = None /\
  elf_executable user_program_elf = true /\
  exists main entry,
    symbol_named user_program_elf "main" = Some main /\
    s_bind main = value_of st_bind_constants "STB_GLOBAL" /\
    s_type main = value_of st_type_constants "STT_FUNC" /\
    field user_program_elf Elf64_Ehdr 0 "e_entry" = Some entry /\ s_value main = entry /\
    take (Z.to_nat (s_size main)) (drop (Z.to_nat (entry - 0x400000)) user_program_elf) =
      [0x55;                          (* push rbp *)
       0x48; 0x89; 0xE5;              (* mov rbp, rsp *)
       0x0F; 0x05;                    (* syscall *)
       0xB8; 0x00; 0x00; 0x00; 0x00;  (* mov eax, 0 *)
       0x5D; 0xC3].                   (* pop rbp; ret *)
Proof.
  split; [by vm_compute|]. split; [by vm_compute|].
  exists (mk_symbol "main" 1 2 1 0x400078 13), 0x400078. by vm_compute.
Qed.
