(* ===== verification/FirstStage.v ===== *)
(** The bootloader in real mode (src/terra-kernel/bootloader: bootloader.asm up to the
    switch to protected mode, real_mode/tochs.asm and real_mode/get_mmap.asm): finding
    the kernel on the disk, reading it, and the memory map.  The state is the memory
    below 1 MiB; registers are values of their width, jumps the control structure they
    make.  The BIOS, its screen, its disk and its memory map, is a parameter.  A read that
    fails ends in [disk_error], the message and [hlt] for ever. *)

From S2P Require Import Prelude Comp Ram Utils Pmm ElfFormat Loader.

(** ** Instructions *)

Abbreviation R := (comp ram_t).

Definition byte_at (a : Z) : R Z := gets (fun r => load 1 r a).
Definition word_at (a : Z) : R Z := gets (fun r => load 2 r a).
Definition put (n : nat) (a v : Z) : R unit := modify (store n a v).

(** [div] of a 16-bit divisor: quotient and remainder of DX:AX, or a divide error *)
Definition div16 (dx ax d : Z) : R (Z * Z) :=
  let n := 65536 * dx + ax in
  if d =? 0 then halt Undefined
  else if 65536 <=? n / d then halt Undefined
  else ret (n / d, n mod d).

(** ** bootloader.asm: addresses *)

(** the fields of the BIOS parameter block *)
Definition BYTES_PER_SECTOR : Z := 0x7C0B.
Definition SECTORS_PER_CLUSTER : Z := 0x7C0D.
Definition RESERVED_SECTORS : Z := 0x7C0E.
Definition NUM_FATS : Z := 0x7C10.
Definition ROOT_ENTRIES : Z := 0x7C11.
Definition NUMBER_OF_SECTORS_PER_FAT : Z := 0x7C16.
Definition SECTORS_PER_TRACK : Z := 0x7C18.

(** the variables, from the start of section .data *)
Section Variables.
Context (data : Z).
Definition disk_error_str : Z := data.
Definition boot_drive : Z := data + 11.
Definition root_dir_start : Z := boot_drive + 1.
Definition root_dir_size : Z := root_dir_start + 2.
Definition data_sector_start : Z := root_dir_size + 2.
Definition head_var : Z := data_sector_start + 4.
Definition track_var : Z := head_var + 2.
Definition sector_var : Z := track_var + 2.
Definition mmap_entry_count : Z := sector_var + 2.
End Variables.

(** ** The BIOS *)

(** what the BIOS answers to a call of function 0xE820: carry, EAX, the next EBX, and the
    entry it has written, if any *)
Record e820 : Type := mk_e820 { carry : bool; eax : Z; ebx : Z; written : option bios_mmap_entry }.

Definition SMAP : Z := 0x534D4150.

Definition put_entry (a : Z) (e : option bios_mmap_entry) : R unit :=
  match e with
  | Some e => put 8 a (base_addr e) ;;; put 8 (a + 8) (length_ e) ;;; put 4 (a + 16) (type_ e) ;;; put 4 (a + 20) (acpi_ext e)
  | None => ret tt
  end.

Section Code.
(** [int10 ax bx memory]: the memory after the call, the screen with it;
    [int13 drive (cylinder, head, sector) count]: the bytes of the sectors, or the carry;
    [int15 memory ebx]: an entry of the memory map *)
Context (int10 : Z -> Z -> ram_t -> ram_t) (int13 : Z -> Z * Z * Z -> Z -> option (list Z)) (int15 : ram_t -> Z -> e820) (data : Z).

(** [l0]: the string at [si], up to its zero, through function 14 of interrupt 0x10 *)
Fixpoint l0 (fuel : nat) (ah bx si : Z) : R unit :=
  match fuel with
  | O => halt OutOfFuel
  | S k =>
      al <- byte_at si ;;
      if al =? 0 then ret tt else modify (int10 (256 * ah + al) bx) ;;; l0 k ah bx (u16 (si + 1))
  end.

Definition print (fuel : nat) (si : Z) : R unit :=
  let bx := 0 in
  let ah := 0x0E in
  l0 fuel ah bx si.

(** the message has ten characters and a zero; [end] is [hlt] for ever *)
Definition disk_error : R unit :=
  print 11 (disk_error_str data) ;;;
  halt Halted.

(** function 2 of interrupt 0x13, and the jump on its carry *)
Definition read_sectors (al ch cl dh dl es bx : Z) : R unit :=
  match int13 dl (ch, dh, cl) al with
  | Some bytes => modify (poke_bytes (16 * es + bx) bytes)
  | None => disk_error
  end.

(** tochs.asm *)
Definition ToCHS (ax : Z) : R unit :=
  bx <- word_at SECTORS_PER_TRACK ;;
  let bx := u16 (Z.shiftl bx 1) in
  q <- div16 0 ax bx ;;
  let si := q.1 in
  let ax := q.2 in
  bx <- word_at SECTORS_PER_TRACK ;;
  q <- div16 0 ax bx ;;
  let di := q.1 in
  let ax := q.2 in
  let ax := u16 (ax + 1) in
  put 2 (sector_var data) ax ;;;
  put 2 (head_var data) di ;;;
  put 2 (track_var data) si.

(** get_mmap.asm; [xor bx, bx] clears the low half of EBX only *)
Fixpoint mmap_loop (fuel : nat) (ebx0 di : Z) : R unit :=
  match fuel with
  | O => halt OutOfFuel
  | S k =>
      r <- gets (fun r => r) ;;
      let x := int15 r ebx0 in
      put_entry (0x21000 + di) (written x) ;;;
      if carry x then ret tt
      else if negb (eax x =? SMAP) then ret tt
      else
        let di := u16 (di + 24) in
        n <- word_at (mmap_entry_count data) ;;
        put 2 (mmap_entry_count data) (u16 (n + 1)) ;;;
        if negb (ebx x =? 0) then mmap_loop k (ebx x) di else ret tt
  end.

Definition get_mmap (fuel : nat) (ebx0 : Z) : R unit := mmap_loop fuel (Z.land ebx0 0xFFFF0000) 0.

(** the size and the start of the root directory, and the first data sector *)
Definition disk_layout : R unit :=
  ax <- word_at ROOT_ENTRIES ;;
  let ax := u16 (ax * 32) in
  bx <- word_at BYTES_PER_SECTOR ;;
  let bx := u16 (bx - 1) in
  let ax := u16 (ax + bx) in
  d <- word_at BYTES_PER_SECTOR ;;
  q <- div16 0 ax d ;;
  let ax := q.1 in
  put 2 (root_dir_size data) ax ;;;
  al <- byte_at NUM_FATS ;;
  let ax := Z.lor (Z.land ax 0xFF00) al in
  n <- word_at NUMBER_OF_SECTORS_PER_FAT ;;
  let ax := u16 (ax * n) in
  n <- word_at RESERVED_SECTORS ;;
  let ax := u16 (ax + n) in
  put 2 (root_dir_start data) ax ;;;
  n <- word_at (root_dir_size data) ;;
  let ax := u16 (ax + n) in
  put 2 (data_sector_start data) ax.

(** [ToCHS] and a read at the address it leaves *)
Definition read_lba (ax al es : Z) : R unit :=
  ToCHS ax ;;;
  ch <- byte_at (track_var data) ;;
  cl <- byte_at (sector_var data) ;;
  dh <- byte_at (head_var data) ;;
  dl <- byte_at (boot_drive data) ;;
  read_sectors al ch cl dh dl es 0.

(** from the entry, with the drive in DL and the data segment the BIOS happens to leave,
    to the jump to [switch_protected_mode] *)
Definition start (fuel : nat) (dl ds ebx0 : Z) : R unit :=
  put 1 (16 * ds + boot_drive data) dl ;;;
  dl <- byte_at (boot_drive data) ;;
  read_sectors 1 0 2 0 dl 0 0x7E00 ;;;
  let es := 0x1000 in
  disk_layout ;;;
  ax <- word_at (root_dir_start data) ;;
  read_lba ax 1 es ;;;
  ax <- word_at (16 * es + 0x3A) ;;
  let ax := u16 (ax - 2) in
  n <- word_at (data_sector_start data) ;;
  let ax := u16 (ax + n) in
  read_lba ax 127 es ;;;
  get_mmap fuel ebx0.
End Code.

(** ** The disk *)

(** the values of the fields *)
Record bpb : Type := mk_bpb {
  bytes_per_sector : Z;
  reserved_sectors : Z;
  num_fats : Z;
  root_entries : Z;
  sectors_per_fat : Z;
  sectors_per_track : Z
}.

Definition bpb_of (r : ram_t) : bpb :=
  mk_bpb (load 2 r BYTES_PER_SECTOR) (load 2 r RESERVED_SECTORS) (load 1 r NUM_FATS) (load 2 r ROOT_ENTRIES)
    (load 2 r NUMBER_OF_SECTORS_PER_FAT) (load 2 r SECTORS_PER_TRACK).

(** where the specification of the file system puts the root directory and the data *)
Definition root_sectors (b : bpb) : Z := (32 * root_entries b + bytes_per_sector b - 1) / bytes_per_sector b.
Definition root_start (b : bpb) : Z := reserved_sectors b + num_fats b * sectors_per_fat b.
Definition data_start (b : bpb) : Z := root_start b + root_sectors b.

(** volumes whose layout 16 bits can hold *)
Record fat_ok (b : bpb) : Prop := mk_fat_ok {
  fo_sector : 0 < bytes_per_sector b;
  fo_root : 32 * root_entries b + bytes_per_sector b <= 65536;
  fo_size : root_sectors b < 256;
  fo_data : data_start b < 65536;
  fo_track : 1 < sectors_per_track b < 64
}.

(** [n] sectors of a disk from block [lba] on *)
Definition sectors (disk : list Z) (lba n : Z) : list Z := take (Z.to_nat (512 * n)) (drop (Z.to_nat (512 * lba)) disk).

(** the BIOS reads [disk], which has two heads and [spt] sectors to a track; if [errors]
    can happen, a read may fail instead *)
Definition answers (errors : Prop) (int13 : Z -> Z * Z * Z -> Z -> option (list Z)) (drive spt : Z) (disk : list Z) : Prop :=
  forall track head sector n, 0 <= track < 256 -> 0 <= head < 2 -> 1 <= sector <= spt -> 0 < n < 128 ->
    let lba := (track * 2 + head) * spt + (sector - 1) in
    512 * (lba + n) <= Z.of_nat (length disk) ->
    (errors /\ int13 drive (track, head, sector) n = None) \/ int13 drive (track, head, sector) n = Some (sectors disk lba n).

(** no read fails *)
Definition reads_disk := answers False.

Lemma load_byte_low r a : load 1 r a = load 2 r a mod 256.
Proof. cbn [load]. pose proof (rd_range r a). pose proof (rd_range r (a + 1)). dlia. Qed.

Lemma u16_small x : 0 <= x < 65536 -> u16 x = x.
Proof. intros. by apply Z.mod_small. Qed.

Lemma load2_store2 r a v : 0 <= v < 65536 -> load 2 (store 2 a v r) a = v.
Proof. intros. rewrite load_store_eq. by apply Z.mod_small. Qed.

Lemma bpb_agree r r' : agree (span 0x7C0B 15) r r' -> bpb_of r' = bpb_of r.
Proof.
  intros H. unfold bpb_of. f_equal; apply load_agree; (eapply agree_weaken; [exact H|]);
    unfold span, BYTES_PER_SECTOR, RESERVED_SECTORS, NUM_FATS, ROOT_ENTRIES, NUMBER_OF_SECTORS_PER_FAT, SECTORS_PER_TRACK; cbn; lia.
Qed.

Lemma wp_div16 ax d r (Q : Z * Z -> ram_t -> Prop) E :
  0 <= ax < 65536 -> 0 < d -> Q (ax / d, ax mod d) r -> wp (div16 0 ax d) Q E r.
Proof.
  intros Ha Hd HQ. unfold div16. replace (65536 * 0 + ax) with ax by lia. rewrite (proj2 (Z.eqb_neq _ _)) by lia.
  rewrite (proj2 (Z.leb_gt _ _)); [by apply wp_ret|]. apply Z.div_lt_upper_bound; nia.
Qed.

Section Disk.
Context (data : Z) (Hdata : 0x7C3E <= data).

Ltac vars := unfold mmap_entry_count, sector_var, track_var, head_var, data_sector_start, root_dir_size, root_dir_start, boot_drive,
  span in *; cbn; lia.

Lemma wp_disk_layout r (Q : unit -> ram_t -> Prop) E :
  fat_ok (bpb_of r) ->
  (forall r', load 2 r' (root_dir_start data) = root_start (bpb_of r) -> load 2 r' (root_dir_size data) = root_sectors (bpb_of r) ->
     load 2 r' (data_sector_start data) = data_start (bpb_of r) -> agree (fun a => ~ span (root_dir_start data) 6 a) r r' -> Q tt r') ->
  wp (disk_layout data) Q E r.
Proof.
  intros [F1 F2 F3 F4 _] HQ. set (b := bpb_of r) in *. unfold disk_layout.
  assert (Hr : 0 <= root_entries b) by apply (load_range 2 r). assert (H0 : 0 <= root_sectors b) by (apply Z.div_pos; lia).
  assert (Hn : 0 <= num_fats b) by apply (load_range 1 r). assert (Hs : 0 <= sectors_per_fat b) by apply (load_range 2 r).
  assert (Hrs : 0 <= reserved_sectors b) by apply (load_range 2 r). unfold data_start, root_start in *.
  assert (Hm : 0 <= num_fats b * sectors_per_fat b) by nia.
  do 3 apply wp_bind, wp_gets. fold (bpb_of r). change (load 2 r ROOT_ENTRIES) with (root_entries b).
  change (load 2 r BYTES_PER_SECTOR) with (bytes_per_sector b).
  rewrite (u16_small (root_entries b * 32)), (u16_small (bytes_per_sector b - 1)), u16_small by lia.
  apply wp_bind, wp_div16; [lia|lia|]. cbn [fst]. 
  replace (root_entries b * 32 + (bytes_per_sector b - 1)) with (32 * root_entries b + bytes_per_sector b - 1) by lia.
  fold (root_sectors b). apply wp_bind, wp_modify. do 3 (apply wp_bind, wp_gets).
  rewrite (load_store_ne 1 2), !(load_store_ne 2 2) by (left; unfold NUM_FATS, NUMBER_OF_SECTORS_PER_FAT, RESERVED_SECTORS; vars).
  change (load 1 r NUM_FATS) with (num_fats b). change (load 2 r NUMBER_OF_SECTORS_PER_FAT) with (sectors_per_fat b).
  change (load 2 r RESERVED_SECTORS) with (reserved_sectors b).
  assert (Z.land (root_sectors b) 0xFF00 = 0) as ->.
  { change 0xFF00 with (Z.shiftl (Z.ones 8) 8). rewrite land_field by lia. change (2 ^ 8) with 256. rewrite Z.div_small by lia. done. }
  rewrite Z.lor_0_l, (u16_small (num_fats b * _)), (u16_small (_ + reserved_sectors b)) by lia.
  apply wp_bind, wp_modify, wp_bind, wp_gets.
  rewrite (load_store_ne 2 2 _ (root_dir_size data)), ((load2_store2 _ (root_dir_size data))), u16_small by (lia || vars).
  apply wp_modify, HQ.
  - rewrite (load_store_ne 2 2), load2_store2 by (lia || vars). lia.
  - rewrite !(load_store_ne 2 2 _ (root_dir_size data)), load2_store2 by (lia || vars). done.
  - rewrite load2_store2 by lia. lia.
  - do 3 (etrans; [|apply agree_store; vars]). done.
Qed.

Lemma wp_ToCHS ax r (Q : unit -> ram_t -> Prop) E :
  0 <= ax < 65536 -> 0 < load 2 r SECTORS_PER_TRACK < 64 ->
  (forall r', let spt := load 2 r SECTORS_PER_TRACK in
     let track := load 2 r' (track_var data) in let head := load 2 r' (head_var data) in let sector := load 2 r' (sector_var data) in
     0 <= track -> 0 <= head < 2 -> 1 <= sector <= spt -> (track * 2 + head) * spt + (sector - 1) = ax ->
     agree (fun a => ~ span (head_var data) 6 a) r r' -> Q tt r') ->
  wp (ToCHS data ax) Q E r.
Proof.
  intros Ha Hs HQ. unfold ToCHS. set (spt := load 2 r SECTORS_PER_TRACK) in *. cbv zeta in HQ.
  apply wp_bind, wp_gets. fold spt. rewrite Z.shiftl_mul_pow2 by lia. change (2 ^ 1) with 2. rewrite u16_small by lia.
  pose proof (Z.mod_pos_bound ax (spt * 2)). pose proof (Z.mod_pos_bound (ax mod (spt * 2)) spt).
  pose proof (Z.div_mod ax (spt * 2)). pose proof (Z.div_mod (ax mod (spt * 2)) spt).
  assert (0 <= ax / (spt * 2) < 65536) by (split; [apply Z.div_pos|apply Z.div_lt_upper_bound]; nia).
  assert (0 <= ax mod (spt * 2) / spt < 2) by (split; [apply Z.div_pos|apply Z.div_lt_upper_bound]; lia).
  apply wp_bind, wp_div16; [lia|lia|]. apply wp_bind, wp_gets. fold spt. apply wp_bind, wp_div16; [cbn [snd]; lia|lia|].
  cbn [fst snd]. rewrite u16_small by lia.
  do 2 (apply wp_bind, wp_modify). apply wp_modify. set (r' := store 2 (track_var data) _ _).
  assert (load 2 r' (track_var data) = ax / (spt * 2)) as Et by (unfold r'; apply load2_store2; lia).
  assert (load 2 r' (head_var data) = ax mod (spt * 2) / spt) as Eh.
  { unfold r'. rewrite (load_store_ne 2 2) by vars. apply load2_store2. lia. }
  assert (load 2 r' (sector_var data) = (ax mod (spt * 2)) mod spt + 1) as Es.
  { unfold r'. rewrite !(load_store_ne 2 2 _ (sector_var data)) by vars. apply load2_store2. lia. }
  apply HQ; rewrite ?Et, ?Eh, ?Es; try lia.
  unfold r'. do 3 (etrans; [|apply agree_store; vars]). done.
Qed.

Context (int10 : Z -> Z -> ram_t -> ram_t) (int13 : Z -> Z * Z * Z -> Z -> option (list Z)) (drive : Z) (disk : list Z).
Context (errors : Prop).

(** a failing read ends the bootloader, whatever was to come *)
Lemma wp_disk_error_any r (Q : unit -> ram_t -> Prop) E :
  wp (disk_error int10 data) (fun _ _ => False) E r -> wp (disk_error int10 data) Q E r.
Proof. intros H. by eapply wp_mono; [exact H| |]. Qed.

Lemma length_sectors lba n : 0 <= lba -> 0 <= n -> 512 * (lba + n) <= Z.of_nat (length disk) -> Z.of_nat (length (sectors disk lba n)) = 512 * n.
Proof. intros. unfold sectors. rewrite length_take, length_drop. lia. Qed.

Lemma wp_read_lba ax n r (Q : unit -> ram_t -> Prop) E :
  answers errors int13 drive (load 2 r SECTORS_PER_TRACK) disk -> load 1 r (boot_drive data) = drive ->
  0 < load 2 r SECTORS_PER_TRACK < 64 -> 0 <= ax < 512 * load 2 r SECTORS_PER_TRACK -> 0 < n < 128 -> 512 * (ax + n) <= Z.of_nat (length disk) ->
  (errors -> forall r1, agree (fun a => ~ span (head_var data) 6 a) r r1 -> wp (disk_error int10 data) (fun _ _ => False) E r1) ->
  (forall r1, agree (fun a => ~ span (head_var data) 6 a) r r1 -> Q tt (poke_bytes 0x10000 (sectors disk ax n) r1)) ->
  wp (read_lba int10 int13 data ax n 0x1000) Q E r.
Proof.
  intros Hd Hdr Hs Ha Hn Hlen HE HQ. unfold read_lba. apply wp_bind, wp_ToCHS; [lia|done|]. intros r1. cbv zeta. intros Ht Hh Hsec Heq Hag.
  do 4 (apply wp_bind, wp_gets). rewrite (load_agree 1 r r1 (boot_drive data)), Hdr.
  2: { eapply agree_weaken; [exact Hag|]. vars. }
  assert (load 2 r1 (track_var data) < 256) by nia.
  rewrite !load_byte_low, !Z.mod_small by lia. unfold read_sectors.
  destruct (Hd (load 2 r1 (track_var data)) (load 2 r1 (head_var data)) (load 2 r1 (sector_var data)) n) as [[He ->]| ->];
    [lia|lia|lia|lia|rewrite Heq; lia|by apply wp_disk_error_any, HE|]. rewrite Heq. apply wp_modify, HQ, Hag.
Qed.
End Disk.

(** ** The memory map *)

(** the BIOS reports the entries [es], one for each call, from the continuation [b] on;
    the last one has no continuation, or the call after it answers with the carry *)
Inductive reports (bios : ram_t -> Z -> e820) : Z -> list bios_mmap_entry -> Prop :=
  | rep_end b : (forall r, carry (bios r b) = true /\ written (bios r b) = None) -> reports bios b []
  | rep_last b e : (forall r, bios r b = mk_e820 false SMAP 0 (Some e)) -> reports bios b [e]
  | rep_next b b' e es : b' <> 0 -> (forall r, bios r b = mk_e820 false SMAP b' (Some e)) ->
      reports bios b' es -> reports bios b (e :: es).

(** the fields of an entry have their widths *)
Definition entry_range (e : bios_mmap_entry) : Prop :=
  0 <= base_addr e < 2 ^ 64 /\ 0 <= length_ e < 2 ^ 64 /\ 0 <= type_ e < 2 ^ 32.

(** [e] is stored at [a] *)
Definition entry_at (r : ram_t) (a : Z) (e : bios_mmap_entry) : Prop :=
  load 8 r a = base_addr e /\ load 8 r (a + 8) = length_ e /\ load 4 r (a + 16) = type_ e.

Lemma entry_at_agree r r' a e : agree (span a 24) r r' -> entry_at r a e -> entry_at r' a e.
Proof.
  intros Ha. unfold entry_at. intros (<- & <- & <-).
  split_and!; apply load_agree; (eapply agree_weaken; [exact Ha|]); unfold span; cbn; lia.
Qed.

Lemma wp_put_entry a e r (Q : unit -> ram_t -> Prop) E :
  entry_range e -> (forall r', entry_at r' a e -> agree (fun b => ~ span a 24 b) r r' -> Q tt r') ->
  wp (put_entry a (Some e)) Q E r.
Proof.
  intros (Hb & Hl & Ht) HQ. do 3 (apply wp_bind, wp_modify). apply wp_modify, HQ; [split_and!|].
  - rewrite !load_store_ne by (cbn; lia). by apply load8_store8.
  - rewrite !(load_store_ne 8 4) by (cbn; lia). by apply load8_store8.
  - rewrite (load_store_ne 4 4), load_store_eq by (cbn; lia). by apply Z.mod_small.
  - do 4 (etrans; [|apply agree_store; unfold span; cbn; lia]). done.
Qed.

Section MemoryMap.
Context (data : Z) (int15 : ram_t -> Z -> e820) (Hend : mmap_entry_count data + 8 <= 0x21000).

Lemma wp_mmap_loop b es fuel di (n : nat) r (Q : unit -> ram_t -> Prop) E :
  reports int15 b es -> Forall entry_range es -> (length es < fuel)%nat -> 0 <= di ->
  di + 24 * Z.of_nat (length es) < 65536 -> load 2 r (mmap_entry_count data) = Z.of_nat n -> Z.of_nat n + Z.of_nat (length es) < 65536 ->
  (forall r', mmap_at r' (0x21000 + di) es -> load 2 r' (mmap_entry_count data) = Z.of_nat (n + length es) ->
     agree (fun a => ~ (span (mmap_entry_count data) 2 a \/ span (0x21000 + di) (24 * Z.of_nat (length es)) a)) r r' -> Q tt r') ->
  wp (mmap_loop int15 data fuel b di) Q E r.
Proof.
  intros Hrep. revert fuel di n r. induction Hrep as [b Hb|b e Hlast|b b' e es Hb' Hnext _ IH];
    intros [|fuel] di n r Hr Hfuel Hdi Hd Hc Hn HQ; cbn [length] in *; try lia; cbn [mmap_loop]; apply wp_bind, wp_gets; cbv zeta.
  - destruct (Hb r) as [-> ->]. apply wp_bind, wp_ret, wp_ret, HQ; [by intros i e|by rewrite Nat.add_0_r|done].
  - rewrite Hlast. cbn [carry eax ebx written]. apply Forall_cons in Hr as [He _]. apply wp_bind, wp_put_entry; [done|].
    intros r1 H1 Ha1. rewrite Z.eqb_refl. cbn [negb Z.eqb]. apply wp_bind, wp_gets, wp_bind, wp_modify, wp_ret.
    assert (load 2 r1 (mmap_entry_count data) = Z.of_nat n) as ->.
    { rewrite <- Hc. apply load_agree. eapply agree_weaken; [exact Ha1|]. unfold span. cbn. lia. }
    rewrite u16_small by lia. apply HQ.
    + intros [|i] e' Hi; [|done]. injection Hi as <-. change (24 * Z.of_nat 0) with 0. rewrite !Z.add_0_r.
      eapply entry_at_agree; [|exact H1]. apply agree_store. unfold span. cbn. lia.
    + rewrite load2_store2 by lia. lia.
    + etrans; [eapply agree_weaken; [exact Ha1|]; unfold span; cbv beta; lia|]. apply agree_store. unfold span. cbn. lia.
  - rewrite Hnext. cbn [carry eax ebx written]. apply Forall_cons in Hr as [He Hr]. apply wp_bind, wp_put_entry; [done|].
    intros r1 H1 Ha1. rewrite Z.eqb_refl, (proj2 (Z.eqb_neq b' 0) Hb'). cbn [negb]. apply wp_bind, wp_gets, wp_bind, wp_modify.
    assert (load 2 r1 (mmap_entry_count data) = Z.of_nat n) as ->.
    { rewrite <- Hc. apply load_agree. eapply agree_weaken; [exact Ha1|]. unfold span. cbn. lia. }
    rewrite !u16_small by lia. apply (IH fuel (di + 24) (S n)); [done|lia..| |lia|].
    { rewrite load2_store2 by lia. lia. }
    intros r' Hm Hc' Ha. apply HQ; [|rewrite Hc'; lia|].
    + intros [|i] e' Hi; cbn [lookup list_lookup] in Hi.
      * injection Hi as <-. change (24 * Z.of_nat 0) with 0. rewrite !Z.add_0_r. eapply entry_at_agree; [|exact H1].
        etrans; [apply agree_store|eapply agree_weaken; [exact Ha|]]; unfold span; cbn; lia.
      * destruct (Hm i e' Hi) as (M1 & M2 & M3).
        replace (0x21000 + di + 24 * Z.of_nat (S i)) with (0x21000 + (di + 24) + 24 * Z.of_nat i) by lia. done.
    + etrans; [eapply agree_weaken; [exact Ha1|]; unfold span; cbv beta; lia|].
      etrans; [apply agree_store|eapply agree_weaken; [exact Ha|]]; unfold span; cbn; lia.
Qed.

Lemma wp_get_mmap es ebx0 r (Q : unit -> ram_t -> Prop) E :
  reports int15 0 es -> Forall entry_range es -> (length es <= 2730)%nat -> 0 <= ebx0 < 65536 -> load 2 r (mmap_entry_count data) = 0 ->
  (forall r', mmap_at r' 0x21000 es -> load 2 r' (mmap_entry_count data) = Z.of_nat (length es) ->
     agree (fun a => ~ (span (mmap_entry_count data) 2 a \/ span 0x21000 (24 * Z.of_nat (length es)) a)) r r' -> Q tt r') ->
  wp (get_mmap int15 data (S (length es)) ebx0) Q E r.
Proof.
  intros Hrep Hr Hn He Hc HQ. unfold get_mmap.
  assert (Z.land ebx0 0xFFFF0000 = 0) as ->.
  { change 0xFFFF0000 with (Z.shiftl (Z.ones 16) 16). rewrite land_field by lia. change (2 ^ 16) with 65536. rewrite Z.div_small by lia. done. }
  apply (wp_mmap_loop 0 es _ 0 0); [done|done|lia..|exact Hc|lia|exact HQ].
Qed.
End MemoryMap.

(** ** The whole of it *)

(** a disk with the boot sector [b], whose second directory entry says that the file
    [kernel] starts in [cluster]; a cluster is one sector, and the 127 sectors that are
    read exist and have addresses ToCHS and the eight bits of the cylinder can hold *)
Record boot_disk (disk : list Z) (b : bpb) (cluster : Z) (kernel : list Z) : Prop := mk_boot_disk {
  bd_fat : fat_ok b;
  bd_cluster : 2 <= cluster;
  bd_entry : le_bytes (take 2 (drop (Z.to_nat (512 * root_start b + 0x3A)) disk)) = cluster;
  bd_lba : data_start b + (cluster - 2) < 512 * sectors_per_track b;
  bd_length : 512 * (data_start b + (cluster - 2) + 127) <= Z.of_nat (length disk);
  bd_kernel : kernel `prefix_of` drop (Z.to_nat (512 * (data_start b + (cluster - 2)))) disk;
  bd_size : Z.of_nat (length kernel) <= 127 * 512;
  bd_bytes : Forall (fun v => 0 <= v < 256) disk
}.

Lemma bytes_at_poke a l r : Forall (fun v => 0 <= v < 256) l -> bytes_at (poke_bytes a l r) a l.
Proof.
  intros Hl i Hi. destruct (lookup_lt_is_Some_2 l (Z.to_nat i) ltac:(lia)) as [v Hv].
  rewrite (nth_lookup_Some _ _ _ _ Hv), <- (u8_small v) by (rewrite Forall_lookup in Hl; by eapply Hl).
  rewrite <- (rd_poke a l r _ _ Hv). f_equal. lia.
Qed.

Lemma bytes_at_prefix r a l l' : bytes_at r a l' -> l `prefix_of` l' -> bytes_at r a l.
Proof. intros H [k ->] i Hi. rewrite H by (rewrite length_app; lia). apply app_nth1. lia. Qed.

Lemma sectors_prefix disk lba n (l : list Z) :
  l `prefix_of` drop (Z.to_nat (512 * lba)) disk -> Z.of_nat (length l) <= 512 * n -> l `prefix_of` sectors disk lba n.
Proof. intros [k Hk] Hl. unfold sectors. rewrite Hk, take_app_ge by lia. by eexists. Qed.

(** the word at [off] in the first sector that was read *)
Lemma load2_sector disk lba r off :
  Forall (fun v => 0 <= v < 256) disk -> 0 <= lba -> 0 <= off -> off + 2 <= 512 -> 512 * (lba + 1) <= Z.of_nat (length disk) ->
  load 2 (poke_bytes 0x10000 (sectors disk lba 1) r) (0x10000 + off) = le_bytes (take 2 (drop (Z.to_nat (512 * lba + off)) disk)).
Proof.
  intros Hb H0 Ho Ho' Hl. replace (0x10000 + off) with (0x10000 + Z.of_nat (Z.to_nat off)) by lia.
  rewrite (load_bytes _ 0x10000 (sectors disk lba 1)).
  - unfold sectors. rewrite skipn_firstn_comm, take_take, drop_drop. f_equal. f_equal; [lia|f_equal; lia].
  - apply bytes_at_poke. unfold sectors. by apply Forall_take, Forall_drop.
  - unfold sectors. rewrite length_take, length_drop. lia.
Qed.

(** the memory the first stage may write: its variables, its second sector, the kernel's
    place and the memory map *)
Definition first_stage_area (data n : Z) (a : Z) : Prop :=
  span (boot_drive data) 23 a \/ span 0x7E00 512 a \/ span 0x10000 65024 a \/ span 0x21000 (24 * n) a.

Ltac area := unfold first_stage_area, mmap_entry_count, sector_var, track_var, head_var, data_sector_start, root_dir_size,
  root_dir_start, boot_drive, span in *; cbn; lia.

Section Start.
Context (data : Z) (Hdata : 0x7C3E <= data) (Hdend : mmap_entry_count data + 8 <= 0x7E00).
Context (int10 : Z -> Z -> ram_t -> ram_t) (int13 : Z -> Z * Z * Z -> Z -> option (list Z)) (int15 : ram_t -> Z -> e820).
Context (errors : Prop) (drive ebx0 cluster : Z) (disk kernel : list Z) (es : list bios_mmap_entry).

Abbreviation off_area n := (fun a => ~ first_stage_area data n a).

(** where a failing read leads, from memory that has changed in the area only *)
Definition on_error n r (E : stop -> ram_t -> Prop) : Prop :=
  errors -> forall r', agree (off_area n) r r' -> wp (disk_error int10 data) (fun _ _ => False) E r'.

Lemma on_error_agree n r r' E : on_error n r E -> agree (off_area n) r r' -> on_error n r' E.
Proof. intros H Ha He r2 Ha2. apply H; [done|]. by etrans. Qed.

Lemma area_bpb n r r' : 0 <= n -> agree (off_area n) r r' -> bpb_of r' = bpb_of r.
Proof. intros Hn H. apply bpb_agree. eapply agree_weaken; [exact H|]. area. Qed.

(** the boot sector and the second sector: the geometry of the disk is known *)
Lemma wp_layout_step n r (Q : unit -> ram_t -> Prop) E :
  0 <= n -> fat_ok (bpb_of r) ->
  (forall r', load 2 r' (root_dir_start data) = root_start (bpb_of r) -> load 2 r' (data_sector_start data) = data_start (bpb_of r) ->
     load 1 r' (boot_drive data) = load 1 r (boot_drive data) -> bpb_of r' = bpb_of r ->
     load 8 r' (mmap_entry_count data) = load 8 r (mmap_entry_count data) -> agree (off_area n) r r' -> Q tt r') ->
  wp (disk_layout data) Q E r.
Proof.
  intros Hn Hf HQ. apply wp_disk_layout; [exact Hdata|exact Hf|]. intros r' Hr _ Hd Ha.
  assert (Ha' : agree (off_area n) r r') by (eapply agree_weaken; [exact Ha|]; area).
  apply HQ; [done|done| |by eapply area_bpb| |done]; apply load_agree; (eapply agree_weaken; [exact Ha|]); area.
Qed.

(** a read to 0x10000 *)
Lemma wp_read_step ax k n r (Q : unit -> ram_t -> Prop) E :
  0 <= n -> answers errors int13 drive (sectors_per_track (bpb_of r)) disk -> on_error n r E -> load 1 r (boot_drive data) = drive ->
  0 < sectors_per_track (bpb_of r) < 64 -> 0 <= ax < 512 * sectors_per_track (bpb_of r) -> 0 < k < 128 ->
  512 * (ax + k) <= Z.of_nat (length disk) ->
  (forall r1 r', r' = poke_bytes 0x10000 (sectors disk ax k) r1 -> load 2 r' (data_sector_start data) = load 2 r (data_sector_start data) ->
     load 1 r' (boot_drive data) = drive -> bpb_of r' = bpb_of r ->
     load 8 r' (mmap_entry_count data) = load 8 r (mmap_entry_count data) -> agree (off_area n) r r' -> Q tt r') ->
  wp (read_lba int10 int13 data ax k 0x1000) Q E r.
Proof.
  intros Hn Hd HE Hdr Hs Ha Hk Hl HQ. apply (wp_read_lba data Hdata int10 int13 drive disk errors); [done..| |].
  { intros He r1 Hag. apply HE; [done|]. eapply agree_weaken; [exact Hag|]. area. }
  intros r1 Hag.
  pose proof (length_sectors disk ax k ltac:(lia) ltac:(lia) Hl) as Hlen.
  assert (Hag' : agree (fun a => ~ (span (head_var data) 6 a \/ span 0x10000 65024 a)) r (poke_bytes 0x10000 (sectors disk ax k) r1)).
  { etrans; [eapply agree_weaken; [exact Hag|]; tauto|]. apply agree_poke. rewrite Hlen. area. }
  assert (Hag2 : agree (off_area n) r (poke_bytes 0x10000 (sectors disk ax k) r1)) by (eapply agree_weaken; [exact Hag'|]; area).
  apply (HQ r1); [done| | |by eapply area_bpb| |done]; rewrite <- ?Hdr; apply load_agree; (eapply agree_weaken; [exact Hag'|]); area.
Qed.

(** the second sector: the start of [start] *)
Lemma wp_second_sector n (k : R unit) r (Q : unit -> ram_t -> Prop) E :
  0 <= n -> answers errors int13 drive (sectors_per_track (bpb_of r)) disk -> on_error n r E -> 1 < sectors_per_track (bpb_of r) < 64 ->
  1024 <= Z.of_nat (length disk) -> 0 <= drive < 256 ->
  (forall r', bpb_of r' = bpb_of r -> load 1 r' (boot_drive data) = drive ->
     load 8 r' (mmap_entry_count data) = load 8 r (mmap_entry_count data) -> agree (off_area n) r r' -> wp k Q E r') ->
  wp (put 1 (16 * 0 + boot_drive data) drive ;;; dl <- byte_at (boot_drive data) ;; read_sectors int10 int13 data 1 0 2 0 dl 0 0x7E00 ;;; k) Q E r.
Proof.
  intros Hn Hd HE Hspt Hlen Hdr HQ. apply wp_bind, wp_modify. change (16 * 0 + boot_drive data) with (boot_drive data). set (r0 := store 1 _ _ r).
  assert (Ha0 : agree (off_area n) r r0) by (apply agree_store; area).
  assert (Ed0 : load 1 r0 (boot_drive data) = drive) by (rewrite load1; unfold r0; by rewrite rd_store1, u8_small).
  apply wp_bind, wp_gets. rewrite Ed0. apply wp_bind. unfold read_sectors. destruct (Hd 0 0 2 1) as [[He ->]| ->];
    [lia|lia|lia|lia|lia|by apply wp_disk_error_any, HE|]. apply wp_modify.
  replace ((0 * 2 + 0) * sectors_per_track (bpb_of r) + (2 - 1)) with 1 by lia.
  change (16 * 0 + 0x7E00) with 0x7E00. set (r1 := poke_bytes _ _ r0).
  assert (Ha1 : agree (fun a => ~ span 0x7E00 512 a) r0 r1).
  { apply agree_poke. rewrite length_sectors by lia. area. }
  assert (Ha : agree (off_area n) r r1).
  { etrans; [exact Ha0|]. eapply agree_weaken; [exact Ha1|]. area. }
  apply HQ; [by apply (area_bpb n)| | |done].
  - rewrite <- Ed0. apply load_agree. eapply agree_weaken; [exact Ha1|]. area.
  - rewrite (load_agree 8 r0) by (eapply agree_weaken; [exact Ha1|]; area). apply load_store_ne. area.
Qed.

Lemma root_start_bound r : fat_ok (bpb_of r) -> 0 <= root_start (bpb_of r) <= data_start (bpb_of r).
Proof.
  intros [Hb _ _ _ _].
  pose proof (load_range 2 r RESERVED_SECTORS). pose proof (load_range 1 r NUM_FATS). pose proof (load_range 2 r NUMBER_OF_SECTORS_PER_FAT).
  pose proof (load_range 2 r ROOT_ENTRIES). assert (0 <= root_sectors (bpb_of r)) by (apply Z.div_pos; cbn in *; lia).
  unfold data_start, root_start in *. cbn in *. nia.
Qed.

Lemma wp_start r (Q : unit -> ram_t -> Prop) E :
  answers errors int13 drive (sectors_per_track (bpb_of r)) disk -> on_error (Z.of_nat (length es)) r E -> boot_disk disk (bpb_of r) cluster kernel ->
  reports int15 0 es -> Forall entry_range es -> (length es <= 2730)%nat -> 0 <= ebx0 < 65536 -> 0 <= drive < 256 ->
  load 8 r (mmap_entry_count data) = 0 ->
  (forall r', bytes_at r' 0x10000 kernel -> mmap_at r' 0x21000 es -> load 8 r' (mmap_entry_count data) = Z.of_nat (length es) ->
     agree (off_area (Z.of_nat (length es))) r r' -> Q tt r') ->
  wp (start int10 int13 int15 data (S (length es)) drive 0 ebx0) Q E r.
Proof.
  intros Hd HE [B1 B2 B3 B4 B5 B6 B7 B8] Hrep Her Hn Hebx Hdr Hc HQ. unfold start. set (n := Z.of_nat (length es)) in *.
  pose proof (fo_track _ B1) as Hspt. pose proof (fo_data _ B1) as Hds. pose proof (root_start_bound r B1) as Hroot.
  apply (wp_second_sector n); [lia|done|done|done|lia|done|]. intros r1 Eb1 Ed1 Ec1 Ha1'. rewrite Hc in Ec1. cbv zeta.
  apply wp_bind, (wp_layout_step n); [lia|by rewrite Eb1|]. rewrite Eb1, Ed1, Ec1. intros r2 Hrs Hds2 Ed2 Eb2 Ec2 Ha2.
  apply wp_bind, wp_gets. rewrite Hrs.
  assert (HE2 : on_error n r2 E) by (eapply on_error_agree; [exact HE|by etrans]).
  apply wp_bind, (wp_read_step _ _ n); rewrite ?Eb2; [lia|done|done|done|lia|lia|lia|lia|]. rewrite Hds2, Ec2.
  intros r3a r3 Er3 Hds3 Ed3 Eb3 Ec3 Ha3. assert (Ew : load 2 r3 (0x10000 + 0x3A) = cluster) by (rewrite Er3, load2_sector by (done || lia); exact B3).
  apply wp_bind, wp_gets. change (16 * 0x1000 + 0x3A) with (0x10000 + 0x3A). rewrite Ew. apply wp_bind, wp_gets. rewrite Hds3.
  assert (Hcl : cluster < 65536).
  { rewrite <- Ew. exact (proj2 (load_range 2 r3 (0x10000 + 0x3A))). }
  assert (0 <= data_start (bpb_of r) + (cluster - 2) < 65536) by lia.
  rewrite (u16_small (cluster - 2)), u16_small by lia.
  apply wp_bind, (wp_read_step _ _ n); rewrite ?Eb3; [lia|done|by eapply on_error_agree|done|lia|lia|lia|lia|]. rewrite Hds3, Ec3.
  intros r4a r4 Er4 _ _ _ Ec4 Ha4. rewrite Z.add_comm in Er4.
  assert (Hk4 : bytes_at r4 0x10000 kernel).
  { rewrite Er4. eapply bytes_at_prefix; [apply bytes_at_poke; by apply Forall_take, Forall_drop|]. by apply sectors_prefix. }
  assert (Hload8 : forall s a, load 8 s a = load 2 s a + 65536 * load 6 s (a + 1 + 1)) by (intros; cbn [load]; lia).
  pose proof Ec4 as Ec4'. rewrite Hload8 in Ec4'. pose proof (load_range 2 r4 (mmap_entry_count data)).
  pose proof (load_range 6 r4 (mmap_entry_count data + 1 + 1)).
  apply wp_get_mmap; [area|done|done|done|done|lia|]. intros r5 Hm5 Hc5 Ha5. fold n in Hc5, Ha5. apply HQ.
  - intros i Hi. rewrite Ha5; [by apply Hk4|]. area.
  - exact Hm5.
  - rewrite Hload8, Hc5, (load_agree 6 r4); [lia|]. eapply agree_weaken; [exact Ha5|]. area.
  - etrans; [exact Ha1'|]. etrans; [exact Ha2|]. etrans; [exact Ha3|]. etrans; [exact Ha4|].
    eapply agree_weaken; [exact Ha5|]. area.
Qed.
End Start.

(** ** Disk errors *)

(** "Disk Error" *)
Definition disk_error_message : list Z := [0x44; 0x69; 0x73; 0x6B; 0x20; 0x45; 0x72; 0x72; 0x6F; 0x72].

(** the data area of the BIOS and the memory of the screen *)
Definition bios_memory (a : Z) : Prop := span 0x400 0x100 a \/ span 0xA0000 0x20000 a.

(** function 14 of interrupt 0x10 appends a character to what the screen [shows], while
    there is room, and writes the memory of the BIOS only, which says what is shown *)
Record teletype (int10 : Z -> Z -> ram_t -> ram_t) (shows : ram_t -> list Z -> Prop) : Prop := mk_teletype {
  tt_char r l c : shows r l -> 0x20 <= c < 256 -> (length l < 2000)%nat -> shows (int10 (256 * 0x0E + c) 0 r) (l ++ [c]);
  tt_memory ax bx r : agree (fun a => ~ bios_memory a) r (int10 ax bx r);
  tt_screen r r' l : agree bios_memory r r' -> shows r l -> shows r' l
}.

Section DiskError.
Context (int10 : Z -> Z -> ram_t -> ram_t) (shows : ram_t -> list Z -> Prop) (Htt : teletype int10 shows).
Context (data : Z) (Hdata : 0x7C3E <= data) (Hdend : data + 11 <= 0x7E00).

(** the rest [t] of a string at [si] is shown after [l] *)
Lemma wp_l0 t si l r (Q : unit -> ram_t -> Prop) E :
  bytes_at r si (t ++ [0]) -> 0x7C3E <= si -> si + Z.of_nat (length t) < 0x7E00 -> Forall (fun c => 0x20 <= c < 256) t ->
  shows r l -> (length l + length t <= 2000)%nat ->
  (forall r', shows r' (l ++ t) -> agree (fun a => ~ bios_memory a) r r' -> Q tt r') ->
  wp (l0 int10 (S (length t)) 0x0E 0 si) Q E r.
Proof.
  revert si l r. induction t as [|c t IH]; intros si l r Hb Hsi Hse Ht Hs Hl HQ; cbn [length] in *.
  - apply wp_bind, wp_gets. rewrite load1, <- (Z.add_0_r si), (Hb 0) by (cbn; lia). apply wp_ret, HQ; [by rewrite app_nil_r|done].
  - apply Forall_cons in Ht as [Hc Ht]. cbn [l0]. apply wp_bind, wp_gets.
    assert (load 1 r si = c) as ->.
    { rewrite load1, <- (Z.add_0_r si), (Hb 0) by (cbn; lia). done. }
    rewrite (proj2 (Z.eqb_neq c 0)) by lia. apply wp_bind, wp_modify. rewrite u16_small by lia.
    pose proof (tt_memory _ _ Htt (256 * 0x0E + c) 0 r) as Ha.
    apply (IH _ (l ++ [c])); [|lia|lia|done|by apply (tt_char _ _ Htt); [done|done|lia]|rewrite length_app; cbn; lia|].
    + intros i Hi. rewrite Ha by (unfold bios_memory, span; rewrite length_app in Hi; cbn in Hi; lia).
      rewrite <- Z.add_assoc, (Hb (1 + i)) by (cbn [app length]; lia). by rewrite Z2Nat.inj_add by lia.
    + intros r' Hs' Ha'. apply HQ; [by rewrite <- app_assoc in Hs'|by etrans].
Qed.

Lemma wp_disk_error l r (Q : unit -> ram_t -> Prop) (E : stop -> ram_t -> Prop) :
  bytes_at r (disk_error_str data) (disk_error_message ++ [0]) -> shows r l -> (length l + 10 <= 2000)%nat ->
  (forall r', shows r' (l ++ disk_error_message) -> agree (fun a => ~ bios_memory a) r r' -> E Halted r') ->
  wp (disk_error int10 data) Q E r.
Proof.
  intros Hb Hs Hl HE. unfold disk_error, print. cbv zeta. change 11%nat with (S (length disk_error_message)).
  apply wp_bind, (wp_l0 disk_error_message _ l); [done|done|cbn; unfold disk_error_str; lia| |done|done|].
  { repeat constructor; done. }
  intros r' Hs' Ha. by apply wp_halt, HE.
Qed.
End DiskError.

(** ** Properties *)

(** the first stage computes the layout of the volume that the FAT specification
    prescribes, for volumes whose root directory has less than 256 sectors and whose
    sectors have 16-bit addresses, and writes nothing but its three variables. *)
Theorem disk_layout_correct data r :
  0x7C3E <= data -> fat_ok (bpb_of r) ->
  wp (disk_layout data)
    (fun _ r' => load 2 r' (root_dir_start data) = root_start (bpb_of r) /\ load 2 r' (root_dir_size data) = root_sectors (bpb_of r) /\
       load 2 r' (data_sector_start data) = data_start (bpb_of r) /\ agree (fun a => ~ span (root_dir_start data) 6 a) r r') nostop r.
Proof. intros Hd Hf. by apply wp_disk_layout. Qed.

(** C39: [ToCHS] is inverse to the address of a sector: for every disk with tracks of at
    most 63 sectors, the track, the head and the sector it stores lie in their ranges
    and address exactly the block. *)
Theorem ToCHS_roundtrip data lba r :
  0x7C3E <= data -> 0 <= lba < 65536 -> 0 < load 2 r SECTORS_PER_TRACK < 64 ->
  wp (ToCHS data lba)
    (fun _ r' => let spt := load 2 r SECTORS_PER_TRACK in let track := load 2 r' (track_var data) in
       let head := load 2 r' (head_var data) in let sector := load 2 r' (sector_var data) in
       0 <= head < 2 /\ 1 <= sector <= spt /\ (track * 2 + head) * spt + (sector - 1) = lba) nostop r.
Proof. intros Hd Hl Hs. by apply wp_ToCHS. Qed.

(** C38: [get_mmap] stores the memory map the BIOS reports, entry after entry from 0x21000,
    counts it and touches nothing else, if the upper half of EBX was zero to begin with:
    only the lower half is cleared. *)
Theorem get_mmap_correct data int15 es r ebx0 :
  mmap_entry_count data + 8 <= 0x21000 -> reports int15 0 es -> Forall entry_range es -> (length es <= 2730)%nat -> 0 <= ebx0 < 65536 ->
  load 2 r (mmap_entry_count data) = 0 ->
  wp (get_mmap int15 data (S (length es)) ebx0)
    (fun _ r' => mmap_at r' 0x21000 es /\ load 2 r' (mmap_entry_count data) = Z.of_nat (length es) /\
       agree (fun a => ~ (span (mmap_entry_count data) 2 a \/ span 0x21000 (24 * Z.of_nat (length es)) a)) r r') nostop r.
Proof. intros Hd Hrep Hr Hn He Hc. by apply (wp_get_mmap data int15 Hd es). Qed.

(** C35: whatever reads fail, the boot sector never runs on with missing sectors: it either has
    the kernel and the memory map in their places, or halts with "Disk Error" appended to
    the screen, with nothing written but its own area and the memory of the BIOS. *)
Theorem disk_errors_reported data int10 shows int13 int15 drive ebx0 cluster disk kernel es l r :
  0x7C3E <= data -> mmap_entry_count data + 8 <= 0x7E00 -> teletype int10 shows ->
  answers True int13 drive (sectors_per_track (bpb_of r)) disk -> boot_disk disk (bpb_of r) cluster kernel ->
  reports int15 0 es -> Forall entry_range es -> (length es <= 2730)%nat -> 0 <= ebx0 < 65536 -> 0 <= drive < 256 ->
  load 8 r (mmap_entry_count data) = 0 -> bytes_at r (disk_error_str data) (disk_error_message ++ [0]) ->
  shows r l -> (length l + 10 <= 2000)%nat ->
  wp (start int10 int13 int15 data (S (length es)) drive 0 ebx0)
    (fun _ r' => bytes_at r' 0x10000 kernel /\ mmap_at r' 0x21000 es /\ shows r' l)
    (fun e r' => e = Halted /\ shows r' (l ++ disk_error_message) /\
       agree (fun a => ~ first_stage_area data (Z.of_nat (length es)) a /\ ~ bios_memory a) r r') r.
Proof.
  intros Hd Hde Htt Hb Hdk Hrep Her Hn Hebx Hdr Hc Hmsg Hs Hl.
  assert (Harea : forall a, bios_memory a -> ~ first_stage_area data (Z.of_nat (length es)) a) by (unfold bios_memory; area).
  assert (Hscreen : forall r', agree (fun a => ~ first_stage_area data (Z.of_nat (length es)) a) r r' -> shows r' l).
  { intros r' Ha. eapply (tt_screen _ _ Htt); [|exact Hs]. eapply agree_weaken; [exact Ha|exact Harea]. }
  apply (wp_start data Hd Hde int10 int13 int15 True drive ebx0 cluster disk kernel es); [done| |done..|].
  - intros _ r' Ha. apply (wp_disk_error int10 shows Htt data Hd ltac:(area) l); [|by apply Hscreen|done|].
    + intros i Hi. rewrite Ha; [by apply Hmsg|]. cbn [length app disk_error_message] in Hi. unfold disk_error_str. area.
    + intros r2 Hs2 Ha2. split_and!; [done|done|].
      etrans; (eapply agree_weaken; [eassumption|]); cbv beta; tauto.
  - intros r' Hk Hm _ Ha. split_and!; [done|done|by apply Hscreen].
Qed.
