(* ===== verification/Gdt.v ===== *)
(** real_mode/elevate.asm and the tables of bootloader.asm: the segment descriptors the
    processor has from protected mode on, the selectors of which the kernel uses. *)

From S2P Require Import Prelude Comp Ram Machine Utils Idt FirstStage.

(** ** The tables, behind the variables of section .data *)

(** the quadwords of [gdt]; the last two are the descriptor of the TSS, filled in below *)
Definition gdt_image : list Z :=
  [0; 0x00CF9A000000FFFF; 0x00CF92000000FFFF; 0x00AF9A000000FFFF; 0x00CFF2000000FFFF; 0x00AFFA000000FFFF; 0; 0].

Section Tables.
Context (data : Z).
Definition gdt : Z := mmap_entry_count data + 8.
Definition gdt_end : Z := gdt + 8 * Z.of_nat (length gdt_image).
Definition gdt_descriptor : Z := gdt_end.
Definition tss : Z := gdt_descriptor + 10.
Definition tss_end : Z := tss + 4 * 26.

(** up to the switch: the descriptor of the TSS, the offset of its permission map, and
    [lgdt], which loads the limit and the base *)
Definition switch_protected_mode : R (Z * Z) :=
  let si := gdt + 0x30 in
  let bx := tss_end - tss - 1 in
  put 2 si bx ;;;
  let si := si + 2 in
  let bx := tss in
  put 2 si bx ;;;
  let si := si + 2 in
  put 1 si 0 ;;;
  let si := si + 1 in
  put 1 si 0x89 ;;;
  let si := si + 1 in
  put 1 si 0 ;;;
  let si := si + 1 in
  put 1 si 0x80 ;;;
  let si := si + 1 in
  let bx := 0xFFFF in
  put 2 si bx ;;;
  let si := si + 2 in
  put 2 si bx ;;;
  let si := tss + 0x66 in
  let bx := tss_end - tss - 1 in
  put 2 si bx ;;;
  limit <- word_at gdt_descriptor ;;
  base <- gets (fun r => load 4 r (gdt_descriptor + 2)) ;;
  ret (limit, base).
End Tables.

(** ** Descriptors, by the manual of the processor *)

Record segment : Type := mk_segment {
  seg_base : Z;
  seg_limit : Z;
  seg_type : Z;
  seg_user : bool;             (* a code or data segment, and no system segment *)
  seg_dpl : Z;
  seg_present : bool;
  seg_long : bool;
  seg_big : bool
}.

Definition bits (d k n : Z) : Z := d / 2 ^ k mod 2 ^ n.

Definition decode (d : Z) : segment :=
  let limit := bits d 0 16 + 2 ^ 16 * bits d 48 4 in
  mk_segment (bits d 16 24 + 2 ^ 24 * bits d 56 8) (if bits d 55 1 =? 1 then 4096 * limit + 4095 else limit)
    (bits d 40 4) (bits d 44 1 =? 1) (bits d 45 2) (bits d 47 1 =? 1) (bits d 53 1 =? 1) (bits d 54 1 =? 1).

(** code that is executed and read, data that is written, an available TSS *)
Definition CODE : Z := 10.
Definition DATA : Z := 2.
Definition TSS64 : Z := 9.
Definition flat (type dpl : Z) (long : bool) : segment := mk_segment 0 0xFFFFFFFF type true dpl true long (negb long).

(** the variables and the tables lie in the boot sector; what [lgdt] loads *)
Definition in_boot_sector (data : Z) : Prop := 0x7C3E <= data /\ tss_end data <= 0x7E00.
Definition boot_gdtr (data : Z) : Z * Z := (gdt_end data - gdt data - 1, gdt data).

Lemma boot_gdtr_range data : in_boot_sector data ->
  (boot_gdtr data).1 = 63 /\ 0x7C00 <= (boot_gdtr data).2 /\ (boot_gdtr data).2 + 64 <= 0x7E00.
Proof.
  intros [H1 H2]. unfold boot_gdtr, tss_end, tss, gdt_descriptor, gdt_end, gdt, mmap_entry_count, sector_var, track_var, head_var,
    data_sector_start, root_dir_size, root_dir_start, boot_drive in *. cbn [length gdt_image fst snd] in *. lia.
Qed.

(** the boot sector as it was assembled *)
Record assembled (data : Z) (r : ram_t) : Prop := mk_assembled {
  as_data : 0x7C3E <= data;
  as_end : tss_end data <= 0x7E00;
  as_gdt i v : gdt_image !! i = Some v -> load 8 r (gdt data + 8 * Z.of_nat i) = v;
  as_limit : load 2 r (gdt_descriptor data) = gdt_end data - gdt data - 1;
  as_base : load 4 r (gdt_descriptor data + 2) = gdt data
}.

Lemma load8_parts r a :
  load 8 r a = load 2 r a + 2 ^ 16 * (load 2 r (a + 2) + 2 ^ 16 * (load 1 r (a + 4) + 2 ^ 8 * (load 1 r (a + 5) +
    2 ^ 8 * (load 1 r (a + 6) + 2 ^ 8 * load 1 r (a + 7))))).
Proof.
  replace (a + 2) with (a + 1 + 1) by lia. replace (a + 4) with (a + 1 + 1 + 1 + 1) by lia.
  replace (a + 5) with (a + 1 + 1 + 1 + 1 + 1) by lia. replace (a + 6) with (a + 1 + 1 + 1 + 1 + 1 + 1) by lia.
  replace (a + 7) with (a + 1 + 1 + 1 + 1 + 1 + 1 + 1) by lia. cbn [load]. change (2 ^ 16) with 65536. change (2 ^ 8) with 256. lia.
Qed.

Lemma load8_halves r a : load 8 r a = load 4 r a + 4294967296 * load 4 r (a + 4).
Proof. replace (a + 4) with (a + 1 + 1 + 1 + 1) by lia. cbn [load]. lia. Qed.

Lemma decode_tss t : 0 <= t < 65536 ->
  decode (103 + 65536 * t + 0x8000890000000000) = mk_segment (0x80000000 + t) 103 TSS64 false 0 true false false.
Proof.
  intros Ht. set (d := 103 + _ + _).
  assert (bits d 0 16 = 103 /\ bits d 48 4 = 0 /\ bits d 16 24 = t /\ bits d 56 8 = 0x80 /\ bits d 55 1 = 0 /\ bits d 40 4 = 9 /\
    bits d 44 1 = 0 /\ bits d 45 2 = 0 /\ bits d 47 1 = 1 /\ bits d 53 1 = 0 /\ bits d 54 1 = 0)
    as (B0 & B1 & B2 & B3 & B4 & B5 & B6 & B7 & B8 & B9 & B10).
  { unfold bits, d. repeat match goal with |- context [2 ^ ?k] => let v := eval vm_compute in (2 ^ k) in change (2 ^ k) with v end.
    split_and!; dlia. }
  unfold decode. rewrite B0, B1, B2, B3, B4, B5, B6, B7, B8, B9, B10. cbn [Z.eqb]. unfold TSS64. f_equal. change (2 ^ 24) with 16777216. lia.
Qed.

Ltac tables := unfold tss_end, tss, gdt_descriptor, gdt_end, gdt, span in *; cbn [length gdt_image] in *; cbn; lia.

Ltac peel := repeat (rewrite load_store_ne by tables).

Lemma load1_store1 r a v : 0 <= v < 256 -> load 1 (store 1 a v r) a = v.
Proof. intros. rewrite load1, rd_store1. by apply u8_small. Qed.

Lemma tss_range data r : assembled data r -> 0 <= tss data < 65536.
Proof.
  intros [A1 A2 _ _ _]. unfold tss_end, tss, gdt_descriptor, gdt_end, gdt, mmap_entry_count, sector_var, track_var, head_var,
    data_sector_start, root_dir_size, root_dir_start, boot_drive in *. cbn [length gdt_image] in *. lia.
Qed.

Lemma wp_switch_protected_mode data r (Q : Z * Z -> ram_t -> Prop) E :
  assembled data r ->
  (forall r', (forall i v, (i < 6)%nat -> gdt_image !! i = Some v -> load 8 r' (gdt data + 8 * Z.of_nat i) = v) ->
     load 8 r' (gdt data + 48) = 103 + 65536 * tss data + 0x8000890000000000 -> load 8 r' (gdt data + 56) = 0xFFFFFFFF ->
     load 2 r' (tss data + 0x66) = 103 -> agree (fun a => ~ (span (gdt data + 48) 12 a \/ span (tss data + 0x66) 2 a)) r r' ->
     Q (63, gdt data) r') ->
  wp (switch_protected_mode data) Q E r.
Proof.
  intros Has HQ. pose proof (tss_range _ _ Has) as Ht. destruct Has as [_ _ A3 A4 A5]. unfold switch_protected_mode.
  assert (He : tss_end data - tss data - 1 = 103) by tables. rewrite He.
  do 9 (apply wp_bind, wp_modify). set (r' := store 2 (tss data + 0x66) _ _).
  assert (Ha : agree (fun a => ~ (span (gdt data + 48) 12 a \/ span (tss data + 0x66) 2 a)) r r').
  { unfold r'. do 9 (etrans; [|apply agree_store; tables]). done. }
  do 2 apply wp_bind, wp_gets. apply wp_ret.
  rewrite (load_agree 2 r), (load_agree 4 r), A4, A5 by (eapply agree_weaken; [exact Ha|]; tables).
  replace (gdt_end data - gdt data - 1) with 63 by tables.
  apply HQ.
  - intros i v Hi Hv. rewrite (load_agree 8 r), (A3 i v Hv); [done|]. eapply agree_weaken; [exact Ha|]. tables.
  - rewrite load8_parts.
    assert (load 2 r' (gdt data + 48) = 103) as -> by (unfold r'; peel; rewrite load2_store2; lia).
    assert (load 2 r' (gdt data + 48 + 2) = tss data) as -> by (unfold r'; peel; rewrite load2_store2; lia).
    replace (gdt data + 48 + 4) with (gdt data + 48 + 2 + 2) by lia. replace (gdt data + 48 + 5) with (gdt data + 48 + 2 + 2 + 1) by lia.
    replace (gdt data + 48 + 6) with (gdt data + 48 + 2 + 2 + 1 + 1) by lia.
    replace (gdt data + 48 + 7) with (gdt data + 48 + 2 + 2 + 1 + 1 + 1) by lia.
    assert (load 1 r' (gdt data + 48 + 2 + 2) = 0) as -> by (unfold r'; peel; rewrite load1_store1; lia).
    assert (load 1 r' (gdt data + 48 + 2 + 2 + 1) = 0x89) as -> by (unfold r'; peel; rewrite load1_store1; lia).
    assert (load 1 r' (gdt data + 48 + 2 + 2 + 1 + 1) = 0) as -> by (unfold r'; peel; rewrite load1_store1; lia).
    assert (load 1 r' (gdt data + 48 + 2 + 2 + 1 + 1 + 1) = 0x80) as -> by (unfold r'; peel; rewrite load1_store1; lia).
    change (2 ^ 16) with 65536. change (2 ^ 8) with 256. lia.
  - assert (load 4 r' (gdt data + 56 + 4) = 0) as Hz.
    { rewrite (load_agree 4 r) by (eapply agree_weaken; [exact Ha|]; tables). pose proof (A3 7%nat 0 eq_refl) as H7.
      change (8 * Z.of_nat 7) with 56 in H7. rewrite load8_halves in H7. pose proof (load_range 4 r (gdt data + 56)).
      pose proof (load_range 4 r (gdt data + 56 + 4)). lia. }
    rewrite load8_halves, Hz.
    replace (load 4 r' (gdt data + 56)) with (load 2 r' (gdt data + 56) + 65536 * load 2 r' (gdt data + 56 + 2))
      by (replace (gdt data + 56 + 2) with (gdt data + 56 + 1 + 1) by lia; cbn [load]; lia).
    replace (gdt data + 56) with (gdt data + 48 + 2 + 2 + 1 + 1 + 1 + 1) by lia.
    assert (load 2 r' (gdt data + 48 + 2 + 2 + 1 + 1 + 1 + 1) = 0xFFFF) as -> by (unfold r'; peel; rewrite load2_store2; lia).
    assert (load 2 r' (gdt data + 48 + 2 + 2 + 1 + 1 + 1 + 1 + 2) = 0xFFFF) as -> by (unfold r'; peel; rewrite load2_store2; lia).
    reflexivity.
  - unfold r'. rewrite load2_store2; lia.
  - exact Ha.
Qed.

(** the address space [gdtr] refers to: the descriptor of a selector *)
Definition descriptor (r : ram_t) (gdtr : Z * Z) (selector : Z) : option Z :=
  if (0 <? selector) && (8 * (selector / 8) + 7 <=? gdtr.1) then Some (load 8 r (gdtr.2 + 8 * (selector / 8))) else None.

(** ** Properties *)

(** C18: the descriptor table the bootloader loads gives the selectors of the system the
    segments they stand for, whatever their privilege bits: 0x08 and 0x10 flat code and
    data of ring 0, 0x18, the selector of every gate of the kernel, 64-bit code of ring
    0, 0x20 and 0x28 flat data and 64-bit code of ring 3, and 0x30 an available TSS of
    104 bytes at its address in the kernel's window, with its permission map at its last
    byte.  The entry 0x38, which [sysret] makes of the 0x28 that enable_syscall means to
    give it, is not present, and none beyond exists. *)
Theorem switch_protected_mode_correct data r :
  assembled data r ->
  wp (switch_protected_mode data)
    (fun gdtr r' =>
       (forall rpl, 0 <= rpl < 4 ->
          decode <$> descriptor r' gdtr (0x08 + rpl) = Some (flat CODE 0 false) /\
          decode <$> descriptor r' gdtr (0x10 + rpl) = Some (flat DATA 0 false) /\
          decode <$> descriptor r' gdtr (0x18 + rpl) = Some (flat CODE 0 true) /\
          decode <$> descriptor r' gdtr (0x20 + rpl) = Some (flat DATA 3 false) /\
          decode <$> descriptor r' gdtr (0x28 + rpl) = Some (flat CODE 3 true) /\
          decode <$> descriptor r' gdtr (0x30 + rpl) = Some (mk_segment (0x80000000 + tss data) 103 TSS64 false 0 true false false)) /\
       (forall handler, decode <$> descriptor r' gdtr (selector (gate handler)) = Some (flat CODE 0 true)) /\
       0x80000000 + tss data + 2 ^ 32 * load 4 r' (gdt data + 56) = KERNEL_BASE + tss data /\
       load 2 r' (tss data + 0x66) = 103 /\
       seg_present <$> (decode <$> descriptor r' gdtr (0x28 + 16)) = Some false /\
       (forall s, 0x40 <= s -> descriptor r' gdtr s = None)) nostop r.
Proof.
  intros Has. apply wp_switch_protected_mode; [done|]. intros r' Hg Ht Hu Hi _.
  pose proof (tss_range _ _ Has) as Hts.
  assert (Hs : forall (i : nat) v sel, (0 < i < 8)%nat -> 0 <= sel - 8 * Z.of_nat i < 4 -> load 8 r' (gdt data + 8 * Z.of_nat i) = v ->
    descriptor r' (63, gdt data) sel = Some v).
  { intros i v sel Hi' Hr <-. unfold descriptor. cbn [fst snd]. assert (sel / 8 = Z.of_nat i) as -> by dlia.
    rewrite (proj2 (Z.ltb_lt _ _)), (proj2 (Z.leb_le _ _)) by lia. done. }
  assert (Hc : forall (i : nat) v sel, (0 < i < 6)%nat -> 0 <= sel - 8 * Z.of_nat i < 4 -> gdt_image !! i = Some v ->
    descriptor r' (63, gdt data) sel = Some v).
  { intros i v sel Hi' Hr Hv. apply (Hs i); [lia|done|]. apply Hg; [lia|done]. }
  split_and!.
  - intros rpl Hr. split_and!.
    + by rewrite (Hc 1%nat _ (8 + rpl) ltac:(lia) ltac:(lia) eq_refl).
    + by rewrite (Hc 2%nat _ (16 + rpl) ltac:(lia) ltac:(lia) eq_refl).
    + by rewrite (Hc 3%nat _ (24 + rpl) ltac:(lia) ltac:(lia) eq_refl).
    + by rewrite (Hc 4%nat _ (32 + rpl) ltac:(lia) ltac:(lia) eq_refl).
    + by rewrite (Hc 5%nat _ (40 + rpl) ltac:(lia) ltac:(lia) eq_refl).
    + rewrite (Hs 6%nat _ (48 + rpl) ltac:(lia) ltac:(lia) Ht). cbn [fmap option_fmap option_map]. by rewrite decode_tss.
  - intros handler. by rewrite (Hc 3%nat _ (selector (gate handler)) ltac:(lia) ltac:(cbn; lia) eq_refl).
  - pose proof Hu as Hu'. rewrite load8_halves in Hu'. pose proof (load_range 4 r' (gdt data + 56)).
    pose proof (load_range 4 r' (gdt data + 56 + 4)). zconst. change (2 ^ 32) with 4294967296. lia.
  - exact Hi.
  - by rewrite (Hs 7%nat _ (0x28 + 16) ltac:(lia) ltac:(lia) Hu).
  - intros s Hs'. unfold descriptor. cbn [fst]. rewrite (proj2 (Z.leb_gt _ _)) by dlia. by rewrite andb_false_r.
Qed.
