(* ===== verification/Stubs.v ===== *)
(** idt/isr_stubs.asm and syscall/syscallstub.asm: the assembly between the processor
    and the C handlers, as programs of a small instruction set that run on the
    machine's stack, with the processor's delivery of an interrupt before them and the
    calling convention of the compiler between them and the C code.

    To deliver an interrupt, and to return from one, the processor reads the interrupt
    table and the segment descriptors at their linear addresses, through the page tables
    in force; [gdtr] is what the bootloader's [lgdt] has loaded.

    The C functions of the model keep their locals outside memory, so the stack below
    the return address of a call is not written by the callee. *)

From stdpp Require Import functions.
From S2P Require Import Prelude Comp Ram Machine KSpace Utils Idt Isr Kernel Gdt.

(** ** The processor *)

Inductive reg : Type :=
  | RAX | RBX | RCX | RDX | RSI | RDI | RBP | RSP | R8 | R9 | R10 | R11 | R12 | R13 | R14 | R15.

#[export] Instance reg_eq_dec : EqDecision reg.
Proof. solve_decision. Defined.

(** what an interrupt saves of the code it interrupts *)
Record context : Type := mk_context {
  gpr : reg -> Z;
  rip : Z;
  cs : Z;
  rflags : Z;
  ss : Z
}.

Definition set_reg (r : reg) (v : Z) (c : context) : context :=
  mk_context (<[r := v]> (gpr c)) (rip c) (cs c) (rflags c) (ss c).

Definition push (v : Z) (c : context) : M context :=
  let sp := u64 (gpr c RSP - 8) in
  vstore 8 sp v ;;; ret (set_reg RSP sp c).

Definition pop (c : context) : M (Z * context) :=
  v <- vload 8 (gpr c RSP) ;; ret (v, set_reg RSP (u64 (gpr c RSP + 8)) c).

Definition set_iflag (b : bool) (h : cpu) : cpu :=
  mk_cpu (cr0 h) (cr4 h) (cpuid1_edx h) (msrs h) (idtr h) b (ports h) (kbd h).

(** *** Segments *)

(** the code and the stack segments of a ring, by their descriptors *)
Definition code64 (ring : Z) (d : segment) : bool :=
  seg_user d && Z.testbit (seg_type d) 3 && negb (Z.testbit (seg_type d) 2) && (seg_dpl d =? ring) &&
  seg_present d && seg_long d && negb (seg_big d).
Definition stack_segment (ring : Z) (d : segment) : bool :=
  seg_user d && negb (Z.testbit (seg_type d) 3) && Z.testbit (seg_type d) 1 && (seg_dpl d =? ring) && seg_present d.

Section Processor.
Context (gdtr : Z * Z) (sym : symbols).

(** a segment register is loaded: the descriptor is read, checked, and marked accessed.
    The exceptions of selectors and descriptors that are not fit are not modelled. *)
Definition load_descriptor (fit : segment -> bool) (sel : Z) : M unit :=
  if (0 <? sel / 8) && negb (Z.testbit sel 2) && (8 * (sel / 8) + 7 <=? gdtr.1) then
    let a := u64 (gdtr.2 + 8 * (sel / 8)) in
    d <- vload 8 a ;;
    if fit (decode d) then
      if Z.testbit d 40 then ret tt else vstore 8 a (Z.setbit d 40)
    else halt Undefined
  else halt Undefined.

(** [iretq], to 64-bit code; the stack segment may be null outside ring 3 *)
Definition iretq (c : context) : M context :=
  x1 <- pop c ;; x2 <- pop x1.2 ;; x3 <- pop x2.2 ;; x4 <- pop x3.2 ;; x5 <- pop x4.2 ;;
  let ring := Z.land x2.1 3 in
  load_descriptor (code64 ring) x2.1 ;;;
  (if (x5.1 / 4 =? 0) && negb (ring =? 3) then ret tt else load_descriptor (stack_segment ring) x5.1) ;;;
  sethw (set_iflag (Z.testbit x3.1 9)) ;;;
  ret (mk_context (<[RSP := x4.1]> (gpr c)) x1.1 x2.1 x3.1 x5.1).

(** *** Interrupts *)

(** the base the task register has after a reset: no code of the system loads it *)
Definition TSS_BASE : Z := 0.

(** the stack an interrupt is taken on: the one of the interrupt stack table that the gate
    names, else the current one in ring 0, else RSP0 of the TSS *)
Definition entry_stack (e : idt_entry) (c : context) : M Z :=
  let n := ist e mod 8 in
  if n =? 0 then
    if Z.land (cs c) 3 =? 0 then ret (gpr c RSP) else vload 8 (TSS_BASE + 4)
  else vload 8 (TSS_BASE + 28 + 8 * n).

Definition push_error (err : option Z) (c : context) : M context :=
  match err with Some e => push e c | None => ret c end.

(** the processor takes interrupt [v], with an error code where the vector has one: it
    reads the gate and the descriptor of its code segment, aligns the stack, saves what
    it interrupts and enters the gate with TF, IF, NT, RF and VM clear.  The entries of
    the table are those of the variable [idt], if [idtr] has its address.  A vector
    without a live gate is not modelled. *)
Definition deliver (v : Z) (err : option Z) (c : context) : M context :=
  lim <- gethw idtr ;;
  t <- getg idt ;;
  match lim, t !! Z.to_nat v with
  | Some (limit, base), Some e =>
      if (16 * v + 15 <=? limit) && (base =? idt_addr sym) then
        translate_range 16 (u64 (base + 16 * v)) ;;;
        if gate_live e then
          load_descriptor (code64 0) (selector e) ;;;
          sp <- entry_stack e c ;;
          c1 <- push (ss c) (set_reg RSP (Z.land sp (-16)) c) ;;
          c2 <- push (gpr c RSP) c1 ;;
          c3 <- push (rflags c) c2 ;;
          c4 <- push (cs c) c3 ;;
          c5 <- push (rip c) c4 ;;
          c6 <- push_error err c5 ;;
          sethw (set_iflag false) ;;;
          ret (mk_context (gpr c6) (gate_offset e) (selector e) (Z.ldiff (rflags c) 0x34300)
                 (if Z.land (cs c) 3 =? 0 then ss c else 0))
        else halt Undefined
      else halt Undefined
  | _, _ => halt Undefined
  end.

(** [k], if [c] ends in a page fault *)
Definition on_page_fault {A} (c k : M A) : M A := fun m =>
  match c m with Stop (PageFault _) m' => k m' | o => o end.

(** page faults of a delivery: while a double fault is delivered, the processor shuts
    down; while a page fault is, it is a double fault; else it is delivered, with the
    error code [code] *)
Definition deliver_double (c : context) : M context := on_page_fault (deliver 8 (Some 0) c) (halt Shutdown).
Definition deliver_page_fault (code : Z) (c : context) : M context :=
  on_page_fault (deliver 14 (Some code) c) (deliver_double c).
Definition take_interrupt (v : Z) (err : option Z) (code : Z) (c : context) : M context :=
  on_page_fault (deliver v err c)
    (if v =? 8 then halt Shutdown else if v =? 14 then deliver_double c else deliver_page_fault code c).
End Processor.

(** the vectors for which the processor pushes an error code *)
Definition error_vectors : list Z := [8; 10; 11; 12; 13; 14; 17; 21].

(** ** The instructions of the stubs *)

(** the C functions they call *)
Inductive c_symbol : Type := Isr_handler | Irq_handler | Syscall_handler.

Definition c_body (f : c_symbol) (arg : Z) : M unit :=
  match f with
  | Isr_handler => isr_handler arg
  | Irq_handler => irq_handler arg
  | Syscall_handler => syscall_handler
  end.

Inductive block : Type := Isr_common | Irq_common.

Inductive instr : Type :=
  | PushI (n : Z)                    (* push n *)
  | Push (r : reg)                   (* push r *)
  | Pop (r : reg)                    (* pop r *)
  | MovSp (r : reg) (off : Z)        (* mov r, [rsp + off] *)
  | AddSp (n : Z)                    (* add rsp, n *)
  | Call (f : c_symbol)              (* call f *)
  | Jmp (b : block)                  (* jmp b *)
  | Iretq                            (* iretq *)
  | SysretI.                         (* sysret, in its 32-bit form *)

(** ** isr_stubs.asm *)

Definition ISR_NOERR (n : Z) : list instr := [PushI 0; PushI n; Jmp Isr_common].
Definition ISR_ERR (n : Z) : list instr := [PushI n; Jmp Isr_common].
Definition IRQ (n v : Z) : list instr := [PushI 0; PushI v; Jmp Irq_common].

Definition isr_common : list instr :=
  [Push RAX; Push RBX; Push RCX; Push RDX; Push RSI; Push RDI; Push RBP; Push R8; Push R9; Push R10;
   Push R11; Push R12; Push R13; Push R14; Push R15;
   MovSp RDI 120; Call Isr_handler;
   Pop R15; Pop R14; Pop R13; Pop R12; Pop R11; Pop R10; Pop R9; Pop R8; Pop RBP; Pop RDI; Pop RSI;
   Pop RDX; Pop RCX; Pop RBX; Pop RAX;
   AddSp 16; Iretq].

Definition irq_common : list instr :=
  [Push RAX; Push RBX; Push RCX; Push RDX; Push RSI; Push RDI; Push RBP; Push R8; Push R9; Push R10;
   Push R11; Push R12; Push R13; Push R14; Push R15;
   MovSp RDI 120; Call Irq_handler;
   Pop R15; Pop R14; Pop R13; Pop R12; Pop R11; Pop R10; Pop R9; Pop R8; Pop RBP; Pop RDI; Pop RSI;
   Pop RDX; Pop RCX; Pop RBX; Pop RAX;
   AddSp 16; Iretq].

Definition block_code (b : block) : list instr :=
  match b with Isr_common => isr_common | Irq_common => irq_common end.

(** the stubs in the order of the file: [isr0] .. [isr31], [irq0], [irq1] *)
Definition stubs : list (list instr) :=
  [ISR_NOERR 0; ISR_NOERR 1; ISR_NOERR 2; ISR_NOERR 3; ISR_NOERR 4; ISR_NOERR 5; ISR_NOERR 6; ISR_NOERR 7;
   ISR_ERR 8; ISR_NOERR 9; ISR_ERR 10; ISR_ERR 11; ISR_ERR 12; ISR_ERR 13; ISR_ERR 14; ISR_NOERR 15;
   ISR_NOERR 16; ISR_ERR 17; ISR_NOERR 18; ISR_NOERR 19; ISR_NOERR 20; ISR_ERR 21; ISR_NOERR 22; ISR_NOERR 23;
   ISR_NOERR 24; ISR_NOERR 25; ISR_NOERR 26; ISR_NOERR 27; ISR_NOERR 28; ISR_NOERR 29; ISR_NOERR 30; ISR_NOERR 31;
   IRQ 0 32; IRQ 1 33].

(** syscallstub.asm *)
Definition syscall_stub_code : list instr := [Call Syscall_handler; SysretI].

(** ** Running them *)

(** what the compiler leaves open: where a call returns to, and what it leaves in the
    registers the callee may use *)
Record abi : Type := mk_abi {
  return_address : c_symbol -> Z;
  after_call : c_symbol -> machine -> (reg -> Z) -> reg -> Z
}.

(** the System V calling convention *)
Definition callee_saved : list reg := [RBX; RSP; RBP; R12; R13; R14; R15].

Record abi_ok (A : abi) : Prop := mk_abi_ok {
  ab_return f : 0 <= return_address A f < 2 ^ 64;
  ab_saved f m g r : r ∈ callee_saved -> after_call A f m g r = g r
}.

Section Stubs.
Context (A : abi) (gdtr : Z * Z).

(** a call of a C function, which needs a stack aligned to 16 bytes *)
Definition call (f : c_symbol) (c : context) : M context :=
  if gpr c RSP mod 16 =? 0 then
    c1 <- push (return_address A f) c ;;
    c_body f (gpr c1 RDI) ;;;
    g <- gets (fun m => after_call A f m (gpr c1)) ;;
    x <- pop (mk_context g (rip c1) (cs c1) (rflags c1) (ss c1)) ;;
    if x.1 =? return_address A f then ret x.2 else halt Undefined
  else halt Undefined.

(** a block of code runs to a jump or to [iretq] *)
Fixpoint exec (code : list instr) (c : context) : M (context * option block) :=
  match code with
  | [] => halt Undefined
  | PushI n :: rest => c' <- push n c ;; exec rest c'
  | Push r :: rest => c' <- push (gpr c r) c ;; exec rest c'
  | Pop r :: rest => x <- pop c ;; exec rest (set_reg r x.1 x.2)
  | MovSp r off :: rest => v <- vload 8 (u64 (gpr c RSP + off)) ;; exec rest (set_reg r v c)
  | AddSp n :: rest => exec rest (set_reg RSP (u64 (gpr c RSP + n)) c)
  | Call f :: rest => c' <- call f c ;; exec rest c'
  | Jmp b :: _ => ret (c, Some b)
  | Iretq :: _ => c' <- iretq gdtr c ;; ret (c', None)
  | SysretI :: _ => halt (Sysret (u32 (gpr c RCX)) (gpr c RSP) (gpr c R11))
  end.

(** [k] jumps at most: a stub makes one *)
Fixpoint run (k : nat) (code : list instr) (c : context) : M context :=
  x <- exec code c ;;
  match x.2, k with
  | None, _ => ret x.1
  | Some b, S k' => run k' (block_code b) x.1
  | Some _, O => halt OutOfFuel
  end.

(** the stub at an address *)
Definition stub_at (sym : symbols) (a : Z) : option (list instr) :=
  match list_find (fun n => vector sym n = a) (seqZ 0 34) with
  | Some (i, _) => stubs !! i
  | None => None
  end.

(** an interrupt, from the instruction it interrupts to the one executed next; [code] is
    the error code a page fault of its delivery would have *)
Definition interrupt (sym : symbols) (v : Z) (err : option Z) (code : Z) (c : context) : M context :=
  c1 <- take_interrupt gdtr sym v err code c ;;
  match stub_at sym (rip c1) with
  | Some stub => run 1 stub c1
  | None => halt Undefined
  end.
End Stubs.

(** ** Words on the stack *)

Fixpoint words (r : ram_t) (a : Z) (l : list Z) : Prop :=
  match l with [] => True | v :: l' => load 8 r a = v /\ words r (a + 8) l' end.

Lemma words_agree r r' a l : agree (span a (8 * Z.of_nat (length l))) r r' -> words r a l -> words r' a l.
Proof.
  revert a. induction l as [|v l IH]; intros a Ha; cbn [words length] in *; [done|]. intros [Hv Hl]. split.
  - rewrite <- Hv. apply load_agree. eapply agree_weaken; [exact Ha|]. unfold span. lia.
  - apply IH; [|done]. eapply agree_weaken; [exact Ha|]. unfold span. lia.
Qed.

Lemma words_store r a v l : 0 <= v < 2 ^ 64 -> words r a l -> words (store 8 (a - 8) v r) (a - 8) (v :: l).
Proof.
  intros Hv Hl. split; [by apply load8_store8|]. replace (a - 8 + 8) with a by lia.
  eapply words_agree; [|exact Hl]. apply agree_store. unfold span. lia.
Qed.

(** contexts that agree but for the registers in [P] *)
Record keeps (P : reg -> Prop) (c c' : context) : Prop := mk_keeps {
  kp_gpr r : ~ P r -> gpr c' r = gpr c r;
  kp_rip : rip c' = rip c;
  kp_cs : cs c' = cs c;
  kp_rflags : rflags c' = rflags c;
  kp_ss : ss c' = ss c
}.

#[export] Instance keeps_preorder P : PreOrder (keeps P).
Proof. split; [by intros c; split|]. intros c1 c2 c3 [] []. split; try congruence. intros r Hr. rewrite kp_gpr1; auto. Qed.

Lemma keeps_weaken (P P' : reg -> Prop) c c' : keeps P c c' -> (forall r, P r -> P' r) -> keeps P' c c'.
Proof. intros [] H. split; auto. Qed.

Lemma keeps_set_reg (P : reg -> Prop) r v c : P r -> keeps P c (set_reg r v c).
Proof. intros Hr. split; try done. intros r' Hr'. cbn. apply fn_lookup_insert_ne. by intros ->. Qed.

Definition regs_ok (c : context) : Prop := forall r, 0 <= gpr c r < 2 ^ 64.

Record context_ok (c : context) : Prop := mk_context_ok {
  co_gpr : regs_ok c;
  co_rip : 0 <= rip c < 2 ^ 64;
  co_cs : 0 <= cs c < 2 ^ 64;
  co_rflags : 0 <= rflags c < 2 ^ 64;
  co_ss : 0 <= ss c < 2 ^ 64
}.

(** ** The stack of an interrupt

    The kernel's stack lies in its window of the address space: [top] is the aligned
    stack pointer, in physical memory, and 184 bytes below it are enough for what the
    processor and the stub save and for the call. *)
Definition FRAME : Z := 184.

(** what [idt_init] leaves: a gate for each vector up to 33, and the table loaded *)
Record idt_ready (sym : symbols) m : Prop := mk_idt_ready {
  ir_gate n : 0 <= n < 34 -> idt (glb m) !! Z.to_nat n = Some (gate (vector sym n));
  ir_loaded : idtr (hw m) = Some (16 * IDT_ENTRIES - 1, idt_addr sym)
}.

(** the linker gives each stub an address of its own, and the table one in the window *)
Record linked (sym : symbols) : Prop := mk_linked {
  lk_range n : 0 <= n < 34 -> 0 <= vector sym n < 2 ^ 64;
  lk_inj n n' : 0 <= n < 34 -> 0 <= n' < 34 -> vector sym n = vector sym n' -> n = n';
  lk_idt : KERNEL_BASE <= idt_addr sym /\ idt_addr sym + 16 * IDT_ENTRIES <= KERNEL_BASE + KWIN
}.

(** the descriptor table is mapped, away from the bytes [W], and its entries are those of
    the bootloader, marked accessed by the loads of [ss] and [cs] it makes *)
Record gdt_ready {QT : Quiet} (gdtr : Z * Z) (W : Z -> Prop) (m : machine) : Prop := mk_gdt_ready {
  gr_limit : gdtr.1 = 8 * Z.of_nat (length gdt_image) - 1;
  gr_base : 0 <= gdtr.2 < 2 ^ 63;
  gr_at : exists g, vstable m W gdtr.2 g 64 /\ (forall a, span g 64 a -> ~ W a) /\
    forall (i : nat) v, i = 2%nat \/ i = 3%nat -> gdt_image !! i = Some v -> load 8 (ram m) (g + 8 * Z.of_nat i) = Z.setbit v 40
}.

(** a delivery that ends without a page fault *)
Lemma wp_take_interrupt gdtr sym v err code c m (Q : context -> machine -> Prop) E :
  wp (deliver gdtr sym v err c) Q nostop m -> wp (take_interrupt gdtr sym v err code c) Q E m.
Proof. unfold wp, take_interrupt, on_page_fault. by destruct (deliver gdtr sym v err c m). Qed.

Section Frame.
Context {QT : Quiet} (K : ktables) (m0 : machine) (top : Z).
Context (Hlo : FRAME <= top) (Hhi : top <= KWIN) (Hal : top mod 16 = 0).
Definition frame : Z -> Prop := span (top - FRAME) FRAME.
Context (Hsep : forall a, frame a -> ~ ktab K a).
Context (gdtr : Z * Z) (Hgdt : gdt_ready gdtr frame m0).
Implicit Types m : machine.

(** [l] is on the stack and nothing else of the memory has changed since [m0] *)
Record stacked (l : list Z) (c : context) m : Prop := mk_stacked {
  sk_k : kspace K m;
  sk_step : wstep frame (set_hw (hw m) m0) m;
  sk_sp : gpr c RSP = KERNEL_BASE + (top - 8 * Z.of_nat (length l));
  sk_words : words (ram m) (top - 8 * Z.of_nat (length l)) l
}.

Lemma wstep_set_hw W h m m' : wstep W m m' -> wstep W (set_hw h m) (set_hw h m').
Proof. intros []. by split. Qed.

Lemma stacked_hw h l c m : stacked l c m -> stacked l c (set_hw h m).
Proof.
  intros [Hk Hs Hp Hw]. split; [by apply kspace_set_hw| |done|done]. cbn [hw set_hw].
  change (set_hw h m0) with (set_hw h (set_hw (hw m) m0)). by apply wstep_set_hw.
Qed.

Lemma stacked_regs l c c' m : gpr c' RSP = gpr c RSP -> stacked l c m -> stacked l c' m.
Proof. intros He [Hk Hs Hp Hw]. split; [done|done|congruence|done]. Qed.

Lemma stacked_warm l c m m' : stacked l c m -> warm m m' -> stacked l c m'.
Proof.
  intros [Hk Hs Hp Hw] Hm. split; [by eapply kspace_warm| |done|by rewrite (warm_ram _ _ Hm)].
  rewrite (warm_hw _ _ Hm). etrans; [exact Hs|]. by apply warm_wstep.
Qed.

(** the descriptors 0x10 and 0x18 can be read whatever is on the stack *)
Lemma wp_load_descriptor fit sel (i : nat) v l c m (Q : unit -> machine -> Prop) E :
  stacked l c m -> sel = 8 * Z.of_nat i -> i = 2%nat \/ i = 3%nat -> gdt_image !! i = Some v ->
  fit (decode (Z.setbit v 40)) = true -> Z.testbit (Z.setbit v 40) 40 = true ->
  (forall m', stacked l c m' -> hw m' = hw m -> Q tt m') ->
  wp (load_descriptor gdtr fit sel) Q E m.
Proof.
  intros Hst -> Hi Hv Hfit Hacc HQ. destruct Hgdt as [Hl Hb (g & Hg & Hd & Hval)]. unfold load_descriptor.
  assert (8 * Z.of_nat i / 8 = Z.of_nat i) as -> by dlia.
  assert ((0 <? Z.of_nat i) && negb (Z.testbit (8 * Z.of_nat i) 2) && (8 * Z.of_nat i + 7 <=? gdtr.1) = true) as ->.
  { rewrite Hl. by destruct Hi as [-> | ->]. }
  change (2 ^ 63) with 9223372036854775808 in Hb. rewrite u64_small by (destruct Hi as [-> | ->]; lia).
  assert (Hg' : vstable m frame gdtr.2 g 64).
  { eapply vstable_wstep; [apply (sk_step _ _ _ Hst)|]. exact Hg. }
  apply wp_bind. eapply (wp_vload 8); [eapply vmap_sub; [apply Hg'|lia|destruct Hi as [-> | ->]; cbn; lia]|].
  intros m' Hm. rewrite (load_agree 8 (ram m0)), (Hval i v Hi Hv), Hfit, Hacc.
  - apply wp_ret, HQ; [by eapply stacked_warm|apply Hm].
  - eapply agree_weaken; [apply (ws_ram _ _ _ (sk_step _ _ _ Hst))|]. intros a Ha. apply Hd. unfold span in *.
    destruct Hi as [-> | ->]; lia.
Qed.

Lemma wp_push v l c m (Q : context -> machine -> Prop) E :
  stacked l c m -> 0 <= v < 2 ^ 64 -> (length l < 23)%nat ->
  (forall c' m', keeps (eq RSP) c c' -> stacked (v :: l) c' m' -> hw m' = hw m -> Q c' m') ->
  wp (push v c) Q E m.
Proof.
  intros [Hk Hs Hp Hw] Hv Hl HQ. unfold push. rewrite Hp. remember (Z.of_nat (length l)) as n eqn:Hn.
  unfold frame, FRAME, KWIN in *. replace (u64 (KERNEL_BASE + (top - 8 * n) - 8)) with (KERNEL_BASE + (top - 8 * n - 8))
    by (zconst; rewrite u64_small; lia).
  apply wp_bind, (wp_kstore K); unfold KWIN; [done|lia|lia| |].
  { intros a Ha. apply Hsep. unfold span in *. lia. }
  intros m' Hs' Hk' Hr. apply wp_ret.
  replace (top - 8 * n - 8) with (top - 8 * Z.of_nat (length (v :: l))) in * by (cbn [length]; lia).
  apply HQ; [by apply keeps_set_reg| |apply Hs']. split.
  - done.
  - rewrite (ws_hw _ _ _ Hs'). etrans; [exact Hs|]. eapply wstep_weaken; [exact Hs'|]. unfold frame, FRAME, span. cbn [length]. lia.
  - cbn. apply fn_lookup_insert.
  - rewrite Hr. replace (top - 8 * Z.of_nat (length (v :: l))) with (top - 8 * n - 8) by (cbn [length]; lia).
    by apply words_store.
Qed.

Lemma wp_push_regs v l c m (Q : context -> machine -> Prop) E :
  stacked l c m -> regs_ok c -> 0 <= v < 2 ^ 64 -> (length l < 23)%nat ->
  (forall c' m', keeps (eq RSP) c c' -> regs_ok c' -> stacked (v :: l) c' m' -> hw m' = hw m -> Q c' m') ->
  wp (push v c) Q E m.
Proof.
  intros Hst Hok Hv Hl HQ. apply (wp_push v l); [done..|]. intros c' m' Hc' Hst' Hh'. apply HQ; [done| |done..].
  intros x. destruct (decide (RSP = x)) as [<-|]; [|by rewrite (kp_gpr _ _ _ Hc')].
  rewrite (sk_sp _ _ _ Hst'). cbn [length]. unfold FRAME, KWIN in *. zconst. lia.
Qed.

Lemma wp_pop v l c m (Q : Z * context -> machine -> Prop) E :
  stacked (v :: l) c m -> (length l < 23)%nat ->
  (forall c' m', keeps (eq RSP) c c' -> stacked l c' m' -> hw m' = hw m -> Q (v, c') m') ->
  wp (pop c) Q E m.
Proof.
  intros [Hk Hs Hp [Hv Hw]] Hl HQ. unfold pop. rewrite Hp in *. cbn [length] in *. unfold frame, FRAME, KWIN in *.
  apply wp_bind, (wp_kload K); unfold KWIN; [done|lia|lia|]. intros m' Hm' Hk'. apply wp_ret. rewrite Hv.
  apply HQ; [by apply keeps_set_reg| |apply Hm']. split.
  - done.
  - rewrite (warm_hw _ _ Hm'). etrans; [exact Hs|]. by apply warm_wstep.
  - cbn. rewrite fn_lookup_insert. zconst. rewrite u64_small; lia.
  - rewrite (warm_ram _ _ Hm'). by replace (top - 8 * Z.of_nat (length l)) with (top - 8 * Z.of_nat (S (length l)) + 8) by lia.
Qed.

Context (A : abi) (HA : abi_ok A).

Lemma wp_pushes rs l c m rest Q E :
  RSP ∉ rs -> regs_ok c -> stacked l c m -> (length rs + length l <= 23)%nat ->
  (forall c' m', keeps (eq RSP) c c' -> stacked (rev (map (gpr c) rs) ++ l) c' m' -> hw m' = hw m ->
     wp (exec A gdtr rest c') Q E m') ->
  wp (exec A gdtr (map Push rs ++ rest) c) Q E m.
Proof.
  revert l c m. induction rs as [|r rs IH]; intros l c m Hr Hok Hst Hl HQ; cbn [map app exec length rev] in *.
  - by apply HQ.
  - apply not_elem_of_cons in Hr as [Hr0 Hr]. apply wp_bind, (wp_push_regs (gpr c r) l); [done|done|apply Hok|lia|].
    intros c1 m1 Hc1 Hok1 Hst1 Hh1.
    apply (IH (gpr c r :: l)); [done|done|done|cbn [length]; lia|]. intros c2 m2 Hc2 Hst2 Hh2. apply HQ; [by etrans| |congruence].
    rewrite <- app_assoc. cbn [app].
    assert (map (gpr c1) rs = map (gpr c) rs) as <-; [|done]. apply map_ext_in. intros x Hx%list_elem_of_In.
    apply Hc1. by intros <-.
Qed.

Lemma wp_pops rs vs l c m rest Q E :
  RSP ∉ rs -> NoDup rs -> length rs = length vs -> stacked (vs ++ l) c m -> (length rs + length l <= 23)%nat ->
  (forall c' m', keeps (fun r => r = RSP \/ r ∈ rs) c c' -> Forall2 (fun r v => gpr c' r = v) rs vs ->
     stacked l c' m' -> hw m' = hw m -> wp (exec A gdtr rest c') Q E m') ->
  wp (exec A gdtr (map Pop rs ++ rest) c) Q E m.
Proof.
  revert vs l c m. induction rs as [|r rs IH]; intros [|v vs] l c m Hr Hnd Hlen Hst Hl HQ; try discriminate Hlen; cbn [map app exec length] in *.
  - apply HQ; [done|constructor|done|done].
  - apply not_elem_of_cons in Hr as [Hr0 Hr]. apply NoDup_cons in Hnd as [Hni Hnd].
    apply wp_bind, (wp_pop v (vs ++ l)); [done|rewrite length_app; lia|]. intros c1 m1 Hc1 Hst1 Hh1. cbn [fst snd].
    apply (IH vs l); [done|done|lia| |lia|].
    { eapply stacked_regs; [|exact Hst1]. cbn. by apply fn_lookup_insert_ne. }
    intros c2 m2 Hc2 Hf Hst2 Hh2. apply HQ; [| |done|congruence].
    + etrans; [eapply keeps_weaken; [exact Hc1|by left]|]. etrans; [apply (keeps_set_reg _ r v); right; by left|].
      eapply keeps_weaken; [exact Hc2|]. intros x [->|Hx]; [by left|right; by right].
    + constructor; [|done]. rewrite (kp_gpr _ _ _ Hc2) by (intros [->|?]; done). cbn. apply fn_lookup_insert.
Qed.

(** the C function sees its argument, on an aligned stack, and the registers it has to
    preserve are preserved *)
Lemma wp_call f l c m (Q : context -> machine -> Prop) E :
  stacked l c m -> (length l < 23)%nat -> (length l mod 2 = 0)%nat ->
  (forall m', stacked (return_address A f :: l) (set_reg RSP (gpr c RSP - 8) c) m' -> hw m' = hw m ->
     wp (c_body f (gpr c RDI))
       (fun _ m2 => stacked (return_address A f :: l) (set_reg RSP (gpr c RSP - 8) c) m2 /\
          forall c' m', keeps (fun r => r ∉ callee_saved \/ r = RSP) c c' -> stacked l c' m' -> hw m' = hw m2 -> Q c' m') E m') ->
  wp (call A f c) Q E m.
Proof.
  intros Hst Hl Heven HQ. unfold call. pose proof (sk_sp _ _ _ Hst) as Hsp.
  assert (Ha : (gpr c RSP mod 16 =? 0) = true).
  { apply Z.eqb_eq. rewrite Hsp. apply (f_equal Z.of_nat) in Heven. rewrite Nat2Z.inj_mod in Heven. zconst. dlia. }
  rewrite Ha. apply wp_bind, (wp_push (return_address A f) l); [done|apply HA|done|]. intros c1 m1 Hc1 Hst1 Hh1.
  assert (E1 : gpr c1 RSP = gpr c RSP - 8) by (rewrite (sk_sp _ _ _ Hst1), Hsp; cbn [length]; lia).
  apply wp_bind. rewrite (kp_gpr _ _ _ Hc1) by done. eapply wp_mono; [apply HQ; [|done]| |done].
  { eapply stacked_regs; [|exact Hst1]. cbn. by rewrite fn_lookup_insert, E1. }
  intros [] m2 [Hst2 HQ2]. apply wp_bind, wp_gets.
  assert (Hg : forall r, r ∈ callee_saved -> after_call A f m2 (gpr c1) r = gpr c1 r) by (intros; by apply HA).
  apply wp_bind, (wp_pop (return_address A f) l); [|done|].
  { eapply stacked_regs; [|exact Hst2]. cbn. rewrite fn_lookup_insert, Hg; [done|]. unfold callee_saved. set_solver. }
  intros c3 m3 Hc3 Hst3 Hh3. cbn [fst snd]. rewrite Z.eqb_refl. apply wp_ret, HQ2; [|done|done].
  split; rewrite ?(kp_rip _ _ _ Hc3), ?(kp_cs _ _ _ Hc3), ?(kp_rflags _ _ _ Hc3), ?(kp_ss _ _ _ Hc3); [|apply Hc1..].
  intros r Hr. rewrite (kp_gpr _ _ _ Hc3) by (intros <-; tauto). cbn [gpr].
  destruct (decide (r ∈ callee_saved)) as [Hin|]; [|tauto]. rewrite Hg by done. apply Hc1. intros <-. tauto.
Qed.

(** ** The common part of the stubs *)

Definition saved : list reg := [RAX; RBX; RCX; RDX; RSI; RDI; RBP; R8; R9; R10; R11; R12; R13; R14; R15].

Definition common (f : c_symbol) : list instr :=
  map Push saved ++ MovSp RDI 120 :: Call f :: map Pop (rev saved) ++ [AddSp 16; Iretq].

Lemma words_lookup r a l i v : words r a l -> l !! i = Some v -> load 8 r (a + 8 * Z.of_nat i) = v.
Proof.
  revert a i. induction l as [|w l IH]; intros a i Hw Hl; [done|]. destruct Hw as [H1 H2], i as [|i]; cbn [lookup list_lookup] in Hl.
  - injection Hl as <-. by replace (a + 8 * Z.of_nat 0) with a by lia.
  - rewrite <- (IH _ _ H2 Hl). f_equal. lia.
Qed.

Lemma saved_spec r : r ∈ saved <-> r <> RSP.
Proof.
  assert (H : bool_decide (RSP ∈ saved) = false) by done. apply bool_decide_eq_false_1 in H.
  split; [by intros Hr ->|]. intros Hr. destruct r; try done; by apply (bool_decide_eq_true_1 _).
Qed.

(** the selectors of the kernel *)
Definition KERNEL_CS : Z := 0x18.
Definition KERNEL_SS : Z := 0x10.

(** the state an interrupt frame of the kernel describes *)
Record resumed (x_rip x_fl x_sp : Z) (c c' : context) : Prop := mk_resumed {
  rs_gpr r : r <> RSP -> gpr c' r = gpr c r;
  rs_sp : gpr c' RSP = x_sp;
  rs_rip : rip c' = x_rip;
  rs_cs : cs c' = KERNEL_CS;
  rs_rflags : rflags c' = x_fl;
  rs_ss : ss c' = KERNEL_SS
}.

Lemma wp_load_cs l c m (Q : unit -> machine -> Prop) E :
  stacked l c m -> (forall m', stacked l c m' -> hw m' = hw m -> Q tt m') -> wp (load_descriptor gdtr (code64 0) KERNEL_CS) Q E m.
Proof. intros Hst. by apply (wp_load_descriptor _ _ 3%nat 0x00AF9A000000FFFF l c); [|done|right|done..]. Qed.

Lemma wp_load_ss l c m (Q : unit -> machine -> Prop) E :
  stacked l c m -> (forall m', stacked l c m' -> hw m' = hw m -> Q tt m') -> wp (load_descriptor gdtr (stack_segment 0) KERNEL_SS) Q E m.
Proof. intros Hst. by apply (wp_load_descriptor _ _ 2%nat 0x00CF92000000FFFF l c); [|done|left|done..]. Qed.

Lemma wp_iretq c0 x_rip x_fl x_sp c m (Q : context -> machine -> Prop) E :
  stacked [x_rip; KERNEL_CS; x_fl; x_sp; KERNEL_SS] c m -> (forall r, r <> RSP -> gpr c r = gpr c0 r) ->
  (forall c' m', resumed x_rip x_fl x_sp c0 c' -> wstep frame (set_hw (hw m') m0) m' -> kspace K m' ->
     hw m' = set_iflag (Z.testbit x_fl 9) (hw m) -> Q c' m') ->
  wp (iretq gdtr c) Q E m.
Proof.
  intros Hst Hg HQ. unfold iretq.
  apply wp_bind, (wp_pop x_rip [KERNEL_CS; x_fl; x_sp; KERNEL_SS]); [done|cbn; lia|]. intros c1 m1 _ Hst1 Hh1.
  apply wp_bind, (wp_pop KERNEL_CS [x_fl; x_sp; KERNEL_SS]); [done|cbn; lia|]. intros c2 m2 _ Hst2 Hh2.
  apply wp_bind, (wp_pop x_fl [x_sp; KERNEL_SS]); [done|cbn; lia|]. intros c3 m3 _ Hst3 Hh3.
  apply wp_bind, (wp_pop x_sp [KERNEL_SS]); [done|cbn; lia|]. intros c4 m4 _ Hst4 Hh4.
  apply wp_bind, (wp_pop KERNEL_SS []); [done|cbn; lia|]. intros c5 m5 _ Hst5 Hh5. cbn [fst snd].
  change (Z.land KERNEL_CS 3) with 0. change ((KERNEL_SS / 4 =? 0) && negb (0 =? 3)) with false. cbv zeta iota.
  apply wp_bind, (wp_load_cs [] c5); [done|]. intros m6 Hst6 Hh6.
  apply wp_bind, (wp_load_ss [] c5); [done|]. intros m7 Hst7 Hh7.
  apply wp_bind, wp_sethw. apply wp_ret.
  pose proof (stacked_hw (set_iflag (Z.testbit x_fl 9) (hw m7)) _ _ _ Hst7) as Hst8. apply HQ; [|apply Hst8..|].
  - split; cbn [gpr rip cs rflags ss]; [|apply fn_lookup_insert|done..]. intros r Hr. rewrite fn_lookup_insert_ne by congruence. auto.
  - cbn [hw set_hw]. congruence.
Qed.

Lemma stacked_drop2 v1 v2 l c m : stacked (v1 :: v2 :: l) c m -> (length l < 22)%nat ->
  stacked l (set_reg RSP (u64 (gpr c RSP + 16)) c) m.
Proof.
  intros [Hk Hs Hp (_ & _ & Hw)] Hl. cbn [length] in *. split; [done|done| |].
  - cbn. rewrite fn_lookup_insert, Hp. unfold FRAME, KWIN in *. zconst. rewrite u64_small; lia.
  - by replace (top - 8 * Z.of_nat (length l)) with (top - 8 * Z.of_nat (S (S (length l))) + 8 + 8) by lia.
Qed.

(** the stub saves every register, hands the vector to the C function, and restores what
    it was called in *)
Lemma wp_common f vec err x_rip x_fl x_sp c m (Q : context * option block -> machine -> Prop) E :
  regs_ok c -> stacked [vec; err; x_rip; KERNEL_CS; x_fl; x_sp; KERNEL_SS] c m ->
  (forall l c1 m1, stacked l c1 m1 -> hw m1 = hw m ->
     wp (c_body f vec) (fun _ m2 => stacked l c1 m2 /\
       forall c' m', resumed x_rip x_fl x_sp c c' -> wstep frame (set_hw (hw m') m0) m' -> kspace K m' ->
         hw m' = set_iflag (Z.testbit x_fl 9) (hw m2) -> Q (c', None) m') E m1) ->
  wp (exec A gdtr (common f) c) Q E m.
Proof.
  intros Hok Hst HQ. unfold common. apply (wp_pushes saved [vec; err; x_rip; KERNEL_CS; x_fl; x_sp; KERNEL_SS]); [|done|done|cbn; lia|].
  { rewrite saved_spec. tauto. }
  intros c1 m1 Hc1 Hst1 Hh1. cbn [exec].
  pose proof (sk_sp _ _ _ Hst1) as Hsp1. set (l := rev (map (gpr c) saved) ++ _) in *.
  assert (Hlen : length l = 22%nat) by done. rewrite Hlen in Hsp1. unfold FRAME, KWIN in *.
  apply wp_bind. replace (u64 (gpr c1 RSP + 120)) with (KERNEL_BASE + (top - 56))
    by (rewrite Hsp1; zconst; rewrite u64_small; lia).
  apply (wp_kload K); unfold KWIN; [apply Hst1|lia|lia|]. intros m2 Hm2 Hk2.
  assert (Hv : load 8 (ram m1) (top - 56) = vec).
  { rewrite <- (words_lookup _ _ l 15 vec (sk_words _ _ _ Hst1) eq_refl). f_equal. rewrite Hlen. lia. }
  rewrite Hv. set (c2 := set_reg RDI vec c1).
  assert (Hst2 : stacked l c2 m2).
  { eapply stacked_regs; [|by eapply stacked_warm]. cbn. by apply fn_lookup_insert_ne. }
  apply wp_bind, (wp_call f l); [done|lia|by rewrite Hlen|]. intros m3 Hst3 Hh3.
  assert (gpr c2 RDI = vec) as -> by apply fn_lookup_insert.
  eapply wp_mono; [apply (HQ _ _ _ Hst3); by rewrite Hh3, (warm_hw _ _ Hm2)| |done].
  intros [] m4 [Hst4 HQ4]. split; [exact Hst4|]. intros c5 m5 Hc5 Hst5 Hh5.
  apply (wp_pops (rev saved) (rev (map (gpr c) saved)) [vec; err; x_rip; KERNEL_CS; x_fl; x_sp; KERNEL_SS]).
  { rewrite list_elem_of_In, <- in_rev, <- list_elem_of_In, saved_spec. tauto. }
  { by apply (bool_decide_eq_true_1 _). }
  { by rewrite !length_rev, length_map. }
  { exact Hst5. }
  { cbn. lia. }
  intros c6 m6 Hc6 Hf6 Hst6 Hh6. cbn [exec]. apply wp_bind.
  apply stacked_drop2 in Hst6; [|cbn; lia]. apply (wp_iretq c x_rip x_fl x_sp); [done| |].
  { intros r Hr. cbn. rewrite fn_lookup_insert_ne by congruence. rewrite <- map_rev in Hf6.
    rewrite Forall2_fmap_r, Forall2_same_length_lookup in Hf6. destruct Hf6 as [_ Hf6].
    apply saved_spec in Hr. rewrite list_elem_of_In, in_rev, <- list_elem_of_In in Hr. apply list_elem_of_lookup in Hr as [i Hi]. by apply (Hf6 i). }
  intros c' m' Hc' Hs' Hk' Hh'. apply wp_ret, HQ4; [done..|congruence].
Qed.

(** ** Taking an interrupt in the kernel *)

Lemma land_minus16 x : Z.land x (-16) = x / 16 * 16.
Proof.
  change (-16) with (Z.lnot (Z.ones 4)). rewrite <- Z.ldiff_land, Z.ldiff_ones_r, Z.shiftl_mul_pow2, Z.shiftr_div_pow2 by lia.
  reflexivity.
Qed.

Context (c0 : context) (Hc0 : context_ok c0) (Hcs : cs c0 = KERNEL_CS) (Hss : ss c0 = KERNEL_SS).
Context (sym : symbols) (Hsym : linked sym).
Context (s : Z) (Hsp : gpr c0 RSP = KERNEL_BASE + s) (Hs : s / 16 * 16 = top) (Hk0 : kspace K m0).

(** what the processor saves of the interrupted code *)
Definition saved_context : list Z := [rip c0; KERNEL_CS; rflags c0; gpr c0 RSP; ss c0].

(** the processor reads the gate of a vector in the kernel's window *)
Lemma wp_read_gate v m (Q : list Z -> machine -> Prop) E :
  kspace K m -> 0 <= v < IDT_ENTRIES -> (forall l m', warm m m' -> Q l m') ->
  wp (translate_range 16 (u64 (idt_addr sym + 16 * v))) Q E m.
Proof.
  intros Hk Hv HQ. destruct (lk_idt _ Hsym) as [H1 H2]. unfold IDT_ENTRIES, KWIN in *. zconst.
  set (q := idt_addr sym - 0xFFFFFFFF80000000). rewrite u64_small by lia.
  replace (idt_addr sym + 16 * v) with (KERNEL_BASE + (q + 16 * v)) by (unfold q; zconst; lia).
  apply (wp_translate_range 16 m _ (q + 16 * v)); [apply (kspace_vmap K); [done|unfold q; lia|unfold q, KWIN; lia]|].
  intros m' Hm. by apply HQ.
Qed.

Lemma wp_deliver v err e limit (Q : context -> machine -> Prop) E :
  idtr (hw m0) = Some (limit, idt_addr sym) -> 0 <= v < IDT_ENTRIES -> 16 * v + 15 <= limit ->
  idt (glb m0) !! Z.to_nat v = Some e -> gate_live e = true -> ist e = 0 -> selector e = KERNEL_CS ->
  (forall x, err = Some x -> 0 <= x < 2 ^ 64) ->
  (forall c m, (forall r, r <> RSP -> gpr c r = gpr c0 r) -> regs_ok c -> rip c = gate_offset e ->
     stacked (option_list err ++ saved_context) c m -> hw m = set_iflag false (hw m0) -> Q c m) ->
  wp (deliver gdtr sym v err c0) Q E m0.
Proof.
  intros Hi Hv Hlim He Hlive Hist Hsel Herr HQ. unfold deliver. apply wp_bind, wp_gethw. apply wp_bind, wp_getg.
  rewrite Hi, He, Hlive, (proj2 (Z.leb_le _ _) Hlim), Z.eqb_refl. cbn [andb].
  apply wp_bind, wp_read_gate; [done|done|]. intros _ mi Hmi. rewrite Hsel.
  assert (Hal' : gpr c0 RSP / 16 * 16 = KERNEL_BASE + top) by (rewrite Hsp, <- Hs; zconst; dlia).
  assert (Hsti : stacked [] (set_reg RSP (KERNEL_BASE + top) c0) m0).
  { split; [done|by destruct m0|cbn; rewrite fn_lookup_insert; lia|done]. }
  apply wp_bind, (wp_load_cs [] (set_reg RSP (KERNEL_BASE + top) c0)); [by eapply stacked_warm|]. intros md Hst Hhd.
  rewrite (warm_hw _ _ Hmi) in Hhd. clear Hsti. unfold entry_stack. rewrite Hist, Hcs. change (0 mod 8 =? 0) with true.
  change (Z.land KERNEL_CS 3 =? 0) with true. cbv zeta iota. apply wp_bind, wp_ret. rewrite land_minus16, Hal'.
  assert (Hok : regs_ok (set_reg RSP (KERNEL_BASE + top) c0)).
  { intros r. cbn. destruct (decide (RSP = r)) as [<-|]; [rewrite fn_lookup_insert; unfold FRAME, KWIN in *; zconst; lia|].
    rewrite fn_lookup_insert_ne by done. apply Hc0. }
  apply wp_bind, (wp_push_regs (ss c0) []); [done|done|apply Hc0|cbn; lia|]. intros c1 m1 Hc1 Hok1 Hst1 Hh1.
  apply wp_bind, (wp_push_regs (gpr c0 RSP) [ss c0]); [done|done|apply Hc0|cbn; lia|]. intros c2 m2 Hc2 Hok2 Hst2 Hh2.
  apply wp_bind, (wp_push_regs (rflags c0) [gpr c0 RSP; ss c0]); [done|done|apply Hc0|cbn; lia|]. intros c3 m3 Hc3 Hok3 Hst3 Hh3.
  apply wp_bind, (wp_push_regs KERNEL_CS [rflags c0; gpr c0 RSP; ss c0]); [done|done|done|cbn; lia|]. intros c4 m4 Hc4 Hok4 Hst4 Hh4.
  apply wp_bind, (wp_push_regs (rip c0) [KERNEL_CS; rflags c0; gpr c0 RSP; ss c0]); [done|done|apply Hc0|cbn; lia|].
  intros c5 m5 Hc5 Hok5 Hst5 Hh5. apply wp_bind.
  assert (Hlast : forall c6 m6, keeps (eq RSP) c5 c6 -> regs_ok c6 -> stacked (option_list err ++ saved_context) c6 m6 -> hw m6 = hw m5 ->
    wp (sethw (set_iflag false) ;;; ret (mk_context (gpr c6) (gate_offset e) KERNEL_CS (Z.ldiff (rflags c0) 0x34300) (ss c0))) Q E m6).
  { intros c6 m6 Hc6 Hok6 Hst6 Hh6. apply wp_bind, wp_sethw. apply wp_ret, HQ; try done.
    - intros r Hr. cbn [gpr]. transitivity (gpr (set_reg RSP (KERNEL_BASE + top) c0) r); [|apply fn_lookup_insert_ne; congruence].
      assert (Hall : keeps (eq RSP) (set_reg RSP (KERNEL_BASE + top) c0) c6) by (do 5 (etrans; [eassumption|]); done).
      apply Hall. congruence.
    - eapply stacked_hw, stacked_regs; [|exact Hst6]. done.
    - cbn [hw set_hw]. congruence. }
  destruct err as [x|]; cbn [push_error option_list app].
  - apply (wp_push_regs x saved_context); [done|done|by apply Herr|cbn; lia|]. intros. by apply Hlast.
  - apply wp_ret, Hlast; done.
Qed.

(** ** From the interrupt table to the C handler *)

Definition has_error (n : Z) : bool := bool_decide (n ∈ error_vectors).
Definition handler_of (n : Z) : c_symbol := if n <? 32 then Isr_handler else Irq_handler.
Definition block_of (n : Z) : block := if n <? 32 then Isr_common else Irq_common.

Lemma stub_shape n : 0 <= n < 34 ->
  stubs !! Z.to_nat n = Some ((if has_error n then [] else [PushI 0]) ++ [PushI n; Jmp (block_of n)]) /\
  block_code (block_of n) = common (handler_of n).
Proof.
  intros Hn. split.
  - assert (H : Forall (fun n => stubs !! Z.to_nat n =
        Some ((if has_error n then [] else [PushI 0]) ++ [PushI n; Jmp (block_of n)])) (seqZ 0 34)) by repeat constructor.
    rewrite Forall_forall in H. apply H, elem_of_seqZ. lia.
  - unfold block_of, handler_of. by destruct (n <? 32).
Qed.

Lemma stub_at_vector n : 0 <= n < 34 -> stub_at sym (vector sym n) = stubs !! Z.to_nat n.
Proof.
  intros Hn. unfold stub_at.
  assert (H : list_find (fun k => vector sym k = vector sym n) (seqZ 0 34) = Some (Z.to_nat n, n)) by
   (apply list_find_Some; split_and!; [rewrite lookup_seqZ_lt by lia; f_equal; lia|done|];
    intros j y Hj Hlt E; apply lookup_seqZ in Hj as [-> Hj]; apply (lk_inj _ Hsym) in E; lia).
  by rewrite H.
Qed.

Lemma wp_interrupt n err code (Q : context -> machine -> Prop) E :
  idt_ready sym m0 -> 0 <= n < 34 ->
  (if has_error n then exists x, err = Some x /\ 0 <= x < 2 ^ 64 else err = None) ->
  (forall l c1 m1, stacked l c1 m1 -> hw m1 = set_iflag false (hw m0) ->
     wp (c_body (handler_of n) n) (fun _ m2 => stacked l c1 m2 /\
       forall c' m', resumed (rip c0) (rflags c0) (gpr c0 RSP) c0 c' ->
         wstep frame (set_hw (hw m') m0) m' -> kspace K m' ->
         hw m' = set_iflag (Z.testbit (rflags c0) 9) (hw m2) -> Q c' m') E m1) ->
  wp (interrupt A gdtr sym n err code c0) Q E m0.
Proof.
  intros [Hg Hld] Hn Herr HQ. unfold interrupt.
  apply wp_bind, wp_take_interrupt, (wp_deliver n err (gate (vector sym n)) (16 * IDT_ENTRIES - 1)); [done| | |by apply Hg|done..| |].
  { unfold IDT_ENTRIES. lia. }
  { unfold IDT_ENTRIES. lia. }
  { intros x ->. destruct (has_error n); [|done]. by destruct Herr as (? & [= ->] & ?). }
  intros c m Hc Hok Hrip Hst Hh. rewrite Hrip, gate_offset_handler, stub_at_vector by (done || by apply Hsym).
  destruct (stub_shape n Hn) as [-> Hb]. unfold run.
  assert (Hcommon : forall e c1 m1, (forall r, r <> RSP -> gpr c1 r = gpr c0 r) -> regs_ok c1 -> stacked (e :: saved_context) c1 m1 ->
    hw m1 = hw m -> wp (exec A gdtr [PushI n; Jmp (block_of n)] c1) (fun x m' =>
      wp (match x.2 with None => ret x.1 | Some b => y <- exec A gdtr (block_code b) x.1 ;; match y.2 with None => ret y.1 | Some _ => halt OutOfFuel end end) Q E m') E m1).
  { intros e c1 m1 Hc1 Hok1 Hst1 Hh1. cbn [exec]. apply wp_bind, (wp_push_regs n (e :: saved_context)); [done|done|lia|cbn; lia|].
    intros c2 m2 Hc2 Hok2 Hst2 Hh2. apply wp_ret. cbn [fst snd]. rewrite Hb. apply wp_bind.
    apply (wp_common _ n e (rip c0) (rflags c0) (gpr c0 RSP)); [done|by rewrite <- Hss|]. intros l c3 m3 Hst3 Hh3.
    eapply wp_mono; [apply (HQ l c3 m3 Hst3); congruence| |done]. intros [] m4 [Hst4 HQ4]. split; [done|].
    intros c' m' [Hr1 Hr2 Hr3 Hr4 Hr5 Hr6]. intros. cbn [snd]. apply wp_ret, HQ4; try done. split; try done.
    intros r Hr. rewrite Hr1 by done. rewrite (kp_gpr _ _ _ Hc2) by congruence. by apply Hc1. }
  apply wp_bind. destruct (has_error n); cbn [app].
  - destruct Herr as (x & -> & Hx). by apply (Hcommon x).
  - subst err. cbn [exec]. apply wp_bind, (wp_push_regs 0 saved_context); [done|done|lia|cbn; lia|].
    intros c1 m1 Hc1 Hok1 Hst1 Hh1. apply (Hcommon 0); [|done..]. intros r Hr. rewrite (kp_gpr _ _ _ Hc1) by congruence. by apply Hc.
Qed.
End Frame.
