(* ===== verification/PagingInit.v ===== *)
(** [paging_init] (kernel.c): from the bootloader's tables to the kernel's own.
    The new tables map exactly the 2 MiB kernel window and nothing else. *)

From S2P Require Import Prelude Comp Ram Machine KSpace Utils Vmm Kernel.

(** zero bytes *)
Definition zeroed (r : ram_t) (a n : Z) : Prop := forall b, span a n b -> rd r b = 0.

Lemma zeroed_load8 r a n b : zeroed r a n -> a <= b -> b + 8 <= a + n -> load 8 r b = 0.
Proof.
  intros H ??. assert (forall k c, b <= c -> c + Z.of_nat k <= b + 8 -> load k r c = 0) as Hk.
  { induction k as [|k IH]; intros c ??; cbn [load]; [done|]. rewrite (H c), IH by (unfold span; lia). done. }
  apply (Hk 8%nat); lia.
Qed.

(** the tables [paging_init] builds at [p] *)
Definition new_tables (p : Z) : ktables := mk_ktables p (p + 0x1000) (p + 0x2000) (p + 0x3000).

Record tables_built (r : ram_t) (p : Z) : Prop := mk_tables_built {
  tb_4 : forall i, 0 <= i < 512 -> load 8 r (p + 8 * i) = if i =? 511 then Z.lor (p + 0x1000) 3 else 0;
  tb_3 : forall i, 0 <= i < 512 -> load 8 r (p + 0x1000 + 8 * i) = if i =? 510 then Z.lor (p + 0x2000) 3 else 0;
  tb_2 : forall i, 0 <= i < 512 -> load 8 r (p + 0x2000 + 8 * i) = if i =? 0 then Z.lor (p + 0x3000) 3 else 0;
  tb_1 : forall i, 0 <= i < 512 -> load 8 r (p + 0x3000 + 8 * i) = Z.lor (i * 4096) 3
}.

Lemma entry_facts a : 0 <= a < 2 ^ 52 -> a mod 4096 = 0 ->
  present (Z.lor a 3) = true /\ huge (Z.lor a 3) = false /\ pte_addr (Z.lor a 3) = a /\ 0 <= Z.lor a 3 < 2 ^ 64.
Proof.
  intros Ha Hm. split_and!.
  - by rewrite present_lor.
  - by rewrite huge_lor.
  - by apply pte_addr_lor.
  - by apply lor_range.
  - by apply lor_range.
Qed.

(** what the new tables translate *)
Definition window_walk (vpn : Z) : option Z :=
  if ((vpn / 2 ^ 27) mod 512 =? 511) && ((vpn / 2 ^ 18) mod 512 =? 510) && ((vpn / 2 ^ 9) mod 512 =? 0)
  then Some (4096 * (vpn mod 512)) else None.

Lemma tables_walk r p vpn :
  tables_built r p -> 0 <= p < 2 ^ 51 -> p mod 4096 = 0 -> walk r p vpn = window_walk vpn.
Proof.
  intros [H4 H3 H2 H1] Hp Hm. unfold walk, window_walk.
  destruct (entry_facts p) as (_&_&Hpp&_); [lia|done|].
  destruct (entry_facts (p + 0x1000)) as (P3&_&A3&_); [lia|dlia|].
  destruct (entry_facts (p + 0x2000)) as (P2&U2&A2&_); [lia|dlia|].
  destruct (entry_facts (p + 0x3000)) as (P1&U1&A1&_); [lia|dlia|].
  assert (Hroot : pte_addr p = p).
  { rewrite <- (Z.lor_0_r p) at 1. apply pte_addr_lor; [lia|done|lia]. }
  assert (Hb : forall x, 0 <= x mod 512 < 512) by (intros; apply Z.mod_pos_bound; lia).
  rewrite Hroot, H4 by apply Hb. destruct (_ =? 511); cbn [andb]; [|done].
  rewrite P3, A3, H3 by apply Hb. cbn [negb]. destruct (_ =? 510); cbn [andb]; [|done].
  rewrite P2, U2, A2, H2 by apply Hb. cbn [negb]. destruct (_ =? 0); cbn [andb]; [|done].
  rewrite P1, U1, A1, H1 by apply Hb. cbn [negb].
  specialize (Hb vpn).
  destruct (entry_facts ((vpn mod 512) * 4096)) as (P0&_&A0&_); [lia|apply Z_mod_mult|].
  rewrite P0, A0. cbn [negb]. f_equal. lia.
Qed.

Lemma tables_kspace r h g p :
  tables_built r p -> 0 <= p < 2 ^ 51 -> p mod 4096 = 0 -> kspace (new_tables p) (mk_machine r ∅ p h g).
Proof.
  intros [H4 H3 H2 H1] Hp Hm.
  destruct (entry_facts (p + 0x1000)) as (P3&_&A3&_); [lia|dlia|].
  destruct (entry_facts (p + 0x2000)) as (P2&U2&A2&_); [lia|dlia|].
  destruct (entry_facts (p + 0x3000)) as (P1&U1&A1&_); [lia|dlia|].
  assert (Hl : forall i, 0 <= i < 512 -> present (Z.lor (i * 4096) 3) = true /\ pte_addr (Z.lor (i * 4096) 3) = i * 4096).
  { intros i Hi. destruct (entry_facts (i * 4096)) as (P0&_&A0&_); [lia|apply Z_mod_mult|done]. }
  specialize (H4 511 ltac:(lia)). specialize (H3 510 ltac:(lia)). specialize (H2 0 ltac:(lia)).
  rewrite Z.mul_0_r, Z.add_0_r in H2. cbn [Z.eqb Pos.eqb] in *.
  change (8 * 511) with 4088 in H4. change (8 * 510) with 4080 in H3.
  split; cbn [kt4 kt3 kt2 kt1 new_tables cr3 ram tlb]; rewrite ?H4, ?H3, ?H2; try done.
  - rewrite <- (Z.lor_0_r p) at 1. apply pte_addr_lor; [lia|done|lia].
  - intros i Hi. rewrite H1 by lia. by apply Hl; lia.
  - intros i Hi. rewrite H1 by lia. destruct (Hl i) as [_ ->]; lia.
Qed.

Section PagingInit.
Context (K : ktables) (p : Z).
Implicit Types m : machine.
Hypothesis Hp0 : 0 <= p.
Hypothesis Hp1 : p + 0x4000 < KWIN.
Hypothesis Hpm : p mod 4096 = 0.
Hypothesis Hsep : forall a, span p 0x4000 a -> ~ ktab K a.

Local Abbreviation W := (span p 0x4000).

(** the four new pages, zero *)
Lemma wp_clear_table m k (Q : Z -> machine -> Prop) E :
  kspace K m -> 0 <= k < 4 ->
  (forall m', wstep W m m' -> kspace K m' -> zeroed (ram m') (p + 4096 * k) 4096 ->
     (forall a n, zeroed (ram m) a n -> a + n <= p + 4096 * k -> zeroed (ram m') a n) ->
     Q (KERNEL_BASE + (p + 4096 * k)) m') ->
  wp (memset (KERNEL_BASE + (p + 4096 * k)) 0 PAGE_SIZE) Q E m.
Proof.
  intros Hk Hi HQ. unfold PAGE_SIZE. apply (wp_memset m _ (p + 4096 * k)); [lia| |].
  - apply (kspace_vstable K); [done|lia|lia|]. intros a Ha Hs. apply (Hsep a); [unfold span in *; lia|done].
  - intros m' Hs Hf.
    assert (Hs' : wstep W m m') by (eapply wstep_weaken; [exact Hs|unfold span; lia]).
    apply HQ; [done| | |].
    + eapply kspace_wstep; [done|exact Hs'|]. intros a Ha Hw. by apply (Hsep a).
    + intros b Hb. rewrite (Hf b), decide_True by done. done.
    + intros a n Hz Hle b Hb. rewrite (Hf b), decide_False by (unfold span in *; lia). by apply Hz.
Qed.

(** a store of one entry into a zeroed or partly built table *)
Lemma wp_entry m a v (Q : unit -> machine -> Prop) E :
  kspace K m -> p <= a -> a + 8 <= p + 0x4000 -> 0 <= v < 2 ^ 64 ->
  (forall m', wstep W m m' -> kspace K m' -> ram m' = store 8 a v (ram m) -> Q tt m') ->
  wp (vstore 8 (KERNEL_BASE + a) v) Q E m.
Proof.
  intros Hk H1 H2 Hv HQ. apply (wp_kstore K 8); [done|lia|lia| |].
  - intros b Hb. apply Hsep. unfold span in *. lia.
  - intros m' Hs Hk' Hr. apply HQ; [|done|done]. eapply wstep_weaken; [exact Hs|unfold span; lia].
Qed.

Lemma slot_addr a i : 0 <= a -> a + 4096 <= KWIN -> 0 <= i < 512 ->
  slot (KERNEL_BASE + a) i = KERNEL_BASE + (a + 8 * i).
Proof. intros. unfold slot, KWIN in *. zconst. rewrite u64_small; lia. Qed.

(** the identity entries of the last table *)
Lemma wp_fill_window m (Q : unit -> machine -> Prop) E :
  kspace K m ->
  (forall m', wstep W m m' -> kspace K m' -> agree (fun a => a < p + 0x3000) (ram m) (ram m') ->
     (forall i, 0 <= i < 512 -> load 8 (ram m') (p + 0x3000 + 8 * i) = Z.lor (i * 4096) 3) -> Q tt m') ->
  wp (for_range 512 0 (fun i => vstore 8 (slot (KERNEL_BASE + (p + 0x3000)) i) (Z.lor (i * PAGE_SIZE) 0x03))) Q E m.
Proof.
  intros Hk HQ. eapply wp_mono;
    [apply (wp_for_range (fun i m' => wstep W m m' /\ kspace K m' /\ agree (fun a => a < p + 0x3000) (ram m) (ram m') /\
       forall j, 0 <= j < i -> load 8 (ram m') (p + 0x3000 + 8 * j) = Z.lor (j * 4096) 3) 512 0)| |by intros ? ? H; exact H].
  - split_and!; [done|done|done|lia].
  - intros i m1 Hi (Hs1 & Hk1 & Ha1 & Hl1). rewrite slot_addr by lia. unfold PAGE_SIZE.
    destruct (entry_facts (i * 4096)) as (_&_&_&Hv); [lia|apply Z_mod_mult|].
    apply wp_entry; [done|lia|lia|exact Hv|]. intros m2 Hs2 Hk2 Hr2. split_and!; [by etrans|done| |].
    + etrans; [exact Ha1|]. rewrite Hr2. apply agree_store. intros b Hb. unfold span in Hb. lia.
    + intros j Hj. rewrite Hr2. destruct (Z.eq_dec j i) as [->|].
      * by rewrite load8_store8.
      * rewrite load_store_ne by (cbn; lia). apply Hl1. lia.
  - intros [] m' (Hs & Hk' & Ha & Hl). by apply HQ.
Qed.

Lemma wp_pool_page m x (Q : Z -> machine -> Prop) E :
  next_free (glb m) = KERNEL_BASE + x -> 0x20000 <= x -> x + 0x1000 < KWIN ->
  Q (KERNEL_BASE + x) (set_glb (set_next_free (KERNEL_BASE + (x + 0x1000)) (glb m)) m) ->
  wp alloc_page Q E m.
Proof.
  intros Hn H1 H2 HQ. unfold KWIN in *.
  apply wp_alloc_page; rewrite Hn; unfold POOL_START, POOL_END, PAGE_SIZE; [zconst; lia| |zconst; intros; exfalso; lia].
  intros _. by rewrite <- Z.add_assoc in *.
Qed.

(** the stores that link the cleared tables, and the switch of [cr3] *)
Lemma wp_link_tables m (Q : unit -> machine -> Prop) E :
  kspace K m -> zeroed (ram m) p 0x4000 ->
  (forall m', cr3 m' = p -> tlb m' = ∅ -> hw m' = hw m -> glb m' = glb m ->
     agree (fun a => ~ W a) (ram m) (ram m') -> tables_built (ram m') p -> Q tt m') ->
  wp (vstore 8 (slot (KERNEL_BASE + p) 511) (Z.lor (p + 0x1000) 0x03) ;;;
      vstore 8 (slot (KERNEL_BASE + (p + 0x1000)) 510) (Z.lor (p + 0x2000) 0x03) ;;;
      vstore 8 (slot (KERNEL_BASE + (p + 0x2000)) 0) (Z.lor (p + 0x3000) 0x03) ;;;
      for_range 512 0 (fun i => vstore 8 (slot (KERNEL_BASE + (p + 0x3000)) i) (Z.lor (i * PAGE_SIZE) 0x03)) ;;;
      write_cr3 p) Q E m.
Proof.
  intros Hk Hz HQ. unfold KWIN in *.
  destruct (entry_facts (p + 0x1000)) as (_&_&_&V3); [lia|dlia|].
  destruct (entry_facts (p + 0x2000)) as (_&_&_&V2); [lia|dlia|].
  destruct (entry_facts (p + 0x3000)) as (_&_&_&V1); [lia|dlia|].
  rewrite (slot_addr p), (slot_addr (p + 0x1000)), (slot_addr (p + 0x2000)) by (unfold KWIN; lia).
  apply wp_bind, wp_entry; [done|lia|lia|exact V3|]. intros m1 Hs1 Hk1 Hr1.
  apply wp_bind, wp_entry; [done|lia|lia|exact V2|]. intros m2 Hs2 Hk2 Hr2.
  apply wp_bind, wp_entry; [done|lia|lia|exact V1|]. intros m3 Hs3 Hk3 Hr3.
  apply wp_bind, wp_fill_window; [done|]. intros m4 Hs4 Hk4 Ha4 Hl4. unfold write_cr3. apply wp_modify.
  assert (Hs : wstep W m m4) by (etrans; [exact Hs1|]; etrans; [exact Hs2|]; by etrans).
  apply HQ; [done|done|apply Hs|apply Hs|apply Hs|]. cbn [ram].
  assert (Hlow : forall a, a + 8 <= p + 0x3000 ->
    load 8 (ram m4) a = load 8 (store 8 (p + 0x2000 + 8 * 0) (Z.lor (p + 0x3000) 3)
      (store 8 (p + 0x1000 + 8 * 510) (Z.lor (p + 0x2000) 3)
        (store 8 (p + 8 * 511) (Z.lor (p + 0x1000) 3) (ram m)))) a).
  { intros a Ha. rewrite <- Hr1, <- Hr2, <- Hr3. apply load_agree. eapply agree_weaken; [exact Ha4|].
    intros b Hb. unfold span in Hb. cbv beta. lia. }
  split; [..|exact Hl4]; intros i Hi; rewrite Hlow by lia;
    destruct (Z.eqb_spec i 511), (Z.eqb_spec i 510), (Z.eqb_spec i 0); subst; try lia; ram_load;
    try done; apply (zeroed_load8 _ p 0x4000); done || lia.
Qed.

Lemma wp_paging_init m (Q : unit -> machine -> Prop) E :
  kspace K m -> next_free (glb m) = KERNEL_BASE + p -> 0x20000 <= p ->
  (forall m', cr3 m' = p -> tlb m' = ∅ -> hw m' = hw m ->
     glb m' = set_next_free (KERNEL_BASE + (p + 0x4000)) (set_pml4t (KERNEL_BASE + p) (glb m)) ->
     agree (fun a => ~ W a) (ram m) (ram m') -> tables_built (ram m') p -> Q tt m') ->
  wp paging_init Q E m.
Proof.
  intros Hk Hn Hlow HQ. unfold paging_init.
  apply wp_bind, (wp_pool_page _ p); [done|done|lia|]. wp_steps.
  apply wp_bind, (wp_pool_page _ (p + 0x1000)); [done|lia|lia|].
  apply wp_bind, (wp_pool_page _ (p + 0x1000 + 0x1000)); [done|lia|lia|].
  apply wp_bind, (wp_pool_page _ (p + 0x1000 + 0x1000 + 0x1000)); [done|lia|lia|].
  replace (p + 0x1000 + 0x1000) with (p + 0x2000) by lia. replace (p + 0x2000 + 0x1000) with (p + 0x3000) by lia.
  replace (p + 0x3000 + 0x1000) with (p + 0x4000) by lia. wp_steps. cbn [glb set_glb set_next_free set_pml4t pml4t].
  set (m0 := set_glb _ _).
  assert (Hg0 : glb m0 = set_next_free (KERNEL_BASE + (p + 0x4000)) (set_pml4t (KERNEL_BASE + p) (glb m))) by done.
  assert (Hk0 : kspace K m0) by (by repeat apply kspace_set_glb). assert (Hr0 : ram m0 = ram m) by done.
  assert (Hh0 : hw m0 = hw m) by done. clearbody m0.
  apply wp_bind. replace (KERNEL_BASE + p) with (KERNEL_BASE + (p + 4096 * 0)) at 1 by lia.
  apply wp_clear_table; [done|lia|]. intros m1 Hs1 Hk1 Hz1 _.
  apply wp_bind, (wp_clear_table m1 1); [done|lia|]. intros m2 Hs2 Hk2 Hz2 Hkeep2.
  apply wp_bind, (wp_clear_table m2 2); [done|lia|]. intros m3 Hs3 Hk3 Hz3 Hkeep3.
  apply wp_bind, (wp_clear_table m3 3); [done|lia|]. intros m4 Hs4 Hk4 Hz4 Hkeep4.
  assert (Hs : wstep W m0 m4) by (etrans; [exact Hs1|]; etrans; [exact Hs2|]; by etrans).
  wp_steps. rewrite (ws_glb _ _ _ Hs), Hg0. cbn [pml4t set_next_free set_pml4t].
  assert (Hv : forall a, 0 <= a < KWIN -> v2p (KERNEL_BASE + a) = a).
  { intros a Ha. unfold v2p, KWIN in *. zconst. rewrite u64_small; lia. }
  rewrite !Hv by (unfold KWIN in *; lia). apply wp_link_tables; [done| |].
  - assert (Z1 := Hkeep4 _ _ (Hkeep3 _ _ (Hkeep2 _ _ Hz1 ltac:(lia)) ltac:(lia)) ltac:(lia)).
    assert (Z2 := Hkeep4 _ _ (Hkeep3 _ _ Hz2 ltac:(lia)) ltac:(lia)).
    assert (Z3 := Hkeep4 _ _ Hz3 ltac:(lia)).
    intros b Hb. unfold zeroed, span in *.
    destruct (Z.lt_ge_cases b (p + 4096)); [apply Z1; lia|].
    destruct (Z.lt_ge_cases b (p + 8192)); [apply Z2; lia|].
    destruct (Z.lt_ge_cases b (p + 12288)); [apply Z3; lia|apply Hz4; lia].
  - intros m5 Hc Ht Hh Hg Ha Htb. apply HQ; [done|done| | | |done].
    + rewrite Hh, (ws_hw _ _ _ Hs). done.
    + by rewrite Hg, (ws_glb _ _ _ Hs).
    + rewrite <- Hr0. etrans; [apply Hs|exact Ha].
Qed.
End PagingInit.

(** ** Properties *)

(** C10: [paging_init] replaces the bootloader's page tables by four pages of the
    pool: from then on the kernel window is mapped one to one (so every kernel
    access keeps its meaning), nothing else is mapped under any address, the TLB
    holds no old translation, and no other memory has changed. *)
Theorem paging_init_correct K p m :
  kspace K m -> next_free (glb m) = KERNEL_BASE + p -> 0x20000 <= p -> p + 0x4000 < KWIN -> p mod 4096 = 0 ->
  (forall a, span p 0x4000 a -> ~ ktab K a) ->
  wp paging_init
    (fun _ m' =>
       kspace (new_tables p) m' /\ (forall vpn, mwalk m' vpn = window_walk vpn) /\ tlb m' = ∅ /\
       glb m' = set_next_free (KERNEL_BASE + (p + 0x4000)) (set_pml4t (KERNEL_BASE + p) (glb m)) /\
       agree (fun a => ~ span p 0x4000 a) (ram m) (ram m')) nostop m.
Proof.
  intros Hk Hn Hlow Hhi Hpm Hsep. apply (wp_paging_init K p); try done; [lia|].
  intros m' Hc Ht Hh Hg Ha Htb. unfold KWIN in *. split_and!; [|intros vpn|done|done|done].
  - destruct m' as [r t c h g]. cbn in *. subst t c. apply tables_kspace; [done|lia|done].
  - unfold mwalk. rewrite Hc. apply tables_walk; [done|lia|done].
Qed.
