(* ===== verification/UserRoot.v ===== *)
(** [create_user_table] (kernel.c): a second page table whose upper half is the
    kernel's.  The new root is mapped at [KERNEL_BASE + f], filled with a copy of the
    kernel's PML4 and loaded into [cr3]; the result is an empty program memory in the
    sense of User.v. *)

From S2P Require Import Prelude Comp Ram Machine KSpace Utils Pmm Vmm VmmMap VmmWalk Space User Elf Kernel.

(** quiet for the kernel before it maps anything outside its window *)
Definition kernel_only : Quiet.
Proof. refine (mk_quiet (fun p => ~ (KVPN <= p < KVPN + 512)) _). by intros p Hp []. Defined.

Lemma wstep_user_half W m m' : wstep (QT := kernel_only) W m m' -> wstep (QT := user_half) W m m'.
Proof.
  intros []. split; try done. intros p f Hl. apply ws_low. cbn. unfold KVPN. unfold low in Hl. cbn in Hl.
  intros [? _]. unfold low in Hl. lia.
Qed.

Section UserRoot.
#[local] Existing Instance kernel_only.
Context (K : ktables) (q : Z).
Implicit Types m : machine.
Local Abbreviation vmm_ok := (Vmm.vmm_ok K q).
Local Abbreviation writes := (Vmm.writes K).

(** the kernel's tables as [paging_init] leaves them: nothing is mapped in the lower
    half and nothing of the kernel's last gigabyte beyond the window *)
Record kernel_space m : Prop := mk_kernel_space {
  kp_ok : vmm_ok m;
  kp_root : kt4 K = q;
  kp_huge : huge (load 8 (ram m) (q + 4088)) = false;
  kp_low i : 0 <= i < 256 -> present (load 8 (ram m) (q + 8 * i)) = false;
  kp_pd d : 1 <= d < 512 -> present (load 8 (ram m) (kt2 K + 8 * d)) = false;
  kp_d : kt2 K <> q /\ kt2 K <> kt3 K /\ kt3 K <> q;
  kp_own a : span q 4096 a \/ span (kt3 K) 4096 a \/ span (kt2 K) 4096 a -> ~ own (glb m) a;
  kp_tlb p f : tlb m !! p = Some f -> KVPN <= p < KVPN + 512
}.

(** the page at which the kernel sees frame [f], and its path *)
Lemma up_page f : 2 ^ 21 <= f < 2 ^ 30 -> f mod 4096 = 0 ->
  u64 (f + KERNEL_BASE) = KERNEL_BASE + f /\ (KERNEL_BASE + f) / 4096 = KVPN + f / 4096 /\
  (KERNEL_BASE + f) mod 4096 = 0 /\
  va_path (KERNEL_BASE + f) = [511; 510; f / 2 ^ 21; (f / 4096) mod 512] /\ 1 <= f / 2 ^ 21 < 512.
Proof.
  change (2 ^ 21) with 2097152. change (2 ^ 30) with 1073741824. intros Hf Hm. zconst.
  assert (Hd : (0xFFFFFFFF80000000 + f) / 4096 = KVPN + f / 4096) by (unfold KVPN; dlia).
  split_and!; [rewrite u64_small; lia|done|dlia| |dlia|dlia].
  rewrite va_vpn_path. unfold vpn_path. rewrite Hd. unfold KVPN.
  change (2 ^ 27) with 134217728. change (2 ^ 18) with 262144. change (2 ^ 9) with 512.
  f_equal; [dlia|]. f_equal; [dlia|]. f_equal; [dlia|]. f_equal. dlia.
Qed.

(** a table of the kernel is editable *)
Lemma ktable_ok m t : kernel_space m -> t = q \/ t = kt3 K \/ t = kt2 K -> table_ok K m t.
Proof.
  intros Hks Ht. pose proof (kp_ok _ Hks) as Hv. pose proof (kt_aligned K m (vo_k _ _ _ Hv)) as (_&(?&?)&(?&?)&_).
  pose proof (vo_ql _ _ _ Hv). pose proof (vo_qh _ _ _ Hv). pose proof (vo_qm _ _ _ Hv).
  pose proof (vo_2 _ _ _ Hv). pose proof (vo_3 _ _ _ Hv). destruct (vo_d _ _ _ Hv) as (?&?&?&?).
  unfold KWIN in *. split; [lia|destruct Ht as [->|[->| ->]]; done| | |lia].
  - intros Hi. destruct (vo_free _ _ _ Hv _ Hi). dlia.
  - intros a Ha. apply (kp_own _ Hks). destruct Ht as [->|[->| ->]]; tauto.
Qed.

Lemma up_path_ok m d i : kernel_space m -> 1 <= d < 512 ->
  path_ok K q m q [511; 510; d; i] /\ missing (ram m) q [511; 510; d; i] = 1%nat /\
  edit_slot (ram m) q [511; 510; d; i] = kt2 K + 8 * d.
Proof.
  intros Hks Hd. pose proof (kp_ok _ Hks) as Hv. pose proof (vo_k _ _ _ Hv) as Hk.
  pose proof (kp_pd _ Hks d Hd) as Habs. pose proof (ks_p4 _ _ Hk) as P4. rewrite (kp_root _ Hks) in P4.
  cbn [path_ok missing edit_slot leaf_slot length].
  change (8 * 511) with 4088. change (8 * 510) with 4080.
  rewrite P4, (vo_qa _ _ _ Hv), (ks_p3 _ _ Hk), (ks_a3 _ _ Hk), Habs. split; [|done].
  split; [apply ktable_ok; auto|]. split; [lia|]. intros _. split; [apply (kp_huge _ Hks)|].
  split; [|done]. split; [apply ktable_ok; auto|]. split; [lia|]. intros _. split; [apply (ks_h3 _ _ Hk)|].
  split; [|done]. split; [apply ktable_ok; auto|]. split; [lia|done].
Qed.

(** the kernel's tables after the page of frame [f] has been mapped: one new table [t] *)
Record up_mapped m f t : Prop := mk_up_mapped {
  um_ok : vmm_ok m;
  um_huge : huge (load 8 (ram m) (q + 4088)) = false;
  um_low i : 0 <= i < 256 -> present (load 8 (ram m) (q + 8 * i)) = false;
  um_own a : span q 4096 a \/ span (kt3 K) 4096 a \/ span (kt2 K) 4096 a -> ~ own (glb m) a;
  um_pd : let e := load 8 (ram m) (kt2 K + 8 * (f / 2 ^ 21)) in present e = true /\ huge e = false /\ pte_addr e = t;
  um_pt : load 8 (ram m) (t + 8 * ((f / 4096) mod 512)) = Z.lor f 3;
  um_table : table_ok K m t /\ table_ok K m q /\ table_ok K m (kt3 K) /\ table_ok K m (kt2 K);
  um_t : 2 ^ 21 <= t < 2 ^ 52 /\ t mod 4096 = 0 /\ t <> f;
  um_tlb g : tlb m !! (KVPN + f / 4096) = Some g -> g = f
}.

Lemma map_root_done m m' f :
  kernel_space m -> 2 ^ 21 <= f < 2 ^ 30 -> f mod 4096 = 0 -> (f / 4096 ∉ frees m) ->
  mapped K q 3 m m' q (va_path (KERNEL_BASE + f)) (Z.lor f 3) ->
  exists t, up_mapped m' f t /\ wstep (writes m (kt2 K + 8 * (f / 2 ^ 21))) m m' /\
    frees m' ⊆ frees m /\ (size (frees m') + 1 = size (frees m))%nat.
Proof.
  intros Hks Hf Hfm Hfr [Hs Hv' Hsz Hsub Hres Hnew]. destruct (up_page f Hf Hfm) as (_ & _ & _ & Hpath & Hd).
  destruct (up_path_ok m _ ((f / 4096) mod 512) Hks Hd) as (_ & Hmis & Hedit). pose proof (kp_ok _ Hks) as Hv.
  rewrite Hpath, ?Hmis, ?Hedit in *. destruct Hnew as [?|(j & Hj & Hl)]; [done|].
  destruct (vo_free _ _ _ Hv j Hj) as [Hj512 _]. pose proof (fa_range K m j (vo_a _ _ _ Hv) Hj) as Hj40.
  destruct (new_entry 3 ltac:(lia) eq_refl j Hj40) as (_ & N2 & N3 & N4).
  pose proof (vo_k _ _ _ Hv') as Hk'. change (2 ^ 40) with 1099511627776 in *. change (2 ^ 52) with 4503599627370496 in *.
  exists (j * 4096). split; [|done]. destruct Hres as (Tq & P4 & H4 & T3 & P3 & H3 & T2 & P2 & H2 & Hres).
  cbn [Vmm.resolves] in T3, T2, Hres. change (8 * 511) with 4088 in *. change (8 * 510) with 4080 in *.
  rewrite (vo_qa _ _ _ Hv') in *. rewrite (ks_a3 _ _ Hk') in *. rewrite Hl, N4 in Hres.
  assert (Hkeep : forall i, 0 <= i < 512 -> load 8 (ram m') (q + 8 * i) = load 8 (ram m) (q + 8 * i)).
  { intros i Hi. pose proof (ktable_ok m q Hks (or_introl eq_refl)) as Tq0.
    eapply slot_load_agree; [exact Hs|]. intros a Ha.
    destruct (table_slot_safe K q m q i a Hv Tq0 Hi Ha) as (?&?&?). destruct (kp_d _ Hks) as (?&_).
    destruct (kt_aligned K m (vo_k _ _ _ Hv)) as (_&_&(?&?)&_). pose proof (vo_qm _ _ _ Hv).
    intros [?|[?|[?|Ha']]]; [done..|]. unfold span in *. dlia. }
  split.
  - done.
  - done.
  - intros i Hi. rewrite Hkeep by lia. by apply (kp_low _ Hks).
  - rewrite (ws_glb _ _ _ Hs). apply (kp_own _ Hks).
  - cbv zeta. by rewrite Hl, N2, N3, N4.
  - apply Hres.
  - split_and!; [apply Hres|done..].
  - split_and!; [lia|lia|apply Z_mod_mult|]. intros <-. apply Hfr. by rewrite Z.div_mul by lia.
  - intros g Hg. apply (ws_low _ _ _ Hs) in Hg; [apply (kp_tlb _ Hks) in Hg|];
      cbn; change (2 ^ 21) with 2097152 in Hf; dlia.
Qed.

(** ** The page of the new root *)

Definition up_slots (P f t : Z) : Z -> Prop := fun a =>
  span (P + 4088) 8 a \/ span (kt3 K + 4080) 8 a \/ span (kt2 K + 8 * (f / 2 ^ 21)) 8 a \/
  span (t + 8 * ((f / 4096) mod 512)) 8 a.

(** the walk of that page under any root whose last entry is the kernel's *)
Lemma up_walk m root P f t :
  kspace K m -> up_mapped m f t -> 2 ^ 21 <= f < 2 ^ 30 -> f mod 4096 = 0 -> pte_addr root = P ->
  present (load 8 (ram m) (P + 4088)) = true -> pte_addr (load 8 (ram m) (P + 4088)) = kt3 K ->
  walk (ram m) root (KVPN + f / 4096) = Some f /\
  (forall a, walk_bytes (ram m) root (KVPN + f / 4096) a -> up_slots P f t a).
Proof.
  intros Hk Hu Hf Hfm HP P4 A4. destruct (um_pd _ _ _ Hu) as (P2 & H2 & A2).
  destruct (up_page f Hf Hfm) as (_ & Hvp & _ & Hpath & _). rewrite va_vpn_path, Hvp in Hpath.
  injection Hpath as I4 I3 I2 I1. unfold walk, walk_bytes. rewrite I4, I3, I2, I1, HP.
  change (8 * 511) with 4088. change (8 * 510) with 4080.
  rewrite P4, A4, (ks_p3 _ _ Hk), (ks_h3 _ _ Hk), (ks_a3 _ _ Hk), P2, H2, A2, (um_pt _ _ _ Hu). cbn [negb].
  rewrite present_lor, pte_addr_lor by (done || lia). split; [done|]. unfold up_slots. tauto.
Qed.

Lemma up_resolves m f t : up_mapped m f t -> 2 ^ 21 <= f < 2 ^ 30 -> f mod 4096 = 0 ->
  resolves K m q (va_path (KERNEL_BASE + f)) (Z.lor f 3).
Proof.
  intros Hu Hf Hfm. destruct (up_page f Hf Hfm) as (_ & _ & _ & -> & _). pose proof (um_ok _ _ _ Hu) as Hv.
  pose proof (vo_k _ _ _ Hv) as Hk. destruct (um_pd _ _ _ Hu) as (P2 & H2 & A2).
  destruct (um_table _ _ _ Hu) as (? & ? & ? & ?).
  cbn [Vmm.resolves]. change (8 * 511) with 4088. change (8 * 510) with 4080.
  rewrite (vo_qp _ _ _ Hv), (vo_qa _ _ _ Hv), (um_huge _ _ _ Hu), (ks_p3 _ _ Hk), (ks_h3 _ _ Hk), (ks_a3 _ _ Hk),
    P2, H2, A2, (um_pt _ _ _ Hu). by split_and!.
Qed.

(** the slots are clear of the frame itself *)
Lemma up_slots_frame m f t a :
  up_mapped m f t -> 2 ^ 21 <= f < 2 ^ 30 -> f mod 4096 = 0 -> up_slots q f t a -> ~ span f 4096 a.
Proof.
  intros Hu Hf Hfm Ha. pose proof (um_ok _ _ _ Hu) as Hv. destruct (um_t _ _ _ Hu) as (? & ? & ?).
  pose proof (vo_qh _ _ _ Hv). pose proof (vo_2 _ _ _ Hv). pose proof (vo_3 _ _ _ Hv).
  unfold up_slots, span, KWIN in *. change (2 ^ 21) with 2097152 in *. change (2 ^ 30) with 1073741824 in *.
  destruct Ha as [?|[?|[?|?]]]; dlia.
Qed.

Lemma up_vstable m f t :
  up_mapped m f t -> kt4 K = q -> 2 ^ 21 <= f < 2 ^ 30 -> f mod 4096 = 0 ->
  vstable (QT := user_half) m (span f 4096) (KERNEL_BASE + f) f 4096.
Proof.
  intros Hu Hroot Hf Hfm. pose proof (um_ok _ _ _ Hu) as Hv. destruct (up_page f Hf Hfm) as (_ & Hvp & Hvm & _).
  assert (Hd : forall i, 0 <= i < 4096 -> (KERNEL_BASE + f + i) / 4096 = KVPN + f / 4096 /\ (KERNEL_BASE + f + i) mod 4096 = i)
    by (intros i Hi; split; dlia).
  destruct (up_walk m (cr3 m) q f t) as [Hw Hb]; [apply Hv|done|done|done|rewrite <- Hroot; apply Hv|apply Hv|apply Hv|].
  split; intros i Hi; destruct (Hd i Hi) as [-> E1].
  - split.
    + split; [apply upper_canonical, upper_range; zconst; lia|]. destruct (Hd i Hi) as [-> _].
      change (~ low (KVPN + f / 4096)). unfold low, KVPN.
      change (2 ^ 35) with 34359738368. change (2 ^ 21) with 2097152 in Hf. dlia.
    + exists f. split; [|lia]. split; [done|]. apply (um_tlb _ _ _ Hu).
  - intros a Ha. eapply up_slots_frame; [exact Hu|done|done|]. by apply Hb.
Qed.

(** filling the frame, and moving the window, keep all this *)
Lemma up_step m m' f t :
  up_mapped m f t -> kt4 K = q -> 2 ^ 21 <= f < 2 ^ 30 -> f mod 4096 = 0 -> vmm_ok m' -> frees m' = frees m ->
  wstep (QT := user_half) (fun a => span f 4096 a \/ tslot K a) m m' -> up_mapped m' f t.
Proof.
  intros Hu Hroot Hf Hfm Hv' Hfr Hs. pose proof Hu as [Hv Hh Hlow Hown Hpd Hpt (Tt & Tq & T3 & T2) Ht Htlb].
  destruct Ht as (Ht & Htm & Htf). change (2 ^ 21) with 2097152 in *. pose proof (vo_qh _ _ _ Hv).
  pose proof (vo_2 _ _ _ Hv). pose proof (vo_3 _ _ _ Hv).
  assert (He : forall x i, x = t \/ x = q \/ x = kt3 K \/ x = kt2 K -> 0 <= i < 512 ->
    (forall a, span (x + 8 * i) 8 a -> ~ (span f 4096 a \/ tslot K a)) /\
    load 8 (ram m') (x + 8 * i) = load 8 (ram m) (x + 8 * i)).
  { intros x i Hx Hi. assert (Tx : table_ok K m x) by (destruct Hx as [->|[->|[->| ->]]]; done).
    assert (Hd : forall a, span (x + 8 * i) 8 a -> ~ (span f 4096 a \/ tslot K a)).
    { intros a Ha [Hfa|Hta]; [|by destruct (table_slot_safe K q m x i a Hv Tx Hi Ha) as (_&?&_)].
      unfold span, KWIN in *. destruct Hx as [->|[->|[->| ->]]]; dlia. }
    split; [done|]. apply load_agree. eapply agree_weaken; [apply Hs|]. exact Hd. }
  assert (Hd : 0 <= f / 2097152 < 512) by (change (2 ^ 30) with 1073741824 in *; dlia).
  assert (Ht' : forall x, table_ok K m x -> table_ok K m' x).
  { intros x. apply table_ok_step; [apply Hs|by rewrite Hfr]. }
  split.
  - done.
  - change 4088 with (8 * 511). by rewrite (proj2 (He q 511 ltac:(auto) ltac:(lia))).
  - intros i Hi. rewrite (proj2 (He q i ltac:(auto) ltac:(lia))). by apply Hlow.
  - by rewrite (ws_glb _ _ _ Hs).
  - change (2 ^ 21) with 2097152. rewrite (proj2 (He (kt2 K) (f / 2097152) ltac:(auto) Hd)). done.
  - rewrite (proj2 (He t ((f / 4096) mod 512) ltac:(auto) ltac:(apply Z.mod_pos_bound; lia))). done.
  - by split_and!; apply Ht'.
  - done.
  - intros g Hg. destruct (up_walk m (cr3 m) q f t) as [Hw Hb]; [apply Hv|done|done|done|rewrite <- Hroot; apply Hv|apply Hv|apply Hv|].
    destruct (ws_tlb _ _ _ Hs (KVPN + f / 4096)) with g as [Hg'|Hg']; [|done|by apply Htlb|unfold mwalk in Hg'; congruence].
    intros a Ha. apply Hb in Ha. change 4088 with (8 * 511) in Ha. change 4080 with (8 * 510) in Ha.
    destruct Ha as [Ha|[Ha|[Ha|Ha]]].
    + change 4088 with (8 * 511) in Ha. by apply (He q 511); auto.
    + change 4080 with (8 * 510) in Ha. by apply (He (kt3 K) 510); auto.
    + apply (He (kt2 K) (f / 2097152)); auto.
    + apply (He t ((f / 4096) mod 512)); auto. apply Z.mod_pos_bound. lia.
Qed.

(** ** The new address space *)

Definition user_tables (f : Z) : ktables := mk_ktables f (kt3 K) (kt2 K) (kt1 K).
Definition switched (f : Z) m : machine := mk_machine (ram m) ∅ f (hw m) (glb m).

(** the frame holds a copy of the kernel's PML4 *)
Record root_copied m f t : Prop := mk_root_copied {
  rc_up : up_mapped m f t;
  rc_root : kt4 K = q;
  rc_range : 2 ^ 21 <= f < 2 ^ 30;
  rc_align : f mod 4096 = 0;
  rc_used : f / 4096 ∉ frees m;
  rc_copy i : 0 <= i < 512 -> load 8 (ram m) (f + 8 * i) = load 8 (ram m) (q + 8 * i)
}.

Lemma root_entry m f t : root_copied m f t ->
  present (load 8 (ram m) (f + 4088)) = true /\ pte_addr (load 8 (ram m) (f + 4088)) = kt3 K.
Proof.
  intros [Hu Hroot Hf Hfm Hn Hc]. pose proof (um_ok _ _ _ Hu) as Hv. change 4088 with (8 * 511).
  rewrite Hc by lia. split; [apply (vo_qp _ _ _ Hv)|apply (vo_qa _ _ _ Hv)].
Qed.

Lemma switched_kspace m f t : root_copied m f t -> kspace (user_tables f) (switched f m).
Proof.
  intros Hrc. pose proof Hrc as [Hu Hroot Hf Hfm Hn Hc]. destruct (root_entry m f t Hrc) as [P4 A4].
  destruct (vo_k _ _ _ (um_ok _ _ _ Hu)) as [].
  split; cbn [switched user_tables cr3 ram tlb kt4 kt3 kt2 kt1]; try done.
  apply pte_addr_aligned; [lia|done].
Qed.

Lemma switched_frees m f t : root_copied m f t -> frees (switched f m) = frees m.
Proof. intros Hrc. by apply (fa_frees K); [apply (um_ok _ _ _ (rc_up _ _ _ Hrc))|..]. Qed.

Lemma switched_vtab m f t a : root_copied m f t -> Vmm.vtab (user_tables f) q a -> Vmm.vtab K q a \/ 2 ^ 21 <= a.
Proof.
  intros [Hu _ Hf _ _ _]. unfold Vmm.vtab, ktab, user_tables. cbn [kt4 kt3 kt2 kt1].
  intros [[H|[H|[H|H]]]|H]; [right; unfold span in H; lia|left..]; tauto.
Qed.

Lemma switched_ok m f t : root_copied m f t -> Vmm.vmm_ok (user_tables f) q (switched f m).
Proof.
  intros Hrc. pose proof Hrc as [Hu Hroot Hf Hfm Hn Hc]. pose proof (um_ok _ _ _ Hu) as Hv.
  pose proof (fun a => switched_vtab m f t a Hrc) as Htab. change (2 ^ 21) with 2097152 in *.
  assert (Hown : forall a, own (glb m) a -> a < KWIN) by (intros a Ho; apply (fa_own K) in Ho as [? _]; [lia|apply Hv]).
  pose proof Hv as [Hk Ha]. destruct vo_d as (?&?&?&?). unfold KWIN in *.
  split; cbn [switched user_tables ram glb kt4 kt3 kt2 kt1]; try done.
  - by apply (switched_kspace m f t).
  - destruct Ha as []. split; [done..|]. intros a Ho Hkt. apply (bo_tab a Ho).
    destruct Hkt as [Hs|[Hs|[Hs|Hs]]]; [|right; tauto..]. cbn in Hs.
    specialize (Hown a Ho). unfold span in Hs. lia.
  - split_and!; [done|done|lia|done].
  - intros a Ho. destruct (vo_own a Ho) as [Hnv Hnt]. split; [|done]. intros [?|?]%Htab; [done|].
    specialize (Hown a Ho). lia.
  - intros i. rewrite (switched_frees m f t Hrc). intros Hi. destruct (vo_free i Hi). split; [done|].
    intros <-. apply Hn. by rewrite Z.div_mul by lia.
  - intros a Ha' [?|?]%Htab; [by apply (vo_vga a)|]. unfold vga_bytes, span, VGA_PHYS in Ha'. lia.
Qed.

Lemma switched_space m f t : root_copied m f t ->
  Space.space (user_tables f) q f (switched f m) {[f := []]} /\
  forall p, 0 <= p -> low p -> walk (ram m) f p = None.
Proof.
  intros Hrc. pose proof Hrc as [Hu Hroot Hf Hfm Hn Hc]. pose proof (um_ok _ _ _ Hu) as Hv.
  assert (Habs : forall i, 0 <= i < 256 -> present (load 8 (ram m) (f + 8 * i)) = false).
  { intros i Hi. rewrite Hc by lia. by apply (um_low _ _ _ Hu). }
  pose proof (vo_1 _ _ _ Hv). change (2 ^ 21) with 2097152 in *. change (2 ^ 30) with 1073741824 in *.
  split; [split|].
  - by rewrite lookup_singleton_eq.
  - intros t' pre [<- <-]%lookup_singleton_Some. split; [cbn; lia|]. split; [lia|done| | |].
    + by rewrite (switched_frees m f t Hrc).
    + intros a Ha Ho. apply (fa_own K) in Ho as [Ho _]; [|apply Hv]. unfold span, KWIN in *. lia.
    + unfold KWIN in *. cbn. lia.
  - intros t' pre i [<- <-]%lookup_singleton_Some _ [Hi Hi0] Hpe. cbn [switched ram] in Hpe.
    rewrite Habs in Hpe; [done|]. specialize (Hi0 eq_refl). lia.
  - by intros t' pre [<- <-]%lookup_singleton_Some.
  - intros p Hp Hl. unfold walk. rewrite (pte_addr_aligned f) by (done || lia).
    rewrite Habs; [done|]. unfold low in Hl. change (2 ^ 35) with 34359738368 in Hl.
    change (2 ^ 27) with 134217728. dlia.
Qed.

(** the slots of the page of the root are not what mapping user pages writes *)
Lemma up_slots_area m f t a : root_copied m f t -> up_slots f f t a ->
  ~ Space.area (user_tables f) (glb m) (frees m) {[f := []]} a.
Proof.
  intros Hrc Ha. pose proof Hrc as [Hu Hroot Hf Hfm Hn Hc]. pose proof (um_ok _ _ _ Hu) as Hv.
  destruct (um_t _ _ _ Hu) as (Ht & Htm & Htf), (um_table _ _ _ Hu) as (Tt & Tq & T3 & T2).
  pose proof (vo_1 _ _ _ Hv). pose proof (vo_2 _ _ _ Hv). pose proof (vo_3 _ _ _ Hv).
  change (2 ^ 21) with 2097152 in *. change (2 ^ 30) with 1073741824 in *.
  assert (Hd : 0 <= f / 2097152 < 512) by dlia. assert (Hi : 0 <= (f / 4096) mod 512 < 512) by (apply Z.mod_pos_bound; lia).
  assert (Hown : own (glb m) a -> a < KWIN) by (intros Ho; apply (fa_own K) in Ho as [? _]; [lia|apply Hv]).
  assert (Hfree : free_pages (frees m) a -> 2097152 <= a).
  { intros (j & Hj & Hja). destruct (vo_free _ _ _ Hv j Hj). unfold span in Hja. lia. }
  unfold up_slots in Ha. change 4088 with (8 * 511) in Ha. change 4080 with (8 * 510) in Ha.
  change (2 ^ 21) with 2097152 in Ha. unfold KWIN in *.
  intros [Ho|[Hs|[Hfp|(t' & pre & i & [<- <-]%lookup_singleton_Some & [Hi512 Hi0] & Hs)]]].
  - specialize (Hown Ho). destruct Ha as [Ha|[Ha|[Ha|Ha]]]; [unfold span in Ha; lia|..|unfold span in Ha; lia].
    + apply (to_own _ _ _ T3 a); [by apply (slot_in_page _ 510)|done].
    + apply (to_own _ _ _ T2 a); [by apply (slot_in_page _ (f / 2097152))|done].
  - cbn in Hs. pose proof (to_temp _ _ _ T3). pose proof (to_temp _ _ _ T2).
    pose proof (to_align _ _ _ T3). pose proof (to_align _ _ _ T2).
    destruct (kt_aligned K m (vo_k _ _ _ Hv)) as (_&_&_&(?&?)). unfold tslot, span in *. cbn in Hs.
    destruct Ha as [Ha|[Ha|[Ha|Ha]]]; dlia.
  - specialize (Hfree Hfp). destruct Hfp as (j & Hj & Hja).
    destruct Ha as [Ha|[Ha|[Ha|Ha]]]; [|unfold span in Ha; lia..|].
    + apply Hn. replace (f / 4096) with j; [done|]. unfold span in *. dlia.
    + apply (to_used _ _ _ Tt). replace (t / 4096) with j; [done|]. unfold span in *. dlia.
  - specialize (Hi0 eq_refl). unfold span in *. destruct Ha as [Ha|[Ha|[Ha|Ha]]]; dlia.
Qed.

Lemma switched_uas m f t : root_copied m f t ->
  User.uas (user_tables f) q f (KERNEL_BASE + f) (switched f m) {[f := []]} ∅.
Proof.
  intros Hrc. pose proof Hrc as [Hu Hroot Hf Hfm Hn Hc]. destruct (switched_space m f t Hrc) as [Hsp Hlow].
  pose proof (vo_k _ _ _ (um_ok _ _ _ Hu)) as Hk. destruct (root_entry m f t Hrc) as [P4 A4].
  destruct (up_page f Hf Hfm) as (_ & Hvp & _).
  destruct (up_walk m f f f t) as [Hw Hb]; [done|done|done|done|apply pte_addr_aligned; [lia|done]|done|done|].
  assert (Hd : forall i, 0 <= i < 4096 -> (KERNEL_BASE + f + i) / 4096 = KVPN + f / 4096 /\ (KERNEL_BASE + f + i) mod 4096 = i).
  { intros i Hi. unfold KERNEL_BASE, KVPN in *. split; dlia. }
  split; try done.
  - by eapply switched_ok.
  - split; intros i Hi; destruct (Hd i Hi) as [E1 E2].
    + split; [split; [apply upper_canonical, upper_range; zconst; lia|]|].
      * rewrite E1. change (~ low (KVPN + f / 4096)). unfold low, KVPN. change (2 ^ 35) with 34359738368.
        change (2 ^ 21) with 2097152 in Hf. dlia.
      * exists f. rewrite E1, E2. split; [|lia]. split; [done|]. intros f' H. cbn [switched tlb] in H. by rewrite lookup_empty in H.
    + intros a Ha. unfold mbytes in Ha. rewrite E1 in Ha. apply Hb in Ha. cbn [switched glb].
      rewrite (switched_frees m f t Hrc). intros [Har|(p & g & Hp & _)]; [|by rewrite lookup_empty in Hp].
      by eapply up_slots_area.
Qed.

(** ** The whole function *)

(** a low free page bounds the page first fit finds *)
Lemma wp_alloc_low m i0 (Q : Z -> machine -> Prop) E :
  kspace K m -> ok K (glb m) -> i0 ∈ frees m ->
  (forall i m', i ∈ frees m -> i <= i0 -> wstep (own (glb m)) m m' -> kspace K m' ->
     frees m' = frees m ∖ {[i]} -> Q (i * PAGE_SIZE) m') ->
  wp pmm_alloc Q E m.
Proof.
  intros Hk Hok Hi0 HQ. apply elem_of_free_set in Hi0. apply (wp_pmm_alloc K); [done|done| |].
  - intros i m' Hi Hlow Hc. apply (HQ i).
    + by apply elem_of_free_set.
    + destruct (Z.le_gt_cases i i0) as [|Hgt]; [done|]. exfalso. apply (Hlow i0); [|done]. destruct Hi0. lia.
    + eapply bit_changed_own; [done|apply Hi|done].
    + by apply Hc.
    + by eapply free_set_used.
  - intros Hno. by destruct (Hno i0).
Qed.

Lemma copied_load d s n r r' k o : copied d s n r r' -> 0 <= o -> o + Z.of_nat k <= n ->
  load k r' (d + o) = load k r (s + o).
Proof.
  intros Hc. revert o. induction k as [|k IH]; intros o Ho Hk; cbn [load]; [done|].
  rewrite (Hc (d + o)), decide_True by (unfold span; lia). rewrite <- !Z.add_assoc, IH by lia.
  do 2 f_equal. lia.
Qed.

(** the new program memory, and what its creation has changed *)
Record user_created m (u : task) m' (f : Z) : Prop := mk_user_created {
  uc_task : task_pml4t u = KERNEL_BASE + f;
  uc_uas : User.uas (user_tables f) q f (KERNEL_BASE + f) m' {[f := []]} ∅;
  uc_glb : glb m' = glb m;
  uc_hw : hw m' = hw m;
  uc_size : (size (frees m') + 2 = size (frees m))%nat;
  uc_frame : 2 ^ 21 <= f < 2 ^ 30;
  uc_cr3 : cr3 m' = f;
  uc_tlb : tlb m' = ∅;
  uc_ram a : a < KWIN -> ~ own (glb m) a -> ~ tslot K a -> ~ span (kt2 K) 4096 a -> rd (ram m') a = rd (ram m) a
}.

Lemma kernel_space_alloc m m' : kernel_space m -> wstep (own (glb m)) m m' -> frees m' ⊆ frees m -> kernel_space m'.
Proof.
  intros [Hv Hroot Hh Hlow Hpd Hd Hown Htlb] Hs Hf.
  assert (Hl : forall x i, x = q \/ x = kt2 K -> 0 <= i < 512 -> load 8 (ram m') (x + 8 * i) = load 8 (ram m) (x + 8 * i)).
  { intros x i Hx Hi. eapply slot_load_agree; [exact Hs|]. intros a Ha%slot_in_page; [|done]. apply Hown.
    destruct Hx as [->| ->]; tauto. }
  split; rewrite ?(ws_glb _ _ _ Hs); try done.
  - eapply vmm_ok_wstep; [exact Hv|exact Hs| |done]. intros a Ha Ho. by destruct (vo_own _ _ _ Hv a Ho).
  - change 4088 with (8 * 511). rewrite Hl by (solve [auto] || lia). done.
  - intros i Hi. rewrite Hl by (solve [auto] || lia). by apply Hlow.
  - intros d Hd'. rewrite Hl by (solve [auto] || lia). by apply Hpd.
  - intros p g Hg. destruct (decide (KVPN <= p < KVPN + 512)) as [|Hn]; [done|].
    apply (Htlb p g). by apply (ws_low _ _ _ Hs).
Qed.

(** copying the kernel's table into the mapped frame *)
Lemma wp_copy_root m f t (Q : Z -> machine -> Prop) E :
  up_mapped m f t -> kt4 K = q -> 2 ^ 21 <= f < 2 ^ 30 -> f mod 4096 = 0 ->
  (forall m', up_mapped m' f t -> wstep (QT := user_half) (span f 4096) m m' -> frees m' = frees m ->
     (forall i, 0 <= i < 512 -> load 8 (ram m') (f + 8 * i) = load 8 (ram m') (q + 8 * i)) -> Q (KERNEL_BASE + f) m') ->
  wp (memcpy (KERNEL_BASE + f) (KERNEL_BASE + q) 0x1000) Q E m.
Proof.
  intros Hu Hroot Hf Hfm HQ. pose proof (um_ok _ _ _ Hu) as Hv. pose proof (vo_ql _ _ _ Hv). pose proof (vo_qh _ _ _ Hv).
  assert (Hlo : forall a, Vmm.vtab K q a \/ own (glb m) a -> ~ span f 4096 a).
  { pose proof (vo_1 _ _ _ Hv). pose proof (vo_2 _ _ _ Hv). pose proof (vo_3 _ _ _ Hv).
    change (2 ^ 21) with 2097152 in *. unfold KWIN in *. intros a [Ha|Ho].
    - unfold Vmm.vtab, ktab, span in *. rewrite Hroot in Ha. lia.
    - apply (fa_own K) in Ho as [Ho _]; [|apply Hv]. unfold span, KWIN in *. lia. }
  change (2 ^ 21) with 2097152 in Hf. unfold KWIN in *.
  apply (wp_memcpy (QT := user_half) m _ _ f q); [lia|lia|by eapply up_vstable| |].
  - apply (kspace_vstable (QT := user_half) K); [apply Hv|lia|unfold KWIN; lia|]. intros a Ha. apply Hlo. left. by left.
  - intros m' Hs Hc. assert (Hfr : frees m' = frees m).
    { eapply (frees_wstep (QT := user_half)); [apply Hv|exact Hs|]. intros a Ho. apply Hlo. by right. }
    assert (Hv' : vmm_ok m').
    { eapply (vmm_ok_wstep (QT := user_half)); [exact Hv|exact Hs| |by rewrite Hfr]. intros a Ha. apply Hlo. by left. }
    apply HQ; [|exact Hs|done|].
    + apply (up_step m m'); [done|done|done|done|done|done|].
      eapply (wstep_weaken (QT := user_half)); [exact Hs|tauto].
    + intros i Hi. rewrite (copied_load f q 4096 (ram m) (ram m') 8) by (done || lia). symmetry.
      apply load_agree. eapply agree_weaken; [apply Hs|]. unfold span. intros a Ha. cbv beta. lia.
Qed.

Lemma wp_create_user_table m i0 (Q : task -> machine -> Prop) E :
  kernel_space m -> i0 ∈ frees m -> i0 < 2 ^ 18 -> (2 <= size (frees m))%nat ->
  (forall u m' f, user_created m u m' f -> Q u m') -> wp create_user_table Q E m.
Proof.
  intros Hks Hi0 Hlt Hsz HQ. pose proof (kp_ok _ Hks) as Hv. unfold create_user_table.
  apply wp_bind, (wp_alloc_low m i0); [apply Hv|apply Hv|done|].
  intros i m1 Hi Hle Hs1 Hk1 Hf1. destruct (vo_free _ _ _ Hv i Hi) as [H512 _].
  pose proof (kernel_space_alloc m m1 Hks Hs1 ltac:(rewrite Hf1; apply gset_diff_sub)) as Hks1.
  pose proof (kp_ok _ Hks1) as Hv1. destruct (size_remove (frees m) i Hi) as (n & Hn & Hn1). rewrite <- Hf1 in Hn1.
  change (i * PAGE_SIZE) with (i * 4096). set (f := i * 4096). change (2 ^ 18) with 262144 in Hlt.
  assert (Hf : 2 ^ 21 <= f < 2 ^ 30) by (unfold f; change (2 ^ 21) with 2097152; change (2 ^ 30) with 1073741824; lia).
  assert (Hfm : f mod 4096 = 0) by apply Z_mod_mult.
  assert (Hu1 : f / 4096 ∉ frees m1) by (unfold f; rewrite Z.div_mul, Hf1 by lia; apply gset_not_in_diff).
  destruct (up_page f Hf Hfm) as (-> & _ & Hmod & Hpath & Hd). cbv zeta. wp_steps. rewrite (vo_q _ _ _ Hv1).
  destruct (up_path_ok m1 _ ((f / 4096) mod 512) Hks1 Hd) as (Hpok & Hmis & _). rewrite <- Hpath in Hpok, Hmis.
  apply wp_bind, (wp_map_page K q m1 _ q); [done| |done|lia|done|done|done| |rewrite Hmis; lia].
  { apply (kspace_vstable K); [done|apply Hv1|apply Hv1|]. intros a Ha Ho. destruct (vo_own _ _ _ Hv1 a Ho) as [Hn1v _]. apply Hn1v. by left. }
  intros m2 Hmap. destruct (map_root_done m1 m2 f Hks1 Hf Hfm Hu1 Hmap) as (t & Hum2 & Hs2 & Hf2 & Hsz2).
  wp_steps. rewrite (vo_q _ _ _ (um_ok _ _ _ Hum2)).
  apply wp_bind, (wp_copy_root m2 f t); [done|apply Hks|done|done|]. intros m3 Hum3 Hs3 Hf3 Hc3.
  pose proof (um_ok _ _ _ Hum3) as Hv3. wp_steps. rewrite (vo_q _ _ _ Hv3).
  apply wp_bind, (wp_get_physical_address (QT := user_half) K q m3 _ q _ (Z.lor f 3)).
  { done. } { apply (kspace_vmap (QT := user_half) K); apply Hv3. } { by eapply up_resolves. }
  intros m4 Hs4 Hv4 Hf4. rewrite pte_addr_lor, Hmod, Z.add_0_r, u64_small by (done || lia).
  assert (Hum4 : up_mapped m4 f t).
  { apply (up_step m3 m4); [done|apply Hks|done|done|done|done|]. eapply (wstep_weaken (QT := user_half)); [exact Hs4|tauto]. }
  unfold write_cr3. wp_steps. change (mk_machine _ _ _ _ _) with (switched f m4).
  assert (Hrc : root_copied m4 f t).
  { split; [done|apply Hks|done|done| |].
    - rewrite Hf4, Hf3. intros H. by apply Hu1, Hf2.
    - intros j Hj. destruct (um_t _ _ _ Hum3) as (? & _). pose proof (vo_1 _ _ _ Hv3).
      rewrite (slot_load_agree (QT := user_half) _ _ _ (f + 8 * j) Hs4), (slot_load_agree (QT := user_half) _ _ _ (q + 8 * j) Hs4);
        [by apply Hc3| |].
      + intros a Ha. destruct (um_table _ _ _ Hum3) as (_ & Tq & _). by destruct (table_slot_safe K q m3 q j a Hv3 Tq Hj Ha) as (_&?&_).
      + intros a Ha. unfold tslot, span, KWIN in *. lia. }
  apply (HQ _ _ f). split.
  - done.
  - by eapply switched_uas.
  - cbn [switched glb]. by rewrite (ws_glb _ _ _ Hs4), (ws_glb _ _ _ Hs3), (ws_glb _ _ _ Hs2), (ws_glb _ _ _ Hs1).
  - cbn [switched hw]. by rewrite (ws_hw _ _ _ Hs4), (ws_hw _ _ _ Hs3), (ws_hw _ _ _ Hs2), (ws_hw _ _ _ Hs1).
  - rewrite (switched_frees m4 f t Hrc), Hf4, Hf3. lia.
  - done.
  - done.
  - done.
  - intros a Ha Hno Hnt Hn2. cbn [switched ram].
    rewrite (ws_ram _ _ _ Hs4 a) by done. rewrite (ws_ram _ _ _ Hs3 a) by (unfold span, KWIN in *; lia).
    rewrite (ws_ram _ _ _ Hs2 a); [by apply (ws_ram _ _ _ Hs1 a)|].
    rewrite <- (ws_glb _ _ _ Hs1) in Hno. intros [?|[?|[(j & Hj & Hja)|Hsp]]]; [done|done| |].
    + destruct (vo_free _ _ _ Hv1 j Hj). unfold span, KWIN in *. lia.
    + apply Hn2. change (2 ^ 21) with 2097152 in Hsp. change (2 ^ 30) with 1073741824 in *. unfold span in *. dlia.
Qed.
End UserRoot.

(** ** Properties *)

(** C12: [create_user_table], run on the kernel's tables with at least two free frames,
    makes the address space of a program: its root is a fresh frame, visible to the
    kernel at KERNEL_BASE plus its address and loaded in [cr3]; its lower half is
    empty, its upper half is the kernel's, and no stale translation is left. *)
Theorem create_user_table_correct K q i0 m :
  kernel_space K q m -> i0 ∈ frees m -> i0 < 2 ^ 18 -> (2 <= size (frees m))%nat ->
  wp create_user_table
    (fun u m' => exists f, task_pml4t u = KERNEL_BASE + f /\ 2 ^ 21 <= f < 2 ^ 30 /\ cr3 m' = f /\
       User.uas (user_tables K f) q f (task_pml4t u) m' {[f := []]} ∅ /\
       (forall p, 0 <= p -> low p -> mwalk m' p = None) /\
       (size (frees m') + 2 = size (frees m))%nat /\ tlb m' = ∅) nostop m.
Proof.
  intros Hks Hi Hlt Hsz. apply (wp_create_user_table K q m i0); [done..|].
  intros u m' f [Hu Huas Hg Hh Hs Hf Hc Ht Hr]. exists f. rewrite Hu. split_and!; try done; [apply Hf..|].
  intros p Hp Hl. by rewrite (uas_mwalk _ _ _ _ _ _ _ _ Huas Hp Hl).
Qed.
