(* ===== verification/Boot.v ===== *)
(** [kernel_main] (kernel.c) as a whole: from the state the bootloader leaves, through
    interrupts, SSE, the kernel's page tables, the page allocator and the heap, to the
    embedded program in its address space and the fault the loader ends in. *)

From stdpp Require Import strings.
From S2P Require Import Prelude Comp Ram Machine KSpace Utils Pmm Vmm VmmMap VmmWalk Space User HeapSpec Heap Idt Isr ElfConst ElfFormat Elf Loader Kernel Stubs PagingInit UserRoot.

Section Boot.
#[local] Existing Instance kernel_only.
Implicit Types m : machine.

(** ** The phases that touch no page table *)

Lemma wp_idt_init sym m (Q : unit -> machine -> Prop) E :
  length (idt (glb m)) = 256%nat ->
  (forall h i, msrs h = msrs (hw m) -> cpuid1_edx h = cpuid1_edx (hw m) -> idtr h = Some (16 * IDT_ENTRIES - 1, idt_addr sym) ->
     Q tt (set_hw h (set_glb (set_idtp i (set_idt (gates sym (idt (glb m))) (glb m))) m))) ->
  wp (idt_init sym) Q E m.
Proof. intros Hl HQ. unfold wp. rewrite idt_init_run by done. by apply HQ. Qed.

Lemma wp_sse_init m (Q : unit -> machine -> Prop) E :
  Z.testbit (cpuid1_edx (hw m)) 25 = true ->
  (forall h, msrs h = msrs (hw m) -> idtr h = idtr (hw m) -> Q tt (set_hw h m)) -> wp sse_init Q E m.
Proof.
  intros Hb HQ. unfold sse_init. apply wp_bind, wp_gethw. rewrite sse_bit, Hb. cbn [negb]. wp_steps.
  by apply HQ.
Qed.

Lemma wp_enable_syscall sym efer m (Q : unit -> machine -> Prop) E :
  0 <= syscall_stub sym < 2 ^ 64 -> msrs (hw m) !! IA32_EFER = Some efer -> 0 <= efer < 2 ^ 64 ->
  (forall h, idtr h = idtr (hw m) -> Q tt (set_hw h m)) -> wp (enable_syscall sym) Q E m.
Proof.
  intros Hl He Hef HQ. unfold enable_syscall. apply wp_bind, (wp_read_msr _ efer); [done|done|].
  apply wp_bind, wp_write_msr; [by apply lor_u64|]. apply wp_bind, wp_write_msr; [apply u64_range|].
  apply wp_bind, wp_write_msr; [done|]. apply wp_write_msr; [done|]. by apply HQ.
Qed.

(** consecutive pages of the pool *)
Lemma wp_pool_pages m n x (Q : unit -> machine -> Prop) E :
  next_free (glb m) = KERNEL_BASE + x -> 0x20000 <= x -> x + 4096 * Z.of_nat n < KWIN ->
  Q tt (set_glb (set_next_free (KERNEL_BASE + (x + 4096 * Z.of_nat n)) (glb m)) m) ->
  wp (for_range n 0 (fun _ => alloc_page ;;; ret tt)) Q E m.
Proof.
  intros Hn Hx Hk HQ. unfold KWIN in Hk. apply wp_more_pages; rewrite Hn; unfold POOL_START, POOL_END, PAGE_SIZE in *.
  - zconst. lia.
  - zconst. lia.
  - by replace (KERNEL_BASE + x + Z.of_nat n * 4096) with (KERNEL_BASE + (x + 4096 * Z.of_nat n)) by lia.
Qed.

(** the pages of a memory map of [k] entries *)
Definition map_pages (k : Z) : Z := (24 * k + 4095) / 4096.

Lemma wp_reserve_boot_pages m k (Q : unit -> machine -> Prop) E :
  next_free (glb m) = POOL_START -> 0 <= k < 2 ^ 32 -> 0x21000 + 4096 * map_pages k < KWIN ->
  Q tt (set_glb (set_next_free (KERNEL_BASE + (0x21000 + 4096 * map_pages k)) (glb m)) m) ->
  wp (reserve_boot_pages k) Q E m.
Proof.
  intros Hn Hk Hr HQ. unfold reserve_boot_pages, sizeof_mmap_entry, PAGE_SIZE.
  apply wp_bind, (wp_pool_page m 0x20000); [rewrite Hn; done|done|done|]. cbv zeta.
  rewrite (u64_small (24 * k)), u64_small by lia.
  replace ((24 * k + 4096 - 1) / 4096) with (map_pages k) by (unfold map_pages; f_equal; lia).
  assert (Hp : 0 <= map_pages k) by (unfold map_pages; dlia).
  apply (wp_pool_pages _ _ 0x21000); [done|done|rewrite Z2Nat.id by done; lia|].
  rewrite Z2Nat.id by done. exact HQ.
Qed.

(** globals that differ in the pool, the heap and the interrupt table only *)
Record same_frames (g g' : globals) : Prop := mk_same_frames {
  sf_pml4t : pml4t g' = pml4t g;
  sf_bitmap : mem_bitmap g' = mem_bitmap g;
  sf_size : mem_bitmap_size g' = mem_bitmap_size g;
  sf_bits : mem_bitmap_bit_size g' = mem_bitmap_bit_size g;
  sf_idt : idt g' = idt g
}.

#[local] Instance same_frames_preorder : PreOrder same_frames.
Proof. split; [by intros g; split|intros ??? [] []; split; congruence]. Qed.

Lemma wp_heap_pages K m b (Q : unit -> machine -> Prop) E :
  kspace K m -> next_free (glb m) = KERNEL_BASE + b -> 0x20000 <= b -> b + 0x4000 < KWIN -> b mod 4096 = 0 ->
  (forall a, span b 0x4000 a -> ~ ktab K a) ->
  (forall m' g, same_frames (glb m) g -> wstep (span b 24) (set_glb g m) m' ->
     heap_rep K b (b + 0x4000) [mk_chunk b (0x4000 - HDR) false] m' -> Q tt m') ->
  wp heap_pages Q E m.
Proof.
  intros Hk Hn Hb Hr Hal Hsep HQ. unfold heap_pages.
  apply wp_bind, (wp_pool_page m b); [done|done|unfold KWIN in *; lia|]. wp_steps. cbn [glb set_glb].
  set (m1 := set_glb _ _). assert (Hk1 : kspace K m1) by (by repeat apply kspace_set_glb).
  assert (Hm1 : exists g, m1 = set_glb g m /\ same_frames (glb m) g /\ heap_start g = KERNEL_BASE + b /\
                  next_free g = KERNEL_BASE + (b + 0x1000)) by (by eexists).
  clearbody m1. destruct Hm1 as (g1 & -> & Hg1 & Hs1 & Hn1). unfold KWIN in *. apply wp_bind.
  eapply wp_mono; [apply (wp_for_range (fun i m' => exists g, m' = set_glb g m /\ same_frames (glb m) g /\
     heap_start g = KERNEL_BASE + b /\ next_free g = KERNEL_BASE + (b + 0x1000 + 0x1000 * i) /\
     (0 < i -> heap_end g = KERNEL_BASE + (b + 0x1000 + 0x1000 * i))) 3 0)| |by intros ?? H; exact H].
  - exists g1. split_and!; [done|done|done|rewrite Hn1; f_equal; lia|lia].
  - intros i m2 Hi (g & -> & Hg & Hst & Hnf & _).
    apply wp_bind, (wp_pool_page _ (b + 0x1000 + 0x1000 * i)); [done|lia|unfold KWIN; lia|]. wp_steps. cbn [glb set_glb].
    eexists. split_and!; [done|etrans; [exact Hg|done]|done|cbn; f_equal; lia|]. intros _. cbn. unfold PAGE_SIZE. zconst.
    rewrite u64_small; lia.
  - intros [] m2 (g & -> & Hg & Hst & Hnf & He).
    apply (wp_heap_init K b (b + 0x4000)); cbn [glb set_glb]; unfold HDR, KWIN; try lia; try done.
    + by apply kspace_set_glb.
    + dlia.
    + dlia.
    + intros m3 Hrep Hs. replace (b + 0x4000 - b - 32) with (0x4000 - HDR) in Hrep by (unfold HDR; lia).
      eapply HQ; [|exact Hs|exact Hrep]. etrans; [exact Hg|done].
Qed.

(** ** Under the kernel's own tables *)
Context (p : Z) (Hp0 : 0x20000 <= p) (Hp1 : p + 0x4000 < KWIN) (Hpm : p mod 4096 = 0).
Context (Hpv : p + 0x4000 <= VGA_PHYS).
Local Abbreviation K := (new_tables p).

(** the tables of [paging_init] are untouched and only the window has been used *)
Record booted m : Prop := mk_booted {
  bt_k : kspace K m;
  bt_tables : tables_built (ram m) p;
  bt_pml4 : pml4t (glb m) = KERNEL_BASE + p;
  bt_tlb f vpn : tlb m !! vpn = Some f -> KVPN <= vpn < KVPN + 512
}.

Lemma ktab_pages a : ktab K a -> span p 0x4000 a.
Proof. unfold ktab, span. cbn. lia. Qed.

Lemma tables_agree r r' : agree (span p 0x4000) r r' -> tables_built r p -> tables_built r' p.
Proof.
  intros Ha [H4 H3 H2 H1].
  assert (L : forall o i, 0 <= o -> o + 4096 <= 0x4000 -> 0 <= i < 512 ->
            load 8 r' (p + o + 8 * i) = load 8 r (p + o + 8 * i)).
  { intros o i ???. apply load_agree. intros b Hb. apply Ha. unfold span in *. lia. }
  split; intros i Hi; [|rewrite L by lia; auto..].
  specialize (L 0 i). rewrite Z.add_0_r in L. rewrite L by lia. auto.
Qed.

Lemma booted_step W m m' : booted m -> wstep W m m' -> (forall a, span p 0x4000 a -> ~ W a) -> booted m'.
Proof.
  intros [Hk Ht Hq Hl] Hs Hd. split.
  - eapply kspace_wstep; [exact Hk|exact Hs|]. intros a Ha. by apply Hd, ktab_pages.
  - eapply tables_agree; [|exact Ht]. eapply agree_weaken; [apply Hs|exact Hd].
  - by rewrite (ws_glb _ _ _ Hs).
  - intros f vpn Hf. destruct (decide (KVPN <= vpn < KVPN + 512)) as [|Hn]; [done|].
    apply (Hl f). by apply (ws_low _ _ _ Hs).
Qed.

Lemma booted_glb g m : booted m -> pml4t g = pml4t (glb m) -> booted (set_glb g m).
Proof. intros [Hk Ht Hq Hl] Hg. split; [by apply kspace_set_glb|done|cbn; congruence|done]. Qed.

Lemma booted_hw h m : booted m -> booted (set_hw h m).
Proof. intros [Hk Ht Hq Hl]. split; [by apply kspace_set_hw|done..]. Qed.

(** the same with the page allocator, whose bitmap ends at [top] *)
Record ready (top : Z) m (F : gset Z) : Prop := mk_ready {
  rd_booted : booted m;
  rd_ok : bitmap_ok K (glb m);
  rd_bytes a : bitmap_bytes (glb m) a -> p + 0x4000 <= a < top;
  rd_frees : frees m = F
}.

Lemma bitmap_ok_same (T : ktables) g g' : bitmap_ok T g -> same_frames g g' -> bitmap_ok T g'.
Proof.
  intros [] [E1 E2 E3 E4 _].
  assert (bmp g' = bmp g) as Eb by (unfold bmp; congruence).
  split; rewrite ?Eb, ?E3, ?E4; done.
Qed.

Lemma bitmap_bytes_same g g' a : same_frames g g' -> bitmap_bytes g' a -> bitmap_bytes g a.
Proof. intros [E1 E2 E3 E4 _]. unfold bitmap_bytes, bmp. by rewrite E2, E3. Qed.

Lemma frees_same m m' : bitmap_ok K (glb m) -> same_frames (glb m) (glb m') ->
  agree (bitmap_bytes (glb m)) (ram m) (ram m') -> frees m' = frees m.
Proof.
  intros Hok Hg Ha. set (m0 := set_glb (glb m) m'). transitivity (frees m0); [|by apply (free_set_agree K)].
  apply set_eq. intros i. destruct Hg as [E1 E2 E3 E4 _].
  change (i ∈ free_set m' <-> i ∈ free_set m0). rewrite !elem_of_free_set. unfold free_page, bmp.
  cbn [m0 glb set_glb ram]. by rewrite E2, E4.
Qed.

Lemma ready_step top W m m' F : ready top m F -> wstep W m m' -> (forall a, p <= a < top -> ~ W a) ->
  p + 0x4000 <= top -> ready top m' F.
Proof.
  intros [Hb Hok Hin Hf] Hs Hd Htop. split; rewrite ?(ws_glb _ _ _ Hs); [|done|done|].
  - eapply booted_step; [exact Hb|exact Hs|]. intros a Ha. apply Hd. unfold span in Ha. lia.
  - rewrite <- Hf. eapply frees_wstep; [exact Hok|exact Hs|]. intros a Ha. apply Hd. specialize (Hin a Ha). lia.
Qed.

Lemma ready_glb top g m F : ready top m F -> same_frames (glb m) g -> ready top (set_glb g m) F.
Proof.
  intros [Hb Hok Hin Hf] Hg. split; cbn [glb set_glb].
  - apply booted_glb; [done|apply Hg].
  - by eapply bitmap_ok_same.
  - intros a Ha. apply Hin. by eapply bitmap_bytes_same.
  - rewrite <- Hf. by apply frees_same.
Qed.

Lemma ready_hw top h m F : ready top m F -> ready top (set_hw h m) F.
Proof.
  intros [Hb Hok Hin Hf]. split; cbn [glb set_hw]; [by apply booted_hw|done|done|].
  rewrite <- Hf. by apply frees_same.
Qed.

(** such a state is what [create_user_table] starts from *)
Lemma table_entry r i : tables_built r p -> 0 <= i < 512 -> i <> 511 -> load 8 r (p + 8 * i) = 0.
Proof. intros [H4 _ _ _] Hi Hn. rewrite H4 by done. by rewrite (proj2 (Z.eqb_neq i 511)). Qed.

Lemma ready_kernel_space top m F : ready top m F -> top <= VGA_PHYS ->
  (forall i, i ∈ F -> 512 <= i) -> kernel_space K p m.
Proof.
  intros [[Hk Ht Hq Hl] Hok Hin Hf] Htop HF. unfold KWIN, VGA_PHYS in *. pose proof Ht as [H4 H3 H2 H1].
  destruct (entry_facts (p + 0x1000)) as (P3 & U3 & A3 & _); [lia|dlia|].
  specialize (H4 511 ltac:(lia)). cbn [Z.eqb Pos.eqb] in H4. change (8 * 511) with 4088 in H4.
  assert (Hpg : forall a, Vmm.vtab K p a \/ tslot K a -> p <= a < p + 0x4000).
  { unfold Vmm.vtab, ktab, tslot, span. cbn. lia. }
  split; [apply mk_vmm_ok|..]; cbn [kt4 kt3 kt2 kt1 new_tables] in *; unfold KWIN; try lia.
  - done.
  - done.
  - by rewrite H4.
  - by rewrite H4.
  - intros a Ho. specialize (Hin a Ho). split; intros H; [specialize (Hpg a (or_introl H))|specialize (Hpg a (or_intror H))]; lia.
  - rewrite Hf. intros i Hi. specialize (HF i Hi). lia.
  - intros a Ha H. specialize (Hpg a (or_introl H)). unfold vga_bytes, VGA_PHYS, span in Ha. lia.
  - by rewrite H4.
  - intros i Hi. by rewrite table_entry by (done || lia).
  - intros d Hd. rewrite H2 by lia. by rewrite (proj2 (Z.eqb_neq d 0)) by lia.
  - intros a Ha Ho. specialize (Hin a Ho). unfold span in Ha. lia.
  - intros vpn f. apply Hl.
Qed.

(** ** The allocator *)
Context (es : list bios_mmap_entry) (Hes : Forall entry_ok es) (Hmem : 0x200000 <= usable_end es).
Context (Hp : p = 0x21000 + 4096 * map_pages (Z.of_nat (length es))).
Definition bitmap_top : Z := p + 0x4000 + 4096 * bitmap_pages es.
Context (Htop : bitmap_top + 0x4000 <= VGA_PHYS).

(** the free pages once the memory map has been read *)
Definition boot_frees : list Z := filter (fun i => existsb (entry_page i) es = true) (seqZ 512 (num_pages es - 512)).

Lemma boot_frees_spec i : i ∈ boot_frees <-> 512 <= i < num_pages es /\ existsb (entry_page i) es = true.
Proof. unfold boot_frees. rewrite list_elem_of_filter, elem_of_seqZ. split; intros [??]; split; (done || lia). Qed.

Lemma boot_frees_size : size (list_to_set boot_frees : gset Z) = length boot_frees.
Proof. apply size_list_to_set. apply NoDup_filter, NoDup_seqZ. Qed.

Lemma wp_pmm_booted m (Q : unit -> machine -> Prop) E :
  booted m -> next_free (glb m) = KERNEL_BASE + (p + 0x4000) -> mmap_at (ram m) 0x21000 es ->
  (forall m', ready bitmap_top m' (list_to_set boot_frees) -> hw m' = hw m -> idt (glb m') = idt (glb m) ->
     next_free (glb m') = KERNEL_BASE + bitmap_top ->
     agree (fun a => a < p + 0x4000) (ram m) (ram m') -> Q tt m') ->
  wp (pmm_init (KERNEL_BASE + 0x21000) (Z.of_nat (length es))) Q E m.
Proof.
  intros Hb Hn Hmap HQ. unfold bitmap_top, VGA_PHYS, KWIN in *.
  assert (Hmp : 0x21000 + 24 * Z.of_nat (length es) <= p) by (rewrite Hp; unfold map_pages; dlia).
  assert (Hpre0 : bitmap_len es <= 4096 * bitmap_pages es) by (unfold bitmap_pages, pages_up, PAGE_SIZE; dlia).
  assert (Hpre : pmm_init_pre K es 0x21000 m).
  { split; rewrite ?Hn; unfold KWIN, POOL_START, POOL_END, PAGE_SIZE; try done; try (zconst; lia).
    - apply Hb.
    - intros a Ha Hk. apply ktab_pages in Hk. unfold span in *. zconst. lia.
    - intros a Ha Ha'. unfold span in *. zconst. lia. }
  apply (wp_pmm_init K); [done|]. intros m' Hs Hk' Hok Hf. pose proof (ws_glb _ _ _ Hs) as Hg. cbn in Hg.
  rewrite Hg in *. assert (Hby : forall a, bitmap_bytes (pmm_globals es (glb m)) a -> p + 0x4000 <= a < bitmap_top).
  { intros a Ha. unfold bitmap_bytes, bmp, span, bitmap_top in *. cbn in Ha. rewrite Hn in Ha. zconst. lia. }
  apply HQ.
  - split; rewrite ?Hg; [|done|done|].
    + eapply booted_step; [|exact Hs|].
      * apply booted_glb; [done|]. done.
      * intros a Ha Hw. specialize (Hby a Hw). unfold span in Ha. lia.
    + apply set_eq. intros i. change (i ∈ free_set m' <-> i ∈ (list_to_set boot_frees : gset Z)).
      rewrite elem_of_free_set, elem_of_list_to_set, boot_frees_spec. apply Hf.
  - by rewrite (ws_hw _ _ _ Hs).
  - by rewrite Hg.
  - rewrite Hg. cbn. rewrite Hn. unfold PAGE_SIZE, bitmap_top. lia.
  - intros a Ha. apply (ws_ram _ _ _ Hs). intros Hw. specialize (Hby a Hw). lia.
Qed.

(** from [paging_init] to [enable_syscall] *)
Lemma wp_kernel_setup K0 sym efer m (rest : M unit) (Q : unit -> machine -> Prop) E :
  kspace K0 m -> (forall a, 0x20000 <= a -> ~ ktab K0 a) -> next_free (glb m) = KERNEL_BASE + p ->
  mmap_at (ram m) 0x21000 es ->
  0 <= syscall_stub sym < 2 ^ 64 -> msrs (hw m) !! IA32_EFER = Some efer -> 0 <= efer < 2 ^ 64 ->
  (forall m', ready bitmap_top m' (list_to_set boot_frees) -> agree (fun a => a < p) (ram m) (ram m') ->
     idt (glb m') = idt (glb m) -> idtr (hw m') = idtr (hw m) ->
     heap_rep K bitmap_top (bitmap_top + 0x4000) [mk_chunk bitmap_top (0x4000 - HDR) false] m' -> wp rest Q E m') ->
  wp (paging_init ;;; pmm_init (KERNEL_BASE + 0x21000) (Z.of_nat (length es)) ;;; heap_pages ;;;
      memset VGA_MEMORY 0 (80 * 25 * 2) ;;; enable_syscall sym ;;; rest) Q E m.
Proof.
  intros Hk0 Hsep Hn Hmap Hstub Hefer Her HQ. pose proof (Htop) as Ht0. unfold VGA_PHYS in Ht0.
  assert (Htop' : p + 0x4000 <= bitmap_top) by (unfold bitmap_top, bitmap_pages, pages_up, bitmap_len, num_pages, pages_up, PAGE_SIZE; dlia).
  apply wp_bind, (wp_paging_init K0 p); [lia|done|done|intros a Ha; apply Hsep; unfold span in Ha; lia|done|done|done|].
  intros m1 Hc1 Htl1 Hh1 Hg1 Ha1 Htb1.
  assert (Hmap1 : mmap_at (ram m1) 0x21000 es).
  { eapply mmap_at_agree; [|exact Hmap]. eapply agree_weaken; [exact Ha1|]. unfold span. intros a Ha Hs.
    rewrite Hp in Hs. unfold map_pages in Hs. dlia. }
  assert (Hb1 : booted m1).
  { split; [|done|by rewrite Hg1|intros f vpn; by rewrite Htl1, lookup_empty].
    destruct m1 as [r tl c h g]. cbn in *. subst tl c. unfold KWIN in *. apply tables_kspace; [done|lia|done]. }
  apply wp_bind, wp_pmm_booted; [done|by rewrite Hg1|done|]. intros m2 Hr2 Hh2 Hi2 Hn2 Ha2.
  assert (Hmod : bitmap_top mod 4096 = 0) by (unfold bitmap_top; dlia).
  apply wp_bind, (wp_heap_pages K m2 bitmap_top); [apply Hr2|done|lia|unfold KWIN; lia|done| |].
  { intros a Ha Hkt. apply ktab_pages in Hkt. unfold span in *. lia. }
  intros m3 g3 Hg3 Hs3 Hrep3.
  assert (Hr3 : ready bitmap_top m3 (list_to_set boot_frees)).
  { eapply ready_step; [by eapply ready_glb|exact Hs3| |done]. unfold span. lia. }
  apply wp_bind, (wp_memset m3 _ VGA_PHYS); [done| |].
  { apply (kspace_vstable K); [apply Hr3|done|done|]. intros a Ha Hs. apply ktab_pages in Ha. unfold span, VGA_PHYS in *. lia. }
  intros m4 Hs4 _.
  assert (Hr4 : ready bitmap_top m4 (list_to_set boot_frees)).
  { eapply ready_step; [exact Hr3|exact Hs4| |done]. unfold span, VGA_PHYS. lia. }
  apply wp_bind, (wp_enable_syscall sym efer); [done| |done|].
  { by rewrite (ws_hw _ _ _ Hs4), (ws_hw _ _ _ Hs3), <- Hefer, <- Hh1, <- Hh2. }
  assert (Hrep4 : heap_rep K bitmap_top (bitmap_top + 0x4000) [mk_chunk bitmap_top (0x4000 - HDR) false] m4).
  { eapply heap_rep_step; [exact Hs4| |exact Hrep3]. intros a [Ha|Ha%ktab_pages] Hs; unfold span, VGA_PHYS in *; lia. }
  intros h Hh. apply HQ; [by apply ready_hw| |cbn; rewrite (ws_glb _ _ _ Hs4), (ws_glb _ _ _ Hs3); cbn; rewrite (sf_idt _ _ Hg3), Hi2, Hg1; done|
    cbn; rewrite Hh, (ws_hw _ _ _ Hs4), (ws_hw _ _ _ Hs3); cbn; by rewrite Hh2, Hh1|by apply heap_rep_hw].
  intros a Ha. cbn [ram set_hw].
  rewrite (ws_ram _ _ _ Hs4) by (unfold span, VGA_PHYS; lia). rewrite (ws_ram _ _ _ Hs3) by (unfold span; lia).
  cbn [ram set_glb]. rewrite Ha2 by (cbv beta; lia). apply Ha1. unfold span. lia.
Qed.

(** ** The embedded program *)
Context (slot : Z) (file : list Z) (hs : list phdr).

(** the program is in place, its pages with the bytes of the file and the stack page, and
    the loader has faulted reading its variable [entry] *)
Record running (sym : symbols) (e : stop) m : Prop := mk_running {
  rn_stop : e = PageFault (USER_STACK - slot);
  rn_memory : exists T root tb pg,
    User.uas T p root (KERNEL_BASE + root) m tb pg /\
    (forall vpn, is_Some (pg !! vpn) <-> in_segments hs vpn \/ vpn = STACK_PAGE) /\
    forall h a, h ∈ hs -> from_file h a ->
      ubyte (ram m) pg a = Some (nth (Z.to_nat (ph_offset h + (a - ph_vaddr h))) file 0);
  rn_idt : idt_ready sym m
}.

Context (Hslot : 0 < slot <= 4096) (Hld : loadable file hs).

Lemma wp_run_program sym s i0 m (Q : unit -> machine -> Prop) :
  ready bitmap_top m (list_to_set boot_frees) -> Kernel.elf_image sym = KERNEL_BASE + s -> 0 <= s ->
  s + Z.of_nat (length file) <= 0x20000 -> bytes_at (ram m) s file ->
  i0 ∈ boot_frees -> i0 < 2 ^ 18 -> (4 * page_count hs + 6 <= length boot_frees)%nat -> ~ in_segments hs STACK_PAGE -> ~ in_segments hs (STACK_PAGE - 1) ->
  idt_ready (idt_symbols sym) m ->
  wp (user_program <- create_user_table ;; load_elf slot user_program (Kernel.elf_image sym) ;;; halt Halted) Q (running (idt_symbols sym)) m.
Proof.
  intros Hr Hsym Hs Hsl Hb Hi0 Hlt Hsz Hnst Hnbl Hidt. pose proof Htop as Ht0. unfold VGA_PHYS in Ht0.
  assert (H512 : forall i, i ∈ (list_to_set boot_frees : gset Z) -> 512 <= i).
  { intros i Hi%elem_of_list_to_set%boot_frees_spec. lia. }
  pose proof (ready_kernel_space bitmap_top m _ Hr ltac:(unfold VGA_PHYS; lia) H512) as Hks.
  pose proof (rd_frees _ _ _ Hr) as Hfr.
  apply wp_bind, (wp_create_user_table K p m i0); [done|by rewrite Hfr; apply elem_of_list_to_set|done| |].
  { rewrite Hfr, boot_frees_size. lia. }
  intros u m' f [Hu Huas Hg Hh Hsz' Hf _ _ Hram]. rewrite Hfr, boot_frees_size in Hsz'. unfold KWIN in *.
  assert (Hown : forall a, own (glb m) a -> 0x20000 <= a) by (intros a Ho; apply (rd_bytes _ _ _ Hr) in Ho; lia).
  assert (Hb' : bytes_at (ram m') s file).
  { intros i Hi. rewrite Hram; [by apply Hb|lia|intros Ho; apply Hown in Ho; lia|..]; unfold tslot, span; cbn; lia. }
  apply wp_bind. rewrite Hsym, <- Hu in *.
  eapply wp_mono; [apply (wp_load_elf (user_tables K f) p f u s (Z.of_nat (length file)) Hs ltac:(unfold KWIN; lia) ltac:(lia) slot Hslot
    m' {[f := []]} ∅ hs (fun _ _ => False))| |].
  - done.
  - apply loadable_image; [done|done|]. intros; apply lookup_empty.
  - intros a Ha. unfold span in Ha. change (2 ^ 21) with 2097152 in Hf. rewrite Hg.
    intros [Ho|[Ht|[(j & Hj & Hja)|(t & pre & i & [<- <-]%lookup_singleton_Some & Hi & Hta)]]].
    + apply Hown in Ho. lia.
    + unfold tslot, span in Ht. cbn in Ht. lia.
    + apply (vo_free _ _ _ (ua_ok _ _ _ _ _ _ _ Huas)) in Hj as [Hj _]. unfold span in Hja. lia.
    + destruct Hi. unfold span in Hta. lia.
  - apply lookup_empty.
  - done.
  - apply lookup_empty.
  - done.
  - lia.
  - by intros.
  - intros e m2 (tb' & pg' & [-> HL Hp' Hc]). destruct HL as [HU _ _ _ _ _ HLh HLg]. split; [done| |].
    2: { destruct Hidt as [Hgt Hld']. split; [intros n Hn; rewrite HLg, Hg; by apply Hgt|by rewrite HLh, Hh]. }
    exists (user_tables K f), f, tb', pg'. rewrite Hu in HU. split_and!; [exact HU| |].
    + intros vpn. rewrite (Hp' vpn), lookup_empty. split; [by intros [[? ?]|?]|by right].
    + intros h a Hh' Ha. rewrite (Hc h a Hh' Ha). f_equal.
      pose proof (proj1 (Forall_forall _ _) (ld_ok _ _ Hld) h Hh') as (_ & _ & _ & ? & ?).
      destruct Ha as [_ Ha]. unfold span in Ha. rewrite <- Z.add_assoc. apply Hb'. lia.
Qed.
End Boot.

(** ** The kernel from its first instruction *)

(** where [kernel_main] puts its page tables and the end of its bitmap *)
Definition tables_at (es : list bios_mmap_entry) : Z := 0x21000 + 4096 * map_pages (Z.of_nat (length es)).
Definition pool_top (es : list bios_mmap_entry) : Z := bitmap_top (tables_at es) es.

(** what the bootloader hands over: its tables below 128 KiB map the kernel window,
    the pool is untouched, the memory map [es] lies behind the stack page, and the
    processor has SSE; at least 2 MiB of memory, and room for bitmap and heap below
    the video memory; the image of [file] is in the kernel *)
Record boot_state (K0 : ktables) (sym : kernel_symbols) (es : list bios_mmap_entry) (file : list Z) (s : Z) m : Prop := mk_boot_state {
  bs_k : kspace K0 m;
  bs_tables a : 0x20000 <= a -> ~ ktab K0 a;
  bs_idt : length (idt (glb m)) = 256%nat;
  bs_pool : next_free (glb m) = POOL_START;
  bs_sse : Z.testbit (cpuid1_edx (hw m)) 25 = true;
  bs_stub : 0 <= syscall_stub sym < 2 ^ 64;
  bs_efer : exists efer, msrs (hw m) !! IA32_EFER = Some efer /\ 0 <= efer < 2 ^ 64;
  bs_map : mmap_at (ram m) 0x21000 es;
  bs_entries : Forall entry_ok es;
  bs_memory : 0x200000 <= usable_end es;
  bs_room : pool_top es + 0x4000 <= VGA_PHYS;
  bs_slot : 0 < entry_slot sym <= 4096;
  bs_image : Kernel.elf_image sym = KERNEL_BASE + s /\ 0 <= s /\ s + Z.of_nat (length file) <= 0x20000;
  bs_file : bytes_at (ram m) s file
}.

(** enough frames for the program, the lowest of them in the first gigabyte *)
Definition enough_frames (es : list bios_mmap_entry) (hs : list phdr) : Prop :=
  (4 * page_count hs + 6 <= length (boot_frees es))%nat /\ exists i, i ∈ boot_frees es /\ i < 2 ^ 18.

Lemma tables_at_room es : 0x200000 <= usable_end es -> pool_top es + 0x4000 <= VGA_PHYS ->
  0x20000 <= tables_at es /\ tables_at es + 0x4000 <= VGA_PHYS /\ tables_at es + 0x4000 < KWIN /\
  tables_at es mod 4096 = 0 /\ Z.of_nat (length es) < 2 ^ 32 /\ 0 <= map_pages (Z.of_nat (length es)).
Proof.
  intros Hm Hr. unfold pool_top, bitmap_top, tables_at, map_pages, VGA_PHYS, KWIN in *.
  assert (0 <= bitmap_pages es) by (unfold bitmap_pages, pages_up, bitmap_len, num_pages, pages_up, PAGE_SIZE; dlia).
  split_and!; dlia.
Qed.

Lemma wp_kernel_main K0 sym es file hs s m (Q : unit -> machine -> Prop) :
  boot_state K0 sym es file s m -> loadable file hs ->
  enough_frames es hs -> ~ in_segments hs STACK_PAGE -> ~ in_segments hs (STACK_PAGE - 1) ->
  wp (kernel_main sym (KERNEL_BASE + 0x21000) (Z.of_nat (length es))) Q
    (running (tables_at es) (entry_slot sym) file hs (idt_symbols sym)) m.
Proof.
  intros [Hk Hkt Hidt Hpool Hsse Hstub (efer & Hef & Her) Hmap Hes Hmem Hroom Hslot (Him & Hs & Hsl) Hb] Hld (Hsz & i0 & Hi0 & Hlt) Hnst Hnbl.
  destruct (tables_at_room es Hmem Hroom) as (P0 & Pv & P1 & Pm & Hn32 & Hmp). unfold kernel_main.
  apply wp_bind, wp_idt_init; [done|]. intros h1 i1 Hm1 Hc1 Hl1.
  apply wp_bind, wp_sse_init; [by cbn; rewrite Hc1|]. intros h2 Hm2 Hl2. cbn [hw set_hw] in Hm2, Hl2.
  apply wp_bind, wp_reserve_boot_pages; [done|lia|unfold tables_at in *; lia|]. fold (tables_at es).
  set (m1 := set_glb _ _).
  assert (Hk1 : kspace K0 m1) by by destruct Hk.
  apply (wp_kernel_setup (tables_at es) P0 P1 Pm Pv es Hes Hmem eq_refl Hroom K0 sym efer); [done|done|done|done|done| |done|].
  { cbn. by rewrite Hm2, Hm1. }
  intros m2 Hr Ha Hi2 Hl3 _. apply (wp_run_program (tables_at es) P0 P1 Pm Pv es Hroom (entry_slot sym) file hs Hslot Hld sym s i0); try done.
  - intros i Hi. rewrite Ha; [by apply Hb|]. cbv beta. lia.
  - split; [|rewrite Hl3; cbn; by rewrite Hl2, Hl1]. intros n Hn. rewrite Hi2. cbn. by apply gates_lookup.
Qed.

(** ** The embedded program *)

Definition user_program_phdr : phdr := mk_phdr PT_LOAD 5 0 0x400000 0xC0 0xC0.

Lemma user_program_loadable :
  loadable user_program_elf [user_program_phdr] /\ field user_program_elf Elf64_Ehdr 0 "e_entry" = Some 0x400078 /\
  page_count [user_program_phdr] = 1%nat.
Proof.
  split; [split|by vm_compute].
  - by vm_compute.
  - by vm_compute.
  - by vm_compute.
  - intros off Ho. assert (field user_program_elf Elf64_Ehdr 0 "e_phoff" = Some 64) as E1 by by vm_compute.
    rewrite E1 in Ho. injection Ho as <-. by vm_compute.
  - apply Forall_singleton. unfold phdr_ok. cbn [ph_vaddr ph_filesz ph_memsz ph_offset user_program_phdr].
    change (Z.of_nat (length user_program_elf)) with 928. lia.
  - intros i j h h' p Hi Hj _ _. apply list_lookup_singleton_Some in Hi as [-> _].
    by apply list_lookup_singleton_Some in Hj as [-> _].
Qed.

Lemma user_program_pages vpn : in_segments [user_program_phdr] vpn <-> vpn = 0x400.
Proof.
  unfold in_segments. setoid_rewrite list_elem_of_singleton. split.
  - intros (h & -> & _ & Hr). cbn [ph_vaddr ph_memsz user_program_phdr] in Hr.
    change (0x400000 / 4096) with 0x400 in Hr. change ((0x400000 + 0xC0) / 4096) with 0x400 in Hr. lia.
  - intros ->. exists user_program_phdr. split; [done|]. split; [done|]. by vm_compute.
Qed.

(** ** Properties *)

(** C2: [kernel_main], entered in the state the bootloader leaves, with a loadable program in
    the kernel image and enough memory, and with no interrupt arriving, gets through all
    of its phases: in the address space it has built, the lower half holds exactly the
    pages of the program's segments, with the bytes of the file, and one stack page.  It
    neither returns nor enters the program: it ends in the page fault of the loader's
    last read, below the stack page. *)
Theorem kernel_main_faults K0 sym es file hs s m :
  boot_state K0 sym es file s m -> loadable file hs ->
  enough_frames es hs -> ~ in_segments hs STACK_PAGE -> ~ in_segments hs (STACK_PAGE - 1) ->
  wp (kernel_main sym (KERNEL_BASE + 0x21000) (Z.of_nat (length es))) (fun _ _ => False)
    (fun e m' => e = PageFault (USER_STACK - entry_slot sym) /\ exists T root tb pg,
       User.uas T (tables_at es) root (KERNEL_BASE + root) m' tb pg /\
       (forall vpn, is_Some (pg !! vpn) <-> in_segments hs vpn \/ vpn = STACK_PAGE) /\
       forall h a, h ∈ hs -> from_file h a ->
         ubyte (ram m') pg a = Some (nth (Z.to_nat (ph_offset h + (a - ph_vaddr h))) file 0)) m.
Proof.
  intros Hbs Hld Hf Hns Hnb. eapply wp_mono; [by apply (wp_kernel_main K0 sym es file hs s m (fun _ _ => False))|done|].
  by intros e m' [? ? _].
Qed.
