(* ===== verification/Interrupts.v ===== *)
(** Interrupts while the kernel runs.  As long as the page tables of the bootloader map the
    descriptor table, an interrupt is invisible to what it interrupts and exceptions are
    reported; [paging_init] unmaps the table, and from then on any interrupt or exception
    shuts the processor down, among them the page fault the kernel ends in. *)

From stdpp Require Import functions strings.
From S2P Require Import Prelude Comp Ram Machine KSpace Utils Pmm Vmm VmmMap VmmWalk Space User HeapSpec Heap Idt Isr ElfConst ElfFormat Elf Loader Kernel Gdt Stubs PagingInit UserRoot Boot.

(** ** While the descriptor table is mapped *)

(** the kernel at work: in ring 0 with a stack in its window, [top] being its aligned end,
    and the tables the processor needs to take an interrupt *)
Record kernel_context {QT : Quiet} (K : ktables) (gdtr : Z * Z) (sym : symbols) (c : context) (top : Z) (m : machine) : Prop := mk_kernel_context {
  kc_ok : context_ok c;
  kc_cs : cs c = KERNEL_CS;
  kc_ss : ss c = KERNEL_SS;
  kc_sp : exists s, gpr c RSP = KERNEL_BASE + s /\ s / 16 * 16 = top;
  kc_room : FRAME <= top <= KWIN;
  kc_k : kspace K m;
  kc_apart a : frame top a -> ~ ktab K a;
  kc_idt : idt_ready sym m;
  kc_gdt : gdt_ready gdtr (frame top) m
}.

(** the devices after [irq_handler] and the interrupt flag [iretq] restores *)
Definition irq_hw (n : Z) (b : bool) (h : cpu) : cpu :=
  mk_cpu (cr0 h) (cr4 h) (cpuid1_edx h) (msrs h) (idtr h) b
    (OutB 0x20 0x20 :: (if n =? 33 then [InB 0x60 (u8 (hd 0 (kbd h)))] else []) ++ ports h)
    (if n =? 33 then tl (kbd h) else kbd h).

Record same_context (c c' : context) : Prop := mk_same_context {
  sc_gpr r : gpr c' r = gpr c r;
  sc_rip : rip c' = rip c;
  sc_cs : cs c' = cs c;
  sc_rflags : rflags c' = rflags c;
  sc_ss : ss c' = ss c
}.

Section Kernel.
Context {QT : Quiet} (K : ktables) (A : abi) (HA : abi_ok A) (gdtr : Z * Z) (sym : symbols) (Hsym : linked sym).

Lemma wp_irq n code c top m (Q : context -> machine -> Prop) E :
  kernel_context K gdtr sym c top m -> n = 32 \/ n = 33 ->
  (forall c' m', same_context c c' -> kspace K m' ->
     wstep (frame top) (set_hw (irq_hw n (Z.testbit (rflags c) 9) (hw m)) m) m' -> Q c' m') ->
  wp (interrupt A gdtr sym n None code c) Q E m.
Proof.
  intros [Hok Hcs Hss (s & Hsp & Hs) [Hlo Hhi] Hk Hap Hidt Hgdt] Hn HQ.
  assert (Hal : top mod 16 = 0) by (subst top; apply Z_mod_mult).
  apply (wp_interrupt K m top Hlo Hhi Hal Hap gdtr Hgdt A HA c Hok Hcs Hss sym Hsym s Hsp Hs Hk); [done|lia| |].
  { by destruct Hn as [->| ->]. }
  intros l c1 m1 Hst Hh. assert (handler_of n = Irq_handler) as -> by by destruct Hn as [->| ->].
  cbn [c_body]. unfold wp. rewrite irq_handler_run. split; [by apply stacked_hw|].
  intros c' m' [R1 R2 R3 R4 R5 R6] Hs' Hk' Hh'. apply HQ; [split; try congruence| |].
  - intros r. destruct (decide (r = RSP)) as [->|]; [done|by apply R1].
  - done.
  - rewrite Hh' in Hs'. assert ((40 <=? n) = false) as E1 by by destruct Hn as [->| ->].
    cbn [hw set_hw] in Hs'. rewrite E1, Hh in Hs'. exact Hs'.
Qed.

Lemma wp_exception n err code c top m (Q : context -> machine -> Prop) (E : stop -> machine -> Prop) :
  (forall a, vga_bytes a -> ~ ktab K a) ->
  kernel_context K gdtr sym c top m -> 0 <= n < 32 ->
  (if has_error n then exists x, err = Some x /\ 0 <= x < 2 ^ 64 else err = None) ->
  (forall m', kspace K m' -> wstep (fun a => frame top a \/ vga_bytes a) (set_hw (set_iflag false (hw m)) m) m' ->
     drawn (ram m') (at_xy 0 10) (text_cells 0x0C00 "EXCEPTION: ") ->
     drawn (ram m') (at_xy 11 10) (text_cells 0x0C00 (exception_name n)) ->
     drawn (ram m') (at_xy 0 11) (text_cells 0x0C00 "INT#: ") ->
     drawn (ram m') (at_xy 6 11) (text_cells 0x0F00 (hex_string n)) -> E Halted m') ->
  wp (interrupt A gdtr sym n err code c) Q E m.
Proof.
  intros Hvga [Hok Hcs Hss (s & Hsp & Hs) [Hlo Hhi] Hk Hap Hidt Hgdt] Hn Herr HE.
  assert (Hal : top mod 16 = 0) by (subst top; apply Z_mod_mult).
  apply (wp_interrupt K m top Hlo Hhi Hal Hap gdtr Hgdt A HA c Hok Hcs Hss sym Hsym s Hsp Hs Hk); [done|lia|done|].
  intros l c1 m1 Hst Hh. assert (handler_of n = Isr_handler) as ->.
  { unfold handler_of. by rewrite (proj2 (Z.ltb_lt _ _)) by lia. }
  apply (wp_isr_handler K Hvga); [apply Hst|lia|]. intros m' Hk' Hs' D1 D2 D3 D4. apply HE; try done.
  pose proof (sk_step _ _ _ _ _ _ Hst) as Hs1. rewrite Hh in Hs1.
  etrans; [eapply wstep_weaken; [exact Hs1|by left]|eapply wstep_weaken; [exact Hs'|by right]].
Qed.

End Kernel.

(** ** Once it is not *)

(** the page of the descriptor 0x18, which every gate of the kernel needs, is not mapped *)
Record gdt_unmapped {QT : Quiet} (gdtr : Z * Z) (m : machine) : Prop := mk_gdt_unmapped {
  gu_limit : KERNEL_CS + 7 <= gdtr.1;
  gu_base : 0 <= gdtr.2 /\ gdtr.2 + KERNEL_CS < 2 ^ 47;
  gu_quiet : quiet ((gdtr.2 + KERNEL_CS) / 4096);
  gu_walk : mwalk m ((gdtr.2 + KERNEL_CS) / 4096) = None;
  gu_tlb : tlb m !! ((gdtr.2 + KERNEL_CS) / 4096) = None
}.

Section Unmapped.
Context {QT : Quiet} (K : ktables) (gdtr : Z * Z) (sym : symbols) (Hsym : linked sym).

(** all of it survives the translations the processor makes *)
Record defenceless m : Prop := mk_defenceless {
  df_k : kspace K m;
  df_idt : idt_ready sym m;
  df_gdt : gdt_unmapped gdtr m
}.

Lemma defenceless_warm m m' : defenceless m -> warm m m' -> defenceless m'.
Proof.
  intros [Hk [Hg Hl] [H1 H2 H3 H4 H5]] Hw. split.
  - by eapply kspace_warm.
  - split; [intros n Hn; rewrite (warm_glb _ _ Hw); by apply Hg|by rewrite (warm_hw _ _ Hw)].
  - split; [done|done|done|unfold mwalk; by rewrite (warm_ram _ _ Hw), (warm_cr3 _ _ Hw)|].
    destruct (tlb m' !! _) as [f|] eqn:E; [|done]. apply (warm_low _ _ Hw) in E; [congruence|done].
Qed.

(** no vector can be delivered, in whatever context *)
Lemma wp_deliver_unmapped n err c m (Q : context -> machine -> Prop) (E : stop -> machine -> Prop) :
  defenceless m -> 0 <= n < 34 -> (forall m', warm m m' -> E (PageFault (gdtr.2 + KERNEL_CS)) m') ->
  wp (deliver gdtr sym n err c) Q E m.
Proof.
  intros [Hk [Hg Hl] [H1 H2 H3 H4 H5]] Hn HE. change (2 ^ 47) with 140737488355328 in H2. unfold deliver.
  apply wp_bind, wp_gethw. apply wp_bind, wp_getg. rewrite Hl, Hg, Z.eqb_refl by done.
  unfold IDT_ENTRIES. rewrite (proj2 (Z.leb_le _ _)) by lia. cbn [andb].
  apply wp_bind, (wp_read_gate K sym Hsym); [done|unfold IDT_ENTRIES; lia|]. intros _ m1 Hw.
  change (gate_live (gate (vector sym n))) with true. change (selector (gate (vector sym n))) with KERNEL_CS. cbv iota.
  unfold load_descriptor. change (KERNEL_CS / 8) with 3. change (8 * 3) with KERNEL_CS. rewrite (proj2 (Z.leb_le _ _) H1).
  change ((0 <? 3) && negb (Z.testbit KERNEL_CS 2) && true) with true. cbv zeta iota.
  unfold KERNEL_CS in *. rewrite u64_small by lia.
  apply wp_bind, wp_bind, wp_bind, wp_bind. unfold wp, translate. rewrite lower_canonical by (change (2 ^ 47) with 140737488355328; lia).
  destruct (tlb m1 !! _) as [f|] eqn:E1; [apply (warm_low _ _ Hw) in E1; [congruence|done]|].
  unfold mwalk in H4. rewrite (warm_ram _ _ Hw), (warm_cr3 _ _ Hw), H4. by apply HE.
Qed.

Lemma wp_interrupt_unmapped A n err code c m (Q : context -> machine -> Prop) (E : stop -> machine -> Prop) :
  defenceless m -> 0 <= n < 34 -> (forall m', warm m m' -> E Shutdown m') ->
  wp (interrupt A gdtr sym n err code c) Q E m.
Proof.
  intros Hd Hn HE. apply wp_bind.
  assert (Hf : forall k err' m1 (c' : M context), warm m m1 -> 0 <= k < 34 ->
    (forall m2, warm m m2 -> wp c' (fun a s' => wp (match stub_at sym (rip a) with Some stub => run A gdtr 1 stub a | None => halt Undefined end) Q E s') E m2) ->
    wp (on_page_fault (deliver gdtr sym k err' c) c')
      (fun a s' => wp (match stub_at sym (rip a) with Some stub => run A gdtr 1 stub a | None => halt Undefined end) Q E s') E m1).
  { intros k err' m1 c' Hw1 Hk Hc'.
    assert (H : wp (deliver gdtr sym k err' c) (fun _ _ => False) (fun e m2 => e = PageFault (gdtr.2 + KERNEL_CS) /\ warm m m2) m1).
    { apply wp_deliver_unmapped; [by eapply defenceless_warm|done|]. intros m2 Hw2. split; [done|by etrans]. }
    unfold wp, on_page_fault in *. destruct (deliver gdtr sym k err' c m1) as [?|e m2]; [done|]. destruct H as [-> Hw2].
    by apply Hc'. }
  unfold take_interrupt. apply Hf; [done|done|]. intros m1 Hw1.
  assert (Hdd : forall m2, warm m m2 -> wp (deliver_double gdtr sym c)
    (fun a s' => wp (match stub_at sym (rip a) with Some stub => run A gdtr 1 stub a | None => halt Undefined end) Q E s') E m2).
  { intros m2 Hw2. apply Hf; [done|lia|]. intros m3 Hw3. by apply HE. }
  destruct (n =? 8); [by apply HE|]. destruct (n =? 14); [by apply Hdd|].
  apply Hf; [done|lia|exact Hdd].
Qed.
End Unmapped.

(** the boot sector is in the first 2 MiB *)
Lemma gdt_page data : in_boot_sector data ->
  KERNEL_CS + 7 <= (boot_gdtr data).1 /\ (0 <= (boot_gdtr data).2 /\ (boot_gdtr data).2 + KERNEL_CS < 2 ^ 47) /\
  ((boot_gdtr data).2 + KERNEL_CS) / 4096 = 7.
Proof.
  intros (Hl & Hb & He)%boot_gdtr_range. rewrite Hl. unfold KERNEL_CS. change (2 ^ 47) with 140737488355328. split_and!; dlia.
Qed.

(** the address space of the program does not have the table, unless the program maps
    its page itself *)
Lemma program_defenceless K q root ctx sym data m tb pg :
  uas K q root ctx m tb pg -> idt_ready sym m -> in_boot_sector data -> pg !! 7 = None ->
  defenceless K (boot_gdtr data) sym m.
Proof.
  intros Hu Hi (Hl & Hb & Hp)%gdt_page Hn. assert (H7 : 0 <= 7 /\ low 7) by (unfold low; lia).
  split; [apply (ua_ok _ _ _ _ _ _ _ Hu)|done|]. split; rewrite ?Hp; [done|done|apply H7| |].
  - rewrite <- Hn. by apply (uas_mwalk K q root ctx m tb pg).
  - destruct (tlb m !! 7) as [f|] eqn:E; [|done]. apply (ua_fresh _ _ _ _ _ _ _ Hu) in E; [congruence|apply H7..].
Qed.

(** what [kernel_main] ends in is the end of the processor *)
Lemma wp_running_shutdown p slot file hs sym data e m A err code c (Q : context -> machine -> Prop) (E : stop -> machine -> Prop) :
  running p slot file hs sym e m -> linked sym -> in_boot_sector data -> ~ in_segments hs 7 ->
  (forall m', E Shutdown m') ->
  wp (interrupt A (boot_gdtr data) sym 14 err code c) Q E m.
Proof.
  intros [_ (T & root & tb & pg & HU & Hp & _) Hi] Hs Hd Hns HE.
  apply (wp_interrupt_unmapped T); [done| |lia|by intros].
  eapply program_defenceless; [exact HU|done|done|]. destruct (pg !! 7) as [f|] eqn:E7; [|done]. exfalso.
  by destruct (proj1 (Hp 7) ltac:(by eexists)) as [?|H].
Qed.

(** ** Properties *)

(** C14: while the descriptor table is mapped, as it is from the [sti] of [idt_init] to
    [paging_init], an interrupt is invisible to the kernel code it interrupts: the
    processor finds the gate and the code segment, the stub of either interrupt line
    saves and restores every register, calls [irq_handler] with its vector on an aligned
    stack, and [iretq] resumes with the instruction pointer, segments, flags and stack
    pointer of before.  Only the 184 bytes below the stack pointer and the interrupt
    devices have changed. *)
Theorem irq_transparent {QT : Quiet} K A gdtr sym n code c top m :
  abi_ok A -> linked sym -> kernel_context K gdtr sym c top m -> n = 32 \/ n = 33 ->
  wp (interrupt A gdtr sym n None code c)
    (fun c' m' => same_context c c' /\
       wstep (frame top) (set_hw (irq_hw n (Z.testbit (rflags c) 9) (hw m)) m) m') nostop m.
Proof. intros HA Hs Hc Hn. by apply (wp_irq K A HA gdtr sym Hs n code c top). Qed.

(** C16: from the vector to the screen, while the descriptor table is mapped: for every
    exception of the kernel, whether or not the processor pushes an error code for it,
    its gate leads to the stub that hands [isr_handler] exactly that vector, and the
    report on the screen names it.  Nothing else is written but the stack frame, and the
    machine halts. *)
Theorem exception_reported {QT : Quiet} K A gdtr sym n err code c top m :
  abi_ok A -> linked sym -> (forall a, vga_bytes a -> ~ ktab K a) -> kernel_context K gdtr sym c top m -> 0 <= n < 32 ->
  (if has_error n then exists x, err = Some x /\ 0 <= x < 2 ^ 64 else err = None) ->
  wp (interrupt A gdtr sym n err code c) (fun _ _ => False)
    (fun e m' => e = Halted /\
       wstep (fun a => frame top a \/ vga_bytes a) (set_hw (set_iflag false (hw m)) m) m' /\
       drawn (ram m') (at_xy 0 10) (text_cells 0x0C00 "EXCEPTION: ") /\
       drawn (ram m') (at_xy 11 10) (text_cells 0x0C00 (exception_name n)) /\
       drawn (ram m') (at_xy 6 11) (text_cells 0x0F00 (hex_string n))) m.
Proof. intros HA Hs Hv Hc Hn Herr. apply (wp_exception K A HA gdtr sym Hs n err code c top); [done..|]. intros. by split_and!. Qed.

Section AfterPaging.
#[local] Existing Instance kernel_only.

(** C15: once [paging_init] has run, no interrupt and no exception can be taken: its page
    tables do not map the bootloader's descriptor table, which is used at its low
    address, so that the delivery of any vector, in any context, page-faults, and so do
    the deliveries of the page fault and of the double fault, and the processor shuts
    down.  Nothing is reported: the memory is as [paging_init] left it. *)
Theorem paging_init_disarms K p A sym data m :
  kspace K m -> next_free (glb m) = KERNEL_BASE + p -> 0x20000 <= p -> p + 0x4000 < KWIN -> p mod 4096 = 0 ->
  (forall a, span p 0x4000 a -> ~ ktab K a) ->
  linked sym -> idt_ready sym m -> in_boot_sector data ->
  wp paging_init
    (fun _ m1 => forall n err code c, 0 <= n < 34 ->
       wp (interrupt A (boot_gdtr data) sym n err code c) (fun _ _ => False)
         (fun e m2 => e = Shutdown /\ ram m2 = ram m1) m1) nostop m.
Proof.
  intros Hk Hn Hlow Hhi Hpm Hsep Hs [Hg Hl] Hd. apply (wp_paging_init K p); try done; [lia|].
  intros m1 Hc Ht Hh Hg1 _ Htb n err code c Hn'. unfold KWIN in *.
  apply (wp_interrupt_unmapped (new_tables p)); [done| |done|intros m2 Hw; split; [done|apply Hw]].
  destruct (gdt_page data Hd) as (G1 & G2 & G3). split.
  - destruct m1 as [r t c3 h g]. cbn in *. subst t c3. apply tables_kspace; [done|lia|done].
  - split; [intros k Hk'; rewrite Hg1; by apply Hg|by rewrite Hh].
  - split; rewrite ?G3; [done|done| | |by rewrite Ht, lookup_empty].
    + unfold quiet, kernel_only, KVPN. cbn. lia.
    + unfold mwalk. rewrite Hc, tables_walk by (done || lia). done.
Qed.
End AfterPaging.


(** C34: a system call of the program shows the kernel's message and halts: the stub runs
    on the stack of the program, into which the return address goes, and never gets to
    its [sysret]. *)
Theorem syscall_stub_reports K q root ctx A gdtr c m tb pg f :
  abi_ok A -> uas K q root ctx m tb pg ->
  8 <= gpr c RSP < 2 ^ 47 -> gpr c RSP mod 16 = 0 -> pg !! ((gpr c RSP - 8) / 4096) = Some f ->
  wp (exec A gdtr syscall_stub_code c) (fun _ _ => False)
    (fun e m' => e = Halted /\ drawn (ram m') VGA_PHYS (text_cells 0x0F00 syscall_message) /\
       load 8 (ram m') (f + (gpr c RSP - 8) mod 4096) = return_address A Syscall_handler) m.
Proof.
  intros HA Hu Hsp Hal Hp.
  assert (Hv : forall a, vga_bytes a -> ~ ktab K a).
  { intros a Ha Hk. apply (vo_vga _ _ _ (ua_ok _ _ _ _ _ _ _ Hu) a Ha). by left. }
  change (2 ^ 47) with 140737488355328 in Hsp. unfold syscall_stub_code. cbn [exec].
  apply wp_bind. unfold call, push. rewrite Hal. cbn [Z.eqb]. rewrite u64_small by lia.
  apply wp_bind, wp_bind, (wp_store_user K q root ctx 8 m tb pg _ _ f); [done|lia|dlia|done|]. intros m1 Hu1 Hs1 _ Hr1.
  apply wp_ret, wp_bind. cbn [c_body]. unfold syscall_handler.
  apply wp_bind, (wp_put_text K Hv); [apply (ua_ok _ _ _ _ _ _ _ Hu1)|done|lia|cbn; lia|]. intros m2 Hs2 _ Hd.
  apply wp_halt. split_and!; [done|done|].
  destruct (ua_frame _ _ _ _ _ _ _ Hu _ _ Hp) as (Hf & _). pose proof (Z.mod_pos_bound (gpr c RSP - 8) 4096).
  rewrite (load_agree 8 (ram m1)), Hr1; [apply load8_store8, HA|]. eapply agree_weaken; [apply Hs2|]. intros a Ha. unfold span, VGA_PHYS in *. cbn. lia.
Qed.
