(* ===== verification/Bootloader.v ===== *)
(** The second half of the bootloader (src/terra-kernel/bootloader: protected_mode and
    entry64): the page tables and the entry with which it hands over to [kernel_main];
    with FirstStage.v, Boot.v and Interrupts.v, the machine from its first instruction to
    the one it ends in. *)

From stdpp Require Import strings.
From S2P Require Import Prelude Comp Ram Machine KSpace Utils Pmm Vmm ElfFormat Loader Kernel Idt FirstStage Gdt Stubs PagingInit Boot Interrupts.

(** ** init_pt.asm: the page tables *)

(** the processor in protected mode, paging off: memory, control registers *)
Record pmode : Type := mk_pmode { pm_ram : ram_t; pm_cr3 : Z; pm_cr4 : Z }.

Definition mov_dword (a v : Z) : comp pmode unit :=
  modify (fun s => mk_pmode (store 4 a v (pm_ram s)) (pm_cr3 s) (pm_cr4 s)).
Definition mov_cr3 (v : Z) : comp pmode unit := modify (fun s => mk_pmode (pm_ram s) v (pm_cr4 s)).
Definition mov_cr4 (v : Z) : comp pmode unit := modify (fun s => mk_pmode (pm_ram s) (pm_cr3 s) v).

(** [pushad], [popad]: the eight registers below [esp] *)
Fixpoint pushad (esp : Z) (regs : list Z) : comp pmode unit :=
  match regs with [] => ret tt | v :: regs' => mov_dword (esp - 4) v ;;; pushad (esp - 4) regs' end.
Fixpoint popad (n : nat) (esp : Z) (acc : list Z) : comp pmode (list Z) :=
  match n with
  | O => ret acc
  | S k => v <- gets (fun s => load 4 (pm_ram s) esp) ;; popad k (esp + 4) (v :: acc)
  end.

Definition init_pt (esp : Z) (regs : list Z) : comp pmode (list Z) :=
  pushad esp regs ;;;
  let edi := 0x1000 in
  mov_cr3 edi ;;;
  for_range 4096 0 (fun i => mov_dword (edi + 4 * i) 0) ;;;    (* rep stosd *)
  let edi := 0x1000 + 511 * 8 in
  mov_dword edi 0x2003 ;;;
  mov_dword (edi + 8) 0 ;;;
  let edi := 0x2000 + 510 * 8 in
  mov_dword edi 0x3003 ;;;
  mov_dword (edi + 8) 0 ;;;
  let edi := 0x3000 in
  mov_dword edi 0x4003 ;;;
  mov_dword (edi + 8) 0 ;;;
  let edi := edi + 0x1000 in
  for_range 512 0 (fun i =>
    mov_dword (edi + 8 * i) (0x3 + 0x1000 * i) ;;;
    mov_dword (edi + 8 * i + 4) 0) ;;;
  edi <- gets pm_cr3 ;;
  mov_dword edi 0x5003 ;;;
  mov_dword (edi + 4) 0 ;;;
  let edi := 0x5000 in
  mov_dword edi 0x6003 ;;;
  mov_dword (edi + 4) 0 ;;;
  let edi := 0x6000 in
  mov_dword edi 0x8003 ;;;
  mov_dword (edi + 4) 0 ;;;
  let edi := 0x8000 + 8 * 7 in
  mov_dword edi 0x7003 ;;;
  mov_dword (edi + 4) 0 ;;;
  let edi := 0x8000 + 0xB8 * 8 in
  mov_dword edi 0xB8003 ;;;
  mov_dword (edi + 4) 0 ;;;
  cr4 <- gets pm_cr4 ;;
  mov_cr4 (Z.lor cr4 (Z.shiftl 1 5)) ;;;
  popad 8 (esp - 32) [].

(** ** The page tables are the ones the kernel expects *)

Definition boot_K : ktables := mk_ktables 0x1000 0x2000 0x3000 0x4000.

Lemma wp_mov_dword a v (Q : unit -> pmode -> Prop) E s :
  Q tt (mk_pmode (store 4 a v (pm_ram s)) (pm_cr3 s) (pm_cr4 s)) -> wp (mov_dword a v) Q E s.
Proof. done. Qed.

Lemma rd_store_zero n a r b : rd (store n a 0 r) b = if decide (span a (Z.of_nat n) b) then 0 else rd r b.
Proof.
  revert a. induction n as [|n IH]; intros a; cbn [store].
  - rewrite decide_False; [done|]. unfold span. lia.
  - rewrite rd_wr, IH. change (u8 0) with 0. repeat case_decide; unfold span in *; done || lia.
Qed.

(** an entry written as two words *)
Lemma load8_words r a : load 8 r a = load 4 r a + 2 ^ 32 * load 4 r (a + 4).
Proof. replace (a + 4) with (a + 1 + 1 + 1 + 1) by lia. cbn [load]. change (2 ^ 32) with 4294967296. lia. Qed.

Definition same_regs (s s' : pmode) : Prop := pm_cr3 s' = pm_cr3 s /\ pm_cr4 s' = pm_cr4 s.

Lemma wp_clear_tables s (Q : unit -> pmode -> Prop) E :
  (forall s', same_regs s s' -> filled 0x1000 0x4000 0 (pm_ram s) (pm_ram s') -> Q tt s') ->
  wp (for_range 4096 0 (fun i => mov_dword (0x1000 + 4 * i) 0)) Q E s.
Proof.
  intros HQ. eapply wp_mono; [apply (wp_for_range (fun i s' => same_regs s s' /\ filled 0x1000 (4 * i) 0 (pm_ram s) (pm_ram s')))| |by intros ?? H; exact H].
  - split; [done|]. intros b. rewrite decide_False; [done|]. unfold span. lia.
  - intros i s1 Hi [[Hc3 Hc4] Hf]. apply wp_mov_dword. cbn [pm_ram]. split; [done|]. intros b. rewrite rd_store_zero, (Hf b).
    repeat case_decide; unfold span in *; done || lia.
  - intros [] s' [Hs Hf]. by apply HQ.
Qed.

Lemma wp_fill_table s (Q : unit -> pmode -> Prop) E :
  (forall s', same_regs s s' -> agree (fun a => ~ span 0x4000 0x1000 a) (pm_ram s) (pm_ram s') ->
     (forall i, 0 <= i < 512 -> load 8 (pm_ram s') (0x4000 + 8 * i) = 4096 * i + 3) -> Q tt s') ->
  wp (for_range 512 0 (fun i => mov_dword (0x4000 + 8 * i) (0x3 + 0x1000 * i) ;;; mov_dword (0x4000 + 8 * i + 4) 0)) Q E s.
Proof.
  intros HQ. eapply wp_mono; [apply (wp_for_range (fun i s' => same_regs s s' /\
    agree (fun a => ~ span 0x4000 0x1000 a) (pm_ram s) (pm_ram s') /\
    (forall j, 0 <= j < i -> load 8 (pm_ram s') (0x4000 + 8 * j) = 4096 * j + 3)))| |by intros ?? H; exact H].
  - split_and!; [done|done|lia].
  - intros i s1 Hi (Hr & Ha & Hl). rewrite Z.add_0_l in Hi. change (Z.of_nat 512) with 512 in Hi.
    apply wp_bind, wp_mov_dword, wp_mov_dword. cbn [pm_ram]. split_and!; [done| |].
    + etrans; [exact Ha|]. etrans; apply agree_store; unfold span; lia.
    + intros j Hj. rewrite load8_words. destruct (decide (j = i)) as [->|].
      * rewrite (load_store_ne 4 4) by (cbn; lia). rewrite !load_store_eq. change (2 ^ (8 * Z.of_nat 4)) with 4294967296.
        rewrite Z.mod_small by lia. change (2 ^ 32) with 4294967296. rewrite Zmod_0_l. lia.
      * rewrite !(load_store_ne 4 4) by (cbn; lia). rewrite <- load8_words. apply Hl. lia.
  - intros [] s' (Hr & Ha & Hl). by apply HQ.
Qed.

Lemma wp_pushad esp regs s (Q : unit -> pmode -> Prop) E :
  Forall (fun v => 0 <= v < 2 ^ 32) regs ->
  (forall s', same_regs s s' -> agree (fun a => ~ span (esp - 4 * Z.of_nat (length regs)) (4 * Z.of_nat (length regs)) a) (pm_ram s) (pm_ram s') ->
     (forall i v, regs !! i = Some v -> load 4 (pm_ram s') (esp - 4 * Z.of_nat (S i)) = v) -> Q tt s') ->
  wp (pushad esp regs) Q E s.
Proof.
  revert esp s Q. induction regs as [|v regs IH]; intros esp s Q Hr HQ; cbn [pushad].
  { apply wp_ret, HQ; done. }
  apply Forall_cons in Hr as [Hv Hr]. apply wp_bind, wp_mov_dword. apply IH; [done|]. cbn [pm_ram].
  intros s' Hs Ha Hl. apply HQ; [done| |].
  - etrans; [apply (agree_store _ 4 (esp - 4) v)|]; cbn [length].
    + unfold span. lia.
    + eapply agree_weaken; [exact Ha|]. intros a. unfold span. lia.
  - intros [|i] w Hw; cbn [lookup list_lookup] in Hw.
    + injection Hw as ->. change (4 * Z.of_nat 1) with 4. rewrite (load_agree 4 (store 4 (esp - 4) w (pm_ram s))).
      * rewrite load_store_eq. by apply Z.mod_small.
      * eapply agree_weaken; [exact Ha|]. unfold span. cbn. lia.
    + rewrite <- (Hl i w Hw). f_equal. lia.
Qed.

(** the entries that link the kernel's tables, and those of the trampoline *)
Definition linked_tables (r : ram_t) : ram_t :=
  store 4 (0x3000 + 8) 0 (store 4 0x3000 0x4003
    (store 4 (0x2000 + 510 * 8 + 8) 0 (store 4 (0x2000 + 510 * 8) 0x3003
      (store 4 (0x1000 + 511 * 8 + 8) 0 (store 4 (0x1000 + 511 * 8) 0x2003 r))))).

Definition trampoline (r : ram_t) : ram_t :=
  store 4 (0x8000 + 0xB8 * 8 + 4) 0 (store 4 (0x8000 + 0xB8 * 8) 0xB8003
    (store 4 (0x8000 + 8 * 7 + 4) 0 (store 4 (0x8000 + 8 * 7) 0x7003
      (store 4 (0x6000 + 4) 0 (store 4 0x6000 0x8003
        (store 4 (0x5000 + 4) 0 (store 4 0x5000 0x6003
          (store 4 (0x1000 + 4) 0 (store 4 0x1000 0x5003 r))))))))).

Ltac ram_words := rewrite load8_words; repeat (rewrite load_store_eq || rewrite (load_store_ne 4 4) by (cbn; lia)).

Lemma linked_tables_spec r :
  (forall a, 0x1000 <= a -> a + 4 <= 0x5000 -> load 4 r a = 0) ->
  load 8 (linked_tables r) (0x1000 + 4088) = 0x2003 /\ load 8 (linked_tables r) (0x2000 + 4080) = 0x3003 /\
  load 8 (linked_tables r) 0x3000 = 0x4003 /\ agree (fun a => ~ (0x1FF8 <= a < 0x3010)) r (linked_tables r).
Proof.
  intros Hz. unfold linked_tables. split_and!.
  - ram_words. by rewrite Hz.
  - ram_words. by rewrite Hz.
  - ram_words. by rewrite Hz.
  - do 6 (etrans; [|apply agree_store; unfold span; cbn; lia]). done.
Qed.

Lemma trampoline_spec r :
  load 8 (trampoline r) 0x1000 = 0x5003 /\ load 8 (trampoline r) 0x5000 = 0x6003 /\
  load 8 (trampoline r) 0x6000 = 0x8003 /\ load 8 (trampoline r) (0x8000 + 8 * 7) = 0x7003 /\
  load 8 (trampoline r) (0x8000 + 8 * 0xB8) = 0xB8003 /\
  agree (fun a => ~ (0x1000 <= a < 0x1008 \/ 0x5000 <= a < 0x5008 \/ 0x6000 <= a < 0x6008 \/
                     0x8038 <= a < 0x8040 \/ 0x85C0 <= a < 0x85C8)) r (trampoline r).
Proof.
  unfold trampoline. split_and!; [by ram_words..|].
  do 10 (etrans; [|apply agree_store; unfold span; cbn; lia]). done.
Qed.

(** what [init_pt] has built, in memory [r0] *)
Record boot_tables (r0 r : ram_t) : Prop := mk_boot_tables {
  bt_4 : load 8 r (0x1000 + 4088) = 0x2003;
  bt_3 : load 8 r (0x2000 + 4080) = 0x3003;
  bt_2 : load 8 r 0x3000 = 0x4003;
  bt_1 i : 0 <= i < 512 -> load 8 r (0x4000 + 8 * i) = 4096 * i + 3;
  bt_low i : 0 < i < 511 -> load 8 r (0x1000 + 8 * i) = 0;
  bt_t4 : load 8 r 0x1000 = 0x5003;
  bt_t3 : load 8 r 0x5000 = 0x6003;
  bt_t2 : load 8 r 0x6000 = 0x8003;
  bt_t1 : load 8 r (0x8000 + 8 * 7) = 0x7003;
  bt_vga : load 8 r (0x8000 + 8 * 0xB8) = 0xB8003;
  bt_rest a : 0x5000 <= a < 0x9000 -> ~ (0x5000 <= a < 0x5008) -> ~ (0x6000 <= a < 0x6008) ->
    ~ (0x8038 <= a < 0x8040) -> ~ (0x85C0 <= a < 0x85C8) -> rd r a = rd r0 a
}.

Lemma boot_tables_built r0 rz rl :
  filled 0x1000 0x4000 0 r0 rz -> agree (fun a => ~ span 0x4000 0x1000 a) (linked_tables rz) rl ->
  (forall i, 0 <= i < 512 -> load 8 rl (0x4000 + 8 * i) = 4096 * i + 3) ->
  boot_tables r0 (trampoline rl) /\ agree (fun a => ~ span 0x1000 0x8000 a) r0 (trampoline rl).
Proof.
  intros Hz Hl Hi.
  assert (Hz4 : forall a, 0x1000 <= a -> a + 4 <= 0x5000 -> load 4 rz a = 0).
  { intros a H1 H2. cbn [load]. rewrite !(Hz _), !decide_True by (unfold span; lia). done. }
  destruct (linked_tables_spec rz Hz4) as (L4 & L3 & L2 & La).
  destruct (trampoline_spec rl) as (T4 & T3 & T2 & T1 & Tv & Ta). unfold span in Hl.
  assert (Hkeep : forall n a, 0x1008 <= a -> a + Z.of_nat n <= 0x5000 -> load n (trampoline rl) a = load n rl a).
  { intros n a H1 H2. apply load_agree. eapply agree_weaken; [exact Ta|]. unfold span. lia. }
  assert (Hlink : forall n a, 0x1000 <= a -> a + Z.of_nat n <= 0x4000 -> load n rl a = load n (linked_tables rz) a).
  { intros n a H1 H2. apply load_agree. eapply agree_weaken; [exact Hl|]. unfold span. lia. }
  split; [split; try done|].
  - by rewrite Hkeep, Hlink by (cbn; lia).
  - by rewrite Hkeep, Hlink by (cbn; lia).
  - by rewrite Hkeep, Hlink by (cbn; lia).
  - intros i Hir. rewrite Hkeep by (cbn; lia). by apply Hi.
  - intros i Hir. rewrite Hkeep, Hlink by (cbn; lia).
    assert (Hl4 : forall a, 0x1000 <= a -> a + 4 <= 0x1FF8 -> load 4 (linked_tables rz) a = 0).
    { intros a H1 H2. rewrite <- (Hz4 a) by lia. apply load_agree. eapply agree_weaken; [exact La|]. unfold span. cbn. lia. }
    by rewrite load8_words, !Hl4 by lia.
  - intros a Ha H5 H6 H8 HV. rewrite Ta, Hl, La, (Hz a), decide_False by (unfold span; lia). done.
  - intros a Ha. unfold span in Ha. rewrite Ta, Hl, La, (Hz a), decide_False by (unfold span; lia). done.
Qed.

Lemma wp_init_pt esp regs s (Q : list Z -> pmode -> Prop) E :
  length regs = 8%nat -> Forall (fun v => 0 <= v < 2 ^ 32) regs -> 0x9020 <= esp ->
  (forall s', pm_cr3 s' = 0x1000 -> pm_cr4 s' = Z.lor (pm_cr4 s) 32 -> boot_tables (pm_ram s) (pm_ram s') ->
     agree (fun a => ~ (0x1000 <= a < 0x9000 \/ esp - 32 <= a < esp)) (pm_ram s) (pm_ram s') -> Q regs s') ->
  wp (init_pt esp regs) Q E s.
Proof.
  intros Hlen Hregs Hesp HQ. unfold init_pt.
  apply wp_bind, wp_pushad; [done|]. intros s1 [_ Hc4] Ha1 Hp1. rewrite Hlen in Ha1.
  apply wp_bind, wp_modify. apply wp_bind, wp_clear_tables. intros s2 [Hc3 Hc4'] Hf2. cbn [pm_ram pm_cr3 pm_cr4] in *.
  do 6 (apply wp_bind, wp_mov_dword; cbn [pm_ram pm_cr3 pm_cr4]). fold (linked_tables (pm_ram s2)).
  apply wp_bind. change (0x3000 + 0x1000) with 0x4000. apply wp_fill_table. intros s3 [Hc3'' Hc4''] Ha3 Hl3. cbn [pm_ram pm_cr3 pm_cr4] in *.
  apply wp_bind, wp_gets. rewrite Hc3'', Hc3.
  do 10 (apply wp_bind, wp_mov_dword; cbn [pm_ram pm_cr3 pm_cr4]). fold (trampoline (pm_ram s3)).
  apply wp_bind, wp_gets. apply wp_bind, wp_modify. cbn [pm_ram pm_cr3 pm_cr4].
  destruct (boot_tables_built (pm_ram s1) (pm_ram s2) (pm_ram s3) Hf2 Ha3 Hl3) as [Hb Ha].
  change (4 * Z.of_nat 8) with 32 in Ha1. unfold span in *.
  assert (Hpop : forall i v, regs !! i = Some v -> load 4 (trampoline (pm_ram s3)) (esp - 4 * Z.of_nat (S i)) = v).
  { intros i v Hi. rewrite <- (Hp1 i v Hi). apply load_agree. eapply agree_weaken; [exact Ha|].
    apply lookup_lt_Some in Hi. unfold span. lia. }
  do 8 (destruct regs as [|? regs]; [discriminate Hlen|]). destruct regs; [|discriminate Hlen].
  cbn [popad]. do 8 (apply wp_bind, wp_gets; cbn [pm_ram]). apply wp_ret.
  assert (Hq : forall l, l = [z; z0; z1; z2; z3; z4; z5; z6] -> Q l (mk_pmode (trampoline (pm_ram s3)) 0x1000 (Z.lor (pm_cr4 s3) (Z.shiftl 1 5)))).
  { intros l ->. apply HQ; cbn [pm_ram pm_cr3 pm_cr4]; [done|by rewrite Hc4'', Hc4', Hc4| |].
    - destruct Hb. split; try done. intros a H1 H2 H3 H4 H5. rewrite bt_rest0 by done. apply Ha1. lia.
    - etrans; [eapply agree_weaken; [exact Ha1|]; cbv beta; lia|eapply agree_weaken; [exact Ha|]; cbv beta; lia]. }
  rewrite ?Hc3'', ?Hc3 in *. apply Hq.
  rewrite <- (Hpop 0%nat z), <- (Hpop 1%nat z0), <- (Hpop 2%nat z1), <- (Hpop 3%nat z2), <- (Hpop 4%nat z3), <- (Hpop 5%nat z4),
    <- (Hpop 6%nat z5), <- (Hpop 7%nat z6) by done.
  repeat f_equal; lia.
Qed.

(** ** Handing over *)

(** protected_mode/elevate.asm: long mode is switched on *)
Definition switch_long_mode (s : pmode) (h : cpu) (g : globals) : machine :=
  let efer := Z.lor (default 0 (msrs h !! IA32_EFER)) (Z.shiftl 1 8) in
  mk_machine (pm_ram s) ∅ (pm_cr3 s)
    (mk_cpu (Z.lor (cr0 h) (Z.shiftl 1 31)) (pm_cr4 s) (cpuid1_edx h) (<[IA32_EFER := efer]> (msrs h))
       (idtr h) (iflag h) (ports h) (kbd h)) g.

(** entry64: the stack pointer and the arguments of [kernel_main]; [count] is the address
    of [mmap_entry_count] *)
Definition entry64 (count : Z) : M (Z * Z * Z) :=
  let rsp := u64 (0xFFFFFFFF80000000 + 0x20000 + 0xFFF) in
  let rsp := Z.land rsp (u64 (-16)) in
  let rsp := u64 (rsp - 8) in
  let rdi := 0xFFFFFFFF80000000 + 0x21000 in
  rsi <- vload 8 count ;;
  ret (rsp, rdi, rsi).

Lemma page_entry i : 0 <= i < 512 -> 4096 * i + 3 = Z.lor (4096 * i) 3.
Proof.
  intros. symmetry. apply (lor_low _ _ 12); [done| |done]. change (2 ^ 12) with 4096. dlia.
Qed.

(** the kernel's window is mapped *)
Lemma boot_kspace r0 r h g : boot_tables r0 r -> kspace boot_K (mk_machine r ∅ 0x1000 h g).
Proof.
  intros [B4 B3 B2 B1 _ _ _ _ _ _ _]. split; cbn [kt4 kt3 kt2 kt1 boot_K cr3 ram tlb]; rewrite ?B4, ?B3, ?B2; try reflexivity.
  - intros i Hi. rewrite B1, page_entry by lia. rewrite present_lor; [done|]. dlia.
  - intros i Hi. rewrite B1, page_entry by lia. apply pte_addr_lor; [lia|dlia|lia].
  - intros i f _. by rewrite lookup_empty.
Qed.

(** the trampoline: of the first 2 MiB, two pages have an entry written for them *)
Lemma boot_low_walk r0 r i : boot_tables r0 r -> 0 <= i < 512 ->
  walk r 0x1000 i = let e := load 8 r (0x8000 + 8 * i) in if present e then Some (pte_addr e) else None.
Proof.
  intros Hb Hi. unfold walk. assert (i / 2 ^ 27 = 0 /\ i / 2 ^ 18 = 0 /\ i / 2 ^ 9 = 0 /\ i mod 512 = i) as (-> & -> & -> & ->).
  { change (2 ^ 27) with 134217728. change (2 ^ 18) with 262144. change (2 ^ 9) with 512. split_and!; dlia. }
  change (0 mod 512) with 0. rewrite !Z.mul_0_r. change (pte_addr 0x1000 + 0) with 0x1000. rewrite (bt_t4 _ _ Hb).
  change (pte_addr 0x5003 + 0) with 0x5000. rewrite (bt_t3 _ _ Hb). change (pte_addr 0x6003 + 0) with 0x6000. rewrite (bt_t2 _ _ Hb).
  cbv zeta. change (pte_addr 0x8003) with 0x8000. change (present 0x5003) with true. change (present 0x6003) with true.
  change (present 0x8003) with true. change (huge 0x6003) with false. change (huge 0x8003) with false. cbn [negb].
  by destruct (present (load 8 r (0x8000 + 8 * i))).
Qed.

Lemma boot_low_pages r0 r : boot_tables r0 r ->
  walk r 0x1000 7 = Some 0x7000 /\ walk r 0x1000 0xB8 = Some 0xB8000 /\
  forall i, 0 <= i < 512 -> i <> 7 -> i <> 0xB8 ->
    walk r 0x1000 i = let e := load 8 r0 (0x8000 + 8 * i) in if present e then Some (pte_addr e) else None.
Proof.
  intros Hb. split_and!.
  - rewrite (boot_low_walk r0), (bt_t1 _ _ Hb) by (done || lia). reflexivity.
  - rewrite (boot_low_walk r0), (bt_vga _ _ Hb) by (done || lia). reflexivity.
  - intros i Hi H7 HB. rewrite (boot_low_walk r0) by done. cbv zeta.
    rewrite (load_agree 8 r0 r (0x8000 + 8 * i)); [done|]. intros a Ha. unfold span in Ha. change (Z.of_nat 8) with 8 in Ha.
    apply (bt_rest _ _ Hb); lia.
Qed.

Lemma wp_entry64 r count h g f (Q : Z * Z * Z -> machine -> Prop) E :
  0 <= count -> count mod 4096 + 8 <= 4096 -> count < 2 ^ 21 -> walk r 0x1000 (count / 4096) = Some f ->
  (forall t, (forall p f', p <> count / 4096 -> t !! p = Some f' -> False) ->
     Q (KERNEL_BASE + 0x20FE8, KERNEL_BASE + 0x21000, load 8 r (f + count mod 4096)) (mk_machine r t 0x1000 h g)) ->
  wp (entry64 count) Q E (mk_machine r ∅ 0x1000 h g).
Proof.
  intros H0 Hm Hlt Hw HQ. unfold entry64. change (2 ^ 21) with 2097152 in Hlt.
  assert (Hrun : forall n va t, 0 <= va -> va mod 4096 + Z.of_nat n <= 4096 -> va / 4096 = count / 4096 ->
      (t = ∅ \/ t = <[count / 4096 := f]> ∅) ->
      exists t', (t' = ∅ \/ t' = <[count / 4096 := f]> ∅) /\
        translate_range n va (mk_machine r t 0x1000 h g) = Ret (addrs n (f + va mod 4096)) (mk_machine r t' 0x1000 h g)).
  { induction n as [|n IH]; intros va t Hv Hvm Hd Ht; [by exists t|]. cbn [translate_range addrs].
    assert (Hone : translate va (mk_machine r t 0x1000 h g) = Ret (f + va mod 4096) (mk_machine r (<[count / 4096 := f]> ∅) 0x1000 h g)).
    { unfold translate, canonical, lower. change (2 ^ 47) with 140737488355328.
      rewrite (proj2 (Z.leb_le _ _)), (proj2 (Z.ltb_lt _ _)) by dlia. cbn [andb orb tlb ram cr3]. rewrite Hd.
      destruct Ht as [->| ->]; [rewrite lookup_empty, Hw; done|by rewrite lookup_insert_eq]. }
    unfold bind. rewrite Hone. rewrite u64_small by dlia.
    destruct n as [|n]; [by eexists; split; [right|]|].
    assert (Hdm : (va + 1) / 4096 = va / 4096 /\ (va + 1) mod 4096 = va mod 4096 + 1) by dlia. destruct Hdm as [Hd1 Hm1].
    destruct (IH (va + 1) (<[count / 4096 := f]> ∅)) as (t' & Ht' & ->); [lia|lia|congruence|by right|].
    exists t'. split; [done|]. by rewrite Hm1, Z.add_assoc. }
  destruct (Hrun 8%nat count ∅ H0 Hm eq_refl (or_introl eq_refl)) as (t & Ht & Hr).
  apply wp_bind, wp_bind. unfold wp. rewrite Hr. unfold gets, ret. rewrite load_at_addrs. cbn [ram].
  apply HQ. intros p f' Hp. destruct Ht as [->| ->]; [by rewrite lookup_empty|by rewrite lookup_insert_ne, lookup_empty].
Qed.

(** what the first stage leaves: the kernel with the program in it and the memory map in
    memory, their number at [count] in the page of the boot sector; the variables of the
    kernel at their initial values and a processor with SSE *)
Record loaded (sym : kernel_symbols) (es : list bios_mmap_entry) (file : list Z) (a count : Z) (r : ram_t) (h : cpu) (g : globals) : Prop := mk_loaded {
  ld_map : mmap_at r 0x21000 es;
  ld_map_end : 0x21000 + 24 * Z.of_nat (length es) <= 0x8FF00;
  ld_entries : Forall entry_ok es;
  ld_count : load 8 r count = Z.of_nat (length es);
  ld_count_at : 0x7000 <= count /\ count + 8 <= 0x8000;
  ld_memory : 0x200000 <= usable_end es;
  ld_room : pool_top es + 0x4000 <= VGA_PHYS;
  ld_image : Kernel.elf_image sym = KERNEL_BASE + a;
  ld_image_at : 0x10000 <= a /\ a + Z.of_nat (length file) <= 0x20000;
  ld_file : bytes_at r a file;
  ld_stub : 0 <= syscall_stub sym < 2 ^ 64;
  ld_sse : Z.testbit (cpuid1_edx h) 25 = true;
  ld_efer : 0 <= default 0 (msrs h !! IA32_EFER) < 2 ^ 64;
  ld_idt : length (idt g) = 256%nat;
  ld_pool : next_free g = POOL_START;
  ld_slot : 0 < entry_slot sym <= 4096
}.

Lemma hand_over sym es file a count r0 r h h' g t :
  loaded sym es file a count r0 h g -> boot_tables r0 r ->
  agree (fun b => ~ (0x1000 <= b < 0x9000 \/ 0x8FFFC - 32 <= b < 0x8FFFC)) r0 r ->
  (forall p f', p <> count / 4096 -> t !! p = Some f' -> False) ->
  cpuid1_edx h' = cpuid1_edx h -> (exists efer, msrs h' !! IA32_EFER = Some efer /\ 0 <= efer < 2 ^ 64) ->
  boot_state boot_K sym es file a (mk_machine r t 0x1000 h' g).
Proof.
  intros [M1 M2 M3 M4 M5 M6 M7 M8 M9 M10 M11 M12 M13 M14 M15 M16] Hb Ha Ht Hsse Hef.
  split; cbn [glb hw ram]; try done.
  - apply (kspace_set_tlb boot_K (mk_machine r ∅ 0x1000 h' g) t); [by eapply boot_kspace|].
    intros i f Hi Hf. exfalso. apply (Ht (KVPN + i) f); [|done]. unfold KVPN. dlia.
  - intros b Hb' Hk. unfold ktab, span in Hk. cbn in Hk. lia.
  - by rewrite Hsse.
  - eapply mmap_at_agree; [|exact M1]. eapply agree_weaken; [exact Ha|]. unfold span. cbv beta. lia.
  - split; [done|lia].
  - intros i Hi. rewrite Ha; [by apply M10|]. cbv beta. lia.
Qed.

(** the tables, long mode and [entry64] *)
Lemma wp_hand_over sym es file a count regs s h g (c : Z * Z * Z -> M unit) (Q : unit -> machine -> Prop) E :
  length regs = 8%nat -> Forall (fun v => 0 <= v < 2 ^ 32) regs -> loaded sym es file a count (pm_ram s) h g ->
  (forall m, boot_state boot_K sym es file a m ->
     wp (c (KERNEL_BASE + 0x20FE8, KERNEL_BASE + 0x21000, Z.of_nat (length es))) Q E m) ->
  wp (init_pt 0x8FFFC regs) (fun _ s' => wp (x <- entry64 count ;; c x) Q E (switch_long_mode s' h g)) nostop s.
Proof.
  intros Hl Hr Hld HQ. apply wp_init_pt; [done|done|lia|]. intros s' H3 H4 Hb Ha. unfold switch_long_mode. rewrite H3.
  destruct (ld_count_at _ _ _ _ _ _ _ _ Hld) as [Hc1 Hc2]. destruct (boot_low_pages _ _ Hb) as (L7 & _).
  assert (Hd : count / 4096 = 7 /\ count mod 4096 = count - 0x7000) by dlia. destruct Hd as [Hd Hm].
  apply wp_bind, (wp_entry64 _ count _ _ 0x7000); [lia|lia|change (2 ^ 21) with 2097152; lia|by rewrite Hd|]. intros t Ht.
  assert (load 8 (pm_ram s') (0x7000 + count mod 4096) = Z.of_nat (length es)) as ->.
  { rewrite <- (ld_count _ _ _ _ _ _ _ _ Hld). replace (0x7000 + count mod 4096) with count by lia.
    apply load_agree. intros b Hb'. unfold span in Hb'. change (Z.of_nat 8) with 8 in Hb'. apply (bt_rest _ _ Hb); lia. }
  apply HQ. eapply (hand_over sym es file a count (pm_ram s) _ h); [exact Hld|done|exact Ha|exact Ht|done|].
  cbn [msrs]. rewrite lookup_insert_eq. eexists. split; [done|]. apply lor_u64; [|done]. apply (ld_efer _ _ _ _ _ _ _ _ Hld).
Qed.

(** ** Interrupts before [paging_init] *)

(** the pages used until then: the first 2 MiB, where the trampoline is, and the upper half *)
Definition boot_space : Quiet.
Proof. refine (mk_quiet (fun p => 512 <= p /\ low p) _). unfold low, KVPN. lia. Defined.

Section BootInterrupts.
#[local] Existing Instance boot_space.
Context (data : Z) (Hdata : in_boot_sector data) (r0 : ram_t).

(** the tables of [init_pt] map the boot sector, and the processor has marked the
    descriptors of its code and stack segments accessed *)
Record boot_interruptible m : Prop := mk_boot_interruptible {
  bi_cr3 : cr3 m = 0x1000;
  bi_tables : boot_tables r0 (ram m);
  bi_tlb p f : tlb m !! p = Some f -> p = 7 /\ f = 0x7000;
  bi_gdt (i : nat) v : i = 2%nat \/ i = 3%nat -> gdt_image !! i = Some v ->
    load 8 (ram m) (gdt data + 8 * Z.of_nat i) = Z.setbit v 40
}.

Lemma boot_walk_bytes r a : boot_tables r0 r -> walk_bytes r 0x1000 7 a -> a < 0x9000.
Proof.
  intros Hb. unfold walk_bytes. change (8 * ((7 / 2 ^ 27) mod 512)) with 0. change (8 * ((7 / 2 ^ 18) mod 512)) with 0.
  change (8 * ((7 / 2 ^ 9) mod 512)) with 0. change (7 mod 512) with 7. change (pte_addr 0x1000 + 0) with 0x1000.
  rewrite (bt_t4 _ _ Hb). change (pte_addr 0x5003 + 0) with 0x5000. rewrite (bt_t3 _ _ Hb).
  change (pte_addr 0x6003 + 0) with 0x6000. rewrite (bt_t2 _ _ Hb). change (pte_addr 0x8003) with 0x8000. unfold span. lia.
Qed.

Lemma boot_gdt_ready top m : boot_interruptible m -> 0x9000 + FRAME <= top -> gdt_ready (boot_gdtr data) (frame top) m.
Proof.
  intros [Hc Hb Ht Hg] Htop. destruct (boot_gdtr_range data Hdata) as (Hl & H1 & H2). split; [done|change (2 ^ 63) with 9223372036854775808; lia|].
  change (boot_gdtr data).2 with (gdt data) in *. exists (gdt data).
  assert (H7 : forall i, 0 <= i < 64 -> (gdt data + i) / 4096 = 7 /\ 0x7000 + (gdt data + i) mod 4096 = gdt data + i) by (intros; dlia).
  split_and!; [split| |exact Hg].
  - intros i Hi. destruct (H7 i Hi) as [E7 Em]. split; [split|].
    + apply lower_canonical. change (2 ^ 47) with 140737488355328. lia.
    + rewrite E7. cbn. lia.
    + exists 0x7000. rewrite E7. split; [|done]. split; [rewrite Hc; apply (boot_low_pages _ _ Hb)|].
      intros f Hf. by apply Ht in Hf as [_ ->].
  - intros i Hi a Ha Hf. rewrite (proj1 (H7 i Hi)) in Ha. unfold mbytes in Ha. rewrite Hc in Ha.
    apply boot_walk_bytes in Ha; [|done]. unfold frame, span, FRAME in *. lia.
  - unfold frame, span, FRAME in *. lia.
Qed.

(** the start of [kernel_main] keeps all of it, and loads the interrupt table *)
Lemma wp_boot_start sym k m (Q : unit -> machine -> Prop) E :
  boot_interruptible m -> length (idt (glb m)) = 256%nat -> Z.testbit (cpuid1_edx (hw m)) 25 = true ->
  next_free (glb m) = POOL_START -> 0 <= k < 2 ^ 32 -> 0x21000 + 4096 * map_pages k < KWIN ->
  (forall m', boot_interruptible m' -> kspace boot_K m' -> idt_ready sym m' -> Q tt m') ->
  wp (idt_init sym ;;; sse_init ;;; reserve_boot_pages k) Q E m.
Proof.
  intros [Hc Hb Ht Hg] Hi Hsse Hn Hk Hr HQ.
  assert (Hkm : kspace boot_K m).
  { destruct m as [r t c h g]. cbn [cr3 ram tlb] in *. subst c.
    apply (kspace_set_tlb boot_K (mk_machine r ∅ 0x1000 h g) t); [by eapply boot_kspace|].
    intros i f Hi' [Hp _]%Ht. unfold KVPN in Hp. lia. }
  apply wp_bind, wp_idt_init; [done|]. intros h1 i1 _ Hc1 Hl1.
  apply wp_bind, wp_sse_init; [by cbn; rewrite Hc1|]. intros h2 _ Hl2.
  apply wp_reserve_boot_pages; [done|done|done|]. apply HQ.
  - by split.
  - apply kspace_set_glb, kspace_set_hw, kspace_set_hw, kspace_set_glb. exact Hkm.
  - split; [intros n Hn'; cbn; by apply gates_lookup|]. cbn [hw set_hw set_glb] in *. by rewrite Hl2, Hl1.
Qed.
End BootInterrupts.

(** ** The machine at the first instruction of the boot sector *)

(** the boot sector is in memory and the BIOS reads its disk; the kernel on the disk has
    the program [file] at offset [off]; the variables of the kernel have their initial
    values, and the processor has SSE; the memory map has 2 MiB, and room for the
    kernel's tables below the video memory *)
Record power_on (data : Z) (int13 : Z -> Z * Z * Z -> Z -> option (list Z)) (int15 : ram_t -> Z -> e820) (drive ebx0 : Z)
    (disk : list Z) (cluster : Z) (kernel : list Z) (sym : kernel_symbols) (es : list bios_mmap_entry) (file : list Z) (off : Z)
    (r : ram_t) (h : cpu) (g : globals) : Prop := mk_power_on {
  po_bios : reads_disk int13 drive (sectors_per_track (bpb_of r)) disk;
  po_disk : boot_disk disk (bpb_of r) cluster kernel;
  po_map : reports int15 0 es;
  po_range : Forall entry_range es;
  po_length : (length es <= 2730)%nat;
  po_ebx : 0 <= ebx0 < 65536;
  po_drive : 0 <= drive < 256;
  po_assembled : assembled data r;
  po_count : load 8 r (mmap_entry_count data) = 0;
  po_entries : Forall entry_ok es;
  po_memory : 0x200000 <= usable_end es;
  po_room : pool_top es + 0x4000 <= VGA_PHYS;
  po_off : 0 <= off /\ Z.of_nat (length file) <= Z.of_nat (length kernel) - off;
  po_image : Kernel.elf_image sym = KERNEL_BASE + (0x10000 + off);
  po_file : file `prefix_of` drop (Z.to_nat off) kernel;
  po_stub : 0 <= syscall_stub sym < 2 ^ 64;
  po_sse : Z.testbit (cpuid1_edx h) 25 = true;
  po_efer : 0 <= default 0 (msrs h !! IA32_EFER) < 2 ^ 64;
  po_idt : length (idt g) = 256%nat;
  po_pool : next_free g = POOL_START;
  po_slot : 0 < entry_slot sym <= 4096
}.

(** the switch to protected mode leaves alone what the first stage has loaded *)
Lemma loaded_agree sym es file a data r r' h g :
  0x7C3E <= data -> tss_end data <= 0x7E00 ->
  agree (fun b => ~ (span (gdt data + 48) 12 b \/ span (tss data + 0x66) 2 b)) r r' ->
  loaded sym es file a (mmap_entry_count data) r h g -> loaded sym es file a (mmap_entry_count data) r' h g.
Proof.
  intros Hd He Ha [M1 M2 M3 M4 M5 M6 M7 M8 M9 M10 M11 M12 M13 M14 M15 M16].
  assert (Hg : gdt data = mmap_entry_count data + 8 /\ tss data = gdt data + 74 /\ tss_end data = tss data + 104)
    by (unfold tss_end, tss, gdt_descriptor, gdt_end, gdt; cbn [length gdt_image]; lia).
  split; try done.
  - eapply mmap_at_agree; [eapply agree_weaken; [exact Ha|]|exact M1]. unfold span. lia.
  - rewrite <- M4. apply load_agree. eapply agree_weaken; [exact Ha|]. unfold span. cbn. lia.
  - intros i Hi. rewrite Ha; [by apply M10|]. unfold span. lia.
Qed.

Lemma assembled_agree data n r r' : agree (fun a => ~ first_stage_area data n a) r r' -> assembled data r -> assembled data r'.
Proof.
  intros Ha [A1 A2 A3 A4 A5].
  assert (Hg : gdt data = mmap_entry_count data + 8 /\ gdt_descriptor data = gdt data + 64 /\ tss_end data = gdt data + 178)
    by (unfold tss_end, tss, gdt_descriptor, gdt_end, gdt; cbn [length gdt_image]; lia).
  assert (Hk : forall k a, gdt data <= a -> a + Z.of_nat k <= tss_end data -> load k r' a = load k r a).
  { intros k a H1 H2. apply load_agree. eapply agree_weaken; [exact Ha|]. unfold first_stage_area, span, mmap_entry_count, sector_var,
      track_var, head_var, data_sector_start, root_dir_size, root_dir_start, boot_drive in *. lia. }
  split; try done.
  - intros i v Hi. pose proof (lookup_lt_Some _ _ _ Hi) as Hl. cbn [length gdt_image] in Hl. rewrite Hk by (cbn; lia). by apply A3.
  - rewrite Hk by (cbn; lia). exact A4.
  - rewrite Hk by (cbn; lia). exact A5.
Qed.

(** real mode, from the entry to the far jump *)
Lemma wp_real_mode data int10 int13 int15 drive ebx0 disk cluster kernel sym es file off r h g (Q : Z * Z -> ram_t -> Prop) E :
  power_on data int13 int15 drive ebx0 disk cluster kernel sym es file off r h g ->
  (forall r', loaded sym es file (0x10000 + off) (mmap_entry_count data) r' h g -> Q (63, gdt data) r') ->
  wp (start int10 int13 int15 data (S (length es)) drive 0 ebx0 ;;; switch_protected_mode data) Q E r.
Proof.
  intros [P3 P4 P5 P6 P7 P8 P9 Pa P10 P11 P12 P13 [P14 P15] P16 P17 P18 P19 P20 P21 P22 P23] HQ.
  pose proof (as_data _ _ Pa) as P1. pose proof (as_end _ _ Pa) as Pe.
  assert (P2 : mmap_entry_count data + 8 <= 0x7E00)
    by (unfold tss_end, tss, gdt_descriptor, gdt_end, gdt in Pe; cbn [length gdt_image] in Pe; lia).
  apply wp_bind, (wp_start data P1 P2 int10 int13 int15 False drive ebx0 cluster disk kernel es); [done|by intros []|done..|].
  intros r1 Hk Hm Hc Ha. pose proof (bd_size _ _ _ _ P4).
  assert (Has : assembled data r1) by by eapply assembled_agree.
  apply wp_switch_protected_mode; [done|]. intros r2 _ _ _ _ Ha2. apply HQ.
  eapply (loaded_agree sym es file _ data r1); [done|done|exact Ha2|]. split; try done.
  - lia.
  - unfold mmap_entry_count, sector_var, track_var, head_var, data_sector_start, root_dir_size, root_dir_start, boot_drive in *. lia.
  - lia.
  - destruct P17 as [rest Hrest]. intros i Hi. rewrite <- Z.add_assoc, (Hk (off + i)) by lia.
    rewrite Z2Nat.inj_add by lia. rewrite <- nth_skipn, Hrest. apply app_nth1. lia.
Qed.

(** ** Properties *)

(** C17: [init_pt] builds, in whatever memory it finds, tables that map the kernel's
    window as [kernel_main] needs it and the pages of the trampoline and of the screen
    one to one; the other pages of the first 2 MiB have the entries that memory
    happened to hold, since the tables of the trampoline are not cleared.  The
    registers are restored and nothing else is written. *)
Theorem init_pt_correct esp regs s :
  length regs = 8%nat -> Forall (fun v => 0 <= v < 2 ^ 32) regs -> 0x9020 <= esp ->
  wp (init_pt esp regs)
    (fun l s' => l = regs /\ pm_cr3 s' = 0x1000 /\ pm_cr4 s' = Z.lor (pm_cr4 s) 32 /\
       (forall h g, kspace boot_K (mk_machine (pm_ram s') ∅ (pm_cr3 s') h g)) /\
       walk (pm_ram s') 0x1000 7 = Some 0x7000 /\ walk (pm_ram s') 0x1000 0xB8 = Some 0xB8000 /\
       (forall i, 0 <= i < 512 -> i <> 7 -> i <> 0xB8 ->
          walk (pm_ram s') 0x1000 i =
            let e := load 8 (pm_ram s) (0x8000 + 8 * i) in if present e then Some (pte_addr e) else None) /\
       agree (fun a => ~ (0x1000 <= a < 0x9000 \/ esp - 32 <= a < esp)) (pm_ram s) (pm_ram s')) nostop s.
Proof.
  intros Hl Hr He. apply wp_init_pt; [done..|]. intros s' H3 H4 Hb Ha. rewrite H3.
  destruct (boot_low_pages _ _ Hb) as (L7 & LB & Li). split_and!; try done. intros. by eapply boot_kspace.
Qed.

(** C1: from the first instruction of the boot sector, with the kernel on the disk and its
    program in the kernel, and with no interrupt arriving: the first stage reads the
    kernel and the memory map and loads the descriptor table, [init_pt] and [entry64] pass
    them to [kernel_main], and [kernel_main] puts the program in its address space.  The
    program is not reached: the loader's last read faults, the page fault cannot be
    delivered, since the descriptor table the boot sector has loaded is no longer mapped,
    and the processor shuts down. *)
Theorem power_on_shuts_down data int10 int13 int15 drive ebx0 disk cluster kernel sym es file off hs regs r h g cr3 cr4 :
  power_on data int13 int15 drive ebx0 disk cluster kernel sym es file off r h g ->
  length regs = 8%nat -> Forall (fun v => 0 <= v < 2 ^ 32) regs ->
  loadable file hs -> enough_frames es hs ->
  ~ in_segments hs STACK_PAGE -> ~ in_segments hs (STACK_PAGE - 1) -> ~ in_segments hs 7 -> linked (idt_symbols sym) ->
  wp (start int10 int13 int15 data (S (length es)) drive 0 ebx0 ;;; switch_protected_mode data) (fun gdtr r =>
    wp (init_pt 0x8FFFC regs) (fun _ s =>
      wp (args <- entry64 (mmap_entry_count data) ;; kernel_main sym args.1.2 args.2) (fun _ _ => False)
         (fun e m => running (tables_at es) (entry_slot sym) file hs (idt_symbols sym) e m /\
            forall A c, wp (interrupt A gdtr (idt_symbols sym) 14 (Some 0) 0 c) (fun _ _ => False) (fun e' _ => e' = Shutdown) m)
         (switch_long_mode s h g)) nostop (mk_pmode r cr3 cr4)) nostop r.
Proof.
  intros Hp Hl Hr Hld Hf Hns Hnb Hn7 Hsym.
  assert (Hd : in_boot_sector data) by (split; [apply (as_data _ _ (po_assembled _ _ _ _ _ _ _ _ _ _ _ _ _ _ _ Hp))|
    apply (as_end _ _ (po_assembled _ _ _ _ _ _ _ _ _ _ _ _ _ _ _ Hp))]).
  eapply wp_real_mode; [exact Hp|]. intros r' Hload. assert ((63, gdt data) = boot_gdtr data) as -> by
    (unfold boot_gdtr; rewrite <- (proj1 (boot_gdtr_range data Hd)); done).
  eapply (wp_hand_over sym es file _ _ regs (mk_pmode r' cr3 cr4) h g (fun args => kernel_main sym args.1.2 args.2)); [done|done|exact Hload|].
  intros m Hb. cbv beta. cbn [fst snd].
  eapply wp_mono; [exact (wp_kernel_main boot_K sym es file hs (0x10000 + off) m (fun _ _ => False) Hb Hld Hf Hns Hnb)|done|].
  intros e m' Hrun. split; [done|]. intros A c. by eapply wp_running_shutdown.
Qed.

