(* ===== verification/Demo.v ===== *)
(** A concrete kernel state that satisfies the hypotheses of the theorems: the
    page tables of init_pt.asm, a BIOS memory map, a page-frame bitmap, a heap with
    used and free chunks, and a second page table with one mapped page. *)

From S2P Require Import Prelude Comp Ram Machine KSpace Utils Pmm Vmm VmmMap VmmWalk Space User HeapSpec Heap HeapProps Idt ElfConst ElfFormat Elf Loader Kernel FirstStage Gdt Stubs PagingInit UserRoot Boot Interrupts Bootloader.

(** table entries and words in memory *)
Fixpoint poke8 (a : Z) (l : list Z) (r : ram_t) : ram_t :=
  match l with [] => r | v :: l' => poke8 (a + 8) l' (store 8 a v r) end.

Definition demo_map : list bios_mmap_entry :=
  [mk_mmap_entry 0 0x9FC00 1 1; mk_mmap_entry 0x9FC00 0x400 2 1; mk_mmap_entry 0x100000 0x200000 1 1].

Definition entry_words (e : bios_mmap_entry) : list Z :=
  [base_addr e; length_ e; type_ e + 2 ^ 32 * acpi_ext e].

(** init_pt.asm: PML4 at 0x1000, PDPT at 0x2000, PD at 0x3000, PT at 0x4000 *)
Definition boot_tables (r : ram_t) : ram_t :=
  store 8 (0x1000 + 4088) 0x2003 (store 8 (0x2000 + 4080) 0x3003 (store 8 0x3000 0x4003
    (poke8 0x4000 (map (fun i => 4096 * i + 3) (seqZ 0 512)) r))).

Definition demo_K : ktables := mk_ktables 0x1000 0x2000 0x3000 0x4000.

(** pages 517 and 518 are in use, the other pages from 512 to 527 are free *)
Definition demo_bitmap (r : ram_t) : ram_t := store 2 (0x30000 + 64) 0x0060 (poke8 0x30000 (repeat (2 ^ 64 - 1) 8) r).

(** virtual page 0x400 of the second table is frame 0x205000 *)
Definition demo_user (r : ram_t) : ram_t :=
  store 8 0x50000 0x51007 (store 8 0x51000 0x52007 (store 8 (0x52000 + 16) 0x206007 (store 8 0x206000 0x205005 r))).

Definition demo_chunks : list chunk :=
  [mk_chunk 0x40000 64 true; mk_chunk 0x40060 256 false; mk_chunk 0x40180 16 true; mk_chunk 0x401B0 0x3E30 false].

Fixpoint poke_chunks (cs : list chunk) (r : ram_t) : ram_t :=
  match cs with
  | [] => r
  | c :: cs' => poke_chunks cs' (put_hdr (c_addr c) (c_size c) (b2z (c_used c)) (cptr cs' NULL) r)
  end.

Definition demo_ram : ram_t :=
  boot_tables (demo_bitmap (demo_user (poke_chunks demo_chunks
    (poke8 0x21000 (concat (map entry_words demo_map)) (poke_bytes 0x11000 user_program_elf ∅))))).

Definition no_gate : idt_entry := mk_idt_entry 0 0 0 0 0 0 0.

Definition demo_globals : globals :=
  mk_globals (KERNEL_BASE + 0x60000) (KERNEL_BASE + 0x1000) (KERNEL_BASE + 0x30000) 66 528
    (KERNEL_BASE + 0x40000) (KERNEL_BASE + 0x44000) (mk_heapinfo (KERNEL_BASE + 0x40000) 0x4000)
    (repeat no_gate 256) (mk_idt_ptr 0 0).

Definition demo_cpu : cpu := mk_cpu 0x80000015 0x20 (2 ^ 25) {[0xC0000080 := 0x500]} None false [] [0x1E].

Definition demo : machine := mk_machine demo_ram ∅ 0x1000 demo_cpu demo_globals.

(** ** Its components are in order *)

Lemma demo_window i : 0 <= i < 512 -> load 8 demo_ram (0x4000 + 8 * i) = 4096 * i + 3.
Proof.
  intros Hi. assert (H : forallb (fun i => load 8 demo_ram (0x4000 + 8 * i) =? 4096 * i + 3) (seqZ 0 512) = true)
    by (vm_compute; reflexivity).
  rewrite forallb_forall in H. apply Z.eqb_eq, H, list_elem_of_In, elem_of_seqZ. lia.
Qed.

Lemma demo_upper :
  load 8 demo_ram 0x1FF8 = 0x2003 /\ load 8 demo_ram 0x2FF0 = 0x3003 /\ load 8 demo_ram 0x3000 = 0x4003.
Proof. vm_compute. auto. Qed.

Lemma demo_kspace : kspace demo_K demo.
Proof.
  destruct demo_upper as (U4 & U3 & U2).
  split; cbn [kt4 kt3 kt2 kt1 demo_K cr3 ram tlb demo]; rewrite ?U4, ?U3, ?U2; try reflexivity.
  - intros i Hi. rewrite demo_window, page_entry by lia. rewrite present_lor; [done|]. dlia.
  - intros i Hi. rewrite demo_window, page_entry by lia. apply pte_addr_lor; [lia|dlia|lia].
  - intros i f _. by rewrite lookup_empty.
Qed.

Lemma demo_ktab a : ktab demo_K a -> 0x1000 <= a < 0x5000.
Proof. unfold ktab, span, demo_K. cbn. lia. Qed.

Lemma demo_bitmap_ok : bitmap_ok demo_K demo_globals.
Proof.
  split; unfold bmp, KWIN; cbn [mem_bitmap mem_bitmap_size mem_bitmap_bit_size demo_globals]; [lia|lia|lia|].
  intros a Ha Hk. apply demo_ktab in Hk. unfold span in Ha. lia.
Qed.

Lemma demo_frees i : i ∈ free_set demo <-> i ∈ [512; 513; 514; 515; 516; 519; 520; 521; 522; 523; 524; 525; 526; 527].
Proof.
  assert (H : filter (free_page demo) (seqZ 0 528) = [512; 513; 514; 515; 516; 519; 520; 521; 522; 523; 524; 525; 526; 527])
    by (vm_compute; reflexivity).
  unfold free_set. change (mem_bitmap_bit_size (glb demo)) with 528. rewrite H. apply elem_of_list_to_set.
Qed.

(** the lower half of the first table is empty, and the program image is in place *)
Lemma demo_low i : 0 <= i < 256 -> load 8 demo_ram (0x1000 + 8 * i) = 0.
Proof.
  intros Hi. assert (H : forallb (fun i => load 8 demo_ram (0x1000 + 8 * i) =? 0) (seqZ 0 256) = true)
    by (vm_compute; reflexivity).
  rewrite forallb_forall in H. apply Z.eqb_eq, H, list_elem_of_In, elem_of_seqZ. lia.
Qed.

Lemma demo_image : bytes_at demo_ram 0x11000 user_program_elf.
Proof.
  intros i Hi. assert (H : forallb (fun i => rd demo_ram (0x11000 + i) =? nth (Z.to_nat i) user_program_elf 0)
    (seqZ 0 (Z.of_nat (length user_program_elf))) = true) by (vm_compute; reflexivity).
  rewrite forallb_forall in H. apply Z.eqb_eq, H, list_elem_of_In, elem_of_seqZ. lia.
Qed.

Lemma demo_mmap : mmap_at demo_ram 0x21000 demo_map.
Proof.
  intros i e Hi. do 3 (destruct i as [|i]; [injection Hi as <-; vm_compute; auto|]). by destruct i.
Qed.

Lemma demo_pd d : 1 <= d < 512 -> load 8 demo_ram (0x3000 + 8 * d) = 0.
Proof.
  intros Hd. assert (H : forallb (fun i => load 8 demo_ram (0x3000 + 8 * i) =? 0) (seqZ 1 511) = true)
    by (vm_compute; reflexivity).
  rewrite forallb_forall in H. apply Z.eqb_eq, H, list_elem_of_In, elem_of_seqZ. lia.
Qed.

(* from here on the memory is known by the lemmas about it *)
#[local] Opaque demo_ram.

Lemma demo_free_bound i : i ∈ free_set demo -> 512 <= i < 528 /\ i <> 517 /\ i <> 518.
Proof. rewrite demo_frees, !elem_of_cons, elem_of_nil. lia. Qed.

Lemma demo_tslot a : tslot demo_K a -> 0x4000 <= a < 0x5000.
Proof. unfold tslot, span, demo_K. cbn. lia. Qed.

Lemma demo_vtab a : vtab demo_K 0x1000 a -> 0x1000 <= a < 0x5000.
Proof. intros [H|H]; [by apply demo_ktab|unfold span in H; lia]. Qed.

Lemma demo_own a : own demo_globals a -> 0x30000 <= a < 0x31000.
Proof. cbn. unfold bitmap_bytes, span, bmp. cbn [mem_bitmap mem_bitmap_size demo_globals]. zconst. lia. Qed.

Lemma demo_vga a : vga_bytes a -> ~ ktab demo_K a.
Proof. intros Ha Hk. apply demo_ktab in Hk. unfold vga_bytes, span, VGA_PHYS in Ha. lia. Qed.

Lemma demo_vmm : vmm_ok demo_K 0x1000 demo.
Proof.
  destruct demo_upper as (U4 & U3 & U2).
  apply mk_vmm_ok; cbn [kt4 kt3 kt2 kt1 demo_K ram glb demo pml4t demo_globals]; unfold KWIN.
  - exact demo_kspace.
  - exact demo_bitmap_ok.
  - reflexivity.
  - lia.
  - lia.
  - reflexivity.
  - change (0x1000 + 4088) with 0x1FF8. by rewrite U4.
  - change (0x1000 + 4088) with 0x1FF8. by rewrite U4.
  - lia.
  - lia.
  - lia.
  - lia.
  - intros a Ha. apply demo_own in Ha. split; [intros H; apply demo_vtab in H; lia|intros H; apply demo_tslot in H; lia].
  - intros i Hi. apply demo_free_bound in Hi. lia.
  - intros a Ha H. apply demo_vtab in H. unfold vga_bytes, span, VGA_PHYS in Ha. lia.
Qed.

(** ** The second page table *)
Definition demo_ctx : page_table_t := mk_page_table_t (KERNEL_BASE + 0x50000) false.

Lemma demo_user_entries :
  load 8 demo_ram 0x50000 = 0x51007 /\ load 8 demo_ram 0x51000 = 0x52007 /\
  load 8 demo_ram 0x52010 = 0x206007 /\ load 8 demo_ram 0x206000 = 0x205005 /\
  load 8 demo_ram (0x50000 + 8 * 224) = 0.
Proof. vm_compute. auto. Qed.

(** machines with this memory, whatever they have cached, and no other free frames *)
Record demo_like (m : machine) : Prop := mk_demo_like {
  dl_ram : ram m = demo_ram;
  dl_own : forall a, own (glb m) a -> own demo_globals a;
  dl_free : forall i, i ∈ free_set m -> i ∈ free_set demo
}.

Lemma demo_like_demo : demo_like demo.
Proof. split; [reflexivity|intros a Ha; exact Ha|intros i Hi; exact Hi]. Qed.

Lemma demo_table m P :
  demo_like m -> P mod 4096 = 0 -> 0x50000 <= P < 0x200000 \/ P = 0x206000 -> table_ok demo_K m P.
Proof.
  intros Hl Hm Hp. split; [lia|done| | |cbn; lia].
  - intros H. apply (dl_free _ Hl), demo_free_bound in H. dlia.
  - intros a Ha Ho. apply (dl_own _ Hl), demo_own in Ho. unfold span in Ha. lia.
Qed.

Lemma demo_like_resolves m : demo_like m -> resolves demo_K m 0x50000 (va_path 0x400000) 0x205005.
Proof.
  intros Hl.
  destruct demo_user_entries as (U4 & U3 & U2 & U1 & _).
  change (va_path 0x400000) with [0; 0; 2; 0]. cbn [resolves]. rewrite (dl_ram _ Hl).
  change (8 * 0) with 0. change (8 * 2) with 16. rewrite Z.add_0_r, U4.
  change (pte_addr 0x51007) with 0x51000. rewrite Z.add_0_r, U3.
  change (pte_addr 0x52007) with 0x52000. change (0x52000 + 16) with 0x52010. rewrite U2.
  change (pte_addr 0x206007) with 0x206000. rewrite Z.add_0_r.
  do 10 (apply conj; [first [apply demo_table; [exact Hl|reflexivity|lia] | vm_compute; reflexivity]|]). exact U1.
Qed.

Lemma demo_like_path m : demo_like m -> path_ok demo_K 0x1000 m 0x50000 (va_path 0x400000).
Proof.
  intros Hl.
  destruct demo_user_entries as (U4 & U3 & U2 & U1 & _).
  change (va_path 0x400000) with [0; 0; 2; 0]. cbn [path_ok leaf_slot]. rewrite (dl_ram _ Hl).
  change (8 * 0) with 0. change (8 * 2) with 16. rewrite Z.add_0_r, U4.
  change (pte_addr 0x51007) with 0x51000. rewrite Z.add_0_r, U3.
  change (pte_addr 0x52007) with 0x52000. change (0x52000 + 16) with 0x52010. rewrite U2.
  change (pte_addr 0x206007) with 0x206000. rewrite Z.add_0_r.
  do 3 (apply conj; [apply demo_table; [exact Hl|reflexivity|lia]|]; apply conj; [lia|]; intros _;
    apply conj; [vm_compute; reflexivity|]; apply conj; [|discriminate]).
  apply conj; [apply demo_table; [exact Hl|reflexivity|lia]|]. apply conj; [lia|].
  intros a Ha H. apply demo_vtab in H. unfold span in Ha. lia.
Qed.

Lemma demo_resolves : resolves demo_K demo 0x50000 (va_path 0x400000) 0x205005.
Proof. exact (demo_like_resolves demo demo_like_demo). Qed.

Lemma demo_path : path_ok demo_K 0x1000 demo 0x50000 (va_path 0x400000).
Proof. exact (demo_like_path demo demo_like_demo). Qed.

(** a path with all tables missing: the stack page of user programs *)
Lemma demo_empty_path : path_ok demo_K 0x1000 demo 0x50000 (va_path 0x700000000000) /\
  missing (ram demo) 0x50000 (va_path 0x700000000000) = 3%nat /\
  edit_slot (ram demo) 0x50000 (va_path 0x700000000000) = 0x50000 + 8 * 224.
Proof.
  destruct demo_user_entries as (_ & _ & _ & _ & U). change (va_path 0x700000000000) with [224; 0; 0; 0].
  cbn [path_ok missing edit_slot ram demo length]. rewrite U.
  split; [|split; reflexivity]. apply conj; [apply (demo_table demo _ demo_like_demo); [reflexivity|lia]|]. split; [lia|discriminate].
Qed.

Lemma demo_vstable (W : Z -> Prop) a n :
  (forall b, W b -> ~ (0x1000 <= b < 0x5000)) -> 0 <= a -> a + n <= KWIN -> vstable demo W (KERNEL_BASE + a) a n.
Proof.
  intros HW Ha Hn. apply (kspace_vstable demo_K); [apply demo_kspace|done|done|].
  intros b Hb Hw. by apply (HW b Hw), demo_ktab.
Qed.

Lemma demo_unmap : unmap_pre demo_K 0x1000 demo demo_ctx 0x50000 0x400000 0x205005 0x51000 0x52000 0x206000.
Proof.
  destruct demo_user_entries as (U4 & U3 & U2 & U1 & _).
  split; [apply demo_vmm| |apply demo_path|apply demo_resolves| |split; [vm_compute|cbn]; discriminate|intros _; split; [vm_compute|cbn]; discriminate].
  - apply (demo_vstable nowhere); [by intros b []|lia|unfold KWIN; lia].
  - change (va_path 0x400000) with [0; 0; 2; 0]. cbn [path_tables ram demo].
    change (8 * 0) with 0. change (8 * 2) with 16. rewrite Z.add_0_r, U4.
    change (pte_addr 0x51007) with 0x51000. rewrite Z.add_0_r, U3.
    change (pte_addr 0x52007) with 0x52000. change (0x52000 + 16) with 0x52010. by rewrite U2.
Qed.

(** the same machine with an allocator that has nothing left to give *)
Definition demo_full : machine :=
  set_glb (mk_globals (KERNEL_BASE + 0x60000) (KERNEL_BASE + 0x1000) (KERNEL_BASE + 0x30000) 66 0
    (KERNEL_BASE + 0x40000) (KERNEL_BASE + 0x44000) (mk_heapinfo (KERNEL_BASE + 0x40000) 0x4000)
    (repeat no_gate 256) (mk_idt_ptr 0 0)) demo.

Lemma demo_full_frees : frees demo_full = ∅.
Proof. reflexivity. Qed.

Lemma demo_full_vmm : vmm_ok demo_K 0x1000 demo_full.
Proof.
  destruct demo_vmm. apply mk_vmm_ok; [apply kspace_set_glb; exact demo_kspace| |exact vo_q|exact vo_ql|exact vo_qh
    |exact vo_qm|exact vo_qp|exact vo_qa|exact vo_3|exact vo_2|exact vo_1|exact vo_d|exact vo_own| |exact vo_vga].
  - destruct demo_bitmap_ok. split; [exact bo_lo|exact bo_hi|cbn; lia|exact bo_tab].
  - intros i Hi. rewrite demo_full_frees in Hi. destruct (not_elem_of_empty _ Hi).
Qed.

Lemma demo_full_path : path_ok demo_K 0x1000 demo_full 0x50000 (va_path 0x400000) /\
  missing (ram demo_full) 0x50000 (va_path 0x400000) = O.
Proof.
  split.
  - apply demo_like_path. split; [reflexivity|intros a Ha; exact Ha|]. intros i Hi.
    change (i ∈ frees demo_full) in Hi. rewrite demo_full_frees in Hi. destruct (not_elem_of_empty _ Hi).
  - destruct demo_user_entries as (U4 & U3 & U2 & _ & _). change (va_path 0x400000) with [0; 0; 2; 0].
    cbn [missing ram demo_full set_glb demo]. change (8 * 0) with 0. change (8 * 2) with 16.
    rewrite Z.add_0_r, U4. change (pte_addr 0x51007) with 0x51000. rewrite Z.add_0_r, U3.
    change (pte_addr 0x52007) with 0x52000. change (0x52000 + 16) with 0x52010. rewrite U2. reflexivity.
Qed.

(** the same machine with the translation of 0x400000 cached *)
Definition demo_cached : machine := set_tlb {[0x400 := 0x205000]} demo.

Lemma demo_cached_unmap :
  unmap_pre demo_K 0x1000 demo_cached demo_ctx 0x50000 0x400000 0x205005 0x51000 0x52000 0x206000.
Proof.
  assert (Hk : kspace demo_K demo_cached).
  { apply kspace_set_tlb; [exact demo_kspace|]. intros i f Hi. rewrite lookup_singleton_ne; [discriminate|].
    unfold KVPN. lia. }
  destruct demo_unmap. destruct um_ok. apply mk_unmap_pre.
  - apply mk_vmm_ok; [exact Hk|assumption..].
  - apply (kspace_vmap demo_K); [exact Hk|lia|unfold KWIN; lia].
  - apply demo_like_path. split; [reflexivity|intros a Ha; exact Ha|intros i Hi; exact Hi].
  - apply demo_like_resolves. split; [reflexivity|intros a Ha; exact Ha|intros i Hi; exact Hi].
  - exact um_tabs.
  - exact um_frame.
  - exact um_table.
Qed.

Lemma demo_only : only_entry (ram demo) 0x206000 (pt_index 0x400000) = true.
Proof. vm_compute. reflexivity. Qed.

(** ** The heap *)
Lemma demo_heap : heap_rep demo_K 0x40000 0x44000 demo_chunks demo.
Proof.
  split; try reflexivity; unfold KWIN; try lia.
  - apply demo_kspace.
  - intros a Ha Hk. apply demo_ktab in Hk. lia.
  - unfold demo_chunks. cbn [ordered c_addr c_size]. unfold c_end, HDR. cbn [c_addr c_size]. split_and!; (reflexivity || lia).
  - vm_compute. auto 20.
Qed.

Lemma demo_heap_inv : heap_inv 0x40000 0x44000 demo_chunks.
Proof. split; [reflexivity|vm_compute; auto 10]. Qed.

(** ** The first table as the address space of a program *)

Lemma demo_uas : uas demo_K 0x1000 0x1000 (KERNEL_BASE + 0x1000) demo {[0x1000 := []]} ∅.
Proof.
  assert (Habs : forall i, 0 <= i < 256 -> present (load 8 (ram demo) (0x1000 + 8 * i)) = false)
    by (intros i Hi; change (ram demo) with demo_ram; by rewrite demo_low).
  split; try (intros ? ?; rewrite lookup_empty; discriminate).
  - exact demo_vmm.
  - split.
    + apply lookup_singleton_eq.
    + intros t pre [<- <-]%lookup_singleton_Some. split; [cbn; lia|]. split; [lia|reflexivity| | |cbn; lia].
      * intros H. apply demo_free_bound in H. dlia.
      * intros a Ha Ho. apply demo_own in Ho. unfold span in Ha. lia.
    + intros t pre i [<- <-]%lookup_singleton_Some _ [Hi Hi0] Hpe. specialize (Hi0 eq_refl).
      rewrite Habs in Hpe by lia. discriminate.
    + intros t pre [<- <-]%lookup_singleton_Some. discriminate.
  - apply (kspace_vstable demo_K); [exact demo_kspace|lia|unfold KWIN; lia|].
    intros a Ha [[Ho|[Ht|[(j & Hj & Hja)|(t & pre & i & [<- <-]%lookup_singleton_Some & [Hi Hi0] & Hs)]]]|(p & f & Hp & _)].
    + apply demo_own in Ho. apply demo_ktab in Ha. lia.
    + unfold tslot, ktab, span in *. cbn in *. lia.
    + apply demo_free_bound in Hj. apply demo_ktab in Ha. unfold span in Hja. lia.
    + specialize (Hi0 eq_refl). unfold ktab, span in *. cbn in *. lia.
    + rewrite lookup_empty in Hp. discriminate.
  - reflexivity.
  - intros p Hp Hl. rewrite lookup_empty. unfold walk. rewrite (pte_addr_aligned 0x1000) by (lia || reflexivity).
    rewrite Habs; [reflexivity|]. unfold low in Hl. change (2 ^ 35) with 34359738368 in Hl.
    change (2 ^ 27) with 134217728. dlia.
Qed.

Lemma demo_frames : (8 <= size (frees demo))%nat.
Proof.
  change (frees demo) with (free_set demo).
  assert (H : free_set demo = list_to_set [512; 513; 514; 515; 516; 519; 520; 521; 522; 523; 524; 525; 526; 527]).
  { apply set_eq. intros i. rewrite demo_frees, elem_of_list_to_set. reflexivity. }
  rewrite H, size_list_to_set; [cbn; lia|]. apply (bool_decide_unpack (NoDup _)). vm_compute. exact I.
Qed.

(** ** The state at boot *)

Lemma demo_kernel_space : kernel_space demo_K 0x1000 demo.
Proof.
  destruct demo_upper as (U4 & U3 & U2).
  apply mk_kernel_space; cbn [kt4 kt3 kt2 kt1 demo_K ram glb demo tlb].
  - exact demo_vmm.
  - reflexivity.
  - change (0x1000 + 4088) with 0x1FF8. rewrite U4. reflexivity.
  - intros i Hi. rewrite demo_low by lia. reflexivity.
  - intros d Hd. rewrite demo_pd by lia. reflexivity.
  - lia.
  - intros a Ha Ho. apply demo_own in Ho. unfold span in Ha. lia.
  - intros p f H. rewrite lookup_empty in H. discriminate.
Qed.

Definition boot_globals : globals :=
  mk_globals POOL_START 0 0 0 0 0 0 (mk_heapinfo 0 0) (repeat no_gate 256) (mk_idt_ptr 0 0).
Definition boot_machine : machine := set_glb boot_globals demo.

Definition demo_symbols : symbols := 
  mk_symbols (fun n => KERNEL_BASE + 0x12000 + 16 * (n mod 32)) (fun n => KERNEL_BASE + 0x13000 + 16 * (n mod 2))
    (KERNEL_BASE + 0x16000).
Definition demo_kernel : kernel_symbols :=
  mk_kernel_symbols demo_symbols (KERNEL_BASE + 0x11000) (KERNEL_BASE + 0x15000) 0x18 0x68.

Lemma demo_entries : Forall entry_ok demo_map.
Proof. repeat constructor; cbn; lia. Qed.

Lemma demo_boot_state : boot_state demo_K demo_kernel demo_map user_program_elf 0x11000 boot_machine.
Proof.
  apply mk_boot_state.
  - apply kspace_set_glb. exact demo_kspace.
  - intros a Ha H. apply demo_ktab in H. lia.
  - reflexivity.
  - reflexivity.
  - reflexivity.
  - cbn [syscall_stub demo_kernel]. zconst. lia.
  - exists 0x500. split; [reflexivity|lia].
  - exact demo_mmap.
  - exact demo_entries.
  - vm_compute. discriminate.
  - vm_compute. discriminate.
  - cbn. lia.
  - split; [reflexivity|]. split; [lia|]. vm_compute. discriminate.
  - exact demo_image.
Qed.

Lemma demo_enough : enough_frames demo_map [user_program_phdr].
Proof.
  split.
  - assert (H : ((4 * page_count [user_program_phdr] + 6) <=? length (boot_frees demo_map))%nat = true) by (vm_compute; reflexivity).
    apply Nat.leb_le. exact H.
  - exists 512. split; [|lia]. apply boot_frees_spec. split; [vm_compute; split; [discriminate|reflexivity]|vm_compute; reflexivity].
Qed.

(** ** The kernel at work, when an interrupt arrives *)

Definition demo_abi : abi :=
  mk_abi (fun _ => KERNEL_BASE + 0x14000) (fun _ _ g r => if bool_decide (r ∈ callee_saved) then g r else 0).

Lemma demo_abi_ok : abi_ok demo_abi.
Proof.
  split; [intros; cbn; zconst; lia|]. intros f m g r Hr. cbn [after_call demo_abi]. rewrite bool_decide_eq_true_2; [reflexivity|exact Hr].
Qed.

Lemma demo_linked : linked demo_symbols.
Proof.
  assert (Hv : forall n, 0 <= n < 34 -> vector demo_symbols n =
    if n <? 32 then KERNEL_BASE + 0x12000 + 16 * n else KERNEL_BASE + 0x13000 + 16 * (n - 32)).
  { intros n Hn. unfold vector. destruct (Z.ltb_spec n 32); cbn; rewrite Z.mod_small by lia; reflexivity. }
  split.
  - intros n Hn. rewrite Hv by lia. zconst. destruct (n <? 32) eqn:E; lia.
  - intros n n' Hn Hn'. rewrite !Hv by lia. destruct (Z.ltb_spec n 32), (Z.ltb_spec n' 32); lia.
  - cbn [idt_addr demo_symbols]. unfold IDT_ENTRIES, KWIN. lia.
Qed.

(** the memory with the trampoline of [init_pt] and the descriptors in the boot sector *)
Definition live_ram : ram_t :=
  poke8 (gdt 0x7D00 + 16) [0x00CF93000000FFFF; 0x00AF9B000000FFFF] (trampoline demo_ram).

Lemma live_tables : Bootloader.boot_tables live_ram live_ram.
Proof.
  assert (H : forallb (fun i => load 8 live_ram (0x4000 + 8 * i) =? 4096 * i + 3) (seqZ 0 512) &&
              forallb (fun i => load 8 live_ram (0x1000 + 8 * i) =? 0) (seqZ 1 510) = true) by (vm_compute; reflexivity).
  apply andb_prop in H as [H1 H0]. rewrite forallb_forall in H1, H0.
  split.
  - vm_compute. reflexivity.
  - vm_compute. reflexivity.
  - vm_compute. reflexivity.
  - intros i Hi. apply Z.eqb_eq, H1, list_elem_of_In, elem_of_seqZ. lia.
  - intros i Hi. apply Z.eqb_eq, H0, list_elem_of_In, elem_of_seqZ. lia.
  - vm_compute. reflexivity.
  - vm_compute. reflexivity.
  - vm_compute. reflexivity.
  - vm_compute. reflexivity.
  - vm_compute. reflexivity.
  - intros. reflexivity.
Qed.

Lemma live_gdt (i : nat) v : i = 2%nat \/ i = 3%nat -> gdt_image !! i = Some v ->
  load 8 live_ram (gdt 0x7D00 + 8 * Z.of_nat i) = Z.setbit v 40.
Proof. intros [-> | ->] [= <-]; vm_compute; reflexivity. Qed.

#[local] Opaque live_ram.

Lemma demo_sector : in_boot_sector 0x7D00.
Proof. split; vm_compute; discriminate. Qed.

(** at the entry of [kernel_main], and after its [reserve_boot_pages] *)
Definition start_machine : machine := mk_machine live_ram ∅ 0x1000 demo_cpu boot_globals.
Definition live_machine : machine :=
  mk_machine live_ram ∅ 0x1000
    (mk_cpu 0x80000015 0x620 (2 ^ 25) {[0xC0000080 := 0x500]} (Some (4095, KERNEL_BASE + 0x16000)) true [] [0x1E])
    (set_next_free (KERNEL_BASE + 0x22000) (set_idt (gates demo_symbols (repeat no_gate 256)) boot_globals)).

Definition live_context : context :=
  mk_context (fun r => if bool_decide (r = RSP) then KERNEL_BASE + 0x20FE8 else 7) (KERNEL_BASE + 0x10123) 0x18 0x202 0x10.

Lemma live_kspace : kspace demo_K live_machine.
Proof. exact (boot_kspace live_ram live_ram _ _ live_tables). Qed.

Lemma live_context_ok : context_ok live_context.
Proof.
  split; cbn [rip cs rflags ss live_context]; try (zconst; lia). intros r. cbn [gpr live_context].
  destruct (bool_decide (r = RSP)); zconst; lia.
Qed.

Lemma live_idt : idt_ready demo_symbols live_machine.
Proof. split; [|reflexivity]. intros n Hn. apply gates_lookup. exact Hn. Qed.

Lemma start_interruptible : boot_interruptible 0x7D00 live_ram start_machine.
Proof. split; [reflexivity|exact live_tables|intros p f H; change (tlb start_machine) with (∅ : gmap Z Z) in H; rewrite lookup_empty in H; discriminate|exact live_gdt]. Qed.

Lemma live_interruptible : boot_interruptible 0x7D00 live_ram live_machine.
Proof. split; [reflexivity|exact live_tables|intros p f H; change (tlb live_machine) with (∅ : gmap Z Z) in H; rewrite lookup_empty in H; discriminate|exact live_gdt]. Qed.

Lemma live_kernel : kernel_context (QT := boot_space) demo_K (boot_gdtr 0x7D00) demo_symbols live_context 0x20FE0 live_machine.
Proof.
  split.
  - exact live_context_ok.
  - reflexivity.
  - reflexivity.
  - exists 0x20FE8. split; reflexivity.
  - unfold FRAME, KWIN. lia.
  - exact live_kspace.
  - intros a Ha Hk. apply demo_ktab in Hk. unfold frame, span, FRAME in Ha. lia.
  - exact live_idt.
  - apply (boot_gdt_ready 0x7D00 demo_sector live_ram); [exact live_interruptible|unfold FRAME; lia].
Qed.
