(* ===== verification/Witness.v ===== *)
(** Instances of the properties at the concrete state of Demo.v: the hypotheses of
    every theorem can be met together. *)

From S2P Require Import Prelude Comp Ram Machine KSpace Utils Pmm FrameRuns Vmm VmmMap VmmWalk Space User UserRuns HeapSpec Heap HeapRealloc HeapProps HeapRuns Idt Isr ElfConst ElfFormat ElfArch ElfNotes ElfRelocs Elf Loader ElfWrite SharedPages Kernel FirstStage Gdt Stubs PagingInit UserRoot Boot Interrupts Bootloader Demo.
From Stdlib Require Import String.

#[local] Opaque demo_ram live_ram.

(** ** Page frames *)

Lemma demo_pmm_init : pmm_init_pre demo_K demo_map 0x21000 demo.
Proof.
  split; [exact demo_kspace| |exact demo_mmap|lia|unfold KWIN; cbn; lia|vm_compute; discriminate
         |vm_compute; discriminate|vm_compute; reflexivity| |].
  - repeat constructor; vm_compute; (discriminate || reflexivity).
  - intros a Ha Hk. apply demo_ktab in Hk. change (span 0x60000 96 a) in Ha. unfold span in Ha. lia.
  - intros a Ha Hs. change (span 0x60000 96 a) in Ha. change (span 0x21000 72 a) in Hs. unfold span in *. lia.
Qed.

Lemma pmm_init_correct_witness :
  exists m', pmm_init (KERNEL_BASE + 0x21000) 3 demo = Ret tt m' /\ free_page m' 600 /\ ~ free_page m' 500.
Proof.
  destruct (wp_nostop_ret _ _ _ (pmm_init_correct demo_K demo_map 0x21000 demo demo_pmm_init))
    as ([] & m' & Hrun & _ & _ & _ & Hf).
  exists m'. split; [exact Hrun|]. split.
  - apply Hf. split; [vm_compute; split; congruence|reflexivity].
  - intros H. apply Hf in H. lia.
Defined.

Lemma pmm_alloc_first_fit_witness : exists r m', pmm_alloc demo = Ret r m' /\ r <> NULL.
Proof.
  destruct (wp_nostop_ret _ _ _ (pmm_alloc_first_fit demo_K demo demo_kspace demo_bitmap_ok))
    as (r & m' & Hrun & [(i & -> & Hi & _)|(_ & Hno & _)]).
  - exists (i * PAGE_SIZE), m'. split; [exact Hrun|]. apply elem_of_free_set, demo_free_bound in Hi.
    unfold PAGE_SIZE, NULL. lia.
  - destruct (Hno 512). apply elem_of_free_set, demo_frees. by left.
Defined.

Lemma pmm_free_marks_witness : exists m', pmm_free 0x205000 demo = Ret tt m' /\ free_page m' 517.
Proof.
  destruct (wp_nostop_ret _ _ _ (pmm_free_marks demo_K demo 0x205000 demo_kspace demo_bitmap_ok ltac:(lia)))
    as ([] & m' & Hrun & Hs & _ & Hb).
  exists m'. split; [exact Hrun|]. unfold free_page. rewrite (ws_glb _ _ _ Hs), Hb by done.
  split; [vm_compute; split; congruence|reflexivity].
Defined.

Lemma demo_has_free : exists i, free_page demo i.
Proof. exists 512. apply elem_of_free_set, demo_frees. by left. Qed.

Lemma pmm_alloc_free_witness :
  exists m', (p <- pmm_alloc ;; pmm_free p) demo = Ret tt m' /\ forall i, free_page m' i <-> free_page demo i.
Proof.
  destruct (wp_nostop_ret _ _ _ (pmm_alloc_free demo_K demo demo_kspace demo_bitmap_ok demo_has_free))
    as ([] & m' & Hrun & H). exists m'. exact (conj Hrun H).
Defined.

Lemma pmm_alloc_distinct_witness : exists p q m',
  (p <- pmm_alloc ;; q <- pmm_alloc ;; ret (p, q)) demo = Ret (p, q) m' /\ (p = NULL \/ q = NULL \/ p <> q).
Proof.
  destruct (wp_nostop_ret _ _ _ (pmm_alloc_distinct demo_K demo demo_kspace demo_bitmap_ok)) as ([p q] & m' & Hrun & H).
  exists p, q, m'. exact (conj Hrun H).
Defined.

Lemma pmm_frames_conserved_witness : exists i m,
  runs (frame_step pmm_alloc pmm_free) [Take; Give i] (demo, ∅) (m, ∅) /\
  forall j, free_page demo j <-> free_page m j \/ j ∈ (∅ : gset Z).
Proof.
  assert (Hz : ~ free_page demo 0) by (intros H; apply elem_of_free_set, demo_free_bound in H; lia).
  assert (Hz' : 0 ∉ frees demo) by (intros H; apply demo_free_bound in H; lia).
  assert (Hne : frees demo <> ∅).
  { destruct demo_has_free as [i Hi]. apply elem_of_free_set in Hi. intros He. change (free_set demo = ∅) in He. rewrite He in Hi.
    exact (not_elem_of_empty i Hi). }
  destruct (take_give_run (FA := pmm_frame_allocator) demo_K demo demo_bitmap_ok Hz' demo_kspace Hne) as (i & m & Hrun).
  destruct (pmm_frames_conserved demo_K _ demo m ∅ demo_kspace demo_bitmap_ok Hz Hrun) as [Hall _].
  exists i, m. exact (conj Hrun Hall).
Defined.

(** ** Virtual memory *)

Lemma demo_stack_room : (missing (ram demo) 0x50000 (va_path 0x700000000000) <= size (frees demo))%nat.
Proof.
  destruct demo_empty_path as (_ & -> & _).
  assert (Hsub : (list_to_set [512; 513; 514] : gset Z) ⊆ frees demo).
  { intros i Hi. apply elem_of_list_to_set in Hi. apply demo_frees. rewrite !elem_of_cons, elem_of_nil in *. tauto. }
  apply subseteq_size in Hsub. etrans; [|exact Hsub]. vm_compute. lia.
Qed.

(** a run that must not stop, from its two postconditions *)
Lemma wp_run {A} (c : M A) Q E m : wp c Q E m -> (forall e m', ~ E e m') -> exists a m', c m = Ret a m' /\ Q a m'.
Proof. unfold wp. destruct (c m) as [a m'|e m']; intros H HE; [by exists a, m'|by destruct (HE e m')]. Qed.

Lemma demo_ctx_stable (W : Z -> Prop) :
  (forall b, W b -> ~ (0x1000 <= b < 0x5000)) -> vstable demo W (ctx_pml4t demo_ctx) 0x50000 4096.
Proof. intros HW. apply demo_vstable; [done|lia|unfold KWIN; lia]. Qed.

Lemma demo_own_stable : vstable demo (own (glb demo)) (ctx_pml4t demo_ctx) 0x50000 4096.
Proof. apply demo_ctx_stable. intros b Hb. apply demo_own in Hb. lia. Qed.

Lemma map_page_correct_witness :
  exists m', map_page demo_ctx 0x700000000000 0x20F000 0x7 demo = Ret tt m' /\
    walk (ram m') 0x50000 (0x700000000000 / 4096) = Some 0x20F000.
Proof.
  destruct demo_empty_path as (Hp & _).
  destruct (wp_run _ _ _ _ (map_page_correct demo_K 0x1000 demo demo_ctx 0x50000 0x700000000000 0x20F000 0x7
    demo_vmm demo_own_stable Hp ltac:(lia) eq_refl ltac:(lia) eq_refl eq_refl)) as ([] & m' & Hrun & Hw & _).
  - intros e m' [_ Hlt]. pose proof demo_stack_room. lia.
  - exists m'. exact (conj Hrun Hw).
Defined.

(** the pages of the kernel window are untouched by mapping a user page *)
Lemma demo_window_safe a : walk_bytes (ram demo) 0x1000 (KVPN + 0xB8) a ->
  ~ own (glb demo) a /\ ~ tslot demo_K a /\ ~ free_pages (frees demo) a.
Proof.
  intros Ha. apply (kspace_bytes demo_K demo 0xB8 a demo_kspace ltac:(lia)) in Ha.
  unfold demo_K, span in Ha. cbn [kt4 kt3 kt2 kt1] in Ha. split_and!.
  - intros Ho. apply demo_own in Ho. lia.
  - unfold tslot, span, demo_K. cbn [kt1]. lia.
  - intros (i & Hi & Hs). apply demo_free_bound in Hi. unfold span in Hs. lia.
Qed.

Lemma map_page_keeps_others_witness :
  exists m', map_page demo_ctx 0x700000000000 0x20F000 0x7 demo = Ret tt m' /\
    walk (ram m') 0x1000 (KVPN + 0xB8) = Some 0xB8000.
Proof.
  destruct demo_empty_path as (Hp & _ & He).
  assert (Hab : present (load 8 (ram demo) (edit_slot (ram demo) 0x50000 (va_path 0x700000000000))) = false).
  { rewrite He. destruct demo_user_entries as (_&_&_&_&U). cbn [ram demo]. by rewrite U. }
  pose proof (proj1 (kspace_maps demo_K demo 0xB8 demo_kspace ltac:(lia))) as Hw.
  pose proof (map_page_correct demo_K 0x1000 demo demo_ctx 0x50000 0x700000000000 0x20F000 0x7
    demo_vmm demo_own_stable Hp ltac:(lia) eq_refl ltac:(lia) eq_refl eq_refl) as Hrun.
  pose proof (map_page_keeps_others demo_K 0x1000 demo demo_ctx 0x50000 0x700000000000 0x20F000 0x7
    0x1000 (KVPN + 0xB8) 0xB8000 demo_vmm demo_own_stable Hp ltac:(lia) eq_refl ltac:(lia) eq_refl Hab Hw
    demo_window_safe) as Hkeep.
  unfold wp in *. destruct (map_page _ _ _ _ demo) as [[] m'|e m'].
  - exists m'. exact (conj eq_refl Hkeep).
  - exfalso. pose proof demo_stack_room. destruct Hrun as [_ Hlt]. lia.
Defined.

Lemma map_without_memory_witness :
  exists m', (phys_addr <- pmm_alloc ;; map_page demo_ctx 0x400000 phys_addr 0x5) demo_full = Ret tt m' /\
    walk (ram m') 0x50000 0x400 = Some 0.
Proof.
  destruct demo_full_path as [Hp Hm].
  assert (Hst : vstable demo_full (own (glb demo_full)) (ctx_pml4t demo_ctx) 0x50000 4096).
  { apply (kspace_vstable demo_K); [apply demo_full_vmm|lia|unfold KWIN; lia|].
    intros b Hk Hb. apply demo_own in Hb. apply demo_ktab in Hk. lia. }
  pose proof (map_without_memory demo_K 0x1000 demo_full demo_ctx 0x50000 0x400000 0x5 demo_full_vmm Hst Hp) as H.
  specialize (H demo_full_frees Hm ltac:(lia) eq_refl eq_refl).
  destruct (wp_nostop_ret _ _ _ H) as ([] & m' & Hrun & Hw).
  exists m'. exact (conj Hrun Hw).
Defined.

Lemma get_physical_address_correct_witness :
  exists m', get_physical_address demo_ctx 0x400123 demo = Ret 0x205123 m'.
Proof.
  assert (Hst : vmap demo (ctx_pml4t demo_ctx) 0x50000 4096).
  { apply (demo_ctx_stable nowhere). by intros b []. }
  destruct (wp_nostop_ret _ _ _ (get_physical_address_correct demo_K 0x1000 demo demo_ctx 0x50000 0x400123 0x205005
    demo_vmm Hst demo_resolves eq_refl)) as (r & m' & Hrun & f & Hw & -> & _).
  pose proof (resolves_walk demo_K demo 0x50000 0x400123 _ demo_resolves eq_refl) as Hw'.
  rewrite Hw' in Hw. injection Hw as <-. exists m'. exact Hrun.
Defined.

Lemma map_then_get_witness :
  exists m', (map_page demo_ctx 0x700000000000 0x20F000 0x7 ;;; get_physical_address demo_ctx 0x700000000000) demo
             = Ret 0x20F000 m'.
Proof.
  destruct demo_empty_path as (Hp & _ & He).
  assert (Hst : vstable demo (writes demo_K demo (edit_slot (ram demo) 0x50000 (va_path 0x700000000000)))
                  (ctx_pml4t demo_ctx) 0x50000 4096).
  { apply (kspace_vstable demo_K); [exact demo_kspace|lia|unfold KWIN; lia|]. rewrite He. intros b Hk.
    pose proof (demo_ktab b Hk) as Hb. unfold ktab, writes, tslot, span in *. cbn [kt4 kt3 kt2 kt1 demo_K] in *.
    intros [Ho|[Ho|[(i & Hi & Hs)|Ho]]].
    - apply demo_own in Ho. lia.
    - lia.
    - apply demo_free_bound in Hi. unfold span in Hs. lia.
    - lia. }
  destruct (wp_run _ _ _ _ (map_then_get demo_K 0x1000 demo demo_ctx 0x50000 0x700000000000 0x20F000 0x7
    demo_vmm Hst Hp ltac:(lia) eq_refl ltac:(lia) eq_refl)) as (r & m' & Hrun & Hr).
  - intros e m' [_ Hlt]. pose proof demo_stack_room. lia.
  - exists m'. rewrite Hrun, Hr. reflexivity.
Defined.

Lemma unmap_page_correct_witness :
  exists m', unmap_page demo_ctx 0x400000 demo = Ret tt m' /\ walk (ram m') 0x50000 0x400 = None.
Proof.
  destruct (wp_nostop_ret _ _ _ (unmap_page_correct demo_K 0x1000 demo demo_ctx 0x50000 0x400000 _ _ _ _ demo_unmap))
    as ([] & m' & Hrun & Hw & _).
  exists m'. exact (conj Hrun Hw).
Defined.

Lemma unmap_page_dangling_witness :
  exists m', unmap_page demo_ctx 0x400000 demo = Ret tt m' /\ 0x206 ∈ frees m'.
Proof.
  destruct (wp_nostop_ret _ _ _ (unmap_page_dangling demo_K 0x1000 demo demo_ctx 0x50000 0x400000 _ _ _ _ demo_unmap
    demo_only ltac:(reflexivity))) as ([] & m' & Hrun & Hf & _).
  exists m'. exact (conj Hrun Hf).
Defined.

Lemma map_page_stale_witness : exists m',
  map_page demo_ctx 0x400000 0x20F000 0x7 demo_cached = Ret tt m' /\
  walk (ram m') 0x50000 0x400 = Some 0x20F000 /\ translate 0x400000 m' = Ret 0x205000 m'.
Proof.
  destruct demo_full_path as [_ Hm]. destruct demo_cached_unmap as [Hv _ Hp _ _ _ _].
  assert (Hst : vstable demo_cached (own (glb demo_cached)) (ctx_pml4t demo_ctx) 0x50000 4096).
  { apply (kspace_vstable demo_K); [apply Hv|lia|unfold KWIN; lia|].
    intros b Hk Hb. apply demo_own in Hb. apply demo_ktab in Hk. lia. }
  pose proof (map_page_stale demo_K 0x1000 demo_cached demo_ctx 0x50000 0x400000 0x20F000 0x7 0x205000 Hv Hst Hp) as H.
  specialize (H ltac:(lia) eq_refl ltac:(lia) eq_refl eq_refl). specialize (H eq_refl ltac:(discriminate) eq_refl).
  destruct (wp_run _ _ _ _ H) as ([] & m' & Hrun & Hw & Ht).
  { intros e m' [_ Hlt]. change (missing (ram demo_cached) 0x50000 (va_path 0x400000))
      with (missing (ram demo_full) 0x50000 (va_path 0x400000)) in Hlt. rewrite Hm in Hlt. lia. }
  exists m'. exact (conj Hrun (conj Hw Ht)).
Defined.

Lemma unmap_page_stale_witness :
  exists m', unmap_page demo_ctx 0x400000 demo_cached = Ret tt m' /\ 0x205 ∈ frees m' /\
    translate 0x400000 m' = Ret 0x205000 m'.
Proof.
  pose proof (unmap_page_stale demo_K 0x1000 demo_cached demo_ctx 0x50000 0x400000 _ _ _ _ demo_cached_unmap) as H.
  specialize (H eq_refl). specialize (H ltac:(discriminate)). specialize (H eq_refl).
  specialize (H ltac:(reflexivity)).
  destruct (wp_nostop_ret _ _ _ H) as ([] & m' & Hrun & _ & Hf & Ht).
  exists m'. exact (conj Hrun (conj Hf Ht)).
Defined.

Lemma temp_map_correct_witness : exists m', temp_map 0x205000 demo = Ret tt m' /\ vmap m' TEMP_PAGE 0x205000 4096.
Proof.
  destruct (wp_nostop_ret _ _ _ (temp_map_correct demo_K 0x1000 demo 0x205000 demo_vmm ltac:(lia) eq_refl))
    as ([] & m' & Hrun & Hm & _).
  exists m'. exact (conj Hrun Hm).
Defined.

Lemma paging_init_correct_witness : exists m', paging_init demo = Ret tt m' /\ mwalk m' 0 = None.
Proof.
  assert (Hsep : forall a, span 0x60000 0x4000 a -> ~ ktab demo_K a).
  { intros a Ha Hk. apply demo_ktab in Hk. unfold span in Ha. lia. }
  destruct (wp_nostop_ret _ _ _ (paging_init_correct demo_K 0x60000 demo demo_kspace eq_refl ltac:(lia)
    ltac:(unfold KWIN; lia) eq_refl Hsep)) as ([] & m' & Hrun & _ & Hw & _).
  exists m'. split; [exact Hrun|]. rewrite Hw. reflexivity.
Defined.

(** ** The heap: blocks 0x40000 and 0x40180 are in use *)

Local Abbreviation lo := 0x40000.
Local Abbreviation hi := 0x44000.
Local Abbreviation c0 := (mk_chunk 0x40000 64 true).
Local Abbreviation c1 := (mk_chunk 0x40060 256 false).
Local Abbreviation c2 := (mk_chunk 0x40180 16 true).
Local Abbreviation c3 := (mk_chunk 0x401B0 0x3E30 false).

Lemma heap_init_correct_witness : exists m', heap_init demo = Ret tt m'.
Proof.
  assert (Hsep : forall a, lo <= a < hi -> ~ ktab demo_K a).
  { intros a Ha Hk. apply demo_ktab in Hk. lia. }
  destruct (wp_nostop_ret _ _ _ (heap_init_correct demo_K lo hi demo demo_kspace ltac:(lia) eq_refl eq_refl
    ltac:(unfold HDR; lia) ltac:(unfold KWIN; lia) eq_refl eq_refl Hsep)) as ([] & m' & Hrun & _).
  exists m'. exact Hrun.
Defined.

Lemma kalloc_refines_witness :
  exists m', kalloc 100 demo = Ret (KERNEL_BASE + 0x40080) m' /\
    heap_rep demo_K lo hi [c0; mk_chunk 0x40060 112 true; mk_chunk 0x400F0 112 false; c2; c3] m'.
Proof.
  destruct (wp_nostop_ret _ _ _ (kalloc_refines demo_K lo hi 100 demo_chunks demo demo_heap))
    as (r & m' & Hrun & H & _).
  change (first_fit (round16 100) demo_chunks) with
    (Some (0x40080, [c0; mk_chunk 0x40060 112 true; mk_chunk 0x400F0 112 false; c2; c3])) in H.
  destruct H as [-> H]. exists m'. exact (conj Hrun H).
Defined.

Lemma kalloc_block_witness : exists r m', kalloc 100 demo = Ret r m'.
Proof.
  destruct (wp_nostop_ret _ _ _ (kalloc_block demo_K lo hi 100 demo_chunks demo demo_heap ltac:(lia)))
    as (r & m' & Hrun & _).
  exists r, m'. exact Hrun.
Defined.

Lemma kalloc_fails_iff_witness : exists m', kalloc 0x4000 demo = Ret NULL m'.
Proof.
  destruct (wp_nostop_ret _ _ _ (kalloc_fails_iff demo_K lo hi 0x4000 demo_chunks demo demo_heap))
    as (r & m' & Hrun & H).
  exists m'. rewrite Hrun. f_equal. apply H. repeat constructor.
Defined.

Lemma kalloc_wraps_witness : exists r m', kalloc (2 ^ 64 - 1) demo = Ret r m' /\ r <> NULL.
Proof.
  destruct (wp_nostop_ret _ _ _ (kalloc_wraps demo_K lo hi (2 ^ 64 - 1) demo_chunks demo demo_heap ltac:(lia)
    ltac:(apply Exists_cons_tl, Exists_cons_hd; reflexivity))) as (r & m' & Hrun & _ & H).
  exists r, m'. exact (conj Hrun H).
Defined.

Lemma kfree_refines_witness :
  exists m', kfree (KERNEL_BASE + 0x401A0) demo = Ret tt m' /\
    heap_rep demo_K lo hi [c0; mk_chunk 0x40060 0x3F80 false] m'.
Proof.
  destruct (wp_nostop_ret _ _ _ (kfree_refines demo_K lo hi [c0; c1] c2 [c3] demo demo_heap eq_refl eq_refl))
    as ([] & m' & Hrun & H & _).
  exists m'. exact (conj Hrun H).
Defined.

Lemma kfree_ignores_witness : exists m', kfree NULL demo = Ret tt m'.
Proof.
  destruct (wp_nostop_ret _ _ _ (kfree_ignores demo_K lo hi [c0] c1 [c2; c3] demo NULL demo_heap (or_introl eq_refl)))
    as ([] & m' & Hrun & _).
  exists m'. exact Hrun.
Defined.

Lemma kalloc_kfree_roundtrip_witness :
  exists m', (p <- kalloc 100 ;; kfree p) demo = Ret tt m' /\ heap_rep demo_K lo hi demo_chunks m'.
Proof.
  destruct (wp_nostop_ret _ _ _ (kalloc_kfree_roundtrip demo_K lo hi 100 demo_chunks demo demo_heap eq_refl eq_refl))
    as ([] & m' & Hrun & H).
  exists m'. exact (conj Hrun H).
Defined.

Lemma heap_ops_invariant_witness :
  (exists r m', kalloc 100 demo = Ret r m') /\ (exists m', kfree (KERNEL_BASE + 0x40020) demo = Ret tt m').
Proof.
  destruct (heap_ops_invariant demo_K lo hi 100 [] c0 [c1; c2; c3] demo demo_heap demo_heap_inv eq_refl) as [Ha Hf].
  destruct (wp_nostop_ret _ _ _ Ha) as (r & m1 & H1 & _), (wp_nostop_ret _ _ _ Hf) as ([] & m2 & H2 & _).
  split; [exists r, m1; exact H1|exists m2; exact H2].
Defined.

Lemma krealloc_refines_witness :
  exists m', krealloc (KERNEL_BASE + 0x40020) 1000 demo = Ret (KERNEL_BASE + 0x401D0) m' /\
    moved 0x40020 0x401D0 64 demo m'.
Proof.
  destruct (wp_nostop_ret _ _ _ (krealloc_refines demo_K lo hi [] c0 [c1; c2; c3] 1000 demo demo_heap eq_refl eq_refl
    ltac:(vm_compute; discriminate) ltac:(discriminate))) as (r & m' & Hrun & H).
  assert (Hres : resize (payload c0) (round16 1000) c0 ([] ++ c0 :: [c1; c2; c3]) =
    Some (0x401D0, [mk_chunk 0x40000 352 false; c2; mk_chunk 0x401B0 1008 true; mk_chunk 0x405C0 0x3A20 false]))
    by reflexivity.
  rewrite Hres in H. destruct H as (-> & _ & _ & Hm). exists m'. exact (conj Hrun Hm).
Defined.

Lemma krealloc_grow_leaks_witness :
  exists m', krealloc (KERNEL_BASE + 0x40020) 128 demo = Ret (KERNEL_BASE + 0x40020) m'.
Proof.
  destruct (wp_nostop_ret _ _ _ (krealloc_grow_leaks demo_K lo hi [] c0 c1 [c2; c3] 128 demo demo_heap eq_refl eq_refl
    ltac:(vm_compute; split; congruence) ltac:(vm_compute; congruence))) as (r & m' & Hrun & -> & _).
  exists m'. exact Hrun.
Defined.

(** a heap that is one block, in use or free *)
Definition one_heap (b : bool) : machine := set_ram (put_hdr lo 0x3FE0 (b2z b) NULL demo_ram) demo.

Lemma demo_null_entry : load 8 demo_ram 0x1000 = 0.
Proof. vm_compute. reflexivity. Qed.

Lemma one_heap_rep b : heap_rep demo_K lo hi [mk_chunk lo 0x3FE0 b] (one_heap b).
Proof.
  split; try reflexivity; unfold KWIN; try lia.
  - apply (kspace_frame demo_K demo); [exact demo_kspace|by unfold one_heap; cbn [cr3 set_ram demo]| |].
    2: { intros i f _. change (tlb (one_heap b)) with (∅ : gmap Z Z). rewrite lookup_empty. discriminate. }
    unfold one_heap, put_hdr. cbn [ram set_ram demo].
    assert (Hst : forall n a v r, lo <= a -> agree (ktab demo_K) r (store n a v r)).
    { intros n a v r Ha. apply agree_store. intros x Hx Hk. apply demo_ktab in Hk. unfold span in Hx. lia. }
    etrans; [|etrans]; apply Hst; lia.
  - intros a Ha Hk. apply demo_ktab in Hk. lia.
  - cbn [app ordered c_addr c_size]. unfold c_end, HDR. cbn [c_addr c_size]. split_and!; (reflexivity || lia).
  - cbn [app headers c_addr c_size c_used cptr one_heap ram set_ram]. unfold put_hdr.
    split_and!; ram_load; by destruct b.
Qed.

(** page 0 has no entry in the root *)
Lemma null_page_root m : load 8 (ram m) 0x1000 = 0 -> cr3 m = 0x1000 -> tlb m = ∅ -> null_page lo hi m.
Proof.
  intros Hl Hc Ht. unfold null_page, mwalk, walk, mbytes, walk_bytes. rewrite Hc, Ht, lookup_empty.
  change (pte_addr 0x1000 + 8 * ((0 / 2 ^ 27) mod 512)) with 0x1000. rewrite Hl.
  split; [reflexivity|]. split; [reflexivity|]. intros a [Ha|Ha] Hin; unfold in_heap, span in *; [lia|].
  by destruct Ha.
Qed.

Lemma one_heap_null b : null_page lo hi (one_heap b).
Proof.
  apply null_page_root; [|reflexivity|reflexivity]. unfold one_heap, put_hdr. cbn [ram set_ram]. ram_load.
  exact demo_null_entry.
Qed.

Lemma krealloc_last_faults_witness :
  exists m', krealloc (KERNEL_BASE + (lo + 32)) 0x8000 (one_heap true) = Stop (PageFault 8) m'.
Proof.
  destruct (one_heap_null true) as (Hw & Ht & _).
  pose proof (krealloc_last_faults demo_K lo hi [] (mk_chunk lo 0x3FE0 true) 0x8000 (one_heap true) (one_heap_rep true)
    eq_refl eq_refl Hw Ht) as H.
  unfold wp in H. change (payload (mk_chunk lo 0x3FE0 true)) with (lo + 32) in H.
  destruct (krealloc (KERNEL_BASE + (lo + 32)) 0x8000 (one_heap true)) as [r m'|e m']; [destruct H|].
  exists m'. rewrite H. reflexivity.
Defined.

(** runs of a client: one block allocated, and more *)
Lemma demo_null : null_page lo hi demo.
Proof. by apply null_page_root; [exact demo_null_entry|..]. Qed.

Lemma first_call cs m size : heap_rep demo_K lo hi cs m -> null_page lo hi m -> sound_size size ->
  (exists p r, first_fit (round16 size) cs = Some (p, r)) ->
  exists r m' cs', r <> NULL /\ heap_step (CAlloc size) (m, ∅) (m', {[r := bytes_of m' r size]}) /\
    client demo_K lo hi cs' m' {[r := bytes_of m' r size]}.
Proof.
  intros Hr Hn Hs (p & r0 & Hf).
  pose proof (wp_and _ _ _ _ _ _ (kalloc_null demo_K lo hi size cs m Hr)
    (wp_client_alloc demo_K lo hi cs m ∅ size (client_start demo_K lo hi cs m Hr Hn) Hs)) as H.
  destruct (wp_run _ _ _ _ H) as (r & m' & Hrun & Hne & cs' & Hc & _); [by intros e m' [? _]|].
  assert (Hne' : r <> NULL) by (intros E; apply Hne in E; congruence).
  rewrite decide_False in Hc by done. exists r, m', cs'. split; [done|]. split; [|exact Hc].
  pose proof (step_alloc size m ∅ r m' Hs Hrun) as Hst. rewrite decide_False in Hst by done. exact Hst.
Qed.

Lemma demo_first : exists r m' cs', r <> NULL /\ heap_step (CAlloc 100) (demo, ∅) (m', {[r := bytes_of m' r 100]}) /\
    client demo_K lo hi cs' m' {[r := bytes_of m' r 100]}.
Proof.
  apply (first_call demo_chunks); [exact demo_heap|exact demo_null|unfold sound_size; lia|].
  eexists _, _. vm_compute. reflexivity.
Qed.

Lemma heap_client_safe_witness : exists p m,
  heap_run [CAlloc 100] (demo, ∅) (m, {[p := bytes_of m p 100]}) /\ p mod 16 = 0 /\ KERNEL_BASE + lo <= p.
Proof.
  destruct demo_first as (p & m & cs & _ & Hst & _).
  pose proof (runs_cons heap_step _ _ _ _ _ Hst (runs_nil heap_step _)) as Hrun.
  destruct (heap_client_safe demo_K lo hi [CAlloc 100] demo_chunks demo m _ demo_heap demo_null Hrun) as [Hs _].
  destruct (Hs p _ (lookup_singleton_eq p _)) as (H16 & Hlo & _).
  exists p, m. exact (conj Hrun (conj H16 Hlo)).
Defined.

Lemma heap_client_progress_witness : exists p m s,
  heap_run [CAlloc 100] (demo, ∅) (m, {[p := bytes_of m p 100]}) /\
  heap_step (CWrite p 99 0x41) (m, {[p := bytes_of m p 100]}) s.
Proof.
  destruct demo_first as (p & m & cs & _ & Hst & _).
  pose proof (runs_cons heap_step _ _ _ _ _ Hst (runs_nil heap_step _)) as Hrun.
  assert (Ha : admissible {[p := bytes_of m p 100]} (CWrite p 99 0x41)).
  { split; [|lia]. eexists. split; [apply lookup_singleton_eq|]. unfold size_of. rewrite length_bytes_of. lia. }
  destruct (heap_client_progress demo_K lo hi [CAlloc 100] demo_chunks demo m _ _ demo_heap demo_null Hrun Ha)
    as [[s Hs]|(cs' & q & n & m' & E & _)]; [|discriminate E].
  exists p, m, s. exact (conj Hrun Hs).
Defined.

Lemma free_run : exists p m, heap_run [CAlloc 100; CFree p] (one_heap false, ∅) (m, ∅).
Proof.
  destruct (first_call [mk_chunk lo 0x3FE0 false] (one_heap false) 100) as (p & m & cs & _ & Hst & Hc);
    [apply one_heap_rep|apply one_heap_null|unfold sound_size; lia|eexists _, _; vm_compute; reflexivity|].
  assert (Hp : is_Some ({[p := bytes_of m p 100]} !! p : option (list Z))) by (eexists; apply lookup_singleton_eq).
  destruct (wp_nostop_ret _ _ _ (wp_client_free demo_K lo hi cs m _ p Hc Hp)) as ([] & m2 & Hrun & _).
  pose proof (step_free p m _ m2 Hp Hrun) as Hst2. rewrite delete_singleton_eq in Hst2.
  exists p, m2. eapply runs_cons; [exact Hst|]. eapply runs_cons; [exact Hst2|apply runs_nil].
Qed.

Lemma heap_all_freed_witness : exists p m, heap_run [CAlloc 100; CFree p] (one_heap false, ∅) (m, ∅) /\
  heap_rep demo_K lo hi [mk_chunk lo 0x3FE0 false] m.
Proof.
  destruct free_run as (p & m & Hrun).
  pose proof (heap_all_freed demo_K lo hi [CAlloc 100; CFree p] (mk_chunk lo 0x3FE0 false) (one_heap false) m) as H.
  specialize (H (one_heap_rep false) (one_heap_null false) eq_refl). specialize (H (conj eq_refl eq_refl) eq_refl Hrun).
  exists p, m. exact (conj Hrun H).
Defined.

(** ** Interrupts, screen, registers *)

Lemma idt_set_gate_correct_witness : exists m', idt_set_gate 14 0xFFFFFFFF80012345 demo = Ret tt m'.
Proof.
  destruct (wp_nostop_ret _ _ _ (idt_set_gate_correct 14 0xFFFFFFFF80012345 demo ltac:(unfold IDT_ENTRIES; lia)
    eq_refl ltac:(lia))) as ([] & m' & Hrun & _).
  exists m'. exact Hrun.
Defined.

Lemma demo_vector n : 0 <= vector demo_symbols n < 2 ^ 64.
Proof. unfold vector. pose proof (Z.mod_pos_bound n 32). pose proof (Z.mod_pos_bound (n - 32) 2). destruct (n <? 32); cbn; zconst; lia. Qed.

Lemma idt_init_vectors_witness : exists m', idt_init demo_symbols demo = Ret tt m' /\ iflag (hw m') = true.
Proof.
  destruct (wp_nostop_ret _ _ _ (idt_init_vectors demo_symbols demo eq_refl demo_vector))
    as ([] & m' & Hrun & _ & _ & _ & Hi & _).
  exists m'. exact (conj Hrun Hi).
Defined.


(** a run that must stop *)
Lemma wp_stops {A} (c : M A) E m : wp c (fun _ _ => False) E m -> exists e m', c m = Stop e m' /\ E e m'.
Proof. unfold wp. destruct (c m) as [a m'|e m']; [done|]. intros H. by exists e, m'. Qed.

Lemma isr_handler_reports_witness : exists m', isr_handler 14 demo = Stop Halted m' /\
  drawn (ram m') (at_xy 11 10) (text_cells 0x0C00 "Page Fault").
Proof.
  destruct (wp_stops _ _ _ (isr_handler_reports demo_K 14 demo demo_vga demo_kspace ltac:(lia)))
    as (e & m' & Hrun & -> & _ & _ & H & _).
  exists m'. exact (conj Hrun H).
Defined.

Lemma print_hex_roundtrip_witness : exists m', print_hex 0xDEADBEEF 6 11 demo = Ret tt m'.
Proof.
  destruct (wp_nostop_ret _ _ _ (print_hex_roundtrip demo_K 0xDEADBEEF 6 11 demo demo_vga demo_kspace ltac:(lia)
    ltac:(lia) ltac:(lia) ltac:(lia))) as ([] & m' & Hrun & _).
  exists m'. exact Hrun.
Defined.

Lemma demo_pair : vstable demo (span 0x70000 100) (KERNEL_BASE + 0x70000) 0x70000 100 /\
  vstable demo (span 0x70000 100) (KERNEL_BASE + 0x71000) 0x71000 100.
Proof. split; (apply demo_vstable; [unfold span; lia|lia|unfold KWIN; lia]). Qed.

Lemma memcpy_correct_witness :
  exists m', memcpy (KERNEL_BASE + 0x70000) (KERNEL_BASE + 0x71000) 100 demo = Ret (KERNEL_BASE + 0x70000) m' /\
    copied 0x70000 0x71000 100 (ram demo) (ram m').
Proof.
  destruct (wp_nostop_ret _ _ _ (memcpy_correct demo _ _ 0x70000 0x71000 100 ltac:(lia) ltac:(lia)
    (proj1 demo_pair) (proj2 demo_pair))) as (r & m' & Hrun & -> & _ & H).
  exists m'. exact (conj Hrun H).
Defined.

Lemma memset_correct_witness :
  exists m', memset (KERNEL_BASE + 0x70000) 0xFF 100 demo = Ret (KERNEL_BASE + 0x70000) m'.
Proof.
  destruct (wp_nostop_ret _ _ _ (memset_correct demo _ 0x70000 0xFF 100 ltac:(lia) (proj1 demo_pair)))
    as (r & m' & Hrun & -> & _).
  exists m'. exact Hrun.
Defined.

Lemma alloc_page_correct_witness : exists r m', alloc_page demo = Ret r m'.
Proof.
  destruct (wp_nostop_ret _ _ _ (alloc_page_correct demo ltac:(vm_compute; split; congruence))) as (r & m' & Hrun & _).
  exists r, m'. exact Hrun.
Defined.

Lemma panic_reports_witness : exists m', (panic "SSE not supported" : M unit) demo = Stop Halted m'.
Proof.
  destruct (wp_stops _ _ _ (panic_reports demo_K "SSE not supported" demo demo_vga demo_kspace eq_refl ltac:(cbn; lia)))
    as (e & m' & Hrun & -> & _).
  exists m'. exact Hrun.
Defined.

Lemma msr_roundtrip_witness :
  exists m', (write_msr 0xC0000082 0xFFFFFFFF80015000 ;;; read_msr 0xC0000082) demo = Ret 0xFFFFFFFF80015000 m'.
Proof.
  destruct (wp_nostop_ret _ _ _ (msr_roundtrip 0xC0000082 0xFFFFFFFF80015000 demo ltac:(lia))) as (r & m' & Hrun & ->).
  exists m'. exact Hrun.
Defined.

(** ** Loader and kernel *)

Definition no_regs : regs_t := mk_regs 0 0 0 0 0 0 0 0 0 0 0 0 0 0 0 0.
Definition demo_task : task := mk_task 1 (KERNEL_BASE + 0x50000) no_regs 0.

Lemma demo_no_elf : header_error (fun i => rd (ram demo) (0x13000 + i)) = Some 0x10.
Proof. vm_compute. reflexivity. Qed.

Lemma load_elf_rejects_witness : exists m', load_elf 0x68 demo_task (KERNEL_BASE + 0x13000) demo = Ret 0x10 m'.
Proof.
  assert (Hv : vmap demo (KERNEL_BASE + 0x13000) 0x13000 64).
  { apply (kspace_vmap demo_K); [exact demo_kspace|lia|unfold KWIN; lia]. }
  destruct (wp_nostop_ret _ _ _ (load_elf_rejects 0x68 demo_task _ 0x13000 0x10 demo Hv demo_no_elf)) as (r & m' & Hrun & -> & _).
  exists m'. exact Hrun.
Defined.

Lemma segment_covered_witness : seg_pages 0x400000 192 = 1 /\ 0x4000C0 <= seg_start 0x400000 + 4096 * seg_pages 0x400000 192.
Proof.
  split; [reflexivity|].
  destruct (segment_covered 0x400000 192 ltac:(lia) ltac:(lia) ltac:(lia)) as (_ & _ & H & _). exact H.
Defined.

Lemma enable_syscall_star_witness : exists m', enable_syscall demo_kernel demo = Ret tt m'.
Proof.
  destruct (wp_nostop_ret _ _ _ (enable_syscall_star demo_kernel 0x500 demo ltac:(cbn; lia)
    ltac:(cbn; zconst; lia) eq_refl ltac:(lia))) as ([] & m' & Hrun & _).
  exists m'. exact Hrun.
Defined.

Lemma sse_init_correct_witness : exists m', sse_init demo = Ret tt m' /\ Z.testbit (cr4 (hw m')) 9 = true.
Proof.
  destruct (wp_run _ _ _ _ (sse_init_correct demo_K demo demo_vga demo_kspace)) as ([] & m' & Hrun & _ & _ & _ & H).
  - intros e m' (_ & Hb & _). discriminate Hb.
  - exists m'. split; [exact Hrun|]. by rewrite H.
Defined.

Lemma syscall_handler_reports_witness : exists m', syscall_handler demo = Stop Halted m'.
Proof.
  destruct (wp_stops _ _ _ (syscall_handler_reports demo_K demo demo_vga demo_kspace)) as (e & m' & Hrun & -> & _).
  exists m'. exact Hrun.
Defined.

(** ** Programs *)

Definition demo_root_task : task := mk_task 1 (KERNEL_BASE + 0x1000) no_regs 0.

Lemma memcpy_to_user_witness : exists m', memcpy 0x400000 (KERNEL_BASE + 0x11000) 0 demo = Ret 0x400000 m'.
Proof.
  destruct (wp_nostop_ret _ _ _ (memcpy_to_user demo_K 0x1000 0x1000 (KERNEL_BASE + 0x1000) demo {[0x1000 := []]} ∅ 0x400000 0x11000 0
    demo_uas ltac:(lia) ltac:(lia) ltac:(lia) ltac:(lia) ltac:(unfold KWIN; lia) ltac:(unfold span; lia))) as (r & m' & Hrun & -> & _).
  exists m'. exact Hrun.
Defined.

Lemma four_frames : (4 <= size (frees demo))%nat.
Proof. pose proof demo_frames. lia. Qed.

Lemma alloc_map_inserts_witness : exists m', (phys_addr <- pmm_alloc ;; map_page (mk_page_table_t (KERNEL_BASE + 0x1000) false) 0x400000 phys_addr 7) demo = Ret tt m'.
Proof.
  pose proof (alloc_map_inserts demo_K 0x1000 0x1000 (KERNEL_BASE + 0x1000) demo {[0x1000 := []]} ∅ false 0x400000 7) as H.
  specialize (H demo_uas ltac:(lia) (lookup_empty _)). specialize (H ltac:(lia) eq_refl eq_refl four_frames).
  destruct (wp_nostop_ret _ _ _ H) as ([] & m' & Hrun & _).
  exists m'. exact Hrun.
Defined.

Lemma map_page_in_space_witness : exists m', map_page (mk_page_table_t (KERNEL_BASE + 0x1000) false) 0x400000 0x300000 7 demo = Ret tt m' /\
  walk (ram m') 0x1000 0x400 = Some 0x300000 /\ walk (ram m') 0x1000 0x401 = walk (ram demo) 0x1000 0x401.
Proof.
  pose proof (map_page_in_space demo_K 0x1000 0x1000 demo {[0x1000 := []]} (mk_page_table_t (KERNEL_BASE + 0x1000) false) 0x400000 0x300000 7) as H.
  specialize (H (uas_user_space _ _ _ _ _ _ _ demo_uas)). specialize (H ltac:(lia) ltac:(lia) eq_refl ltac:(lia) eq_refl eq_refl).
  destruct (wp_run _ _ _ _ H) as ([] & m' & Hrun & _ & Hw & _).
  - intros e m' [_ Hlt]. pose proof four_frames. lia.
  - exists m'. split; [exact Hrun|]. split.
    + rewrite (Hw 0x400) by (unfold low; lia). rewrite decide_True by reflexivity. reflexivity.
    + rewrite (Hw 0x401) by (unfold low; lia). rewrite decide_False; [reflexivity|]. vm_compute. discriminate.
Defined.

(** ** A program with two pages *)

Lemma demo_cold : cold demo.
Proof. intros p f _ _. change (tlb demo) with (∅ : gmap Z Z). rewrite lookup_empty. discriminate. Qed.

Lemma demo_client : tenant demo_K 0x1000 0x1000 (KERNEL_BASE + 0x1000) (fun _ => None) (demo, ∅).
Proof. split; [exact (ex_intro _ {[0x1000 := []]} demo_uas)|exact demo_cold|discriminate]. Qed.

Lemma user_flags : flags_ok 7.
Proof. split; [lia|]. split; reflexivity. Qed.

Lemma holds_nothing held s : tenant demo_K 0x1000 0x1000 (KERNEL_BASE + 0x1000) held s ->
  tenant demo_K 0x1000 0x1000 (KERNEL_BASE + 0x1000) (fun _ => None) s.
Proof. intros [H1 H2 _]. split; [exact H1|exact H2|discriminate]. Qed.

Lemma two_pages : exists m f g, runs (space_step 0x1000 (KERNEL_BASE + 0x1000)) [Map 0x400 7; Map 0x401 7] (demo, ∅) (m, <[0x401 := g]> {[0x400 := f]}) /\
  tenant demo_K 0x1000 0x1000 (KERNEL_BASE + 0x1000) (fun _ => None) (m, <[0x401 := g]> {[0x400 := f]}).
Proof.
  pose proof (wp_tenant_map demo_K 0x1000 0x1000 (KERNEL_BASE + 0x1000) (fun _ => None) demo ∅ 0x400 7 demo_client) as H1.
  specialize (H1 ltac:(lia) eq_refl user_flags four_frames).
  destruct (wp_nostop_ret _ _ _ H1) as ([] & m1 & R1 & f & W1 & _ & S1 & C1). clear H1. apply holds_nothing in C1.
  assert (H4 : (4 <= size (frees m1))%nat) by (pose proof demo_frames; lia).
  pose proof (wp_tenant_map demo_K 0x1000 0x1000 (KERNEL_BASE + 0x1000) (fun _ => None) m1 (<[0x400 := f]> ∅) 0x401 7 C1) as H2.
  specialize (H2 ltac:(lia) eq_refl user_flags H4).
  destruct (wp_nostop_ret _ _ _ H2) as ([] & m2 & R2 & g & W2 & _ & _ & C2). clear H2. apply holds_nothing in C2.
  pose proof (step_map 0x1000 (KERNEL_BASE + 0x1000) 0x400 7 f demo ∅ m1) as T1.
  specialize (T1 ltac:(lia) eq_refl user_flags four_frames R1 W1).
  pose proof (step_map 0x1000 (KERNEL_BASE + 0x1000) 0x401 7 g m1 (<[0x400 := f]> ∅) m2) as T2.
  specialize (T2 ltac:(lia) eq_refl user_flags H4 R2 W2).
  exists m2, f, g. split; [|exact C2]. exact (runs_cons _ _ _ _ _ _ T1 (runs_cons _ _ _ _ _ _ T2 (runs_nil _ _))).
Qed.

Lemma two_pages_neighbour (f g : Z) : has_neighbour (<[0x401 := g]> {[0x400 := f]}) 0x400.
Proof. exists 0x401. split; [|split; [lia|reflexivity]]. exists g. apply lookup_insert_eq. Qed.

Lemma two_pages_lookup (f g : Z) : (<[0x401 := g]> {[0x400 := f]} : gmap Z Z) !! 0x400 = Some f.
Proof. rewrite lookup_insert_ne by lia. apply lookup_singleton_eq. Qed.

Lemma unmap_deletes_witness : exists m m' f g, unmap_page (mk_page_table_t (KERNEL_BASE + 0x1000) false) 0x400000 m = Ret tt m' /\
  exists tb, uas demo_K 0x1000 0x1000 (KERNEL_BASE + 0x1000) m' tb (delete 0x400 (<[0x401 := g]> {[0x400 := f]})).
Proof.
  destruct two_pages as (m & f & g & _ & [[tb Hu] Hc _]). cbn [fst snd] in Hu, Hc.
  assert (Ht : tlb m !! 0x400 = None).
  { destruct (tlb m !! 0x400) as [h|] eqn:E; [|reflexivity]. destruct (Hc 0x400 h ltac:(lia) eq_refl E). }
  destruct (wp_nostop_ret _ _ _ (unmap_deletes demo_K 0x1000 0x1000 (KERNEL_BASE + 0x1000) m tb _ false 0x400000 f
    Hu ltac:(lia) (two_pages_lookup f g) Ht (two_pages_neighbour f g))) as ([] & m' & Hrun & Hu' & _).
  exists m, m', f, g. split; [exact Hrun|]. exists tb. exact Hu'.
Defined.

Lemma space_client_witness : exists m f g, runs (space_step 0x1000 (KERNEL_BASE + 0x1000)) [Map 0x400 7; Map 0x401 7] (demo, ∅) (m, <[0x401 := g]> {[0x400 := f]}) /\
  walk (ram m) 0x1000 0x401 = Some g /\ walk (ram m) 0x1000 0x402 = None.
Proof.
  destruct two_pages as (m & f & g & Hrun & _).
  destruct (space_client demo_K 0x1000 0x1000 (KERNEL_BASE + 0x1000) _ demo _ ∅ m _ demo_uas demo_cold Hrun) as (Hw & _).
  exists m, f, g. split; [exact Hrun|]. split.
  - rewrite (Hw 0x401) by (unfold low; lia). apply lookup_insert_eq.
  - rewrite (Hw 0x402) by (unfold low; lia). rewrite lookup_insert_ne by lia. apply lookup_singleton_ne. lia.
Defined.

Lemma demo_program_apart a : span 0x11000 (Z.of_nat (Datatypes.length user_program_elf)) a ->
  ~ area demo_K (glb demo) (frees demo) {[0x1000 := []]} a.
Proof.
  change (Z.of_nat (Datatypes.length user_program_elf)) with 928.
  intros Ha [Ho|[Ht|[(j & Hj & Hja)|(t & pre & i & [<- <-]%lookup_singleton_Some & [Hi _] & Hs)]]].
  - apply demo_own in Ho. unfold span in Ha. lia.
  - apply demo_tslot in Ht. unfold span in Ha. lia.
  - apply demo_free_bound in Hj. unfold span in *. lia.
  - unfold span in *. lia.
Qed.

Lemma program_pages : ~ in_segments [user_program_phdr] STACK_PAGE /\ ~ in_segments [user_program_phdr] (STACK_PAGE - 1) /\
  ~ in_segments [user_program_phdr] 7.
Proof. rewrite !user_program_pages. vm_compute. split_and!; discriminate. Qed.

Lemma load_elf_faults_witness : exists m', load_elf 0x68 demo_root_task (KERNEL_BASE + 0x11000) demo = Stop (PageFault (0x700000000000 - 0x68)) m'.
Proof.
  destruct user_program_loadable as (Hld & _ & Hc). destruct program_pages as (Hns & Hnb & _).
  pose proof (load_elf_faults demo_K 0x1000 0x1000 0x68 demo_root_task 0x11000 user_program_elf [user_program_phdr] demo {[0x1000 := []]} ∅) as H.
  specialize (H demo_uas demo_image Hld). specialize (H ltac:(lia) ltac:(lia) ltac:(vm_compute; discriminate) ltac:(vm_compute; reflexivity)).
  specialize (H demo_program_apart (fun p _ => lookup_empty p) Hns Hnb). rewrite Hc in H. specialize (H demo_frames).
  destruct (wp_stops _ _ _ H) as (e & m' & Hrun & -> & _).
  exists m'. exact Hrun.
Defined.

(** a header table that lists the segment of the program twice *)
Lemma demo_phdr : phdr_at (ram demo) (0x11000 + 0x40) user_program_phdr.
Proof. exact (read_phdr_at (ram demo) 0x11000 user_program_elf 0x40 user_program_phdr demo_image ltac:(vm_compute; reflexivity)). Qed.

Lemma demo_one_page : one_page 928 user_program_phdr.
Proof.
  split; [reflexivity| |vm_compute; reflexivity]. unfold phdr_ok. cbn [ph_vaddr ph_filesz ph_memsz ph_offset user_program_phdr].
  change (2 ^ 47) with 140737488355328. lia.
Qed.

Lemma shared_page_lost_witness : exists m1 m2 f g,
  load_segment demo_root_task (KERNEL_BASE + 0x11000) (KERNEL_BASE + (0x11000 + 0x40)) demo = Ret tt m1 /\
  load_segment demo_root_task (KERNEL_BASE + 0x11000) (KERNEL_BASE + (0x11000 + 0x40)) m1 = Ret tt m2 /\
  mwalk m2 0x400 = Some g /\ tlb m2 !! 0x400 = Some f /\ g <> f.
Proof.
  pose proof (shared_page_lost demo_K 0x1000 0x1000 demo_root_task 0x11000 928 demo {[0x1000 := []]} ∅ 0x40 0x40
    user_program_phdr user_program_phdr) as H.
  specialize (H demo_uas ltac:(lia) ltac:(vm_compute; discriminate) ltac:(lia) ltac:(lia) demo_phdr demo_one_page).
  specialize (H ltac:(vm_compute; reflexivity) ltac:(lia) ltac:(lia) demo_phdr demo_one_page eq_refl (lookup_empty _) demo_frames).
  specialize (H demo_program_apart).
  destruct (wp_nostop_ret _ _ _ H) as ([] & m1 & R1 & f & _ & _ & _ & H2).
  destruct (wp_nostop_ret _ _ _ H2) as ([] & m2 & R2 & g & W & Hne & _ & _ & Ht & _).
  exists m1, m2, f, g. split; [exact R1|]. split; [exact R2|]. split; [exact W|]. split; [exact Ht|exact Hne].
Defined.



Lemma two_frames : (2 <= size (frees demo))%nat.
Proof. pose proof demo_frames. lia. Qed.

Lemma first_frame : 512 ∈ frees demo.
Proof. change (512 ∈ free_set demo). apply demo_frees. left. Qed.

Lemma create_user_table_correct_witness : exists u m', create_user_table demo = Ret u m' /\ tlb m' = ∅.
Proof.
  destruct (wp_nostop_ret _ _ _ (create_user_table_correct demo_K 0x1000 512 demo demo_kernel_space first_frame ltac:(lia) two_frames))
    as (u & m' & Hrun & f & _ & _ & _ & _ & _ & _ & Ht).
  exists u, m'. split; [exact Hrun|exact Ht].
Defined.

Lemma kernel_main_faults_witness :
  exists m', kernel_main demo_kernel (KERNEL_BASE + 0x21000) (Z.of_nat (Datatypes.length demo_map)) boot_machine =
    Stop (PageFault (0x700000000000 - 0x68)) m'.
Proof.
  destruct user_program_loadable as (Hld & _ & _). destruct program_pages as (Hns & Hnb & _).
  destruct (wp_stops _ _ _ (kernel_main_faults demo_K demo_kernel demo_map user_program_elf [user_program_phdr] 0x11000
    boot_machine demo_boot_state Hld demo_enough Hns Hnb)) as (e & m' & Hrun & -> & _).
  exists m'. exact Hrun.
Defined.


(** ** Interrupts *)

Lemma irq_transparent_witness : exists c' m',
  interrupt demo_abi (boot_gdtr 0x7D00) demo_symbols 33 None 0 live_context live_machine = Ret c' m' /\
  gpr c' RBX = 7 /\ rip c' = KERNEL_BASE + 0x10123 /\ kbd (hw m') = [].
Proof.
  destruct (wp_nostop_ret _ _ _ (irq_transparent (QT := boot_space) demo_K demo_abi (boot_gdtr 0x7D00) demo_symbols 33 0 live_context 0x20FE0
    live_machine demo_abi_ok demo_linked live_kernel (or_intror eq_refl))) as (c' & m' & Hrun & [Hr Hip _ _ _] & Hs).
  exists c', m'. split; [exact Hrun|]. rewrite (Hr RBX), Hip, (ws_hw _ _ _ Hs). split_and!; reflexivity.
Defined.

Lemma exception_reported_witness :
  exists m', interrupt demo_abi (boot_gdtr 0x7D00) demo_symbols 14 (Some 2) 0 live_context live_machine = Stop Halted m' /\
    drawn (ram m') (at_xy 11 10) (text_cells 0x0C00 "Page Fault").
Proof.
  destruct (wp_stops _ _ _ (exception_reported (QT := boot_space) demo_K demo_abi (boot_gdtr 0x7D00) demo_symbols 14 (Some 2) 0 live_context
    0x20FE0 live_machine demo_abi_ok demo_linked demo_vga live_kernel ltac:(lia) ltac:(exists 2; split; [reflexivity|lia])))
    as (e & m' & Hrun & -> & _ & _ & Hd & _).
  exists m'. exact (conj Hrun Hd).
Defined.


Lemma paging_init_disarms_witness : exists m1 m2,
  paging_init live_machine = Ret tt m1 /\
  interrupt demo_abi (boot_gdtr 0x7D00) demo_symbols 33 None 0 live_context m1 = Stop Shutdown m2.
Proof.
  pose proof (paging_init_disarms demo_K 0x22000 demo_abi demo_symbols 0x7D00 live_machine live_kspace eq_refl) as H.
  specialize (H ltac:(lia) ltac:(unfold KWIN; lia) eq_refl ltac:(intros a Ha Hk; apply demo_ktab in Hk; unfold span in Ha; lia)).
  specialize (H demo_linked live_idt demo_sector).
  destruct (wp_nostop_ret _ _ _ H) as ([] & m1 & Hrun & Hi).
  destruct (wp_stops _ _ _ (Hi 33 None 0 live_context ltac:(lia))) as (e & m2 & Hrun2 & -> & _).
  exists m1, m2. exact (conj Hrun Hrun2).
Defined.

(** the state in which the program runs *)
Lemma running_stack : exists T root m tb pg f,
  uas T (tables_at demo_map) root (KERNEL_BASE + root) m tb pg /\ pg !! 0x700000000 = Some f.
Proof.
  destruct user_program_loadable as (Hld & _ & _). destruct program_pages as (Hns & Hnb & _).
  destruct (wp_stops _ _ _ (wp_kernel_main demo_K demo_kernel demo_map user_program_elf [user_program_phdr] 0x11000
    boot_machine (fun _ _ => False) demo_boot_state Hld demo_enough Hns Hnb)) as (e & m' & _ & [_ (T & root & tb & pg & Hu & Hp & _) _]).
  destruct (proj2 (Hp 0x700000000)) as [f Hf]; [right; reflexivity|]. exists T, root, m', tb, pg, f. exact (conj Hu Hf).
Qed.

Lemma syscall_stub_reports_witness :
  exists m m', exec demo_abi (boot_gdtr 0x7D00) syscall_stub_code (mk_context (fun _ => 0x700000001000) 0 0x18 0x2 0x20) m = Stop Halted m' /\
    drawn (ram m') VGA_PHYS (text_cells 0x0F00 syscall_message).
Proof.
  destruct running_stack as (T & root & m & tb & pg & f & Hu & Hf).
  destruct (wp_stops _ _ _ (syscall_stub_reports T (tables_at demo_map) root (KERNEL_BASE + root) demo_abi (boot_gdtr 0x7D00)
    (mk_context (fun _ => 0x700000001000) 0 0x18 0x2 0x20) m tb pg f demo_abi_ok Hu ltac:(cbn [gpr]; lia) eq_refl Hf))
    as (e & m' & Hrun & -> & Hd & _).
  exists m, m'. exact (conj Hrun Hd).
Defined.

(** ** The bootloader *)

Lemma init_pt_correct_witness :
  exists s', init_pt 0x8FFFC (repeat 7 8) (mk_pmode ∅ 0 0) = Ret (repeat 7 8) s' /\
    walk (pm_ram s') 0x1000 0xB8 = Some 0xB8000 /\ walk (pm_ram s') 0x1000 9 = None.
Proof.
  assert (Hr : Forall (fun v => 0 <= v < 2 ^ 32) (repeat 7 8)) by (cbn; zconst; repeat constructor; lia).
  destruct (wp_nostop_ret _ _ _ (init_pt_correct 0x8FFFC (repeat 7 8) (mk_pmode ∅ 0 0) eq_refl Hr ltac:(lia)))
    as (l & s' & Hrun & -> & _ & _ & _ & _ & Hv & Hw & _).
  exists s'. split; [exact Hrun|]. split; [exact Hv|]. rewrite Hw by lia. reflexivity.
Defined.

(** a BIOS that reports the entries of Demo.v, numbering them by the continuation *)
Definition demo_bios (_ : ram_t) (b : Z) : e820 :=
  match demo_map !! Z.to_nat b with
  | Some e => mk_e820 false SMAP (if b =? 2 then 0 else b + 1) (Some e)
  | None => mk_e820 true 0 0 None
  end.

Lemma demo_reports : reports demo_bios 0 demo_map.
Proof.
  eapply rep_next with (b' := 1); [discriminate|intros r; reflexivity|].
  eapply rep_next with (b' := 2); [discriminate|intros r; reflexivity|].
  apply rep_last. intros r. reflexivity.
Qed.

Lemma demo_range : Forall entry_range demo_map.
Proof. repeat constructor; cbn; zconst; lia. Qed.

Lemma get_mmap_correct_witness : exists r, get_mmap demo_bios 0x7D00 4 0x123 ∅ = Ret tt r /\ mmap_at r 0x21000 demo_map.
Proof.
  destruct (wp_nostop_ret _ _ _ (get_mmap_correct 0x7D00 demo_bios demo_map ∅ 0x123 ltac:(vm_compute; discriminate)
    demo_reports demo_range ltac:(cbn; lia) ltac:(lia) eq_refl)) as ([] & r & Hrun & Hm & _).
  exists r. exact (conj Hrun Hm).
Defined.

(** the floppy of the Makefile: 512-byte sectors, two reserved, two tables of nine, 18
    sectors to a track; the variables of the boot sector start at 0x7D00 *)
Definition floppy_ram : ram_t :=
  store 2 0x7C0B 512 (store 2 0x7C0E 2 (store 1 0x7C10 2 (store 2 0x7C11 224 (store 2 0x7C16 9 (store 2 0x7C18 18 ∅))))).

Lemma floppy_fat : fat_ok (bpb_of floppy_ram).
Proof. split; vm_compute; try split; reflexivity || discriminate. Qed.

Lemma disk_layout_correct_witness : exists r, disk_layout 0x7D00 floppy_ram = Ret tt r /\ load 2 r 0x7D10 = 34.
Proof.
  destruct (wp_nostop_ret _ _ _ (disk_layout_correct 0x7D00 floppy_ram ltac:(lia) floppy_fat)) as ([] & r & Hrun & _ & _ & Hd & _).
  exists r. exact (conj Hrun Hd).
Defined.

Lemma ToCHS_roundtrip_witness : exists r, ToCHS 0x7D00 1234 floppy_ram = Ret tt r /\
  (load 2 r 0x7D16 * 2 + load 2 r 0x7D14) * 18 + (load 2 r 0x7D18 - 1) = 1234.
Proof.
  destruct (wp_nostop_ret _ _ _ (ToCHS_roundtrip 0x7D00 1234 floppy_ram ltac:(lia) ltac:(lia) ltac:(vm_compute; split; reflexivity)))
    as ([] & r & Hrun & _ & _ & He).
  exists r. exact (conj Hrun He).
Defined.

(** the descriptor table of a boot sector whose variables start at 0x7D00 *)
Definition boot_floppy : ram_t := store 2 0x7D62 63 (store 4 0x7D64 0x7D22 (poke8 0x7D22 gdt_image floppy_ram)).

Lemma boot_floppy_assembled : assembled 0x7D00 boot_floppy.
Proof.
  split; [lia|vm_compute; discriminate| |vm_compute; reflexivity|vm_compute; reflexivity].
  intros i v Hi. do 8 (destruct i as [|i]; [injection Hi as <-; vm_compute; reflexivity|]). discriminate Hi.
Qed.

Lemma switch_protected_mode_correct_witness : exists gdtr r, switch_protected_mode 0x7D00 boot_floppy = Ret gdtr r /\
  decode <$> descriptor r gdtr 0x18 = Some (flat CODE 0 true).
Proof.
  destruct (wp_nostop_ret _ _ _ (switch_protected_mode_correct 0x7D00 boot_floppy boot_floppy_assembled))
    as (gdtr & r & Hrun & Hs & _).
  exists gdtr, r. split; [exact Hrun|]. destruct (Hs 0 ltac:(lia)) as (_ & _ & H & _). exact H.
Defined.

(** a floppy with a kernel in cluster 2, at sector 34: 4096 bytes, then the program; the
    root directory is at sector 20 *)
Definition demo_kernel_file : list Z := replicate (Z.to_nat 4096) 0x90 ++ user_program_elf.
Definition demo_head : list Z := replicate (Z.to_nat 0x283A) 0 ++ 2 :: 0 :: replicate (Z.to_nat 0x1BC4) 0.
Definition demo_disk : list Z := demo_head ++ demo_kernel_file ++ replicate (Z.to_nat 65024) 0.

Lemma demo_lengths : Z.of_nat (Datatypes.length demo_kernel_file) = 5024 /\ Z.of_nat (Datatypes.length demo_head) = 512 * 34 /\
  Z.of_nat (Datatypes.length demo_disk) = 87456.
Proof.
  assert (Hp : Datatypes.length user_program_elf = Z.to_nat 928) by reflexivity.
  unfold demo_disk, demo_head, demo_kernel_file. rewrite !length_app, !length_cons, !length_replicate, Hp. lia.
Qed.

(** a screen: the cursor at 0x450, characters and attributes from 0xB8000 *)
Definition demo_int10 (ax bx : Z) (r : ram_t) : ram_t :=
  let n := load 2 r 0x450 in
  if n <? 2000 then store 2 0x450 (n + 1) (store 1 (0xB8000 + 2 * n) ax r) else r.

Definition demo_shows (r : ram_t) (l : list Z) : Prop :=
  (Datatypes.length l <= 2000)%nat /\ load 2 r 0x450 = Z.of_nat (Datatypes.length l) /\
  forall i c, l !! i = Some c -> load 1 r (0xB8000 + 2 * Z.of_nat i) = c.

Definition demo_int13 (drive : Z) (chs : Z * Z * Z) (n : Z) : option (list Z) :=
  Some (sectors demo_disk ((chs.1.1 * 2 + chs.1.2) * 18 + (chs.2 - 1)) n).

Lemma demo_boot_disk : boot_disk demo_disk (bpb_of boot_floppy) 2 demo_kernel_file.
Proof.
  destruct demo_lengths as (Hk & Hh & Hd).
  assert (Hr : root_start (bpb_of boot_floppy) = 20) by reflexivity. assert (Hs : data_start (bpb_of boot_floppy) = 34) by reflexivity.
  assert (Ht : sectors_per_track (bpb_of boot_floppy) = 18) by reflexivity.
  apply mk_boot_disk; rewrite ?Hr, ?Hs, ?Ht, ?Hk, ?Hd; try lia.
  - exact floppy_fat.
  - unfold demo_disk, demo_head. rewrite <- app_assoc, drop_app_length'; [reflexivity|]. rewrite length_replicate. reflexivity.
  - eexists. apply drop_app_length'. lia.
  - unfold demo_disk, demo_head, demo_kernel_file. rewrite !Forall_app, !Forall_cons.
    split_and!; try (apply Forall_replicate); try lia.
    apply Forall_forall. intros v Hv. assert (H : forallb (fun v => (0 <=? v) && (v <? 256)) user_program_elf = true) by (vm_compute; reflexivity).
    rewrite forallb_forall in H. apply list_elem_of_In, H, andb_prop in Hv. lia.
Qed.

Lemma power_on_shuts_down_witness :
  exists gdtr l r s m, (start demo_int10 demo_int13 demo_bios 0x7D00 4 0 0 0 ;;; switch_protected_mode 0x7D00) boot_floppy = Ret gdtr r /\
    init_pt 0x8FFFC (repeat 0 8) (mk_pmode r 0 0) = Ret l s /\
    (args <- entry64 0x7D1A ;; kernel_main demo_kernel args.1.2 args.2) (switch_long_mode s demo_cpu boot_globals) =
      Stop (PageFault (0x700000000000 - 0x68)) m /\
    wp (interrupt demo_abi gdtr demo_symbols 14 (Some 0) 0 live_context) (fun _ _ => False) (fun e' _ => e' = Shutdown) m.
Proof.
  destruct user_program_loadable as (Hld & _ & _). destruct program_pages as (Hns & Hnb & Hn7).
  assert (Hr : Forall (fun v => 0 <= v < 2 ^ 32) (repeat 0 8)) by (cbn; zconst; repeat constructor; lia).
  assert (Hp : power_on 0x7D00 demo_int13 demo_bios 0 0 demo_disk 2 demo_kernel_file demo_kernel demo_map user_program_elf 4096
    boot_floppy demo_cpu boot_globals).
  { apply mk_power_on.
    - intros t h s n _ _ _ _ lba _. right. exact eq_refl.
    - exact demo_boot_disk.
    - exact demo_reports.
    - exact demo_range.
    - cbn. lia.
    - lia.
    - lia.
    - exact boot_floppy_assembled.
    - vm_compute. reflexivity.
    - exact demo_entries.
    - vm_compute. discriminate.
    - vm_compute. discriminate.
    - destruct demo_lengths as (-> & _). split; [lia|vm_compute; discriminate].
    - reflexivity.
    - exists []. rewrite app_nil_r. apply drop_app_length'. rewrite length_replicate. reflexivity.
    - cbn [syscall_stub demo_kernel]. zconst. lia.
    - reflexivity.
    - vm_compute. split; congruence.
    - reflexivity.
    - reflexivity.
    - cbn. lia. }
  pose proof (power_on_shuts_down 0x7D00 demo_int10 demo_int13 demo_bios 0 0 demo_disk 2 demo_kernel_file demo_kernel demo_map user_program_elf 4096
    [user_program_phdr] (repeat 0 8) boot_floppy demo_cpu boot_globals 0 0 Hp eq_refl Hr Hld demo_enough Hns Hnb Hn7 demo_linked) as H.
  destruct (wp_nostop_ret _ _ _ H) as (gdtr & r & Hrun & H1).
  destruct (wp_nostop_ret _ _ _ H1) as (l & s & Hrun1 & H2).
  destruct (wp_stops _ _ _ H2) as (e & m & Hrun2 & [-> _ _] & Hsh).
  exists gdtr, l, r, s, m. split; [exact Hrun|]. split; [exact Hrun1|]. split; [exact Hrun2|exact (Hsh demo_abi live_context)].
Defined.

Lemma demo_teletype : teletype demo_int10 demo_shows.
Proof.
  split.
  - intros r l c (_ & Hn & Hl) Hc Hlen. unfold demo_int10. rewrite Hn. rewrite (proj2 (Z.ltb_lt _ _)) by lia. split_and!.
    + rewrite length_app. cbn. lia.
    + rewrite load_store_eq, length_app. cbn [Datatypes.length]. rewrite Z.mod_small by (cbn; lia). lia.
    + intros i c' Hi. rewrite (load_store_ne 1 2) by (apply lookup_lt_Some in Hi; rewrite length_app in Hi; cbn in *; lia).
      apply lookup_snoc_Some in Hi as [[Hi Hc']|[-> <-]].
      * rewrite (load_store_ne 1 1) by (cbn; lia). by apply Hl.
      * rewrite load_store_eq. change (2 ^ (8 * Z.of_nat 1)) with 256. dlia.
  - intros ax bx r. unfold demo_int10. pose proof (load_range 2 r 0x450). destruct (Z.ltb_spec (load 2 r 0x450) 2000); [|reflexivity].
    etrans; [apply (agree_store _ 1 (0xB8000 + 2 * load 2 r 0x450) ax)|apply agree_store]; unfold bios_memory, span; cbn -[load]; lia.
  - intros r r' l Ha (H1 & H2 & H3). split_and!; [exact H1| |].
    + rewrite <- H2. apply load_agree. eapply agree_weaken; [exact Ha|]. unfold bios_memory, span. cbn. lia.
    + intros i c Hi. rewrite <- (H3 i c Hi). apply load_agree. eapply agree_weaken; [exact Ha|].
      apply lookup_lt_Some in Hi. unfold bios_memory, span. cbn. lia.
Qed.

(** no disk answers *)
Definition message_floppy : ram_t := poke_bytes 0x7D00 (disk_error_message ++ [0]) boot_floppy.

Lemma message_floppy_bytes : bytes_at message_floppy 0x7D00 (disk_error_message ++ [0]).
Proof.
  intros i Hi. change (Z.of_nat (Datatypes.length (disk_error_message ++ [0]))) with 11 in Hi.
  assert (H : forallb (fun i => rd message_floppy (0x7D00 + i) =? nth (Z.to_nat i) (disk_error_message ++ [0]) 0) (seqZ 0 11) = true)
    by (vm_compute; reflexivity).
  rewrite forallb_forall in H. apply Z.eqb_eq, H, list_elem_of_In, elem_of_seqZ. lia.
Qed.

Lemma disk_errors_reported_witness : exists r, start demo_int10 (fun _ _ _ => None) demo_bios 0x7D00 4 0 0 0 message_floppy = Stop Halted r /\
  demo_shows r disk_error_message.
Proof.
  pose proof (disk_errors_reported 0x7D00 demo_int10 demo_shows (fun _ _ _ => None) demo_bios 0 0 2 demo_disk demo_kernel_file demo_map []
    message_floppy ltac:(lia) ltac:(vm_compute; discriminate) demo_teletype) as H.
  specialize (H ltac:(intros t h s n _ _ _ _ lba _; left; exact (conj I eq_refl)) demo_boot_disk demo_reports demo_range).
  specialize (H ltac:(cbn; lia) ltac:(lia) ltac:(lia) ltac:(vm_compute; reflexivity) message_floppy_bytes).
  specialize (H ltac:(split_and!; [cbn; lia|vm_compute; reflexivity|discriminate]) ltac:(cbn; lia)).
  unfold wp in H. change (S (Datatypes.length demo_map)) with 4%nat in H.
  destruct (start demo_int10 (fun _ _ _ => None) demo_bios 0x7D00 4 0 0 0 message_floppy) as [[] r|e r] eqn:Hrun.
  - vm_compute in Hrun. discriminate Hrun.
  - destruct H as (-> & Hs & _). exists r. exact (conj eq_refl Hs).
Defined.

(** a file with one loadable segment, written by the tables of the ABI *)
Definition written_choice : elf_choice := mk_elf_choice 2 0x400078 64 0 0 1 0 0.
Definition written_segments : list (phdr * (Z * Z)) := [(mk_phdr 1 5 0 0x400000 0x80 0x80, (0x400000, 0x1000))].
Definition written_body : list Z := repeat 0x90 8.

